(* ===== verification/_CoqProject ===== *)
-Q . S2P
Prelude.v
JsString.v
JsSet.v
Dates.v
Json.v
Html.v
Types.v
Http.v
Routing.v
SharedUi.v
AsyncState.v
Polling.v
WebSocketStream.v
InvestigationStream.v
TwoKey.v
InvestigationContext.v
AlertRules.v
NetworkMap.v
Scripts.v
Hosts.v
Isolation.v
Dashboard.v
AgentWidgets.v
CommandCenter.v
MessageStore.v
Sockets.v
AgentChat.v
Playbooks.v
Settings.v
Gate.v
ActiveIncidents.v
ClosedIncidents.v
WarRoom.v
IocSearch.v
ThreatFeeds.v
Assets.v
Vulnerabilities.v
EdrLogs.v
Layouts.v
TokenApi.v
TraceFeed.v
ResiliencePanel.v
ChatPanel.v
InvestigationGraph.v
ThreatIntel.v
Marketplace.v
Overview.v
Compliance.v
Executive.v
Utilities.v
Documentation.v
EventMeta.v
