(* ===== verification/Prelude.v ===== *)
(** * Verification of the SOC console

    The program is the browser console of a security operations platform
    ([soc-frontend/src], TypeScript and React).  It loads records from a
    backend over HTTP, follows live streams over WebSockets, shows them, and
    sends the analyst's decisions back: disabling detection rules, isolating
    hosts, executing containment actions, rotating credentials.  This library
    models the console's hooks, stores, widgets and pages as executable
    definitions and proves what they guarantee, and where they do not.

    ** How a component is modelled

    A component is a state record, an inductive type of events, and a handler
    [event -> state -> state * list effect].  An effect is what leaves the
    component: a request, a navigation, a dialog box.  A handler that awaits
    is two definitions: the part before the [await], which leaves a ticket
    with the values its closure captured, and the continuation, which runs
    when the answer event names the ticket ([Html.flight]).  Answers arrive
    in any order, with any outcome.  What the component shows is a function
    from the state to a tree ([Html.html]); an event is possible when the
    tree offers it ([Html.offers], through an enabled button, a field, a
    select box), when its ticket is pending, or when it comes from outside
    (timers, streams, mounting).  [Html.run] is the executions, and the
    safety theorems hold of all of them.  The texts and the classes that
    depend on the state are kept; static class names and icons are not.

    ** Files

    - [Prelude]: automation, nullish and falsy values, stable sorting.
    - [JsString]: strings, trimming, case, search, URL encoding and decoding.
    - [JsSet]: the [Set]s of identifiers of the pages, and counting by key.
    - [Dates]: [Date.parse], [toISOString], [Number], and binary64
      percentages (the Standard Library's [SpecFloat]).
    - [Json]: [JSON.parse], and [JSON.stringify] of what the pages store.
    - [Html]: rendered trees, the event loop, requests in flight.
    - [Types]: [types/index.ts], [shared/types/index.ts].
    - [Http]: [apiClient.ts], [tokenService.ts], [ProtectedRoute.tsx],
      [Login.tsx].
    - [Routing]: [routes.ts], [navigation.ts], [App.tsx].
    - [SharedUi]: [shared/ui], [shared/theme].
    - [AsyncState], [Polling], [WebSocketStream], [InvestigationStream]: the
      hooks of [shared/hooks] and [hooks].
    - [TwoKey]: [TwoKeyModal/index.tsx].
    - [InvestigationContext]: the investigation store.
    - [AlertRules], [NetworkMap], [Hosts], [Isolation]: the pages
      [AlertRulesPage.tsx], [NetworkMapPage.tsx], [HostManagementPage.tsx],
      [IsolationControlsPage.tsx]; [Scripts] holds the six launch scripts of
      the enrolment dialog and readers for their languages.
    - [Dashboard], [AgentWidgets], [CommandCenter], [AgentChat]: the
      components of [features/investigations/ui].
    - [InvestigationGraph], [ThreatIntel]: [InvestigationGraph.tsx],
      [ThreatIntelPanel.tsx].
    - [MessageStore], [Sockets]: what the chats and the widgets share, message
      objects with identity and the sockets of one component.
    - [TraceFeed], [ResiliencePanel], [ChatPanel]: [features/agent-ops].
    - [Playbooks]: [PlaybookContext.tsx], [PlaybookSandbox.tsx].
    - [Gate]: the interface of the components that guard destructive
      requests, with the trace theorem proved against it.
    - [ActiveIncidents], [ClosedIncidents], [WarRoom]: [pages/incidents]; the
      war room runs over the machine of [WebSocketStream].
    - [IocSearch], [ThreatFeeds]: [IocSearchPage.tsx], [ThreatFeedsPage.tsx].
    - [Assets], [Vulnerabilities]: [AssetInventoryPage.tsx],
      [VulnerabilitiesPage.tsx].
    - [EdrLogs]: [EdrLogsPage.tsx].
    - [Layouts]: [MainLayout.tsx], [Sidebar.tsx], [CommandPalette.tsx],
      [NotificationCenter.tsx], one machine because they share one state.
    - [TokenApi]: [useAuthApi.ts], [useSystemMetrics.ts].
    - [Overview], [Compliance], [Executive]: [pages/dashboards].
    - [Utilities]: the routed pages of [pages/utilities],
      [UnauthorizedPage.tsx], and two static pages without a route.
    - [Settings], [Marketplace]: the larger pages of [pages/settings] and
      [pages/marketplace], to which no route leads.
    - [Documentation]: [DocumentationPage.tsx], texts and programs included.
    - [EventMeta]: [eventMeta.ts].

    ** What the theorems show

    - Destructive requests ([TwoKey], [AlertRules], [InvestigationContext],
      [Isolation], [Settings], [Gate]): they are sent only by the
      confirmation of a dialog for that very target with its name or phrase
      typed, in every execution; four components implement the interface of
      [Gate].  The exceptions are the dashboard ([Dashboard]), which posts any
      action with one click, and the response actions of the map
      ([NetworkMap]), which are sent without a second key; the theorems there
      say so.
    - Hooks: polling refines an abstract poller with one request or timer;
      the socket hook has one chain per instance and a bounded backoff; the
      stream keeps the last 1000 messages; loading is a function of the
      outcomes as long as loads do not overlap.
    - Sessions: protected routes need a confirmed session; the refused path
      survives the login round trip; the second client sends a token exactly
      while it is valid and reads an ASCII payload exactly, others garbled
      ([TokenApi]); every navigation by the controls of the frame leads to a
      registered page ([Layouts]).
    - Data: the findings of a node, the blast radius, the alert list, the
      engine status, the compliance figure, the census of root causes, the
      risk order of vulnerabilities, the ownership flags of assets, the alert
      queue and the activity feed of the overview and the trends of the
      executive page meet their specifications, in every execution where they
      can change.
    - Forms: feeds, remediation tasks and report deliveries are sent only
      from the open form, with the choices it offers and the fields the
      browser requires, and an export runs at most once at a time.
    - Stored and exported texts: recent searches and saved hunts read back to
      what is on the screen ([Json]); the exported table reads back from its
      data URL unless a field holds a separator; the log of the war room
      is append-only and the archive changes only through its dialogs.
    - Requests follow the screen: the event log is always asked for with the
      hosts shown, although its effect depends on the identity of an array
      ([EdrLogs]); a pending search of the palette always ends ([Layouts]).
    - Shared mutable state: the message objects of both chats refine a
      transcript of values when updaters run once.
    - Streams and queues: within a session, batching the updates of the
      investigation graph is the same as applying each on arrival, and it
      keeps identifiers unique; between two history frames the trace feed
      shows the live events it receives once and in order, in a window of
      500, when updaters run once, and every pause leaves one more connection
      behind; a node of the resilience panel shows its own last event with a
      latency, in bars that stay within their track; the chat panel has one
      connection.
    - Programs handed out: every launch script, read as its language reads
      it, enrols with the token it was given ([Scripts], [Hosts]); each of the
      twelve programs has three lines with a request of the life cycle, in
      the documented order ([Documentation]).
    - The error theorems exhibit executions in which the code does not do
      what it means to: leaked or wrongly cleared sockets, stale closures,
      races of requests, repeated clicks, an inverted order, links without a
      route, names that never match, controls that disappear or stay stuck,
      changes that a reload forgets.

    ** Bounds and fuel

    Two loops have fuel.  The blast radius ([NetworkMap.bfs]) has one step
    per edge end and one for the start, and the theorem proves that it always
    suffices.  [Json.json_parse] has one more than the length of the text, and
    [Json.json_roundtrip] shows that this is enough for every text printed.
    The comparison of the double percentage with exact rounding is checked
    for all fleets below 100 hosts, and that the colour of a latency bar tells
    its width for all whole milliseconds up to two seconds, the width of a full
    bar.  Numbers are integers
    where the interfaces hold counts, scores and milliseconds, rationals in
    the geometry of the map, the scores drawn at random and the shares of the
    charts, and binary64 where rounding is shown and for latencies.  Rationals
    also stand for the doubles of the expiry of a token and of the risk
    scores.  Texts are UTF-8 byte strings, trimmed of ASCII white space;
    [TokenApi] has the Latin-1 strings of [atob].  [Math.random] is a
    parameter between 0 and 1, the clock is part of the event that reads it.

    ** What is not modelled

    The backend, the Go ingestion service, the endpoint agent and the
    deployment files (other programs); the React scheduler beyond the order
    of effects the code relies on; the force-graph, router and HTTP
    libraries, whose inputs or outcomes appear instead; locale formats, which
    are parameters of the views; icons and static class names.  The languages
    of the launch scripts are modelled as far as the scripts need them:
    string literals, quoted words of the shell and JSON bodies.  The second
    investigation stream hook is the same code as the first.  [mockData.ts]
    holds sample records that nothing imports. *)
From Stdlib Require Export ZArith Lia Ascii.
From stdpp Require Export base list option numbers sorting strings pretty sets gmap decidable.
Export stdpp.list.

(** * Shared tactics and hint databases *)

Create HintDb soc.

(** Split conjunctions, destruct the conditionals of the goal and close. *)
Ltac destr_if :=
  repeat match goal with
  | |- context [if ?b then _ else _] => destruct b eqn:?
  | |- context [match ?o with Some _ => _ | None => _ end] => destruct o eqn:?
  end.

Ltac destr_if_in H :=
  repeat match type of H with
  | context [if ?b then _ else _] => destruct b eqn:?
  | context [match ?o with Some _ => _ | None => _ end] => destruct o eqn:?
  end.

(** Turn boolean hypotheses and goals into propositions. *)
Ltac bool_to_prop :=
  repeat match goal with
  | H : _ && _ = true |- _ => apply andb_true_iff in H as [? ?]
  | H : _ || _ = false |- _ => apply orb_false_iff in H as [? ?]
  | H : negb _ = true |- _ => apply negb_true_iff in H
  | H : negb _ = false |- _ => apply negb_false_iff in H
  | H : bool_decide _ = true |- _ => apply bool_decide_eq_true_1 in H
  | H : bool_decide _ = false |- _ => apply bool_decide_eq_false_1 in H
  | H : Is_true _ |- _ => apply Is_true_true_1 in H
  end.

(** Case analysis on membership in a literal list; closes impossible cases. *)
Ltac elem_inv H :=
  simpl in H;
  repeat (apply elem_of_cons in H as [H|H]; [try discriminate H; simplify_eq|]);
  try (by apply not_elem_of_nil in H).

Ltac no_effect := solve [let H := fresh "H" in simpl; intros H; elem_inv H].

Ltac finish := simplify_eq/=; try done; try lia; eauto with soc.

(** * JavaScript truthiness of optional values *)

(** [l.slice(-n)]: the last [n] elements. *)
Definition last_n {A} (n : nat) (l : list A) : list A := drop (length l - n) l.

Lemma last_n_length {A} n (l : list A) : length (last_n n l) <= n.
Proof. unfold last_n. rewrite length_drop. lia. Qed.

Lemma last_n_app {A} n (l k : list A) : last_n n (last_n n l ++ k) = last_n n (l ++ k).
Proof.
  unfold last_n. rewrite !length_app, !drop_app, drop_drop, !length_drop. f_equal; f_equal; lia.
Qed.


(** [x ?? d] on a nullable value. *)
Definition nullish {A} (x : option A) (d : A) : A := default d x.

(** [a || b] on nullable booleans and numbers, where [0], [false] and
    [undefined] are falsy. *)
Definition or_bool (x : option bool) (d : bool) : bool :=
  match x with Some true => true | _ => d end.

Definition or_num (x : option Z) (d : Z) : Z :=
  match x with Some n => if bool_decide (n = 0%Z) then d else n | None => d end.

(** * Stable sorting: [Array.prototype.sort] with a key comparator

    Every comparator of the sources has the form [key(b) - key(a)]
    (descending) or [key(a) - key(b)] (ascending) over numbers, and
    [Array.prototype.sort] is stable, so it is insertion sort on the key. *)
Section Sort.
Context {A : Type}.
Implicit Types (l : list A) (x y : A).

Section Cmp.
Context (cmp : A -> A -> Z).

Fixpoint sort_insert x l : list A :=
  match l with
  | [] => [x]
  | y :: l' => if (cmp x y <=? 0)%Z then x :: l else y :: sort_insert x l'
  end.

Fixpoint js_sort l : list A :=
  match l with
  | [] => []
  | x :: l' => sort_insert x (js_sort l')
  end.

Lemma sort_insert_perm x l : sort_insert x l ≡ₚ x :: l.
Proof.
  induction l as [|y l IH]; simpl; [done|].
  destruct (cmp x y <=? 0)%Z; [done|]. rewrite IH. apply Permutation_swap.
Qed.

Lemma js_sort_perm l : js_sort l ≡ₚ l.
Proof. induction l as [|x l IH]; simpl; [done|]. by rewrite sort_insert_perm, IH. Qed.

Lemma js_sort_elem x l : x ∈ js_sort l <-> x ∈ l.
Proof. by rewrite js_sort_perm. Qed.

Lemma js_sort_length l : length (js_sort l) = length l.
Proof. by rewrite js_sort_perm. Qed.
End Cmp.

(** Comparators of the form [key a - key b]. *)
Context (key : A -> Z).

Definition by_key_asc x y : Z := (key x - key y)%Z.
Definition by_key_desc x y : Z := (key y - key x)%Z.

Definition key_ge x y : Prop := (key y <= key x)%Z.
Definition key_le x y : Prop := (key x <= key y)%Z.

Section Generic.
(** [R] is the order the comparator decides. *)
Context (cmp : A -> A -> Z) (R : A -> A -> Prop).
Context (cmp_R : forall x y, (cmp x y <= 0)%Z <-> R x y).
Context (R_total : forall x y, R x y \/ R y x).
Context (R_trans : forall x y z, R x y -> R y z -> R x z).

Lemma sort_insert_sorted x l :
  StronglySorted R l -> StronglySorted R (sort_insert cmp x l).
Proof.
  induction 1 as [|y l Hl IH Hy]; simpl; [by repeat constructor|].
  destruct (Z.leb_spec (cmp x y) 0) as [Hle|Hgt].
  - apply cmp_R in Hle. constructor; [by constructor|].
    constructor; [done|]. eapply Forall_impl; [exact Hy|]. eauto.
  - constructor; [done|]. rewrite sort_insert_perm. constructor; [|done].
    destruct (R_total x y) as [H|H]; [|done]. apply cmp_R in H; lia.
Qed.

Lemma js_sort_sorted_gen l : StronglySorted R (js_sort cmp l).
Proof. induction l; simpl; [constructor|]. by apply sort_insert_sorted. Qed.

(** Stability: the elements of one equivalence class keep their order. *)
Lemma sort_insert_filter (P : A -> Prop) `{!forall a, Decision (P a)} x l :
  (forall y, P x -> P y -> R x y) ->
  filter P (sort_insert cmp x l) = filter P (x :: l).
Proof.
  intros HP. induction l as [|y l IH]; simpl; [done|].
  destruct (Z.leb_spec (cmp x y) 0) as [Hle|Hgt]; [done|].
  rewrite filter_cons, IH, !filter_cons.
  destruct (decide (P x)) as [Hx|], (decide (P y)) as [Hy|]; try done.
  apply (HP y Hx) in Hy. apply cmp_R in Hy. lia.
Qed.

Lemma js_sort_stable_gen (P : A -> Prop) `{!forall a, Decision (P a)} l :
  (forall x y, P x -> P y -> R x y) ->
  filter P (js_sort cmp l) = filter P l.
Proof.
  intros HP. induction l as [|x l IH]; simpl; [done|].
  rewrite sort_insert_filter by eauto. by rewrite !filter_cons, IH.
Qed.
End Generic.

Lemma js_sort_desc_sorted l : StronglySorted key_ge (js_sort by_key_desc l).
Proof.
  apply js_sort_sorted_gen; unfold by_key_desc, key_ge; intros; lia.
Qed.

Lemma js_sort_asc_sorted l : StronglySorted key_le (js_sort by_key_asc l).
Proof.
  apply js_sort_sorted_gen; unfold by_key_asc, key_le; intros; lia.
Qed.

Lemma js_sort_desc_stable k l :
  filter (fun a => key a = k) (js_sort by_key_desc l) = filter (fun a => key a = k) l.
Proof.
  apply js_sort_stable_gen with (R := key_ge); unfold by_key_desc, key_ge; intros; lia.
Qed.

(** The head of a descending sort has the greatest key. *)
Lemma js_sort_desc_head l x l' y :
  js_sort by_key_desc l = x :: l' -> y ∈ l -> (key y <= key x)%Z.
Proof.
  intros E Hy. pose proof (js_sort_desc_sorted l) as Hs. rewrite E in Hs.
  apply (js_sort_elem by_key_desc) in Hy. rewrite E in Hy.
  apply elem_of_cons in Hy as [->|Hy]; [done|].
  apply StronglySorted_inv in Hs as [_ Hx].
  rewrite Forall_forall in Hx. by apply Hx.
Qed.

Lemma js_sort_nil_inv cmp l : js_sort cmp l = [] -> l = [].
Proof. intros E. apply Permutation_nil_r. by rewrite <- E, js_sort_perm. Qed.
End Sort.

#[export] Hint Resolve js_sort_desc_sorted js_sort_asc_sorted : soc.

(** * Lists *)
Section Lists.
Context {A : Type}.
Implicit Types (l : list A).

Lemma list_filter_comm (P Q : A -> Prop)
    `{!forall x, Decision (P x)} `{!forall x, Decision (Q x)} l :
  filter P (filter Q l) = filter Q (filter P l).
Proof.
  induction l as [|x l IH]; [done|].
  rewrite !filter_cons. repeat case_decide; rewrite ?filter_cons;
    repeat case_decide; congruence || done.
Qed.

Lemma list_filter_none (P : A -> Prop) `{!forall x, Decision (P x)} l :
  Forall (fun x => ~ P x) l -> filter P l = [].
Proof.
  induction 1 as [|x l Hx _ IH]; [done|]. by rewrite filter_cons, decide_False.
Qed.

Lemma list_filter_all_id (P : A -> Prop) `{!forall x, Decision (P x)} l :
  Forall P l -> filter P l = l.
Proof.
  induction 1 as [|x l Hx _ IH]; [done|]. by rewrite filter_cons, decide_True, IH.
Qed.

Lemma Forall_weaken (P Q : A -> Prop) l :
  Forall P l -> (forall x, P x -> Q x) -> Forall Q l.
Proof. induction 1; constructor; auto. Qed.

(** Distinct keys identify the elements. *)
Lemma NoDup_fmap_inj {K} (f : A -> K) l x y :
  NoDup (f <$> l) -> x ∈ l -> y ∈ l -> f x = f y -> x = y.
Proof.
  intros Hnd [i Hi]%list_elem_of_lookup [j Hj]%list_elem_of_lookup E.
  assert (i = j) as ->; [|congruence].
  eapply NoDup_lookup; [exact Hnd| |]; rewrite list_lookup_fmap.
  - by rewrite Hi.
  - by rewrite Hj, E.
Qed.

Lemma NoDup_fmap_filter {K} (f : A -> K) (P : A -> Prop) `{!forall x, Decision (P x)} l :
  NoDup (f <$> l) -> NoDup (f <$> filter P l).
Proof. intros Hnd. eapply sublist_NoDup; [exact Hnd|]. apply fmap_sublist, sublist_filter. Qed.
(** Removing the element with a given identifier, up to permutation. *)
Lemma drop_perm (f : A -> nat) l x :
  NoDup (f <$> l) -> x ∈ l -> l ≡ₚ x :: filter (fun y => f y <> f x) l.
Proof.
  induction l as [|y l IH]; [by intros _ ?%not_elem_of_nil|].
  rewrite fmap_cons. intros [Hy Hl]%NoDup_cons [->|Hx]%elem_of_cons; rewrite filter_cons.
  - rewrite decide_False by (intros H; by apply H). f_equiv.
    rewrite list_filter_all_id; [done|]. apply Forall_forall. intros z Hz E.
    apply Hy. rewrite <- E. by apply list_elem_of_fmap_2.
  - rewrite decide_True.
    + rewrite Permutation_swap. f_equiv. by apply IH.
    + intros E. apply Hy. rewrite E. by apply list_elem_of_fmap_2.
Qed.

Lemma Forall_filter_sub (P Q : A -> Prop) `{!forall x, Decision (Q x)} l :
  Forall P l -> Forall P (filter Q l).
Proof. rewrite !Forall_forall. intros Hall x [_ Hx]%list_elem_of_filter. auto. Qed.

Lemma NoDup_snoc_fresh (f : A -> nat) l x n :
  NoDup (f <$> l) -> Forall (fun y => f y < n) l -> f x = n -> NoDup (f <$> (l ++ [x])).
Proof.
  intros H1 H2 E. rewrite fmap_app. apply NoDup_app. split; [done|].
  split; [|apply NoDup_singleton]. intros c Hc Hc'%list_elem_of_singleton.
  apply list_elem_of_fmap in Hc as (y & -> & Hy). rewrite Forall_forall in H2.
  specialize (H2 y Hy). simpl in *. lia.
Qed.
End Lists.
