(* ===== verification/JsString.v ===== *)
(** * JavaScript strings

    The string operations the console uses: [trim], [toLowerCase],
    [includes], [startsWith], [replace(/_/g, ' ')], [split], [join],
    [encodeURIComponent] and [URLSearchParams.get].  A string is the
    sequence of its UTF-8 bytes; case mapping and white space are those of
    ASCII. *)
From S2P Require Import Prelude.

#[global] Arguments String.append !_ _ / : simpl nomatch.

Lemma append_assoc (s t u : string) : (s +:+ t) +:+ u = s +:+ t +:+ u.
Proof. induction s as [|a s IH]; simpl; [done|]. by rewrite IH. Qed.

Lemma append_nil_r (s : string) : s +:+ EmptyString = s.
Proof. induction s as [|a s IH]; simpl; [done|]. by rewrite IH. Qed.

Lemma append_inj_l (s t u : string) : s +:+ t = s +:+ u -> t = u.
Proof. induction s as [|a s IH]; simpl; [done|]. intros; simplify_eq; auto. Qed.

Lemma append_inj_r (s t u : string) : s +:+ u = t +:+ u -> s = t.
Proof.
  assert (Hl : forall x, String.length (x +:+ u) = String.length x + String.length u)
    by (intros x; induction x; simpl; lia).
  revert t. induction s as [|a s IH]; intros [|b t] H; simplify_eq/=; [done|..|f_equal; by apply IH];
    apply (f_equal String.length) in H; simpl in H; rewrite Hl in H; lia.
Qed.

(** A falsy string is [undefined], [null] or [""]. *)
Definition truthy_str (s : option string) : bool :=
  match s with Some s => negb (bool_decide (s = EmptyString)) | None => false end.

(** [s || d] *)
Definition or_str (s : option string) (d : string) : string :=
  match s with
  | Some s => if bool_decide (s = EmptyString) then d else s
  | None => d
  end.

Lemma or_str_nonempty s d : d <> EmptyString -> or_str s d <> EmptyString.
Proof. unfold or_str. intros; destr_if; bool_to_prop; done. Qed.

(** ** White space and [String.prototype.trim] *)
Definition is_space (a : ascii) : bool :=
  let n := nat_of_ascii a in ((9 <=? n) && (n <=? 13)) || (n =? 32).

Fixpoint trim_start (s : string) : string :=
  match s with
  | EmptyString => EmptyString
  | String a s' => if is_space a then trim_start s' else s
  end.

Fixpoint trim_end (s : string) : string :=
  match s with
  | EmptyString => EmptyString
  | String a s' =>
      match trim_end s' with
      | EmptyString => if is_space a then EmptyString else String a EmptyString
      | t => String a t
      end
  end.

Definition trim (s : string) : string := trim_end (trim_start s).

(** Strings without leading or trailing white space. *)
Definition first_char (s : string) : option ascii :=
  match s with EmptyString => None | String a _ => Some a end.

Fixpoint last_char (s : string) : option ascii :=
  match s with
  | EmptyString => None
  | String a s' => match s' with EmptyString => Some a | _ => last_char s' end
  end.

Definition trimmed (s : string) : Prop :=
  (forall a, first_char s = Some a -> is_space a = false) /\
  (forall a, last_char s = Some a -> is_space a = false).

Lemma trim_end_last s a : last_char (trim_end s) = Some a -> is_space a = false.
Proof.
  induction s as [|b s IH]; simpl; [done|].
  destruct (trim_end s) as [|c t] eqn:E; [|intros H; by apply IH].
  destruct (is_space b) eqn:Eb; simpl; intros H; simplify_eq; done.
Qed.

Lemma trim_end_first s a :
  first_char (trim_end s) = Some a -> first_char s = Some a.
Proof.
  destruct s as [|b s]; simpl; [done|].
  destruct (trim_end s); [destruct (is_space b)|]; simpl; intros; simplify_eq; done.
Qed.

Lemma trim_start_first s a : first_char (trim_start s) = Some a -> is_space a = false.
Proof.
  induction s as [|b s IH]; simpl; [done|].
  destruct (is_space b) eqn:Eb; [done|]. simpl. intros; by simplify_eq.
Qed.

Lemma trim_trimmed s : trimmed (trim s).
Proof.
  split; intros a H.
  - apply trim_end_first in H. by apply trim_start_first in H.
  - by apply trim_end_last in H.
Qed.

Lemma trim_start_id s :
  (forall a, first_char s = Some a -> is_space a = false) -> trim_start s = s.
Proof. destruct s as [|a s]; simpl; [done|]. intros H. by rewrite (H a). Qed.

Lemma trim_end_id s :
  (forall a, last_char s = Some a -> is_space a = false) -> trim_end s = s.
Proof.
  induction s as [|a s IH]; [done|]. intros H. cbn [trim_end].
  destruct s as [|b s].
  - simpl. by rewrite (H a).
  - rewrite IH; [done|]. intros c Hc. by apply H.
Qed.

Lemma trim_id s : trimmed s -> trim s = s.
Proof. intros [H1 H2]. unfold trim. rewrite trim_start_id by done. by apply trim_end_id. Qed.

Lemma trim_idemp s : trim (trim s) = trim s.
Proof. apply trim_id, trim_trimmed. Qed.

(** Only a trimmed string can be matched by a trimmed input. *)
Lemma trim_eq_trimmed s t : trim s = t -> trimmed t.
Proof. intros <-. apply trim_trimmed. Qed.

(** ** Case mapping *)
Definition lower_char (a : ascii) : ascii :=
  let n := nat_of_ascii a in
  if (65 <=? n) && (n <=? 90) then ascii_of_nat (n + 32) else a.

Definition upper_char (a : ascii) : ascii :=
  let n := nat_of_ascii a in
  if (97 <=? n) && (n <=? 122) then ascii_of_nat (n - 32) else a.

Fixpoint string_map (f : ascii -> ascii) (s : string) : string :=
  match s with
  | EmptyString => EmptyString
  | String a s' => String (f a) (string_map f s')
  end.

Definition to_lower : string -> string := string_map lower_char.
Definition to_upper : string -> string := string_map upper_char.

(** [s.replace(/_/g, ' ')] *)
Definition unscore (s : string) : string :=
  string_map (fun a => if bool_decide (a = "_"%char) then " "%char else a) s.


(** ** Substring search *)
Fixpoint starts_with (p s : string) : bool :=
  match p, s with
  | EmptyString, _ => true
  | String a p', String b s' => bool_decide (a = b) && starts_with p' s'
  | _, _ => false
  end.

Fixpoint includes (p s : string) : bool :=
  starts_with p s ||
  match s with EmptyString => false | String _ s' => includes p s' end.

Lemma starts_with_spec p s : starts_with p s = true <-> exists t, s = p +:+ t.
Proof.
  revert s. induction p as [|a p IH]; intros s.
  { split; [|done]. intros _. by exists s. }
  destruct s as [|b s]; simpl; [split; [done|by intros [? ?]]|].
  rewrite andb_true_iff, bool_decide_eq_true, IH. split.
  - intros [-> [t ->]]. by exists t.
  - intros [t Ht]. simplify_eq. eauto.
Qed.

Lemma includes_spec p s : includes p s = true <-> exists u t, s = u +:+ p +:+ t.
Proof.
  induction s as [|b s IH]; cbn [includes]; rewrite orb_true_iff, starts_with_spec; split.
  - intros [[t ->]|]; [|done]. by exists EmptyString, t.
  - intros (u & t & E). left. destruct u; [|done]. by exists t.
  - intros [[t ->]|(u & t & ->)%IH]; [by exists EmptyString, t|by exists (String b u), t].
  - intros (u & t & E). destruct u as [|c u]; simpl in E; simplify_eq.
    + left. by exists t.
    + right. apply IH. by exists u, t.
Qed.

Lemma includes_empty s : includes EmptyString s = true.
Proof. by destruct s. Qed.

(** ** Decimal rendering of integers in template literals *)
Definition of_Z (n : Z) : string := pretty n.
Definition of_nat_str (n : nat) : string := of_Z (Z.of_nat n).

(** [toFixed(1)] of a number of tenths that is not negative. *)
Definition fixed1 (t : Z) : string := of_Z (t / 10) +:+ "." +:+ of_Z (t mod 10).

(** [xs.join(sep)] *)
Fixpoint join (sep : string) (xs : list string) : string :=
  match xs with
  | [] => EmptyString
  | [x] => x
  | x :: xs' => x +:+ sep +:+ join sep xs'
  end.

Lemma join_cons2 sep x y l : join sep (x :: y :: l) = x +:+ sep +:+ join sep (y :: l).
Proof. done. Qed.

(** The line break. *)
Definition newline : ascii := ascii_of_nat 10.
Definition nl : string := String newline EmptyString.

(** ** [encodeURIComponent] and [URLSearchParams]

    [uri_unreserved] is the set of characters [encodeURIComponent] keeps;
    every other byte becomes [%XX]. *)
Definition is_alnum (n : nat) : bool :=
  ((48 <=? n) && (n <=? 57)) || ((65 <=? n) && (n <=? 90)) || ((97 <=? n) && (n <=? 122)).

Definition uri_unreserved (a : ascii) : bool :=
  let n := nat_of_ascii a in
  is_alnum n || existsb (Nat.eqb n) [45; 95; 46; 33; 126; 42; 39; 40; 41].

Definition hex_digit (n : nat) : ascii :=
  ascii_of_nat (if n <? 10 then 48 + n else 55 + n).

Definition hex_val (a : ascii) : option nat :=
  let n := nat_of_ascii a in
  if (48 <=? n) && (n <=? 57) then Some (n - 48)
  else if (65 <=? n) && (n <=? 70) then Some (n - 55)
  else if (97 <=? n) && (n <=? 102) then Some (n - 87)
  else None.

Fixpoint encodeURIComponent (s : string) : string :=
  match s with
  | EmptyString => EmptyString
  | String a s' =>
      let r := encodeURIComponent s' in
      if uri_unreserved a then String a r
      else String "%" (String (hex_digit (nat_of_ascii a / 16))
                              (String (hex_digit (nat_of_ascii a mod 16)) r))
  end.

(** Form decoding of a query component: [+] is a space, [%XX] a byte, and a
    stray percent sign stays. *)
Fixpoint form_decode (s : string) : string :=
  match s with
  | EmptyString => EmptyString
  | String a s' =>
      if bool_decide (a = "+"%char) then String " " (form_decode s')
      else if bool_decide (a = "%"%char) then
        match s' with
        | String h (String l s'') =>
            match hex_val h, hex_val l with
            | Some h', Some l' => String (ascii_of_nat (16 * h' + l')) (form_decode s'')
            | _, _ => String a (form_decode s')
            end
        | _ => String a (form_decode s')
        end
      else String a (form_decode s')
  end.

(** Cut at the first occurrence of a separator; [None] when it is absent. *)
Fixpoint cut (c : ascii) (s : string) : option (string * string) :=
  match s with
  | EmptyString => None
  | String a s' =>
      if bool_decide (a = c) then Some (EmptyString, s')
      else match cut c s' with
           | Some (l, r) => Some (String a l, r)
           | None => None
           end
  end.

(** [s.split(c)] for a one-character separator: never empty. *)
Fixpoint split_on (c : ascii) (s : string) : list string :=
  match s with
  | EmptyString => [EmptyString]
  | String a s' =>
      if bool_decide (a = c) then EmptyString :: split_on c s'
      else match split_on c s' with
           | w :: ws => String a w :: ws
           | [] => [String a EmptyString]
           end
  end.

(** One [name=value] pair of a query; an absent [=] gives the empty value. *)
Definition query_pair (s : string) : string * string :=
  match cut "=" s with
  | Some (n, v) => (form_decode n, form_decode v)
  | None => (form_decode s, EmptyString)
  end.

Definition strip_question (s : string) : string :=
  match s with
  | String a s' => if bool_decide (a = "?"%char) then s' else s
  | EmptyString => EmptyString
  end.

Definition query_pairs (search : string) : list (string * string) :=
  query_pair <$> filter (fun s => s <> EmptyString) (split_on "&" (strip_question search)).

(** [new URLSearchParams(search).get(name)] *)
Definition search_get (name search : string) : option string :=
  snd <$> head (filter (fun p => p.1 = name) (query_pairs search)).

(** Characters absent from a string. *)
Fixpoint avoids (c : ascii) (s : string) : bool :=
  match s with
  | EmptyString => true
  | String a s' => negb (bool_decide (a = c)) && avoids c s'
  end.

(** A boolean fact about every character, decided by evaluation. *)
Lemma ascii_forall (P : ascii -> bool) :
  forallb P (ascii_of_nat <$> seq 0 256) = true -> forall a, P a = true.
Proof.
  intros H a. rewrite <- (ascii_nat_embedding a).
  rewrite forallb_forall in H. apply H. apply list_elem_of_In, list_elem_of_fmap.
  exists (nat_of_ascii a). split; [done|]. apply elem_of_seq.
  pose proof (nat_ascii_bounded a). lia.
Qed.

Lemma encode_char_decode a r :
  form_decode (if uri_unreserved a then String a r
               else String "%" (String (hex_digit (nat_of_ascii a / 16))
                              (String (hex_digit (nat_of_ascii a mod 16)) r)))
  = String a (form_decode r).
Proof.
  set (P := fun a => if uri_unreserved a
    then negb (bool_decide (a = "+"%char)) && negb (bool_decide (a = "%"%char))
    else match hex_val (hex_digit (nat_of_ascii a / 16)), hex_val (hex_digit (nat_of_ascii a mod 16)) with
         | Some h, Some l => bool_decide (ascii_of_nat (16 * h + l) = a)
         | _, _ => false
         end).
  assert (HP : P a = true) by (apply ascii_forall; vm_compute; reflexivity).
  unfold P in HP. destruct (uri_unreserved a).
  - apply andb_true_iff in HP as [H1%negb_true_iff H2%negb_true_iff].
    cbn [form_decode]. by rewrite H1, H2.
  - cbn [form_decode]. rewrite bool_decide_eq_false_2, bool_decide_eq_true_2 by done.
    destruct (hex_val _) as [h|]; [|done]. destruct (hex_val _) as [l|]; [|done].
    by apply bool_decide_eq_true_1 in HP as ->.
Qed.

Lemma form_decode_encode s : form_decode (encodeURIComponent s) = s.
Proof.
  induction s as [|a s IH]; [done|].
  cbn [encodeURIComponent]. by rewrite encode_char_decode, IH.
Qed.

Lemma encode_inj s t : encodeURIComponent s = encodeURIComponent t -> s = t.
Proof. intros H. by rewrite <- (form_decode_encode s), H, form_decode_encode. Qed.

Lemma avoids_app c s t : avoids c (s +:+ t) = avoids c s && avoids c t.
Proof. induction s as [|a s IH]; simpl; [done|]. by rewrite IH, andb_assoc. Qed.

Definition encode_char (a : ascii) : string := encodeURIComponent (String a EmptyString).

Lemma encode_cons a s : encodeURIComponent (String a s) = encode_char a +:+ encodeURIComponent s.
Proof. unfold encode_char. cbn [encodeURIComponent]. by destruct (uri_unreserved a). Qed.

(** The delimiters of a URL. *)
Definition url_delims : list ascii := ["&"; "="; "?"; "#"; "+"; "/"; " "]%char.

(** The encoding of a component contains none of the delimiters. *)
Lemma encode_avoids c s : c ∈ url_delims -> avoids c (encodeURIComponent s) = true.
Proof.
  intros Hc. assert (Hchar : forall a, avoids c (encode_char a) = true).
  { apply ascii_forall.
    assert (H : forallb (fun c => forallb (fun a => avoids c (encode_char a))
              (ascii_of_nat <$> seq 0 256)) url_delims = true) by (vm_compute; reflexivity).
    rewrite forallb_forall in H. by apply H, list_elem_of_In. }
  induction s as [|a s IH]; [done|]. by rewrite encode_cons, avoids_app, Hchar, IH.
Qed.

Lemma split_on_avoids c s : avoids c s = true -> split_on c s = [s].
Proof.
  induction s as [|a s IH]; simpl; [done|]. intros [Ha Hs]%andb_true_iff.
  apply negb_true_iff in Ha. rewrite Ha. by rewrite IH.
Qed.

Lemma split_on_app c s t : avoids c s = true -> split_on c (s +:+ String c t) = s :: split_on c t.
Proof.
  induction s as [|a s IH]; simpl; [by rewrite bool_decide_eq_true_2|].
  intros [Ha Hs]%andb_true_iff. apply negb_true_iff in Ha. by rewrite Ha, IH.
Qed.

Lemma cut_app c s t : avoids c s = true -> cut c (s +:+ String c t) = Some (s, t).
Proof.
  induction s as [|a s IH]; simpl; [by rewrite bool_decide_eq_true_2|].
  intros [Ha Hs]%andb_true_iff. apply negb_true_iff in Ha. by rewrite Ha, IH.
Qed.

Lemma avoids_join c sep l :
  avoids c sep = true -> Forall (fun s => avoids c s = true) l -> avoids c (join sep l) = true.
Proof.
  intros Hsep. induction 1 as [|s l Hs Hl IH]; [done|]. destruct Hl as [|s' l Hs' Hl]; [done|].
  rewrite join_cons2, !avoids_app, Hs, Hsep. done.
Qed.

(** Splitting a joined list of fields without the separator. *)
Lemma split_on_join c l :
  l <> [] -> Forall (fun s => avoids c s = true) l ->
  split_on c (join (String c EmptyString) l) = l.
Proof.
  intros Hl H. induction H as [|s l Hs Hall IH]; [done|]. destruct l as [|s' l].
  - by apply split_on_avoids.
  - rewrite join_cons2. cbn [String.append]. rewrite split_on_app by done. by rewrite IH.
Qed.

(** A single encoded parameter is read back unchanged. *)
Lemma search_get_encoded name v :
  name <> EmptyString -> encodeURIComponent name = name ->
  search_get name ("?" +:+ name +:+ "=" +:+ encodeURIComponent v) = Some v.
Proof.
  intros Hne Hname. unfold search_get, query_pairs.
  assert (Hav : forall c, c ∈ url_delims -> avoids c name = true).
  { intros c Hc. rewrite <- Hname. by apply encode_avoids. }
  change (strip_question _) with (name +:+ String "=" (encodeURIComponent v)).
  rewrite split_on_avoids.
  2: { rewrite avoids_app. cbn [avoids]. rewrite Hav, encode_avoids by (unfold url_delims; set_solver). done. }
  rewrite filter_cons, decide_True by (by destruct name).
  cbn -[encodeURIComponent cut]. unfold query_pair. rewrite cut_app by (apply Hav; unfold url_delims; set_solver).
  rewrite form_decode_encode, <- Hname, form_decode_encode, Hname.
  by rewrite decide_True.
Qed.
