(* ===== verification/JsSet.v ===== *)
(** * JavaScript sets and counting objects

    [Set<string>] keeps its members in insertion order; [new Set(xs)] drops
    the repetitions.  The pages with a selection toggle a member by copying
    the set.  [bump] is [acc[k] = (acc[k] || 0) + 1] on a plain object whose
    keys are not array indices, so that [Object.entries] lists them in the
    order of their first occurrence. *)
From S2P Require Import Prelude JsString.

Definition set_add (id : string) (ids : list string) : list string :=
  if bool_decide (id ∈ ids) then ids else ids ++ [id].
Definition set_delete (id : string) (ids : list string) : list string :=
  filter (fun j => j <> id) ids.
Definition set_of (ids : list string) : list string := foldl (fun l id => set_add id l) [] ids.

(** The copy, the test, then [delete] or [add]. *)
Definition set_toggle (id : string) (ids : list string) : list string :=
  if bool_decide (id ∈ ids) then set_delete id ids else set_add id ids.

Lemma set_add_elem id ids x : x ∈ set_add id ids <-> x = id \/ x ∈ ids.
Proof. unfold set_add. case_bool_decide; set_solver. Qed.
Lemma set_delete_elem id ids x : x ∈ set_delete id ids <-> x <> id /\ x ∈ ids.
Proof. unfold set_delete. by rewrite list_elem_of_filter. Qed.

Lemma set_add_NoDup id ids : NoDup ids -> NoDup (set_add id ids).
Proof.
  unfold set_add. case_bool_decide as H; [done|]. intros Hnd. apply NoDup_app.
  split; [done|]. split; [set_solver|apply NoDup_singleton].
Qed.
Lemma set_delete_NoDup id ids : NoDup ids -> NoDup (set_delete id ids).
Proof. apply NoDup_filter. Qed.

Lemma set_toggle_NoDup id ids : NoDup ids -> NoDup (set_toggle id ids).
Proof.
  unfold set_toggle. case_bool_decide; [apply set_delete_NoDup|apply set_add_NoDup].
Qed.
Lemma set_toggle_elem id ids x :
  x ∈ set_toggle id ids <-> (x <> id /\ x ∈ ids) \/ (x = id /\ id ∉ ids).
Proof.
  unfold set_toggle. case_bool_decide as H; [rewrite set_delete_elem|rewrite set_add_elem].
  - naive_solver.
  - split; [|naive_solver]. intros [->|Hx]; [by right|]. left. split; [|done]. by intros ->.
Qed.

Lemma set_of_foldl ids acc :
  NoDup acc ->
  NoDup (foldl (fun l id => set_add id l) acc ids) /\
  forall x, x ∈ foldl (fun l id => set_add id l) acc ids <-> x ∈ acc \/ x ∈ ids.
Proof.
  revert acc. induction ids as [|i ids IH]; intros acc Hacc; simpl; [set_solver|].
  destruct (IH (set_add i acc) (set_add_NoDup i acc Hacc)) as [H1 H2]. split; [done|].
  intros x. rewrite H2, set_add_elem. set_solver.
Qed.
Lemma set_of_NoDup ids : NoDup (set_of ids).
Proof. apply set_of_foldl, NoDup_nil_2. Qed.
Lemma set_of_elem ids x : x ∈ set_of ids <-> x ∈ ids.
Proof. unfold set_of. rewrite (proj2 (set_of_foldl ids [] (NoDup_nil_2))). set_solver. Qed.

(** Two sets with the same members have the same size. *)
Lemma NoDup_same_length (l k : list string) :
  NoDup l -> NoDup k -> (forall x, x ∈ l <-> x ∈ k) -> length l = length k.
Proof. intros Hl Hk H. apply Permutation_length. by apply NoDup_Permutation. Qed.

Lemma set_of_NoDup_length ids : NoDup ids -> length (set_of ids) = length ids.
Proof.
  intros H. apply NoDup_same_length; [apply set_of_NoDup|done|apply set_of_elem].
Qed.

(** Toggling respects sets with the same members. *)
Definition same_members (l k : list string) : Prop := forall x, x ∈ l <-> x ∈ k.
#[export] Instance same_members_equiv : Equivalence same_members.
Proof. split; unfold same_members; red; naive_solver. Qed.
#[export] Instance set_toggle_proper id : Proper (same_members ==> same_members) (set_toggle id).
Proof. intros l k H x. rewrite !set_toggle_elem. unfold same_members in H. by rewrite (H x), (H id). Qed.

(** Toggling twice is the identity on the members. *)
Lemma set_toggle_twice id ids : same_members (set_toggle id (set_toggle id ids)) ids.
Proof. intros x. rewrite !set_toggle_elem. destruct (decide (x = id)) as [->|]; [|naive_solver].
  destruct (decide (id ∈ ids)); naive_solver. Qed.

(** ** Counting *)
Fixpoint bump (k : string) (acc : list (string * Z)) : list (string * Z) :=
  match acc with
  | [] => [(k, 1%Z)]
  | (j, n) :: acc' => if bool_decide (j = k) then (j, (n + 1)%Z) :: acc' else (j, n) :: bump k acc'
  end.

Definition tally (ks : list string) : list (string * Z) := foldl (fun acc k => bump k acc) [] ks.

Definition occurrences (k : string) (ks : list string) : Z :=
  Z.of_nat (length (filter (fun j => j = k) ks)).

Lemma occurrences_snoc k ks j :
  occurrences k (ks ++ [j]) = (occurrences k ks + if decide (j = k) then 1 else 0)%Z.
Proof.
  unfold occurrences. rewrite filter_app, filter_cons, filter_nil, length_app.
  destruct (decide (j = k)); simpl; lia.
Qed.

Lemma bump_keys k acc : (bump k acc).*1 = set_add k acc.*1.
Proof.
  unfold set_add. induction acc as [|[j n] acc IH]; [done|].
  change (((j, n) :: acc).*1) with (j :: acc.*1). cbn [bump].
  destruct (bool_decide_reflect (j = k)) as [->|Hj].
  - rewrite bool_decide_eq_true_2 by set_solver. done.
  - change (((j, n) :: bump k acc).*1) with (j :: (bump k acc).*1). rewrite IH.
    repeat case_bool_decide; set_solver.
Qed.

Lemma bump_elem k acc j n :
  NoDup acc.*1 ->
  (j, n) ∈ bump k acc <->
  (j <> k /\ (j, n) ∈ acc) \/
  (j = k /\ ((k ∉ acc.*1 /\ n = 1%Z) \/ (k, (n - 1)%Z) ∈ acc)).
Proof.
  induction acc as [|[i m] acc IH]; simpl; intros Hnd.
  { rewrite list_elem_of_singleton. set_solver. }
  apply NoDup_cons in Hnd as [Hi Hnd]. specialize (IH Hnd).
  assert (Hk : forall v, (i, v) ∈ acc -> i ∈ acc.*1) by (intros v H; by apply (list_elem_of_fmap_2 fst) in H).
  case_bool_decide as E; rewrite !elem_of_cons.
  - subst i. split.
    + intros [?|H]; simplify_eq.
      * right. split; [done|]. right. left. f_equal. lia.
      * left. split; [|by right]. intros ->. eauto.
    + intros [[Hne [?|H]]|[-> [[Hn _]|[?|H]]]]; simplify_eq; [by right|set_solver|left; f_equal; lia|].
      apply Hk in H. done.
  - rewrite IH. split.
    + intros [?|[[Hne H]|[-> H]]]; simplify_eq; [left; auto|left; auto|].
      right. split; [done|]. destruct H as [[Hn ->]|H]; [left; set_solver|auto].
    + intros [[Hne [?|H]]|[-> [[Hn ->]|[?|H]]]]; simplify_eq; auto.
      right. right. split; [done|]. left. set_solver.
Qed.

(** The tally lists every string that occurs once, with the number of its
    occurrences. *)
Lemma tally_spec ks :
  NoDup (tally ks).*1 /\
  forall k n, (k, n) ∈ tally ks <-> k ∈ ks /\ n = occurrences k ks.
Proof.
  induction ks as [|j ks [Hnd IH]] using rev_ind.
  { split; [apply NoDup_nil_2|]. intros k n. unfold tally. simpl. rewrite !elem_of_nil. naive_solver. }
  unfold tally in *. rewrite foldl_app. simpl. set (t := foldl _ _ _) in *.
  split; [rewrite bump_keys; by apply set_add_NoDup|].
  assert (Hkeys : forall k, k ∈ t.*1 <-> k ∈ ks).
  { intros k. rewrite list_elem_of_fmap. split.
    - intros ([k' n] & -> & H%IH). naive_solver.
    - intros H. exists (k, occurrences k ks). split; [done|]. by apply IH. }
  intros k n. rewrite bump_elem by done. rewrite !IH, Hkeys, occurrences_snoc, elem_of_app.
  rewrite list_elem_of_singleton. case_decide as E.
  - subst k. split; [intros [[]|[_ [[Hn ->]|[H1 H2]]]]; [done| |split; [by right|lia]]|].
    + split; [by right|]. unfold occurrences. rewrite list_filter_none; [done|].
      apply Forall_forall. by intros x Hx ->.
    + intros [_ ->]. right. split; [done|]. destruct (decide (j ∈ ks)) as [|Hn]; [right; split; [done|lia]|].
      left. split; [done|]. unfold occurrences. rewrite list_filter_none; [done|].
      apply Forall_forall. by intros x Hx ->.
  - split; [intros [[Hne [H ->]]|[-> _]]; [split; [by left|lia]|done]|].
    intros [[H|H] ->]; [|done]. left. split; [by intros ->|]. split; [done|lia].
Qed.

(** The counts add up to the number of strings. *)
Definition total (t : list (string * Z)) : Z := foldr (fun p n => (snd p + n)%Z) 0%Z t.

Lemma total_bump k t : total (bump k t) = (total t + 1)%Z.
Proof.
  induction t as [|[j n] t IH]; [done|]. cbn [bump].
  assert (Hc : forall p l, total (p :: l) = (snd p + total l)%Z) by done.
  destruct (bool_decide _); rewrite !Hc, ?IH; cbn [snd]; lia.
Qed.
Lemma total_tally ks : total (tally ks) = Z.of_nat (length ks).
Proof.
  induction ks as [|j ks IH] using rev_ind; [done|]. unfold tally in *.
  rewrite foldl_app, length_app. cbn [foldl length]. rewrite total_bump, IH. lia.
Qed.
Lemma total_perm t t' : t ≡ₚ t' -> total t = total t'.
Proof. induction 1; simpl; unfold total in *; simpl; lia. Qed.

#[export] Hint Resolve set_of_NoDup set_toggle_NoDup set_add_NoDup set_delete_NoDup : soc.
