(* ===== verification/Dates.v ===== *)
(** * Dates and numbers ([new Date(s).getTime()], [Number(s)], [Math.round])

    The pages order records by [new Date(s).getTime()].  [date_parse] is the
    ECMAScript date-time string format with a four-digit year: a date alone
    is UTC, a time carries [Z], an offset, or is local; [None] is [NaN].
    The time zone of the browser is the parameter [local].  Double
    arithmetic uses the Standard Library's specification of binary64, so that
    rounding behaves as in the browser. *)
From Stdlib Require Import SpecFloat QArith Qround.
From S2P Require Import Prelude JsString.
Local Open Scope Z_scope.

Definition digit (a : ascii) : option Z :=
  let n := Z.of_nat (nat_of_ascii a) in
  if (48 <=? n) && (n <=? 57) then Some (n - 48) else None.

(** Exactly [n] digits. *)
Fixpoint digits (n : nat) (acc : Z) (s : string) : option (Z * string) :=
  match n, s with
  | O, _ => Some (acc, s)
  | S n', String a s' =>
      match digit a with Some d => digits n' (10 * acc + d) s' | None => None end
  | _, _ => None
  end.

Definition expect (c : ascii) (s : string) : option string :=
  match s with
  | String a s' => if Ascii.eqb a c then Some s' else None
  | EmptyString => None
  end.

(** Drop the remaining digits of a fraction. *)
Fixpoint skip_digits (s : string) : string :=
  match s with
  | String a s' => match digit a with Some _ => skip_digits s' | None => s end
  | EmptyString => s
  end.

Definition leap (y : Z) : bool :=
  (y mod 4 =? 0) && (negb (y mod 100 =? 0) || (y mod 400 =? 0)).

Definition days_in_month (y m : Z) : Z :=
  if m =? 2 then if leap y then 29 else 28
  else if (m =? 4) || (m =? 6) || (m =? 9) || (m =? 11) then 30 else 31.

(** Days since 1970-01-01, counting years from March. *)
Definition day_number (y m d : Z) : Z :=
  let y' := if m <=? 2 then y - 1 else y in
  let m' := if m <=? 2 then m + 9 else m - 3 in
  365 * y' + y' / 4 - y' / 100 + y' / 400 + (153 * m' + 2) / 5 + (d - 1) - 719468.

Definition parse_ymd (s : string) : option (Z * string) :=
  '(y, s) ← digits 4 0 s; s ← expect "-" s;
  '(m, s) ← digits 2 0 s; s ← expect "-" s;
  '(d, s) ← digits 2 0 s;
  if (1 <=? m) && (m <=? 12) && (1 <=? d) && (d <=? days_in_month y m)
  then Some (86400000 * day_number y m d, s) else None.

(** The optional fraction: milliseconds, further digits ignored. *)
Definition parse_fraction (s : string) : option (Z * string) :=
  match expect "." s with
  | None => Some (0, s)
  | Some s1 =>
      match digits 3 0 s1 with
      | Some (v, r) => Some (v, skip_digits r)
      | None =>
          match digits 2 0 s1 with
          | Some (v, r) => Some (10 * v, r)
          | None => '(v, r) ← digits 1 0 s1; Some (100 * v, r)
          end
      end
  end.

Definition parse_seconds (s : string) : option (Z * string) :=
  match expect ":" s with
  | None => Some (0, s)
  | Some s1 =>
      '(sec, s2) ← digits 2 0 s1; '(ms, s3) ← parse_fraction s2;
      if sec <=? 59 then Some (1000 * sec + ms, s3) else None
  end.

Definition parse_offset (sign : Z) (s : string) : option Z :=
  '(h, s) ← digits 2 0 s; s ← expect ":" s; '(m, s) ← digits 2 0 s;
  if (h <=? 23) && (m <=? 59) && String.eqb s EmptyString
  then Some (sign * (60000 * (60 * h + m))) else None.

Section Date.
(** Wall-clock milliseconds to UTC milliseconds in the browser's zone. *)
Context (local : Z -> Z).

Definition zoned (t : Z) (s : string) : option Z :=
  match s with
  | EmptyString => Some (local t)
  | String a s' =>
      if Ascii.eqb a "Z" then if String.eqb s' EmptyString then Some t else None
      else if Ascii.eqb a "+" then o ← parse_offset 1 s'; Some (t - o)
      else if Ascii.eqb a "-" then o ← parse_offset (-1) s'; Some (t - o)
      else None
  end.

Definition date_parse (s : string) : option Z :=
  '(day, s) ← parse_ymd s;
  match s with
  | EmptyString => Some day
  | _ =>
      s ← expect "T" s;
      '(h, s) ← digits 2 0 s; s ← expect ":" s; '(m, s) ← digits 2 0 s;
      '(ms, s) ← parse_seconds s;
      if (h <=? 23) && (m <=? 59) then zoned (day + 60000 * (60 * h + m) + ms) s else None
  end.

(** The comparator [new Date(b.f).getTime() - new Date(a.f).getTime()]; a
    [NaN] counts as equal. *)
Definition by_date_desc {A} (field : A -> string) (a b : A) : Z :=
  match date_parse (field b), date_parse (field a) with
  | Some y, Some x => y - x
  | _, _ => 0
  end.

(** When every date parses, this is the comparator of a key. *)
Definition date_key {A} (field : A -> string) (a : A) : Z := default 0 (date_parse (field a)).

Lemma by_date_desc_key {A} (field : A -> string) l :
  Forall (fun a => is_Some (date_parse (field a))) l ->
  js_sort (by_date_desc field) l = js_sort (by_key_desc (date_key field)) l.
Proof.
  assert (Hins : forall x m, is_Some (date_parse (field x)) ->
    Forall (fun a => is_Some (date_parse (field a))) m ->
    sort_insert (by_date_desc field) x m = sort_insert (by_key_desc (date_key field)) x m).
  { intros x m [dx Hx] Hm. induction Hm as [|y m [dy Hy] _ IH]; simpl; [done|].
    unfold by_date_desc at 1, by_key_desc at 1, date_key.
    rewrite Hx, Hy. simpl. by rewrite IH. }
  induction 1 as [|x l Hx Hl IH]; simpl; [done|]. rewrite IH. apply Hins; [done|].
  apply Forall_forall. intros y Hy%js_sort_elem. by eapply Forall_forall in Hl.
Qed.
End Date.

Example date_parse_epoch : date_parse id "1970-01-01" = Some 0.
Proof. reflexivity. Qed.
Example date_parse_leap : date_parse id "2024-02-29T12:30:15.250Z" = Some 1709209815250.
Proof. reflexivity. Qed.
Example date_parse_offset :
  date_parse id "2024-03-01T01:00:00.123456+02:00" = Some 1709247600123.
Proof. reflexivity. Qed.
Example date_parse_bad : date_parse id "2023-02-29" = None.
Proof. reflexivity. Qed.

(** ** [Date.prototype.toISOString] *)

(** The civil date of a day number: 400-year eras from March of year zero,
    then centuries, groups of four years, years. *)
Definition civil (z : Z) : Z * Z * Z :=
  let doe := (z + 719468) mod 146097 in
  let c := Z.min 3 (doe / 36524) in
  let q := (doe - 36524 * c) / 1461 in
  let yr := Z.min 3 ((doe - 36524 * c - 1461 * q) / 365) in
  let doy := doe - 36524 * c - 1461 * q - 365 * yr in
  let y := 400 * ((z + 719468) / 146097) + 100 * c + 4 * q + yr in
  let mp := (5 * doy + 2) / 153 in
  let d := doy - (153 * mp + 2) / 5 + 1 in
  if mp <? 10 then (y, mp + 3, d) else (y + 1, mp - 9, d).

Definition digit_char (d : Z) : ascii := ascii_of_nat (Z.to_nat (48 + d)).

(** The last [w] decimal digits. *)
Fixpoint pad (w : nat) (n : Z) : string :=
  match w with
  | O => EmptyString
  | S w' => String (digit_char ((n / 10 ^ Z.of_nat w') mod 10)) (pad w' n)
  end.

Definition iso_year (y : Z) : string :=
  if (0 <=? y) && (y <=? 9999) then pad 4 y
  else (if y <? 0 then "-" else "+") +:+ pad 6 (Z.abs y).

Definition iso_time (t : Z) : string :=
  let ms := t mod 86400000 in
  pad 2 (ms / 3600000) +:+ ":" +:+ pad 2 (ms / 60000 mod 60) +:+ ":"
    +:+ pad 2 (ms / 1000 mod 60) +:+ "." +:+ pad 3 (ms mod 1000) +:+ "Z".

Definition to_iso (t : Z) : string :=
  let '(y, m, d) := civil (t / 86400000) in
  iso_year y +:+ "-" +:+ pad 2 m +:+ "-" +:+ pad 2 d +:+ "T" +:+ iso_time t.

Example to_iso_leap : to_iso 1709209815250 = "2024-02-29T12:30:15.250Z".
Proof. reflexivity. Qed.
Example to_iso_before : to_iso (-1) = "1969-12-31T23:59:59.999Z".
Proof. reflexivity. Qed.

(** The months from March to December, counted from March. *)
Lemma month_length y mp doy :
  0 <= mp < 10 -> 153 * mp <= 5 * doy + 2 < 153 * mp + 153 ->
  1 <= doy - (153 * mp + 2) / 5 + 1 <= days_in_month y (mp + 3).
Proof.
  intros Hm Hd. unfold days_in_month. destruct (Z.eqb_spec (mp + 3) 2); [lia|].
  destruct (Z.eqb_spec (mp + 3) 4), (Z.eqb_spec (mp + 3) 6), (Z.eqb_spec (mp + 3) 9),
    (Z.eqb_spec (mp + 3) 11); cbn [orb]; Z.to_euclidean_division_equations; lia.
Qed.

(** The year that closes a four-year cycle is a leap year, unless it closes
    one of the first three centuries of an era. *)
Lemma closing_leap era c q :
  0 <= c <= 3 -> 0 <= q <= 24 -> (q = 24 -> c = 3) -> leap (400 * era + 100 * c + 4 * q + 3 + 1) = true.
Proof.
  intros Hc Hq H. unfold leap.
  set (y := 400 * era + 100 * c + 4 * q + 3 + 1).
  assert (y mod 4 = 0) as -> by (unfold y; Z.to_euclidean_division_equations; lia).
  cbn [andb Z.eqb]. destruct (Z.eqb_spec (y mod 100) 0) as [E|]; [cbn [negb orb]|done].
  assert (q = 24) as Hq' by (unfold y in E; Z.to_euclidean_division_equations; lia).
  apply Z.eqb_eq. rewrite (H Hq') in *. subst q. unfold y. Z.to_euclidean_division_equations. lia.
Qed.

(** The civil date is a date of the calendar, and the day it was computed
    from. *)
Lemma civil_spec z :
  let '(y, m, d) := civil z in
  1 <= m <= 12 /\ 1 <= d <= days_in_month y m /\ day_number y m d = z.
Proof.
  unfold civil. set (w := z + 719468). set (era := w / 146097). set (doe := w mod 146097).
  assert (Hw : w = 146097 * era + doe /\ 0 <= doe < 146097).
  { split; [apply Z.div_mod; lia|apply Z.mod_pos_bound; lia]. }
  clearbody era doe. set (c := Z.min 3 (doe / 36524)).
  assert (Hc : 0 <= c <= 3 /\ 0 <= doe - 36524 * c <= 36524 /\ (doe - 36524 * c = 36524 -> c = 3)).
  { unfold c. Z.to_euclidean_division_equations. lia. }
  clearbody c. set (r1 := doe - 36524 * c) in *. set (q := r1 / 1461).
  assert (Hq : 0 <= q <= 24 /\ 0 <= r1 - 1461 * q <= 1460).
  { unfold q. Z.to_euclidean_division_equations. lia. }
  clearbody q. set (r2 := r1 - 1461 * q) in *. set (yr := Z.min 3 (r2 / 365)).
  assert (Hyr : 0 <= yr <= 3 /\ 0 <= r2 - 365 * yr <= 365 /\ (r2 - 365 * yr = 365 -> yr = 3)).
  { unfold yr. Z.to_euclidean_division_equations. lia. }
  clearbody yr. set (doy := r2 - 365 * yr) in *. set (mp := (5 * doy + 2) / 153).
  assert (Hmp : 0 <= mp <= 11 /\ 153 * mp <= 5 * doy + 2 < 153 * mp + 153).
  { unfold mp. Z.to_euclidean_division_equations. lia. }
  clearbody mp. set (y := 400 * era + 100 * c + 4 * q + yr).
  assert (Hy4 : y / 4 = 100 * era + 25 * c + q) by (unfold y; Z.to_euclidean_division_equations; lia).
  assert (Hy100 : y / 100 = 4 * era + c) by (unfold y; Z.to_euclidean_division_equations; lia).
  assert (Hy400 : y / 400 = era) by (unfold y; Z.to_euclidean_division_equations; lia).
  assert (Hday : forall d, 365 * y + y / 4 - y / 100 + y / 400 + (153 * mp + 2) / 5 + (d - 1) - 719468
                 = z - doy + (153 * mp + 2) / 5 + (d - 1)).
  { intros d. rewrite Hy4, Hy100, Hy400. unfold y, doy, r2, r1. lia. }
  destruct (Z.ltb_spec mp 10) as [Hm|Hm].
  - split; [lia|]. split.
    + apply month_length; lia.
    + unfold day_number. destruct (Z.leb_spec (mp + 3) 2); [lia|].
      replace (mp + 3 - 3) with mp by lia. rewrite Hday. lia.
  - assert (mp = 10 \/ mp = 11) as [->| ->] by lia.
    + split; [lia|]. split.
      { change (days_in_month (y + 1) (10 - 9)) with 31. change ((153 * 10 + 2) / 5) with 306. lia. }
      unfold day_number. cbn -[Z.mul Z.add Z.sub Z.div].
      replace (y + 1 - 1) with y by lia. change (10 - 9 + 9) with 10. rewrite Hday. lia.
    + split; [lia|]. split.
      * change (days_in_month (y + 1) (11 - 9)) with (if leap (y + 1) then 29 else 28).
        change ((153 * 11 + 2) / 5) with 337.
        destruct (leap (y + 1)) eqn:El; [lia|].
        enough (doy <> 365) by lia. intros E. assert (yr = 3) as -> by (apply Hyr; exact E).
        unfold y in El. rewrite closing_leap in El; [done|lia..|].
        intros ->. apply Hc. lia.
      * unfold day_number. change (11 - 9) with 2. cbn -[Z.mul Z.add Z.sub Z.div].
        replace (y + 1 - 1) with y by lia. change (2 + 9) with 11. rewrite Hday. lia.
Qed.

Lemma digit_digit_char d : 0 <= d < 10 -> digit (digit_char d) = Some d.
Proof.
  intros Hd. assert (d = 0 \/ d = 1 \/ d = 2 \/ d = 3 \/ d = 4 \/ d = 5 \/ d = 6 \/ d = 7 \/ d = 8 \/ d = 9)
    as Hcase by lia.
  repeat destruct Hcase as [->|Hcase]; [reflexivity..|]. by subst.
Qed.

Lemma digits_pad w acc n rest :
  digits w acc (pad w n +:+ rest) = Some (acc * 10 ^ Z.of_nat w + n mod 10 ^ Z.of_nat w, rest).
Proof.
  revert acc. induction w as [|w IH]; intros acc.
  { cbn [pad digits]. rewrite Z.mod_1_r. change (10 ^ Z.of_nat 0) with 1. simpl. repeat f_equal. lia. }
  cbn [pad digits]. simpl. rewrite digit_digit_char by (apply Z.mod_pos_bound; lia).
  rewrite IH. do 2 f_equal.
  rewrite Nat2Z.inj_succ, Z.pow_succ_r by lia.
  assert (H10 : 0 < 10 ^ Z.of_nat w) by (apply Z.pow_pos_nonneg; lia).
  rewrite (Z.mul_comm 10 (10 ^ Z.of_nat w)), Z.rem_mul_r by lia. lia.
Qed.

Lemma digits_pad_small w n rest :
  0 <= n < 10 ^ Z.of_nat w -> digits w 0 (pad w n +:+ rest) = Some (n, rest).
Proof. intros H. rewrite digits_pad, Z.mod_small by done. repeat f_equal; lia. Qed.

(** *** A printed date is read back *)
Section IsoRoundTrip.
Context (local : Z -> Z).

Lemma expect_char c s : expect c (String c s) = Some s.
Proof. cbn [expect]. by rewrite Ascii.eqb_refl. Qed.

Lemma parse_ymd_iso y m d rest :
  0 <= y <= 9999 -> 1 <= m <= 12 -> 1 <= d <= days_in_month y m ->
  parse_ymd (iso_year y +:+ "-" +:+ pad 2 m +:+ "-" +:+ pad 2 d +:+ rest) =
  Some (86400000 * day_number y m d, rest).
Proof.
  intros Hy Hm Hd. assert (Hd31 : days_in_month y m <= 31).
  { unfold days_in_month. repeat (case_match; try lia). }
  unfold parse_ymd, iso_year. rewrite (proj2 (andb_true_iff _ _)) by (split; apply Z.leb_le; lia).
  rewrite (digits_pad_small 4) by (simpl; lia). cbn [mbind option_bind].
  change (expect "-" ("-" +:+ pad 2 m +:+ "-" +:+ pad 2 d +:+ rest))
    with (Some (pad 2 m +:+ "-" +:+ pad 2 d +:+ rest)). cbn [mbind option_bind].
  rewrite (digits_pad_small 2) by (simpl; lia). cbn [mbind option_bind].
  change (expect "-" ("-" +:+ pad 2 d +:+ rest)) with (Some (pad 2 d +:+ rest)). cbn [mbind option_bind].
  rewrite (digits_pad_small 2) by (simpl; lia). cbn [mbind option_bind].
  repeat rewrite (proj2 (andb_true_iff _ _)) by (split; [|apply Z.leb_le; lia]; repeat (apply andb_true_iff; split); apply Z.leb_le; lia).
  done.
Qed.

Definition clock (ms : Z) : Z * Z * Z * Z :=
  (ms / 3600000, ms / 60000 mod 60, ms / 1000 mod 60, ms mod 1000).

Lemma clock_spec ms :
  0 <= ms < 86400000 ->
  let '(h, m, s, f) := clock ms in
  0 <= h <= 23 /\ 0 <= m <= 59 /\ 0 <= s <= 59 /\ 0 <= f <= 999 /\
  60000 * (60 * h + m) + (1000 * s + f) = ms.
Proof. intros H. unfold clock. Z.to_euclidean_division_equations. lia. Qed.

(** Every date between the years 0 and 9999 survives printing and
    parsing, in every time zone. *)
Lemma iso_roundtrip t :
  -62167219200000 <= t < 253402300800000 -> date_parse local (to_iso t) = Some t.
Proof.
  intros Ht. unfold to_iso. pose proof (civil_spec (t / 86400000)) as Hc.
  destruct (civil (t / 86400000)) as [[y m] d]. destruct Hc as (Hm & Hd & Hday).
  assert (Hz : -719528 <= t / 86400000 <= 2932896) by (Z.to_euclidean_division_equations; lia).
  assert (Hd31 : days_in_month y m <= 31).
  { unfold days_in_month. repeat (case_match; try lia). }
  assert (Hy : 0 <= y <= 9999).
  { rewrite <- Hday in Hz. unfold day_number in Hz. clear Hday Ht.
    destruct (Z.leb_spec m 2); Z.to_euclidean_division_equations; lia. }
  unfold date_parse. rewrite parse_ymd_iso by done. cbn [mbind option_bind].
  rewrite Hday. unfold iso_time. set (ms := t mod 86400000).
  assert (Hms : 0 <= ms < 86400000) by (apply Z.mod_pos_bound; lia).
  pose proof (clock_spec ms Hms) as Hk. unfold clock in Hk.
  set (h := ms / 3600000) in *. set (mi := ms / 60000 mod 60) in *.
  set (se := ms / 1000 mod 60) in *. set (f := ms mod 1000) in *.
  destruct Hk as (Hh & Hmi & Hse & Hf & Hsum). clearbody h mi se f.
  cbn [String.append]. rewrite expect_char. cbn [mbind option_bind].
  rewrite (digits_pad_small 2) by (simpl; lia). cbn [mbind option_bind].
  rewrite expect_char. cbn [mbind option_bind].
  rewrite (digits_pad_small 2) by (simpl; lia). cbn [mbind option_bind].
  unfold parse_seconds. rewrite expect_char.
  rewrite (digits_pad_small 2) by (simpl; lia). cbn [mbind option_bind].
  unfold parse_fraction. rewrite expect_char, (digits_pad_small 3) by (simpl; lia).
  cbn [mbind option_bind skip_digits digit]. change (digit "Z") with (@None Z). cbv iota beta.
  rewrite (proj2 (Z.leb_le se 59)), (proj2 (Z.leb_le h 23)), (proj2 (Z.leb_le mi 59)) by lia.
  cbn [mbind option_bind andb zoned]. change (Ascii.eqb "Z" "Z") with true.
  change (String.eqb EmptyString EmptyString) with true. cbv iota. f_equal.
  pose proof (Z.div_mod t 86400000 ltac:(lia)) as Hdm. fold ms in Hdm. lia.
Qed.
End IsoRoundTrip.

(** [Number(s)] of a string of decimal digits. *)
Fixpoint number_from (acc : Z) (s : string) : Z :=
  match s with
  | EmptyString => acc
  | String a s' => number_from (10 * acc + default 0 (digit a)) s'
  end.
Definition js_Number (s : string) : Z := number_from 0 s.

(** ** Doubles *)
Definition f64_of_Z (n : Z) : spec_float := binary_normalize 53 1024 n 0 false.
Definition f64_div : spec_float -> spec_float -> spec_float := SFdiv 53 1024.
Definition f64_mul : spec_float -> spec_float -> spec_float := SFmul 53 1024.

(** [Math.round]: the nearest integer, ties upwards; [0] for values that are
    not finite, which the callers exclude. *)
Definition math_round (x : spec_float) : Z :=
  match x with
  | S754_finite s m e =>
      let v := if s then Zneg m else Zpos m in
      if 0 <=? e then v * 2 ^ e else (2 * v + 2 ^ (- e)) / 2 ^ (- e + 1)
  | _ => 0
  end.

Definition round_half_up (num den : Z) : Z := (2 * num + den) / (2 * den).

(** [Math.round((a / n) * 100)] *)
Definition round_percent (a n : Z) : Z :=
  math_round (f64_mul (f64_div (f64_of_Z a) (f64_of_Z n)) (f64_of_Z 100)).

(** The double computation against exact rounding: they agree for fewer
    than 100 items, except at the ratio 23/40, whose double percentage is
    just below 57.5. *)
Definition percent_spec (a n : Z) : Z :=
  round_half_up (100 * a) n - (if 40 * a =? 23 * n then 1 else 0).

Definition percent_checked (limit : nat) : bool :=
  forallb (fun n =>
    forallb (fun a => round_percent (Z.of_nat a) (Z.of_nat n) =?
                      percent_spec (Z.of_nat a) (Z.of_nat n)) (seq 0 (S n)))
    (seq 1 limit).

Lemma percent_checked_sound (limit a n : nat) :
  percent_checked limit = true -> (0 < n)%nat -> (n <= limit)%nat -> (a <= n)%nat ->
  round_percent (Z.of_nat a) (Z.of_nat n) = percent_spec (Z.of_nat a) (Z.of_nat n).
Proof.
  intros H Hn Hl Ha. unfold percent_checked in H.
  rewrite forallb_forall in H. specialize (H n). rewrite in_seq, forallb_forall in H.
  specialize (H ltac:(lia) a). rewrite in_seq in H. apply Z.eqb_eq, H. lia.
Qed.

Lemma percent_checked_99 : percent_checked 99 = true.
Proof. vm_compute. reflexivity. Qed.

Lemma round_percent_spec (a n : nat) :
  (0 < n)%nat -> (n < 100)%nat -> (a <= n)%nat ->
  round_percent (Z.of_nat a) (Z.of_nat n) = percent_spec (Z.of_nat a) (Z.of_nat n).
Proof.
  intros. apply (percent_checked_sound 99); [exact percent_checked_99|lia..].
Qed.

Lemma percent_spec_bounds (a n : Z) :
  0 < n -> 0 <= a <= n -> 0 <= percent_spec a n <= 100.
Proof.
  intros Hn Ha. unfold percent_spec, round_half_up.
  assert (H1 : (2 * (100 * a) + n) / (2 * n) <= 100).
  { assert ((2 * (100 * a) + n) / (2 * n) < 101); [|lia]. apply Z.div_lt_upper_bound; lia. }
  destruct (Z.eqb_spec (40 * a) (23 * n)).
  - assert (1 <= (2 * (100 * a) + n) / (2 * n)) by (apply Z.div_le_lower_bound; lia). lia.
  - assert (0 <= (2 * (100 * a) + n) / (2 * n)) by (apply Z.div_pos; lia). lia.
Qed.

Lemma percent_spec_full (a n : Z) :
  0 < n < 200 -> 0 <= a <= n -> percent_spec a n = 100 <-> a = n.
Proof.
  intros Hn Ha. unfold percent_spec, round_half_up. split.
  - intros H. destruct (Z.eq_dec a n) as [|Hne]; [done|].
    assert ((2 * (100 * a) + n) / (2 * n) < 100) by (apply Z.div_lt_upper_bound; lia).
    destruct (40 * a =? 23 * n); lia.
  - intros ->. destruct (Z.eqb_spec (40 * n) (23 * n)); [lia|].
    assert ((2 * (100 * n) + n) / (2 * n) < 101) by (apply Z.div_lt_upper_bound; lia).
    assert (100 <= (2 * (100 * n) + n) / (2 * n)) by (apply Z.div_le_lower_bound; lia). lia.
Qed.

(** ** [x.toFixed(1)] of a non-negative double: the nearest tenth, upwards on
    a tie *)
Definition f64_tenths (x : spec_float) : Z :=
  match x with
  | S754_finite false m e =>
      if (0 <=? e)%Z then (10 * Zpos m * 2 ^ e)%Z
      else ((20 * Zpos m + 2 ^ (- e)) / 2 ^ (- e + 1))%Z
  | _ => 0%Z
  end.

Definition to_fixed1 (x : spec_float) : string := fixed1 (f64_tenths x).

(** ** Rounding of rationals *)

(** [x.toFixed(1)]: the nearest tenth, the larger one on a tie, after the sign. *)
Definition toFixed1 (x : Q) : string :=
  if Qle_bool 0 x then fixed1 (Qfloor (x * 10 + (1 # 2))) else "-" +:+ fixed1 (Qfloor (- x * 10 + (1 # 2))).

Lemma Qfloor_bounds (x : Q) (lo hi : Z) :
  (inject_Z lo <= x)%Q -> (x < inject_Z hi)%Q -> (lo <= Qfloor x < hi)%Z.
Proof.
  intros H1 H2. split.
  - rewrite <- (Qfloor_Z lo). by apply Qfloor_resp_le.
  - pose proof (Qfloor_le x) as H3.
    assert (inject_Z (Qfloor x) < inject_Z hi)%Q as H4 by (eapply Qle_lt_trans; eauto).
    by rewrite <- Zlt_Qlt in H4.
Qed.
