(* ===== verification/Json.v ===== *)
(** * JSON ([JSON.parse], [JSON.stringify])

    The pages keep small documents in [localStorage] and read the payload of
    a token.  [json_parse] is the grammar of JSON over UTF-8 text; a number
    is its mantissa and decimal exponent.  What the pages write are documents
    of strings, arrays and objects ([doc]); [json_stringify] prints them
    without white space, and parsing gives the document back. *)
From S2P Require Import Prelude JsString Dates.

Inductive json :=
| JNull
| JBool (b : bool)
| JNum (mantissa exponent : Z)
| JStr (s : string)
| JArr (vs : list json)
| JObj (ms : list (string * json)).

(** ** Characters *)
Definition dquote : ascii := ascii_of_nat 34.
Definition backslash : ascii := ascii_of_nat 92.
Definition is_json_space (a : ascii) : bool :=
  existsb (Nat.eqb (nat_of_ascii a)) [9; 10; 13; 32].

Fixpoint skip_ws (s : string) : string :=
  match s with
  | String a s' => if is_json_space a then skip_ws s' else s
  | EmptyString => s
  end.

(** UTF-8 of a code point. *)
Definition byte (n : Z) : ascii := ascii_of_nat (Z.to_nat n).
Definition utf8 (cp : Z) : string :=
  (if cp <? 128 then String (byte cp) EmptyString
   else if cp <? 2048 then
     String (byte (192 + cp / 64)) (String (byte (128 + cp mod 64)) EmptyString)
   else if cp <? 65536 then
     String (byte (224 + cp / 4096)) (String (byte (128 + cp / 64 mod 64))
       (String (byte (128 + cp mod 64)) EmptyString))
   else
     String (byte (240 + cp / 262144)) (String (byte (128 + cp / 4096 mod 64))
       (String (byte (128 + cp / 64 mod 64)) (String (byte (128 + cp mod 64)) EmptyString))))%Z.

Definition hex4 (a b c d : ascii) : option Z :=
  match hex_val a, hex_val b, hex_val c, hex_val d with
  | Some a, Some b, Some c, Some d =>
      Some (4096 * Z.of_nat a + 256 * Z.of_nat b + 16 * Z.of_nat c + Z.of_nat d)%Z
  | _, _, _, _ => None
  end.

(** The one-letter escapes. *)
Definition unescape (a : ascii) : option ascii :=
  match nat_of_ascii a with
  | 34 => Some dquote
  | 92 => Some backslash
  | 47 => Some (ascii_of_nat 47)
  | 98 => Some (ascii_of_nat 8)
  | 102 => Some (ascii_of_nat 12)
  | 110 => Some (ascii_of_nat 10)
  | 114 => Some (ascii_of_nat 13)
  | 116 => Some (ascii_of_nat 9)
  | _ => None
  end.

Definition prepend (p : string) (r : option (string * string)) : option (string * string) :=
  match r with Some (s, t) => Some (p +:+ s, t) | None => None end.

Definition high_surrogate (cp : Z) : bool := ((55296 <=? cp) && (cp <? 56320))%Z.
Definition low_surrogate (cp : Z) : bool := ((56320 <=? cp) && (cp <? 57344))%Z.

(** The rest of a string literal after its opening quote. *)
Fixpoint parse_string (s : string) : option (string * string) :=
  match s with
  | EmptyString => None
  | String c r =>
      if Ascii.eqb c dquote then Some (EmptyString, r)
      else if Ascii.eqb c backslash then
        match r with
        | EmptyString => None
        | String e r1 =>
            match unescape e with
            | Some x => prepend (String x EmptyString) (parse_string r1)
            | None =>
                if Ascii.eqb e "u" then
                  match r1 with
                  | String h1 (String h2 (String h3 (String h4 r2))) =>
                      match hex4 h1 h2 h3 h4 with
                      | None => None
                      | Some cp =>
                          let single := prepend (utf8 cp) (parse_string r2) in
                          if high_surrogate cp then
                            match r2 with
                            | String b (String u (String g1 (String g2 (String g3 (String g4 r3))))) =>
                                match hex4 g1 g2 g3 g4 with
                                | Some lo =>
                                    if Ascii.eqb b backslash && Ascii.eqb u "u" && low_surrogate lo
                                    then prepend (utf8 (65536 + 1024 * (cp - 55296) + (lo - 56320))%Z)
                                           (parse_string r3)
                                    else single
                                | None => single
                                end
                            | _ => single
                            end
                          else single
                      end
                  | _ => None
                  end
                else None
            end
        end
      else if nat_of_ascii c <? 32 then None
      else prepend (String c EmptyString) (parse_string r)
  end.

(** ** Numbers *)
Fixpoint take_digits (acc : Z) (n : nat) (s : string) : Z * nat * string :=
  match s with
  | String a s' =>
      match digit a with
      | Some d => take_digits (10 * acc + d)%Z (S n) s'
      | None => (acc, n, s)
      end
  | EmptyString => (acc, n, s)
  end.

(** No leading zero before other digits. *)
Definition parse_int (s : string) : option (Z * string) :=
  match s with
  | String a s' =>
      if Ascii.eqb a "0" then Some (0%Z, s')
      else match take_digits 0 0 s with (v, S _, r) => Some (v, r) | _ => None end
  | EmptyString => None
  end.

Definition parse_frac (m : Z) (s : string) : option (Z * Z * string) :=
  match expect "." s with
  | None => Some (m, 0%Z, s)
  | Some r => match take_digits m 0 r with
              | (v, S n, r') => Some (v, (- Z.of_nat (S n))%Z, r')
              | _ => None
              end
  end.

Definition parse_exp (s : string) : option (Z * string) :=
  match s with
  | String a r =>
      if Ascii.eqb a "e" || Ascii.eqb a "E" then
        let '(sign, r) := match expect "-" r with
          | Some r' => ((-1)%Z, r')
          | None => (1%Z, match expect "+" r with Some r' => r' | None => r end)
          end in
        match take_digits 0 0 r with (v, S _, r') => Some ((sign * v)%Z, r') | _ => None end
      else Some (0%Z, s)
  | EmptyString => Some (0%Z, s)
  end.

Definition parse_number (s : string) : option (json * string) :=
  let '(sign, s) := match expect "-" s with Some r => ((-1)%Z, r) | None => (1%Z, s) end in
  '(i, s) ← parse_int s; '(m, e, s) ← parse_frac i s; '(x, s) ← parse_exp s;
  Some (JNum (sign * m) (e + x), s).

Definition strip (p s : string) : option string :=
  if starts_with p s then Some (String.substring (String.length p) (String.length s) s) else None.

(** ** Values *)
Fixpoint parse_value (n : nat) (s : string) : option (json * string) :=
  match n with
  | O => None
  | S n =>
      let s := skip_ws s in
      match s with
      | EmptyString => None
      | String c r =>
          if Ascii.eqb c dquote then '(v, r) ← parse_string r; Some (JStr v, r)
          else if Ascii.eqb c "[" then
            match expect "]" (skip_ws r) with
            | Some r' => Some (JArr [], r')
            | None => '(vs, r) ← parse_elements n r; Some (JArr vs, r)
            end
          else if Ascii.eqb c "{" then
            match expect "}" (skip_ws r) with
            | Some r' => Some (JObj [], r')
            | None => '(ms, r) ← parse_members n r; Some (JObj ms, r)
            end
          else match strip "true" s, strip "false" s, strip "null" s with
               | Some r, _, _ => Some (JBool true, r)
               | _, Some r, _ => Some (JBool false, r)
               | _, _, Some r => Some (JNull, r)
               | _, _, _ => parse_number s
               end
      end
  end
with parse_elements (n : nat) (s : string) : option (list json * string) :=
  match n with
  | O => None
  | S n =>
      '(v, r) ← parse_value n s;
      match skip_ws r with
      | String c r' =>
          if Ascii.eqb c "," then '(vs, r'') ← parse_elements n r'; Some (v :: vs, r'')
          else if Ascii.eqb c "]" then Some ([v], r') else None
      | EmptyString => None
      end
  end
with parse_members (n : nat) (s : string) : option (list (string * json) * string) :=
  match n with
  | O => None
  | S n =>
      r ← expect dquote (skip_ws s); '(k, r) ← parse_string r;
      r ← expect ":" (skip_ws r); '(v, r) ← parse_value n r;
      match skip_ws r with
      | String c r' =>
          if Ascii.eqb c "," then '(ms, r'') ← parse_members n r'; Some ((k, v) :: ms, r'')
          else if Ascii.eqb c "}" then Some ([(k, v)], r') else None
      | EmptyString => None
      end
  end.

(** [JSON.parse]: one value, then only white space; [None] is the exception. *)
Definition json_parse (s : string) : option json :=
  match parse_value (S (String.length s)) s with
  | Some (v, r) => if String.eqb (skip_ws r) EmptyString then Some v else None
  | None => None
  end.

(** A property of a parsed object: the last member with the name. *)
Definition json_get (k : string) (v : json) : option json :=
  match v with
  | JObj ms => snd <$> last (filter (fun m => m.1 = k) ms)
  | _ => None
  end.

(** ** Documents and [JSON.stringify] *)
Inductive doc :=
| DStr (s : string)
| DArr (ds : list doc)
| DObj (ms : list (string * doc)).

Fixpoint to_json (d : doc) : json :=
  match d with
  | DStr s => JStr s
  | DArr ds => JArr (to_json <$> ds)
  | DObj ms => JObj ((fun m => (fst m, to_json (snd m))) <$> ms)
  end.

Definition escape_char (a : ascii) : string :=
  match nat_of_ascii a with
  | 34 => String backslash (String dquote EmptyString)
  | 92 => String backslash (String backslash EmptyString)
  | 8 => String backslash "b"
  | 9 => String backslash "t"
  | 10 => String backslash "n"
  | 12 => String backslash "f"
  | 13 => String backslash "r"
  | n => if n <? 32
         then String backslash (String "u" (String "0" (String "0"
                (String (lower_char (hex_digit (n / 16))) (String (lower_char (hex_digit (n mod 16))) EmptyString)))))
         else String a EmptyString
  end.

Fixpoint escape (s : string) : string :=
  match s with EmptyString => EmptyString | String a s' => escape_char a +:+ escape s' end.

Definition quoted (s : string) : string := String dquote (escape s +:+ String dquote EmptyString).

Fixpoint json_stringify (d : doc) : string :=
  match d with
  | DStr s => quoted s
  | DArr ds => "[" +:+ join "," (json_stringify <$> ds) +:+ "]"
  | DObj ms => "{" +:+ join "," ((fun m => quoted (fst m) +:+ ":" +:+ json_stringify (snd m)) <$> ms) +:+ "}"
  end.

Example parse_mixed :
  json_parse (" {" +:+ quoted "a" +:+ ": [1, -2.50, true], " +:+ quoted "b" +:+ ": null} ") =
  Some (JObj [("a", JArr [JNum 1 0; JNum (-250) (-2); JBool true]); ("b", JNull)]).
Proof. reflexivity. Qed.
Example parse_surrogates :
  parse_string (String backslash ("ud83d" +:+ String backslash ("ude00" +:+ String dquote EmptyString))) =
  Some (utf8 128512, EmptyString).
Proof. reflexivity. Qed.

(** ** The round trip *)
Section DocInd.
Context (P : doc -> Prop) (HS : forall s, P (DStr s))
  (HA : forall ds, Forall P ds -> P (DArr ds))
  (HO : forall ms, Forall (fun m => P (snd m)) ms -> P (DObj ms)).

Fixpoint doc_induction (d : doc) : P d :=
  match d with
  | DStr s => HS s
  | DArr ds => HA ds ((fix go (l : list doc) : Forall P l :=
      match l with [] => Forall_nil_2 P | x :: l' => Forall_cons_2 P x l' (doc_induction x) (go l') end) ds)
  | DObj ms => HO ms ((fix go (l : list (string * doc)) : Forall (fun m => P (snd m)) l :=
      match l with
      | [] => Forall_nil_2 _
      | x :: l' => Forall_cons_2 (fun m => P (snd m)) x l' (doc_induction (snd x)) (go l')
      end) ms)
  end.
End DocInd.

Lemma parse_string_char c t :
  parse_string (escape_char c +:+ t) = prepend (String c EmptyString) (parse_string t).
Proof. destruct c as [[] [] [] [] [] [] [] []]; reflexivity. Qed.

Lemma parse_string_escape s rest :
  parse_string (escape s +:+ String dquote rest) = Some (s, rest).
Proof.
  induction s as [|c s IH]; [done|]. cbn [escape].
  rewrite append_assoc, parse_string_char, IH. done.
Qed.

(** The fuel a document needs. *)
Fixpoint dsize (d : doc) : nat :=
  match d with
  | DStr _ => 1
  | DArr ds => S (sum_list (S <$> (dsize <$> ds)))
  | DObj ms => S (sum_list (S <$> ((fun m => dsize (snd m)) <$> ms)))
  end.

Definition opens (s : string) : Prop :=
  exists c r, s = String c r /\ (c = dquote \/ c = "["%char \/ c = "{"%char).

Lemma stringify_opens d : opens (json_stringify d).
Proof. destruct d; eexists _, _; (split; [reflexivity|]); auto. Qed.

Lemma opens_app s t : opens s -> opens (s +:+ t).
Proof. intros (c & r & -> & H). exists c, (r +:+ t). by split. Qed.

Lemma opens_skip s : opens s -> skip_ws s = s.
Proof. intros (c & r & -> & [->|[->| ->]]); reflexivity. Qed.

Lemma opens_expect s a : opens s -> a = "]"%char \/ a = "}"%char -> expect a s = None.
Proof. intros (c & r & -> & [->|[->| ->]]) [->| ->]; reflexivity. Qed.

Definition parses (d : doc) : Prop :=
  forall n rest, dsize d <= n -> parse_value n (json_stringify d +:+ rest) = Some (to_json d, rest).

Lemma parse_elements_stringify ds d n rest :
  Forall parses (d :: ds) -> sum_list (S <$> (dsize <$> d :: ds)) <= n ->
  parse_elements n (join "," (json_stringify <$> d :: ds) +:+ String "]" rest) =
  Some (to_json <$> d :: ds, rest).
Proof.
  revert d n. induction ds as [|d' ds IH]; intros d n [Hd Hds]%Forall_cons Hn;
    rewrite !fmap_cons in Hn; cbn [sum_list sum_list_with foldr] in Hn;
    (destruct n as [|n]; [simpl in Hn; lia|]); cbn [parse_elements]; simpl in Hn.
  - rewrite !fmap_cons, !fmap_nil. cbn [join]. rewrite Hd by lia. reflexivity.
  - rewrite (fmap_cons json_stringify), fmap_cons, join_cons2, <- fmap_cons, !append_assoc.
    rewrite Hd by lia. cbn [mbind option_bind].
    change ("," +:+ ?x) with (String "," x).
    change (skip_ws (String "," ?x)) with (String "," x).
    change (Ascii.eqb "," ",") with true. cbv iota.
    rewrite IH; [reflexivity|done|]. rewrite !fmap_cons. simpl. lia.
Qed.

Definition member_str (m : string * doc) : string := quoted (fst m) +:+ ":" +:+ json_stringify (snd m).
Definition member_json (m : string * doc) : string * json := (fst m, to_json (snd m)).

Lemma parse_members_stringify ms m n rest :
  Forall (fun m => parses (snd m)) (m :: ms) ->
  sum_list (S <$> ((fun m => dsize (snd m)) <$> m :: ms)) <= n ->
  parse_members n (join "," (member_str <$> m :: ms) +:+ String "}" rest) =
  Some (member_json <$> m :: ms, rest).
Proof.
  revert m n. induction ms as [|m' ms IH]; intros m n [Hd Hds]%Forall_cons Hn;
    rewrite !fmap_cons in Hn; (destruct n as [|n]; [simpl in Hn; lia|]); simpl in Hn.
  - rewrite !fmap_cons, !fmap_nil. cbn [join]. unfold member_str at 1, quoted.
    rewrite !append_assoc. cbn [String.append parse_members].
    change (skip_ws (String dquote ?x)) with (String dquote x). rewrite expect_char. cbn [mbind option_bind].
    rewrite append_assoc. cbn [String.append]. rewrite parse_string_escape. cbn [mbind option_bind].
    change (skip_ws (String ":" ?x)) with (String ":" x). rewrite expect_char. cbn [mbind option_bind].
    rewrite Hd by lia. reflexivity.
  - rewrite (fmap_cons member_str), fmap_cons, join_cons2, <- fmap_cons.
    unfold member_str at 1, quoted. rewrite !append_assoc. cbn [String.append parse_members].
    change (skip_ws (String dquote ?x)) with (String dquote x). rewrite expect_char. cbn [mbind option_bind].
    rewrite !append_assoc. cbn [String.append]. rewrite parse_string_escape. cbn [mbind option_bind].
    change (skip_ws (String ":" ?x)) with (String ":" x). rewrite expect_char. cbn [mbind option_bind].
    rewrite Hd by lia. cbn [mbind option_bind].
    change (skip_ws (String "," ?x)) with (String "," x). change (Ascii.eqb "," ",") with true. cbv iota.
    rewrite IH; [reflexivity|done|]. rewrite !fmap_cons. simpl. lia.
Qed.

Lemma join_opens sep x l : opens x -> opens (join sep (x :: l)).
Proof. intros H. destruct l; [done|]. by apply opens_app. Qed.

Lemma parse_stringify d : parses d.
Proof.
  induction d as [s|ds IH|ms IH] using doc_induction; intros n rest Hn; (destruct n as [|n]; [simpl in Hn; lia|]).
  - cbn [json_stringify]. unfold quoted. cbn [String.append parse_value].
    change (skip_ws (String dquote ?x)) with (String dquote x). cbv zeta.
    change (Ascii.eqb dquote dquote) with true. cbv iota.
    rewrite append_assoc. cbn [String.append]. by rewrite parse_string_escape.
  - destruct ds as [|d ds]; [reflexivity|]. cbn [json_stringify dsize] in *.
    rewrite !append_assoc. cbn [String.append parse_value].
    change (skip_ws (String "[" ?x)) with (String "[" x). cbv zeta.
    change (Ascii.eqb "[" dquote) with false. change (Ascii.eqb "[" "[") with true. cbv iota.
    assert (Ho : opens (join "," (json_stringify <$> d :: ds) +:+ String "]" rest)).
    { apply opens_app. rewrite fmap_cons. apply join_opens, stringify_opens. }
    rewrite (opens_skip _ Ho), (opens_expect _ "]" Ho) by auto.
    rewrite (parse_elements_stringify ds d n rest IH); [reflexivity|lia].
  - destruct ms as [|m ms]; [reflexivity|]. cbn [json_stringify dsize] in *.
    change (fun m0 : string * doc => quoted m0.1 +:+ ":" +:+ json_stringify m0.2) with member_str.
    rewrite !append_assoc. cbn [String.append parse_value].
    change (skip_ws (String "{" ?x)) with (String "{" x). cbv zeta.
    change (Ascii.eqb "{" dquote) with false. change (Ascii.eqb "{" "[") with false.
    change (Ascii.eqb "{" "{") with true. cbv iota.
    assert (Ho : opens (join "," (member_str <$> m :: ms) +:+ String "}" rest)).
    { apply opens_app. rewrite fmap_cons. apply join_opens. eexists _, _. split; [reflexivity|auto]. }
    rewrite (opens_skip _ Ho), (opens_expect _ "}" Ho) by auto.
    rewrite (parse_members_stringify ms m n rest IH); [reflexivity|lia].
Qed.

Lemma length_append s t : String.length (s +:+ t) = String.length s + String.length t.
Proof. induction s as [|a s IH]; [done|]. simpl. by rewrite IH. Qed.

Lemma length_join (l : list string) (ns : list nat) :
  Forall2 (fun s m => m <= String.length s) l ns ->
  sum_list (S <$> ns) <= S (String.length (join "," l)).
Proof.
  induction 1 as [|s m l ns Hs Hl IH]; [simpl; lia|]. destruct Hl as [|s' m' l ns Hs' Hl].
  - simpl. lia.
  - rewrite join_cons2, !length_append, fmap_cons. simpl in *. lia.
Qed.

Lemma dsize_length d : dsize d <= String.length (json_stringify d).
Proof.
  induction d as [s|ds IH|ms IH] using doc_induction; cbn [dsize json_stringify].
  - simpl. lia.
  - rewrite !length_append. assert (H : Forall2 (fun s m => m <= String.length s)
      (json_stringify <$> ds) (dsize <$> ds)).
    { apply Forall2_fmap_l, Forall2_fmap_r, Forall_Forall2_diag. done. }
    apply length_join in H. simpl. lia.
  - rewrite !length_append. assert (H : Forall2 (fun s m => m <= String.length s)
      ((fun m => quoted (fst m) +:+ ":" +:+ json_stringify (snd m)) <$> ms) ((fun m => dsize (snd m)) <$> ms)).
    { apply Forall2_fmap_l, Forall2_fmap_r, Forall_Forall2_diag.
      eapply Forall_weaken; [exact IH|]. intros m Hm. cbn beta in *.
      enough (dsize (snd m) <= String.length (quoted (fst m) +:+ ":" +:+ json_stringify (snd m))) by done.
      rewrite !length_append. simpl. lia. }
    apply length_join in H.
    change (String.length "{") with 1. change (String.length "}") with 1. lia.
Qed.

(** Parsing what was printed gives the document back; the fuel of
    [json_parse], one more than the length of the text, suffices. *)
Lemma json_roundtrip d : json_parse (json_stringify d) = Some (to_json d).
Proof.
  unfold json_parse. rewrite <- (append_nil_r (json_stringify d)) at 2.
  rewrite parse_stringify; [done|]. pose proof (dsize_length d). lia.
Qed.
