(* ===== verification/Html.v ===== *)
(** * Rendered interfaces and the event loop

    A component of the console renders a tree of elements and reacts to the
    events that tree can produce.  [html E] is the rendered tree over an
    event type [E]: the structure, the texts, the controls with their
    [disabled] flags and their handlers; static class names and icon paths
    are presentation and are left out, a class that depends on the state is
    the [tone] of an element.  [offers h e] says that a user can produce
    [e] on [h]: through an enabled button, a clickable element, a text
    field, a select box.  The second part is the event loop: a component is
    a state, a handler of events that returns the new state and the effects
    it performs (requests, navigation, dialogs), and the guard that says
    which events can happen; [run] is its executions. *)
From S2P Require Import Prelude JsString.

Section Html.
Context {E : Type}.

Inductive html : Type :=
| Text (s : string)
| El (tag : string) (tone : string) (kids : list html)
| Button (disabled : bool) (onClick : option E) (kids : list html)
| Clickable (onClick : E) (kids : list html)
| Input (disabled : bool) (value : string) (onChange : string -> E)
| Select (value : string) (options : list (string * string)) (onChange : string -> E)
| Form (onSubmit : E) (kids : list html).

(** The events a user can produce on the rendered tree. *)
Inductive offers : html -> E -> Prop :=
| offers_in_El t c ks k e : k ∈ ks -> offers k e -> offers (El t c ks) e
| offers_click ks e : offers (Button false (Some e) ks) e
| offers_in_Button d o ks k e : k ∈ ks -> offers k e -> offers (Button d o ks) e
| offers_area e ks : offers (Clickable e ks) e
| offers_in_Clickable e' ks k e : k ∈ ks -> offers k e -> offers (Clickable e' ks) e
| offers_type v f s : offers (Input false v f) (f s)
| offers_choose v os f o : o ∈ os.*1 -> offers (Select v os f) (f o)
| offers_submit e ks : offers (Form e ks) e
| offers_in_Form e' ks k e : k ∈ ks -> offers k e -> offers (Form e' ks) e.

(** The texts shown, in document order. *)
Fixpoint texts (h : html) : list string :=
  let fix all (ks : list html) : list string :=
    match ks with [] => [] | k :: ks' => texts k ++ all ks' end in
  match h with
  | Text s => [s]
  | El _ _ ks | Button _ _ ks | Clickable _ ks | Form _ ks => all ks
  | Input _ v _ => [v]
  | Select _ os _ => os.*2
  end.

Lemma texts_El t c ks s : s ∈ texts (El t c ks) <-> Exists (fun k => s ∈ texts k) ks.
Proof.
  cbn [texts]. induction ks as [|k ks IH]; [rewrite Exists_nil; set_solver|].
  rewrite elem_of_app, Exists_cons, IH. done.
Qed.

Definition offers_any (ks : list html) (e : E) : Prop := Exists (fun k => offers k e) ks.

Ltac offers_inv :=
  unfold offers_any; rewrite ?Exists_exists; split;
  [inversion 1; simplify_eq; eauto 6
  |intros; destruct_or?; destruct_and?; simplify_eq; naive_solver eauto using offers].

Lemma offers_El t c ks e : offers (El t c ks) e <-> offers_any ks e.
Proof. offers_inv. Qed.
Lemma offers_Button d o ks e :
  offers (Button d o ks) e <-> (d = false /\ o = Some e) \/ offers_any ks e.
Proof. offers_inv. Qed.
Lemma offers_Clickable e' ks e : offers (Clickable e' ks) e <-> e = e' \/ offers_any ks e.
Proof. offers_inv. Qed.
Lemma offers_Form e' ks e : offers (Form e' ks) e <-> e = e' \/ offers_any ks e.
Proof. offers_inv. Qed.
Lemma offers_Text s e : offers (Text s) e <-> False.
Proof. split; [inversion 1|done]. Qed.
Lemma offers_Input d v f e : offers (Input d v f) e <-> d = false /\ exists s, e = f s.
Proof. offers_inv. Qed.
Lemma offers_Select v os f e : offers (Select v os f) e <-> exists o, o ∈ os.*1 /\ e = f o.
Proof. offers_inv. Qed.

Lemma offers_any_nil e : offers_any [] e <-> False.
Proof. unfold offers_any. by rewrite Exists_nil. Qed.
Lemma offers_any_cons k ks e : offers_any (k :: ks) e <-> offers k e \/ offers_any ks e.
Proof. unfold offers_any. by rewrite Exists_cons. Qed.
Lemma offers_any_app ks ls e :
  offers_any (ks ++ ls) e <-> offers_any ks e \/ offers_any ls e.
Proof. unfold offers_any. by rewrite Exists_app. Qed.
Lemma offers_any_map {X} (f : X -> html) xs e :
  offers_any (f <$> xs) e <-> exists x, x ∈ xs /\ offers (f x) e.
Proof.
  unfold offers_any. rewrite Exists_exists. split.
  - intros (k & (x & -> & Hx)%list_elem_of_fmap & Hk). eauto.
  - intros (x & Hx & Hk). exists (f x). split; [|done]. apply list_elem_of_fmap. eauto.
Qed.

(** A tree of elements and texts without controls offers nothing. *)
Fixpoint inert (h : html) : bool :=
  let fix all (ks : list html) : bool :=
    match ks with [] => true | k :: ks' => inert k && all ks' end in
  match h with
  | Text _ => true
  | El _ _ ks => all ks
  | _ => false
  end.

Lemma inert_offers h e : inert h = true -> ~ offers h e.
Proof.
  intros Hh He. revert Hh. induction He as
    [t c ks k e Hk He IH| | | | | | | | ]; try discriminate. intros Hh.
  apply IH. clear He IH. cbn [inert] in Hh. induction Hk as [k ks|k k' ks Hk IHk];
    apply andb_prop in Hh as [Hk' Hh]; [done|by apply IHk].
Qed.

(** Conditional rendering: [cond && <kid/>]. *)
Definition when (b : bool) (k : list html) : list html := if b then k else [].

Lemma offers_any_when b ks e : offers_any (when b ks) e <-> b = true /\ offers_any ks e.
Proof. destruct b; simpl; [|rewrite offers_any_nil]; naive_solver. Qed.

(** [opt && <kid/>]. *)
Definition when_some {X} (o : option X) (k : X -> list html) : list html :=
  match o with Some x => k x | None => [] end.

Lemma offers_any_when_some {X} (o : option X) k e :
  offers_any (when_some o k) e <-> exists x, o = Some x /\ offers_any (k x) e.
Proof. destruct o; simpl; [|rewrite offers_any_nil]; naive_solver. Qed.
End Html.

Arguments html : clear implicits.

(** A check box is a control with a click event. *)
Definition checkbox {E} (checked : bool) (e : E) : html E :=
  Button false (Some e) [Text (if checked then "[x]" else "[ ]")].

(** ** Embedding a component in another
    [map_events f h] renders [h] inside a component whose events include the
    image of [f]. *)
Section MapEvents.
Context {E F : Type} (f : E -> F).

Fixpoint map_events (h : html E) : html F :=
  let fix go (ks : list (html E)) : list (html F) :=
    match ks with [] => [] | k :: ks' => map_events k :: go ks' end in
  match h with
  | Text s => Text s
  | El t c ks => El t c (go ks)
  | Button d o ks => Button d (f <$> o) (go ks)
  | Clickable e ks => Clickable (f e) (go ks)
  | Input d v g => Input d v (fun x => f (g x))
  | Select v os g => Select v os (fun x => f (g x))
  | Form e ks => Form (f e) (go ks)
  end.

Lemma map_events_go ks :
  (fix go (ks : list (html E)) : list (html F) :=
     match ks with [] => [] | k :: ks' => map_events k :: go ks' end) ks = map_events <$> ks.
Proof. induction ks as [|k ks IH]; simpl; [done|]. by rewrite IH. Qed.

Definition maps_offers (h : html E) : Prop :=
  forall e, offers (map_events h) e <-> exists e', offers h e' /\ e = f e'.

Lemma offers_any_map_events ks e :
  Forall maps_offers ks ->
  offers_any (map_events <$> ks) e <-> exists e', offers_any ks e' /\ e = f e'.
Proof.
  intros Hks. rewrite offers_any_map. unfold offers_any. setoid_rewrite Exists_exists.
  rewrite Forall_forall in Hks. split.
  - intros (k & Hk & (e' & He & ->)%(Hks k Hk)). eauto 6.
  - intros (e' & (k & Hk & He) & ->). exists k. split; [done|]. apply (Hks k Hk). eauto.
Qed.

Fixpoint map_events_offers (h : html E) : maps_offers h.
Proof.
  assert (Hks : forall ks, Forall maps_offers ks -> forall e,
    offers_any (map_events <$> ks) e <-> exists e', offers_any ks e' /\ e = f e')
    by (intros; by apply offers_any_map_events).
  destruct h as [s|t c ks|d o ks|e0 ks|d v g|v os g|e0 ks]; intros e.
  - cbn [map_events]. rewrite offers_Text. setoid_rewrite offers_Text. naive_solver.
  - assert (Forall maps_offers ks) as HF by (induction ks; constructor; auto).
    cbn [map_events]. rewrite map_events_go, offers_El, Hks by done. by setoid_rewrite offers_El.
  - assert (Forall maps_offers ks) as HF by (induction ks; constructor; auto).
    cbn [map_events]. rewrite map_events_go, offers_Button, Hks by done.
    setoid_rewrite offers_Button. destruct o; simpl; naive_solver.
  - assert (Forall maps_offers ks) as HF by (induction ks; constructor; auto).
    cbn [map_events]. rewrite map_events_go, offers_Clickable, Hks by done.
    setoid_rewrite offers_Clickable. naive_solver.
  - cbn [map_events]. rewrite offers_Input. setoid_rewrite offers_Input. naive_solver.
  - cbn [map_events]. rewrite offers_Select. setoid_rewrite offers_Select.
    split; [intros (o & Ho & ->); eauto|intros (e' & (o & Ho & ->) & ->); eauto].
  - assert (Forall maps_offers ks) as HF by (induction ks; constructor; auto).
    cbn [map_events]. rewrite map_events_go, offers_Form, Hks by done.
    setoid_rewrite offers_Form. naive_solver.
Qed.

Lemma offers_embed ks e :
  offers_any (map_events <$> ks) e <-> exists e', offers_any ks e' /\ e = f e'.
Proof. apply offers_any_map_events, Forall_forall. intros k _. apply map_events_offers. Qed.
End MapEvents.

Lemma offers_checkbox {E} c (e e' : E) : offers (checkbox c e') e <-> e = e'.
Proof.
  unfold checkbox. rewrite offers_Button, offers_any_cons, offers_any_nil, offers_Text. naive_solver.
Qed.

Create Rewrite HintDb offers.
#[export] Hint Rewrite @offers_El @offers_Button @offers_Clickable @offers_Form @offers_Text
  @offers_Input @offers_Select @offers_any_nil @offers_any_cons @offers_any_app
  @offers_any_when @offers_any_when_some : offers.
#[export] Hint Rewrite @offers_checkbox @offers_embed @offers_any_map : offers.

(** Reduce a hypothesis that an interface offers an event to its cases. *)
Ltac offers_cases H :=
  autorewrite with offers in H;
  repeat match type of H with
  | _ \/ _ => destruct H as [H|H]
  | _ /\ _ => let H' := fresh H in destruct H as [H' H]
  | exists _, _ => let x := fresh "x" in destruct H as [x H]; autorewrite with offers in H
  | context [match ?x with (_, _) => _ end] =>
      is_var x; destruct x; cbn beta iota in H; autorewrite with offers in H
  | False => destruct H
  end; simplify_eq.

(** Find the control that produces an event. *)
Ltac offers_find :=
  lazymatch goal with
  | |- offers_any (_ :: _) _ =>
      rewrite offers_any_cons; first [solve [left; offers_find] | right; offers_find]
  | |- offers_any (_ ++ _) _ =>
      rewrite offers_any_app; first [solve [left; offers_find] | right; offers_find]
  | |- offers_any (when _ _) _ => rewrite offers_any_when; split; [done|offers_find]
  | |- offers_any (when_some (Some _) _) _ => cbn [when_some]; offers_find
  | |- offers_any (when_some _ _) _ =>
      rewrite offers_any_when_some; eexists; split; [eassumption|offers_find]
  | |- offers (El _ _ _) _ => rewrite offers_El; offers_find
  | |- offers (checkbox _ _) _ => rewrite offers_checkbox; reflexivity
  | |- offers (Button _ _ _) _ =>
      rewrite offers_Button; first [left; split; [done|reflexivity] | right; offers_find]
  | |- offers (Clickable _ _) _ =>
      rewrite offers_Clickable; first [left; reflexivity | right; offers_find]
  | |- offers (Form _ _) _ => rewrite offers_Form; first [left; reflexivity | right; offers_find]
  | |- offers (Input _ _ _) _ => rewrite offers_Input; split; [done|eexists; reflexivity]
  | |- offers (Select _ _ _) _ =>
      rewrite offers_Select; eexists; split; [|reflexivity]; apply (bool_decide_unpack _); vm_compute; exact I
  end.

(** ** The event loop *)
Section Machine.
Context {S E Q : Type}.
Context (enabled : S -> E -> Prop) (handle : E -> S -> S * list Q).

(** [run s0 es qs s]: from [s0] the events [es] lead to [s] and perform the
    effects [qs]. *)
Inductive run (s0 : S) : list E -> list Q -> S -> Prop :=
| run_nil : run s0 [] [] s0
| run_snoc es qs s e s' q :
    run s0 es qs s -> enabled s e -> handle e s = (s', q) ->
    run s0 (es ++ [e]) (qs ++ q) s'.

Definition reachable (s0 s : S) : Prop := exists es qs, run s0 es qs s.

Lemma run_invariant (I : S -> Prop) s0 es qs s :
  I s0 ->
  (forall s e, I s -> enabled s e -> I (fst (handle e s))) ->
  run s0 es qs s -> I s.
Proof.
  intros H0 Hstep. induction 1 as [|es qs s e s' q _ IH Hen Hh]; [done|].
  specialize (Hstep s e IH Hen). by rewrite Hh in Hstep.
Qed.

(** The same for the executions whose events satisfy [C]. *)
Lemma run_invariant_where (C : E -> Prop) (I : S -> Prop) s0 es qs s :
  I s0 ->
  (forall s e, I s -> enabled s e -> C e -> I (fst (handle e s))) ->
  Forall C es -> run s0 es qs s -> I s.
Proof.
  intros H0 Hstep Hes Hrun. induction Hrun as [|es qs s e s' q _ IH Hen Hh]; [done|].
  apply Forall_app in Hes as [Hes He]. rewrite Forall_singleton in He.
  specialize (Hstep s e (IH Hes) Hen He). by rewrite Hh in Hstep.
Qed.

(** An invariant that relates the state to the effects performed. *)
Lemma run_invariant_effects (I : list Q -> S -> Prop) s0 es qs s :
  I [] s0 ->
  (forall qs s e, I qs s -> enabled s e ->
    I (qs ++ snd (handle e s)) (fst (handle e s))) ->
  run s0 es qs s -> I qs s.
Proof.
  intros H0 Hstep. induction 1 as [|es qs s e s' q _ IH Hen Hh]; [done|].
  specialize (Hstep qs s e IH Hen). by rewrite Hh in Hstep.
Qed.

(** Every effect performed satisfies [P] when each handler's effects do in
    a state that satisfies the invariant. *)
Lemma run_effects (I : S -> Prop) (P : Q -> Prop) s0 es qs s :
  I s0 ->
  (forall s e, I s -> enabled s e ->
     I (fst (handle e s)) /\ Forall P (snd (handle e s))) ->
  run s0 es qs s -> I s /\ Forall P qs.
Proof.
  intros H0 Hstep. induction 1 as [|es qs s e s' q _ [IHs IHq] Hen Hh]; [by split|].
  destruct (Hstep s e IHs Hen) as [Hs Hq]. rewrite Hh in Hs, Hq.
  split; [done|]. by apply Forall_app.
Qed.

Lemma run_app s0 es qs s es' qs' s' :
  run s0 es qs s -> run s es' qs' s' -> run s0 (es ++ es') (qs ++ qs') s'.
Proof.
  intros H1. induction 1 as [|es' qs' s' e s'' q _ IH Hen Hh].
  - by rewrite !app_nil_r.
  - rewrite !app_assoc. by eapply run_snoc.
Qed.

(** Executing a list of events without looking at the guards. *)
Fixpoint exec (es : list E) (s : S) : S * list Q :=
  match es with
  | [] => (s, [])
  | e :: es' =>
      let '(s1, q1) := handle e s in
      let '(s2, q2) := exec es' s1 in (s2, q1 ++ q2)
  end.

Lemma exec_cons_state e es s : fst (exec (e :: es) s) = fst (exec es (fst (handle e s))).
Proof. simpl. destruct (handle e s) as [s1 q1]. simpl. by destruct (exec es s1). Qed.

(** All guards hold along the execution. *)
Fixpoint all_enabled (es : list E) (s : S) : Prop :=
  match es with
  | [] => True
  | e :: es' => enabled s e /\ all_enabled es' (fst (handle e s))
  end.

Lemma exec_run es s : all_enabled es s -> run s es (snd (exec es s)) (fst (exec es s)).
Proof.
  revert s. induction es as [|e es IH]; intros s; simpl; [by constructor|].
  intros [Hen Hes]. destruct (handle e s) as [s1 q1] eqn:Eh. simpl in *.
  specialize (IH _ Hes). destruct (exec es s1) as [s2 q2]. simpl in *.
  apply (run_app s [e] q1 s1 es); [|done].
  apply (run_snoc s [] [] s e s1 q1); [constructor|done|done].
Qed.
End Machine.

(** ** Requests in flight
    Every [await] of a handler is a ticket with its continuation; the event
    that settles the request names the ticket. *)
Section Flight.
Context {K : Type}.

Record flight := Flight { fl_map : gmap nat K; fl_next : nat }.

Definition fl_empty : flight := Flight ∅ 0.
Definition fl_await (k : K) (f : flight) : flight :=
  Flight (<[fl_next f := k]> (fl_map f)) (S (fl_next f)).
Definition fl_forget (i : nat) (f : flight) : flight := Flight (delete i (fl_map f)) (fl_next f).

Lemma fl_await_lookup k f i k' :
  fl_map (fl_await k f) !! i = Some k' <->
  (fl_next f = i /\ k = k') \/ (fl_next f <> i /\ fl_map f !! i = Some k').
Proof. apply lookup_insert_Some. Qed.
Lemma fl_forget_lookup i f j k :
  fl_map (fl_forget i f) !! j = Some k <-> i <> j /\ fl_map f !! j = Some k.
Proof. apply lookup_delete_Some. Qed.

(** The tickets are below the counter, so a new one is fresh. *)
Definition fl_ok (f : flight) : Prop := forall i k, fl_map f !! i = Some k -> i < fl_next f.

Lemma fl_ok_empty : fl_ok fl_empty.
Proof. intros i k H. simpl in H. by rewrite lookup_empty in H. Qed.
Lemma fl_ok_await k f : fl_ok f -> fl_ok (fl_await k f).
Proof. intros H i k' [[<- _]|[_ Hi%H]]%fl_await_lookup; simpl; lia. Qed.
Lemma fl_ok_forget i f : fl_ok f -> fl_ok (fl_forget i f).
Proof. intros H j k [_ Hj%H]%fl_forget_lookup. done. Qed.

(** Tickets that satisfy [P]. *)
Definition fl_with (P : K -> bool) (f : flight) : Prop :=
  exists i k, fl_map f !! i = Some k /\ P k = true.

Lemma fl_with_await P k f : P k = false -> fl_ok f -> fl_with P (fl_await k f) <-> fl_with P f.
Proof.
  intros HP Hok. split; intros (i & k' & Hi & Hk).
  - apply fl_await_lookup in Hi as [[_ ->]|[_ Hi]]; [congruence|]. by exists i, k'.
  - exists i, k'. split; [|done]. apply fl_await_lookup. right. split; [|done].
    specialize (Hok _ _ Hi). lia.
Qed.

Lemma fl_with_forget P i f : fl_with P (fl_forget i f) -> fl_with P f.
Proof. intros (j & k & [_ Hj]%fl_forget_lookup & Hk). by exists j, k. Qed.

Lemma fl_with_forget_other P i k f :
  fl_map f !! i = Some k -> P k = false -> fl_with P (fl_forget i f) <-> fl_with P f.
Proof.
  intros Hi HP. split; [apply fl_with_forget|]. intros (j & k' & Hj & Hk). exists j, k'.
  split; [|done]. apply fl_forget_lookup. split; [|done]. intros ->. congruence.
Qed.

Lemma fl_with_await_self P k f : P k = true -> fl_with P (fl_await k f).
Proof. intros HP. exists (fl_next f), k. split; [apply fl_await_lookup; auto|done]. Qed.

(** At most one ticket satisfies [P]. *)
Definition fl_single (P : K -> bool) (f : flight) : Prop :=
  forall i j k k', fl_map f !! i = Some k -> fl_map f !! j = Some k' ->
    P k = true -> P k' = true -> i = j.

Lemma fl_single_await P k f :
  (P k = true -> ~ fl_with P f) -> fl_single P f -> fl_single P (fl_await k f).
Proof.
  intros HP Hs i j k1 k2 Hi Hj H1 H2.
  apply fl_await_lookup in Hi as [[<- <-]|[_ Hi]], Hj as [[<- <-]|[_ Hj]]; [done|..].
  - destruct (HP H1). by exists j, k2.
  - destruct (HP H2). by exists i, k1.
  - by eapply Hs.
Qed.

Lemma fl_single_forget P i f : fl_single P f -> fl_single P (fl_forget i f).
Proof.
  intros Hs i' j k k' [_ Hi]%fl_forget_lookup [_ Hj]%fl_forget_lookup. by apply Hs.
Qed.

(** Settling the only such ticket leaves none. *)
Lemma fl_single_settle P i k f :
  fl_single P f -> fl_map f !! i = Some k -> P k = true -> ~ fl_with P (fl_forget i f).
Proof.
  intros Hs Hi HP (j & k' & [Hne Hj]%fl_forget_lookup & HP'). apply Hne. by eapply Hs.
Qed.

(** A flag of the component that is up exactly while such a ticket is
    outstanding, and there is at most one. *)
Definition fl_flag (P : K -> bool) (b : bool) (f : flight) : Prop :=
  fl_ok f /\ fl_single P f /\ (b = true <-> fl_with P f).

Lemma fl_flag_empty P : fl_flag P false fl_empty.
Proof.
  split_and!; [apply fl_ok_empty|intros i j k k' H; simpl in H; by rewrite lookup_empty in H|].
  split; [done|]. intros (i & k & H & _). simpl in H. by rewrite lookup_empty in H.
Qed.

Lemma fl_flag_raise P k f : P k = true -> fl_flag P false f -> fl_flag P true (fl_await k f).
Proof.
  intros HP (H1 & H2 & H3). assert (Hno : ~ fl_with P f) by (intros Hw; by apply H3 in Hw).
  split_and!; [by apply fl_ok_await|by apply fl_single_await|]. split; [|done].
  intros _. by apply fl_with_await_self.
Qed.

Lemma fl_flag_lower P b i k f :
  fl_map f !! i = Some k -> P k = true -> fl_flag P b f -> fl_flag P false (fl_forget i f).
Proof.
  intros Hi HP (H1 & H2 & _). split_and!; [by apply fl_ok_forget|by apply fl_single_forget|].
  split; [done|]. intros Hw. exfalso. revert Hw. by eapply fl_single_settle.
Qed.

Lemma fl_flag_await P b k f : P k = false -> fl_flag P b f -> fl_flag P b (fl_await k f).
Proof.
  intros HP (H1 & H2 & H3). unfold fl_flag. rewrite fl_with_await by done.
  split_and!; [by apply fl_ok_await|apply fl_single_await; [congruence|done]|apply H3..].
Qed.

Lemma fl_flag_forget P b i k f :
  fl_map f !! i = Some k -> P k = false -> fl_flag P b f -> fl_flag P b (fl_forget i f).
Proof.
  intros Hi HP (H1 & H2 & H3). unfold fl_flag. rewrite (fl_with_forget_other _ _ k) by done.
  split_and!; [by apply fl_ok_forget|by apply fl_single_forget|apply H3..].
Qed.

Lemma fl_flag_free P i k f : fl_flag P false f -> fl_map f !! i = Some k -> P k = false.
Proof.
  intros (_ & _ & H3) Hi. destruct (P k) eqn:E; [|done].
  assert (Hw : fl_with P f) by (by exists i, k). by apply H3 in Hw.
Qed.
End Flight.
Arguments flight : clear implicits.
#[export] Hint Resolve fl_ok_empty fl_ok_await fl_ok_forget fl_single_forget fl_flag_empty : soc.
