(* ===== verification/Types.v ===== *)
(** * Domain interfaces ([src/types/index.ts], [src/shared/types/index.ts])

    One record per interface and one inductive type per union of string
    literals, with the field and constructor names of the source (a field
    carries its interface's name as a prefix).  Numbers are integers, a
    CVSS score is a rational number, and optional fields are [option]s. *)
From Stdlib Require Import QArith.
From S2P Require Import Prelude JsString.

(** ** Core platform *)
Record Alert := { alert_id : string; alert_type : string; alert_severity : Z }.

Inductive Risk := READ_ONLY | LOW_IMPACT_WRITE | HIGH_IMPACT_WRITE | DESTRUCTIVE.

(** The literal a risk is written as on the wire. *)
Definition risk_str (r : Risk) : string :=
  match r with
  | READ_ONLY => "READ_ONLY"
  | LOW_IMPACT_WRITE => "LOW_IMPACT_WRITE"
  | HIGH_IMPACT_WRITE => "HIGH_IMPACT_WRITE"
  | DESTRUCTIVE => "DESTRUCTIVE"
  end.

Record ActionInfo := {
  action_action : string;
  action_target : string;
  action_justification : string;
  action_risk : Risk }.

Record LogEntry := { log_agent : string; log_message : string; log_confidence : Z }.

Inductive NodeStatus := NodeSuccess | NodeRunning | NodeFailed.

Record GraphNode := {
  gnode_id : string;
  gnode_label : string;
  gnode_type : option string;
  gnode_properties : option string;
  gnode_status : NodeStatus }.

Record GraphEdge := {
  gedge_source_id : string; gedge_target_id : string; gedge_relation : string }.

Record InvestigationData := {
  inv_nodes : list GraphNode;
  inv_edges : list GraphEdge;
  inv_source_ip : option string;
  inv_conversation_log : list LogEntry;
  inv_proposed_actions : list ActionInfo }.

Record Playbook := {
  pb_id : string; pb_name : string; pb_trigger : string; pb_code : string }.

Record SystemMetrics := {
  sm_alertsScanned : Z;
  sm_eventsIngestGB24h : Z;
  sm_dataIngestTB24h : Z;
  sm_openIncidents : Z;
  sm_preventedEvents : Z }.

Inductive NotificationSeverity := NInfo | NWarning | NCritical.

Record NotificationItem := {
  notif_id : string;
  notif_message : string;
  notif_severity : NotificationSeverity;
  notif_timestamp : string;
  notif_read : bool }.

Record AnalystIdentity := {
  analyst_email : string;
  analyst_name : string;
  analyst_role : string;
  analyst_avatar_url : option string }.

Inductive ConnectionStatus := Connecting | Live | Reconnecting | Disconnected.

(** ** Assets *)
Inductive AssetType := Server | Workstation | NetworkDevice | CloudResource.
Inductive AssetCriticality := Tier1 | Tier2 | Tier3 | Untiered.

Record Asset := {
  asset_id : string;
  asset_hostname : string;
  asset_ipAddress : string;
  asset_type : AssetType;
  asset_owner : string;
  asset_criticality : AssetCriticality;
  asset_lastSeen : string }.

Record NetworkMapNode := {
  nm_id : string;
  nm_label : string;
  nm_type : string;
  nm_hasActiveAlert : bool;
  nm_x : Z;
  nm_y : Z;
  nm_subnet : string }.

Record NetworkMapEdge := { nme_source : string; nme_target : string }.

(** ** Vulnerabilities *)
Inductive VulnSeverity := VCritical | VHigh | VMedium | VLow.
Inductive PatchStatus := Unpatched | InProgress | Patched | AcceptedRisk.

Record Vulnerability := {
  vuln_id : string;
  vuln_cveId : string;
  vuln_affectedAsset : string;
  vuln_affectedAssetId : string;
  vuln_cvssScore : Q;
  vuln_severity : VulnSeverity;
  vuln_patchStatus : PatchStatus;
  vuln_discoveredAt : string;
  vuln_description : string }.

(** ** Detection *)
Inductive RuleSeverity := RCritical | RHigh | RMedium | RLow.

Record DetectionRule := {
  rule_id : string;
  rule_name : string;
  rule_severity : RuleSeverity;
  rule_enabled : bool;
  rule_lastTriggered : option string;
  rule_isAutoResponse : bool;
  rule_description : string }.

Inductive FeedHealth := FeedHealthy | FeedDegraded | FeedDown.

Record ThreatFeed := {
  feed_id : string;
  feed_name : string;
  feed_type : string;
  feed_health : FeedHealth;
  feed_lastSync : string;
  feed_iocVolume7d : list Z;
  feed_authFailed : option bool }.

Inductive Verdict := Malicious | Suspicious | Clean | Unknown.

Record IocResult := {
  ioc_ioc : string;
  ioc_type : string;
  ioc_verdict : Verdict;
  ioc_sourceFeed : string;
  ioc_confidence : Z;
  ioc_lastSeen : string }.

(** ** Endpoints *)
Inductive AgentHealth := Healthy | Stale | Outdated | Offline.
Inductive EventType := ProcessExec | FileModification | RegistryChange | NetworkConnection.

Record ManagedHost := {
  host_id : string;
  host_hostname : string;
  host_os : string;
  host_agentVersion : string;
  host_latestVersion : string;
  host_health : AgentHealth;
  host_lastCheckIn : string }.

Inductive AuditAction := Isolated | Released.

Record AuditEntry := {
  audit_action : AuditAction; audit_by : string; audit_at : string;
  audit_justification : string }.

Record EndpointHost := {
  ep_id : string;
  ep_hostname : string;
  ep_ipAddress : string;
  ep_isIsolated : bool;
  ep_isolatedAt : option string;
  ep_isolatedBy : option string;
  ep_auditTrail : list AuditEntry }.

Record EdrLogEntry := {
  edr_id : string;
  edr_host : string;
  edr_eventType : EventType;
  edr_timestamp : string;
  edr_process : string;
  edr_detail : string;
  edr_isSuspicious : bool }.

(** ** Incidents *)
Record Incident := {
  inc_id : string;
  inc_title : string;
  inc_severity : string;
  inc_status : string;
  inc_createdAt : string;
  inc_assignedTo : string;
  inc_linkedAlerts : Z }.

Record ClosedIncident := {
  cinc_id : string;
  cinc_title : string;
  cinc_severity : string;
  cinc_closedAt : string;
  cinc_resolvedBy : string;
  cinc_duration : string;
  cinc_postIncidentSummary : string }.

(** ** Dashboards and marketplace *)
Record KPIData := {
  kpi_totalIncidents : Z;
  kpi_mttd_minutes : Z;
  kpi_mttr_minutes : Z;
  kpi_criticalOpenCount : Z;
  kpi_resolvedThisMonth : Z;
  kpi_riskTrend : list (string * Z);
  kpi_topThreats : list (string * Z) }.

Inductive ControlStatus := ControlPassed | ControlFailed | ControlWarning.

Record ComplianceControl := {
  ctl_id : string;
  ctl_name : string;
  ctl_status : ControlStatus;
  ctl_lastChecked : string;
  ctl_notes : option string }.

Inductive FrameworkStatus := Compliant | FrameworkWarning | NonCompliant.

Record ComplianceFramework := {
  fw_id : string;
  fw_framework : string;
  fw_score : Z;
  fw_status : FrameworkStatus;
  fw_controls : list ComplianceControl }.

Inductive ListingStatus := Installed | NotInstalled | UpdateAvailable.

Record MarketplaceListing := {
  mk_id : string;
  mk_name : string;
  mk_publisher : string;
  mk_category : string;
  mk_status : ListingStatus;
  mk_requiresElevated : bool;
  mk_tags : list string;
  mk_description : string }.

(** ** Sessions and roles ([shared/types]) *)
Record User := {
  user_id : string; user_email : string; user_name : string; user_role : string }.

(** ** Decidable equality *)
#[export] Instance Risk_eq_dec : EqDecision Risk.
Proof. solve_decision. Defined.
#[export] Instance Alert_eq_dec : EqDecision Alert.
Proof. solve_decision. Defined.
#[export] Instance ActionInfo_eq_dec : EqDecision ActionInfo.
Proof. solve_decision. Defined.
#[export] Instance LogEntry_eq_dec : EqDecision LogEntry.
Proof. solve_decision. Defined.
#[export] Instance AgentHealth_eq_dec : EqDecision AgentHealth.
Proof. solve_decision. Defined.
#[export] Instance EventType_eq_dec : EqDecision EventType.
Proof. solve_decision. Defined.
#[export] Instance FeedHealth_eq_dec : EqDecision FeedHealth.
Proof. solve_decision. Defined.
#[export] Instance VulnSeverity_eq_dec : EqDecision VulnSeverity.
Proof. solve_decision. Defined.
#[export] Instance PatchStatus_eq_dec : EqDecision PatchStatus.
Proof. solve_decision. Defined.
#[export] Instance RuleSeverity_eq_dec : EqDecision RuleSeverity.
Proof. solve_decision. Defined.
#[export] Instance Verdict_eq_dec : EqDecision Verdict.
Proof. solve_decision. Defined.
#[export] Instance AuditAction_eq_dec : EqDecision AuditAction.
Proof. solve_decision. Defined.
#[export] Instance AuditEntry_eq_dec : EqDecision AuditEntry.
Proof. solve_decision. Defined.
#[export] Instance ControlStatus_eq_dec : EqDecision ControlStatus.
Proof. solve_decision. Defined.
#[export] Instance FrameworkStatus_eq_dec : EqDecision FrameworkStatus.
Proof. solve_decision. Defined.
#[export] Instance ListingStatus_eq_dec : EqDecision ListingStatus.
Proof. solve_decision. Defined.
#[export] Instance EndpointHost_eq_dec : EqDecision EndpointHost.
Proof. solve_decision. Defined.

#[export] Instance risk_str_inj : Inj (=) (=) risk_str.
Proof. by intros [] []. Qed.
