(* ===== verification/Http.v ===== *)
(** * HTTP client, session guard and login
      ([shared/api/apiClient.ts], [shared/auth/tokenService.ts],
       [features/auth/ui/ProtectedRoute.tsx], [features/auth/ui/Login.tsx])


    Requests are answered by the backend, which the model does not contain:
    a request settles with [HttpOk] or [HttpErr].  The response interceptor
    of the client turns a 401 and a 403 into a browser navigation before the
    error reaches the caller; the session guard renders the protected pages
    only after [/auth/session] answered; the login page reads the page to
    return to from its query string. *)
From S2P Require Import Prelude JsString Html.

(** An [axios] error: the status and [detail] of a response, if there was
    one, and the error's message. *)
Record http_error := HttpError {
  he_status : option Z; he_detail : option string; he_message : option string }.

Inductive http_result (D : Type) := HttpOk (data : D) | HttpErr (e : http_error).
Arguments HttpOk {D}. Arguments HttpErr {D}.

(** [err.response?.data?.detail || fallback] *)
Definition detail_or (e : http_error) (d : string) : string := or_str (he_detail e) d.

(** ** [apiClient] *)
Record request_config := ReqConfig { cfg_headers : list (string * string) }.

(** The request interceptor: [randomUUID], when the browser has it, else the
    base-36 random string, becomes the correlation header. *)
Definition request_interceptor (uuid : option string) (random36 : string)
    (c : request_config) : request_config :=
  ReqConfig (("X-Correlation-ID", nullish uuid random36) ::
    filter (fun h => h.1 <> "X-Correlation-ID") (cfg_headers c)).

(** [tokenService]: every member is a stub. *)
Definition tokenService_getToken : option string := None.
Definition tokenService_isTokenExpired (_ : string) : bool := true.

Definition login_redirect (pathname : string) : string :=
  "/login?redirect=" +:+ encodeURIComponent pathname.

(** The error handler of the response interceptor: the URL assigned to
    [window.location.href], if any; the error is rethrown in every case. *)
Definition response_error (pathname : string) (e : http_error) : option string :=
  if bool_decide (he_status e = Some 401%Z) then
    (if bool_decide (pathname <> "/login") then Some (login_redirect pathname) else None)
  else if bool_decide (he_status e = Some 403%Z) then Some "/unauthorized"
  else None.

(** ** [ProtectedRoute] *)
Record guard_state := GuardState {
  gs_isVerifying : bool; gs_userRole : option string; gs_isValid : bool }.

Definition guard_init : guard_state := GuardState true None false.

(** What [res.data] holds: the user may be missing, and so may its role. *)
Record session := Session { se_user : option (option string) }.

(** [verifySession]: a response without a user makes [res.data.user.role]
    throw, which the [catch] treats as an invalid session. *)
Definition verifySession (r : http_result session) (s : guard_state) : guard_state :=
  match r with
  | HttpOk (Session (Some role)) => GuardState false role true
  | HttpOk (Session None) | HttpErr _ => GuardState false (gs_userRole s) false
  end.

Inductive guard_view := Verifying | Redirect (to : string) | Children.

Definition render_guard (allowedRoles : option (list string)) (pathname : string)
    (s : guard_state) : guard_view :=
  if gs_isVerifying s then Verifying
  else if negb (gs_isValid s) then Redirect (login_redirect pathname)
  else match allowedRoles, gs_userRole s with
       | Some roles, Some role =>
           if negb (bool_decide (role = EmptyString)) && negb (bool_decide (role ∈ roles))
           then Redirect "/unauthorized" else Children
       | _, _ => Children
       end.

Inductive guard_event := SessionAnswer (r : http_result session).

Definition guard_handle (e : guard_event) (s : guard_state) : guard_state * list unit :=
  match e with SessionAnswer r => (verifySession r s, []) end.

(** ** [Login] *)
Definition url_search (url : string) : string :=
  match cut "?" url with Some (_, q) => "?" +:+ q | None => EmptyString end.

(** [new URLSearchParams(search).get('redirect') || '/'] *)
Definition redirect_target (search : string) : string :=
  or_str (search_get "redirect" search) "/".

(** [checkSession]: navigate when the session is valid, stay otherwise. *)
Definition checkSession (search : string) (r : http_result session) : option string :=
  match r with HttpOk _ => Some (redirect_target search) | HttpErr _ => None end.

Inductive login_event := SignIn.

Definition login_view : html login_event :=
  El "div" "" [
    El "h1" "" [Text "Agentic SOC Platform"];
    El "p" "" [Text "Advanced Multi-Tenant SIEM & SOAR"];
    Button false (Some SignIn) [Text "Sign in with Corporate Google"];
    El "p" "" [Text "Restricted Access. Authorized Personnel Only."]].

(** The OAuth URL assigned by the sign-in button. *)
Definition sign_in_url (search : string) : string :=
  "/api/auth/google/login?redirect=" +:+ encodeURIComponent (redirect_target search).

(** ** Properties *)

Lemma login_redirect_search p : url_search (login_redirect p) = "?redirect=" +:+ encodeURIComponent p.
Proof. done. Qed.

Lemma redirect_target_encoded p :
  p <> EmptyString -> redirect_target ("?redirect=" +:+ encodeURIComponent p) = p.
Proof.
  intros Hp. unfold redirect_target.
  change ("?redirect=" +:+ encodeURIComponent p)
    with ("?" +:+ "redirect" +:+ "=" +:+ encodeURIComponent p).
  rewrite search_get_encoded by done. simpl. by rewrite bool_decide_eq_false_2.
Qed.

(** C34: a page that was refused for lack of a session is the page the login
    screen returns to: the path survives the encoding in the redirect URL,
    the parsing of the query string, and the second encoding into the OAuth
    URL, for every path. *)
Theorem login_roundtrip p :
  p <> EmptyString ->
  checkSession (url_search (login_redirect p)) (HttpOk (Session None)) = Some p /\
  redirect_target (url_search (sign_in_url (url_search (login_redirect p)))) = p.
Proof.
  intros Hp. rewrite login_redirect_search. unfold checkSession, sign_in_url.
  rewrite redirect_target_encoded by done. split; [done|].
  by apply redirect_target_encoded.
Qed.

(** The client never builds a redirect loop: an error answered on the
    login page itself never navigates to the login page, and on any other
    page a 401 goes to the login page with that page as its return address,
    a 403 to the refusal page, and any other failure stays. *)
Lemma response_error_spec pathname e :
  (he_status e = Some 401%Z -> pathname <> "/login" ->
     response_error pathname e = Some (login_redirect pathname)) /\
  (he_status e = Some 401%Z -> pathname = "/login" -> response_error pathname e = None) /\
  (he_status e = Some 403%Z -> response_error pathname e = Some "/unauthorized") /\
  (he_status e <> Some 401%Z -> he_status e <> Some 403%Z -> response_error pathname e = None).
Proof.
  unfold response_error. repeat split; intros; repeat case_bool_decide; congruence.
Qed.

(** C9: the protected pages are rendered only after the backend confirmed a
    session with a user; before the answer the guard shows the verification
    screen, and after a refusal it redirects to the login page. *)
Theorem guard_requires_session allowed pathname es qs s :
  run (fun _ _ => True) guard_handle guard_init es qs s ->
  match render_guard allowed pathname s with
  | Children => exists role, SessionAnswer (HttpOk (Session (Some role))) ∈ es
  | Verifying => es = []
  | Redirect to => to = login_redirect pathname \/ to = "/unauthorized"
  end.
Proof.
  intros H.
  assert (Hinv : (gs_isVerifying s = true -> es = []) /\
    (gs_isValid s = true -> exists role, SessionAnswer (HttpOk (Session (Some role))) ∈ es)).
  { induction H as [|es qs s e s' q _ [IH1 IH2] _ Hh]; [done|].
    destruct e as [[[[role|]]|e]]; simpl in Hh; simplify_eq/=; split; try done.
    intros _. exists role. set_solver. }
  destruct Hinv as [Hv Hr]. unfold render_guard.
  destruct (gs_isVerifying s); [by apply Hv|]. destruct (gs_isValid s); simpl; [|by left].
  destruct allowed as [roles|], (gs_userRole s) as [role|]; auto.
  destruct (negb _ && negb _); auto.
Qed.

(** With a list of allowed roles, a user whose session has a role outside
    the list is refused, but a session without a role (or with an empty one)
    passes the guard. *)
Lemma guard_role_check roles pathname role :
  render_guard (Some roles) pathname (GuardState false role true) =
  match role with
  | Some r => if bool_decide (r <> EmptyString /\ r ∉ roles) then Redirect "/unauthorized"
              else Children
  | None => Children
  end.
Proof.
  unfold render_guard; simpl. destruct role as [r|]; [|done].
  destruct (bool_decide (r = EmptyString)) eqn:E1, (bool_decide (r ∈ roles)) eqn:E2;
    bool_to_prop; simpl; case_bool_decide; naive_solver.
Qed.

Lemma login_roundtrip_witness :
  checkSession (url_search (login_redirect "/investigations/INC 7&x=1")) (HttpOk (Session None))
    = Some "/investigations/INC 7&x=1" /\
  login_redirect "/dashboard" = "/login?redirect=%2Fdashboard".
Proof. split; [apply (login_roundtrip "/investigations/INC 7&x=1"); discriminate|reflexivity]. Defined.

Lemma guard_requires_session_witness :
  let es := [SessionAnswer (HttpOk (Session (Some (Some "analyst"))))] in
  exists role, SessionAnswer (HttpOk (Session (Some role))) ∈ es.
Proof.
  refine (guard_requires_session (Some ["analyst"]) "/" _ []
    (GuardState false (Some "analyst") true) _).
  apply (run_snoc _ _ _ [] [] guard_init); [constructor|done|reflexivity].
Defined.
