(* ===== verification/Routing.v ===== *)
(** * Routes and navigation ([shared/config/routes.ts],
      [shared/config/navigation.ts], [App.tsx])

    The registry of paths, the side bar's tree, and the routes of the
    application with the layout each is nested in.  Matching a path against
    a pattern is [react-router]'s; what is modelled is which element a
    matched route renders, behind which layout, with the session guard of
    [Http]. *)
From S2P Require Import Prelude JsString Html Http.

(** ** [ROUTES] *)
Module ROUTES.
Definition root : string := "/".
Definition login : string := "/login".
Definition dashboard_overview : string := "/dashboard/overview".
Definition dashboard_executive : string := "/dashboard/executive".
Definition dashboard_compliance : string := "/dashboard/compliance".
Definition incidents_active : string := "/incidents/active".
Definition incidents_closed : string := "/incidents/closed".
Definition incidents_warRoom : string := "/incidents/war-room".
Definition detection_rules : string := "/detection/rules".
Definition detection_feeds : string := "/detection/feeds".
Definition detection_ioc : string := "/detection/ioc".
Definition assets_inventory : string := "/assets/inventory".
Definition assets_vulnerabilities : string := "/assets/vulnerabilities".
Definition assets_networkMap : string := "/assets/network-map".
Definition endpoints_hosts : string := "/endpoints/hosts".
Definition endpoints_edr : string := "/endpoints/edr".
Definition endpoints_isolation : string := "/endpoints/isolation".
Definition marketplace : string := "/marketplace".
Definition settings : string := "/settings".
Definition profile : string := "/profile".

End ROUTES.

(** Every path of the registry. *)
Definition ROUTES_all : list string :=
  [ROUTES.root; ROUTES.login; ROUTES.dashboard_overview; ROUTES.dashboard_executive; ROUTES.dashboard_compliance;
   ROUTES.incidents_active; ROUTES.incidents_closed; ROUTES.incidents_warRoom;
   ROUTES.detection_rules; ROUTES.detection_feeds; ROUTES.detection_ioc;
   ROUTES.assets_inventory; ROUTES.assets_vulnerabilities; ROUTES.assets_networkMap;
   ROUTES.endpoints_hosts; ROUTES.endpoints_edr; ROUTES.endpoints_isolation; ROUTES.marketplace; ROUTES.settings; ROUTES.profile].

(** ** [NAV_GROUPS] *)
Record NavSubItem := MkNavSubItem { nav_label : string; nav_path : string }.
Record NavGroup := MkNavGroup { group_label : string; group_items : list NavSubItem }.

Definition NAV_GROUPS : list NavGroup :=
  [MkNavGroup "Dashboards & Reports"
     [MkNavSubItem "Overview" ROUTES.dashboard_overview;
      MkNavSubItem "Executive Summary" ROUTES.dashboard_executive;
      MkNavSubItem "Compliance" ROUTES.dashboard_compliance];
   MkNavGroup "Incident Response"
     [MkNavSubItem "Active Incidents" ROUTES.incidents_active;
      MkNavSubItem "Closed Incidents" ROUTES.incidents_closed;
      MkNavSubItem "War Room" ROUTES.incidents_warRoom];
   MkNavGroup "Detection & Threat Intel"
     [MkNavSubItem "Alert Rules" ROUTES.detection_rules;
      MkNavSubItem "Threat Feeds" ROUTES.detection_feeds;
      MkNavSubItem "IOC Search" ROUTES.detection_ioc];
   MkNavGroup "Assets"
     [MkNavSubItem "Inventory" ROUTES.assets_inventory;
      MkNavSubItem "Vulnerabilities" ROUTES.assets_vulnerabilities;
      MkNavSubItem "Network Map" ROUTES.assets_networkMap];
   MkNavGroup "Endpoints"
     [MkNavSubItem "Host Management" ROUTES.endpoints_hosts;
      MkNavSubItem "EDR Logs" ROUTES.endpoints_edr;
      MkNavSubItem "Isolation Controls" ROUTES.endpoints_isolation]].

(** ** [App] *)
Inductive layout := NoLayout | PublicLayout | ProtectedLayout.
#[export] Instance layout_eq_dec : EqDecision layout.
Proof. solve_decision. Defined.

Inductive element := Page (component : string) | NavigateTo (path : string).
#[export] Instance element_eq_dec : EqDecision element.
Proof. solve_decision. Defined.

Record route := Route { rt_layout : layout; rt_path : string; rt_element : element }.

#[export] Instance route_eq_dec : EqDecision route.
Proof. solve_decision. Defined.

Definition protected (path : string) (e : element) : route := Route ProtectedLayout path e.

Definition App : list route :=
  [Route NoLayout "/login" (Page "Login");
   Route NoLayout "/unauthorized" (Page "UnauthorizedPage");
   Route PublicLayout "/documentation" (Page "DocumentationPage");
   protected "/" (Page "CommandCenter");
   protected "/investigations" (NavigateTo "/incidents/active");
   protected "/investigations/:id" (Page "InvestigationDashboard");
   protected "/playbooks" (Page "PlaybookSandbox");
   protected "/dashboard/overview" (Page "OverviewPage");
   protected "/dashboard/executive" (Page "ExecutiveDashboardPage");
   protected "/dashboard/compliance" (Page "CompliancePage");
   protected "/detection/rules" (Page "AlertRulesPage");
   protected "/detection/ioc" (Page "IocSearchPage");
   protected "/detection/feeds" (Page "ThreatFeedsPage");
   protected "/endpoints/hosts" (Page "HostManagementPage");
   protected "/endpoints/isolation" (Page "IsolationControlsPage");
   protected "/endpoints/edr" (Page "EdrLogsPage");
   protected "/incidents/active" (Page "ActiveIncidentsPage");
   protected "/incidents/closed" (Page "ClosedIncidentsPage");
   protected "/incidents/war-room" (NavigateTo "/incidents/active");
   protected "/incidents/war-room/:id" (Page "WarRoomPage");
   protected "/assets/inventory" (Page "AssetInventoryPage");
   protected "/assets/network-map" (Page "NetworkMapPage");
   protected "/assets/vulnerabilities" (Page "VulnerabilitiesPage");
   protected "/marketplace" (Page "MarketplacePage");
   protected "/settings" (Page "SettingsPage");
   protected "/profile" (Page "ProfilePage");
   protected "*" (Page "NotFoundPage")].

(** What a matched route renders at [pathname]: [ProtectedRoute] is used
    without a list of roles. *)
Inductive rendered := RenderVerifying | RenderRedirect (to : string) | RenderElement (e : element).

Definition render_route (r : route) (pathname : string) (s : guard_state) : rendered :=
  match rt_layout r with
  | NoLayout | PublicLayout => RenderElement (rt_element r)
  | ProtectedLayout =>
      match render_guard None pathname s with
      | Verifying => RenderVerifying
      | Redirect to => RenderRedirect to
      | Children => RenderElement (rt_element r)
      end
  end.

Definition public_paths : list string := ["/login"; "/unauthorized"; "/documentation"].

Definition route_of (path : string) : option route :=
  List.find (fun r => String.eqb (rt_path r) path) App.

(** ** Matching a path
    [react-router] picks the element; what its documentation promises of the
    choice is the class [RouterMatch]: the chosen route is one of the table
    and its pattern fits the path segment by segment (a segment that starts
    with a colon fits any, letters are compared without case), and the splat
    route is chosen only when no other route fits. *)
Definition segments (path : string) : list string :=
  filter (fun s => s <> EmptyString) (split_on "/" path).

Definition segment_fits (pat seg : string) : bool :=
  starts_with ":" pat || String.eqb (to_lower pat) (to_lower seg).

Fixpoint segments_fit (pats segs : list string) : bool :=
  match pats, segs with
  | [], [] => true
  | p :: pats', s :: segs' => segment_fits p s && segments_fit pats' segs'
  | _, _ => false
  end.

Definition splat : string := "*".

Definition pattern_fits (pat path : string) : bool :=
  String.eqb pat splat || segments_fit (segments pat) (segments path).

Class RouterMatch (matchRoute : string -> option route) := {
  match_sound p r : matchRoute p = Some r -> r ∈ App /\ pattern_fits (rt_path r) p = true;
  match_splat p r r' : matchRoute p = Some r -> rt_path r = splat ->
    r' ∈ App -> rt_path r' <> splat -> pattern_fits (rt_path r') p = false;
  match_total p : is_Some (matchRoute p) }.

(** Trying the routes in the order of the table is such a choice, because the
    splat route comes last. *)
Definition first_match (p : string) : option route :=
  List.find (fun r => pattern_fits (rt_path r) p) App.

Lemma find_app {A} (f : A -> bool) l k :
  List.find f (l ++ k) = match List.find f l with Some x => Some x | None => List.find f k end.
Proof. induction l as [|x l IH]; simpl; [done|]. by destruct (f x). Qed.

#[export, refine] Instance first_match_router : RouterMatch first_match := {}.
Proof.
  - intros p r [H1 H2]%List.find_some. split; [by apply list_elem_of_In|done].
  - intros p r r' H Hr Hin Hr'. unfold first_match in H.
    assert (E : App = take 26 App ++ [protected "*" (Page "NotFoundPage")]) by reflexivity.
    assert (Hs : Forall (fun r => rt_path r <> splat) (take 26 App))
      by (apply (bool_decide_eq_true_1 _); reflexivity).
    rewrite Forall_forall in Hs.
    assert (Hin' : r' ∈ take 26 App).
    { rewrite E in Hin. apply elem_of_app in Hin as [|Hin]; [done|].
      apply list_elem_of_singleton in Hin as ->. by destruct Hr'. }
    destruct (pattern_fits (rt_path r') p) eqn:Ef; [|done]. exfalso.
    rewrite E, find_app in H.
    destruct (List.find _ (take 26 App)) as [r0|] eqn:E0.
    + injection H as ->. apply List.find_some in E0 as [E0 _]. apply list_elem_of_In in E0.
      by destruct (Hs r E0).
    + apply list_elem_of_In in Hin'. apply (List.find_none _ _ E0) in Hin'. congruence.
  - intros p. unfold first_match.
    destruct (List.find _ App) eqn:E; [by eexists|].
    assert (H : pattern_fits "*" p = false); [|done].
    apply (List.find_none _ App E (protected "*" (Page "NotFoundPage"))).
    apply list_elem_of_In, (bool_decide_eq_true_1 _). reflexivity.
Defined.

(** A path that no other route fits shows the page for unknown paths. *)
Definition unrouted (p : string) : bool :=
  forallb (fun r => String.eqb (rt_path r) splat || negb (pattern_fits (rt_path r) p)) App.

Lemma unrouted_not_found `{!RouterMatch m} p r :
  unrouted p = true -> m p = Some r -> rt_element r = Page "NotFoundPage".
Proof.
  unfold unrouted. rewrite forallb_forall. intros Hu Hm.
  destruct (match_sound p r Hm) as [Hin Hf]. specialize (Hu r (proj1 (list_elem_of_In _ _) Hin)).
  apply orb_true_iff in Hu as [Hs%String.eqb_eq|Hn]; [|by rewrite Hf in Hn].
  assert (H : Forall (fun r => rt_path r = splat -> rt_element r = Page "NotFoundPage") App).
  { apply (bool_decide_eq_true_1 _). reflexivity. }
  rewrite Forall_forall in H. by apply H.
Qed.

(** Go through the routes; the ones left are those whose fixed segments fit
    the given ones. *)
Ltac route_table :=
  apply forallb_forall; let r := fresh "r" in let Hr := fresh "Hr" in
  intros r Hr; apply list_elem_of_In in Hr; unfold App in Hr;
  repeat (apply elem_of_cons in Hr as [->|Hr]; [cbn [rt_path protected]; try reflexivity|]);
  [..|by apply not_elem_of_nil in Hr];
  apply orb_true_iff; right; apply negb_true_iff, orb_false_iff; (split; [reflexivity|]);
  match goal with |- segments_fit (segments ?p) _ = _ =>
    let v := eval vm_compute in (segments p) in change (segments p) with v end;
  cbn [segments_fit]; rewrite ?andb_false_r; try reflexivity; unfold segment_fits;
  apply andb_false_iff; right; apply andb_false_iff; left;
  apply orb_false_iff; (split; [reflexivity|]); apply String.eqb_neq.

(** No route fits an incident's own path, nor the path of its war room that
    ends in the fixed segment. *)
Lemma incident_path_unrouted x :
  to_lower x ∉ ["active"; "closed"; "war-room"] -> avoids "/" x = true -> x <> EmptyString ->
  unrouted ("/incidents/" +:+ x) = true.
Proof.
  intros Hx Hs Hne. unfold unrouted, pattern_fits.
  assert (E : segments ("/incidents/" +:+ x) = ["incidents"; x]).
  { unfold segments. change ("/incidents/" +:+ x) with (String "/" ("incidents" +:+ String "/" x)).
    cbn [split_on]. rewrite bool_decide_eq_true_2 by done.
    rewrite split_on_app, split_on_avoids by done.
    rewrite !filter_cons. by repeat case_decide. }
  rewrite E. route_table; intros Hl; apply Hx; rewrite <- Hl;
    apply (bool_decide_eq_true_1 _); reflexivity.
Qed.

Lemma war_room_path_unrouted x :
  to_lower x <> "war-room" -> avoids "/" x = true -> x <> EmptyString ->
  unrouted ("/incidents/" +:+ x +:+ "/war-room") = true.
Proof.
  intros Hx Hs Hne. unfold unrouted, pattern_fits.
  assert (E : segments ("/incidents/" +:+ x +:+ "/war-room") = ["incidents"; x; "war-room"]).
  { unfold segments.
    change ("/incidents/" +:+ x +:+ "/war-room")
      with (String "/" ("incidents" +:+ String "/" (x +:+ String "/" "war-room"))).
    cbn [split_on]. rewrite bool_decide_eq_true_2 by done.
    rewrite !split_on_app, split_on_avoids by done.
    rewrite !filter_cons. by repeat case_decide. }
  rewrite E. route_table; intros Hl; by apply Hx.
Qed.

(** C10: every route of the application outside the login, the refusal and the
    documentation page shows its element only with a session the backend
    confirmed, and sends an invalid session to the login page with the
    requested path; every registered path and every entry of the side bar is
    such a route, apart from the login, and no path is registered twice. *)
Theorem app_routes_guarded r pathname s :
  r ∈ App -> rt_path r ∉ public_paths ->
  (render_route r pathname s = RenderElement (rt_element r) <->
     gs_isVerifying s = false /\ gs_isValid s = true) /\
  (gs_isVerifying s = false -> gs_isValid s = false ->
     render_route r pathname s = RenderRedirect (login_redirect pathname)) /\
  Forall (fun p => p = ROUTES.login \/
            exists r', route_of p = Some r' /\ rt_layout r' = ProtectedLayout)
    (ROUTES_all ++ (nav_path <$> (NAV_GROUPS ≫= group_items))) /\
  NoDup (rt_path <$> App).
Proof.
  intros Hin Hpub.
  assert (Hl : rt_layout r = ProtectedLayout).
  { assert (H : Forall (fun r => rt_path r ∈ public_paths \/ rt_layout r = ProtectedLayout) App)
      by (apply (bool_decide_eq_true_1 _); reflexivity).
    rewrite Forall_forall in H. by destruct (H r Hin). }
  unfold render_route. rewrite Hl. unfold render_guard.
  split_and!.
  - destruct (gs_isVerifying s), (gs_isValid s); simpl; naive_solver.
  - intros -> ->. done.
  - repeat (apply Forall_cons; split; [first [by left | right; by eexists]|]). by apply Forall_nil.
  - apply (bool_decide_eq_true_1 _). reflexivity.
Qed.

Lemma app_routes_guarded_witness :
  render_route (protected "/endpoints/isolation" (Page "IsolationControlsPage"))
    "/endpoints/isolation" (GuardState false None false) =
  RenderRedirect (login_redirect "/endpoints/isolation").
Proof.
  refine (proj1 (proj2 (app_routes_guarded
    (protected "/endpoints/isolation" (Page "IsolationControlsPage")) "/endpoints/isolation"
    (GuardState false None false) _ _)) eq_refl eq_refl);
    apply (bool_decide_eq_true_1 _); reflexivity.
Defined.
