(* ===== verification/SharedUi.v ===== *)
(** * Shared components ([shared/ui/*.tsx], [shared/theme/index.ts])

    The small components the pages are built from, over any event type. *)
From S2P Require Import Prelude JsString Html.

(** ** [theme] *)
Inductive BadgeSeverity := S1 | S2 | S3 | S4.
Inductive StatusType := StSuccess | StWarning | StError | StInfo.

#[export] Instance BadgeSeverity_eq_dec : EqDecision BadgeSeverity.
Proof. solve_decision. Defined.

Definition theme_severity (s : BadgeSeverity) : string :=
  match s with
  | S1 => "text-red-500 bg-red-500/10 border-red-500/30"
  | S2 => "text-orange-500 bg-orange-500/10 border-orange-500/30"
  | S3 => "text-yellow-500 bg-yellow-500/10 border-yellow-500/30"
  | S4 => "text-blue-500 bg-blue-500/10 border-blue-500/30"
  end.

Definition theme_status (s : StatusType) : string :=
  match s with
  | StSuccess => "text-green-400"
  | StWarning => "text-yellow-400"
  | StError => "text-red-400"
  | StInfo => "text-blue-400"
  end.

(** [s.replace(p, q)]: the first occurrence only. *)
Fixpoint replace_first (p q s : string) : string :=
  if starts_with p s then q +:+ String.substring (String.length p) (String.length s) s
  else match s with
       | EmptyString => EmptyString
       | String a s' => String a (replace_first p q s')
       end.

Section SharedUi.
Context {E : Type}.

Definition Badge (severity : option BadgeSeverity) (children : list (html E)) : html E :=
  El "span" (theme_severity (nullish severity S4)) children.

Definition StatusDot (status : StatusType) (pulse : bool) : html E :=
  let c := replace_first "text-" "bg-" (theme_status status) in
  El "span" "" (when pulse [El "span" ("animate-ping " +:+ c) []] ++ [El "span" c []]).

Definition LoadingSkeleton (lines : nat) : html E :=
  El "div" "animate-pulse" (replicate lines (El "div" "" [])).

Definition ErrorState (message : string) (onRetry : option E) : html E :=
  El "div" "" (El "p" "" [Text message] ::
    when_some onRetry (fun e => [Button false (Some e) [Text "Retry Request"]])).

Definition EmptyState (message : string) : html E := El "div" "" [El "p" "" [Text message]].

Definition ConfirmModal (isOpen : bool) (title message confirmText cancelText : string)
    (isDestructive : bool) (onConfirm onCancel : E) : list (html E) :=
  when isOpen [
    El "div" "" [
      El "h3" (if isDestructive then "text-red-500" else "text-white") [Text title];
      El "p" "" [Text message];
      Button false (Some onCancel) [Text cancelText];
      Button false (Some onConfirm) [Text confirmText]]].

(** A column shows [render(item)] or the item's field, blank when falsy. *)
Record Column (T : Type) := MkColumn {
  col_key : string; col_header : string;
  col_render : option (T -> html E); col_field : T -> option string }.
Arguments col_key {T}. Arguments col_header {T}.
Arguments col_render {T}. Arguments col_field {T}.

Definition cell {T} (item : T) (col : Column T) : html E :=
  El "td" "" [match col_render col with
              | Some render => render item
              | None => Text (or_str (col_field col item) "")
              end].

Definition DataTable {T} (data : list T) (columns : list (Column T)) (isLoading : bool)
    : html E :=
  if isLoading then El "div" "animate-pulse" (replicate 5 (El "div" "" []))
  else if bool_decide (length data = 0) then El "div" "" [Text "No records found."]
  else El "table" "" [
    El "thead" "" [El "tr" "" ((fun col => El "th" "" [Text (col_header col)]) <$> columns)];
    El "tbody" "" ((fun item => El "tr" "" (cell item <$> columns)) <$> data)].

(** What the components offer. *)
Lemma offers_Badge s ks e : offers (Badge s ks) e <-> offers_any ks e.
Proof. apply offers_El. Qed.
Lemma offers_ErrorState m o e : offers (ErrorState m o) e <-> o = Some e.
Proof. unfold ErrorState. destruct o; cbn [when_some]; autorewrite with offers; naive_solver. Qed.
Lemma offers_LoadingSkeleton n e : offers (LoadingSkeleton n) e <-> False.
Proof.
  unfold LoadingSkeleton. rewrite offers_El. split; [|done].
  induction n as [|n IH]; simpl; autorewrite with offers; tauto.
Qed.
Lemma offers_ConfirmModal b t m c x d e1 e2 e :
  offers_any (ConfirmModal b t m c x d e1 e2) e <-> b = true /\ (e = e1 \/ e = e2).
Proof. unfold ConfirmModal. autorewrite with offers. naive_solver. Qed.
End SharedUi.

Arguments Column : clear implicits.
Arguments MkColumn {E T}. Arguments col_key {E T}. Arguments col_header {E T}.
Arguments col_render {E T}. Arguments col_field {E T}.

#[export] Hint Rewrite @offers_Badge @offers_ErrorState @offers_LoadingSkeleton
  @offers_ConfirmModal : offers.

(** A table shows one row per record and one cell per column, the
    placeholder exactly when there is no record, and neither while loading. *)
Lemma data_table_shape {E T} (data : list T) (columns : list (Column E T)) :
  match DataTable data columns false with
  | El "table" _ [El _ _ [El _ _ heads]; El _ _ rows] =>
      data <> [] /\ length heads = length columns /\ length rows = length data /\
      Forall (fun row => match row with El _ _ cells => length cells = length columns | _ => False end) rows
  | El _ _ [Text "No records found."] => data = []
  | _ => False
  end.
Proof.
  unfold DataTable. case_bool_decide as H; [by destruct data|].
  split; [by intros ->|]. rewrite !length_fmap. split; [done|]. split; [done|].
  apply Forall_fmap, Forall_forall. intros x _. simpl. by rewrite length_fmap.
Qed.
