(* ===== verification/AsyncState.v ===== *)
(** * [useAsyncState] ([shared/hooks/useAsyncState.ts])

    The hook every page loads its data with: [execute] sets [loading],
    clears [error], awaits the fetch function, then stores the result or the
    error message and clears [loading].  [async] is its React state, the
    three operations are the synchronous part of [execute] and the two
    continuations; pages embed them.  The machine at the end adds the
    executions in flight, which may overlap, and a history of the outcomes
    that the specification reads. *)
From S2P Require Import Prelude JsString Html.

Record async (T : Type) := Async {
  as_data : option T;
  as_loading : bool;
  as_error : option string }.
Arguments Async {T}. Arguments as_data {T}. Arguments as_loading {T}. Arguments as_error {T}.

Section AsyncState.
Context {T : Type}.
Implicit Types (a : async T).

Definition async_init : async T := Async None true None.

(** [setLoading(true); setError(null)] *)
Definition async_start a : async T := Async (as_data a) true None.

(** [setData(result)] and the [finally] *)
Definition async_ok (d : T) a : async T := Async (Some d) false (as_error a).

(** [setError(err.message || 'An error occurred')] and the [finally] *)
Definition async_fail (msg : option string) a : async T :=
  Async (as_data a) false (Some (or_str msg "An error occurred")).

(** The setter the hook exports. *)
Definition async_setData (d : option T) a : async T := Async d (as_loading a) (as_error a).

(** ** Executions in flight *)
Inductive async_result := AsyncOk (d : T) | AsyncErr (msg : option string).

Record async_state := AsyncState {
  ax_async : async T;
  ax_flight : list nat;                 (* executions whose await is pending *)
  ax_next : nat;
  ax_hist : list async_result }.        (* outcomes, latest last *)

Inductive async_event := Execute | Settled (k : nat) (r : async_result).

Definition ax_init : async_state := AsyncState async_init [] 0 [].

Definition ax_finish (r : async_result) a : async T :=
  match r with AsyncOk d => async_ok d a | AsyncErr m => async_fail m a end.

Definition ax_handle (e : async_event) (s : async_state) : async_state * list unit :=
  match e with
  | Execute =>
      (AsyncState (async_start (ax_async s)) (ax_flight s ++ [ax_next s]) (S (ax_next s))
         (ax_hist s), [])
  | Settled k r =>
      (AsyncState (ax_finish r (ax_async s)) (filter (fun j => j <> k) (ax_flight s))
         (ax_next s) (ax_hist s ++ [r]), [])
  end.

Definition ax_enabled (s : async_state) (e : async_event) : Prop :=
  match e with Execute => True | Settled k _ => k ∈ ax_flight s end.

(** The page starts an execution only when none is in flight. *)
Definition ax_sequential (s : async_state) (e : async_event) : Prop :=
  ax_enabled s e /\ match e with Execute => ax_flight s = [] | _ => True end.

(** *** Specification over the history *)
Definition last_ok (h : list async_result) : option T :=
  foldl (fun acc r => match r with AsyncOk d => Some d | AsyncErr _ => acc end) None h.

Definition last_err (h : list async_result) : option string :=
  match last h with
  | Some (AsyncErr m) => Some (or_str m "An error occurred")
  | _ => None
  end.

Definition async_spec (s : async_state) : Prop :=
  as_data (ax_async s) = last_ok (ax_hist s) /\
  match ax_flight s with
  | [] => as_error (ax_async s) = last_err (ax_hist s) /\
          as_loading (ax_async s) = bool_decide (ax_next s = 0)
  | [_] => as_error (ax_async s) = None /\ as_loading (ax_async s) = true
  | _ => False
  end /\ (ax_next s = 0 -> ax_flight s = [] /\ ax_hist s = []).

Lemma last_ok_snoc h r :
  last_ok (h ++ [r]) = match r with AsyncOk d => Some d | AsyncErr _ => last_ok h end.
Proof. unfold last_ok. rewrite foldl_app. by destruct r. Qed.

Lemma ax_handle_spec s e :
  async_spec s -> ax_sequential s e -> async_spec (fst (ax_handle e s)).
Proof.
  intros (Hd & Hf & Hz) [Hen Hseq]. destruct e as [|k r]; simpl in *.
  - rewrite Hseq in *. by split.
  - destruct (ax_flight s) as [|j [|]] eqn:Ef; [set_solver| |done].
    apply list_elem_of_singleton in Hen as ->. destruct Hf as [He Hl].
    unfold async_spec; simpl. rewrite filter_cons, decide_False by (intros H; by apply H).
    rewrite last_ok_snoc. unfold last_err. rewrite last_snoc. split; [by destruct r|].
    split; [|intros E; destruct (Hz E); done].
    rewrite bool_decide_eq_false_2; [by destruct r|]. intros E. by destruct (Hz E).
Qed.

(** When a page never starts a load while one is pending, the state of
    the hook is a function of the outcomes so far: [data] is the last
    successful result (an error does not discard it), [error] is set
    exactly when the latest outcome failed, and [loading] holds exactly
    before the first load and while one is pending. *)
Lemma async_sequential_correct es qs s :
  run ax_sequential ax_handle ax_init es qs s ->
  as_data (ax_async s) = last_ok (ax_hist s) /\
  as_error (ax_async s) = (if bool_decide (ax_flight s = []) then last_err (ax_hist s) else None) /\
  as_loading (ax_async s) =
    (bool_decide (ax_flight s <> []) || bool_decide (ax_next s = 0)).
Proof.
  intros H. assert (async_spec s) as (Hd & Hf & _).
  { revert H. apply run_invariant; [by split|apply ax_handle_spec]. }
  split; [done|]. destruct (ax_flight s) as [|? [|]]; [|naive_solver|done].
  destruct Hf as [-> ->]. by split.
Qed.
End AsyncState.

Arguments async_result : clear implicits.
Arguments async_event : clear implicits.
Arguments async_state : clear implicits.

(** Overlapping loads race: the result that arrives last wins, whatever its
    age, and the first one to arrive hides the spinner. *)
Section Race.
Context {T : Type}.

(** With two overlapping loads the answer to the older request, when it
    arrives last, replaces the newer data, and [loading] is already false
    while that request is still pending. *)
Lemma async_overlap_stale (old new : T) :
  exists qs s1 s2,
    run ax_enabled ax_handle ax_init [Execute; Execute; Settled 1 (AsyncOk new)] qs s1 /\
    as_loading (ax_async s1) = false /\ ax_flight s1 = [0] /\
    ax_handle (Settled 0 (AsyncOk old)) s1 = (s2, []) /\
    as_data (ax_async s2) = Some old.
Proof.
  eexists _, _, _. split; [apply exec_run; simpl; repeat split; set_solver|].
  repeat split.
Qed.
End Race.

Lemma async_sequential_correct_witness :
  let es := [Execute; Settled 0 (AsyncOk 5); Execute; Settled 1 (AsyncErr None)] in
  let s := fst (exec ax_handle es ax_init) in
  as_data (ax_async s) = Some 5 /\ as_error (ax_async s) = Some "An error occurred" /\
  as_loading (ax_async s) = false.
Proof.
  intros es s.
  refine (async_sequential_correct es (snd (exec ax_handle es ax_init)) s _).
  apply exec_run. cbn. unfold ax_sequential. cbn. repeat split; set_solver.
Defined.
