(* ===== verification/Polling.v ===== *)
(** * [usePolling] ([shared/hooks/usePolling.ts])

    The hook polls a URL: an effect starts a first [poll], every completed
    poll schedules the next one with [setTimeout], and the cleanup of the
    effect aborts the request in flight and clears the timer.  The effect
    runs again whenever the URL or the interval changes.

    The state has the references of the hook ([abortRef]) and the local
    variables of every instance of the effect ([timeoutId]), the requests
    in flight and the pending timers.  The settlement of a request and the
    continuation of the [await] are one step: the browser drains its
    microtasks before it runs another task.  A request that was aborted is
    rejected with a [CanceledError], which is what [axios] documents.

    The abstract specification is a poller with three states; the invariant
    of the hook gives the refinement. *)
From S2P Require Import Prelude JsString Html.

Section Polling.
Context {T : Type}.

(** One run of the effect, with the values its closure captured. *)
Record instance := Instance { in_id : nat; in_url : string; in_interval : Z }.

(** A request in flight: its [AbortController] and whether it was aborted. *)
Record request := Request { rq_ctrl : nat; rq_inst : instance; rq_aborted : bool }.

(** A pending [setTimeout(poll, intervalMs)]. *)
Record timer := Timer { tm_id : nat; tm_inst : instance }.

Record state := State {
  ps_active : option instance;     (* the instance whose cleanup has not run *)
  ps_abort : option nat;           (* abortRef.current *)
  ps_timeout : option nat;         (* timeoutId of the active instance *)
  ps_reqs : list request;
  ps_timers : list timer;
  ps_next : nat }.                 (* fresh identifiers *)

Inductive outcome := Resolved (data : T) | Rejected (name : string).

Inductive event :=
| Effect (url : string) (intervalMs : Z)  (* mount, or a dependency changed *)
| Unmount
| Fire (tid : nat)
| Settle (ctrl : nat) (o : outcome).

Inductive effect :=
| Get (url : string)
| OnData (data : T)
| OnError (name : string).

Definition init : state := State None None None [] [] 0.

Definition canceled : string := "CanceledError".

(** [poll] of an instance: a fresh controller, stored in [abortRef]. *)
Definition poll (i : instance) (s : state) : state * list effect :=
  (State (ps_active s) (Some (ps_next s)) (ps_timeout s)
     (ps_reqs s ++ [Request (ps_next s) i false]) (ps_timers s) (S (ps_next s)),
   [Get (in_url i)]).

Definition abort (c : nat) (r : request) : request :=
  if bool_decide (rq_ctrl r = c) then Request (rq_ctrl r) (rq_inst r) true else r.

(** The cleanup function: [abortRef.current?.abort(); clearTimeout(timeoutId)]. *)
Definition cleanup (s : state) : state :=
  match ps_active s with
  | None => s
  | Some _ =>
      State None (ps_abort s) (ps_timeout s)
        (match ps_abort s with Some c => abort c <$> ps_reqs s | None => ps_reqs s end)
        (match ps_timeout s with
         | Some t => filter (fun tm => tm_id tm <> t) (ps_timers s)
         | None => ps_timers s
         end)
        (ps_next s)
  end.

(** [timeoutId = setTimeout(poll, intervalMs)] in the closure of [i]; the
    variable of an instance whose cleanup has run is not read again. *)
Definition schedule (i : instance) (s : state) : state :=
  State (ps_active s) (ps_abort s)
    (if bool_decide (in_id <$> ps_active s = Some (in_id i)) then Some (ps_next s)
     else ps_timeout s)
    (ps_reqs s) (ps_timers s ++ [Timer (ps_next s) i]) (S (ps_next s)).

Definition find_req (c : nat) (s : state) : option request :=
  snd <$> list_find (fun r => rq_ctrl r = c) (ps_reqs s).
Definition drop_req (c : nat) (s : state) : state :=
  State (ps_active s) (ps_abort s) (ps_timeout s)
    (filter (fun r => rq_ctrl r <> c) (ps_reqs s)) (ps_timers s) (ps_next s).
Definition find_timer (t : nat) (s : state) : option timer :=
  snd <$> list_find (fun tm => tm_id tm = t) (ps_timers s).
Definition drop_timer (t : nat) (s : state) : state :=
  State (ps_active s) (ps_abort s) (ps_timeout s)
    (ps_reqs s) (filter (fun tm => tm_id tm <> t) (ps_timers s)) (ps_next s).

(** The body of the second [useEffect] and its callbacks. *)
Definition handle (e : event) (s : state) : state * list effect :=
  match e with
  | Effect url ms =>
      let s := cleanup s in
      let i := Instance (ps_next s) url ms in
      poll i (State (Some i) (ps_abort s) None (ps_reqs s) (ps_timers s) (S (ps_next s)))
  | Unmount => (cleanup s, [])
  | Fire t =>
      match find_timer t s with
      | Some tm => poll (tm_inst tm) (drop_timer t s)
      | None => (s, [])
      end
  | Settle c o =>
      match find_req c s with
      | Some r =>
          let s := drop_req c s in
          match o with
          | Resolved d => (schedule (rq_inst r) s, [OnData d])
          | Rejected n =>
              if bool_decide (n = canceled) then (s, [])
              else (schedule (rq_inst r) s, [OnError n])
          end
      | None => (s, [])
      end
  end.

(** What can happen: a timer that is pending fires; a request settles, with
    a [CanceledError] exactly when it was aborted. *)
Definition enabled (s : state) (e : event) : Prop :=
  match e with
  | Effect _ _ => True
  | Unmount => True
  | Fire t => is_Some (find_timer t s)
  | Settle c o =>
      exists r, find_req c s = Some r /\
        (rq_aborted r = true <-> o = Rejected canceled)
  end.

(** ** Specification: a poller that is off, waiting for a response, or
    sleeping until the next poll. *)
Inductive spec_state := Off | InFlight (url : string) (ms : Z) | Sleeping (url : string) (ms : Z).

Inductive spec_step : spec_state -> list effect -> spec_state -> Prop :=
| spec_start st url ms : spec_step st [Get url] (InFlight url ms)
| spec_stop st : spec_step st [] Off
| spec_data url ms d : spec_step (InFlight url ms) [OnData d] (Sleeping url ms)
| spec_error url ms n : spec_step (InFlight url ms) [OnError n] (Sleeping url ms)
| spec_wake url ms : spec_step (Sleeping url ms) [Get url] (InFlight url ms)
| spec_stutter st : spec_step st [] st.

Definition live (s : state) : list request := filter (fun r => rq_aborted r = false) (ps_reqs s).

Definition spec_of (s : state) : spec_state :=
  match live s, ps_timers s with
  | r :: _, _ => InFlight (in_url (rq_inst r)) (in_interval (rq_inst r))
  | [], t :: _ => Sleeping (in_url (tm_inst t)) (in_interval (tm_inst t))
  | [], [] => Off
  end.

(** ** Invariant: exactly one activity while mounted, none otherwise. *)
Definition fresh_ids (s : state) : Prop :=
  Forall (fun r => rq_ctrl r < ps_next s) (ps_reqs s) /\ NoDup (rq_ctrl <$> ps_reqs s).

Definition activity (s : state) : Prop :=
  match ps_active s with
  | None => live s = [] /\ ps_timers s = []
  | Some i =>
      (exists c, live s = [Request c i false] /\ ps_timers s = [] /\ ps_abort s = Some c) \/
      (exists t, live s = [] /\ ps_timers s = [Timer t i] /\ ps_timeout s = Some t)
  end.

Definition invariant (s : state) : Prop := fresh_ids s /\ activity s.
End Polling.

Arguments event : clear implicits.
Arguments effect : clear implicits.
Arguments outcome : clear implicits.

Section PollingFacts.
Context {T : Type}.
Implicit Types (s : state).

Lemma abort_ctrl c r : rq_ctrl (abort c r) = rq_ctrl r.
Proof. unfold abort. by destr_if. Qed.

(** Aborting a controller removes its request from the live ones. *)
Lemma live_abort (l : list request) c :
  filter (fun r => rq_aborted r = false) (abort c <$> l) =
  filter (fun r => rq_ctrl r <> c) (filter (fun r => rq_aborted r = false) l).
Proof.
  induction l as [|r l IH]; [done|].
  rewrite fmap_cons, !filter_cons. rewrite IH. unfold abort.
  destruct r as [c' i []]; simpl; repeat case_bool_decide; repeat case_decide;
    rewrite ?filter_cons; repeat case_decide; naive_solver.
Qed.

Lemma live_drop c s : live (drop_req c s) = filter (fun r => rq_ctrl r <> c) (live s).
Proof. unfold live, drop_req; simpl. apply list_filter_comm. Qed.

Lemma live_reqs s s' : ps_reqs s = ps_reqs s' -> live s = live s'.
Proof. unfold live. by intros ->. Qed.

Lemma live_poll i s :
  live (fst (poll (T := T) i s)) = live s ++ [Request (ps_next s) i false].
Proof. unfold live, poll; simpl. by rewrite filter_app. Qed.

Lemma find_req_in c s r : find_req c s = Some r -> r ∈ ps_reqs s /\ rq_ctrl r = c.
Proof.
  unfold find_req. intros ([j r'] & E & Hr)%fmap_Some. simpl in Hr. subst r'.
  apply list_find_Some in E as (E & ? & _). by apply list_elem_of_lookup_2 in E.
Qed.

Lemma find_timer_in t s tm : find_timer t s = Some tm -> tm ∈ ps_timers s /\ tm_id tm = t.
Proof.
  unfold find_timer. intros ([j tm'] & E & Hr)%fmap_Some. simpl in Hr. subst tm'.
  apply list_find_Some in E as (E & ? & _). by apply list_elem_of_lookup_2 in E.
Qed.

Lemma live_in r s : r ∈ live s <-> rq_aborted r = false /\ r ∈ ps_reqs s.
Proof. unfold live. by rewrite list_elem_of_filter. Qed.

Lemma ctrl_inj s r1 r2 :
  fresh_ids s -> r1 ∈ ps_reqs s -> r2 ∈ ps_reqs s -> rq_ctrl r1 = rq_ctrl r2 -> r1 = r2.
Proof.
  intros [_ Hnd]. by apply NoDup_fmap_inj.
Qed.

(** *** Preservation, operation by operation *)
Lemma cleanup_fresh s : fresh_ids s -> fresh_ids (cleanup s).
Proof.
  unfold fresh_ids, cleanup. intros [H1 H2].
  destruct (ps_active s); simpl; [|done]. destruct (ps_abort s) as [c|]; [|done].
  split.
  - apply Forall_fmap. eapply Forall_weaken; [exact H1|]. intros r. simpl. by rewrite abort_ctrl.
  - rewrite <- list_fmap_compose. erewrite list_fmap_ext; [exact H2|].
    intros j r _. simpl. by rewrite abort_ctrl.
Qed.

Lemma cleanup_quiet s :
  activity s -> live (cleanup s) = [] /\ ps_timers (cleanup s) = [] /\ ps_active (cleanup s) = None.
Proof.
  unfold activity, cleanup. destruct (ps_active s) as [i|] eqn:Ei; [|by intros [? ?]].
  intros [(c & Hl & Ht & Ha)|(t & Hl & Ht & Ha)]; unfold live at 1; simpl.
  - rewrite Ha, Ht, live_abort. fold (live s). rewrite Hl, filter_cons. simpl.
    rewrite decide_False by (intros H; by apply H). by destruct (ps_timeout s).
  - rewrite Ha, Ht, filter_cons. simpl. rewrite decide_False by (intros H; by apply H).
    split; [|done]. destruct (ps_abort s); [rewrite live_abort|]; fold (live s); by rewrite Hl.
Qed.

Lemma poll_invariant i s :
  fresh_ids s -> live s = [] -> ps_timers s = [] -> ps_active s = Some i ->
  invariant (fst (poll (T := T) i s)).
Proof.
  intros [H1 H2] Hl Ht Ha. split; [split; simpl|].
  - apply Forall_app; split; [|by repeat constructor; simpl; lia].
    eapply Forall_weaken; [exact H1|]. simpl. lia.
  - rewrite fmap_app. apply NoDup_app. split; [done|]. split; [|apply NoDup_singleton].
    intros c Hc Hc'. apply list_elem_of_singleton in Hc'. simpl in Hc'. subst c.
    apply list_elem_of_fmap in Hc as (r & E & Hr). rewrite Forall_forall in H1.
    specialize (H1 r Hr). lia.
  - unfold activity. rewrite live_poll, Hl. simpl.
    rewrite Ha, Ht. left. by exists (ps_next s).
Qed.

Lemma schedule_invariant i s :
  fresh_ids s -> live s = [] -> ps_timers s = [] -> ps_active s = Some i ->
  invariant (schedule i s).
Proof.
  intros [H1 H2] Hl Ht Ha. split; [split|]; unfold schedule; simpl.
  - eapply Forall_weaken; [exact H1|]. simpl. lia.
  - done.
  - unfold activity, live. simpl. fold (live s). rewrite Ha, Hl, Ht. simpl.
    rewrite bool_decide_eq_true_2 by done. right. by exists (ps_next s).
Qed.

Lemma drop_req_fresh c s : fresh_ids s -> fresh_ids (drop_req c s).
Proof.
  intros [H1 H2]. split; simpl.
  - rewrite Forall_forall in *. intros r [_ Hr]%list_elem_of_filter. by apply H1.
  - by apply NoDup_fmap_filter.
Qed.

(** A request that settles with data or an error is the live one. *)
Lemma settle_live c s r :
  invariant s -> find_req c s = Some r -> rq_aborted r = false ->
  live (drop_req c s) = [] /\ ps_timers s = [] /\ ps_active s = Some (rq_inst r).
Proof.
  intros [Hf Ha] [Hr <-]%find_req_in Hab.
  assert (Hlive : r ∈ live s) by (by apply live_in).
  rewrite live_drop. unfold activity in Ha.
  destruct (ps_active s) as [i|]; [|destruct Ha as [Hl _]; rewrite Hl in Hlive; set_solver].
  destruct Ha as [(c & Hl & Ht & _)|(t & Hl & _)]; rewrite Hl in Hlive; [|set_solver].
  apply list_elem_of_singleton in Hlive as ->. rewrite Hl, filter_cons.
  rewrite decide_False by (intros H; by apply H). done.
Qed.

(** A request that settles as cancelled was not live. *)
Lemma settle_canceled_live c s r :
  invariant s -> find_req c s = Some r -> rq_aborted r = true ->
  live (drop_req c s) = live s /\ ps_timers (drop_req c s) = ps_timers s.
Proof.
  intros [Hf Ha] [Hr Hc]%find_req_in Hab. split; [|done].
  rewrite live_drop. apply list_filter_all_id. apply Forall_forall. intros r' Hr' E.
  apply live_in in Hr' as [Hab' Hr']. rewrite <- Hc in E.
  apply (ctrl_inj s r' r) in E; try done. congruence.
Qed.

Lemma settle_canceled c s r :
  invariant s -> find_req c s = Some r -> rq_aborted r = true -> invariant (drop_req c s).
Proof.
  intros Hinv Hr Hab. destruct (settle_canceled_live c s r Hinv Hr Hab) as [Hl _].
  destruct Hinv as [Hf Ha]. split; [by apply drop_req_fresh|].
  unfold activity in *. by rewrite Hl.
Qed.

Lemma settle_spec c s r :
  invariant s -> find_req c s = Some r -> rq_aborted r = false ->
  spec_of s = InFlight (in_url (rq_inst r)) (in_interval (rq_inst r)).
Proof.
  intros [Hf Ha] [Hr _]%find_req_in Hab.
  assert (Hlive : r ∈ live s) by (by apply live_in).
  unfold spec_of. unfold activity in Ha.
  destruct (ps_active s) as [i|]; [|destruct Ha as [Hl _]; rewrite Hl in Hlive; set_solver].
  destruct Ha as [(c' & Hl & Ht & _)|(t & Hl & _)]; rewrite Hl in Hlive |- *; [|set_solver].
  by apply list_elem_of_singleton in Hlive as ->.
Qed.

Lemma handle_invariant s (e : event T) :
  invariant s -> enabled s e -> invariant (fst (handle e s)).
Proof.
  intros [Hf Ha] Hen. pose proof (cleanup_fresh s Hf) as Hcf.
  destruct (cleanup_quiet s Ha) as (Hcl & Hct & Hca). destruct e as [url ms| |t|c o]; cbn [handle fst].
  - apply poll_invariant; simpl; try done. destruct Hcf as [H1 H2]. split; [|done].
    eapply Forall_weaken; [exact H1|]. simpl. lia.
  - split; [done|]. unfold activity. by rewrite Hca.
  - destruct Hen as [tm Htm]. rewrite Htm. apply find_timer_in in Htm as [Hin <-].
    unfold activity in Ha. destruct (ps_active s) as [i|] eqn:Ei;
      [|destruct Ha as [_ E]; rewrite E in Hin; set_solver].
    destruct Ha as [(c & _ & E & _)|(t & Hl & E & _)]; rewrite E in Hin; [set_solver|].
    apply list_elem_of_singleton in Hin as ->. apply poll_invariant; try done.
    unfold drop_timer. simpl. rewrite E, filter_cons, decide_False by (intros H; by apply H). done.
  - destruct Hen as (r & Hr & Hab). rewrite Hr.
    destruct (rq_aborted r) eqn:Er.
    + rewrite (proj1 Hab eq_refl). rewrite bool_decide_eq_true_2 by done.
      by eapply settle_canceled.
    + destruct (settle_live c s r (conj Hf Ha) Hr Er) as (Hl & Ht & Hact).
      assert (invariant (schedule (rq_inst r) (drop_req c s)))
        by (apply schedule_invariant; simpl; auto using drop_req_fresh).
      destruct o as [d|n]; [done|]. case_bool_decide as En; [|done].
      subst n. naive_solver.
Qed.

Lemma init_invariant : invariant init.
Proof. split; [split; simpl; constructor|]. done. Qed.

Lemma run_inv es qs s : run enabled (handle (T := T)) init es qs s -> invariant s.
Proof. apply run_invariant; [apply init_invariant|apply handle_invariant]. Qed.
End PollingFacts.

Section PollingProperties.
Context {T : Type}.

(** C: while the hook is mounted exactly one thing is pending -- the
    request of the latest poll, or the timer of the next one -- and it
    belongs to the current instance of the effect; once the cleanup has run
    nothing is pending that could call back. *)
Theorem polling_single_flight es qs s :
  run enabled (handle (T := T)) init es qs s ->
  match ps_active s with
  | Some i =>
      (exists c, live s = [Request c i false] /\ ps_timers s = []) \/
      (exists t, live s = [] /\ ps_timers s = [Timer t i])
  | None => live s = [] /\ ps_timers s = []
  end.
Proof.
  intros [_ Ha]%run_inv. unfold activity in Ha.
  destruct (ps_active s); naive_solver.
Qed.

(** C: every step of the hook is a step of the abstract poller. *)
Theorem polling_refines_spec es qs s (e : event T) :
  run enabled (handle (T := T)) init es qs s -> enabled s e ->
  spec_step (spec_of s) (snd (handle e s)) (spec_of (fst (handle e s))).
Proof.
  intros Hinv%run_inv Hen. pose proof (handle_invariant s e Hinv Hen) as [_ Hact'].
  destruct Hinv as [Hf Hact]. destruct (cleanup_quiet s Hact) as (Hcl & Hct & Hca).
  destruct e as [url ms| |t|c o]; cbn [handle fst snd] in *.
  - unfold spec_of at 2. rewrite live_poll.
    rewrite (live_reqs _ (cleanup s)) by done. rewrite Hcl. constructor.
  - unfold spec_of at 2. rewrite Hcl, Hct. constructor.
  - destruct Hen as [tm Htm]. rewrite Htm. pose proof (find_timer_in _ _ _ Htm) as [Hin _].
    unfold activity in Hact. destruct (ps_active s) as [i|];
      [|destruct Hact as [_ E]; rewrite E in Hin; set_solver].
    destruct Hact as [(c & _ & E & _)|(t' & Hl & E & _)]; rewrite E in Hin; [set_solver|].
    apply list_elem_of_singleton in Hin as ->. unfold spec_of. rewrite Hl, E, live_poll.
    rewrite (live_reqs (drop_timer _ _) s), Hl by done. constructor.
  - destruct Hen as (r & Hr & Hab). rewrite Hr. destruct (rq_aborted r) eqn:Er.
    + rewrite (proj1 Hab eq_refl). rewrite bool_decide_eq_true_2 by done. simpl.
      destruct (settle_canceled_live c s r (conj Hf Hact) Hr Er) as [El Et].
      unfold spec_of. rewrite El, Et. constructor.
    + destruct (settle_live c s r (conj Hf Hact) Hr Er) as (Hl & Ht & Ha').
      pose proof (settle_spec c s r (conj Hf Hact) Hr Er) as ->.
      assert (Hs : spec_of (schedule (rq_inst r) (drop_req c s)) =
                Sleeping (in_url (rq_inst r)) (in_interval (rq_inst r))).
      { unfold spec_of. rewrite (live_reqs _ (drop_req c s)) by done.
        simpl. by rewrite Hl, Ht. }
      destruct o as [d|n]; simpl; [rewrite Hs; constructor|].
      case_bool_decide; [naive_solver|]. simpl. rewrite Hs. constructor.
Qed.
End PollingProperties.

(** ** Concrete executions *)
Definition demo_polls : list (event nat) :=
  [Effect "/metrics/overview" 30000; Settle 1 (Resolved 7); Fire 2;
   Settle 3 (Rejected "Network Error"); Effect "/metrics/other" 1000].

Lemma demo_polls_run :
  run enabled handle init demo_polls (snd (exec handle demo_polls init))
    (fst (exec handle demo_polls init)).
Proof.
  apply exec_run. cbn. repeat split; try (by eexists).
  all: try (eexists; split; [reflexivity|naive_solver]).
Qed.

Lemma polling_single_flight_witness :
  exists c i, let s := fst (exec handle demo_polls init) in
    live s = [Request c i false] /\ ps_timers s = [] /\ in_url i = "/metrics/other".
Proof.
  pose proof (polling_single_flight demo_polls _ _ demo_polls_run) as [(c & H1 & H2)|(t & H1 & _)].
  - eexists c, _. split; [exact H1|]. by split.
  - discriminate H1.
Defined.

Lemma polling_refines_spec_witness :
  let s := fst (exec handle demo_polls init) in
  spec_step (spec_of s) [OnData 3]
    (spec_of (fst (handle (Settle 6 (Resolved 3)) s))).
Proof.
  apply (polling_refines_spec demo_polls _ _ (Settle 6 (Resolved 3)) demo_polls_run).
  eexists. split; [reflexivity|]. simpl. naive_solver.
Defined.
