(* ===== verification/WebSocketStream.v ===== *)
(** * [useWebSocketStream] ([shared/hooks/useWebSocketStream.ts])

    The hook keeps a WebSocket to a URL open: an effect connects, [onclose]
    schedules a reconnection with an exponential back-off, [onopen] resets
    the retry counter, and the cleanup clears the timer and closes the
    socket that [wsRef] points to.  The state has the references of the hook
    ([wsRef], [retryCount]), its React state ([isConnected]), the local
    variable [timeoutId] of the running effect, the sockets that are not yet
    closed and the pending timers.  [decode] is the [try JSON.parse catch]
    of [onmessage]; the URL is relative, so its protocol is the page's. *)
From S2P Require Import Prelude JsString Html.

(** [Math.min(1000 * Math.pow(2, retryCount.current), 30000)] *)
Definition backoff (retry : nat) : Z := Z.min (1000 * 2 ^ Z.of_nat retry) 30000.

(** [wsUrl.protocol === 'https:' ? 'wss:' : 'ws:'] *)
Definition ws_protocol (p : string) : string :=
  if bool_decide (p = "https:") then "wss:" else "ws:".

Inductive readyState := CONNECTING | OPEN | CLOSING.

#[export] Instance readyState_eq_dec : EqDecision readyState.
Proof. solve_decision. Defined.

Record ws_instance := WsInstance { wi_id : nat; wi_url : string }.
Record socket := Socket { sk_id : nat; sk_inst : ws_instance; sk_ready : readyState }.
Record ws_timer := WsTimer { wt_id : nat; wt_inst : ws_instance; wt_delay : Z }.

Record ws_state := WsState {
  ws_active : option ws_instance;   (* the effect whose cleanup has not run *)
  ws_ref : option nat;              (* wsRef.current *)
  ws_retry : nat;                   (* retryCount.current *)
  ws_connected : bool;              (* isConnected *)
  ws_timeout : option nat;          (* timeoutId of the active effect *)
  ws_socks : list socket;           (* sockets that are not CLOSED *)
  ws_timers : list ws_timer;
  ws_next : nat }.

Section WebSocketStream.
Context {M : Type} (decode : string -> M) (page_protocol : string).

Inductive ws_event :=
| WsEffect (url : string)
| WsUnmount
| WsOpen (k : nat)
| WsMessage (k : nat) (data : string)
| WsClose (k : nat)
| WsFire (t : nat).

Inductive ws_effect :=
| Dial (protocol url : string)
| OnMessage (m : M).

Definition ws_init : ws_state := WsState None None 0 false None [] [] 0.

(** [connect] in the closure of an instance. *)
Definition connect (i : ws_instance) (s : ws_state) : ws_state * list ws_effect :=
  (WsState (ws_active s) (Some (ws_next s)) (ws_retry s) (ws_connected s) (ws_timeout s)
     (ws_socks s ++ [Socket (ws_next s) i CONNECTING]) (ws_timers s) (S (ws_next s)),
   [Dial (ws_protocol page_protocol) (wi_url i)]).

Definition set_ready (k : nat) (r : readyState) (x : socket) : socket :=
  if bool_decide (sk_id x = k) then Socket (sk_id x) (sk_inst x) r else x.

(** The cleanup: [clearTimeout(timeoutId); wsRef.current.close()]. *)
Definition ws_cleanup (s : ws_state) : ws_state :=
  match ws_active s with
  | None => s
  | Some _ =>
      WsState None (ws_ref s) (ws_retry s) (ws_connected s) (ws_timeout s)
        (match ws_ref s with
         | Some k => set_ready k CLOSING <$> ws_socks s
         | None => ws_socks s
         end)
        (match ws_timeout s with
         | Some t => filter (fun x => wt_id x <> t) (ws_timers s)
         | None => ws_timers s
         end)
        (ws_next s)
  end.

(** [ws.onclose] of a socket of instance [i]. *)
Definition on_close (k : nat) (i : ws_instance) (s : ws_state) : ws_state :=
  WsState (ws_active s) (ws_ref s) (S (ws_retry s)) false
    (if bool_decide (wi_id <$> ws_active s = Some (wi_id i)) then Some (ws_next s)
     else ws_timeout s)
    (filter (fun x => sk_id x <> k) (ws_socks s))
    (ws_timers s ++ [WsTimer (ws_next s) i (backoff (ws_retry s))])
    (S (ws_next s)).

(** [ws.onopen]. *)
Definition on_open (k : nat) (s : ws_state) : ws_state :=
  WsState (ws_active s) (ws_ref s) 0 true (ws_timeout s)
    (set_ready k OPEN <$> ws_socks s) (ws_timers s) (ws_next s).

Definition find_sock (k : nat) (s : ws_state) : option socket :=
  snd <$> list_find (fun x => sk_id x = k) (ws_socks s).
Definition find_ws_timer (t : nat) (s : ws_state) : option ws_timer :=
  snd <$> list_find (fun x => wt_id x = t) (ws_timers s).

Definition ws_handle (e : ws_event) (s : ws_state) : ws_state * list ws_effect :=
  match e with
  | WsEffect url =>
      let s := ws_cleanup s in
      let i := WsInstance (ws_next s) url in
      connect i (WsState (Some i) (ws_ref s) (ws_retry s) (ws_connected s) None
                   (ws_socks s) (ws_timers s) (S (ws_next s)))
  | WsUnmount => (ws_cleanup s, [])
  | WsOpen k => (on_open k s, [])
  | WsMessage _ data => (s, [OnMessage (decode data)])
  | WsClose k =>
      match find_sock k s with
      | Some x => (on_close k (sk_inst x) s, [])
      | None => (s, [])
      end
  | WsFire t =>
      match find_ws_timer t s with
      | Some x =>
          connect (wt_inst x)
            (WsState (ws_active s) (ws_ref s) (ws_retry s) (ws_connected s) (ws_timeout s)
               (ws_socks s) (filter (fun y => wt_id y <> t) (ws_timers s)) (ws_next s))
      | None => (s, [])
      end
  end.

Definition ws_enabled (s : ws_state) (e : ws_event) : Prop :=
  match e with
  | WsEffect _ | WsUnmount => True
  | WsOpen k => exists x, find_sock k s = Some x /\ sk_ready x = CONNECTING
  | WsMessage k _ => exists x, find_sock k s = Some x /\ sk_ready x = OPEN
  | WsClose k => is_Some (find_sock k s)
  | WsFire t => is_Some (find_ws_timer t s)
  end.

(** The instances that own a socket or a pending timer. *)
Definition chains (s : ws_state) : list nat :=
  (wi_id ∘ sk_inst <$> ws_socks s) ++ (wi_id ∘ wt_inst <$> ws_timers s).

Definition ws_ids_fresh (s : ws_state) : Prop :=
  Forall (fun x => sk_id x < ws_next s /\ wi_id (sk_inst x) < ws_next s) (ws_socks s) /\
  Forall (fun x => wt_id x < ws_next s /\ wi_id (wt_inst x) < ws_next s) (ws_timers s) /\
  NoDup (sk_id <$> ws_socks s) /\ NoDup (wt_id <$> ws_timers s).

Definition ws_invariant (s : ws_state) : Prop :=
  ws_ids_fresh s /\ NoDup (chains s) /\
  match ws_active s with Some i => wi_id i ∈ chains s | None => True end.
End WebSocketStream.

Arguments ws_effect : clear implicits.

(** ** The back-off *)
Section Backoff.
Lemma backoff_small n : n <= 4 -> backoff n = (1000 * 2 ^ Z.of_nat n)%Z.
Proof. intros H. do 5 (destruct n as [|n]; [done|]). lia. Qed.

Lemma backoff_large n : 5 <= n -> backoff n = 30000%Z.
Proof.
  intros H. unfold backoff.
  assert (2 ^ 5 <= 2 ^ Z.of_nat n)%Z by (apply Z.pow_le_mono_r; lia). lia.
Qed.

(** The reconnection delay starts at one second, doubles with every
    failed attempt, never decreases, and is capped at thirty seconds from
    the sixth attempt on. *)
Lemma ws_backoff_spec n :
  (1000 <= backoff n <= 30000)%Z /\ (backoff n <= backoff (S n))%Z /\
  (n <= 3 -> backoff (S n) = (2 * backoff n)%Z) /\
  (5 <= n -> backoff n = 30000%Z).
Proof.
  assert (Hpow : (0 < 2 ^ Z.of_nat n)%Z) by (apply Z.pow_pos_nonneg; lia).
  assert (Hsucc : (2 ^ Z.of_nat (S n) = 2 * 2 ^ Z.of_nat n)%Z)
    by (rewrite Nat2Z.inj_succ, Z.pow_succ_r; lia).
  repeat split.
  - unfold backoff. lia.
  - unfold backoff. lia.
  - unfold backoff. rewrite Hsucc. lia.
  - intros H. rewrite !backoff_small by lia. lia.
  - apply backoff_large.
Qed.
End Backoff.

Section WebSocketFacts.
Context {M : Type} (decode : string -> M) (page_protocol : string).
Notation ws_handle := (ws_handle decode page_protocol).
Implicit Types (s : ws_state).

Lemma set_ready_id k r x : sk_id (set_ready k r x) = sk_id x.
Proof. unfold set_ready. by destr_if. Qed.
Lemma set_ready_inst k r x : sk_inst (set_ready k r x) = sk_inst x.
Proof. unfold set_ready. by destr_if. Qed.

Lemma fmap_set_ready {X} (f : socket -> X) k r (l : list socket) :
  (forall x, f (set_ready k r x) = f x) -> f <$> (set_ready k r <$> l) = f <$> l.
Proof.
  intros H. rewrite <- list_fmap_compose. apply list_fmap_ext. intros i x _. apply H.
Qed.

Lemma Forall_set_ready (P : nat -> ws_instance -> Prop) k r (l : list socket) :
  Forall (fun x => P (sk_id x) (sk_inst x)) l ->
  Forall (fun x => P (sk_id x) (sk_inst x)) (set_ready k r <$> l).
Proof.
  intros H. apply Forall_fmap. eapply Forall_weaken; [exact H|].
  intros x. simpl. by rewrite set_ready_id, set_ready_inst.
Qed.

Lemma find_sock_in k s x : find_sock k s = Some x -> x ∈ ws_socks s /\ sk_id x = k.
Proof.
  unfold find_sock. intros ([j y] & E & Hr)%fmap_Some. simpl in Hr. subst y.
  apply list_find_Some in E as (E & ? & _). by apply list_elem_of_lookup_2 in E.
Qed.
Lemma find_ws_timer_in t s x : find_ws_timer t s = Some x -> x ∈ ws_timers s /\ wt_id x = t.
Proof.
  unfold find_ws_timer. intros ([j y] & E & Hr)%fmap_Some. simpl in Hr. subst y.
  apply list_find_Some in E as (E & ? & _). by apply list_elem_of_lookup_2 in E.
Qed.

Lemma ws_cleanup_fresh s : ws_ids_fresh s -> ws_ids_fresh (ws_cleanup s).
Proof.
  unfold ws_cleanup. intros (H1 & H2 & H3 & H4). destruct (ws_active s); [|by repeat split].
  repeat split; simpl.
  - destruct (ws_ref s); [|done].
    by apply (Forall_set_ready (fun a b => a < ws_next s /\ wi_id b < ws_next s)).
  - destruct (ws_timeout s); [|done]. by apply Forall_filter_sub.
  - destruct (ws_ref s); [|done]. rewrite fmap_set_ready; [done|]. intros; apply set_ready_id.
  - destruct (ws_timeout s); [|done]. by apply NoDup_fmap_filter.
Qed.

Lemma ws_cleanup_chains s : sublist (chains (ws_cleanup s)) (chains s).
Proof.
  unfold ws_cleanup, chains. destruct (ws_active s); [|done]. simpl.
  apply sublist_app.
  - destruct (ws_ref s); [|done]. rewrite fmap_set_ready; [done|].
    intros x. simpl. by rewrite set_ready_inst.
  - destruct (ws_timeout s); [|done]. apply fmap_sublist, sublist_filter.
Qed.

Lemma chains_fresh s i : ws_ids_fresh s -> i ∈ chains s -> i < ws_next s.
Proof.
  intros (H1 & H2 & _). unfold chains. rewrite Forall_forall in H1. rewrite Forall_forall in H2.
  intros [(x & -> & Hx)%list_elem_of_fmap|(x & -> & Hx)%list_elem_of_fmap]%elem_of_app.
  - by destruct (H1 x Hx).
  - by destruct (H2 x Hx).
Qed.

Lemma connect_fresh (i : ws_instance) s :
  ws_ids_fresh s -> wi_id i < ws_next s ->
  ws_ids_fresh (fst (connect (M := M) page_protocol i s)).
Proof.
  intros (H1 & H2 & H3 & H4) Hi. repeat split; simpl.
  - apply Forall_app. split; [|repeat constructor; simpl; lia].
    eapply Forall_weaken; [exact H1|]. simpl. lia.
  - eapply Forall_weaken; [exact H2|]. simpl. lia.
  - eapply NoDup_snoc_fresh; [done| |done]. eapply Forall_weaken; [exact H1|]. simpl. lia.
  - done.
Qed.

Lemma connect_chains (i : ws_instance) s :
  chains (fst (connect (M := M) page_protocol i s)) ≡ₚ wi_id i :: chains s.
Proof. unfold chains, connect; simpl. rewrite fmap_app, <- app_assoc. simpl. by rewrite <- Permutation_middle. Qed.

(** The chain of the instance whose socket closed moves to its timer. *)
Lemma on_close_chains k x s :
  ws_ids_fresh s -> find_sock k s = Some x ->
  chains (on_close k (sk_inst x) s) ≡ₚ chains s.
Proof.
  intros (_ & _ & H3 & _) [Hx <-]%find_sock_in. unfold chains, on_close; simpl.
  rewrite fmap_app. pose proof (drop_perm sk_id _ x H3 Hx) as Hp.
  rewrite (fmap_Permutation (wi_id ∘ sk_inst) _ _ Hp). simpl.
  rewrite app_assoc. by rewrite Permutation_app_comm.
Qed.

Lemma on_close_fresh k x s :
  ws_ids_fresh s -> find_sock k s = Some x -> ws_ids_fresh (on_close k (sk_inst x) s).
Proof.
  intros (H1 & H2 & H3 & H4) [Hx _]%find_sock_in.
  pose proof (proj1 (Forall_forall _ _) H1 x Hx) as [_ Hi]. repeat split; simpl.
  - apply Forall_filter_sub. eapply Forall_weaken; [exact H1|]. simpl. lia.
  - apply Forall_app. split; [|repeat constructor; simpl; lia].
    eapply Forall_weaken; [exact H2|]. simpl. lia.
  - by apply NoDup_fmap_filter.
  - eapply NoDup_snoc_fresh; [done| |done]. eapply Forall_weaken; [exact H2|]. simpl. lia.
Qed.

Definition drop_ws_timer (t : nat) s : ws_state :=
  WsState (ws_active s) (ws_ref s) (ws_retry s) (ws_connected s) (ws_timeout s)
    (ws_socks s) (filter (fun y => wt_id y <> t) (ws_timers s)) (ws_next s).

Lemma drop_ws_timer_fresh t s : ws_ids_fresh s -> ws_ids_fresh (drop_ws_timer t s).
Proof.
  intros (H1 & H2 & H3 & H4). repeat split; simpl; try done.
  - by apply Forall_filter_sub.
  - by apply NoDup_fmap_filter.
Qed.

Lemma drop_ws_timer_chains t x s :
  ws_ids_fresh s -> find_ws_timer t s = Some x ->
  wi_id (wt_inst x) :: chains (drop_ws_timer t s) ≡ₚ chains s.
Proof.
  intros (_ & _ & _ & H4) [Hx <-]%find_ws_timer_in. unfold chains, drop_ws_timer; simpl.
  rewrite (fmap_Permutation (wi_id ∘ wt_inst) _ _ (drop_perm wt_id _ x H4 Hx)). simpl.
  by rewrite <- Permutation_middle.
Qed.

Lemma ws_invariant_perm s s' :
  ws_ids_fresh s' -> ws_active s' = ws_active s -> chains s' ≡ₚ chains s ->
  ws_invariant s -> ws_invariant s'.
Proof.
  intros Hf Ha Hc (_ & Hnd & Hact). split; [done|]. rewrite Ha.
  split; [by rewrite Hc|]. destruct (ws_active s); [by rewrite Hc|done].
Qed.

Lemma ws_handle_invariant s e :
  ws_invariant s -> ws_enabled s e -> ws_invariant (fst (ws_handle e s)).
Proof.
  intros Hinv Hen. pose proof Hinv as (Hf & Hnd & Hact).
  pose proof (ws_cleanup_fresh s Hf) as Hcf. pose proof (ws_cleanup_chains s) as Hcc.
  destruct e as [url| |k|k data|k|t]; cbn [WebSocketStream.ws_handle fst].
  - assert (Hmono : forall i, ws_ids_fresh (WsState (Some i) (ws_ref (ws_cleanup s))
        (ws_retry (ws_cleanup s)) (ws_connected (ws_cleanup s)) None (ws_socks (ws_cleanup s))
        (ws_timers (ws_cleanup s)) (S (ws_next (ws_cleanup s))))).
    { destruct Hcf as (H1 & H2 & H3 & H4). intros i. repeat split; simpl; try done;
        [eapply Forall_weaken; [exact H1|]|eapply Forall_weaken; [exact H2|]]; simpl; lia. }
    split; [apply connect_fresh; [apply Hmono|simpl; lia]|].
    split; [|unfold chains; simpl; rewrite fmap_app; set_solver].
    rewrite connect_chains. apply NoDup_cons. split; [|by eapply sublist_NoDup].
    intros Hin. apply (chains_fresh (ws_cleanup s)) in Hin; [simpl in Hin; lia|done].
  - split; [done|]. split; [by eapply sublist_NoDup|].
    unfold ws_cleanup. by destruct (ws_active s) eqn:E; [|rewrite E].
  - apply (ws_invariant_perm s); [|done| |done].
    + destruct Hf as (H1 & H2 & H3 & H4). repeat split; simpl; try done.
      * by apply (Forall_set_ready (fun a b => a < ws_next s /\ wi_id b < ws_next s)).
      * rewrite fmap_set_ready; [done|]. intros; apply set_ready_id.
    + unfold chains; simpl. rewrite fmap_set_ready; [done|].
      intros x. simpl. by rewrite set_ready_inst.
  - done.
  - destruct Hen as [x Hx]. rewrite Hx.
    apply (ws_invariant_perm s); [by apply on_close_fresh|done|by apply on_close_chains|done].
  - destruct Hen as [x Hx]. rewrite Hx. fold (drop_ws_timer t s).
    pose proof (find_ws_timer_in _ _ _ Hx) as [Hin _].
    apply (ws_invariant_perm s); [|done| |done].
    + apply connect_fresh; [by apply drop_ws_timer_fresh|].
      destruct Hf as (_ & H2 & _). rewrite Forall_forall in H2. by apply H2.
    + rewrite connect_chains. by apply drop_ws_timer_chains.
Qed.

(** The socket of an instance survives the cleanup (closing). *)
Lemma ws_cleanup_find s k x :
  find_sock k s = Some x ->
  exists y, find_sock k (ws_cleanup s) = Some y /\ sk_inst y = sk_inst x.
Proof.
  intros Hx. unfold ws_cleanup. destruct (ws_active s); [|eauto].
  unfold find_sock in *. simpl. destruct (ws_ref s) as [r|]; [|eauto].
  apply fmap_Some in Hx as ([j y] & Hf & ->). simpl.
  exists (set_ready r CLOSING y). split; [|apply set_ready_inst].
  rewrite list_find_fmap. apply fmap_Some. exists (j, set_ready r CLOSING y). split; [|done].
  apply fmap_Some. exists (j, y). split; [|done].
  erewrite list_find_ext; [exact Hf|]. intros z. simpl. by rewrite set_ready_id.
Qed.

Lemma find_new_timer k i s :
  ws_ids_fresh s ->
  find_ws_timer (ws_next s) (on_close k i s) =
  Some (WsTimer (ws_next s) i (backoff (ws_retry s))).
Proof.
  intros (_ & H2 & _). unfold find_ws_timer, on_close. simpl.
  rewrite list_find_app_r; [by simpl; rewrite decide_True|].
  apply list_find_None. eapply Forall_weaken; [exact H2|]. simpl. lia.
Qed.

Lemma ws_run_inv es qs s :
  run ws_enabled ws_handle ws_init es qs s -> ws_invariant s.
Proof.
  apply run_invariant; [|apply ws_handle_invariant].
  split; [|split]; [|constructor|done]. repeat split; constructor.
Qed.
End WebSocketFacts.

Section WebSocketProperties.
Context {M : Type} (decode : string -> M) (page_protocol : string).
Notation ws_run := (run ws_enabled (ws_handle decode page_protocol) ws_init).

(** C25: an instance of the effect never owns two connections: at every
    moment each instance has at most one socket or pending reconnection,
    and the mounted instance has exactly one, so the hook never gives up
    and never dials twice. *)
Theorem ws_single_chain es qs s :
  ws_run es qs s ->
  NoDup (chains s) /\
  (forall i, ws_active s = Some i -> wi_id i ∈ chains s).
Proof.
  intros (_ & Hnd & Hact)%ws_run_inv. split; [done|]. intros i E. by rewrite E in Hact.
Qed.

(** C27: unmounting does not stop the hook when its socket is still there:
    [clearTimeout] runs before [close()], so the close event that follows
    schedules a reconnection in the unmounted instance, which dials again
    when its timer fires. *)
Theorem ws_unmount_reconnects es qs s i k x :
  ws_run es qs s ->
  ws_active s = Some i -> find_sock k s = Some x -> sk_inst x = i ->
  exists t s' qs',
    ws_run (es ++ [WsUnmount; WsClose k; WsFire t]) (qs ++ qs') s' /\
    ws_active s' = None /\
    qs' = [Dial (ws_protocol page_protocol) (wi_url i)] /\
    wi_id i ∈ chains s'.
Proof.
  intros Hrun Hact Hx Hi. pose proof (ws_run_inv _ _ _ _ _ Hrun) as (Hf & _).
  set (s1 := ws_cleanup s).
  assert (Hx1 : exists x1, find_sock k s1 = Some x1 /\ sk_inst x1 = i).
  { rewrite <- Hi. by apply ws_cleanup_find. }
  destruct Hx1 as (x1 & Hx1 & Hi1).
  set (s2 := on_close k i s1).
  assert (Ht2 : find_ws_timer (ws_next s1) s2 = Some (WsTimer (ws_next s1) i (backoff (ws_retry s1)))).
  { apply find_new_timer. apply ws_cleanup_fresh, Hf. }
  exists (ws_next s1). eexists (fst (ws_handle decode page_protocol (WsFire (ws_next s1)) s2)).
  exists [Dial (ws_protocol page_protocol) (wi_url i)].
  split; [|cbn [ws_handle]; rewrite Ht2; cbn [fst wt_inst]; repeat split].
  - eapply run_app; [exact Hrun|].
    change [Dial (ws_protocol page_protocol) (wi_url i)]
      with (([] ++ []) ++ [@Dial M (ws_protocol page_protocol) (wi_url i)]).
    apply (run_snoc _ _ _ [WsUnmount; WsClose k] _ s2); [|by eexists|by cbn [ws_handle]; rewrite Ht2].
    apply (run_snoc _ _ _ [WsUnmount] _ s1); [|by eexists|].
    + apply (run_snoc _ _ _ [] [] s); [constructor|done|done].
    + cbn [ws_handle]. by rewrite Hx1, Hi1.
  - cbn. unfold s1, ws_cleanup. by rewrite Hact.
  - rewrite connect_chains. apply elem_of_cons. by left.
Qed.
End WebSocketProperties.

(** ** Concrete executions *)
Definition demo_ws : list ws_event :=
  [WsEffect "/api/ws/alerts"; WsOpen 1; WsMessage 1 "{}"; WsClose 1; WsFire 2; WsOpen 3].

Lemma demo_ws_run :
  run ws_enabled (ws_handle id "https:") ws_init demo_ws
    (snd (exec (ws_handle id "https:") demo_ws ws_init))
    (fst (exec (ws_handle id "https:") demo_ws ws_init)).
Proof. apply exec_run. cbn. repeat split; try (by eexists). Qed.

Lemma ws_single_chain_witness :
  NoDup (chains (fst (exec (ws_handle id "https:") demo_ws ws_init))) /\
  0 ∈ chains (fst (exec (ws_handle id "https:") demo_ws ws_init)).
Proof.
  destruct (ws_single_chain id "https:" demo_ws _ _ demo_ws_run) as [H1 H2].
  split; [exact H1|]. exact (H2 _ eq_refl).
Defined.

Lemma ws_unmount_reconnects_witness :
  exists t s' qs',
    run ws_enabled (ws_handle id "https:") ws_init
      (demo_ws ++ [WsUnmount; WsClose 3; WsFire t])
      (snd (exec (ws_handle id "https:") demo_ws ws_init) ++ qs') s' /\
    ws_active s' = None /\ qs' = [Dial "wss:" "/api/ws/alerts"].
Proof.
  destruct (ws_unmount_reconnects id "https:" demo_ws _ _ (WsInstance 0 "/api/ws/alerts") 3
    (Socket 3 (WsInstance 0 "/api/ws/alerts") OPEN) demo_ws_run)
    as (t & s' & qs' & H1 & H2 & H3 & _); [reflexivity..|].
  exists t, s', qs'. split; [exact H1|]. split; [exact H2|exact H3].
Defined.
