(* ===== verification/InvestigationStream.v ===== *)
(** * [useInvestigationStream] ([hooks/useInvestigationStream.ts])

    The live log of an investigation: a WebSocket per investigation whose
    messages go to a buffer of the last 1000 entries.  The same code is in
    [features/investigations/hooks/useInvestigationStream.ts]. *)
From S2P Require Import Prelude JsString Html WebSocketStream.

Definition ring_limit : nat := 1000.

(** The functional update of [onmessage]. *)
Definition push_log (prevLogs : list string) (x : string) : list string :=
  let updated := prevLogs ++ [x] in
  if ring_limit <? length updated then drop (length updated - ring_limit) updated
  else updated.

(** [`${protocol}//${host}/api/investigations/${investigationId}/stream`] *)
Definition stream_url (page_protocol host investigationId : string) : string :=
  (ws_protocol page_protocol) +:+ "//" +:+ host +:+ "/api/investigations/" +:+
  investigationId +:+ "/stream".

Record inv_stream := InvStream {
  is_logs : list string;
  is_connected : bool;
  is_mounted : bool;                      (* an effect with a cleanup is active *)
  is_ref : option nat;                    (* wsRef.current *)
  is_socks : list (nat * readyState);     (* sockets that are not CLOSED *)
  is_next : nat }.

Inductive is_event :=
| IsEffect (investigationId : option string)
| IsUnmount
| IsOpen (k : nat)
| IsMessage (k : nat) (data : string)
| IsError (k : nat)
| IsClose (k : nat).

Definition is_init : inv_stream := InvStream [] false false None [] 0.

Definition sock_state (k : nat) (s : inv_stream) : option readyState :=
  snd <$> (snd <$> list_find (fun x => x.1 = k) (is_socks s)).

Definition set_sock (k : nat) (r : readyState) (x : nat * readyState) : nat * readyState :=
  if bool_decide (x.1 = k) then (k, r) else x.

(** The cleanup closes the socket only when it is [OPEN]. *)
Definition is_cleanup (s : inv_stream) : inv_stream :=
  if is_mounted s then
    match is_ref s with
    | Some k =>
        InvStream (is_logs s) (is_connected s) false (is_ref s)
          (if bool_decide (sock_state k s = Some OPEN) then set_sock k CLOSING <$> is_socks s
           else is_socks s) (is_next s)
    | None => InvStream (is_logs s) (is_connected s) false (is_ref s) (is_socks s) (is_next s)
    end
  else s.

Section Stream.
Context (page_protocol host : string).

Definition is_handle (e : is_event) (s : inv_stream) : inv_stream * list string :=
  match e with
  | IsEffect oid =>
      let s := is_cleanup s in
      match oid with
      | None => (s, [])
      | Some id =>
          if bool_decide (id = EmptyString) then (s, [])
          else
            (InvStream (is_logs s) (is_connected s) true (Some (is_next s))
               (is_socks s ++ [(is_next s, CONNECTING)]) (S (is_next s)),
             [stream_url page_protocol host id])
      end
  | IsUnmount => (is_cleanup s, [])
  | IsOpen k =>
      (InvStream (is_logs s) true (is_mounted s) (is_ref s) (set_sock k OPEN <$> is_socks s)
         (is_next s), [])
  | IsMessage _ data =>
      (InvStream (push_log (is_logs s) data) (is_connected s) (is_mounted s) (is_ref s)
         (is_socks s) (is_next s), [])
  | IsError _ =>
      (InvStream (is_logs s) false (is_mounted s) (is_ref s) (is_socks s) (is_next s), [])
  | IsClose k =>
      (InvStream (is_logs s) false (is_mounted s) (is_ref s)
         (filter (fun x => x.1 <> k) (is_socks s)) (is_next s), [])
  end.

Definition is_enabled (s : inv_stream) (e : is_event) : Prop :=
  match e with
  | IsEffect _ | IsUnmount => True
  | IsOpen k => sock_state k s = Some CONNECTING
  | IsMessage k _ => sock_state k s = Some OPEN
  | IsError k | IsClose k => is_Some (sock_state k s)
  end.

(** The payloads received, in order. *)
Fixpoint received (es : list is_event) : list string :=
  match es with
  | [] => []
  | IsMessage _ d :: es' => d :: received es'
  | _ :: es' => received es'
  end.

Lemma received_app es es' : received (es ++ es') = received es ++ received es'.
Proof. induction es as [|[] es IH]; simpl; congruence. Qed.

(** The specification: the last [ring_limit] elements. *)
Lemma push_log_spec l x : push_log (last_n ring_limit l) x = last_n ring_limit (l ++ [x]).
Proof.
  unfold push_log, last_n. rewrite !length_app, length_drop. cbn [length].
  set (n := ring_limit). assert (n = 1000) as Hn by done. clearbody n.
  destruct (Nat.ltb_spec n (length l - (length l - n) + 1)) as [H|H].
  - rewrite <- drop_app_le by lia. rewrite drop_drop. f_equal. lia.
  - rewrite <- drop_app_le by lia. f_equal. lia.
Qed.

(** C28: the live log is always the last thousand messages received, in
    order, whatever sockets they came through. *)
Theorem stream_ring_buffer es qs s :
  run is_enabled is_handle is_init es qs s ->
  is_logs s = last_n ring_limit (received es) /\ length (is_logs s) <= 1000.
Proof.
  intros H. assert (E : is_logs s = last_n ring_limit (received es)).
  - induction H as [|es qs s e s' q _ IH _ Hh]; [done|]. rewrite received_app.
    destruct e; simpl in Hh |- *; rewrite ?app_nil_r; simplify_eq/=; try done.
    + destruct investigationId as [id|]; [case_bool_decide|]; simplify_eq/=;
        unfold is_cleanup; destr_if; done.
    + unfold is_cleanup; destr_if; done.
    + rewrite IH. apply push_log_spec.
  - split; [done|]. rewrite E. unfold last_n. rewrite length_drop. unfold ring_limit. lia.
Qed.

(** Leaving the page while the handshake is still running does not
    close the socket: it stays, can open afterwards and still delivers
    messages into the log. *)
Lemma stream_unmount_leak s k d :
  is_mounted s = true -> is_ref s = Some k -> sock_state k s = Some CONNECTING ->
  let s1 := fst (is_handle IsUnmount s) in
  let s2 := fst (is_handle (IsOpen k) s1) in
  is_mounted s1 = false /\ is_enabled s1 (IsOpen k) /\ is_enabled s2 (IsMessage k d) /\
  is_logs (fst (is_handle (IsMessage k d) s2)) = push_log (is_logs s) d.
Proof.
  intros Hm Hr Hk. simpl. unfold is_cleanup. rewrite Hm, Hr.
  rewrite bool_decide_eq_false_2 by congruence. simpl. repeat split; [done|].
  unfold sock_state in *; simpl.
  apply fmap_Some in Hk as (r & ([j y] & Hf & ->)%fmap_Some & E).
  rewrite list_find_fmap. apply list_find_Some in Hf as (Hj & Hy & Hlt). simpl in *.
  erewrite (list_find_ext _ (fun x => x.1 = k)).
  - assert (list_find (fun x => x.1 = k) (is_socks s) = Some (j, y)) as ->.
    { apply list_find_Some; eauto. }
    simpl. unfold set_sock. by rewrite bool_decide_eq_true_2.
  - intros [a b]. unfold set_sock; simpl. case_bool_decide; simpl; naive_solver.
Qed.
End Stream.

Lemma stream_ring_buffer_witness :
  let es := [IsEffect (Some "INC-1"); IsOpen 0; IsMessage 0 "a"; IsMessage 0 "b"] in
  let s := fst (exec (is_handle "https:" "soc") es is_init) in
  is_logs s = ["a"; "b"] /\ length (is_logs s) <= 1000.
Proof.
  intros es s.
  refine (stream_ring_buffer "https:" "soc" es (snd (exec (is_handle "https:" "soc") es is_init)) s _).
  apply exec_run. cbn. repeat split.
Defined.

Lemma stream_unmount_leak_witness :
  let s := fst (is_handle "https:" "soc" (IsEffect (Some "INC-1")) is_init) in
  let s1 := fst (is_handle "https:" "soc" IsUnmount s) in
  is_enabled s1 (IsOpen 0).
Proof.
  destruct (stream_unmount_leak "https:" "soc"
    (fst (is_handle "https:" "soc" (IsEffect (Some "INC-1")) is_init)) 0 "late") as (_ & H & _);
    [reflexivity..|exact H].
Defined.
