(* ===== verification/TwoKey.v ===== *)
(** * Two-key approval ([shared/ui/TwoKeyModal/index.tsx])

    The dialog that guards destructive actions: the analyst must type the
    exact target before the action can be executed.  The component is
    modelled over its properties ([show], [action], [input]) and its own
    state ([isSubmitting]); a page supplies what [setInput], [onCancel] and
    [onConfirm] do. *)
From S2P Require Import Prelude JsString Html Types.

(** [action ? input.trim() === action.target : false] *)
Definition isMatch (action : option ActionInfo) (input : string) : bool :=
  match action with
  | Some a => bool_decide (trim input = action_target a)
  | None => false
  end.

(** [input.trim().length > 0 && !isMatch] *)
Definition isNonEmptyMismatch (action : option ActionInfo) (input : string) : bool :=
  negb (bool_decide (trim input = EmptyString)) && negb (isMatch action input).

Inductive tk_event := TkInput (val : string) | TkCancel | TkConfirm.

Inductive tk_key := Escape | OtherKey.

(** [handleKeyDown], registered while the dialog is shown: Escape cancels. *)
Definition tk_keydown (show : bool) (k : tk_key) : option tk_event :=
  if show then match k with Escape => Some TkCancel | OtherKey => None end else None.

(** The guard of [handleConfirm]: whether [onConfirm] is called. *)
Definition handleConfirm (action : option ActionInfo) (input : string)
    (isSubmitting : bool) : bool :=
  isMatch action input && negb isSubmitting.

(** The effect on [[show, action?.target]]: opening resets [isSubmitting]. *)
Definition tk_on_show (show : bool) (isSubmitting : bool) : bool :=
  if show then false else isSubmitting.

(** The dialog; [None] of the component ([return null]) is the empty list. *)
Definition tk_view (show : bool) (action : option ActionInfo) (input : string)
    (isSubmitting : bool) : list (html tk_event) :=
  when show (when_some action (fun a => [
    Clickable TkCancel [                          (* the overlay itself *)
      El "h2" "" [Text "DANGER: DESTRUCTIVE ACTION"];
      El "p" "" [Text "You are about to execute: "; Text (action_action a); Text " on ";
                 Text (action_target a)];
      El "p" "" [Text "Please type the exact target name ("; Text (action_target a);
                 Text ") to confirm:"];
      Input isSubmitting input TkInput;
      El "div" (if isNonEmptyMismatch action input then "input-error" else "")
        (when (isNonEmptyMismatch action input)
          [El "p" "" [Text "✖ Target name does not match — type exactly: "; Text (action_target a)]]);
      El "div" "" (when (isMatch action input) [El "p" "" [Text "✔ Target confirmed"]]);
      Button isSubmitting (Some TkCancel) [Text "Cancel"];
      Button (negb (isMatch action input) || isSubmitting) (Some TkConfirm)
        [Text (if isSubmitting then "⏳ Executing…" else "EXECUTE ACTION")]]])).

(** ** Facts *)
Lemma isMatch_spec a input : isMatch (Some a) input = true <-> trim input = action_target a.
Proof. simpl. apply bool_decide_eq_true. Qed.

Lemma handleConfirm_spec action input sub :
  handleConfirm action input sub = true <->
  sub = false /\ exists a, action = Some a /\ trim input = action_target a.
Proof.
  unfold handleConfirm. rewrite andb_true_iff, negb_true_iff. split.
  - intros [Hm ->]. split; [done|]. destruct action as [a|]; [|done].
    exists a. split; [done|]. by apply isMatch_spec.
  - intros [-> (a & -> & E)]. split; [|done]. by apply isMatch_spec.
Qed.

(** The confirm button is the only way to confirm on screen, and it is
    enabled only for the exact target. *)
Lemma tk_view_confirm show action input sub :
  offers_any (tk_view show action input sub) TkConfirm <->
  show = true /\ handleConfirm action input sub = true.
Proof.
  unfold tk_view, handleConfirm. autorewrite with offers. split.
  - intros [-> (a & -> & H)]. split; [done|]. autorewrite with offers in H.
    destruct (isNonEmptyMismatch _ _), (isMatch (Some a) input) eqn:Em, sub;
      autorewrite with offers in H; naive_solver.
  - intros [-> H]. split; [done|]. destruct action as [a|]; [|done].
    exists a. split; [done|]. autorewrite with offers.
    destruct (isMatch (Some a) input), sub; naive_solver.
Qed.

Lemma tk_view_input show action input sub v :
  offers_any (tk_view show action input sub) (TkInput v) ->
  show = true /\ is_Some action /\ sub = false.
Proof.
  unfold tk_view. autorewrite with offers. intros [-> (a & -> & H)].
  split; [done|]. split; [by eexists|]. autorewrite with offers in H. naive_solver.
Qed.

(** C2: the dialog lets an action through exactly when it is shown, no
    submission is pending, and the text typed, up to surrounding white
    space, is the target; the button on screen and the handler behind it
    agree, and the mismatch warning and the confirmation tick are never shown
    together. *)
Theorem two_key_gate action input sub :
  (offers_any (tk_view true action input sub) TkConfirm <->
     sub = false /\ exists a, action = Some a /\ trim input = action_target a) /\
  (handleConfirm action input sub = true <->
     offers_any (tk_view true action input sub) TkConfirm) /\
  negb (isMatch action input && isNonEmptyMismatch action input) = true.
Proof.
  rewrite tk_view_confirm, handleConfirm_spec. split; [naive_solver|]. split; [naive_solver|].
  unfold isNonEmptyMismatch. destruct (isMatch action input); [|done].
  by rewrite andb_false_r.
Qed.

(** A target that starts or ends with white space can never be typed:
    the dialog stays locked for it, whatever the input. *)
Lemma two_key_untrimmed_locked a input sub :
  trim (action_target a) <> action_target a ->
  handleConfirm (Some a) input sub = false.
Proof.
  intros H. destruct (handleConfirm (Some a) input sub) eqn:E; [|done].
  apply handleConfirm_spec in E as [_ (a' & Ha & E)]. simplify_eq.
  exfalso. apply H. rewrite <- E. apply trim_idemp.
Qed.

Definition demo_action (t : string) : ActionInfo :=
  {| action_action := "Isolate Host"; action_target := t;
     action_justification := "containment"; action_risk := DESTRUCTIVE |}.

Lemma two_key_untrimmed_locked_witness :
  handleConfirm (Some (demo_action "web-01 ")) "web-01 " false = false.
Proof. apply (two_key_untrimmed_locked (demo_action "web-01 ")). vm_compute. discriminate. Defined.
