(* ===== verification/InvestigationContext.v ===== *)
(** * Investigation store ([features/investigations/store/InvestigationContext.tsx])

    The provider's state, its callbacks and the continuations of its
    requests.  [cx_flight] holds the pending [await]s with the values their
    closures captured; a continuation runs when the backend answers, in any
    order. *)
From S2P Require Import Prelude JsString Html Types Http TwoKey.

Record two_key_modal := TwoKeyModal {
  tkm_show : bool; tkm_action : option ActionInfo; tkm_input : string }.

Definition modal_closed : two_key_modal := TwoKeyModal false None "".

(** What a pending [await] continues with. *)
Inductive cx_kont :=
| KAlerts
| KInvestigation (alert : Alert)
| KExecute (action : ActionInfo).

Record cx_state := CxState {
  cx_alerts : list Alert;
  cx_alertsLoading : bool;
  cx_alertsError : option string;
  cx_selectedAlert : option Alert;
  cx_investigation : option InvestigationData;
  cx_twoKeyModal : two_key_modal;
  cx_flight : gmap nat cx_kont;
  cx_next : nat }.

Definition cx_init : cx_state := CxState [] true None None None modal_closed ∅ 0.

Inductive cx_effect :=
| GetAlerts
| GetInvestigation (alertId : string)
| PostExecute (action target justification : string) (risk : Risk).

Inductive cx_answer :=
| AnsAlerts (r : http_result (list Alert))
| AnsInvestigation (r : http_result InvestigationData)
| AnsExecute (r : http_result unit).

Inductive cx_event :=
| FetchAlerts
| SetSelectedAlert (alert : option Alert)
| SetTwoKeyModal (m : two_key_modal)
| ViewInvestigation (alert : Alert)
| HandleActionApprove (action : ActionInfo)
| ConfirmTwoKeyAction
| Answer (k : nat) (a : cx_answer).

Definition cx_set_modal (m : two_key_modal) (s : cx_state) : cx_state :=
  CxState (cx_alerts s) (cx_alertsLoading s) (cx_alertsError s) (cx_selectedAlert s)
    (cx_investigation s) m (cx_flight s) (cx_next s).

(** Register the continuation of an [await]. *)
Definition cx_await (k : cx_kont) (s : cx_state) : cx_state :=
  CxState (cx_alerts s) (cx_alertsLoading s) (cx_alertsError s) (cx_selectedAlert s)
    (cx_investigation s) (cx_twoKeyModal s) (<[cx_next s := k]> (cx_flight s)) (S (cx_next s)).

Definition cx_forget (k : nat) (s : cx_state) : cx_state :=
  CxState (cx_alerts s) (cx_alertsLoading s) (cx_alertsError s) (cx_selectedAlert s)
    (cx_investigation s) (cx_twoKeyModal s) (delete k (cx_flight s)) (cx_next s).

(** [fetchAlerts] up to its [await]. *)
Definition fetchAlerts (s : cx_state) : cx_state * list cx_effect :=
  (cx_await KAlerts (CxState (cx_alerts s) true None (cx_selectedAlert s)
     (cx_investigation s) (cx_twoKeyModal s) (cx_flight s) (cx_next s)), [GetAlerts]).

(** The rest of [fetchAlerts]. *)
Definition fetchAlerts_done (r : http_result (list Alert)) (s : cx_state) : cx_state :=
  match r with
  | HttpOk alerts =>
      CxState alerts false (cx_alertsError s) (cx_selectedAlert s) (cx_investigation s)
        (cx_twoKeyModal s) (cx_flight s) (cx_next s)
  | HttpErr _ =>
      CxState (cx_alerts s) false (Some "Failed to load alerts. The backend may be unreachable.")
        (cx_selectedAlert s) (cx_investigation s) (cx_twoKeyModal s) (cx_flight s) (cx_next s)
  end.

(** [viewInvestigation] up to its [await]. *)
Definition viewInvestigation (alert : Alert) (s : cx_state) : cx_state * list cx_effect :=
  (cx_await (KInvestigation alert)
     (CxState (cx_alerts s) (cx_alertsLoading s) (cx_alertsError s) (Some alert) None
        (cx_twoKeyModal s) (cx_flight s) (cx_next s)),
   [GetInvestigation (alert_id alert)]).

Definition viewInvestigation_done (r : http_result InvestigationData) (s : cx_state) : cx_state :=
  match r with
  | HttpOk d =>
      CxState (cx_alerts s) (cx_alertsLoading s) (cx_alertsError s) (cx_selectedAlert s)
        (Some d) (cx_twoKeyModal s) (cx_flight s) (cx_next s)
  | HttpErr _ => s
  end.

(** [action.risk === 'DESTRUCTIVE' || action.risk === 'HIGH_IMPACT_WRITE'] *)
Definition needs_two_key (r : Risk) : bool :=
  match r with DESTRUCTIVE | HIGH_IMPACT_WRITE => true | _ => false end.

Definition handleActionApprove (action : ActionInfo) (s : cx_state) : cx_state :=
  if needs_two_key (action_risk action)
  then cx_set_modal (TwoKeyModal true (Some action) "") s
  else s.

(** [confirmTwoKeyAction] up to its [await]; a mismatch closes the dialog. *)
Definition confirmTwoKeyAction (s : cx_state) : cx_state * list cx_effect :=
  match tkm_action (cx_twoKeyModal s) with
  | Some a =>
      if bool_decide (trim (tkm_input (cx_twoKeyModal s)) = action_target a)
      then (cx_await (KExecute a) s,
            [PostExecute (action_action a) (action_target a) (action_justification a)
               (action_risk a)])
      else (cx_set_modal modal_closed s, [])
  | None => (cx_set_modal modal_closed s, [])
  end.

Definition cx_handle (e : cx_event) (s : cx_state) : cx_state * list cx_effect :=
  match e with
  | FetchAlerts => fetchAlerts s
  | SetSelectedAlert o =>
      (CxState (cx_alerts s) (cx_alertsLoading s) (cx_alertsError s) o (cx_investigation s)
         (cx_twoKeyModal s) (cx_flight s) (cx_next s), [])
  | SetTwoKeyModal m => (cx_set_modal m s, [])
  | ViewInvestigation a => viewInvestigation a s
  | HandleActionApprove a => (handleActionApprove a s, [])
  | ConfirmTwoKeyAction => confirmTwoKeyAction s
  | Answer k a =>
      match cx_flight s !! k, a with
      | Some KAlerts, AnsAlerts r => (fetchAlerts_done r (cx_forget k s), [])
      | Some (KInvestigation _), AnsInvestigation r => (viewInvestigation_done r (cx_forget k s), [])
      | Some (KExecute _), AnsExecute _ => (cx_set_modal modal_closed (cx_forget k s), [])
      | _, _ => (s, [])
      end
  end.

Definition cx_enabled (s : cx_state) (e : cx_event) : Prop :=
  match e with
  | Answer k a =>
      match cx_flight s !! k, a with
      | Some KAlerts, AnsAlerts _ | Some (KInvestigation _), AnsInvestigation _
      | Some (KExecute _), AnsExecute _ => True
      | _, _ => False
      end
  | _ => True
  end.

(** ** Properties *)

(** Only a matching confirmation sends an execution request. *)
Lemma execution_origin e s s' qs a t j r :
  cx_handle e s = (s', qs) ->
  PostExecute a t j r ∈ qs ->
  e = ConfirmTwoKeyAction /\
  exists act, tkm_action (cx_twoKeyModal s) = Some act /\
    trim (tkm_input (cx_twoKeyModal s)) = t /\
    act = {| action_action := a; action_target := t;
             action_justification := j; action_risk := r |}.
Proof.
  intros H Hq. destruct e; simpl in H; unfold fetchAlerts, viewInvestigation in H;
    simplify_eq; try set_solver.
  - unfold confirmTwoKeyAction in H. split; [done|].
    destruct (tkm_action (cx_twoKeyModal s)) as [act|]; [|simplify_eq; set_solver].
    case_bool_decide as E; simplify_eq; [|set_solver].
    apply list_elem_of_singleton in Hq. simplify_eq. exists act. split; [done|].
    split; [done|]. by destruct act.
  - repeat case_match; simplify_eq; set_solver.
Qed.

(** C3: [confirmTwoKeyAction] asks the backend to execute exactly the action
    in the dialog, and only when the typed text is its target; in every other
    case it sends nothing and closes the dialog.  No other callback of the
    store ever sends an execution request. *)
Theorem two_key_execution e s s' qs a t j r :
  cx_handle e s = (s', qs) ->
  PostExecute a t j r ∈ qs ->
  e = ConfirmTwoKeyAction /\
  exists act, tkm_action (cx_twoKeyModal s) = Some act /\
    trim (tkm_input (cx_twoKeyModal s)) = t /\
    act = {| action_action := a; action_target := t;
             action_justification := j; action_risk := r |}.
Proof. apply execution_origin. Qed.

(** Approving an action opens the dialog for exactly the high-impact and
    destructive ones, with an empty confirmation; approving any other action
    changes nothing and sends nothing. *)
Lemma approve_opens_dialog action s :
  cx_handle (HandleActionApprove action) s =
    (if bool_decide (action_risk action ∈ [HIGH_IMPACT_WRITE; DESTRUCTIVE])
     then cx_set_modal (TwoKeyModal true (Some action) "") s else s, []).
Proof. simpl. unfold handleActionApprove. by destruct (action_risk action). Qed.

(** After an execution request settles, whatever the outcome, the dialog
    is closed and its input cleared, so a confirmation is never reused. *)
Lemma execution_closes_dialog s k act r :
  cx_flight s !! k = Some (KExecute act) ->
  cx_twoKeyModal (fst (cx_handle (Answer k (AnsExecute r)) s)) = modal_closed.
Proof. intros H. simpl. by rewrite H. Qed.

(** Investigations race: after the analyst opened alert [a] and then
    alert [b], an answer for [a] that arrives last leaves [b] selected with
    the investigation of [a] on screen. *)
Lemma investigation_race a b da db :
  exists qs s,
    run cx_enabled cx_handle cx_init
      [ViewInvestigation a; ViewInvestigation b;
       Answer 1 (AnsInvestigation (HttpOk db)); Answer 0 (AnsInvestigation (HttpOk da))] qs s /\
    cx_selectedAlert s = Some b /\ cx_investigation s = Some da.
Proof.
  eexists _, _. split; [apply exec_run; repeat split|]. by split.
Qed.

Definition demo_confirm : cx_state :=
  cx_set_modal (TwoKeyModal true (Some (demo_action "web-01")) " web-01 ") cx_init.

Lemma two_key_execution_witness :
  exists act, tkm_action (cx_twoKeyModal demo_confirm) = Some act /\
    trim (tkm_input (cx_twoKeyModal demo_confirm)) = "web-01".
Proof.
  destruct (two_key_execution ConfirmTwoKeyAction demo_confirm
    (fst (cx_handle ConfirmTwoKeyAction demo_confirm)) (snd (cx_handle ConfirmTwoKeyAction demo_confirm))
    "Isolate Host" "web-01" "containment" DESTRUCTIVE) as [_ (act & H1 & H2 & _)].
  - reflexivity.
  - vm_compute. left.
  - exists act. split; assumption.
Defined.

Lemma execution_closes_dialog_witness :
  cx_twoKeyModal (fst (cx_handle (Answer 0 (AnsExecute (HttpOk tt)))
    (fst (cx_handle ConfirmTwoKeyAction demo_confirm)))) = modal_closed.
Proof. apply (execution_closes_dialog _ _ (demo_action "web-01")). reflexivity. Defined.
