(* ===== verification/AlertRules.v ===== *)
(** * Detection rules page ([pages/detection/AlertRulesPage.tsx])

    The page that switches detection rules on and off.  A rule that triggers
    automatic responses can be disabled only through the two-key dialog.
    The model has the page's React state, its handlers with the
    continuations of their requests, the rendered page, and the guard that
    says which events the rendered page can produce.  The dialog's
    [onConfirm] is synchronous here, so its [isSubmitting] is false again
    before the next event: the view passes [false]. *)
From S2P Require Import Prelude JsString Html Types Http AsyncState SharedUi TwoKey.

Record EnhancedDetectionRule := ERule {
  er_rule : DetectionRule;
  er_falsePositiveRate : Z;
  er_triggerCount30d : Z;
  er_dependencies : list string }.

Definition er_id (r : EnhancedDetectionRule) : string := rule_id (er_rule r).
Definition er_enabled (r : EnhancedDetectionRule) : bool := rule_enabled (er_rule r).
Definition er_auto (r : EnhancedDetectionRule) : bool := rule_isAutoResponse (er_rule r).
Definition er_name (r : EnhancedDetectionRule) : string := rule_name (er_rule r).

#[export] Instance DetectionRule_eq_dec : EqDecision DetectionRule.
Proof. solve_decision. Defined.
#[export] Instance EnhancedDetectionRule_eq_dec : EqDecision EnhancedDetectionRule.
Proof. solve_decision. Defined.

(** The mapping of the fetch function; [draw i] are the two random numbers
    drawn for the [i]-th rule. *)
Definition enhance_rules (draw : nat -> Z * Z) (rs : list DetectionRule)
    : list EnhancedDetectionRule :=
  imap (fun i r => ERule r (draw i).1 (draw i).2
          (if rule_isAutoResponse r then ["Playbook: Auto-Containment"] else [])) rs.

(** [{ ...r, enabled: b }] *)
Definition set_enabled (b : bool) (r : EnhancedDetectionRule) : EnhancedDetectionRule :=
  let d := er_rule r in
  ERule {| rule_id := rule_id d; rule_name := rule_name d; rule_severity := rule_severity d;
           rule_enabled := b; rule_lastTriggered := rule_lastTriggered d;
           rule_isAutoResponse := rule_isAutoResponse d;
           rule_description := rule_description d |}
    (er_falsePositiveRate r) (er_triggerCount30d r) (er_dependencies r).

Inductive pending_type := PToggle (payload : EnhancedDetectionRule) | PBulkDisable.
Record pending_action := PendingAction { pa_action : ActionInfo; pa_type : pending_type }.

Inductive ar_kont :=
| KLoad
| KPatch (original : list EnhancedDetectionRule)
| KSim.

Record ar_state := ArState {
  ar_async : async (list EnhancedDetectionRule);
  ar_selectedIds : gset string;
  ar_pendingAction : option pending_action;
  ar_twoKeyInput : string;
  ar_showCreateModal : bool;
  ar_newRuleJson : string;
  ar_simulatingRule : option EnhancedDetectionRule;
  ar_simResult : option Z;
  ar_versionRule : option EnhancedDetectionRule;
  ar_flight : gmap nat ar_kont;
  ar_next : nat }.

Definition ar_data (s : ar_state) : option (list EnhancedDetectionRule) := as_data (ar_async s).

(** The text the dialog for a new rule starts with. *)
Definition quoted (s : string) : string := String (ascii_of_nat 34) (s +:+ String (ascii_of_nat 34) EmptyString).
Definition escaped (s : string) : string := "\" +:+ String (ascii_of_nat 34) (s +:+ "\" +:+ String (ascii_of_nat 34) EmptyString).
Definition new_rule_template : string :=
  join (String newline EmptyString)
    ["{";
     "  " +:+ quoted "name" +:+ ": " +:+ quoted "New Rule" +:+ ",";
     "  " +:+ quoted "severity" +:+ ": " +:+ quoted "high" +:+ ",";
     "  " +:+ quoted "enabled" +:+ ": true,";
     "  " +:+ quoted "isAutoResponse" +:+ ": false,";
     "  " +:+ quoted "dsl" +:+ ": " +:+ quoted ("source=" +:+ escaped "firewall" +:+ " AND action=" +:+ escaped "drop");
     "}"].

Definition ar_init : ar_state :=
  ArState async_init ∅ None "" false new_rule_template None None None ∅ 0.

Inductive ar_effect :=
| GetRules
| PatchRule (rule : EnhancedDetectionRule) (enabled : bool)
| AlertBox (msg : string).

Inductive ar_event :=
| ArExecute
| ArToggle (r : EnhancedDetectionRule)
| ArBulkDisable
| ArBulkEnable
| ArSimulate (r : EnhancedDetectionRule)
| ArSelect (id : string)
| ArSelectAll
| ArTk (e : tk_event)
| ArShowCreate (b : bool)
| ArNewRuleJson (v : string)
| ArCloseSim
| ArVersion (r : option EnhancedDetectionRule)
| ArRollback
| ArNotice (msg : string)
| ArLoaded (k : nat) (draw : nat -> Z * Z) (r : http_result (list DetectionRule))
| ArPatched (k : nat) (r : http_result unit)
| ArSimDone (k : nat) (matches : Z).

(** Setters of the React state. *)
Definition ar_set_async a s := ArState a (ar_selectedIds s) (ar_pendingAction s)
  (ar_twoKeyInput s) (ar_showCreateModal s) (ar_newRuleJson s) (ar_simulatingRule s)
  (ar_simResult s) (ar_versionRule s) (ar_flight s) (ar_next s).
Definition ar_set_selected x s := ArState (ar_async s) x (ar_pendingAction s)
  (ar_twoKeyInput s) (ar_showCreateModal s) (ar_newRuleJson s) (ar_simulatingRule s)
  (ar_simResult s) (ar_versionRule s) (ar_flight s) (ar_next s).
Definition ar_set_pending p i s := ArState (ar_async s) (ar_selectedIds s) p
  i (ar_showCreateModal s) (ar_newRuleJson s) (ar_simulatingRule s)
  (ar_simResult s) (ar_versionRule s) (ar_flight s) (ar_next s).
Definition ar_set_create b j s := ArState (ar_async s) (ar_selectedIds s) (ar_pendingAction s)
  (ar_twoKeyInput s) b j (ar_simulatingRule s)
  (ar_simResult s) (ar_versionRule s) (ar_flight s) (ar_next s).
Definition ar_set_sim r x s := ArState (ar_async s) (ar_selectedIds s) (ar_pendingAction s)
  (ar_twoKeyInput s) (ar_showCreateModal s) (ar_newRuleJson s) r
  x (ar_versionRule s) (ar_flight s) (ar_next s).
Definition ar_set_version v s := ArState (ar_async s) (ar_selectedIds s) (ar_pendingAction s)
  (ar_twoKeyInput s) (ar_showCreateModal s) (ar_newRuleJson s) (ar_simulatingRule s)
  (ar_simResult s) v (ar_flight s) (ar_next s).
Definition ar_await k s := ArState (ar_async s) (ar_selectedIds s) (ar_pendingAction s)
  (ar_twoKeyInput s) (ar_showCreateModal s) (ar_newRuleJson s) (ar_simulatingRule s)
  (ar_simResult s) (ar_versionRule s) (<[ar_next s := k]> (ar_flight s)) (S (ar_next s)).
Definition ar_forget k s := ArState (ar_async s) (ar_selectedIds s) (ar_pendingAction s)
  (ar_twoKeyInput s) (ar_showCreateModal s) (ar_newRuleJson s) (ar_simulatingRule s)
  (ar_simResult s) (ar_versionRule s) (delete k (ar_flight s)) (ar_next s).

Definition ar_setData d s := ar_set_async (async_setData d (ar_async s)) s.

(** [performToggle] up to its [await]: the optimistic update. *)
Definition performToggle (rule : EnhancedDetectionRule) (s : ar_state)
    : ar_state * list ar_effect :=
  let original := nullish (ar_data s) [] in
  let s := match ar_data s with
           | Some data =>
               ar_setData (Some ((fun r => if bool_decide (er_id r = er_id rule)
                                           then set_enabled (negb (er_enabled r)) r else r)
                                 <$> data)) s
           | None => s
           end in
  (ar_await (KPatch original) s, [PatchRule rule (negb (er_enabled rule))]).

(** The rest of [performToggle]. *)
Definition performToggle_done (original : list EnhancedDetectionRule) (r : http_result unit)
    (s : ar_state) : ar_state * list ar_effect :=
  match r with
  | HttpOk _ => (ar_set_pending None "" s, [])
  | HttpErr _ => (ar_setData (Some original) s, [AlertBox "Failed to toggle rule"])
  end.

Definition toggleRule (rule : EnhancedDetectionRule) (s : ar_state) : ar_state * list ar_effect :=
  if er_enabled rule && er_auto rule then
    (ar_set_pending (Some (PendingAction
       {| action_action := "Disable High-Impact Rule";
          action_target := er_name rule;
          action_justification := "Disabling auto-response detection rule affects dependent playbooks";
          action_risk := DESTRUCTIVE |} (PToggle rule))) (ar_twoKeyInput s) s, [])
  else performToggle rule s.

Definition performBulkDisable (s : ar_state) : ar_state * list ar_effect :=
  let n := size (ar_selectedIds s) in
  let s := match ar_data s with
           | Some data =>
               ar_setData (Some ((fun r => if bool_decide (er_id r ∈ ar_selectedIds s)
                                           then set_enabled false r else r) <$> data)) s
           | None => s
           end in
  (ar_set_selected ∅ (ar_set_pending None "" s),
   [AlertBox ("Bulk disabled " +:+ of_nat_str n +:+ " rules")]).

Definition handleBulkDisable (s : ar_state) : ar_state * list ar_effect :=
  match ar_data s with
  | None => (s, [])
  | Some data =>
      let selectedRules := filter (fun r => er_id r ∈ ar_selectedIds s) data in
      if existsb (fun r => er_auto r && er_enabled r) selectedRules then
        (ar_set_pending (Some (PendingAction
           {| action_action := "Bulk Disable Rules";
              action_target := of_nat_str (size (ar_selectedIds s)) +:+ " rules";
              action_justification := "Bulk disabling includes high-impact auto-response rules";
              action_risk := DESTRUCTIVE |} PBulkDisable)) (ar_twoKeyInput s) s, [])
      else performBulkDisable s
  end.

Definition handleBulkEnable (s : ar_state) : ar_state * list ar_effect :=
  let s := match ar_data s with
           | Some data =>
               ar_setData (Some ((fun r => if bool_decide (er_id r ∈ ar_selectedIds s)
                                           then set_enabled true r else r) <$> data)) s
           | None => s
           end in
  (ar_set_selected ∅ s, [AlertBox "Bulk enabled rules"]).

Definition toggle_in (id : string) (ids : gset string) : gset string :=
  if bool_decide (id ∈ ids) then ids ∖ {[id]} else ids ∪ {[id]}.

Definition toggleSelect (id : string) (s : ar_state) : ar_state :=
  ar_set_selected (toggle_in id (ar_selectedIds s)) s.

Definition toggleSelectAll (s : ar_state) : ar_state :=
  if bool_decide (Some (size (ar_selectedIds s)) = length <$> ar_data s)
  then ar_set_selected ∅ s
  else ar_set_selected (list_to_set (er_id <$> nullish (ar_data s) [])) s.

(** [onConfirm] of the dialog. *)
Definition onConfirm (s : ar_state) : ar_state * list ar_effect :=
  match pa_type <$> ar_pendingAction s with
  | Some (PToggle payload) => performToggle payload s
  | Some PBulkDisable => performBulkDisable s
  | None => (s, [])
  end.

(** The dialog's events, with [handleConfirm]'s guard. *)
Definition ar_dialog (e : tk_event) (s : ar_state) : ar_state * list ar_effect :=
  match e with
  | TkInput v => (ar_set_pending (ar_pendingAction s) v s, [])
  | TkCancel => (ar_set_pending None "" s, [])
  | TkConfirm =>
      if handleConfirm (pa_action <$> ar_pendingAction s) (ar_twoKeyInput s) false
      then onConfirm s else (s, [])
  end.

Definition ar_handle (e : ar_event) (s : ar_state) : ar_state * list ar_effect :=
  match e with
  | ArExecute => (ar_await KLoad (ar_set_async (async_start (ar_async s)) s), [GetRules])
  | ArToggle r => toggleRule r s
  | ArBulkDisable => handleBulkDisable s
  | ArBulkEnable => handleBulkEnable s
  | ArSimulate r => (ar_await KSim (ar_set_sim (Some r) None s), [])
  | ArSelect id => (toggleSelect id s, [])
  | ArSelectAll => (toggleSelectAll s, [])
  | ArTk e => ar_dialog e s
  | ArShowCreate b => (ar_set_create b (ar_newRuleJson s) s, [])
  | ArNewRuleJson v => (ar_set_create (ar_showCreateModal s) v s, [])
  | ArCloseSim => (ar_set_sim None (ar_simResult s) s, [])
  | ArVersion r => (ar_set_version r s, [])
  | ArRollback => (ar_set_version None s, [AlertBox "Rollback initiated via optimistic update"])
  | ArNotice m => (s, [AlertBox m])
  | ArLoaded k draw r =>
      let s := ar_forget k s in
      (ar_set_async (match r with
                     | HttpOk rs => async_ok (enhance_rules draw rs) (ar_async s)
                     | HttpErr e => async_fail (he_message e) (ar_async s)
                     end) s, [])
  | ArPatched k r =>
      match ar_flight s !! k with
      | Some (KPatch original) => performToggle_done original r (ar_forget k s)
      | _ => (s, [])
      end
  | ArSimDone k m => (ar_set_sim (ar_simulatingRule s) (Some m) (ar_forget k s), [])
  end.

(** ** The rendered page *)
Definition rule_sev_str (r : RuleSeverity) : string :=
  match r with RCritical => "critical" | RHigh => "high" | RMedium => "medium" | RLow => "low" end.

Definition rule_badge (r : RuleSeverity) : BadgeSeverity :=
  match r with RCritical => S1 | RHigh => S2 | _ => S4 end.

Definition ar_row (s : ar_state) (r : EnhancedDetectionRule) : html ar_event :=
  El "tr" "" [
    checkbox (bool_decide (er_id r ∈ ar_selectedIds s)) (ArSelect (er_id r));
    El "td" "" [Text (er_name r); Text ("ID: " +:+ er_id r)];
    El "td" "" [Badge (Some (rule_badge (rule_severity (er_rule r))))
                  [Text (to_upper (rule_sev_str (rule_severity (er_rule r))))]];
    El "td" "" [Text ("Triggered: " +:+ of_Z (er_triggerCount30d r));
                El "span" (if (20 <? er_falsePositiveRate r)%Z then "text-yellow-500"
                           else "text-green-500")
                  [Text (of_Z (er_falsePositiveRate r) +:+ "%")]];
    El "td" "" (match er_dependencies r with [] => [Text "-"] | ds => Text <$> ds end);
    El "td" (if er_enabled r then "bg-blue-600" else "bg-slate-700")
      [Button false (Some (ArToggle r)) []];
    El "td" "" [Button false (Some (ArVersion (Some r))) [Text "History"];
                Button false (Some (ArSimulate r)) [Text "Simulate"]]].

(** The header, the bulk bar, the table and the two-key dialog. *)
Definition ar_main (s : ar_state) : list (html ar_event) :=
  let rows := nullish (ar_data s) [] in
  let n := size (ar_selectedIds s) in
  [El "h1" "" [Text "Detection Rules"];
   Button false (Some (ArShowCreate true)) [Text "Create Rule"]]
  ++ when (0 <? n)
      [El "div" "" [
        Text (of_nat_str n +:+ " rules selected");
        Button false (Some ArBulkEnable) [Text "Bulk Enable"];
        Button false (Some ArBulkDisable) [Text "Bulk Disable"];
        Button false (Some (ArNotice "Tag modal opened")) [Text "Tag Category"]]]
  ++ [El "table" "" [
        El "thead" "" [checkbox (bool_decide (0 < length rows /\ n = length rows)) ArSelectAll];
        El "tbody" "" (ar_row s <$> rows)]].

(** The dialog embedded in the page. *)
Definition ar_two_key (s : ar_state) : list (html ar_event) :=
  map_events ArTk <$>
    tk_view (bool_decide (ar_pendingAction s <> None)) (pa_action <$> ar_pendingAction s)
      (ar_twoKeyInput s) false.

(** The simulation, history and creation dialogs. *)
Definition rule_history : list (string * string * string * string) :=
  [("v3 (Current)", "Today, 10:45 AM", "You", "Adjusted threshold to > 50");
   ("v2", "2 days ago", "Alice (AppSec)", "Added exclusion for internal subnet");
   ("v1", "2 weeks ago", "System", "Initial creation from Threat Intel Feed")].

Definition ar_modals (s : ar_state) : list (html ar_event) :=
  when_some (ar_simulatingRule s) (fun r => [
    El "div" "" [
      El "h2" "" [Text "Rule Simulation (Dry Run)"];
      El "p" "" [Text "Testing "; Text (er_name r)];
      match ar_simResult s with
      | None => El "div" "" [Text "Executing DSL query against data lake..."]
      | Some m => El "div" "" ([Text (of_Z m +:+ " matches found"); Text "Query executed in 240ms"]
                    ++ when (100 <? m)%Z [Text "Warning: High noise potential detected."])
      end;
      Button false (Some ArCloseSim) [Text "Close"]]])
  ++ when_some (ar_versionRule s) (fun r => [
    El "div" "" [
      El "h2" "" [Text ("Version History: " +:+ er_name r)];
      El "div" "" (imap (fun i h =>
        let '(v, date, author, change) := h in
        El "div" "" ([Text v; Text date; Text change; Text ("By " +:+ author)]
          ++ when (negb (bool_decide (i = 0)))
               [Button false (Some ArRollback) [Text ("Rollback to " +:+ v)]])) rule_history);
      Button false (Some (ArVersion None)) [Text "Close"]]])
  ++ when (ar_showCreateModal s) [
    El "div" "" [
      El "h2" "" [Text "Create Detection Rule"];
      Input false (ar_newRuleJson s) ArNewRuleJson;
      Button false (Some (ArShowCreate false)) [Text "Cancel"];
      Button false (Some (ArNotice "Created")) [Text "Save Rule"]]].

(** The page: a skeleton while loading, an error with a retry button when
    nothing was loaded, else the page. *)
Definition ar_view (s : ar_state) : list (html ar_event) :=
  if as_loading (ar_async s) then [LoadingSkeleton 8]
  else match as_error (ar_async s), ar_data s with
       | Some err, None => [ErrorState err (Some ArExecute)]
       | _, _ => ar_main s ++ ar_two_key s ++ ar_modals s
       end.

(** ** Which events can happen *)
Definition ar_enabled (s : ar_state) (e : ar_event) : Prop :=
  match e with
  | ArLoaded k _ _ => ar_flight s !! k = Some KLoad
  | ArPatched k _ => exists o, ar_flight s !! k = Some (KPatch o)
  | ArSimDone k _ => ar_flight s !! k = Some KSim
  | ArExecute => True            (* the mount effect, or the retry button *)
  | ArTk TkCancel => ar_pendingAction s <> None   (* also the Escape key *)
  | _ => offers_any (ar_view s) e
  end.

(** ** Facts *)

(** The dialog always names the rule it will disable. *)
Definition pending_ok (s : ar_state) : Prop :=
  match ar_pendingAction s with
  | Some (PendingAction a (PToggle r)) => action_target a = er_name r /\ action_risk a = DESTRUCTIVE
  | Some (PendingAction a PBulkDisable) => action_risk a = DESTRUCTIVE
  | None => True
  end.

Lemma performToggle_pending r s :
  ar_pendingAction (fst (performToggle r s)) = ar_pendingAction s.
Proof. unfold performToggle. by destruct (ar_data s). Qed.

Lemma performBulkDisable_pending s : ar_pendingAction (fst (performBulkDisable s)) = None.
Proof. unfold performBulkDisable. by destruct (ar_data s). Qed.

Lemma pending_ok_same s s' :
  ar_pendingAction s' = ar_pendingAction s -> pending_ok s -> pending_ok s'.
Proof. unfold pending_ok. by intros ->. Qed.

Lemma pending_ok_none s : ar_pendingAction s = None -> pending_ok s.
Proof. unfold pending_ok. by intros ->. Qed.

Lemma ar_handle_pending s e : pending_ok s -> pending_ok (fst (ar_handle e s)).
Proof.
  intros H. destruct e; cbn [ar_handle fst];
    try (apply (pending_ok_same s); [reflexivity|done]).
  - unfold toggleRule. destruct (er_enabled r && er_auto r); [done|].
    apply (pending_ok_same s); [apply performToggle_pending|done].
  - unfold handleBulkDisable. destruct (ar_data s); [|done].
    destruct (existsb _ _); [done|]. apply pending_ok_none, performBulkDisable_pending.
  - unfold handleBulkEnable. by destruct (ar_data s).
  - unfold toggleSelectAll. by case_bool_decide.
  - destruct e; simpl; try done. unfold onConfirm. destruct (handleConfirm _ _ _); [|done].
    destruct (ar_pendingAction s) as [[a [p|]]|] eqn:E; simpl; [| |done].
    + apply (pending_ok_same s); [apply performToggle_pending|done].
    + apply pending_ok_none, performBulkDisable_pending.
  - destruct (ar_flight s !! k) as [[]|]; try done. by destruct r.
Qed.

Lemma ar_run_pending es qs s : run ar_enabled ar_handle ar_init es qs s -> pending_ok s.
Proof. apply run_invariant; [done|]. intros; by apply ar_handle_pending. Qed.

Lemma handle_patch_origin e s r b :
  PatchRule r b ∈ snd (ar_handle e s) ->
  b = negb (er_enabled r) /\
  ((e = ArToggle r /\ (er_enabled r && er_auto r) = false) \/
   (e = ArTk TkConfirm /\ pa_type <$> ar_pendingAction s = Some (PToggle r) /\
    handleConfirm (pa_action <$> ar_pendingAction s) (ar_twoKeyInput s) false = true)).
Proof.
  destruct e; cbn [ar_handle snd]; try no_effect.
  - unfold toggleRule. destruct (er_enabled r0 && er_auto r0) eqn:E; [no_effect|].
    unfold performToggle; simpl. intros H%list_elem_of_singleton; simplify_eq. auto.
  - unfold handleBulkDisable, performBulkDisable. destruct (ar_data s); [|no_effect].
    destruct (existsb _ _); no_effect.
  - destruct e; simpl; try no_effect. unfold onConfirm.
    destruct (handleConfirm _ _ _) eqn:Ec; [|no_effect].
    destruct (pa_type <$> ar_pendingAction s) as [[p|]|] eqn:Et; simpl; [| |no_effect].
    + intros H%list_elem_of_singleton; simplify_eq. auto.
    + no_effect.
  - destruct (ar_flight s !! k) as [[]|]; simpl; try no_effect. destruct r0; no_effect.
Qed.

(** A request that disables an auto-response rule comes from a confirmed
    dialog for that rule. *)
Lemma disable_confirmed es qs s e r :
  run ar_enabled ar_handle ar_init es qs s ->
  PatchRule r false ∈ snd (ar_handle e s) -> er_auto r = true ->
  e = ArTk TkConfirm /\ trim (ar_twoKeyInput s) = er_name r /\
  handleConfirm (pa_action <$> ar_pendingAction s) (ar_twoKeyInput s) false = true.
Proof.
  intros Hrun Hq Hauto. apply handle_patch_origin in Hq as [Hb Hcase].
  symmetry in Hb. apply negb_false_iff in Hb.
  destruct Hcase as [[_ E]|(-> & Ht & Hc)]; [by rewrite Hb, Hauto in E|].
  apply ar_run_pending in Hrun. unfold pending_ok in Hrun.
  destruct (ar_pendingAction s) as [[a t]|] eqn:Ep; [|done]. simpl in *. simplify_eq.
  destruct Hrun as [Htarget _]. split; [done|]. split; [|done].
  apply handleConfirm_spec in Hc as [_ (a' & Ha & Em)]. simplify_eq. congruence.
Qed.

(** C1: switching off a rule with automatic responses always goes through the
    two-key dialog: in every execution of the page, a request that disables
    such a rule is sent by a confirmation whose typed text is the name of
    exactly that rule, with no submission pending. *)
Theorem auto_response_rule_guarded es qs s e r :
  run ar_enabled ar_handle ar_init es qs s ->
  ar_enabled s e ->
  PatchRule r false ∈ snd (ar_handle e s) ->
  er_auto r = true ->
  e = ArTk TkConfirm /\ trim (ar_twoKeyInput s) = er_name r /\
  offers_any (ar_two_key s) (ArTk TkConfirm).
Proof.
  intros Hrun Hen Hq Hauto. destruct (disable_confirmed es qs s e r Hrun Hq Hauto) as (-> & Ht & Hc).
  split; [done|]. split; [done|]. unfold ar_two_key. apply offers_embed. exists TkConfirm.
  split; [|done]. apply tk_view_confirm. split; [|done].
  apply bool_decide_eq_true_2. intros E. by rewrite E in Hc.
Qed.

(** A failed toggle is undone: when the backend refuses the change and
    nothing else touched the list in between, the page shows exactly the
    rules it showed before, and says so. *)
Lemma toggle_rollback s r data err :
  ar_data s = Some data -> ar_flight s !! ar_next s = None ->
  let '(s1, _) := performToggle r s in
  let '(s2, qs) := ar_handle (ArPatched (ar_next s) (HttpErr err)) s1 in
  ar_data s2 = Some data /\ qs = [AlertBox "Failed to toggle rule"] /\
  ar_flight s2 = ar_flight s.
Proof.
  intros Hd Hfree. unfold performToggle. rewrite Hd. simpl.
  rewrite lookup_insert_eq. simpl. split; [done|]. split; [done|].
  by rewrite delete_insert_id.
Qed.

(** *** What the loaded page offers *)
Lemma ar_view_loaded s d :
  as_loading (ar_async s) = false -> ar_data s = Some d ->
  ar_view s = ar_main s ++ ar_two_key s ++ ar_modals s.
Proof. intros Hl Hd. unfold ar_view. rewrite Hl, Hd. by destruct (as_error _). Qed.

Lemma ar_offers_toggle s d r :
  as_loading (ar_async s) = false -> ar_data s = Some d -> r ∈ d ->
  offers_any (ar_view s) (ArToggle r).
Proof.
  intros Hl Hd Hr. rewrite (ar_view_loaded s d) by done. unfold ar_main. rewrite Hd. cbn [nullish default].
  autorewrite with offers. left. right. right. left. right. left.
  exists r. split; [done|]. unfold ar_row. offers_find.
Qed.

Lemma ar_offers_dialog s d e :
  as_loading (ar_async s) = false -> ar_data s = Some d ->
  offers_any (ar_two_key s) e -> offers_any (ar_view s) e.
Proof. intros Hl Hd He. rewrite (ar_view_loaded s d) by done. autorewrite with offers. auto. Qed.

Lemma ar_offers_confirm s d p :
  as_loading (ar_async s) = false -> ar_data s = Some d -> ar_pendingAction s = Some p ->
  trim (ar_twoKeyInput s) = action_target (pa_action p) ->
  offers_any (ar_view s) (ArTk TkConfirm).
Proof.
  intros Hl Hd Hp Ht. apply (ar_offers_dialog s d); [done..|]. apply offers_embed.
  exists TkConfirm. split; [|done]. rewrite Hp. apply tk_view_confirm. split; [done|].
  apply handleConfirm_spec. eauto.
Qed.

Lemma ar_offers_input s d p v :
  as_loading (ar_async s) = false -> ar_data s = Some d -> ar_pendingAction s = Some p ->
  offers_any (ar_view s) (ArTk (TkInput v)).
Proof.
  intros Hl Hd Hp. apply (ar_offers_dialog s d); [done..|]. apply offers_embed.
  exists (TkInput v). split; [|done]. rewrite Hp. unfold tk_view.
  rewrite bool_decide_eq_true_2 by done. cbn [when fmap option_fmap option_map]. offers_find.
Qed.

Lemma confirm_toggle s a r :
  ar_pendingAction s = Some (PendingAction a (PToggle r)) ->
  trim (ar_twoKeyInput s) = action_target a ->
  ar_handle (ArTk TkConfirm) s = performToggle r s.
Proof.
  intros Hp Ht. cbn [ar_handle ar_dialog]. unfold onConfirm. rewrite Hp. cbn -[handleConfirm].
  by rewrite (proj2 (handleConfirm_spec _ _ _)) by eauto.
Qed.

Lemma toggle_row r b : set_enabled b (set_enabled (negb b) r) = set_enabled b r.
Proof. done. Qed.

(** The confirm button is not disabled while the request is pending, so a
    second click sends the same request again and flips the row back: both
    requests switch the rule off, and the page shows it on. *)
Lemma double_confirm_desync r s a :
  ar_pendingAction s = Some (PendingAction a (PToggle r)) ->
  trim (ar_twoKeyInput s) = action_target a ->
  as_loading (ar_async s) = false -> ar_data s = Some [r] -> er_enabled r = true ->
  let '(s1, q1) := ar_handle (ArTk TkConfirm) s in
  let '(s2, q2) := ar_handle (ArTk TkConfirm) s1 in
  ar_enabled s (ArTk TkConfirm) /\ ar_enabled s1 (ArTk TkConfirm) /\
  q1 = [PatchRule r false] /\ q2 = [PatchRule r false] /\
  ar_data s2 = Some [set_enabled true r].
Proof.
  intros Hp Ht Hl Hd Hen. rewrite (confirm_toggle s a r) by done.
  destruct (performToggle r s) as [s1 q1] eqn:E1.
  assert (E : ar_pendingAction s1 = ar_pendingAction s /\ ar_twoKeyInput s1 = ar_twoKeyInput s /\
    as_loading (ar_async s1) = false /\ ar_data s1 = Some [set_enabled false r] /\
    q1 = [PatchRule r false]).
  { unfold performToggle in E1. rewrite Hd in E1. simplify_eq/=.
    by rewrite bool_decide_eq_true_2, Hen by done. }
  destruct E as (Ep & Ei & El & Ed & ->). rewrite (confirm_toggle s1 a r) by congruence.
  unfold performToggle. rewrite Ed. simpl. rewrite Hen.
  split; [by eapply ar_offers_confirm|]. 
  split; [apply (ar_offers_confirm s1 [set_enabled false r] (PendingAction a (PToggle r)));
          simpl; congruence|].
  rewrite bool_decide_eq_true_2 by done. done.
Qed.

(** *** Selection *)
Lemma toggle_in_involutive id ids : toggle_in id (toggle_in id ids) = ids.
Proof.
  unfold toggle_in. destruct (decide (id ∈ ids)) as [H|H].
  - rewrite (bool_decide_eq_true_2 (id ∈ ids)) by done.
    rewrite bool_decide_eq_false_2 by set_solver. rewrite difference_union_L. set_solver.
  - rewrite (bool_decide_eq_false_2 (id ∈ ids)) by done.
    rewrite bool_decide_eq_true_2 by set_solver. set_solver.
Qed.

(** Selecting a row is its own inverse and touches no other row, and the
    header check box alternates between the whole list and nothing when the
    identifiers are distinct. *)
Lemma rule_selection s id data :
  ar_data s = Some data -> NoDup (er_id <$> data) -> data <> [] -> ar_selectedIds s = ∅ ->
  toggleSelect id (toggleSelect id s) = s /\
  (forall j, j <> id -> j ∈ ar_selectedIds (toggleSelect id s) <-> j ∈ ar_selectedIds s) /\
  (forall r, r ∈ data -> er_id r ∈ ar_selectedIds (toggleSelectAll s)) /\
  ar_selectedIds (toggleSelectAll (toggleSelectAll s)) = ∅.
Proof.
  intros Hd Hnd Hne Hs. split; [|split; [|split]].
  - unfold toggleSelect; simpl. rewrite toggle_in_involutive. by destruct s.
  - intros j Hj. unfold toggleSelect, toggle_in; simpl. case_bool_decide; set_solver.
  - intros r Hr. unfold toggleSelectAll. rewrite Hd, Hs, size_empty. simpl.
    rewrite bool_decide_eq_false_2 by (destruct data; naive_solver). simpl.
    apply elem_of_list_to_set. by apply list_elem_of_fmap_2.
  - assert (Hall : ar_selectedIds (toggleSelectAll s) = list_to_set (er_id <$> data)).
    { unfold toggleSelectAll. rewrite Hd, Hs, size_empty. simpl.
      by rewrite bool_decide_eq_false_2 by (destruct data; naive_solver). }
    assert (Hd' : ar_data (toggleSelectAll s) = Some data).
    { unfold toggleSelectAll. by case_bool_decide. }
    unfold toggleSelectAll at 1. rewrite Hall, Hd'. simpl.
    rewrite size_list_to_set by done. by rewrite length_fmap, bool_decide_eq_true_2.
Qed.

(** ** Concrete executions *)
Definition demo_rule : EnhancedDetectionRule :=
  ERule {| rule_id := "r1"; rule_name := "Beaconing"; rule_severity := RHigh;
           rule_enabled := true; rule_lastTriggered := None; rule_isAutoResponse := true;
           rule_description := "" |} 10 3 ["Playbook: Auto-Containment"].

Definition demo_rules_events : list ar_event :=
  [ArExecute; ArLoaded 0 (fun _ => (10, 3)%Z) (HttpOk [er_rule demo_rule]);
   ArToggle demo_rule; ArTk (TkInput "Beaconing")].

Definition demo_rules : ar_state := fst (exec ar_handle demo_rules_events ar_init).

Lemma demo_rules_run :
  run ar_enabled ar_handle ar_init demo_rules_events
    (snd (exec ar_handle demo_rules_events ar_init)) demo_rules.
Proof.
  apply exec_run. split; [done|]. split; [done|]. split; [|split; [|done]].
  - apply (ar_offers_toggle _ [demo_rule]); [done..|]. set_solver.
  - by eapply ar_offers_input.
Qed.

Lemma auto_response_rule_guarded_witness :
  trim (ar_twoKeyInput demo_rules) = er_name demo_rule.
Proof.
  destruct (auto_response_rule_guarded demo_rules_events _ demo_rules (ArTk TkConfirm) demo_rule
    demo_rules_run) as (_ & H & _); [|vm_compute; left|reflexivity|exact H].
  by eapply ar_offers_confirm.
Defined.

Lemma toggle_rollback_witness :
  ar_data (fst (ar_handle (ArPatched 1 (HttpErr (HttpError (Some 500%Z) None None)))
    (fst (performToggle demo_rule demo_rules)))) = Some [demo_rule].
Proof.
  pose proof (toggle_rollback demo_rules demo_rule [demo_rule] (HttpError (Some 500%Z) None None)
    eq_refl eq_refl) as H.
  exact (proj1 H).
Defined.

Lemma double_confirm_desync_witness :
  ar_data (fst (ar_handle (ArTk TkConfirm) (fst (ar_handle (ArTk TkConfirm) demo_rules)))) =
  Some [set_enabled true demo_rule].
Proof.
  pose proof (double_confirm_desync demo_rule demo_rules _ eq_refl eq_refl eq_refl eq_refl eq_refl) as H.
  exact (proj2 (proj2 (proj2 (proj2 H)))).
Defined.

Lemma rule_selection_witness :
  ar_selectedIds (toggleSelectAll (toggleSelectAll demo_rules)) = ∅.
Proof.
  destruct (rule_selection demo_rules "r1" [demo_rule]) as (_ & _ & _ & H);
    [reflexivity|apply NoDup_singleton|discriminate|reflexivity|exact H].
Defined.
