(* ===== verification/NetworkMap.v ===== *)
(** * Network map ([pages/assets/NetworkMapPage.tsx])

    The page that draws the asset graph: the indexing of security findings by
    address, the enrichment of nodes and edges, the blast-radius search, the
    colouring and painting rules, the response action and the rendered side
    bar.  The graph component ([react-force-graph-2d]) is a library: its
    inputs are modelled (the painter's canvas commands, colours, widths),
    and it may replace the end points of an edge by node objects, which the
    code accepts ([endpoint]).  Geometry is over the rationals.  The arrays
    of findings are shared between the nodes of one address and sorted in
    place; sorting is stable and idempotent, so each node's list is the
    sorted list of its address. *)
From Stdlib Require Import QArith.
From S2P Require Import Prelude JsString Html Types Http AsyncState SharedUi.
Local Open Scope nat_scope.

(** ** Data *)
Record Evidence := MkEvidence { ev_source_ip : option string; ev_triggers : option (list string) }.

Record SecurityFinding := MkFinding {
  sf_finding_id : string;
  sf_category : string;
  sf_score : Z;
  sf_evidence : Evidence;
  sf_recommended_action : string;
  sf_status : string;
  sf_created_at : string;
  sf_endpoint_id : option string }.

Inductive nodeType :=
| ClientHost | RouterHost | ExternalDomain | ExternalIP | Container | ContainerHost | generic.

Definition nodeType_str (t : nodeType) : string :=
  match t with
  | ClientHost => "ClientHost" | RouterHost => "RouterHost" | ExternalDomain => "ExternalDomain"
  | ExternalIP => "ExternalIP" | Container => "Container" | ContainerHost => "ContainerHost"
  | generic => "generic"
  end.

(** A node as the backend sends it. *)
Record RawNode := MkRawNode {
  rn_id : string; rn_label : string; rn_type : string; rn_subnet : string;
  rn_ip : option string; rn_properties : option string;
  rn_containerId : option string; rn_containerImage : option string;
  rn_isSuspicious : bool; rn_x : Q; rn_y : Q }.

Record EnhancedNode := MkNode {
  en_raw : RawNode;
  en_riskScore : option Z;
  en_segment : option string;
  en_isNew : bool;
  en_nodeType : option nodeType;
  en_findings : option (list SecurityFinding);
  en_findingCategory : option string;
  en_hasActiveAlert : bool }.

Definition en_id (n : EnhancedNode) : string := rn_id (en_raw n).

(** An edge's end: an identifier, or the node object the library put there. *)
Inductive endpoint := ById (id : string) | ByNode (n : RawNode).
Definition endpoint_id (p : endpoint) : string :=
  match p with ById id => id | ByNode n => rn_id n end.

Record RawEdge := MkRawEdge {
  re_source : endpoint; re_target : endpoint;
  re_findingCategory : option string; re_relation : option string;
  re_action : option string; re_width : option Q }.

Record EnhancedEdge := MkEdge {
  ee_raw : RawEdge; ee_isViolation : bool; ee_isNew : bool }.

Definition srcId (e : EnhancedEdge) : string := endpoint_id (re_source (ee_raw e)).
Definition tgtId (e : EnhancedEdge) : string := endpoint_id (re_target (ee_raw e)).

(** ** Tables; a missing entry is [undefined] *)
Definition FINDING_COLORS (c : string) : option string :=
  if String.eqb c "rat" then Some "#a855f7"
  else if String.eqb c "exfiltration" then Some "#f97316"
  else if String.eqb c "ddos" then Some "#ef4444"
  else if String.eqb c "container_abuse" then Some "#f59e0b"
  else if String.eqb c "network_anomaly" then Some "#eab308"
  else None.

Definition NODE_TYPE_COLORS (t : string) : option string :=
  if String.eqb t "RouterHost" then Some "#06b6d4"
  else if String.eqb t "ClientHost" then Some "#3b82f6"
  else if String.eqb t "ExternalDomain" then Some "#8b5cf6"
  else if String.eqb t "ExternalIP" then Some "#64748b"
  else if String.eqb t "Container" then Some "#10b981"
  else if String.eqb t "ContainerHost" then Some "#14b8a6"
  else if String.eqb t "generic" then Some "#3b82f6"
  else None.

Definition NODE_TYPE_RADIUS (t : string) : option Z :=
  if String.eqb t "RouterHost" then Some 10%Z
  else if String.eqb t "ContainerHost" then Some 9%Z
  else if String.eqb t "ClientHost" then Some 6%Z
  else if String.eqb t "ExternalDomain" then Some 7%Z
  else if String.eqb t "Container" then Some 5%Z
  else if String.eqb t "ExternalIP" then Some 6%Z
  else if String.eqb t "generic" then Some 6%Z
  else None.

Definition FINDING_LABEL (c : string) : option string :=
  if String.eqb c "rat" then Some "🕵️ RAT Detected"
  else if String.eqb c "exfiltration" then Some "📤 Data Exfiltration"
  else if String.eqb c "ddos" then Some "💥 DDoS / Flood"
  else if String.eqb c "container_abuse" then Some "🐳 Container Abuse"
  else if String.eqb c "network_anomaly" then Some "⚠️ Network Anomaly"
  else None.

Definition ACTION_LABEL (a : string) : option string :=
  if String.eqb a "isolate_lan_client" then Some "🔒 Isolate LAN Client (ARP)"
  else if String.eqb a "isolate_host" then Some "🔒 Isolate Host"
  else if String.eqb a "throttle_container" then Some "🐳 Throttle Container"
  else if String.eqb a "none" then Some "✓ No Action Required"
  else None.

Definition finding_color (c : string) : string := or_str (FINDING_COLORS c) "#ef4444".

(** ** Loading *)

(** [f.evidence?.source_ip || f.endpoint_id || ''] *)
Definition finding_key (f : SecurityFinding) : string :=
  or_str (ev_source_ip (sf_evidence f)) (or_str (sf_endpoint_id f) EmptyString).

Definition index_finding (m : gmap string (list SecurityFinding)) (f : SecurityFinding)
    : gmap string (list SecurityFinding) :=
  let key := finding_key f in
  if bool_decide (key = EmptyString) then m
  else <[key := default [] (m !! key) ++ [f]]> m.

Definition findingsByIp (fs : list SecurityFinding) : gmap string (list SecurityFinding) :=
  foldl index_finding ∅ fs.

Definition detect_type (t : string) : nodeType :=
  if String.eqb t "RouterHost" then RouterHost
  else if String.eqb t "ClientHost" then ClientHost
  else if String.eqb t "ExternalDomain" then ExternalDomain
  else if String.eqb t "ExternalIP" then ExternalIP
  else if String.eqb t "Container" then Container
  else if String.eqb t "container_host" || String.eqb t "ContainerHost" then ContainerHost
  else generic.

Definition active_finding (f : SecurityFinding) : bool :=
  String.eqb (sf_status f) "open" && (50 <=? sf_score f)%Z.

(** [draw i] is [Math.floor(Math.random() * 40)] for the [i]-th node. *)
Definition enhance_node (idx : gmap string (list SecurityFinding)) (draw : nat -> Z)
    (i : nat) (n : RawNode) : EnhancedNode :=
  let nodeFindingKey := or_str (rn_ip n) (rn_id n) in
  let nodeFindings := js_sort (by_key_desc sf_score) (default [] (idx !! nodeFindingKey)) in
  let topFinding := head nodeFindings in
  MkNode n
    (Some (match topFinding with Some f => sf_score f | None => draw i end))
    (Some (if bool_decide (i mod 3 = 0) then "DMZ"
           else if bool_decide (i mod 2 = 0) then "Production" else "Corporate"))
    (bool_decide (i = 4))
    (Some (detect_type (rn_type n)))
    (Some nodeFindings)
    (sf_category <$> topFinding)
    (existsb active_finding nodeFindings).

Definition enhance_edge (i : nat) (e : RawEdge) : EnhancedEdge :=
  MkEdge e (bool_decide (i mod 5 = 0)) (bool_decide (i = 6)).

Record map_data := MapData { md_nodes : list EnhancedNode; md_edges : list EnhancedEdge }.
Record map_response := MapResponse { mr_nodes : list RawNode; mr_edges : list RawEdge }.

(** The fetch function: a failing findings request counts as no findings, a
    failing map request fails the load. *)
Definition fetch_map (draw : nat -> Z) (mapRes : http_result map_response)
    (findingsRes : http_result (option (list SecurityFinding)))
    : async_result map_data :=
  match mapRes with
  | HttpErr e => AsyncErr (he_message e)
  | HttpOk m =>
      let fs := match findingsRes with HttpOk o => nullish o [] | HttpErr _ => [] end in
      AsyncOk (MapData (imap (enhance_node (findingsByIp fs) draw) (mr_nodes m))
                       (imap enhance_edge (mr_edges m)))
  end.

(** ** Blast radius *)
Definition visit_id (id : string) (vq : gset string * list string)
    : gset string * list string :=
  let '(visited, queue) := vq in
  if bool_decide (id ∈ visited) then vq else (visited ∪ {[id]}, queue ++ [id]).

(** The body of [data.edges.forEach]. *)
Definition visit_edge (curr : string) (vq : gset string * list string) (e : EnhancedEdge)
    : gset string * list string :=
  let vq := if bool_decide (srcId e = curr) then visit_id (tgtId e) vq else vq in
  if bool_decide (tgtId e = curr) then visit_id (srcId e) vq else vq.

(** The [while] loop, [None] when the fuel runs out. *)
Fixpoint bfs_loop (fuel : nat) (edges : list EnhancedEdge) (visited : gset string)
    (queue : list string) : option (gset string) :=
  match queue with
  | [] => Some visited
  | curr :: queue' =>
      match fuel with
      | 0 => None
      | S fuel' =>
          let '(visited', queue'') := foldl (visit_edge curr) (visited, queue') edges in
          bfs_loop fuel' edges visited' queue''
      end
  end.

(** Each identifier is queued at most once, so one step per end point and
    one for the start suffice. *)
Definition bfs_fuel (edges : list EnhancedEdge) : nat := 2 * length edges + 1.

Definition bfs (edges : list EnhancedEdge) (start : string) : option (gset string) :=
  bfs_loop (bfs_fuel edges) edges {[start]} [start].

(** ** State *)
Inductive overlay := OStandard | OHeat | OSegmentation | ODiff | OFindings.
#[export] Instance overlay_eq_dec : EqDecision overlay.
Proof. solve_decision. Defined.

Definition overlay_of (v : string) : overlay :=
  if String.eqb v "findings" then OFindings
  else if String.eqb v "heat" then OHeat
  else if String.eqb v "segmentation" then OSegmentation
  else if String.eqb v "diff" then ODiff
  else OStandard.

Inductive nw_kont := NwKLoad | NwKPost (action : string).

Record nw_state := NwState {
  nw_async : async map_data;
  nw_selectedNode : option EnhancedNode;
  nw_overlayMode : overlay;
  nw_simulatingPath : bool;
  nw_actionSubmitting : bool;
  nw_actionFeedback : option string;
  nw_dimensions : Q * Q;
  nw_flight : flight nw_kont }.

Definition nw_data (s : nw_state) : option map_data := as_data (nw_async s).

Definition nw_init : nw_state :=
  NwState async_init None OStandard false false None (800, 600)%Q fl_empty.

(** The task request: [twoKeyToken] as sent. *)
Record task_request := TaskRequest {
  tr_endpoint : string; tr_action : string; tr_target_ip : string;
  tr_container_id : string; tr_finding_id : string; tr_twoKeyToken : option string }.

Inductive nw_effect :=
| GetNetworkMap
| GetSecurityFindings
| PostTask (r : task_request)
| ZoomToFit
| NwAlertBox (msg : string).

Inductive nw_event :=
| NwExecute
| NwOverlay (v : string)
| NwFit
| NwExport
| NwNodeClick (n : EnhancedNode)
| NwClose
| NwRespond (n : EnhancedNode) (f : SecurityFinding)
| NwSimulate
| NwResize (width height : Q)
| NwLoaded (k : nat) (draw : nat -> Z) (m : http_result map_response)
           (f : http_result (option (list SecurityFinding)))
| NwPosted (k : nat) (r : http_result unit).

Definition reachableNodes (s : nw_state) : gset string :=
  match nw_simulatingPath s, nw_selectedNode s, nw_data s with
  | true, Some n, Some d => default ∅ (bfs (md_edges d) (en_id n))
  | _, _, _ => ∅
  end.

(** [handleResponseAction] up to its [await]. *)
Definition handleResponseAction (n : EnhancedNode) (f : SecurityFinding) (s : nw_state)
    : nw_state * list nw_effect :=
  if String.eqb (sf_recommended_action f) "none" then (s, [])
  else
    (NwState (nw_async s) (nw_selectedNode s) (nw_overlayMode s) (nw_simulatingPath s)
       true None (nw_dimensions s) (fl_await (NwKPost (sf_recommended_action f)) (nw_flight s)),
     [PostTask {| tr_endpoint := en_id n;
                  tr_action := sf_recommended_action f;
                  tr_target_ip := or_str (rn_ip (en_raw n)) (en_id n);
                  tr_container_id := or_str (rn_containerId (en_raw n)) EmptyString;
                  tr_finding_id := sf_finding_id f;
                  tr_twoKeyToken := None |}]).

(** The rest of it; a message that is missing prints as [undefined]. *)
Definition response_done (action : string) (r : http_result unit) : string :=
  match r with
  | HttpOk _ => "✅ Action queued for two-key approval: " +:+ action
  | HttpErr e => "❌ Failed to queue action: " +:+ detail_or e (nullish (he_message e) "undefined")
  end.

Definition nw_set_async a f s := NwState a (nw_selectedNode s) (nw_overlayMode s)
  (nw_simulatingPath s) (nw_actionSubmitting s) (nw_actionFeedback s) (nw_dimensions s) f.

(** [onNodeClick] of the graph, and the side bar's close button. *)
Definition onNodeClick (n : EnhancedNode) (s : nw_state) : nw_state :=
  NwState (nw_async s) (Some n) (nw_overlayMode s) false
    (nw_actionSubmitting s) None (nw_dimensions s) (nw_flight s).

Definition close_sidebar (s : nw_state) : nw_state :=
  NwState (nw_async s) None (nw_overlayMode s) false
    (nw_actionSubmitting s) None (nw_dimensions s) (nw_flight s).

Definition nw_handle (e : nw_event) (s : nw_state) : nw_state * list nw_effect :=
  match e with
  | NwExecute =>
      (nw_set_async (async_start (nw_async s)) (fl_await NwKLoad (nw_flight s)) s,
       [GetNetworkMap; GetSecurityFindings])
  | NwOverlay v =>
      (NwState (nw_async s) (nw_selectedNode s) (overlay_of v) (nw_simulatingPath s)
         (nw_actionSubmitting s) (nw_actionFeedback s) (nw_dimensions s) (nw_flight s), [])
  | NwFit => (s, [ZoomToFit])
  | NwExport =>
      (s, [NwAlertBox "Exporting network map — html-to-image required in production."])
  | NwNodeClick n => (onNodeClick n s, [])
  | NwClose => (close_sidebar s, [])
  | NwRespond n f => handleResponseAction n f s
  | NwSimulate =>
      (NwState (nw_async s) (nw_selectedNode s) (nw_overlayMode s) (negb (nw_simulatingPath s))
         (nw_actionSubmitting s) (nw_actionFeedback s) (nw_dimensions s) (nw_flight s), [])
  | NwResize w h =>
      (NwState (nw_async s) (nw_selectedNode s) (nw_overlayMode s) (nw_simulatingPath s)
         (nw_actionSubmitting s) (nw_actionFeedback s) (w, h) (nw_flight s), [])
  | NwLoaded k draw m f =>
      (nw_set_async (ax_finish (fetch_map draw m f) (nw_async s)) (fl_forget k (nw_flight s)) s, [])
  | NwPosted k r =>
      match fl_map (nw_flight s) !! k with
      | Some (NwKPost a) =>
          (NwState (nw_async s) (nw_selectedNode s) (nw_overlayMode s) (nw_simulatingPath s)
             false (Some (response_done a r)) (nw_dimensions s) (fl_forget k (nw_flight s)), [])
      | _ => (s, [])
      end
  end.

(** ** Colours, widths and the painter *)
Definition getNodeColor (s : nw_state) (n : EnhancedNode) : string :=
  if nw_simulatingPath s && negb (bool_decide (en_id n ∈ reachableNodes s))
  then "rgba(30, 41, 59, 0.5)"
  else if bool_decide (nw_overlayMode s = OFindings) && truthy_str (en_findingCategory n)
  then finding_color (nullish (en_findingCategory n) EmptyString)
  else if bool_decide (nw_overlayMode s = OHeat) then
    let risk := or_num (en_riskScore n) 0 in
    if (80 <? risk)%Z then "#ef4444" else if (50 <? risk)%Z then "#f97316" else "#22c55e"
  else
    let standard :=
      if bool_decide (nw_overlayMode s = ODiff) && en_isNew n then "#10b981"
      else or_str (NODE_TYPE_COLORS
                     (or_str (nodeType_str <$> en_nodeType n)
                        (or_str (Some (rn_type (en_raw n))) "generic"))) "#3b82f6" in
    if bool_decide (nw_overlayMode s = OSegmentation) then
      if bool_decide (en_segment n = Some "DMZ") then "#d946ef"
      else if bool_decide (en_segment n = Some "Production") then "#3b82f6"
      else if bool_decide (en_segment n = Some "Corporate") then "#10b981"
      else standard
    else standard.

Definition getLinkColor (s : nw_state) (e : EnhancedEdge) : string :=
  let cat := re_findingCategory (ee_raw e) in
  let action := to_upper (or_str (re_action (ee_raw e)) EmptyString) in
  if nw_simulatingPath s then
    if bool_decide (srcId e ∈ reachableNodes s) && bool_decide (tgtId e ∈ reachableNodes s)
    then "#ef4444" else "rgba(51, 65, 85, 0.2)"
  else if bool_decide (nw_overlayMode s = OFindings) && truthy_str cat
  then finding_color (nullish cat EmptyString)
  else if String.eqb action "DROP" then "#ef4444"
  else if String.eqb action "NAT" then "#3b82f6"
  else if String.eqb action "ALLOW" then "#10b981"
  else if bool_decide (re_relation (ee_raw e) = Some "VISITED_SITE") then "#6366f1"
  else if bool_decide (re_relation (ee_raw e) = Some "WAN_EGRESS") then "#3b82f6"
  else if bool_decide (nw_overlayMode s = OSegmentation) && ee_isViolation e then "#f59e0b"
  else if bool_decide (nw_overlayMode s = ODiff) && ee_isNew e then "#10b981"
  else "#334155".

Definition linkWidth (s : nw_state) (e : EnhancedEdge) : Q :=
  if nw_simulatingPath s && bool_decide (srcId e ∈ reachableNodes s)
     && bool_decide (tgtId e ∈ reachableNodes s) then 3%Q
  else if bool_decide (nw_overlayMode s = OSegmentation) && ee_isViolation e then 3%Q
  else if bool_decide (nw_overlayMode s = ODiff) && ee_isNew e then 3%Q
  else if bool_decide (nw_overlayMode s = OFindings) && truthy_str (re_findingCategory (ee_raw e))
  then 5 # 2
  else match re_width (ee_raw e) with
       | Some w => if Qeq_bool w 0 then 3 # 2 else w
       | None => 3 # 2
       end.

Definition linkDirectionalParticles (s : nw_state) (e : EnhancedEdge) : nat :=
  if bool_decide (nw_overlayMode s = OFindings) && truthy_str (re_findingCategory (ee_raw e))
  then 3 else 0.

Definition linkDirectionalParticleColor (e : EnhancedEdge) : string :=
  match re_findingCategory (ee_raw e) with
  | Some c => finding_color c
  | None => "#ef4444"
  end.

Definition linkLineDash (s : nw_state) (e : EnhancedEdge) : option (list Q) :=
  if bool_decide (nw_overlayMode s = OSegmentation) && ee_isViolation e
  then Some [4; 4]%Q else None.

(** Canvas commands; arcs are full circles. *)
Inductive canvas :=
| BeginPath | Arc (x y r : Q) | FillStyle (c : string) | Fill
| StrokeStyle (c : string) | LineWidth (w : Q) | SetLineDash (d : list Q) | Stroke
| TextAlign (a : string) | TextBaseline (b : string)
| Font (bold : bool) (px : Q) | FillText (t : string) (x y : Q).

Definition drawNode (s : nw_state) (n : EnhancedNode) (globalScale : Q) : list canvas :=
  let label := rn_label (en_raw n) in
  let fontSize := (12 / globalScale)%Q in
  let nt := or_str (nodeType_str <$> en_nodeType n)
              (or_str (Some (rn_type (en_raw n))) "generic") in
  let radius := inject_Z (or_num (NODE_TYPE_RADIUS nt) 6) in
  let x := rn_x (en_raw n) in
  let y := rn_y (en_raw n) in
  let cat := en_findingCategory n in
  [BeginPath; Arc x y radius; FillStyle (getNodeColor s n); Fill]
  ++ (if String.eqb nt "RouterHost" || String.eqb nt "gateway_bridge" || String.eqb nt "router"
      then [BeginPath; Arc x y (radius + 4 / globalScale)%Q; StrokeStyle "#06b6d4";
            LineWidth ((3 # 2) / globalScale)%Q; Stroke] else [])
  ++ (if String.eqb nt "Container" || String.eqb nt "ContainerHost"
      then [BeginPath; Arc x y (radius + 3 / globalScale)%Q; StrokeStyle "#10b981";
            LineWidth ((6 # 5) / globalScale)%Q;
            SetLineDash [3 / globalScale; 2 / globalScale]%Q; Stroke; SetLineDash []] else [])
  ++ (if en_hasActiveAlert n || rn_isSuspicious (en_raw n)
      then [StrokeStyle (if truthy_str cat then finding_color (nullish cat EmptyString)
                         else "#ef4444");
            LineWidth (2 / globalScale)%Q; Stroke] else [])
  ++ [TextAlign "center"; TextBaseline "middle";
      FillStyle (if nw_simulatingPath s && negb (bool_decide (en_id n ∈ reachableNodes s))
                 then "rgba(100, 116, 139, 0.5)" else "rgba(255, 255, 255, 0.85)");
      Font false fontSize; FillText label x (y + radius + 9 / globalScale)%Q]
  ++ (if bool_decide (nw_overlayMode s = OFindings) && truthy_str cat
      then let c := nullish cat EmptyString in
           [Font true (fontSize * (3 # 4))%Q; FillStyle (finding_color c);
            FillText (to_upper c) x (y + radius + 18 / globalScale)%Q] else []).

(** ** The rendered page *)
Definition nw_header (s : nw_state) : html nw_event :=
  El "div" "" [
    El "h1" "" [Text "Network Topology & Attack Surface"];
    El "p" "" [Text "Lateral movement paths, security findings, containers, and policy violations."];
    Button false (Some NwFit) [Text "[+] Fit Viewport"];
    Select (match nw_overlayMode s with
            | OStandard => "standard" | OFindings => "findings" | OHeat => "heat"
            | OSegmentation => "segmentation" | ODiff => "diff" end)
      [("standard", "Standard View"); ("findings", "🔍 Security Findings");
       ("heat", "Risk Heat Map"); ("segmentation", "Segmentation Policy");
       ("diff", "Topology Diff (7 Days)")] NwOverlay;
    Button false (Some NwExport) [Text "Export"]].

(** The graph offers a click on each of its nodes. *)
Definition nw_graph (s : nw_state) : list (html nw_event) :=
  when_some (nw_data s) (fun d =>
    [El "ForceGraph2D" ""
       ((fun n => Clickable (NwNodeClick n) [Text (rn_label (en_raw n))]) <$> md_nodes d)]).

Definition property (name tone value : string) : html nw_event :=
  El "div" "" [El "span" "" [Text name]; El "span" tone [Text value]].

Definition nw_properties (n : EnhancedNode) : list (html nw_event) :=
  let risk := or_num (en_riskScore n) 0 in
  [property "Asset ID" "" (en_id n);
   property "Node Type" ""
     (or_str (nodeType_str <$> en_nodeType n) (or_str (Some (rn_type (en_raw n))) "—"));
   property "Segment" "" (or_str (en_segment n) "—");
   property "Risk Score"
     (if (70 <? risk)%Z then "text-red-500" else if (40 <? risk)%Z then "text-orange-400"
      else "text-green-400")
     (nullish (of_Z <$> en_riskScore n) "—" +:+ "/100")]
  ++ when (truthy_str (rn_containerId (en_raw n)))
       [property "Container ID" "" (nullish (rn_containerId (en_raw n)) EmptyString)]
  ++ when (truthy_str (rn_containerImage (en_raw n)))
       [property "Image" "" (nullish (rn_containerImage (en_raw n)) EmptyString)].

(** One finding, with its response button. *)
Definition nw_finding (s : nw_state) (n : EnhancedNode) (f : SecurityFinding) : html nw_event :=
  let c := finding_color (sf_category f) in
  El "div" "" ([
    El "span" c [Text (or_str (FINDING_LABEL (sf_category f)) (to_upper (sf_category f)))];
    El "span" (if (70 <=? sf_score f)%Z then "text-red-400"
               else if (40 <=? sf_score f)%Z then "text-orange-400" else "text-slate-400")
      [Text ("Score: " +:+ of_Z (sf_score f) +:+ "/100")];
    Text "Status:";
    El "span" (if String.eqb (sf_status f) "open" then "text-red-400"
               else if String.eqb (sf_status f) "pending_approval" then "text-yellow-400"
               else if String.eqb (sf_status f) "actioned" then "text-green-400"
               else "text-slate-500") [Text (replace_first "_" " " (sf_status f))]]
    ++ when_some (ev_triggers (sf_evidence f)) (fun ts =>
         [El "div" "" ((fun t => El "span" (c +:+ "22 " +:+ c +:+ " 1px solid " +:+ c +:+ "44")
                                   [Text t]) <$> ts)])
    ++ when (negb (String.eqb (sf_recommended_action f) "none") && String.eqb (sf_status f) "open")
         [Button (nw_actionSubmitting s) (Some (NwRespond n f))
            [Text (if nw_actionSubmitting s then "⏳ Queuing…"
                   else or_str (ACTION_LABEL (sf_recommended_action f))
                          (sf_recommended_action f))]]).

Definition nw_findings (s : nw_state) (n : EnhancedNode) : list (html nw_event) :=
  let fs := nullish (en_findings n) [] in
  when (negb (bool_decide (fs = [] ))) [
    El "h4" "" [Text ("🔍 Security Findings (" +:+ of_nat_str (length fs) +:+ ")")];
    El "div" "" (nw_finding s n <$> fs)]
  ++ when (bool_decide (fs = [])) [Text "No security findings linked to this node."].

Definition nw_simulation (s : nw_state) : html nw_event :=
  El "div" "" ([
    El "h4" "" [Text "⚔️"; Text " Attack Path Simulation"];
    El "p" "" [Text "Visualize the potential blast radius if this node is compromised. Highlights all reachable downstream assets."];
    Button false (Some NwSimulate)
      [Text (if nw_simulatingPath s then "Clear Simulation" else "Simulate Blast Radius")]]
    ++ when (nw_simulatingPath s)
         [El "div" "" [Text (of_Z (Z.of_nat (size (reachableNodes s)) - 1));
                       Text " downstream assets exposed."]]).

Definition nw_sidebar (s : nw_state) : list (html nw_event) :=
  when_some (nw_selectedNode s) (fun n => [
    El "div" "" ([
      El "h3" "" [Text (rn_label (en_raw n))];
      Badge (Some (if en_hasActiveAlert n then S1 else S4))
        [Text (if en_hasActiveAlert n then "ALERT" else "SECURE")]]
      ++ when_some (en_nodeType n) (fun t => [Text (nodeType_str t)])
      ++ [Button false (Some NwClose) [Text "×"]]
      ++ nw_properties n
      ++ when (truthy_str (rn_properties (en_raw n)))
           [El "div" "" [Text (nullish (rn_properties (en_raw n)) EmptyString)]]
      ++ nw_findings s n
      ++ when (truthy_str (nw_actionFeedback s))
           [let m := nullish (nw_actionFeedback s) EmptyString in
            El "div" (if starts_with "✅" m
                      then "bg-green-900/20 border-green-700 text-green-300"
                      else "bg-red-900/20 border-red-700 text-red-300") [Text m]]
      ++ [nw_simulation s])]).

Definition legend_row (swatch tone label : string) : html nw_event :=
  El "div" "" [El "div" swatch []; El "span" tone [Text label]].

Definition nw_legend (m : overlay) : html nw_event :=
  let category c label :=
    legend_row (nullish (FINDING_COLORS c) EmptyString) (nullish (FINDING_COLORS c) EmptyString) label in
  El "div" "" (El "h4" "" [Text "Legend"] ::
    match m with
    | OFindings =>
        [category "rat" "RAT Detected"; category "exfiltration" "Exfiltration";
         category "ddos" "DDoS / Flood"; category "container_abuse" "Container Abuse";
         category "network_anomaly" "Network Anomaly";
         legend_row "border-cyan-400" "text-cyan-400" "Router / Gateway";
         legend_row "border-emerald-400 border-dashed" "text-emerald-400" "Container"]
    | OStandard =>
        [legend_row "border-red-500" "text-red-400" "Active Alert";
         legend_row "border-cyan-400" "text-cyan-400" "Router / Gateway";
         legend_row "border-emerald-400 border-dashed" "text-emerald-400" "Container";
         legend_row "border-blue-500" "text-slate-300" "Client Host";
         legend_row "border-violet-400" "text-violet-400" "External Domain"]
    | OSegmentation =>
        [legend_row "border-fuchsia-500" "text-slate-300" "DMZ";
         legend_row "border-blue-500" "text-slate-300" "Production";
         legend_row "border-emerald-500" "text-slate-300" "Corporate";
         legend_row "border-dashed border-amber-500" "text-amber-500" "Policy Violation"]
    | ODiff =>
        [legend_row "bg-emerald-900 border-emerald-400" "text-emerald-400" "New Node (7d)";
         legend_row "border-emerald-500" "text-emerald-400" "New Connection"]
    | OHeat =>
        [legend_row "bg-red-900 border-red-500" "text-red-400" "Critical (80+)";
         legend_row "bg-orange-900 border-orange-500" "text-orange-400" "High (50-79)";
         legend_row "bg-green-900 border-green-500" "text-green-400" "Standard"]
    end).

Definition nw_view (s : nw_state) : list (html nw_event) :=
  if as_loading (nw_async s) then [LoadingSkeleton 8]
  else match as_error (nw_async s), nw_data s with
       | Some err, None => [ErrorState err (Some NwExecute)]
       | _, _ => [nw_header s] ++ nw_graph s ++ nw_sidebar s ++ [nw_legend (nw_overlayMode s)]
       end.

Definition nw_enabled (s : nw_state) (e : nw_event) : Prop :=
  match e with
  | NwLoaded k _ _ _ => fl_map (nw_flight s) !! k = Some NwKLoad
  | NwPosted k _ => exists a, fl_map (nw_flight s) !! k = Some (NwKPost a)
  | NwExecute => True                     (* the mount effect, or the retry button *)
  | NwResize _ _ => True                  (* the resize observer *)
  | NwFit => True                         (* the button, or the timer set on new data *)
  | _ => offers_any (nw_view s) e
  end.

(** ** The blast radius is undirected reachability *)
Section Bfs.
Context (edges : list EnhancedEdge).

Definition linked (x y : string) : Prop :=
  exists e, e ∈ edges /\ ((srcId e = x /\ tgtId e = y) \/ (tgtId e = x /\ srcId e = y)).

Definition edge_ids : gset string := list_to_set ((srcId <$> edges) ++ (tgtId <$> edges)).

Lemma linked_ids x y : linked x y -> y ∈ edge_ids.
Proof.
  intros (e & He & H). unfold edge_ids. apply elem_of_list_to_set, elem_of_app.
  destruct H as [[_ <-]|[_ <-]]; [right|left]; by apply list_elem_of_fmap_2.
Qed.

Lemma list_to_set_size_le (l : list string) : size (list_to_set l : gset string) <= length l.
Proof.
  induction l as [|x l IH]; [by rewrite list_to_set_nil, size_empty|].
  rewrite list_to_set_cons, size_union_alt, size_singleton.
  assert (size (list_to_set l ∖ {[x]} : gset string) <= size (list_to_set l : gset string))
    by (apply subseteq_size; set_solver). simpl. lia.
Qed.

Lemma edge_ids_size : size edge_ids <= 2 * length edges.
Proof.
  unfold edge_ids. etrans; [apply list_to_set_size_le|]. rewrite length_app, !length_fmap. lia.
Qed.

(** What a pass from [curr] does to the visited set and the queue: it
    queues identifiers linked to [curr] that were not visited. *)
Definition extends (curr : string) (vq vq' : gset string * list string) : Prop :=
  exists new, vq' = (vq.1 ∪ list_to_set new, vq.2 ++ new) /\ NoDup new /\
    Forall (fun x => x ∉ vq.1 /\ linked curr x) new.

Lemma extends_refl curr vq : extends curr vq vq.
Proof.
  exists []. split; [|split; constructor]. destruct vq; simpl. f_equal; [set_solver|].
  by rewrite app_nil_r.
Qed.

Lemma extends_trans curr vq1 vq2 vq3 :
  extends curr vq1 vq2 -> extends curr vq2 vq3 -> extends curr vq1 vq3.
Proof.
  intros (n1 & -> & Hd1 & Hf1) (n2 & -> & Hd2 & Hf2). exists (n1 ++ n2). simpl in *.
  split; [f_equal; [rewrite list_to_set_app_L; set_solver|by rewrite app_assoc]|].
  rewrite Forall_forall in Hf2. split.
  - apply NoDup_app. split; [done|]. split; [|done]. intros x H1 H2%Hf2. set_solver.
  - apply Forall_app. split; [done|]. apply Forall_forall. intros x Hx%Hf2. set_solver.
Qed.

Lemma extends_visited curr vq vq' : extends curr vq vq' -> vq.1 ⊆ vq'.1.
Proof. intros (new & -> & _). set_solver. Qed.

Lemma visit_id_extends curr id vq :
  linked curr id -> extends curr vq (visit_id id vq) /\ id ∈ (visit_id id vq).1.
Proof.
  intros Hl. destruct vq as [v q]. unfold visit_id. case_bool_decide; simpl.
  - split; [apply extends_refl|done].
  - split; [|set_solver]. exists [id]. simpl. split; [f_equal; set_solver|].
    split; [apply NoDup_singleton|]. by repeat constructor.
Qed.

Definition edge_closed (curr : string) (v : gset string) (e : EnhancedEdge) : Prop :=
  (srcId e = curr -> tgtId e ∈ v) /\ (tgtId e = curr -> srcId e ∈ v).

Lemma visit_edge_extends curr vq e :
  e ∈ edges -> extends curr vq (visit_edge curr vq e) /\ edge_closed curr (visit_edge curr vq e).1 e.
Proof.
  intros He. unfold visit_edge.
  set (vq1 := if bool_decide (srcId e = curr) then visit_id (tgtId e) vq else vq).
  assert (H1 : extends curr vq vq1 /\ (srcId e = curr -> tgtId e ∈ vq1.1)).
  { subst vq1. case_bool_decide; [|split; [apply extends_refl|done]].
    destruct (visit_id_extends curr (tgtId e) vq); [exists e; auto|auto]. }
  destruct H1 as [H1 H1']. case_bool_decide as Et; [|by split].
  destruct (visit_id_extends curr (srcId e) vq1) as [H2 H2']; [exists e; auto|].
  split; [by eapply extends_trans|]. split; [|done].
  intros Hs%H1'. eapply extends_visited; eauto.
Qed.

Lemma pass_extends curr es vq :
  es ⊆ edges ->
  let vq' := foldl (visit_edge curr) vq es in
  extends curr vq vq' /\ Forall (edge_closed curr vq'.1) es.
Proof.
  revert vq. induction es as [|e es IH]; intros vq Hes; simpl; [split; [apply extends_refl|done]|].
  destruct (visit_edge_extends curr vq e) as [H1 H2]; [set_solver|].
  destruct (IH (visit_edge curr vq e)) as [H3 H4]; [set_solver|].
  split; [by eapply extends_trans|]. constructor; [|done].
  destruct H2 as [Ha Hb]. apply extends_visited in H3. split; intros E; apply H3; auto.
Qed.

Record bfs_inv (start : string) (v : gset string) (q : list string) : Prop := BfsInv {
  inv_queued : Forall (fun x => x ∈ v) q;
  inv_start : start ∈ v;
  inv_sound : forall x, x ∈ v -> rtc linked start x;
  inv_closed : forall x y, x ∈ v -> x ∉ q -> linked x y -> y ∈ v }.

Lemma bfs_inv_step start v curr q v' q' :
  bfs_inv start v (curr :: q) -> foldl (visit_edge curr) (v, q) edges = (v', q') ->
  bfs_inv start v' q' /\
  size (edge_ids ∖ v') + length q' <= size (edge_ids ∖ v) + length q.
Proof.
  intros [Hq Hs Hr Hc] E. destruct (pass_extends curr edges (v, q)) as [Hx He]; [done|].
  rewrite E in Hx, He. destruct Hx as (new & Hn & Hd & Hf). simpl in *. simplify_eq.
  apply Forall_cons in Hq as [Hcv Hq]. rewrite Forall_forall in Hf. rewrite Forall_forall in He. split; [split|].
  - apply Forall_forall. rewrite Forall_forall in Hq. set_solver.
  - set_solver.
  - intros x [Hx|Hx%elem_of_list_to_set]%elem_of_union; [auto|].
    destruct (Hf x Hx) as [_ Hl]. eapply rtc_r; [by apply (Hr curr)|done].
  - intros x y Hx Hxq Hl. destruct (decide (x = curr)) as [->|Hne].
    + destruct Hl as (e & Hin & Hl). destruct (He e Hin) as [Ha Hb].
      destruct Hl as [[Ea <-]|[Ea <-]]; auto.
    + assert (x ∈ v) by set_solver. apply elem_of_union_l. apply (Hc x); set_solver.
  - rewrite length_app.
    assert (Hsz : size (list_to_set new : gset string) = length new) by (by apply size_list_to_set).
    assert (size ((edge_ids ∖ (v ∪ list_to_set new)) ∪ list_to_set new) <= size (edge_ids ∖ v)).
    { apply subseteq_size. intros x [Hx|Hx%elem_of_list_to_set]%elem_of_union; [set_solver|].
      destruct (Hf x Hx) as [? ?%linked_ids]. set_solver. }
    rewrite size_union in H by set_solver. lia.
Qed.

Lemma bfs_loop_correct start fuel v q :
  bfs_inv start v q -> size (edge_ids ∖ v) + length q <= fuel ->
  exists v', bfs_loop fuel edges v q = Some v' /\ bfs_inv start v' [].
Proof.
  revert v q. induction fuel as [|fuel IH]; intros v [|curr q] Hinv Hf; simpl in *; eauto; [lia|].
  destruct (foldl _ _ _) as [v' q'] eqn:E.
  destruct (bfs_inv_step _ _ _ _ _ _ Hinv E). apply IH; [done|lia].
Qed.
End Bfs.

Lemma bfs_total edges start :
  exists v, bfs edges start = Some v /\ bfs_inv edges start v [].
Proof.
  apply bfs_loop_correct.
  - split; [by repeat constructor; set_solver|set_solver| |].
    + intros x ->%elem_of_singleton. done.
    + intros x y ->%elem_of_singleton H. set_solver.
  - pose proof (edge_ids_size edges).
    assert (size (edge_ids edges ∖ {[start]}) <= size (edge_ids edges))
      by (apply subseteq_size; set_solver). unfold bfs_fuel. simpl. lia.
Qed.

(** C11: the blast-radius search always ends within its bound, and what it
    returns is exactly the set of assets connected to the selected one by
    edges taken in either direction: the upstream ones too, where the text
    above the button announces the downstream ones. *)
Theorem blast_radius_correct edges start :
  exists visited, bfs edges start = Some visited /\
    forall x, x ∈ visited <-> rtc (linked edges) start x.
Proof.
  destruct (bfs_total edges start) as (v & E & [_ Hs Hr Hc]). exists v. split; [done|].
  intros x. split; [apply Hr|]. clear Hr E. intros H.
  induction H as [|x y z Hl _ IH]; [done|]. apply IH, (Hc x); [done| |done]. apply not_elem_of_nil.
Qed.

(** ** Findings reach their nodes *)
Lemma index_lookup fs m key :
  foldl index_finding m fs !! key =
  match m !! key, filter (fun f => finding_key f = key /\ key <> EmptyString) fs with
  | None, [] => None
  | o, l => Some (default [] o ++ l)
  end.
Proof.
  revert m. induction fs as [|f fs IH]; intros m; simpl.
  { destruct (m !! key); simpl; [by rewrite app_nil_r|done]. }
  rewrite IH, filter_cons. unfold index_finding.
  destruct (decide (finding_key f = EmptyString)) as [E|E].
  - rewrite bool_decide_eq_true_2 by done. by rewrite decide_False by naive_solver.
  - rewrite bool_decide_eq_false_2 by done.
    destruct (decide (finding_key f = key)) as [<-|Hne].
    + rewrite lookup_insert_eq, decide_True by done. simpl. rewrite <-app_assoc.
      by destruct (m !! _).
    + rewrite lookup_insert_ne by done. by rewrite decide_False by naive_solver.
Qed.

Lemma index_default fs key :
  key <> EmptyString ->
  default [] (findingsByIp fs !! key) = filter (fun f => finding_key f = key) fs.
Proof.
  intros Hk. unfold findingsByIp. rewrite index_lookup, lookup_empty.
  assert (E : filter (fun f => finding_key f = key /\ key <> EmptyString) fs =
              filter (fun f => finding_key f = key) fs).
  { apply list_filter_iff. naive_solver. }
  rewrite E. by destruct (filter (fun f => finding_key f = key) fs).
Qed.

(** C12: a loaded map shows on every node with an address exactly the findings
    whose key is that address, the worst first and otherwise in arrival
    order; the risk score and the colour category are those of the worst
    finding, and the alert flag is set exactly when some open finding scores
    at least 50.  A failing findings request empties the lists and nothing
    else. *)
Theorem node_findings_correct draw m fres d i n :
  fetch_map draw (HttpOk m) fres = AsyncOk d ->
  mr_nodes m !! i = Some n -> or_str (rn_ip n) (rn_id n) <> EmptyString ->
  let key := or_str (rn_ip n) (rn_id n) in
  let fs := match fres with HttpOk o => nullish o [] | HttpErr _ => [] end in
  exists en l, md_nodes d !! i = Some en /\ en_raw en = n /\ en_findings en = Some l /\
    l ≡ₚ filter (fun f => finding_key f = key) fs /\
    StronglySorted (key_ge sf_score) l /\
    (forall z, filter (fun f => sf_score f = z) l =
               filter (fun f => sf_score f = z) (filter (fun f => finding_key f = key) fs)) /\
    (en_riskScore en = Some (match head l with Some f => sf_score f | None => draw i end)) /\
    en_findingCategory en = sf_category <$> head l /\
    (en_hasActiveAlert en = true <->
       exists f, f ∈ fs /\ finding_key f = key /\ sf_status f = "open" /\ (50 <= sf_score f)%Z).
Proof.
  intros Hd Hi Hk key fs. simpl in Hd. simplify_eq.
  exists (enhance_node (findingsByIp fs) draw i n),
    (js_sort (by_key_desc sf_score) (filter (fun f => finding_key f = key) fs)).
  split; [simpl; by rewrite list_lookup_imap, Hi|]. split; [done|].
  unfold enhance_node; simpl. fold key. rewrite index_default by done.
  split; [done|]. split; [apply js_sort_perm|]. split; [apply js_sort_desc_sorted|].
  split; [intros z; apply js_sort_desc_stable|]. split; [done|]. split; [done|].
  rewrite existsb_exists. unfold active_finding. setoid_rewrite andb_true_iff.
  setoid_rewrite String.eqb_eq. setoid_rewrite Z.leb_le.
  setoid_rewrite <-list_elem_of_In. setoid_rewrite js_sort_elem.
  setoid_rewrite list_elem_of_filter. naive_solver.
Qed.

(** ** Response actions *)
Definition is_post (k : nw_kont) : bool := match k with NwKPost _ => true | _ => false end.

Definition nw_inv (s : nw_state) : Prop :=
  fl_ok (nw_flight s) /\ fl_single is_post (nw_flight s) /\
  (nw_actionSubmitting s = false -> ~ fl_with is_post (nw_flight s)).

Lemma offers_legend m e : offers (nw_legend m) e <-> False.
Proof. unfold nw_legend, legend_row. destruct m; autorewrite with offers; tauto. Qed.

Lemma offers_finding s n f e :
  offers (nw_finding s n f) e <->
  sf_recommended_action f <> "none" /\ sf_status f = "open" /\
  nw_actionSubmitting s = false /\ e = NwRespond n f.
Proof.
  unfold nw_finding. autorewrite with offers. rewrite andb_true_iff, negb_true_iff, String.eqb_eq.
  rewrite String.eqb_neq. split.
  - intros H. offers_cases H; naive_solver.
  - naive_solver.
Qed.
#[local] Hint Rewrite offers_legend offers_finding : offers.

Lemma nw_view_respond s n f :
  offers_any (nw_view s) (NwRespond n f) -> offers_any (nw_sidebar s) (NwRespond n f).
Proof.
  intros H.
  assert (offers_any ([nw_header s] ++ nw_graph s ++ nw_sidebar s ++
                 [nw_legend (nw_overlayMode s)]) (NwRespond n f)) as H'.
  { unfold nw_view in H. destruct (as_loading _); [by offers_cases H|].
    destruct (as_error (nw_async s)), (nw_data s); try done. by offers_cases H. }
  clear H. rewrite !offers_any_app in H'. destruct H' as [H|[H|[H|H]]]; [| |done|].
  - unfold nw_header in H. by offers_cases H.
  - unfold nw_graph in H. by offers_cases H.
  - by offers_cases H.
Qed.

Lemma nw_offers_respond s n f :
  offers_any (nw_view s) (NwRespond n f) ->
  nw_selectedNode s = Some n /\ f ∈ nullish (en_findings n) [] /\
  sf_status f = "open" /\ sf_recommended_action f <> "none" /\ nw_actionSubmitting s = false.
Proof.
  intros H%nw_view_respond. unfold nw_sidebar, nw_simulation, nw_properties, property, nw_findings in H.
  offers_cases H; naive_solver.
Qed.

Lemma nw_can_respond s d n f :
  as_loading (nw_async s) = false -> nw_data s = Some d -> nw_selectedNode s = Some n ->
  f ∈ nullish (en_findings n) [] -> sf_status f = "open" -> sf_recommended_action f <> "none" ->
  nw_actionSubmitting s = false -> offers_any (nw_view s) (NwRespond n f).
Proof.
  intros Hl Hd Hn Hf Ho Ha Hs. unfold nw_view. rewrite Hl, Hd.
  assert (offers_any (nw_findings s n) (NwRespond n f)) as H.
  { unfold nw_findings. rewrite offers_any_app, offers_any_when. left. split.
    - destruct (nullish (en_findings n) []); [by apply not_elem_of_nil in Hf|done].
    - rewrite !offers_any_cons, (offers_El "div"), offers_any_map. right. left.
      exists f. split; [done|]. by apply offers_finding. }
  assert (offers_any (nw_sidebar s) (NwRespond n f)) as H'.
  { unfold nw_sidebar. rewrite Hn. cbn [when_some].
    rewrite offers_any_cons, offers_El, !offers_any_app. naive_solver. }
  destruct (as_error (nw_async s)); rewrite !offers_any_app; auto.
Qed.

Lemma nw_handle_inv s e : nw_inv s -> nw_enabled s e -> nw_inv (fst (nw_handle e s)).
Proof.
  intros (Hok & Hs & Hf) Hen. destruct e; try done.
  - split; [|split]; simpl; [auto with soc|by apply fl_single_await|].
    intros H. by rewrite fl_with_await by done; auto.
  - apply nw_offers_respond in Hen as (_ & _ & _ & Ha & Hn).
    cbn [nw_handle]. unfold handleResponseAction. rewrite (proj2 (String.eqb_neq _ _) Ha).
    split; [|split]; simpl; [auto with soc|by apply fl_single_await; auto|done].
  - split; [|split]; simpl; [auto with soc|by apply fl_single_forget|].
    intros H Hw%fl_with_forget. by apply Hf.
  - destruct Hen as [a Ha]. cbn [nw_handle]. rewrite Ha.
    split; [|split]; simpl; [auto with soc|by apply fl_single_forget|].
    intros _. by eapply fl_single_settle.
Qed.

Lemma nw_run_inv es qs s : run nw_enabled nw_handle nw_init es qs s -> nw_inv s.
Proof.
  apply run_invariant; [|intros; by apply nw_handle_inv].
  assert (E : forall i k, fl_map (fl_empty (K:=nw_kont)) !! i <> Some k) by done.
  split; [auto with soc|]. split; [intros i j k k' H; by apply E in H|].
  intros _ (i & k & H & _). by apply E in H.
Qed.

(** C6: a response action leaves the page only for an open finding shown for
    the selected node, with that finding's recommended action and the address
    and container of that node, never the action [none], and never while
    another one is still being submitted.  The request never carries a second
    key, although the comments of the handler rely on one. *)
Theorem response_action_request es qs s e r :
  run nw_enabled nw_handle nw_init es qs s ->
  nw_enabled s e ->
  PostTask r ∈ snd (nw_handle e s) ->
  tr_twoKeyToken r = None /\ tr_action r <> "none" /\
  ~ fl_with is_post (nw_flight s) /\
  exists n f, e = NwRespond n f /\ nw_selectedNode s = Some n /\
    f ∈ nullish (en_findings n) [] /\ sf_status f = "open" /\
    tr_action r = sf_recommended_action f /\ tr_finding_id r = sf_finding_id f /\
    tr_endpoint r = en_id n /\ tr_target_ip r = or_str (rn_ip (en_raw n)) (en_id n) /\
    tr_container_id r = or_str (rn_containerId (en_raw n)) EmptyString.
Proof.
  intros (_ & _ & Hf)%nw_run_inv Hen Hq.
  destruct e as [| | | | | |n f| | | |k r']; cbn [nw_handle] in Hq; try (elem_inv Hq; fail).
  - apply nw_offers_respond in Hen as (Hn & Hin & Hst & Ha & Hsub).
    unfold handleResponseAction in Hq. rewrite (proj2 (String.eqb_neq _ _) Ha) in Hq.
    elem_inv Hq. simplify_eq. simpl. naive_solver.
  - destruct (fl_map (nw_flight s) !! k) as [[|a]|]; elem_inv Hq.
Qed.

(** Outside a simulation the heat overlay paints a node red exactly above
    a risk of 80 and orange exactly from 51 to 80, while its legend announces
    the red as "80+" and the orange as "50-79": the scores 80 and 50 are
    painted one class lower than the legend says. *)
Lemma heat_legend_mismatch s n risk :
  nw_simulatingPath s = false -> nw_overlayMode s = OHeat -> en_riskScore n = Some risk ->
  (getNodeColor s n = "#ef4444" <-> (80 < risk)%Z) /\
  (getNodeColor s n = "#f97316" <-> (50 < risk <= 80)%Z) /\
  (getNodeColor s n = "#22c55e" <-> (risk <= 50)%Z) /\
  "Critical (80+)" ∈ texts (nw_legend (nw_overlayMode s)) /\
  "High (50-79)" ∈ texts (nw_legend (nw_overlayMode s)).
Proof.
  intros Hs Ho Hr. unfold getNodeColor. rewrite Hs, Ho, Hr. cbn -[or_num Z.ltb].
  assert (or_num (Some risk) 0 = risk) as -> by (unfold or_num; case_bool_decide; lia).
  split_and!; [| | |apply list_elem_of_In; simpl; tauto..].
  all: destruct (Z.ltb_spec 80 risk), (Z.ltb_spec 50 risk); split; intros; try done; lia.
Qed.

(** ** Concrete executions *)
Definition demo_raw : RawNode :=
  MkRawNode "n1" "web-01" "ClientHost" "10.0.0.0/24" (Some "10.0.0.5") None None None false 0 0.

Definition demo_finding : SecurityFinding :=
  MkFinding "f1" "rat" 80 (MkEvidence (Some "10.0.0.5") None) "isolate_host" "open" "now" None.

Definition demo_map : map_response :=
  MapResponse [demo_raw] [MkRawEdge (ById "n1") (ById "n2") None None None None].

Definition demo_load : nw_event :=
  NwLoaded 0 (fun _ => 7%Z) (HttpOk demo_map) (HttpOk (Some [demo_finding])).

Definition demo_node : EnhancedNode :=
  enhance_node (findingsByIp [demo_finding]) (fun _ => 7%Z) 0 demo_raw.

Definition demo_nw_events : list nw_event := [NwExecute; demo_load; NwNodeClick demo_node].
Definition demo_nw : nw_state := fst (exec nw_handle demo_nw_events nw_init).

Lemma demo_nw_run :
  run nw_enabled nw_handle nw_init demo_nw_events
    (snd (exec nw_handle demo_nw_events nw_init)) demo_nw.
Proof.
  apply exec_run. split; [done|]. split; [done|]. split; [|done].
  cbn -[offers_any]. unfold nw_view. cbn -[offers_any].
  rewrite offers_any_cons. right. unfold nw_graph. offers_find.
Qed.

Lemma node_findings_correct_witness :
  exists en l, md_nodes (MapData [demo_node] [enhance_edge 0 (MkRawEdge (ById "n1") (ById "n2") None None None None)]) !! 0 = Some en /\
    en_findings en = Some l /\ en_hasActiveAlert en = true.
Proof.
  destruct (node_findings_correct (fun _ => 7%Z) demo_map (HttpOk (Some [demo_finding]))
    (MapData [demo_node] [enhance_edge 0 (MkRawEdge (ById "n1") (ById "n2") None None None None)])
    0 demo_raw) as (en & l & Hi & _ & Hl & _ & _ & _ & _ & _ & Ha);
    [reflexivity|reflexivity|discriminate|].
  exists en, l. split; [exact Hi|]. split; [exact Hl|]. apply Ha.
  exists demo_finding. split; [left|]. repeat split; try reflexivity. simpl. lia.
Defined.

Lemma response_action_request_witness :
  ~ fl_with is_post (nw_flight demo_nw).
Proof.
  destruct (response_action_request demo_nw_events _ demo_nw
    (NwRespond demo_node demo_finding)
    {| tr_endpoint := "n1"; tr_action := "isolate_host"; tr_target_ip := "10.0.0.5";
       tr_container_id := ""; tr_finding_id := "f1"; tr_twoKeyToken := None |}
    demo_nw_run) as (_ & _ & H & _); [|vm_compute; left|exact H].
  eapply nw_can_respond; [reflexivity..|left|reflexivity|discriminate|reflexivity].
Defined.

Lemma heat_legend_mismatch_witness :
  getNodeColor (NwState async_init None OHeat false false None (800, 600)%Q fl_empty) demo_node
  = "#f97316".
Proof.
  destruct (heat_legend_mismatch
    (NwState async_init None OHeat false false None (800, 600)%Q fl_empty) demo_node 80
    eq_refl eq_refl eq_refl) as (_ & H & _). apply H. lia.
Defined.
