(* ===== verification/Scripts.v ===== *)
(** * The launch scripts of the enrolment dialog ([pages/endpoints/HostManagementPage.tsx])

    When a token has been generated the dialog shows one of six scripts with
    the address of the hub and the token filled in.  A script is the list of
    its lines, character by character as the template literal of the source
    gives them; [q] writes the double quote, which the scripts are full of,
    as the sign [@], which none of them contains.

    The second part reads a script the way its language does: string
    literals with backslash escapes, words of the shell with single quotes
    and the substitution of [$(hostname)], JSON bodies.  The theorem is that
    each of the six enrols with the token it was given. *)
From S2P Require Import Prelude JsString Json Html.

Definition q (s : string) : string :=
  string_map (fun a => if Ascii.eqb a "@" then dquote else a) s.

(** ** The scripts *)
Definition curl_script (hub token : string) : list string :=
  ["#!/usr/bin/env bash";
   q "HUB_URL=@" +:+ hub +:+ q "@";
   q "CRED_FILE=@.siem_credentials.json@";
   q "if [ ! -f @$CRED_FILE@ ]; then";
   "  # Step 1: Enroll";
   q "  curl -s -X POST @$HUB_URL/api/endpoints/enroll@ \";
   q "    -H @Content-Type: application/json@ \";
   q "    -d '{@enrollment_token@:@" +:+ token +:+ q "@,@initial_metadata@:{@hostname@:@'$(hostname)'@,@os@:@linux@,@type@:@iaas@}}' \";
   q "    -o @$CRED_FILE@";
   "  ";
   q "  SECRET=$(python -c @import sys, json; print(json.load(open('$CRED_FILE'))['endpoint_secret'])@)";
   "  ";
   "  # Step 2: Register";
   q "  curl -s -X POST @$HUB_URL/api/endpoints/register@ \";
   q "    -H @Authorization: Bearer $SECRET@ \";
   q "    -H @Content-Type: application/json@ \";
   q "    -d '{@hostname@:@'$(hostname)'@,@label@:@Bash SDK@,@type@:@iaas@,@capabilities@:[@telemetry@],@agent_version@:@1.0@,@os@:@linux@,@region@:@local@}'";
   "fi";
   q "SECRET=$(python -c @import sys, json; print(json.load(open('$CRED_FILE'))['endpoint_secret'])@)";
   q "TENANT=$(python -c @import sys, json; print(json.load(open('$CRED_FILE'))['tenant_id'])@)";
   EmptyString;
   "# Step 3: Push Logs";
   q "HTTP_STATUS=$(curl -s -o /dev/null -w @%{http_code}@ -X POST @$HUB_URL/api/v1/agent/push@ \";
   q "  -H @Authorization: Bearer $SECRET@ \";
   q "  -H @Content-Type: application/json@ \";
   q "  -H @X-Tenant-ID: $TENANT@ \";
   q "  -d '{@events@:[{@timestamp@:@'$(date -u +%Y-%m-%dT%H:%M:%SZ)'@,@source@:@bash@,@severity@:@INFO@,@message@:@heartbeat@}]}')";
   EmptyString;
   q "if [ @$HTTP_STATUS@ == @401@ ] || [ @$HTTP_STATUS@ == @403@ ]; then";
   q "  echo @Stale credentials detected (status=$HTTP_STATUS). Purging cache...@";
   q "  rm -f @$CRED_FILE@";
   q "  echo @Please re-run the script to re-enroll securely.@";
   "  exit 1";
   "fi";
   q "echo @Telemetry successfully pushed to backend (HTTP $HTTP_STATUS).@"].

Definition python_script (hub token : string) : list string :=
  ["import os, json, requests";
   "from pathlib import Path";
   EmptyString;
   q "HUB_URL   = @" +:+ hub +:+ q "@";
   q "CRED_FILE = Path(@.siem_credentials.json@)";
   EmptyString;
   "def enroll():";
   "    # Step 1: Enroll";
   q "    r = requests.post(f@{HUB_URL}/api/endpoints/enroll@, json={";
   q "        @enrollment_token@: @" +:+ token +:+ q "@,";
   q "        @initial_metadata@: {@hostname@: __import__(@socket@).gethostname(), @os@: @python@, @type@: @iaas@}";
   "    }, timeout=15)";
   "    r.raise_for_status()";
   "    creds = r.json()";
   "    ";
   "    # Step 2: Register";
   q "    requests.post(f@{HUB_URL}/api/endpoints/register@, json={";
   q "        @hostname@: __import__(@socket@).gethostname(), @label@: @Python SDK@, @type@: @iaas@,";
   q "        @capabilities@: [@telemetry@], @agent_version@: @1.0@, @os@: @python@, @region@: @local@";
   q "    }, headers={@Authorization@: f@Bearer {creds['endpoint_secret']}@}).raise_for_status()";
   "    ";
   "    CRED_FILE.write_text(json.dumps(creds))";
   "    return creds";
   EmptyString;
   "creds = json.loads(CRED_FILE.read_text()) if CRED_FILE.exists() else enroll()";
   EmptyString;
   "# Step 3: Push Logs";
   q "r = requests.post(f@{HUB_URL}/api/v1/agent/push@,";
   q "    json={@events@: [{@timestamp@: @2026-07-25T18:00:00Z@, @source@: @python-app@,";
   q "                      @severity@: @INFO@, @message@: @Transaction logged@}]},";
   q "    headers={@Authorization@: f@Bearer {creds['endpoint_secret']}@,";
   q "             @X-Tenant-ID@: creds[@tenant_id@]})";
   EmptyString;
   "if r.status_code in (401, 403):";
   q "    print(@Stale credentials detected. Purging local token cache...@)";
   "    CRED_FILE.unlink(missing_ok=True)";
   "r.raise_for_status()"].

Definition csharp_script (hub token : string) : list string :=
  ["// NuGet: dotnet add package System.Net.Http.Json";
   "using System.Net.Http.Json;";
   EmptyString;
   "var http   = new HttpClient();";
   q "var hubUrl = @" +:+ hub +:+ q "@;";
   EmptyString;
   "// Step 1: Enroll";
   q "var enroll = await http.PostAsJsonAsync($@{hubUrl}/api/endpoints/enroll@, new {";
   q "    enrollment_token = @" +:+ token +:+ q "@,";
   q "    initial_metadata = new { hostname = Environment.MachineName, os = @dotnet@, type = @iaas@ }";
   "});";
   "enroll.EnsureSuccessStatusCode();";
   "var creds = await enroll.Content.ReadFromJsonAsync<Dictionary<string,string>>();";
   EmptyString;
   "// Step 2: Register";
   q "var regReq = new HttpRequestMessage(HttpMethod.Post, $@{hubUrl}/api/endpoints/register@);";
   q "regReq.Headers.Add(@Authorization@, $@Bearer {creds![@endpoint_secret@]}@);";
   "regReq.Content = JsonContent.Create(new {";
   q "    hostname = Environment.MachineName, label = @C# SDK@, type = @iaas@,";
   q "    capabilities = new[] { @telemetry@ }, agent_version = @1.0@, os = @dotnet@, region = @local@";
   "});";
   "(await http.SendAsync(regReq)).EnsureSuccessStatusCode();";
   EmptyString;
   "// Step 3: Push logs";
   q "using var req = new HttpRequestMessage(HttpMethod.Post, $@{hubUrl}/api/v1/agent/push@);";
   q "req.Headers.Add(@Authorization@, $@Bearer {creds[@endpoint_secret@]}@);";
   q "req.Headers.Add(@X-Tenant-ID@, creds[@tenant_id@]);";
   "req.Content = JsonContent.Create(new { events = new[] {";
   q "    new { timestamp = DateTime.UtcNow, source = @dotnet-app@,";
   q "          severity = @INFO@, message = @Transaction logged@ }";
   "}});";
   "(await http.SendAsync(req)).EnsureSuccessStatusCode();"].

Definition go_script (hub token : string) : list string :=
  ["package main";
   EmptyString;
   "import (";
   q "    @bytes@; @encoding/json@; @net/http@; @os@; @time@";
   ")";
   EmptyString;
   q "const hubURL = @" +:+ hub +:+ q "@";
   EmptyString;
   "func main() {";
   "    // Step 1: Enroll";
   "    hostname, _ := os.Hostname()";
   "    payload, _ := json.Marshal(map[string]any{";
   q "        @enrollment_token@: @" +:+ token +:+ q "@,";
   q "        @initial_metadata@: map[string]string{@hostname@: hostname, @os@: @go@, @type@: @iaas@},";
   "    })";
   q "    resp, _ := http.Post(hubURL+@/api/endpoints/enroll@, @application/json@, bytes.NewReader(payload))";
   "    defer resp.Body.Close()";
   "    var creds map[string]string";
   "    json.NewDecoder(resp.Body).Decode(&creds)";
   EmptyString;
   "    // Step 2: Register";
   "    regPayload, _ := json.Marshal(map[string]any{";
   q "        @hostname@: hostname, @label@: @Go SDK@, @type@: @iaas@,";
   q "        @capabilities@: []string{@telemetry@}, @agent_version@: @1.0@, @os@: @go@, @region@: @local@,";
   "    })";
   q "    reqReg, _ := http.NewRequest(@POST@, hubURL+@/api/endpoints/register@, bytes.NewReader(regPayload))";
   q "    reqReg.Header.Set(@Authorization@, @Bearer @+creds[@endpoint_secret@])";
   q "    reqReg.Header.Set(@Content-Type@, @application/json@)";
   "    http.DefaultClient.Do(reqReg)";
   EmptyString;
   "    // Step 3: Push logs";
   q "    body, _ := json.Marshal(map[string]any{@events@: []map[string]any{{";
   q "        @timestamp@: time.Now().UTC().Format(time.RFC3339),";
   q "        @source@: @go-service@, @severity@: @INFO@, @message@: @Transaction logged@,";
   "    }}})";
   q "    req, _ := http.NewRequest(@POST@, hubURL+@/api/v1/agent/push@, bytes.NewReader(body))";
   q "    req.Header.Set(@Authorization@, @Bearer @+creds[@endpoint_secret@])";
   q "    req.Header.Set(@Content-Type@, @application/json@)";
   q "    req.Header.Set(@X-Tenant-ID@, creds[@tenant_id@])";
   "    http.DefaultClient.Do(req)";
   "}"].

Definition typescript_script (hub token : string) : list string :=
  ["// Node.js / Bun / Deno — no external dependencies";
   q "import fs from @fs@;";
   EmptyString;
   q "const HUB_URL   = @" +:+ hub +:+ q "@;";
   q "const CRED_PATH = @.siem_credentials.json@;";
   EmptyString;
   "async function enroll() {";
   "  // Step 1: Enroll";
   q "  const res = await fetch(HUB_URL + @/api/endpoints/enroll@, {";
   q "    method: @POST@, headers: { @Content-Type@: @application/json@ },";
   "    body: JSON.stringify({";
   q "      enrollment_token: @" +:+ token +:+ q "@,";
   q "      initial_metadata: { hostname: process.env.HOSTNAME ?? @node@, os: process.platform, type: @iaas@ }";
   "    })";
   "  });";
   "  const creds = await res.json();";
   "  ";
   "  // Step 2: Register";
   q "  await fetch(HUB_URL + @/api/endpoints/register@, {";
   q "    method: @POST@, headers: { @Content-Type@: @application/json@, @Authorization@: `Bearer ${creds.endpoint_secret}` },";
   "    body: JSON.stringify({";
   q "      hostname: process.env.HOSTNAME ?? @node@, label: @TS SDK@, type: @iaas@,";
   q "      capabilities: [@telemetry@], agent_version: @1.0@, os: process.platform, region: @local@";
   "    })";
   "  });";
   EmptyString;
   "  fs.writeFileSync(CRED_PATH, JSON.stringify(creds));";
   "  return creds;";
   "}";
   EmptyString;
   q "const creds = fs.existsSync(CRED_PATH) ? JSON.parse(fs.readFileSync(CRED_PATH, @utf-8@)) : await enroll();";
   EmptyString;
   "// Step 3: Push Logs";
   q "await fetch(HUB_URL + @/api/v1/agent/push@, {";
   q "  method: @POST@,";
   "  headers: {";
   q "    @Authorization@: `Bearer ${creds.endpoint_secret}`,";
   q "    @Content-Type@:  @application/json@,";
   q "    @X-Tenant-ID@:   creds.tenant_id,";
   "  },";
   "  body: JSON.stringify({ events: [{";
   "    timestamp: new Date().toISOString(),";
   q "    source: @node-service@, severity: @INFO@, message: @Transaction logged@";
   "  }]})";
   "});"].

Definition java_script (hub token : string) : list string :=
  ["import java.net.URI;";
   "import java.net.http.HttpClient;";
   "import java.net.http.HttpRequest;";
   "import java.net.http.HttpResponse;";
   "import java.time.Instant;";
   EmptyString;
   "public class SiemConnector {";
   "    public static void main(String[] args) throws Exception {";
   "        var http = HttpClient.newHttpClient();";
   q "        String hubUrl = @" +:+ hub +:+ q "@;";
   "        ";
   "        // Step 1: Enroll (Simplified without JSON library for raw Java)";
   q "        String enrollBody = @{\@enrollment_token\@:\@" +:+ token +:+ q "\@,\@initial_metadata\@:{\@hostname\@:\@java-host\@,\@os\@:\@java\@,\@type\@:\@iaas\@}}@;";
   q "        var enrollReq = HttpRequest.newBuilder(URI.create(hubUrl + @/api/endpoints/enroll@))";
   q "            .header(@Content-Type@, @application/json@).POST(HttpRequest.BodyPublishers.ofString(enrollBody)).build();";
   "        var enrollRes = http.send(enrollReq, HttpResponse.BodyHandlers.ofString());";
   "        ";
   "        // In reality, use Jackson/Gson to extract secrets. For this snippet:";
   q "        String secret = enrollRes.body().split(@\@endpoint_secret\@:\@@)[1].split(@\@@)[0];";
   q "        String tenant = enrollRes.body().split(@\@tenant_id\@:\@@)[1].split(@\@@)[0];";
   EmptyString;
   "        // Step 2: Register";
   q "        String regBody = @{\@hostname\@:\@java-host\@,\@label\@:\@Java SDK\@,\@type\@:\@iaas\@,\@capabilities\@:[\@telemetry\@],\@agent_version\@:\@1.0\@,\@os\@:\@java\@,\@region\@:\@local\@}@;";
   q "        var regReq = HttpRequest.newBuilder(URI.create(hubUrl + @/api/endpoints/register@))";
   q "            .header(@Content-Type@, @application/json@).header(@Authorization@, @Bearer @ + secret)";
   "            .POST(HttpRequest.BodyPublishers.ofString(regBody)).build();";
   "        http.send(regReq, HttpResponse.BodyHandlers.discarding());";
   EmptyString;
   "        // Step 3: Push Logs";
   q "        String pushBody = @{\@events\@:[{\@timestamp\@:\@@ + Instant.now() + @\@,\@source\@:\@java-app\@,\@severity\@:\@INFO\@,\@message\@:\@Transaction logged\@}]}@;";
   q "        var pushReq = HttpRequest.newBuilder(URI.create(hubUrl + @/api/v1/agent/push@))";
   q "            .header(@Content-Type@, @application/json@).header(@Authorization@, @Bearer @ + secret).header(@X-Tenant-ID@, tenant)";
   "            .POST(HttpRequest.BodyPublishers.ofString(pushBody)).build();";
   "        http.send(pushReq, HttpResponse.BodyHandlers.discarding());";
   "    }";
   "}"].

(** The script of a tab, as the conditional elements of the dialog select
    it. *)
Definition launch_lines (hub token tab : string) : option (list string) :=
  if String.eqb tab "curl" then Some (curl_script hub token)
  else if String.eqb tab "python" then Some (python_script hub token)
  else if String.eqb tab "csharp" then Some (csharp_script hub token)
  else if String.eqb tab "go" then Some (go_script hub token)
  else if String.eqb tab "typescript" then Some (typescript_script hub token)
  else if String.eqb tab "java" then Some (java_script hub token)
  else None.

Definition launch_script (hub token tab : string) : option string :=
  join nl <$> launch_lines hub token tab.

(** ** Reading a script *)
Fixpoint strip_prefix (p s : string) : option string :=
  match p, s with
  | EmptyString, _ => Some s
  | String a p', String b s' => if Ascii.eqb a b then strip_prefix p' s' else None
  | _, _ => None
  end.

(** What follows [marker] in the first line that begins with it, apart from
    the indentation. *)
Definition line_after (marker script : string) : option string :=
  head (omap (fun l => strip_prefix marker (trim_start l)) (split_on newline script)).

(** The string literal that follows [marker]. *)
Definition literal_after (marker script : string) : option string :=
  l ← line_after marker script; r ← strip_prefix (q "@") l; fst <$> parse_string r.

(** A word of the shell, cut at its single quotes: the quoted pieces are
    taken as they are, outside of them a space ends the word and
    [$(hostname)] is replaced by the output of the command. *)
Fixpoint sh_word (host : string) (quoted : bool) (pieces : list string) : string :=
  match pieces with
  | [] => EmptyString
  | p :: ps =>
      if quoted then p +:+ sh_word host false ps
      else match strip_prefix " " p with
           | Some _ => EmptyString
           | None => (if String.eqb p "$(hostname)" then host else p) +:+ sh_word host true ps
           end
  end.

Definition sh_arg (host s : string) : string := sh_word host false (split_on "'" s).

(** The member [enrollment_token] of a request body. *)
Definition body_token (body : string) : option string :=
  v ← json_parse body; t ← json_get "enrollment_token" v;
  match t with JStr s => Some s | _ => None end.

(** The token a script enrols with on a machine called [host]. *)
Definition enrols_with (host tab script : string) : option string :=
  if String.eqb tab "curl" then
    a ← line_after "-d " script; body_token (sh_arg host a)
  else if String.eqb tab "java" then
    b ← literal_after "String enrollBody = " script; body_token b
  else if String.eqb tab "csharp" then literal_after "enrollment_token = " script
  else if String.eqb tab "typescript" then literal_after "enrollment_token: " script
  else literal_after (q "@enrollment_token@: ") script.

(** The alphabet of tokens, [secrets.token_urlsafe] of the backend, and of
    host names. *)
Definition safe_char (a : ascii) : bool :=
  is_alnum (Ascii.nat_of_ascii a) || Ascii.eqb a "-" || Ascii.eqb a "_".

Fixpoint url_safe (s : string) : bool :=
  match s with EmptyString => true | String a s' => safe_char a && url_safe s' end.

Example curl_enrols :
  (s ← launch_script "http://hub" "tok-1" "curl"; enrols_with "web" "curl" s) = Some "tok-1".
Proof. vm_compute. reflexivity. Qed.
Example java_enrols :
  (s ← launch_script "http://hub" "tok-1" "java"; enrols_with "web" "java" s) = Some "tok-1".
Proof. vm_compute. reflexivity. Qed.
Example go_enrols :
  (s ← launch_script "http://hub" "tok-1" "go"; enrols_with "web" "go" s) = Some "tok-1".
Proof. vm_compute. reflexivity. Qed.

(** ** Safe characters *)
Lemma url_safe_avoids c s : safe_char c = false -> url_safe s = true -> avoids c s = true.
Proof.
  intros Hc. induction s as [|a s IH]; [done|]. cbn [url_safe avoids].
  intros [Ha Hs]%andb_prop. rewrite (IH Hs), andb_true_r.
  apply negb_true_iff, bool_decide_eq_false. congruence.
Qed.

Lemma safe_escape_char a : safe_char a = true -> escape_char a = String a EmptyString.
Proof. destruct a as [[] [] [] [] [] [] [] []]; first [reflexivity|discriminate 1]. Qed.

Lemma url_safe_escape s : url_safe s = true -> escape s = s.
Proof.
  induction s as [|a s IH]; [done|]. cbn [url_safe escape]. intros [Ha Hs]%andb_prop.
  by rewrite (safe_escape_char a Ha), (IH Hs).
Qed.

Lemma escape_app s t : escape (s +:+ t) = escape s +:+ escape t.
Proof. induction s as [|a s IH]; [done|]. cbn. by rewrite IH, append_assoc. Qed.

(** The line with the marker is line [k], and none before it has it. *)
Lemma line_after_nth marker k ls l :
  Forall (fun l => avoids newline l = true) ls ->
  omap (fun l => strip_prefix marker (trim_start l)) (take k ls) = [] -> ls !! k = Some l ->
  is_Some (strip_prefix marker (trim_start l)) ->
  line_after marker (join nl ls) = strip_prefix marker (trim_start l).
Proof.
  intros Hls Hk Hl [r Hr]. unfold line_after. change nl with (String newline EmptyString).
  rewrite split_on_join; [|by intros ->|done].
  rewrite <- (take_drop_middle ls k l Hl), omap_app, Hk. cbn [app omap list_omap].
  by rewrite Hr.
Qed.

(** Concatenations are compared after they are associated to the right. *)
Ltac str_norm := repeat progress (rewrite ?append_assoc; cbn); reflexivity.

(** ** Every script enrols with its token *)
Section Enrol.
Context (hub token host : string) (Hhub : avoids newline hub = true)
  (Htok : url_safe token = true) (Hhost : url_safe host = true).

Lemma token_avoids c : safe_char c = false -> avoids c token = true.
Proof. intros. by apply url_safe_avoids. Qed.

Ltac one_line :=
  repeat rewrite avoids_app; rewrite ?Hhub, ?(token_avoids newline) by reflexivity; vm_compute; reflexivity.
Ltac lines_ok := repeat (apply Forall_cons_2; [one_line|]); apply Forall_nil_2.

(** The enrolment body, as a document. *)
Definition enrol_doc (machine os : string) : doc :=
  DObj [("enrollment_token", DStr token);
        ("initial_metadata", DObj [("hostname", DStr machine); ("os", DStr os); ("type", DStr "iaas")])].

Lemma enrol_doc_token machine os : body_token (json_stringify (enrol_doc machine os)) = Some token.
Proof. unfold body_token. rewrite json_roundtrip. reflexivity. Qed.

Lemma enrol_doc_text machine os :
  url_safe machine = true -> url_safe os = true ->
  json_stringify (enrol_doc machine os) =
  q "{@enrollment_token@:@" +:+ token +:+ q "@,@initial_metadata@:{@hostname@:@" +:+ machine
  +:+ q "@,@os@:@" +:+ os +:+ q "@,@type@:@iaas@}}".
Proof.
  intros Hm Ho. unfold enrol_doc. cbn [json_stringify fmap list_fmap fst snd join]. unfold quoted.
  rewrite (url_safe_escape token), (url_safe_escape machine), (url_safe_escape os) by done.
  str_norm.
Qed.

(** The argument of [curl] in the shell script, cut at its quotes. *)
Lemma curl_word a b :
  avoids "'" a = true -> avoids "'" b = true ->
  sh_arg host (String "'" (a +:+ String "'" ("$(hostname)" +:+ String "'" (b +:+ String "'" " \")))) =
  a +:+ host +:+ b.
Proof.
  intros Ha Hb. unfold sh_arg.
  match goal with |- context [split_on _ (String _ ?r)] =>
    rewrite (split_on_app "'" EmptyString r eq_refl : split_on _ (String _ r) = _) end.
  rewrite (split_on_app "'" a), (split_on_app "'" "$(hostname)"), (split_on_app "'" b), split_on_avoids by done.
  cbn. by rewrite append_nil_r.
Qed.

Lemma curl_line :
  line_after "-d " (join nl (curl_script hub token)) =
  Some (String "'" ((q "{@enrollment_token@:@" +:+ token +:+ q "@,@initial_metadata@:{@hostname@:@")
    +:+ String "'" ("$(hostname)" +:+ String "'" (q "@,@os@:@linux@,@type@:@iaas@}}" +:+ String "'" " \")))).
Proof.
  erewrite (line_after_nth _ 7); [|lines_ok|vm_compute; reflexivity|reflexivity|by eexists].
  unfold strip_prefix. cbn [trim_start]. str_norm.
Qed.

Lemma curl_token : enrols_with host "curl" (join nl (curl_script hub token)) = Some token.
Proof.
  change ((a ← line_after "-d " (join nl (curl_script hub token)); body_token (sh_arg host a)) = Some token).
  rewrite curl_line. cbn [mbind option_bind].
  rewrite curl_word, <- (enrol_doc_token host "linux"), enrol_doc_text; try done.
  - f_equal. str_norm.
  - rewrite !avoids_app, token_avoids; done.
Qed.

(** A literal with the text [s], escaped. *)
Lemma literal_text marker k ls l s r :
  Forall (fun l => avoids newline l = true) ls ->
  omap (fun l => strip_prefix marker (trim_start l)) (take k ls) = [] -> ls !! k = Some l ->
  strip_prefix marker (trim_start l) = Some (String dquote (escape s +:+ String dquote r)) ->
  literal_after marker (join nl ls) = Some s.
Proof.
  intros Hls Hk Hl Hr. unfold literal_after.
  rewrite (line_after_nth marker k ls l Hls Hk Hl) by (rewrite Hr; eauto). rewrite Hr.
  cbn [mbind option_bind].
  change (strip_prefix (q "@") (String dquote ?x)) with (Some x). cbn [mbind option_bind].
  by rewrite parse_string_escape.
Qed.

Ltac literal k :=
  eapply (literal_text _ k);
  [lines_ok|vm_compute; reflexivity|reflexivity|rewrite (url_safe_escape token Htok); reflexivity].

Lemma python_token : enrols_with host "python" (join nl (python_script hub token)) = Some token.
Proof. literal 9. Qed.
Lemma csharp_token : enrols_with host "csharp" (join nl (csharp_script hub token)) = Some token.
Proof. literal 8. Qed.
Lemma go_token : enrols_with host "go" (join nl (go_script hub token)) = Some token.
Proof. literal 12. Qed.
Lemma typescript_token : enrols_with host "typescript" (join nl (typescript_script hub token)) = Some token.
Proof. literal 11. Qed.

Lemma java_literal :
  literal_after "String enrollBody = " (join nl (java_script hub token)) =
  Some (json_stringify (enrol_doc "java-host" "java")).
Proof.
  eapply (literal_text _ 12 _ _ _ ";"); [lines_ok|vm_compute; reflexivity|reflexivity|].
  rewrite enrol_doc_text, !escape_app, (url_safe_escape token) by done. str_norm.
Qed.

Lemma java_token : enrols_with host "java" (join nl (java_script hub token)) = Some token.
Proof.
  change ((b ← literal_after "String enrollBody = " (join nl (java_script hub token)); body_token b) = Some token).
  rewrite java_literal. apply enrol_doc_token.
Qed.

Lemma launch_token tab script :
  launch_script hub token tab = Some script -> enrols_with host tab script = Some token.
Proof.
  unfold launch_script. destruct (launch_lines hub token tab) as [ls|] eqn:E; [|done].
  intros [= <-]. revert E. unfold launch_lines.
  repeat (case_match; [intros [= <-]; match goal with E : String.eqb _ _ = true |- _ =>
    apply String.eqb_eq in E as -> end|]).
  - apply curl_token.
  - apply python_token.
  - apply csharp_token.
  - apply go_token.
  - apply typescript_token.
  - apply java_token.
  - done.
Qed.
End Enrol.

(** The script contains the token, whatever its characters are. *)
Lemma includes_join sep x s ls : includes x s = true -> s ∈ ls -> includes x (join sep ls) = true.
Proof.
  intros Hx Hs. apply includes_spec in Hx as (u & t & ->).
  apply list_elem_of_split in Hs as (l1 & l2 & ->). apply includes_spec.
  induction l1 as [|y l1 IH].
  - destruct l2 as [|z l2]; [by exists u, t|].
    exists u, (t +:+ sep +:+ join sep (z :: l2)). cbn [app]. by rewrite join_cons2, !append_assoc.
  - destruct IH as (u' & t' & E). exists (y +:+ sep +:+ u'), t'. cbn [app].
    destruct (l1 ++ _) as [|z l] eqn:El; [by destruct l1|]. by rewrite join_cons2, E, !append_assoc.
Qed.

Lemma launch_includes hub token tab script :
  launch_script hub token tab = Some script -> includes token script = true.
Proof.
  unfold launch_script. destruct (launch_lines hub token tab) as [ls|] eqn:E; [|done].
  intros [= <-].
  assert (H : exists a b, (a +:+ token +:+ b) ∈ ls).
  { revert E. unfold launch_lines.
    repeat (case_match; [intros [= <-]; do 2 eexists; apply list_elem_of_lookup|]); [..|done].
    - by exists 7.
    - by exists 9.
    - by exists 8.
    - by exists 12.
    - by exists 11.
    - by exists 12. }
  destruct H as (a & b & H). eapply includes_join; [|done]. apply includes_spec. eauto.
Qed.

(** ** The language of a script *)

(** The line by which a reader recognises each language. *)
Definition opening_lines : list (string * string) :=
  [("curl", "#!/usr/bin/env bash"); ("python", "import os, json, requests");
   ("csharp", "// NuGet: dotnet add package System.Net.Http.Json"); ("go", "package main");
   ("typescript", "// Node.js / Bun / Deno — no external dependencies"); ("java", "import java.net.URI;")].

Lemma opening_of_lines l l' ls :
  avoids newline l = true -> head (split_on newline (join nl (l :: l' :: ls))) = Some l.
Proof. intros H. rewrite join_cons2. cbn [String.append nl]. by rewrite split_on_app. Qed.

Lemma launch_opening hub token tab script :
  launch_script hub token tab = Some script ->
  exists line, (tab, line) ∈ opening_lines /\ head (split_on newline script) = Some line.
Proof.
  unfold launch_script. destruct (launch_lines hub token tab) as [ls|] eqn:E; [|done].
  intros [= <-]. revert E. unfold launch_lines.
  repeat (case_match; [intros [= <-]; match goal with E : String.eqb _ _ = true |- _ =>
    apply String.eqb_eq in E as -> end; eexists; split;
    [apply list_elem_of_lookup; first [by exists 0|by exists 1|by exists 2|by exists 3|by exists 4|by exists 5]|
     apply opening_of_lines; reflexivity]|]).
  done.
Qed.
