(* ===== verification/Hosts.v ===== *)
(** * Host management ([pages/endpoints/HostManagementPage.tsx])

    The fleet page: loading and ordering of the hosts, the filter tabs and
    the search, selection and bulk actions, agent enrolment with one-time
    tokens, credential rotation, remote tasks and the toast.

    A handler that awaits runs on with the values its closure captured at
    the render it was created in: those values are the arguments of its
    continuation in [hs_kont].  A selection is a JavaScript [Set], which
    iterates in insertion order, so it is a list without duplicates.  The
    launch scripts are those of [Scripts]; the locale's time format is a
    parameter, [hub_url] and [ssh_host] are the browser's location. *)
From S2P Require Import Prelude JsString JsSet Dates Json Html Types Http AsyncState SharedUi Scripts.

(** ** Data *)
Record RawHost := MkRawHost {
  rh_host : ManagedHost;
  rh_criticality : option string;
  rh_openIncidentsCount : option Z;
  rh_lastIsolatedDaysAgo : option Z;
  rh_trendingStale : option bool;
  rh_type : option string;
  rh_ipAddress : option string;
  rh_region : option string }.

Record EnhancedHost := MkHost {
  eh_host : ManagedHost;
  eh_criticality : string;
  eh_openIncidentsCount : Z;
  eh_lastIsolatedDaysAgo : option Z;
  eh_trendingStale : bool;
  eh_type : string;
  eh_ipAddress : string;
  eh_region : string }.

Definition eh_id (h : EnhancedHost) : string := host_id (eh_host h).
Definition eh_hostname (h : EnhancedHost) : string := host_hostname (eh_host h).

Definition enhance_host (h : RawHost) : EnhancedHost :=
  MkHost (rh_host h) (or_str (rh_criticality h) "Tier-3") (or_num (rh_openIncidentsCount h) 0)
    (rh_lastIsolatedDaysAgo h) (or_bool (rh_trendingStale h) false) (or_str (rh_type h) "iaas")
    (or_str (rh_ipAddress h) "Dynamic Edge") (or_str (rh_region h) "local").

Definition last_check_in (h : EnhancedHost) : string := host_lastCheckIn (eh_host h).

(** The fetch function: the defaults, then the latest check-in first. *)
Definition fetch_hosts (local : Z -> Z) (hs : list RawHost) : list EnhancedHost :=
  js_sort (by_date_desc local last_check_in) (enhance_host <$> hs).

(** [{ ...h, agentVersion: h.latestVersion }] *)
Definition update_host (h : EnhancedHost) : EnhancedHost :=
  let m := eh_host h in
  MkHost {| host_id := host_id m; host_hostname := host_hostname m; host_os := host_os m;
            host_agentVersion := host_latestVersion m; host_latestVersion := host_latestVersion m;
            host_health := host_health m; host_lastCheckIn := host_lastCheckIn m |}
    (eh_criticality h) (eh_openIncidentsCount h) (eh_lastIsolatedDaysAgo h)
    (eh_trendingStale h) (eh_type h) (eh_ipAddress h) (eh_region h).

(** [data.map(h => h.id === id ? { ...h, agentVersion: h.latestVersion } : h)] *)
Definition update_one (id : string) (hs : list EnhancedHost) : list EnhancedHost :=
  (fun h => if bool_decide (eh_id h = id) then update_host h else h) <$> hs.

Record GeneratedTokenDetails := TokenDetails {
  td_token : string; td_tenantId : string; td_expiresIn : Z; td_maxUse : Z;
  td_endpointType : string; td_createdAt : string }.

Inductive toast_type := TSuccess | TInfo | TWarning | TError.
Record toast := Toast { to_title : string; to_desc : option string; to_type : toast_type }.

Inductive bulk_action := BRestart | BUpdate.
#[export] Instance bulk_action_eq_dec : EqDecision bulk_action.
Proof. solve_decision. Defined.
Definition bulk_str (a : bulk_action) : string :=
  match a with BRestart => "restart" | BUpdate => "update" end.

Record bulk_progress := BulkProgress { bp_total : nat; bp_completed : nat; bp_failed : nat }.

(** ** State *)
Record table_state := TableState {
  ts_selectedIds : list string;
  ts_bulkAction : option bulk_action;
  ts_bulkProgress : option bulk_progress;
  ts_viewFilter : string;
  ts_searchTerm : string }.

Record enroll_state := EnrollState {
  es_isOpen : bool;
  es_tenantId : string;
  es_expiresIn : Z;
  es_maxUse : Z;
  es_endpointType : string;
  es_isGenerating : bool;
  es_details : option GeneratedTokenDetails;
  es_commandTab : string;
  es_showSecret : bool }.

(** Continuations, with what their closures captured. *)
Inductive hs_kont :=
| HKLoad
| HKToken (tenantId : string) (expiresIn maxUse : Z) (endpointType : string)
| HKRotate (h : EnhancedHost)
| HKTask (action hostname : string)
| HKBulk (a : bulk_action) (data : option (list EnhancedHost)) (total : nat)
         (id : string) (rest : list string) (completed failed : nat)
| HKBulkEnd (a : bulk_action) (completed : nat).

Record hs_state := HsState {
  hs_async : async (list EnhancedHost);
  hs_table : table_state;
  hs_enroll : enroll_state;
  hs_toast : option toast;
  hs_rotate : option EnhancedHost;
  hs_flight : flight hs_kont }.

Definition hs_data (s : hs_state) : option (list EnhancedHost) := as_data (hs_async s).

Definition hs_init : hs_state :=
  HsState async_init (TableState [] None None "all" EmptyString)
    (EnrollState false "acme-corp" 900 1 "iaas" false None "curl" false) None None fl_empty.

Inductive hs_effect :=
| GetHosts
| PostToken (tenant_id : string) (expires_in max_use : Z)
| PostRotate (id : string)
| PostHostTask (id action triggered_by : string)
| Clipboard (text : string)
| HsNavigateTo (path : string)
| HsAlertBox (msg : string).

Inductive hs_event :=
| HsExecute
| HsWs (type endpoint_id : string)
| HsGenerate
| HsCopy (text label : string)
| HsRotateAsk (h : option EnhancedHost)
| HsRotateConfirm
| HsDispatch (id hostname action : string)
| HsBulk (a : bulk_action)
| HsSelect (id : string)
| HsSelectAll
| HsClearSelection
| HsFilter (tab : string)
| HsSearch (v : string)
| HsEnrollOpen
| HsEnrollClose
| HsTenant (v : string)
| HsExpires (v : string)
| HsMaxUse (v : string)
| HsEndpointType (v : string)
| HsDiscardToken
| HsCommandTab (v : string)
| HsToggleSecret
| HsToastClose
| HsNavigate (path : string)
| HsBreakGlass (hostname : string)
| HsLoaded (k : nat) (r : http_result (list RawHost))
| HsToken (k : nat) (now : string) (r : http_result string)
| HsRotated (k : nat) (r : http_result unit)
| HsTasked (k : nat) (r : http_result unit)
| HsBulkTick (k : nat) (fails : bool)
| HsBulkDone (k : nat).

Definition hs_set_async a s := HsState a (hs_table s) (hs_enroll s) (hs_toast s) (hs_rotate s) (hs_flight s).
Definition hs_set_table t s := HsState (hs_async s) t (hs_enroll s) (hs_toast s) (hs_rotate s) (hs_flight s).
Definition hs_set_enroll e s := HsState (hs_async s) (hs_table s) e (hs_toast s) (hs_rotate s) (hs_flight s).
Definition hs_set_toast t s := HsState (hs_async s) (hs_table s) (hs_enroll s) t (hs_rotate s) (hs_flight s).
Definition hs_set_rotate r s := HsState (hs_async s) (hs_table s) (hs_enroll s) (hs_toast s) r (hs_flight s).
Definition hs_set_flight f s := HsState (hs_async s) (hs_table s) (hs_enroll s) (hs_toast s) (hs_rotate s) f.
Definition hs_await k s := hs_set_flight (fl_await k (hs_flight s)) s.
Definition hs_forget i s := hs_set_flight (fl_forget i (hs_flight s)) s.

Definition set_generating b e :=
  EnrollState (es_isOpen e) (es_tenantId e) (es_expiresIn e) (es_maxUse e) (es_endpointType e) b
    (es_details e) (es_commandTab e) (es_showSecret e).
Definition set_details d e :=
  EnrollState (es_isOpen e) (es_tenantId e) (es_expiresIn e) (es_maxUse e) (es_endpointType e)
    (es_isGenerating e) d (es_commandTab e) (es_showSecret e).
Definition set_open b e :=
  EnrollState b (es_tenantId e) (es_expiresIn e) (es_maxUse e) (es_endpointType e)
    (es_isGenerating e) (es_details e) (es_commandTab e) (es_showSecret e).
Definition set_params t x m ty e :=
  EnrollState (es_isOpen e) t x m ty (es_isGenerating e) (es_details e) (es_commandTab e)
    (es_showSecret e).
Definition set_display tab sec e :=
  EnrollState (es_isOpen e) (es_tenantId e) (es_expiresIn e) (es_maxUse e) (es_endpointType e)
    (es_isGenerating e) (es_details e) tab sec.
Definition set_selected ids t :=
  TableState ids (ts_bulkAction t) (ts_bulkProgress t) (ts_viewFilter t) (ts_searchTerm t).
Definition set_bulk a p t :=
  TableState (ts_selectedIds t) a p (ts_viewFilter t) (ts_searchTerm t).

Definition showToast (title : string) (desc : option string) (ty : toast_type) (s : hs_state)
    : hs_state := hs_set_toast (Some (Toast title desc ty)) s.

Definition hs_execute (s : hs_state) : hs_state * list hs_effect :=
  (hs_await HKLoad (hs_set_async (async_start (hs_async s)) s), [GetHosts]).

(** ** Filtering, search and the figures of the header *)
Definition out_of_compliance (h : EnhancedHost) : bool :=
  negb (String.eqb (host_agentVersion (eh_host h)) (host_latestVersion (eh_host h)))
  || bool_decide (host_health (eh_host h) = Stale).

Definition matchesFilter (viewFilter : string) (h : EnhancedHost) : bool :=
  if String.eqb viewFilter "out-of-compliance" then out_of_compliance h
  else if String.eqb viewFilter "tier-1" then String.eqb (eh_criticality h) "Tier-1"
  else if String.eqb viewFilter "paas" then String.eqb (eh_type h) "paas"
  else if String.eqb viewFilter "iaas" then String.eqb (eh_type h) "iaas"
  else if String.eqb viewFilter "local_cf_tunnel" then String.eqb (eh_type h) "local_cf_tunnel"
  else true.

Definition matchesSearch (searchTerm : string) (h : EnhancedHost) : bool :=
  let query := trim (to_lower searchTerm) in
  String.eqb query EmptyString
  || includes query (to_lower (eh_hostname h))
  || includes query (to_lower (eh_id h))
  || includes query (to_lower (host_os (eh_host h)))
  || (negb (String.eqb (eh_ipAddress h) EmptyString) && includes query (eh_ipAddress h))
  || (negb (String.eqb (eh_region h) EmptyString) && includes query (to_lower (eh_region h))).

Definition filter_hosts (viewFilter searchTerm : string) (data : list EnhancedHost)
    : list EnhancedHost :=
  List.filter (fun h => matchesFilter viewFilter h && matchesSearch searchTerm h) data.

Definition filteredData (s : hs_state) : list EnhancedHost :=
  match hs_data s with
  | None => []
  | Some data => filter_hosts (ts_viewFilter (hs_table s)) (ts_searchTerm (hs_table s)) data
  end.

Definition count_hosts (p : EnhancedHost -> bool) (s : hs_state) : nat :=
  length (List.filter p (nullish (hs_data s) [])).

Definition outOfComplianceCount : hs_state -> nat := count_hosts out_of_compliance.
Definition tier1Count : hs_state -> nat :=
  count_hosts (fun h => String.eqb (eh_criticality h) "Tier-1").

Definition complianceRate (s : hs_state) : Z :=
  match hs_data s with
  | Some ((_ :: _) as data) =>
      round_percent (Z.of_nat (length data) - Z.of_nat (outOfComplianceCount s))
        (Z.of_nat (length data))
  | _ => 100
  end.

(** ** Selection *)
Definition toggleSelect (id : string) (ids : list string) : list string :=
  if bool_decide (id ∈ ids) then filter (fun j => j <> id) ids else set_add id ids.

Definition toggleSelectAll (s : hs_state) : list string :=
  if bool_decide (length (ts_selectedIds (hs_table s)) = length (filteredData s)) then []
  else set_of (eh_id <$> filteredData s).

(** ** Requests *)
Definition handleGenerateEnrollmentToken (s : hs_state) : hs_state * list hs_effect :=
  let e := hs_enroll s in
  if String.eqb (trim (es_tenantId e)) EmptyString then (s, [])
  else
    (hs_await (HKToken (es_tenantId e) (es_expiresIn e) (es_maxUse e) (es_endpointType e))
       (hs_set_enroll (set_generating true e) s),
     [PostToken (trim (es_tenantId e)) (es_expiresIn e) (es_maxUse e)]).

Definition generate_done (tenantId : string) (expiresIn maxUse : Z) (endpointType now : string)
    (r : http_result string) (s : hs_state) : hs_state :=
  let s := match r with
    | HttpOk token =>
        showToast "Enrollment Token Created"
          (Some ("Generated one-time token for tenant '" +:+ tenantId +:+ "'")) TSuccess
          (hs_set_enroll (set_details
             (Some (TokenDetails token (trim tenantId) expiresIn maxUse endpointType now))
             (hs_enroll s)) s)
    | HttpErr e =>
        showToast "Failed to Generate Token"
          (Some (detail_or e (or_str (he_message e) "Server error"))) TError s
    end in
  hs_set_enroll (set_generating false (hs_enroll s)) s.

Definition handleCopyCommand (text label : string) (s : hs_state) : hs_state * list hs_effect :=
  (showToast "Copied to Clipboard!" (Some (label +:+ " copied. Ready to paste in terminal."))
     TSuccess s, [Clipboard text]).

Definition handleRotateCredential (s : hs_state) : hs_state * list hs_effect :=
  match hs_rotate s with
  | None => (s, [])
  | Some h => (hs_await (HKRotate h) (hs_set_rotate None s), [PostRotate (eh_id h)])
  end.

Definition rotate_done (h : EnhancedHost) (r : http_result unit) (s : hs_state)
    : hs_state * list hs_effect :=
  match r with
  | HttpOk _ =>
      hs_execute (showToast "Credential Rotated"
        (Some ("Endpoint " +:+ eh_hostname h +:+ " rotated. Agent must re-enroll.")) TWarning s)
  | HttpErr e =>
      (showToast "Rotation Failed" (Some (detail_or e "Failed to rotate credential")) TError s, [])
  end.

Definition handleDispatchSoarTask (id actionName hostname : string) (s : hs_state)
    : hs_state * list hs_effect :=
  (hs_await (HKTask actionName hostname) s, [PostHostTask id actionName "soc-admin-ui"]).

Definition dispatch_done (actionName hostname : string) (r : http_result unit) (s : hs_state)
    : hs_state :=
  match r with
  | HttpOk _ => showToast "SOAR Task Dispatched"
      (Some ("Command '" +:+ actionName +:+ "' assigned to host " +:+ hostname +:+ ".")) TSuccess s
  | HttpErr e =>
      showToast "Dispatch Error" (Some (detail_or e "Failed to dispatch SOAR task")) TError s
  end.

(** The loop of [handleBulkAction]: wait for the next host, or for the final
    timer. *)
Definition bulk_next (a : bulk_action) (data : option (list EnhancedHost)) (total : nat)
    (ids : list string) (completed failed : nat) (s : hs_state) : hs_state :=
  match ids with
  | [] => hs_await (HKBulkEnd a completed) s
  | id :: rest => hs_await (HKBulk a data total id rest completed failed) s
  end.

Definition handleBulkAction (a : bulk_action) (s : hs_state) : hs_state :=
  let ids := ts_selectedIds (hs_table s) in
  bulk_next a (hs_data s) (length ids) ids 0 0
    (hs_set_table (set_bulk (Some a) (Some (BulkProgress (length ids) 0 0)) (hs_table s)) s).

(** One iteration after its delay; [data] is the list the closure captured. *)
Definition bulk_tick (a : bulk_action) (data : option (list EnhancedHost)) (total : nat)
    (id : string) (rest : list string) (completed failed : nat) (fails : bool) (s : hs_state)
    : hs_state :=
  let completed := if fails then completed else S completed in
  let failed := if fails then S failed else failed in
  let s := match a, data with
           | BUpdate, Some d => hs_set_async (async_setData (Some (update_one id d)) (hs_async s)) s
           | _, _ => s
           end in
  bulk_next a data total rest completed failed
    (hs_set_table (set_bulk (ts_bulkAction (hs_table s))
                     (Some (BulkProgress total completed failed)) (hs_table s)) s).

(** The final timer. *)
Definition bulk_end (a : bulk_action) (completed : nat) (s : hs_state) : hs_state :=
  let s := showToast "Bulk Action Complete"
    (Some ("Successfully executed " +:+ bulk_str a +:+ " across " +:+ of_nat_str completed
           +:+ " hosts.")) TSuccess s in
  hs_set_table (set_selected [] (set_bulk None None (hs_table s))) s.

(** The enrolment listener. *)
Definition on_ws (type endpoint_id : string) (s : hs_state) : hs_state * list hs_effect :=
  if String.eqb type "endpoint_enrolled" || String.eqb type "endpoint_registered" then
    let '(s, q) := hs_execute s in
    (showToast "Agent Connected"
       (Some ("Endpoint " +:+ endpoint_id +:+ " successfully enrolled in real-time.")) TInfo s, q)
  else (s, []).

Section Handle.
Context (local : Z -> Z) (ssh_host : string).

Definition break_glass (hostname : string) : string :=
  "[Mock Feature] Break-Glass SSH for " +:+ hostname +:+ ":

ssh -i ~/.ssh/id_rsa root@" +:+ ssh_host +:+ " -p 2222".

Definition hs_settled (k : nat) (e : hs_event) (kont : hs_kont) (s : hs_state)
    : hs_state * list hs_effect :=
  let s := hs_forget k s in
  match kont, e with
  | HKLoad, HsLoaded _ (HttpOk hs) =>
      (hs_set_async (async_ok (fetch_hosts local hs) (hs_async s)) s, [])
  | HKLoad, HsLoaded _ (HttpErr e) => (hs_set_async (async_fail (he_message e) (hs_async s)) s, [])
  | HKToken t x m ty, HsToken _ now r => (generate_done t x m ty now r s, [])
  | HKRotate h, HsRotated _ r => rotate_done h r s
  | HKTask a n, HsTasked _ r => (dispatch_done a n r s, [])
  | HKBulk a d total id rest c f, HsBulkTick _ fails => (bulk_tick a d total id rest c f fails s, [])
  | HKBulkEnd a c, HsBulkDone _ => (bulk_end a c s, [])
  | _, _ => (s, [])
  end.

Definition hs_handle (e : hs_event) (s : hs_state) : hs_state * list hs_effect :=
  let t := hs_table s in
  let n := hs_enroll s in
  match e with
  | HsExecute => hs_execute s
  | HsWs ty id => on_ws ty id s
  | HsGenerate => handleGenerateEnrollmentToken s
  | HsCopy text label => handleCopyCommand text label s
  | HsRotateAsk h => (hs_set_rotate h s, [])
  | HsRotateConfirm => handleRotateCredential s
  | HsDispatch id hostname a =>
      if String.eqb a EmptyString then (s, []) else handleDispatchSoarTask id a hostname s
  | HsBulk a => (handleBulkAction a s, [])
  | HsSelect id => (hs_set_table (set_selected (toggleSelect id (ts_selectedIds t)) t) s, [])
  | HsSelectAll => (hs_set_table (set_selected (toggleSelectAll s) t) s, [])
  | HsClearSelection => (hs_set_table (set_selected [] t) s, [])
  | HsFilter v =>
      (hs_set_table (TableState (ts_selectedIds t) (ts_bulkAction t) (ts_bulkProgress t) v
                       (ts_searchTerm t)) s, [])
  | HsSearch v =>
      (hs_set_table (TableState (ts_selectedIds t) (ts_bulkAction t) (ts_bulkProgress t)
                       (ts_viewFilter t) v) s, [])
  | HsEnrollOpen => (hs_set_enroll (set_details None (set_open true n)) s, [])
  | HsEnrollClose => (hs_set_enroll (set_open false n) s, [])
  | HsTenant v =>
      (hs_set_enroll (set_params v (es_expiresIn n) (es_maxUse n) (es_endpointType n) n) s, [])
  | HsExpires v =>
      (hs_set_enroll (set_params (es_tenantId n) (js_Number v) (es_maxUse n)
                        (es_endpointType n) n) s, [])
  | HsMaxUse v =>
      (hs_set_enroll (set_params (es_tenantId n) (es_expiresIn n) (js_Number v)
                        (es_endpointType n) n) s, [])
  | HsEndpointType v =>
      (hs_set_enroll (set_params (es_tenantId n) (es_expiresIn n) (es_maxUse n) v n) s, [])
  | HsDiscardToken => (hs_set_enroll (set_details None n) s, [])
  | HsCommandTab v => (hs_set_enroll (set_display v (es_showSecret n) n) s, [])
  | HsToggleSecret => (hs_set_enroll (set_display (es_commandTab n) (negb (es_showSecret n)) n) s, [])
  | HsToastClose => (hs_set_toast None s, [])
  | HsNavigate p => (s, [HsNavigateTo p])
  | HsBreakGlass h => (s, [HsAlertBox (break_glass h)])
  | HsLoaded k _ | HsToken k _ _ | HsRotated k _ | HsTasked k _ | HsBulkTick k _ | HsBulkDone k =>
      match fl_map (hs_flight s) !! k with
      | Some kont => hs_settled k e kont s
      | None => (s, [])
      end
  end.
End Handle.

(** ** The rendered page *)
Section View.
Context (hub_url : string) (locale_time : string -> string).

Definition link (to : string) (kids : list (html hs_event)) : html hs_event :=
  Button false (Some (HsNavigate to)) kids.

Definition hs_toast_view (s : hs_state) : list (html hs_event) :=
  when_some (hs_toast s) (fun t => [
    El "div" (match to_type t with
              | TSuccess => "bg-emerald-950/90 border-emerald-500/40 text-emerald-200"
              | TError => "bg-red-950/90 border-red-500/40 text-red-200"
              | TWarning => "bg-amber-950/90 border-amber-500/40 text-amber-200"
              | TInfo => "bg-indigo-950/90 border-indigo-500/40 text-indigo-200" end)
      ([El "svg" (match to_type t with
                  | TSuccess => "text-emerald-400" | TError => "text-red-400"
                  | TWarning => "text-amber-400" | TInfo => "text-indigo-400" end) [];
        El "h4" "" [Text (to_title t)]]
       ++ when (truthy_str (to_desc t)) [El "p" "" [Text (nullish (to_desc t) EmptyString)]]
       ++ [Button false (Some HsToastClose) [Text "✕"]])]).

Definition hs_header (s : hs_state) : html hs_event :=
  El "div" "" [
    El "h1" "" [Text "Host Management"]; El "span" "" [Text "Zero-Trust Fabric"];
    El "p" "" [Text "Autonomous fleet health monitoring, SOAR remote task execution, and agent enrollment."];
    Button false (Some HsEnrollOpen) [Text "Enroll Spoke Agent"];
    El "div" "" [El "p" "text-emerald-400" [Text (of_Z (complianceRate s) +:+ "%")];
                 El "p" "" [Text "Compliance"]];
    El "div" "" [El "p" (if 0 <? outOfComplianceCount s then "text-amber-400" else "text-slate-400")
                   [Text (of_nat_str (outOfComplianceCount s))];
                 El "p" "" [Text "Out of Baseline"]];
    El "div" "" [El "p" "text-red-400" [Text (of_nat_str (tier1Count s))];
                 El "p" "" [Text "Tier-1 Hosts"]]].

(** The filter pills: identifier, label, count and colour. *)
Definition hs_tabs (s : hs_state) : list (string * string * nat * option string) :=
  [("all", "All Fleet", length (nullish (hs_data s) []), None);
   ("out-of-compliance", "Out of Baseline", outOfComplianceCount s, Some "text-amber-400");
   ("tier-1", "Tier-1 Critical", tier1Count s, Some "text-red-400");
   ("iaas", "IaaS VM", count_hosts (fun h => String.eqb (eh_type h) "iaas") s, None);
   ("paas", "PaaS App", count_hosts (fun h => String.eqb (eh_type h) "paas") s, None);
   ("local_cf_tunnel", "Local CF Tunnel",
     count_hosts (fun h => String.eqb (eh_type h) "local_cf_tunnel") s, None)].

Definition hs_toolbar (s : hs_state) : html hs_event :=
  El "div" "" (
    [Input false (ts_searchTerm (hs_table s)) HsSearch]
    ++ when (negb (String.eqb (ts_searchTerm (hs_table s)) EmptyString))
         [Button false (Some (HsSearch EmptyString)) [Text "✕"]]
    ++ ((fun tab => let '(id, label, count, color) := tab in
          Button false (Some (HsFilter id))
            [El "span" (if String.eqb (ts_viewFilter (hs_table s)) id
                        then "bg-indigo-600 text-white" else "text-slate-400") [Text label];
             El "span" (or_str color "text-slate-300") [Text (of_nat_str count)]]) <$> hs_tabs s)).

Definition hs_bulk_bar (s : hs_state) : list (html hs_event) :=
  let n := length (ts_selectedIds (hs_table s)) in
  match ts_bulkProgress (hs_table s) with
  | None =>
      when (0 <? n) [
        El "div" "" [
          Text (of_nat_str n +:+ " host" +:+ (if 1 <? n then "s" else EmptyString) +:+ " selected");
          Button false (Some (HsBulk BRestart)) [Text "Restart Agents"];
          Button false (Some (HsBulk BUpdate)) [Text "Update to Baseline"];
          Button false (Some HsClearSelection) [Text "Clear Selection"]]]
  | Some p => [
      El "div" "" [
        Text ("Executing bulk " +:+ nullish (bulk_str <$> ts_bulkAction (hs_table s)) EmptyString
              +:+ "...");
        Text (of_nat_str (bp_completed p + bp_failed p) +:+ " / " +:+ of_nat_str (bp_total p));
        El "div" (of_nat_str (bp_completed p) +:+ "/" +:+ of_nat_str (bp_total p)) [];
        El "div" (of_nat_str (bp_failed p) +:+ "/" +:+ of_nat_str (bp_total p)) []]]
  end.

Definition health_str (h : AgentHealth) : string :=
  match h with Healthy => "healthy" | Stale => "stale" | Outdated => "outdated" | Offline => "offline" end.

Definition health_badge (h : AgentHealth) : BadgeSeverity :=
  match h with Healthy => S4 | Stale => S3 | _ => S1 end.

(** [{h.lastIsolatedDaysAgo && <Link/>}]: zero is falsy and is rendered. *)
Definition isolated_link (h : EnhancedHost) : list (html hs_event) :=
  when_some (eh_lastIsolatedDaysAgo h) (fun d =>
    if bool_decide (d = 0%Z) then [Text "0"]
    else [link ("/endpoints/isolation?entity=" +:+ eh_id h)
            [Text ("🛡️ Isolated " +:+ of_Z d +:+ "d ago")]]).

Definition host_name_cell (h : EnhancedHost) : html hs_event :=
  El "td" "" (
    [El "span" "" [Text (eh_hostname h)]]
    ++ when (String.eqb (eh_type h) "paas") [El "span" "text-blue-400" [Text "PaaS"]]
    ++ when (String.eqb (eh_type h) "iaas") [El "span" "text-purple-400" [Text "IaaS"]]
    ++ when (String.eqb (eh_type h) "local_cf_tunnel")
         [El "span" "text-amber-400" [Text "Local CF Tunnel"]]
    ++ [El "span" (if String.eqb (eh_criticality h) "Tier-1" then "bg-red-950 text-red-400"
                   else "bg-slate-800 text-slate-400") [Text (eh_criticality h)];
        Text (eh_ipAddress h); Text ("• " +:+ eh_region h)]).

Definition host_version_cell (h : EnhancedHost) : html hs_event :=
  let m := eh_host h in
  let current := String.eqb (host_agentVersion m) (host_latestVersion m) in
  El "td" "" [
    Text (host_os m);
    El "span" (if current then "text-emerald-400" else "text-amber-400 font-bold")
      ([Text ("v" +:+ host_agentVersion m +:+ " ")] ++ when (negb current) [Text "(Outdated)"])].

Definition host_health_cell (h : EnhancedHost) : html hs_event :=
  let m := eh_host h in
  El "td" "" (
    [Badge (Some (health_badge (host_health m))) [Text (to_upper (health_str (host_health m)))];
     Text "HTTP AGENT"]
    ++ when (eh_trendingStale h) [Text "Trending Stale"]
    ++ [El "span" (if bool_decide (host_health m = Healthy) then "bg-emerald-500 animate-pulse"
                   else "bg-red-500") [];
        Text ("Synced " +:+ locale_time (host_lastCheckIn m))]).

Definition host_incident_cell (h : EnhancedHost) : html hs_event :=
  El "td" "" (
    (if bool_decide (eh_openIncidentsCount h = 0%Z) then [Text "No active incidents"]
     else [link ("/incidents/active?entity=" +:+ eh_id h)
             [Text ("⚠️ " +:+ of_Z (eh_openIncidentsCount h) +:+ " active incident"
                    +:+ (if (1 <? eh_openIncidentsCount h)%Z then "s" else EmptyString))]])
    ++ isolated_link h).

Definition host_endpoint_cell (h : EnhancedHost) : html hs_event :=
  El "td" "" [Text (hub_url +:+ "/api/endpoints/" +:+ eh_id h);
              Button false (Some (HsBreakGlass (eh_hostname h))) [Text "Break-Glass SSH"]].

(** The remote tasks; the prompt itself is a disabled option. *)
Definition soar_tasks : list (string * string) :=
  [("maintenance_mode", "⚙️ Maintenance Mode"); ("test_alert", "⚡ Trigger Test Alert");
   ("collect_diagnostics", "🔍 Collect Diagnostics")].

Definition host_action_cell (h : EnhancedHost) : html hs_event :=
  let paas := String.eqb (eh_type h) "paas" in
  El "td" "" [
    Text "SOAR Actions..."; Select EmptyString soar_tasks (HsDispatch (eh_id h) (eh_hostname h));
    Button paas (Some (HsNavigate ("/endpoints/isolation?host=" +:+ eh_id h)))
      [El "span" (if paas then "Isolation not applicable for PaaS endpoints" else "Isolate Host")
         [Text "Isolate"]];
    Button false (Some (HsRotateAsk (Some h))) [Text "Rotate"]].

Definition host_row (s : hs_state) (h : EnhancedHost) : html hs_event :=
  El "tr" (if String.eqb (eh_criticality h) "Tier-1"
              && negb (bool_decide (host_health (eh_host h) = Healthy))
           then "bg-red-950/10" else "") [
    El "td" "" [checkbox (bool_decide (eh_id h ∈ ts_selectedIds (hs_table s))) (HsSelect (eh_id h))];
    host_name_cell h; host_version_cell h; host_health_cell h; host_incident_cell h;
    host_endpoint_cell h; host_action_cell h].

Definition hs_table_view (s : hs_state) : html hs_event :=
  let rows := filteredData s in
  El "table" "" [
    El "thead" "" ([checkbox (bool_decide (0 < length rows) &&
                             bool_decide (length (ts_selectedIds (hs_table s)) = length rows))
                     HsSelectAll]
      ++ (Text <$> ["Hostname / Environment"; "OS & Baseline Version"; "Health & Telemetry";
                    "Incident Context"; "Zero-Trust Endpoint"; "Orchestration"]));
    El "tbody" "" (match rows with
                   | [] => [Text "No managed hosts match your search or filter parameters."]
                   | _ => host_row s <$> rows
                   end)].

(** The enrolment dialog: the form, then the generated token. *)
Definition enroll_form (e : enroll_state) : html hs_event :=
  El "form" "" (
    [Text "Target Tenant ID *"; Input false (es_tenantId e) HsTenant; Text "Presets:"]
    ++ ((fun tag => Button false (Some (HsTenant tag)) [Text tag]) <$>
          ["acme-corp"; "default_fallback_tenant"; "globex-sec"])
    ++ [Text "Target Deployment Architecture"]
    ++ ((fun ty => let '(id, label, desc) := ty in
           Button false (Some (HsEndpointType id))
             [El "p" (if String.eqb (es_endpointType e) id then "bg-indigo-600/20 text-white"
                      else "bg-slate-950 text-slate-400") [Text label; Text desc]]) <$>
          [("iaas", "IaaS VM", "AWS EC2, DO, GCP");
           ("paas", "PaaS App", "Render, Fargate, Cloud Run");
           ("local_cf_tunnel", "Local Server", "Bare-metal / CF Tunnel")])
    ++ [Text "Token Expiration";
        Select (of_Z (es_expiresIn e))
          [("900", "15 Minutes (Recommended)"); ("3600", "1 Hour"); ("86400", "24 Hours")] HsExpires;
        Text "Maximum Uses";
        Select (of_Z (es_maxUse e))
          [("1", "Single-Use (1 Agent)"); ("5", "Multi-Use (5 Agents)");
           ("100", "Fleet-Wide (100 Agents)")] HsMaxUse;
        Button false (Some HsEnrollClose) [Text "Cancel"];
        (* the submit button; a disabled one also blocks the Enter key *)
        Button (es_isGenerating e) (Some HsGenerate)
          [Text (if es_isGenerating e then "Generating Token..." else "Generate Token")]]).

Definition command_tabs : list (string * string) :=
  [("curl", "Bash / cURL"); ("python", "Python"); ("csharp", "C# .NET"); ("go", "Go");
   ("typescript", "TypeScript"); ("java", "Java")].

Definition snippets (token tab : string) : option string :=
  if String.eqb tab "curl" then Some ("TENANT_ENROLLMENT_TOKEN=" +:+ token +:+ " bash enroll_and_push.sh")
  else if String.eqb tab "python" then
    Some ("TENANT_ENROLLMENT_TOKEN=" +:+ token +:+ " python siem_connector.py")
  else if String.eqb tab "csharp" then
    Some ("dotnet run  # Set enrollment_token=" +:+ String (Ascii.ascii_of_nat 34) token
          +:+ String (Ascii.ascii_of_nat 34) " in config")
  else if String.eqb tab "go" then Some ("ENROLLMENT_TOKEN=" +:+ token +:+ " go run main.go")
  else if String.eqb tab "typescript" then
    Some ("TENANT_ENROLLMENT_TOKEN=" +:+ token +:+ " npx tsx siemConnector.ts")
  else if String.eqb tab "java" then
    Some ("ENROLLMENT_TOKEN=" +:+ token +:+ " java SiemConnector.java")
  else None.

Definition enroll_footer : list (html hs_event) :=
  [Button false (Some HsDiscardToken) [Text "← Generate Another Token"];
   Button false (Some HsEnrollClose) [Text "Done"]].

Definition enroll_token (e : enroll_state) (d : GeneratedTokenDetails) : html hs_event :=
  El "div" "" (
    [El "h4" "" [Text "Bootstrap Token Generated Successfully!"];
     Text ("Assigned to tenant " +:+ td_tenantId d +:+ ". Valid for "
           +:+ of_Z (td_expiresIn d / 60) +:+ " mins.");
     Text "Enrollment Token (Secret)";
     Button false (Some HsToggleSecret)
       [Text (if es_showSecret e then "🔒 Hide Secret" else "👁️ Reveal Secret")];
     El "input" (if es_showSecret e then "text" else "password") [Text (td_token d)];
     Button false (Some (HsCopy (td_token d) "Enrollment Token")) [Text "Copy"];
     Text "Quick Launch Command"]
    ++ ((fun tab => Button false (Some (HsCommandTab tab.1))
           [El "span" (if String.eqb (es_commandTab e) tab.1 then "bg-indigo-600 text-white"
                       else "text-slate-400") [Text tab.2]]) <$> command_tabs)
    ++ when_some (launch_script hub_url (td_token d) (es_commandTab e))
         (fun script => [El "code" "" [Text script]])
    ++ [Button false (Some (HsCopy (nullish (snippets (td_token d) (es_commandTab e)) "undefined")
                              "Launch Command")) [Text "Copy"]]
    ++ enroll_footer).

Definition hs_enroll_view (s : hs_state) : list (html hs_event) :=
  let e := hs_enroll s in
  when (es_isOpen e) [
    El "div" "" [
      El "h3" "" [Text "Enroll Spoke Agent"];
      Text "Generate a secure one-time token for PaaS, IaaS, or Local nodes.";
      Button false (Some HsEnrollClose) [Text "✕"];
      match es_details e with
      | None => enroll_form e
      | Some d => enroll_token e d
      end]].

Definition hs_rotate_view (s : hs_state) : list (html hs_event) :=
  when_some (hs_rotate s) (fun h => [
    El "div" "" [
      El "h3" "" [Text "Rotate Endpoint Credential?"];
      El "p" "" [Text "Are you sure you want to rotate the Zero-Trust service secret for ";
                 Text (eh_hostname h); Text "?";
                 Text "Active agent tunnels will be broken until the agent is re-enrolled."];
      Button false (Some (HsRotateAsk None)) [Text "Cancel"];
      Button false (Some HsRotateConfirm) [Text "Confirm Rotation"]]]).

Definition hs_page (s : hs_state) : list (html hs_event) :=
  hs_toast_view s ++ [hs_header s; hs_toolbar s] ++ hs_bulk_bar s ++ [hs_table_view s]
  ++ hs_enroll_view s ++ hs_rotate_view s.

Definition hs_view (s : hs_state) : list (html hs_event) :=
  if as_loading (hs_async s) then [LoadingSkeleton 10]
  else match as_error (hs_async s), hs_data s with
       | Some err, None => [ErrorState err (Some HsExecute)]
       | _, _ => hs_page s
       end.

(** ** Which events can happen *)
Definition hs_enabled (s : hs_state) (e : hs_event) : Prop :=
  let pending k P := exists kont, fl_map (hs_flight s) !! k = Some kont /\ P kont = true in
  match e with
  | HsExecute => True                    (* the mount effect, or the retry button *)
  | HsWs _ _ => True                     (* a message of the endpoint stream *)
  | HsToastClose => hs_toast s <> None   (* the button, or the toast's timer *)
  | HsLoaded k _ => pending k (fun c => match c with HKLoad => true | _ => false end)
  | HsToken k _ _ => pending k (fun c => match c with HKToken _ _ _ _ => true | _ => false end)
  | HsRotated k _ => pending k (fun c => match c with HKRotate _ => true | _ => false end)
  | HsTasked k _ => pending k (fun c => match c with HKTask _ _ => true | _ => false end)
  | HsBulkTick k _ => pending k (fun c => match c with HKBulk _ _ _ _ _ _ _ => true | _ => false end)
  | HsBulkDone k => pending k (fun c => match c with HKBulkEnd _ _ => true | _ => false end)
  | _ => offers_any (hs_view s) e
  end.
End View.

(** ** What the page can produce *)
Definition expiry_choices : list string := ["900"; "3600"; "86400"].
Definition use_choices : list string := ["1"; "5"; "100"].

Definition hs_guard (s : hs_state) (e : hs_event) : Prop :=
  match e with
  | HsBulk _ => ts_bulkProgress (hs_table s) = None
  | HsGenerate => es_isGenerating (hs_enroll s) = false
  | HsExpires v => v ∈ expiry_choices
  | HsMaxUse v => v ∈ use_choices
  | HsCommandTab v => v ∈ command_tabs.*1
  | HsRotateConfirm => hs_rotate s <> None
  | HsLoaded _ _ | HsToken _ _ _ | HsRotated _ _ | HsTasked _ _ | HsBulkTick _ _ | HsBulkDone _ => False
  | _ => True
  end.

Ltac guard_cases H := offers_cases H; try done; try (simpl; congruence).

Section Guard.
Context (hub_url : string) (locale_time : string -> string) (s : hs_state) (e : hs_event).

Lemma guard_top :
  offers_any (hs_toast_view s ++ [hs_header s; hs_toolbar s] ++ hs_bulk_bar s) e -> hs_guard s e.
Proof.
  rewrite !offers_any_app. intros [H|[H|H]].
  - unfold hs_toast_view in H. guard_cases H.
  - unfold hs_header, hs_toolbar, hs_tabs in H. guard_cases H.
  - unfold hs_bulk_bar in H. destruct (ts_bulkProgress (hs_table s)) eqn:E; guard_cases H.
Qed.

Lemma guard_incidents h : offers (host_incident_cell h) e -> hs_guard s e.
Proof.
  unfold host_incident_cell, isolated_link, link. rewrite offers_El, offers_any_app.
  intros [H|H].
  - case_bool_decide; guard_cases H.
  - rewrite offers_any_when_some in H. destruct H as (d & _ & H). case_bool_decide; guard_cases H.
Qed.

Lemma guard_row h : offers (host_row hub_url locale_time s h) e -> hs_guard s e.
Proof.
  unfold host_row. intros H. rewrite offers_El in H. rewrite !offers_any_cons in H.
  destruct H as [H|[H|[H|[H|[H|[H|[H|H]]]]]]].
  - guard_cases H.
  - unfold host_name_cell in H. guard_cases H.
  - unfold host_version_cell in H. guard_cases H.
  - unfold host_health_cell in H. guard_cases H.
  - by apply guard_incidents in H.
  - unfold host_endpoint_cell in H. guard_cases H.
  - unfold host_action_cell in H. guard_cases H.
  - guard_cases H.
Qed.

Lemma guard_table : offers (hs_table_view hub_url locale_time s) e -> hs_guard s e.
Proof.
  unfold hs_table_view. intros H. rewrite offers_El, !offers_any_cons in H.
  destruct H as [H|[H|H]]; [guard_cases H| |by apply offers_any_nil in H].
  rewrite offers_El in H. destruct (filteredData s) as [|h hs]; [guard_cases H|].
  rewrite offers_any_map in H. destruct H as (h' & _ & H). by apply guard_row in H.
Qed.

Lemma guard_token n d : offers (enroll_token hub_url n d) e -> hs_guard s e.
Proof.
  unfold enroll_token. rewrite offers_El, !offers_any_app. intros [H|[H|[H|[H|H]]]].
  - guard_cases H.
  - rewrite offers_any_map in H. destruct H as (tab & Htab & H). guard_cases H.
    apply list_elem_of_fmap. eauto.
  - rewrite offers_any_when_some in H. destruct H as (script & _ & H). guard_cases H.
  - guard_cases H.
  - unfold enroll_footer in H. guard_cases H.
Qed.

Lemma guard_dialogs : offers_any (hs_enroll_view hub_url s ++ hs_rotate_view s) e -> hs_guard s e.
Proof.
  rewrite offers_any_app. intros [H|H].
  - unfold hs_enroll_view in H. rewrite offers_any_when in H. destruct H as [_ H].
    destruct (es_details (hs_enroll s)) as [d|].
    + rewrite offers_any_cons, offers_any_nil in H. destruct H as [H|[]].
      rewrite offers_El, !offers_any_cons in H. destruct H as [H|[H|[H|[H|H]]]];
        [guard_cases H..|by apply guard_token in H|by apply offers_any_nil in H].
    + unfold enroll_form in H. guard_cases H.
  - unfold hs_rotate_view in H. guard_cases H.
Qed.

Lemma hs_offers_guard : offers_any (hs_view hub_url locale_time s) e -> hs_guard s e.
Proof.
  unfold hs_view. intros H. destruct (as_loading _); [guard_cases H|].
  assert (H' : offers_any (hs_page hub_url locale_time s) e \/ hs_guard s e).
  { destruct (as_error _), (hs_data s); auto. right. guard_cases H. }
  destruct H' as [H'|]; [|done]. unfold hs_page in H'. rewrite !offers_any_app in H'.
  destruct H' as [H'|[H'|[H'|[H'|H']]]].
  - apply guard_top. rewrite offers_any_app. auto.
  - apply guard_top. rewrite !offers_any_app. auto.
  - apply guard_top. rewrite !offers_any_app. auto.
  - apply guard_table. by rewrite offers_any_cons, offers_any_nil in H'; destruct H'.
  - apply guard_dialogs. by rewrite offers_any_app.
Qed.
End Guard.

(** ** Bulk actions *)
Definition count_if (b : bool) (fs : list bool) : nat := length (List.filter (Bool.eqb b) fs).

(** The delays of one bulk action elapse in order, from ticket [n] on. *)
Definition bulk_ticks (n : nat) (fs : list bool) : list hs_event :=
  imap (fun i f => HsBulkTick (n + i) f) fs.

Lemma bulk_ticks_cons n f fs : bulk_ticks n (f :: fs) = HsBulkTick n f :: bulk_ticks (S n) fs.
Proof.
  unfold bulk_ticks. simpl. rewrite Nat.add_0_r. f_equal. apply imap_ext. intros i x _. simpl.
  f_equal. lia.
Qed.

Section Bulk.
Context (local : Z -> Z) (ssh_host : string).
Notation handle := (hs_handle local ssh_host).

(** The state one iteration leads to. *)
Lemma bulk_tick_step a d total id rest c f fails s :
  fl_map (hs_flight s) !! fl_next (hs_flight s) = None ->
  let s0 := hs_await (HKBulk a d total id rest c f) s in
  let s1 := fst (handle (HsBulkTick (fl_next (hs_flight s)) fails) s0) in
  s1 = bulk_tick a d total id rest c f fails
         (hs_set_flight (Flight (fl_map (hs_flight s)) (S (fl_next (hs_flight s)))) s).
Proof.
  intros Hfree. cbn [hs_handle]. cbn [hs_await hs_set_flight hs_flight fl_await fl_map].
  rewrite lookup_insert_eq. cbn -[bulk_tick]. unfold hs_forget, fl_forget. cbn -[bulk_tick].
  by rewrite delete_insert_id.
Qed.

Lemma bulk_loop a data total rest s id c f fs :
  (forall i, fl_next (hs_flight s) <= i -> fl_map (hs_flight s) !! i = None) ->
  length fs = S (length rest) ->
  let s' := fst (exec handle (bulk_ticks (fl_next (hs_flight s)) fs)
                   (hs_await (HKBulk a (Some data) total id rest c f) s)) in
  hs_data s' = (match a with BUpdate => Some (update_one (default id (last rest)) data)
                           | BRestart => hs_data s end) /\
  ts_bulkProgress (hs_table s') =
    Some (BulkProgress total (c + count_if false fs) (f + count_if true fs)) /\
  fl_map (hs_flight s') !! (fl_next (hs_flight s) + length fs) =
    Some (HKBulkEnd a (c + count_if false fs)).
Proof.
  revert s id c f fs. induction rest as [|id' rest IH]; intros s id c f [|b fs] Hfree Hlen; try done.
  - destruct fs; [|done]. rewrite bulk_ticks_cons. cbn [exec bulk_ticks imap].
    pose proof (bulk_tick_step a (Some data) total id [] c f b s (Hfree _ (le_n _))) as Hs.
    cbn zeta in Hs. destruct (handle _ _) as [s1 q1]. cbn [fst] in *. subst s1.
    unfold bulk_tick, bulk_next.
    destruct a, b; cbn; rewrite (Nat.add_1_r (fl_next (hs_flight s))), lookup_insert_eq;
      (split; [done|]); split; repeat f_equal; cbn; lia.
  - rewrite bulk_ticks_cons. cbn [exec].
    pose proof (bulk_tick_step a (Some data) total id (id' :: rest) c f b s (Hfree _ (le_n _))) as Hs.
    cbn zeta in Hs. destruct (handle _ _) as [s1 q1]. cbn [fst] in Hs. subst s1.
    match goal with |- context [exec _ _ ?x] => set (s1 := x) end.
    destruct (exec _ _ s1) as [s2 q2] eqn:E2. cbn [fst].
    unfold bulk_tick, bulk_next in s1. subst s1.
    match type of E2 with exec _ _ (hs_await _ ?x) = _ => set (s1 := x) in E2 end.
    destruct (IH s1 id' (if b then c else S c) (if b then S f else f) fs) as (H1 & H2 & H3).
    { intros i Hi. subst s1. destruct a; simpl in *; apply Hfree; lia. }
    { by injection Hlen. }
    assert (En : fl_next (hs_flight s1) = S (fl_next (hs_flight s))) by (subst s1; by destruct a).
    rewrite En in *. rewrite E2 in H1, H2, H3. cbn [fst] in *.
    assert (Ed : a = BRestart -> hs_data s1 = hs_data s) by (subst s1; by intros ->).
    split; [|split].
    + rewrite H1. destruct a; [by apply Ed|]. rewrite last_cons. by destruct (last rest).
    + rewrite H2. unfold count_if. destruct b; simpl; repeat f_equal; lia.
    + simpl. rewrite Nat.add_succ_r. rewrite Nat.add_succ_l in H3. rewrite H3.
      unfold count_if. destruct b; simpl; repeat f_equal; lia.
Qed.
End Bulk.

(** The row [h'] shows [h] with its baseline version, or unchanged. *)
Definition shows_baseline (h h' : EnhancedHost) : Prop :=
  host_agentVersion (eh_host h') = host_latestVersion (eh_host h) /\
  host_latestVersion (eh_host h') = host_latestVersion (eh_host h) /\
  eh_id h' = eh_id h /\ eh_hostname h' = eh_hostname h.

Lemma update_one_rows id data :
  Forall2 (fun h h' => (eh_id h = id -> shows_baseline h h') /\ (eh_id h <> id -> h' = h))
    data (update_one id data).
Proof.
  unfold update_one. apply Forall2_fmap_r, Forall_Forall2_diag, Forall_forall. intros h _. unfold compose.
  destruct (decide (eh_id h = id)) as [E|E].
  - rewrite bool_decide_eq_true_2 by done. by repeat split.
  - rewrite bool_decide_eq_false_2 by done. by split.
Qed.

(** C32: a bulk update keeps the list its closure captured, so when the loop
    ends, with no other event in between, the table shows only the last
    selected host with its baseline as its version, every other host as
    before, selected ones too, and the last one as updated even when its
    update was counted as failed; the counters add up to the selection, and
    the closing timer is armed. *)
Theorem bulk_update_last_only local ssh_host s data pre id fs :
  hs_data s = Some data -> ts_selectedIds (hs_table s) = pre ++ [id] ->
  length fs = length (pre ++ [id]) -> fl_ok (hs_flight s) ->
  let n := fl_next (hs_flight s) in
  let s' := fst (exec (hs_handle local ssh_host) (bulk_ticks n fs) (handleBulkAction BUpdate s)) in
  (exists data', hs_data s' = Some data' /\
     Forall2 (fun h h' => (eh_id h = id -> shows_baseline h h') /\ (eh_id h <> id -> h' = h)) data data') /\
  ts_bulkProgress (hs_table s') =
    Some (BulkProgress (length fs) (count_if false fs) (count_if true fs)) /\
  count_if false fs + count_if true fs = length fs /\
  fl_map (hs_flight s') !! (n + length fs) = Some (HKBulkEnd BUpdate (count_if false fs)).
Proof.
  intros Hd Hids Hlen Hok. unfold handleBulkAction. rewrite Hids, <-Hlen, Hd.
  assert (Hfree : forall i, fl_next (hs_flight s) <= i -> fl_map (hs_flight s) !! i = None).
  { intros i Hi. destruct (fl_map (hs_flight s) !! i) eqn:E; [apply Hok in E; lia|done]. }
  assert (Hcount : count_if false fs + count_if true fs = length fs).
  { clear. unfold count_if. induction fs as [|[] fs IH]; simpl; lia. }
  destruct (pre ++ [id]) as [|i0 rest] eqn:E; [by destruct pre|]. cbn [bulk_next].
  set (s0 := hs_set_table _ s).
  destruct (bulk_loop local ssh_host BUpdate data (length fs) rest s0 i0 0 0 fs) as (H1 & H2 & H3);
    [done|done|].
  assert (El : default i0 (last rest) = id).
  { assert (last (i0 :: rest) = Some id) as Hl by (by rewrite <-E, last_snoc).
    rewrite last_cons in Hl. destruct (last rest); simpl; by simplify_eq. }
  rewrite El in H1. split_and!; [|done..]. exists (update_one id data). split; [done|apply update_one_rows].
Qed.

(** ** Requests *)
Definition is_token (k : hs_kont) : bool := match k with HKToken _ _ _ _ => true | _ => false end.
Definition is_bulk (k : hs_kont) : bool :=
  match k with HKBulk _ _ _ _ _ _ _ | HKBulkEnd _ _ => true | _ => false end.

(** What a bulk continuation still has to count. *)
Definition bulk_accounts (p : option bulk_progress) (k : hs_kont) : Prop :=
  match k with
  | HKBulk _ _ total _ rest c f =>
      p = Some (BulkProgress total c f) /\ c + f + S (length rest) = total
  | HKBulkEnd _ c => exists total f, p = Some (BulkProgress total c f) /\ c + f = total
  | _ => True
  end.

Record hs_inv (s : hs_state) : Prop := HsInv {
  hi_ok : fl_ok (hs_flight s);
  hi_token : fl_single is_token (hs_flight s);
  hi_generating : es_isGenerating (hs_enroll s) = false -> ~ fl_with is_token (hs_flight s);
  hi_bulk : fl_single is_bulk (hs_flight s);
  hi_progress : ts_bulkProgress (hs_table s) <> None <-> fl_with is_bulk (hs_flight s);
  hi_accounts : forall i k, fl_map (hs_flight s) !! i = Some k ->
    bulk_accounts (ts_bulkProgress (hs_table s)) k;
  hi_expires : es_expiresIn (hs_enroll s) ∈ [900; 3600; 86400]%Z;
  hi_uses : es_maxUse (hs_enroll s) ∈ [1; 5; 100]%Z }.

Definition neutral (k : hs_kont) : Prop := is_token k = false /\ is_bulk k = false.

Lemma neutral_accounts p k : neutral k -> bulk_accounts p k.
Proof. by destruct k; intros []. Qed.

(** The part of the state the invariant speaks of. *)
Definition hs_sig (s : hs_state) :=
  (hs_flight s, es_isGenerating (hs_enroll s), ts_bulkProgress (hs_table s),
   es_expiresIn (hs_enroll s), es_maxUse (hs_enroll s)).

Lemma hs_inv_sig s s' : hs_sig s' = hs_sig s -> hs_inv s -> hs_inv s'.
Proof.
  unfold hs_sig. intros E [? ? ? ? ? ? ? ?]. injection E as E1 E2 E3 E4 E5.
  split; rewrite ?E1, ?E2, ?E3, ?E4, ?E5; done.
Qed.

Lemma hs_inv_await k s : neutral k -> hs_inv s -> hs_inv (hs_await k s).
Proof.
  intros Hk [Hok Ht Hg Hb Hp Ha ? ?]. pose proof Hk as [Hk1 Hk2]. split; simpl; try done.
  - auto with soc.
  - apply fl_single_await; [congruence|done].
  - intros H. rewrite fl_with_await by done. auto.
  - apply fl_single_await; [congruence|done].
  - by rewrite fl_with_await by done.
  - intros i k' [[_ <-]|[_ H]]%fl_await_lookup; [by apply neutral_accounts|by eapply Ha].
Qed.

Lemma hs_inv_execute s : hs_inv s -> hs_inv (fst (hs_execute s)).
Proof. intros H. apply hs_inv_await; [done|]. by apply (hs_inv_sig s). Qed.

Lemma hs_inv_forget i k s :
  fl_map (hs_flight s) !! i = Some k -> neutral k -> hs_inv s -> hs_inv (hs_forget i s).
Proof.
  intros Hi [Hk1 Hk2] [Hok Ht Hg Hb Hp Ha ? ?]. split; simpl; try done; auto with soc.
  - intros H Hw%fl_with_forget. by apply Hg.
  - by rewrite fl_with_forget_other by done.
  - intros j k' [_ H]%fl_forget_lookup. by eapply Ha.
Qed.

Lemma hs_inv_init : hs_inv hs_init.
Proof.
  assert (E : forall i k, fl_map (fl_empty (K:=hs_kont)) !! i <> Some k) by done.
  split; simpl; auto with soc.
  - intros i j k k' H. by apply E in H.
  - intros _ (i & k & H & _). by apply E in H.
  - intros i j k k' H. by apply E in H.
  - split; [done|]. intros (i & k & H & _). by apply E in H.
  - intros i k H. by apply E in H.
  - left.
  - left.
Qed.

Lemma hs_inv_generate s :
  es_isGenerating (hs_enroll s) = false -> hs_inv s ->
  hs_inv (fst (handleGenerateEnrollmentToken s)).
Proof.
  intros Hn [Hok Ht Hg Hb Hp Ha ? ?]. unfold handleGenerateEnrollmentToken.
  destruct (String.eqb _ _); [done|]. split; simpl; try done.
  - auto with soc.
  - apply fl_single_await; auto.
  - by apply fl_single_await.
  - by rewrite fl_with_await by done.
  - intros i k' [[_ <-]|[_ H]]%fl_await_lookup; [done|by eapply Ha].
Qed.

Lemma hs_inv_token i t x m ty now r s :
  fl_map (hs_flight s) !! i = Some (HKToken t x m ty) -> hs_inv s ->
  hs_inv (generate_done t x m ty now r (hs_forget i s)).
Proof.
  intros Hi [Hok Ht Hg Hb Hp Ha ? ?].
  assert (hs_inv (hs_set_enroll (set_generating false (hs_enroll s)) (hs_forget i s))) as Hinv.
  { split; simpl; try done; auto with soc.
    - intros _. by eapply fl_single_settle.
    - by rewrite fl_with_forget_other by done.
    - intros j k' [_ H]%fl_forget_lookup. by eapply Ha. }
  eapply hs_inv_sig; [|exact Hinv]. by destruct r.
Qed.

(** The bulk action owns its progress: starting and continuing one. *)
Lemma hs_inv_bulk_await a p k s :
  is_bulk k = true -> bulk_accounts (Some p) k -> ~ fl_with is_bulk (hs_flight s) ->
  fl_ok (hs_flight s) -> fl_single is_token (hs_flight s) ->
  (es_isGenerating (hs_enroll s) = false -> ~ fl_with is_token (hs_flight s)) ->
  es_expiresIn (hs_enroll s) ∈ [900; 3600; 86400]%Z -> es_maxUse (hs_enroll s) ∈ [1; 5; 100]%Z ->
  hs_inv (hs_await k (hs_set_table (set_bulk a (Some p) (hs_table s)) s)).
Proof.
  intros Hk Hacc Hno Hok Ht Hg Hx Hm.
  assert (is_token k = false) as Hkt by (by destruct k).
  split; simpl; try done.
  - auto with soc.
  - apply fl_single_await; [congruence|done].
  - intros H. rewrite fl_with_await by done. auto.
  - apply fl_single_await; [done|]. intros i j k1 k2 H1 _ H2. destruct Hno. by exists i, k1.
  - split; [|done]. intros _. by apply fl_with_await_self.
  - intros i k' [[_ <-]|[_ H]]%fl_await_lookup; [done|].
    destruct (is_bulk k') eqn:E; [destruct Hno; by exists i, k'|]. by destruct k'.
Qed.

Lemma hs_inv_bulk_start a s :
  ts_bulkProgress (hs_table s) = None -> hs_inv s -> hs_inv (handleBulkAction a s).
Proof.
  intros Hn [Hok Ht Hg Hb Hp Ha Hx Hm]. unfold handleBulkAction, bulk_next.
  assert (~ fl_with is_bulk (hs_flight s)) by (rewrite <-Hp, Hn; auto).
  destruct (ts_selectedIds (hs_table s)) as [|id rest]; apply hs_inv_bulk_await; try done.
  simpl. eauto.
Qed.

Lemma hs_inv_bulk_tick i a d total id rest c f fails s :
  fl_map (hs_flight s) !! i = Some (HKBulk a d total id rest c f) -> hs_inv s ->
  hs_inv (bulk_tick a d total id rest c f fails (hs_forget i s)).
Proof.
  intros Hi [Hok Ht Hg Hb Hp Ha Hx Hm]. destruct (Ha _ _ Hi) as [_ Hacc].
  assert (~ fl_with is_bulk (fl_forget i (hs_flight s))) by (by eapply fl_single_settle).
  unfold bulk_tick. set (s1 := match a with BUpdate => _ | BRestart => _ end).
  assert (E : hs_sig s1 = hs_sig (hs_forget i s)) by (subst s1; by destruct a, d).
  unfold hs_sig in E. injection E as E1 E2 E3 E4 E5. unfold bulk_next.
  assert (Hg' : es_isGenerating (hs_enroll s1) = false -> ~ fl_with is_token (hs_flight s1)).
  { rewrite E1, E2. intros H' Hw%fl_with_forget. by apply Hg. }
  destruct rest as [|id' rest]; apply hs_inv_bulk_await; rewrite ?E1, ?E2, ?E4, ?E5;
    auto with soc; try (by rewrite <-E1, <-E2); simpl in *.
  - eexists _, _. split; [done|]. destruct fails; lia.
  - split; [done|]. destruct fails; lia.
Qed.

Lemma hs_inv_bulk_end i a c s :
  fl_map (hs_flight s) !! i = Some (HKBulkEnd a c) -> hs_inv s ->
  hs_inv (bulk_end a c (hs_forget i s)).
Proof.
  intros Hi [Hok Ht Hg Hb Hp Ha Hx Hm].
  assert (Hno : ~ fl_with is_bulk (fl_forget i (hs_flight s))) by (by eapply fl_single_settle).
  split; simpl; try done; auto with soc.
  - intros H Hw%fl_with_forget. by apply Hg.
  - intros j k H. destruct (is_bulk k) eqn:E; [destruct Hno; by exists j, k|]. by destruct k.
Qed.

Lemma js_Number_choices v :
  (v ∈ expiry_choices -> js_Number v ∈ [900; 3600; 86400]%Z) /\
  (v ∈ use_choices -> js_Number v ∈ [1; 5; 100]%Z).
Proof.
  split; unfold expiry_choices, use_choices; rewrite !elem_of_cons, elem_of_nil;
    intros [->|[->|[->|[]]]]; apply (bool_decide_eq_true_1 _); reflexivity.
Qed.

Section Run.
Context (local : Z -> Z) (ssh_host hub_url : string) (locale_time : string -> string).
Notation handle := (hs_handle local ssh_host).
Notation enabled := (hs_enabled hub_url locale_time).

(** A user event or stream message is possible only under its guard. *)
Lemma enabled_guard s e :
  enabled s e ->
  match e with
  | HsLoaded _ _ | HsToken _ _ _ | HsRotated _ _ | HsTasked _ _ | HsBulkTick _ _ | HsBulkDone _ => True
  | _ => hs_guard s e
  end.
Proof. destruct e; try done; apply hs_offers_guard. Qed.

Lemma hs_settled_inv k e kont s :
  fl_map (hs_flight s) !! k = Some kont -> hs_inv s ->
  match e with
  | HsToken _ _ _ => is_token kont
  | HsBulkTick _ _ => match kont with HKBulk _ _ _ _ _ _ _ => true | _ => false end
  | HsBulkDone _ => match kont with HKBulkEnd _ _ => true | _ => false end
  | _ => negb (is_token kont || is_bulk kont)
  end = true ->
  hs_inv (fst (hs_settled local k e kont s)).
Proof.
  intros Hk Hinv Hkind.
  assert (Hn : neutral kont -> hs_inv (hs_forget k s)) by (intros; by eapply hs_inv_forget).
  destruct kont; destruct e; simpl in Hkind; try discriminate; cbn [hs_settled fst];
    try (by apply Hn); try (by apply (hs_inv_sig (hs_forget k s)); [reflexivity|apply Hn]).
  - destruct r; (apply (hs_inv_sig (hs_forget k s)); [reflexivity|by apply Hn]).
  - by apply hs_inv_token.
  - destruct r; cbn [rotate_done fst].
    + apply hs_inv_execute. apply (hs_inv_sig (hs_forget k s)); [reflexivity|by apply Hn].
    + apply (hs_inv_sig (hs_forget k s)); [reflexivity|by apply Hn].
  - destruct r; (apply (hs_inv_sig (hs_forget k s)); [reflexivity|by apply Hn]).
  - by apply hs_inv_bulk_tick.
  - by apply hs_inv_bulk_end.
Qed.

Lemma hs_handle_inv s e : hs_inv s -> enabled s e -> hs_inv (fst (handle e s)).
Proof.
  intros Hinv Hen. pose proof (enabled_guard s e Hen) as Hg.
  destruct e; cbn [hs_handle fst];
    try (by apply (hs_inv_sig s));
    try (destruct Hen as (kont & Hk & Hkind); rewrite Hk; apply hs_settled_inv; [done|done|];
         by destruct kont).
  - by apply hs_inv_execute.
  - unfold on_ws. destruct (_ || _); [|done]. apply (hs_inv_sig (fst (hs_execute s))); [reflexivity|].
    by apply hs_inv_execute.
  - by apply hs_inv_generate.
  - unfold handleRotateCredential. destruct (hs_rotate s); [|done].
    apply hs_inv_await; [done|]. by apply (hs_inv_sig s).
  - destruct (String.eqb _ _); [done|]. by apply hs_inv_await.
  - by apply hs_inv_bulk_start.
  - destruct Hinv. split; try done. by apply js_Number_choices.
  - destruct Hinv. split; try done. by apply js_Number_choices.
Qed.

Lemma hs_run_inv es qs s : run enabled handle hs_init es qs s -> hs_inv s.
Proof. apply run_invariant; [apply hs_inv_init|]. intros; by apply hs_handle_inv. Qed.

(** The tab of the launch scripts is one of the six. *)
Notation tab_of s := (es_commandTab (hs_enroll s)).

Lemma settled_tab k e kont s : tab_of (fst (hs_settled local k e kont s)) = tab_of s.
Proof.
  destruct kont, e; cbn [hs_settled fst]; try reflexivity;
    try (destruct r; reflexivity).
  destruct a, data, rest; reflexivity.
Qed.

Lemma handle_tab s e :
  tab_of (fst (handle e s)) = match e with HsCommandTab v => v | _ => tab_of s end.
Proof.
  destruct e; cbn [hs_handle fst]; try reflexivity;
    try (destruct (fl_map (hs_flight s) !! k); [apply settled_tab|reflexivity]).
  - unfold on_ws. by destruct (_ || _).
  - unfold handleGenerateEnrollmentToken. by destruct (String.eqb _ _).
  - unfold handleRotateCredential. by destruct (hs_rotate s).
  - by destruct (String.eqb _ _).
  - unfold handleBulkAction. by destruct (ts_selectedIds (hs_table s)).
Qed.

Lemma tab_offered es qs s : run enabled handle hs_init es qs s -> tab_of s ∈ command_tabs.*1.
Proof.
  apply (run_invariant _ _ (fun s => tab_of s ∈ command_tabs.*1)); [cbn; set_solver|].
  intros s' e Hs Hen. rewrite handle_tab.
  destruct e; try done. by apply enabled_guard in Hen.
Qed.

Lemma launch_script_some token tab :
  tab ∈ command_tabs.*1 -> is_Some (launch_script hub_url token tab).
Proof. intros H. unfold command_tabs in H. cbn [fmap list_fmap fst] in H. elem_inv H; eexists; reflexivity. Qed.

(** C15: whenever the dialog holds a token, in every execution, it shows the
    script of the chosen language, recognised by its opening line, and
    whoever runs that script enrols with exactly this token: the JSON body
    of the shell and of the Java script parses to an object with the token,
    the literal of the other four reads back to it.  The token and the name
    of the host consist of letters, digits, hyphens and underscores, and the
    address of the hub has no line break.  The script, with the token in it,
    is on the screen whether or not the token is hidden in its field. *)
Theorem launch_script_enrols es qs s d host :
  run enabled handle hs_init es qs s ->
  es_isOpen (hs_enroll s) = true -> es_details (hs_enroll s) = Some d ->
  avoids newline hub_url = true -> url_safe (td_token d) = true -> url_safe host = true ->
  exists script,
    Exists (fun h => script ∈ texts h) (hs_enroll_view hub_url s) /\
    (exists line, (tab_of s, line) ∈ opening_lines /\ head (split_on newline script) = Some line) /\
    enrols_with host (tab_of s) script = Some (td_token d) /\
    includes (td_token d) script = true.
Proof.
  intros Hrun Ho Hd Hhub Ht Hh. destruct (launch_script_some (td_token d) (tab_of s)) as [script E].
  { by eapply tab_offered. }
  exists script. split_and!.
  - unfold hs_enroll_view. rewrite Ho, Hd. cbn [when]. apply Exists_cons. left.
    apply texts_El. do 3 apply Exists_cons_tl. apply Exists_cons_hd.
    unfold enroll_token. rewrite E. apply texts_El. rewrite !Exists_app. right. right. left.
    cbn [when_some]. apply Exists_cons_hd, texts_El, Exists_cons_hd. cbn. set_solver.
  - by eapply launch_opening.
  - by eapply launch_token.
  - by eapply launch_includes.
Qed.

(** C31: the progress bar is shown exactly while a bulk action is running; at
    most one runs at a time, and its counters always account for the whole
    selection: done, failed, current and remaining hosts while it iterates,
    done and failed when it waits for the closing timer. *)
Theorem bulk_single_run es qs s :
  run enabled handle hs_init es qs s ->
  fl_single is_bulk (hs_flight s) /\
  (ts_bulkProgress (hs_table s) <> None <-> fl_with is_bulk (hs_flight s)) /\
  (forall i a d total id rest c f,
     fl_map (hs_flight s) !! i = Some (HKBulk a d total id rest c f) ->
     ts_bulkProgress (hs_table s) = Some (BulkProgress total c f) /\
     c + f + S (length rest) = total) /\
  (forall i a c, fl_map (hs_flight s) !! i = Some (HKBulkEnd a c) ->
     exists f, ts_bulkProgress (hs_table s) = Some (BulkProgress (c + f) c f)).
Proof.
  intros [Hok Ht Hg Hb Hp Ha Hx Hm]%hs_run_inv. split; [done|]. split; [done|]. split.
  - intros. by apply (Ha i (HKBulk a d total id rest c f)).
  - intros i a c H%Ha. destruct H as (total & f & H & <-). eauto.
Qed.

Lemma settled_posts k e kont s q :
  q ∈ snd (hs_settled local k e kont s) -> q = GetHosts.
Proof.
  destruct kont, e; cbn [hs_settled snd]; try no_effect.
  - destruct r; no_effect.
  - destruct r; cbn; [|no_effect]. by intros ->%list_elem_of_singleton.
Qed.

(** C33: an enrolment token is requested only by the form, for a non-empty
    trimmed tenant, with one of the offered lifetimes (15 minutes, an hour, a
    day) and use counts (1, 5, 100), and never while another token request
    is pending. *)
Theorem enrolment_token_request es qs s e tenant x m :
  run enabled handle hs_init es qs s ->
  enabled s e ->
  PostToken tenant x m ∈ snd (handle e s) ->
  e = HsGenerate /\ tenant = trim (es_tenantId (hs_enroll s)) /\ tenant <> EmptyString /\
  x ∈ [900; 3600; 86400]%Z /\ m ∈ [1; 5; 100]%Z /\ ~ fl_with is_token (hs_flight s).
Proof.
  intros Hinv%hs_run_inv Hen Hq. pose proof (enabled_guard s e Hen) as Hgd.
  destruct Hinv as [Hok Ht Hg Hb Hp Ha Hx Hm].
  destruct e; cbn [hs_handle snd] in Hq; try (by elem_inv Hq);
    try (destruct (fl_map (hs_flight s) !! k); [by apply settled_posts in Hq|by elem_inv Hq]).
  - unfold on_ws in Hq. destruct (_ || _); by elem_inv Hq.
  - unfold handleGenerateEnrollmentToken in Hq.
    destruct (String.eqb_spec (trim (es_tenantId (hs_enroll s))) EmptyString); [by elem_inv Hq|].
    apply list_elem_of_singleton in Hq. simplify_eq.
    split_and!; try done. by apply Hg.
  - unfold handleRotateCredential in Hq. destruct (hs_rotate s); by elem_inv Hq.
  - destruct (String.eqb _ _); by elem_inv Hq.
Qed.

(** A credential is rotated only by confirming the dialog opened for that
    very host, and the confirmation closes the dialog in the same step, so
    one opening sends one request. *)
Lemma rotation_confirmed es qs s e id :
  run enabled handle hs_init es qs s ->
  enabled s e ->
  PostRotate id ∈ snd (handle e s) ->
  e = HsRotateConfirm /\ (exists h, hs_rotate s = Some h /\ eh_id h = id) /\
  hs_rotate (fst (handle e s)) = None /\
  ~ enabled (fst (handle e s)) HsRotateConfirm.
Proof.
  intros _ Hen Hq.
  destruct e; cbn [hs_handle snd] in Hq; try (by elem_inv Hq);
    try (destruct (fl_map (hs_flight s) !! k); [by apply settled_posts in Hq|by elem_inv Hq]).
  - unfold on_ws in Hq. destruct (_ || _); by elem_inv Hq.
  - unfold handleGenerateEnrollmentToken in Hq. destruct (String.eqb _ _); by elem_inv Hq.
  - cbn [hs_handle]. unfold handleRotateCredential in *. destruct (hs_rotate s) as [h|]; [|by elem_inv Hq].
    apply list_elem_of_singleton in Hq. simplify_eq. split; [done|]. split; [eauto|].
    split; [done|]. intros H%hs_offers_guard. by apply H.
  - destruct (String.eqb _ _); by elem_inv Hq.
Qed.
End Run.

(** The token shown after a successful request belongs to the parameters
    that were submitted, whatever was typed into the form meanwhile, and the
    form can be submitted again. *)
Lemma token_details_of_request local ssh_host s k t x m ty now token :
  fl_map (hs_flight s) !! k = Some (HKToken t x m ty) ->
  let s' := fst (hs_handle local ssh_host (HsToken k now (HttpOk token)) s) in
  es_details (hs_enroll s') = Some (TokenDetails token (trim t) x m ty now) /\
  es_isGenerating (hs_enroll s') = false /\
  es_tenantId (hs_enroll s') = es_tenantId (hs_enroll s) /\
  fl_map (hs_flight s') !! k = None.
Proof.
  intros Hk. cbn [hs_handle]. rewrite Hk. cbn. by rewrite lookup_delete_eq.
Qed.

(** ** Figures *)
Lemma filter_le {A} (p : A -> bool) l : length (List.filter p l) <= length l.
Proof. induction l as [|x l IH]; simpl; [lia|]. destruct (p x); simpl; lia. Qed.

(** For a fleet of fewer than 100 hosts the compliance figure is the
    percentage of compliant hosts rounded half up, computed in doubles: at
    the single ratio 23/40 it is one too low; it lies between 0 and 100, and
    shows 100 exactly when no host is out of baseline. *)
Lemma compliance_rate_spec s data :
  hs_data s = Some data -> data <> [] -> length data < 100 ->
  let n := Z.of_nat (length data) in
  let ok := (n - Z.of_nat (outOfComplianceCount s))%Z in
  complianceRate s =
    ((2 * (100 * ok) + n) / (2 * n) - (if (40 * ok =? 23 * n)%Z then 1 else 0))%Z /\
  (0 <= complianceRate s <= 100)%Z /\
  (complianceRate s = 100%Z <-> outOfComplianceCount s = 0).
Proof.
  intros Hd Hne Hlen n ok.
  assert (Hle : outOfComplianceCount s <= length data).
  { unfold outOfComplianceCount, count_hosts. rewrite Hd. apply filter_le. }
  assert (Hpos : 0 < length data) by (destruct data; simpl; [done|lia]).
  assert (E : complianceRate s = percent_spec ok n).
  { unfold complianceRate. rewrite Hd. destruct data as [|h hs]; [done|].
    replace (Z.of_nat (length (h :: hs)) - Z.of_nat (outOfComplianceCount s))%Z
      with (Z.of_nat (length (h :: hs) - outOfComplianceCount s)) by lia.
    rewrite round_percent_spec by lia. unfold ok, n. by rewrite Nat2Z.inj_sub by lia. }
  rewrite E. split; [done|]. split; [apply percent_spec_bounds; lia|].
  rewrite percent_spec_full by lia. lia.
Qed.

(** The number on every filter tab is the number of rows that choosing
    that tab shows when the search box is blank. *)
Lemma tab_counts s v id label n color :
  trim (to_lower v) = EmptyString ->
  (id, label, n, color) ∈ hs_tabs s ->
  length (filter_hosts id v (nullish (hs_data s) [])) = n.
Proof.
  intros Hv Hin. unfold filter_hosts.
  assert (E : forall l, List.filter (fun h => matchesFilter id h && matchesSearch v h) l =
                        List.filter (matchesFilter id) l).
  { intros l. apply List.filter_ext. intros h. unfold matchesSearch. rewrite Hv. simpl.
    by rewrite andb_true_r. }
  rewrite E. unfold hs_tabs, tier1Count, outOfComplianceCount, count_hosts in Hin. elem_inv Hin.
  all: try reflexivity. f_equal. induction (nullish _ _) as [|h l IH]; simpl; congruence.
Qed.

(** When every check-in date parses, the hosts are shown with the latest
    check-in first, none lost or duplicated, and hosts with the same instant
    keep the order of the backend. *)
Lemma hosts_latest_first local hs :
  Forall (fun h => is_Some (date_parse local (host_lastCheckIn (rh_host h)))) hs ->
  let l := fetch_hosts local hs in
  l ≡ₚ (enhance_host <$> hs) /\
  StronglySorted (key_ge (date_key local last_check_in)) l /\
  forall t, filter (fun h => date_key local last_check_in h = t) l =
            filter (fun h => date_key local last_check_in h = t) (enhance_host <$> hs).
Proof.
  intros H. unfold fetch_hosts. split; [apply js_sort_perm|].
  rewrite by_date_desc_key by (by apply Forall_fmap).
  split; [apply js_sort_desc_sorted|]. intros t. apply js_sort_desc_stable.
Qed.

(** ** Concrete executions *)
Definition demo_host (id version : string) : RawHost :=
  MkRawHost {| host_id := id; host_hostname := "srv-" +:+ id; host_os := "linux";
               host_agentVersion := version; host_latestVersion := "2.0";
               host_health := Healthy; host_lastCheckIn := "2024-01-02T03:04:05Z" |}
    None None (Some 0%Z) None None None None.

Definition demo_hosts : list RawHost := [demo_host "a" "1.0"; demo_host "b" "1.0"; demo_host "c" "2.0"].
Definition demo_fleet : list EnhancedHost := fetch_hosts id demo_hosts.
Definition demo_hs (events : list hs_event) : hs_state * list hs_effect :=
  exec (hs_handle id "hub") events hs_init.
Definition demo_hs_run (events : list hs_event) : Prop :=
  run (hs_enabled "http://hub" id) (hs_handle id "hub") hs_init events
    (snd (demo_hs events)) (fst (demo_hs events)).

Definition demo_load_hosts : list hs_event := [HsExecute; HsLoaded 0 (HttpOk demo_hosts)].

Lemma page_enabled events e :
  as_loading (hs_async (fst (demo_hs events))) = false ->
  as_error (hs_async (fst (demo_hs events))) = None ->
  offers_any (hs_page "http://hub" id (fst (demo_hs events))) e ->
  offers_any (hs_view "http://hub" id (fst (demo_hs events))) e.
Proof. intros Hl He H. unfold hs_view. by rewrite Hl, He. Qed.

Lemma demo_snoc events e :
  demo_hs_run events -> hs_enabled "http://hub" id (fst (demo_hs events)) e ->
  run (hs_enabled "http://hub" id) (hs_handle id "hub") hs_init (events ++ [e])
    (snd (demo_hs events) ++ snd (hs_handle id "hub" e (fst (demo_hs events))))
    (fst (hs_handle id "hub" e (fst (demo_hs events)))).
Proof. intros H He. eapply run_snoc; [exact H|exact He|]. by destruct (hs_handle _ _ _ _). Qed.

Lemma demo_load_run : demo_hs_run demo_load_hosts.
Proof.
  apply exec_run. split; [done|]. split; [|done]. exists HKLoad. split; [|done].
  by vm_compute.
Qed.

Lemma demo_enroll_run : demo_hs_run (demo_load_hosts ++ [HsEnrollOpen]).
Proof.
  apply (demo_snoc demo_load_hosts HsEnrollOpen demo_load_run).
  apply page_enabled; [reflexivity..|]. unfold hs_page. rewrite !offers_any_app.
  right. left. unfold hs_header. offers_find.
Qed.

Lemma enroll_offers_generate hub s :
  es_isOpen (hs_enroll s) = true -> es_details (hs_enroll s) = None ->
  es_isGenerating (hs_enroll s) = false -> offers_any (hs_enroll_view hub s) HsGenerate.
Proof.
  intros Ho Hd Hg. unfold hs_enroll_view. rewrite Ho, Hd. cbn [when].
  rewrite offers_any_cons, offers_El, !offers_any_cons. left. do 3 right. left.
  unfold enroll_form. rewrite offers_El, !offers_any_app. do 4 right.
  rewrite !offers_any_cons. do 5 right. left. rewrite Hg. apply offers_click.
Qed.

Lemma rotate_offers_confirm s h :
  hs_rotate s = Some h -> offers_any (hs_rotate_view s) HsRotateConfirm.
Proof. intros Hr. unfold hs_rotate_view. rewrite Hr. offers_find. Qed.

Lemma demo_rotate_run :
  demo_hs_run (demo_load_hosts ++ [HsRotateAsk (Some (enhance_host (demo_host "a" "1.0")))]).
Proof.
  apply (demo_snoc demo_load_hosts
    (HsRotateAsk (Some (enhance_host (demo_host "a" "1.0")))) demo_load_run).
  apply page_enabled; [reflexivity..|]. unfold hs_page. rewrite !offers_any_app.
  do 3 right. left. unfold hs_table_view. rewrite offers_any_cons, offers_El. left.
  rewrite !offers_any_cons, (offers_El "tbody"). right. left.
  change (filteredData (fst (demo_hs demo_load_hosts))) with (enhance_host <$> demo_hosts).
  cbn [fmap list_fmap demo_hosts]. rewrite offers_any_cons. left. unfold host_row, host_action_cell.
  offers_find.
Qed.

(** Hosts [a] and [b] run version 1.0 of an agent whose baseline is 2.0; both
    are selected, and only [b] is shown as updated. *)
Lemma bulk_update_last_only_witness :
  let s := fst (demo_hs (demo_load_hosts ++ [HsSelect "a"; HsSelect "b"])) in
  let s' := fst (exec (hs_handle id "hub") (bulk_ticks 1 [false; true]) (handleBulkAction BUpdate s)) in
  exists d, hs_data s' = Some d /\
    (fun h => (eh_id h, host_agentVersion (eh_host h))) <$> d = [("a", "1.0"); ("b", "2.0"); ("c", "2.0")].
Proof.
  intros s s'.
  assert (Hd : hs_data s = Some demo_fleet) by reflexivity.
  destruct (bulk_update_last_only id "hub" s demo_fleet ["a"] "b" [false; true] Hd) as ((d & E & H) & _);
    [reflexivity|reflexivity|apply fl_ok_forget, fl_ok_await, fl_ok_empty|].
  exists d. split; [exact E|]. assert (Ef : demo_fleet = enhance_host <$> demo_hosts) by (vm_compute; reflexivity).
  rewrite Ef in H. inversion H as [|ha a la da [_ Ha] H1]; subst. inversion H1 as [|hb b lb db [Hb _] H2]; subst.
  inversion H2 as [|hc c lc dc [_ Hc] H3]; subst. inversion H3; subst.
  rewrite (Ha ltac:(discriminate)), (Hc ltac:(discriminate)). cbn [fmap list_fmap].
  destruct (Hb eq_refl) as (-> & _ & -> & _). reflexivity.
Defined.

Definition demo_bulk : list hs_event := (demo_load_hosts ++ [HsSelect "a"]) ++ [HsBulk BUpdate].

Lemma demo_select_run : demo_hs_run (demo_load_hosts ++ [HsSelect "a"]).
Proof.
  apply (demo_snoc demo_load_hosts (HsSelect "a") demo_load_run).
  apply page_enabled; [reflexivity..|]. unfold hs_page. rewrite !offers_any_app. do 3 right. left.
  rewrite offers_any_cons. left. unfold hs_table_view. rewrite offers_El, !offers_any_cons. right. left.
  match goal with |- context [filteredData ?s] =>
    assert (E : filteredData s = enhance_host <$> demo_hosts) by (vm_compute; reflexivity) end.
  rewrite offers_El, E. cbn [demo_hosts fmap list_fmap]. rewrite offers_any_cons. left. unfold host_row.
  rewrite offers_El, offers_any_cons, offers_El, offers_any_cons. do 2 left. apply offers_click.
Qed.

Lemma bulk_offers s :
  ts_bulkProgress (hs_table s) = None -> (0 <? length (ts_selectedIds (hs_table s))) = true ->
  offers_any (hs_bulk_bar s) (HsBulk BUpdate).
Proof. intros Hp Hn. unfold hs_bulk_bar. rewrite Hp, Hn. offers_find. Qed.

Lemma demo_bulk_run : demo_hs_run demo_bulk.
Proof.
  apply (demo_snoc _ (HsBulk BUpdate) demo_select_run).
  apply page_enabled; [reflexivity..|]. unfold hs_page. rewrite !offers_any_app. do 2 right. left.
  by apply bulk_offers.
Qed.

(** While one host is being updated the bar is shown and one host is left. *)
Lemma bulk_single_run_witness :
  ts_bulkProgress (hs_table (fst (demo_hs demo_bulk))) = Some (BulkProgress 1 0 0) /\
  fl_with is_bulk (hs_flight (fst (demo_hs demo_bulk))).
Proof.
  destruct (bulk_single_run id "hub" "http://hub" id demo_bulk _ _ demo_bulk_run) as (_ & H & Ha & _).
  assert (Hk : fl_map (hs_flight (fst (demo_hs demo_bulk))) !! 1 =
    Some (HKBulk BUpdate (Some demo_fleet) 1 "a" [] 0 0)) by (vm_compute; reflexivity).
  destruct (Ha _ _ _ _ _ _ _ _ Hk) as [Hp _]. split; [exact Hp|]. apply H. rewrite Hp. discriminate.
Defined.

Lemma enrolment_token_request_witness :
  ~ fl_with is_token (hs_flight (fst (demo_hs (demo_load_hosts ++ [HsEnrollOpen])))).
Proof.
  destruct (enrolment_token_request id "hub" "http://hub" id (demo_load_hosts ++ [HsEnrollOpen])
    _ _ HsGenerate "acme-corp" 900 1 demo_enroll_run) as (_ & _ & _ & _ & _ & H);
    [|vm_compute; left|exact H].
  apply page_enabled; [reflexivity..|]. unfold hs_page. rewrite !offers_any_app.
  do 4 right. left. by apply enroll_offers_generate.
Defined.

Definition demo_token : list hs_event :=
  demo_load_hosts ++ [HsEnrollOpen] ++ [HsGenerate] ++ [HsToken 1 "now" (HttpOk "tok-1")].

Lemma demo_token_run : demo_hs_run demo_token.
Proof.
  assert (H : demo_hs_run ((demo_load_hosts ++ [HsEnrollOpen]) ++ [HsGenerate])).
  { apply (demo_snoc _ HsGenerate demo_enroll_run). apply page_enabled; [reflexivity..|].
    unfold hs_page. rewrite !offers_any_app. do 4 right. left. by apply enroll_offers_generate. }
  apply (demo_snoc _ (HsToken 1 "now" (HttpOk "tok-1")) H).
  exists (HKToken "acme-corp" 900 1 "iaas"). split; reflexivity.
Qed.

Lemma launch_script_enrols_witness :
  es_showSecret (hs_enroll (fst (demo_hs demo_token))) = false /\
  exists script,
    Exists (fun h => script ∈ texts h) (hs_enroll_view "http://hub" (fst (demo_hs demo_token))) /\
    (exists line, ("curl", line) ∈ opening_lines /\ head (split_on newline script) = Some line) /\
    enrols_with "web-1" "curl" script = Some "tok-1" /\ includes "tok-1" script = true.
Proof.
  split; [vm_compute; reflexivity|].
  refine (launch_script_enrols id "hub" "http://hub" id _ _ _
    (TokenDetails "tok-1" "acme-corp" 900 1 "iaas" "now") "web-1" demo_token_run _ _ _ _ _);
    vm_compute; reflexivity.
Defined.

Lemma rotation_confirmed_witness :
  let s := fst (demo_hs (demo_load_hosts ++
                 [HsRotateAsk (Some (enhance_host (demo_host "a" "1.0")))])) in
  hs_rotate (fst (hs_handle id "hub" HsRotateConfirm s)) = None.
Proof.
  intros s.
  destruct (rotation_confirmed id "hub" "http://hub" id _ _ s HsRotateConfirm "a" demo_rotate_run)
    as (_ & _ & H & _); [|vm_compute; left|exact H].
  apply page_enabled; [reflexivity..|]. unfold hs_page. rewrite !offers_any_app.
  do 5 right. by eapply rotate_offers_confirm.
Defined.

Lemma token_details_of_request_witness :
  let s := fst (demo_hs (demo_load_hosts ++ [HsEnrollOpen; HsGenerate; HsTenant "globex-sec"])) in
  es_isGenerating (hs_enroll (fst (hs_handle id "hub" (HsToken 1 "now" (HttpOk "tok")) s))) = false.
Proof.
  intros s.
  refine (proj1 (proj2 (token_details_of_request id "hub" s 1 "acme-corp" 900 1 "iaas" "now" "tok" _))).
  reflexivity.
Defined.

Lemma compliance_rate_spec_witness :
  complianceRate (fst (demo_hs demo_load_hosts)) = 33%Z.
Proof.
  destruct (compliance_rate_spec (fst (demo_hs demo_load_hosts)) demo_fleet) as [H _];
    [reflexivity|discriminate|apply (bool_decide_eq_true_1 _); reflexivity|].
  rewrite H. reflexivity.
Defined.

Lemma tab_counts_witness :
  length (filter_hosts "iaas" " " (nullish (hs_data (fst (demo_hs demo_load_hosts))) [])) = 3.
Proof.
  apply (tab_counts (fst (demo_hs demo_load_hosts)) " " "iaas" "IaaS VM" 3 None); [reflexivity|].
  do 3 right. left.
Defined.

Lemma hosts_latest_first_witness : fetch_hosts id demo_hosts ≡ₚ (enhance_host <$> demo_hosts).
Proof.
  apply (hosts_latest_first id demo_hosts). repeat constructor; eexists; reflexivity.
Defined.
