(* ===== verification/Isolation.v ===== *)
(** * Isolation controls ([pages/endpoints/IsolationControlsPage.tsx])

    The page that cuts endpoints off the network and reconnects them.  Its
    dialog is its own: the analyst must type the exact host name.  The
    continuation of [performAction] carries the pending action its closure
    captured. *)
From S2P Require Import Prelude JsString Dates Html Types Http AsyncState SharedUi.

Record RawEndpointHost := MkRawEndpoint {
  re_host : EndpointHost;
  re_aiRecommended : option bool;
  re_isolationHistoryCount : option Z;
  re_services : option (list string);
  re_autoReleaseAt : option string }.

Record EnhancedEndpointHost := MkEndpoint {
  ie_host : EndpointHost;
  ie_aiRecommended : bool;
  ie_isolationHistoryCount : Z;
  ie_services : list string;
  ie_autoReleaseAt : option string }.

Definition ie_id (h : EnhancedEndpointHost) : string := ep_id (ie_host h).
Definition ie_hostname (h : EnhancedEndpointHost) : string := ep_hostname (ie_host h).

Definition enhance_endpoint (h : RawEndpointHost) : EnhancedEndpointHost :=
  MkEndpoint (re_host h) (or_bool (re_aiRecommended h) false)
    (or_num (re_isolationHistoryCount h) 0) (nullish (re_services h) ["System Daemon"])
    (re_autoReleaseAt h).

Inductive iso_type := IIsolate | IRelease.
#[export] Instance iso_type_eq_dec : EqDecision iso_type.
Proof. solve_decision. Defined.

Record iso_pending := IsoPending { ip_host : EnhancedEndpointHost; ip_type : iso_type }.

Inductive iso_kont := IKLoad | IKAction (p : iso_pending).

Record iso_state := IsoState {
  io_async : async (list EnhancedEndpointHost);
  io_pending : option iso_pending;
  io_twoKeyInput : string;
  io_autoReleaseHours : Z;
  io_checklist : option EnhancedEndpointHost;
  io_flight : flight iso_kont }.

Definition io_data (s : iso_state) := as_data (io_async s).
Definition iso_init : iso_state := IsoState async_init None EmptyString 0 None fl_empty.

Inductive iso_effect :=
| GetCandidates
| PostIsolate (id : string) (autoReleaseHours : Z)
| PostRelease (id : string)
| IsoAlertBox (msg : string).

Inductive iso_event :=
| IoExecute
| IoOpen (h : EnhancedEndpointHost) (t : iso_type)
| IoCancel
| IoInput (v : string)
| IoHours (v : string)
| IoPerform
| IoChecklistDone
| IoLoaded (k : nat) (r : http_result (list RawEndpointHost))
| IoActed (k : nat) (r : http_result unit).

Definition io_set_async a f s := IsoState a (io_pending s) (io_twoKeyInput s)
  (io_autoReleaseHours s) (io_checklist s) f.

Definition io_execute (s : iso_state) : iso_state * list iso_effect :=
  (io_set_async (async_start (io_async s)) (fl_await IKLoad (io_flight s)) s, [GetCandidates]).

(** [performAction] up to its [await]. *)
Definition performAction (s : iso_state) : iso_state * list iso_effect :=
  match io_pending s with
  | None => (s, [])
  | Some p =>
      (io_set_async (io_async s) (fl_await (IKAction p) (io_flight s)) s,
       [match ip_type p with
        | IIsolate => PostIsolate (ie_id (ip_host p)) (io_autoReleaseHours s)
        | IRelease => PostRelease (ie_id (ip_host p))
        end])
  end.

(** The rest: the outcome, then the [finally]. *)
Definition performAction_done (p : iso_pending) (r : http_result unit) (s : iso_state)
    : iso_state * list iso_effect :=
  let '(s, q) := match r with
    | HttpOk _ =>
        io_execute (match ip_type p with
                    | IIsolate => IsoState (io_async s) (io_pending s) (io_twoKeyInput s)
                        (io_autoReleaseHours s) (Some (ip_host p)) (io_flight s)
                    | IRelease => s
                    end)
    | HttpErr _ => (s, [IsoAlertBox "Action failed."])
    end in
  (IsoState (io_async s) None EmptyString 0 (io_checklist s) (io_flight s), q).

(** [getActionInfo]; the page computes it and shows nothing of it. *)
Definition getActionInfo (s : iso_state) : option ActionInfo :=
  (fun p => match ip_type p with
    | IIsolate =>
        {| action_action := "Isolate Host"; action_target := ie_hostname (ip_host p);
           action_justification := "Containment for investigation" +:+
             (if (0 <? io_autoReleaseHours s)%Z
              then " (Auto-release in " +:+ of_Z (io_autoReleaseHours s) +:+ "h)" else EmptyString);
           action_risk := DESTRUCTIVE |}
    | IRelease =>
        {| action_action := "Release Isolation"; action_target := ie_hostname (ip_host p);
           action_justification := "Restoring network connectivity";
           action_risk := HIGH_IMPACT_WRITE |}
    end) <$> io_pending s.

Definition iso_handle (e : iso_event) (s : iso_state) : iso_state * list iso_effect :=
  match e with
  | IoExecute => io_execute s
  | IoOpen h t =>
      (IsoState (io_async s) (Some (IsoPending h t)) (io_twoKeyInput s) (io_autoReleaseHours s)
         (io_checklist s) (io_flight s), [])
  | IoCancel =>
      (IsoState (io_async s) None EmptyString (io_autoReleaseHours s) (io_checklist s)
         (io_flight s), [])
  | IoInput v =>
      (IsoState (io_async s) (io_pending s) v (io_autoReleaseHours s) (io_checklist s)
         (io_flight s), [])
  | IoHours v =>
      (IsoState (io_async s) (io_pending s) (io_twoKeyInput s) (js_Number v) (io_checklist s)
         (io_flight s), [])
  | IoPerform => performAction s
  | IoChecklistDone =>
      (IsoState (io_async s) (io_pending s) (io_twoKeyInput s) (io_autoReleaseHours s) None
         (io_flight s), [])
  | IoLoaded k r =>
      (io_set_async (match r with
                     | HttpOk hs => async_ok (enhance_endpoint <$> hs) (io_async s)
                     | HttpErr e => async_fail (he_message e) (io_async s)
                     end) (fl_forget k (io_flight s)) s, [])
  | IoActed k r =>
      match fl_map (io_flight s) !! k with
      | Some (IKAction p) =>
          performAction_done p r (io_set_async (io_async s) (fl_forget k (io_flight s)) s)
      | _ => (s, [])
      end
  end.

(** ** The rendered page *)
Section View.
Context (locale_date : string -> string).

Definition iso_banners (s : iso_state) : list (html iso_event) :=
  let hosts := nullish (io_data s) [] in
  let isolatedCount := length (List.filter (fun h => ep_isIsolated (ie_host h)) hosts) in
  let aiRecommendedHosts := List.filter ie_aiRecommended hosts in
  [El "h1" "" [Text "Isolation Controls"];
   El "p" "" [Text "Contain threats by severing compromised endpoints from the network."];
   El "div" "" [Text "24"; Text "Isolations (30d)"]]
  ++ when (0 <? isolatedCount)
       [El "div" "" [Text ("CRITICAL WARNING: There are " +:+ of_nat_str isolatedCount
                           +:+ " endpoint(s) currently isolated from the network.")]]
  ++ when (0 <? length aiRecommendedHosts)
       [El "div" "" [
          El "h3" "" [Text "AI Recommended Actions"];
          Text "High confidence incidents detected on the following hosts. Immediate isolation recommended.";
          El "div" "" ((fun h => Button false (Some (IoOpen h IIsolate))
                                   [Text ("Isolate " +:+ ie_hostname h)]) <$> aiRecommendedHosts)]].

Definition iso_row (r : EnhancedEndpointHost) : html iso_event :=
  let isolated := ep_isIsolated (ie_host r) in
  El "tr" "" [
    El "td" "" [Text (ie_hostname r); Text (ep_ipAddress (ie_host r))];
    El "td" "" ([Badge (Some (if isolated then S1 else S4))
                   [Text (if isolated then "ISOLATED" else "CONNECTED")]]
      ++ when (isolated && truthy_str (ie_autoReleaseAt r))
           [Text ("Auto-release: " +:+ locale_date (nullish (ie_autoReleaseAt r) EmptyString))]);
    El "td" "" [Text ("Isolated " +:+ of_Z (ie_isolationHistoryCount r) +:+ " times")];
    El "td" "" [if isolated then Button false (Some (IoOpen r IRelease)) [Text "Release Isolation"]
                else Button false (Some (IoOpen r IIsolate)) [Text "Isolate Host"]]].

Definition iso_table (s : iso_state) : html iso_event :=
  El "table" "" [
    El "thead" "" (Text <$> ["Hostname / IP"; "Network Status"; "History"; "Destructive Action"]);
    El "tbody" "" (iso_row <$> nullish (io_data s) [])].

Definition hours_options : list (string * string) :=
  [("0", "Manual Release Only"); ("1", "Auto-release in 1 Hour");
   ("4", "Auto-release in 4 Hours"); ("24", "Auto-release in 24 Hours")].

Definition iso_dialog (s : iso_state) : list (html iso_event) :=
  when_some (io_pending s) (fun p =>
    let h := ip_host p in
    let isolate := bool_decide (ip_type p = IIsolate) in
    [El "div" "" (
      [El "h2" "" [Text (if isolate then "Emergency Isolation" else "Release Isolation")];
       Text "Target Host"; Text (ie_hostname h); Text ("(" +:+ ep_ipAddress (ie_host h) +:+ ")")]
      ++ when isolate [
           El "div" "" ([Text "Blast Radius Preview"] ++ (Text <$> ie_services h)
             ++ [Text "Severing network will drop all active connections to these services."]);
           Text "Scheduled Auto-Release (Optional)";
           Select (of_Z (io_autoReleaseHours s)) hours_options IoHours]
      ++ [Text ("Please type " +:+ ie_hostname h +:+ " to confirm this action.");
          Input false (io_twoKeyInput s) IoInput;
          Button false (Some IoCancel) [Text "Cancel"];
          Button (negb (String.eqb (io_twoKeyInput s) (ie_hostname h))) (Some IoPerform)
            [Text "Execute Action"]])]).

Definition iso_checklist (s : iso_state) : list (html iso_event) :=
  when_some (io_checklist s) (fun h => [
    El "div" "" [
      El "h2" "" [Text "Isolation Complete"];
      Text "Host "; Text (ie_hostname h);
      Text " has been successfully contained. Please complete the following post-isolation tasks:";
      El "div" "" (Text <$> ["Trigger forensic memory dump"; "Rotate local administrator credentials";
                             "Notify service owner"]);
      Button false (Some IoChecklistDone) [Text "Done"]]]).

Definition iso_view (s : iso_state) : list (html iso_event) :=
  if as_loading (io_async s) then [LoadingSkeleton 8]
  else match as_error (io_async s), io_data s with
       | Some err, None => [ErrorState err (Some IoExecute)]
       | _, _ => iso_banners s ++ [iso_table s] ++ iso_dialog s ++ iso_checklist s
       end.

Definition iso_enabled (s : iso_state) (e : iso_event) : Prop :=
  match e with
  | IoExecute => True
  | IoLoaded k _ => fl_map (io_flight s) !! k = Some IKLoad
  | IoActed k _ => exists p, fl_map (io_flight s) !! k = Some (IKAction p)
  | _ => offers_any (iso_view s) e
  end.

(** ** What the page can produce *)
Definition iso_guard (s : iso_state) (e : iso_event) : Prop :=
  match e with
  | IoPerform => exists p, io_pending s = Some p /\ io_twoKeyInput s = ie_hostname (ip_host p)
  | IoHours v => v ∈ hours_options.*1
  | _ => True
  end.

Lemma iso_offers_guard s e : offers_any (iso_view s) e -> iso_guard s e.
Proof.
  unfold iso_view. intros H. destruct (as_loading _); [by offers_cases H|].
  assert (H' : offers_any (iso_banners s ++ [iso_table s] ++ iso_dialog s ++ iso_checklist s) e
               \/ iso_guard s e).
  { destruct (as_error _), (io_data s); auto. right. by offers_cases H. }
  destruct H' as [H'|]; [|done]. rewrite !offers_any_app in H'. clear H.
  destruct H' as [H|[H|[H|H]]].
  - unfold iso_banners in H. by offers_cases H.
  - unfold iso_table, iso_row in H. offers_cases H; try done.
    destruct (ep_isIsolated _); by offers_cases H.
  - unfold iso_dialog in H. offers_cases H; try done.
    apply negb_false_iff, String.eqb_eq in H1. simpl. eauto.
  - unfold iso_checklist in H. by offers_cases H.
Qed.

Lemma iso_can_perform s p :
  as_loading (io_async s) = false -> as_error (io_async s) = None -> io_pending s = Some p ->
  io_twoKeyInput s = ie_hostname (ip_host p) -> offers_any (iso_view s) IoPerform.
Proof.
  intros Hl He Hp Hi. unfold iso_view. rewrite Hl, He.
  rewrite !offers_any_app. do 2 right. left. unfold iso_dialog. rewrite Hp. cbn [when_some].
  rewrite offers_any_cons, offers_El, !offers_any_app, !offers_any_cons. left. do 5 right. left.
  rewrite Hi, String.eqb_refl. apply offers_click.
Qed.

Definition hours_ok (s : iso_state) : Prop := io_autoReleaseHours s ∈ [0; 1; 4; 24]%Z.

Lemma iso_handle_hours s e : hours_ok s -> iso_enabled s e -> hours_ok (fst (iso_handle e s)).
Proof.
  intros H Hen. destruct e; try done; cbn [iso_handle].
  - apply iso_offers_guard in Hen. simpl in Hen. unfold hours_ok. simpl.
    repeat (apply elem_of_cons in Hen as [->|Hen];
            [apply (bool_decide_eq_true_1 _); reflexivity|]).
    by apply not_elem_of_nil in Hen.
  - unfold performAction. by destruct (io_pending s).
  - destruct (fl_map _ !! k) as [[]|]; try done.
    unfold performAction_done. destruct r; [destruct (ip_type p)|]; simpl;
      unfold hours_ok; simpl; apply (bool_decide_eq_true_1 _); reflexivity.
Qed.

Definition posts (id : string) (q : iso_effect) : Prop :=
  (exists h, q = PostIsolate id h) \/ q = PostRelease id.

(** Only the execute button of the dialog for a host, with its name typed,
    sends a request about it. *)
Lemma post_origin s e id q :
  iso_enabled s e -> posts id q -> q ∈ snd (iso_handle e s) ->
  e = IoPerform /\
  exists p, io_pending s = Some p /\ ie_id (ip_host p) = id /\
    io_twoKeyInput s = ie_hostname (ip_host p) /\
    ((ip_type p = IIsolate /\ q = PostIsolate id (io_autoReleaseHours s)) \/
     (ip_type p = IRelease /\ q = PostRelease id)).
Proof.
  intros Hen Hq Hin.
  destruct e; cbn [iso_handle] in Hin; try (elem_inv Hin; by destruct Hq as [[? ?]|?]).
  - apply iso_offers_guard in Hen. destruct Hen as (p & Hp & Hi). split; [done|].
    unfold performAction in Hin. rewrite Hp in Hin. apply list_elem_of_singleton in Hin. subst q.
    exists p. split; [done|].
    destruct (ip_type p), Hq as [[? ?]|?]; simplify_eq; auto 6.
  - destruct (fl_map _ !! k) as [[]|]; try by elem_inv Hin.
    unfold performAction_done in Hin.
    destruct r; [destruct (ip_type p)|]; elem_inv Hin; by destruct Hq as [[? ?]|?].
Qed.

(** C4: an endpoint is isolated or released only by the execute button of the
    dialog opened for it, with its exact host name typed, and with the
    operation the dialog was opened for; the release delay sent is one of
    the four offered, and a release carries none. *)
Theorem isolation_two_key es qs s e id q :
  run iso_enabled iso_handle iso_init es qs s ->
  iso_enabled s e -> posts id q ->
  q ∈ snd (iso_handle e s) ->
  e = IoPerform /\
  exists p, io_pending s = Some p /\ ie_id (ip_host p) = id /\
    io_twoKeyInput s = ie_hostname (ip_host p) /\
    ((ip_type p = IIsolate /\ q = PostIsolate id (io_autoReleaseHours s) /\
      io_autoReleaseHours s ∈ [0; 1; 4; 24]%Z) \/
     (ip_type p = IRelease /\ q = PostRelease id)).
Proof.
  intros Hrun Hen Hq Hin.
  assert (Hh : hours_ok s).
  { revert Hrun. apply run_invariant; [apply (bool_decide_eq_true_1 _); reflexivity|].
    intros; by apply iso_handle_hours. }
  destruct (post_origin s e id q Hen Hq Hin) as (-> & p & Hp & Hid & Hi & Hcase).
  split; [done|]. exists p. naive_solver.
Qed.

(** Cancelling keeps the chosen release delay, although completing an
    action resets it: the delay chosen for one host and cancelled is sent with
    the isolation of the next host confirmed. *)
Lemma isolation_cancel_keeps_hours s h h' v :
  as_loading (io_async s) = false -> as_error (io_async s) = None ->
  v ∈ hours_options.*1 ->
  let es := [IoOpen h IIsolate; IoHours v; IoCancel; IoOpen h' IIsolate; IoInput (ie_hostname h')] in
  let s' := fst (exec iso_handle es s) in
  iso_enabled s' IoPerform /\
  snd (iso_handle IoPerform s') = [PostIsolate (ie_id h') (js_Number v)] /\
  io_autoReleaseHours (fst (performAction_done (IsoPending h' IIsolate) (HttpOk tt) s')) = 0%Z.
Proof.
  intros Hl He Hv es s'. split; [by eapply iso_can_perform|]. done.
Qed.

(** The execute button stays enabled while the request is pending, so a
    second click repeats the request. *)
Lemma isolation_double_post s p :
  as_loading (io_async s) = false -> as_error (io_async s) = None ->
  io_pending s = Some p -> io_twoKeyInput s = ie_hostname (ip_host p) ->
  let '(s1, q1) := iso_handle IoPerform s in
  iso_enabled s IoPerform /\ iso_enabled s1 IoPerform /\
  q1 <> [] /\ snd (iso_handle IoPerform s1) = q1.
Proof.
  intros Hl He Hp Hi. cbn [iso_handle]. unfold performAction at 1. rewrite Hp.
  split; [by eapply iso_can_perform|]. split; [by eapply iso_can_perform|].
  split; [done|]. unfold performAction. simpl. by rewrite Hp.
Qed.
End View.

(** ** Concrete executions *)
Definition demo_endpoint : RawEndpointHost :=
  MkRawEndpoint {| ep_id := "e1"; ep_hostname := "db-01"; ep_ipAddress := "10.0.0.9";
    ep_isIsolated := false; ep_isolatedAt := None; ep_isolatedBy := None; ep_auditTrail := [] |}
    None None None None.

Definition demo_ie : EnhancedEndpointHost := enhance_endpoint demo_endpoint.

Definition demo_iso_events : list iso_event :=
  [IoExecute; IoLoaded 0 (HttpOk [demo_endpoint]); IoOpen demo_ie IIsolate; IoInput "db-01"].
Definition demo_iso : iso_state := fst (exec iso_handle demo_iso_events iso_init).

Lemma iso_view_ready locale s :
  as_loading (io_async s) = false -> as_error (io_async s) = None ->
  iso_view locale s = iso_banners s ++ [iso_table locale s] ++ iso_dialog s ++ iso_checklist s.
Proof. intros Hl He. unfold iso_view. by rewrite Hl, He. Qed.

Lemma demo_iso_run :
  run (iso_enabled id) iso_handle iso_init demo_iso_events
    (snd (exec iso_handle demo_iso_events iso_init)) demo_iso.
Proof.
  apply exec_run. split; [done|]. split; [done|]. split; [|split; [|done]].
  - cbn [iso_enabled]. rewrite iso_view_ready by done. rewrite !offers_any_app.
    right. left. unfold iso_table. rewrite offers_any_cons, offers_El. left.
    rewrite !offers_any_cons, (offers_El "tbody"). right. left.
    cbn -[offers_any iso_row]. rewrite offers_any_cons. left. unfold iso_row.
    change (ep_isIsolated (ie_host (enhance_endpoint demo_endpoint))) with false.
    cbn iota. offers_find.
  - cbn [iso_enabled]. rewrite iso_view_ready by done. rewrite !offers_any_app.
    do 2 right. left. unfold iso_dialog. cbn -[offers_any].
    rewrite offers_any_cons, offers_El. left. rewrite !offers_any_cons.
    do 8 right. left. by apply (offers_type _ IoInput).
Qed.

Lemma isolation_two_key_witness : io_twoKeyInput demo_iso = "db-01".
Proof.
  destruct (isolation_two_key id demo_iso_events _ demo_iso IoPerform "e1" (PostIsolate "e1" 0)
    demo_iso_run) as (_ & p & Hp & _ & Hi & _).
  - eapply (iso_can_perform id); reflexivity.
  - left. eexists. reflexivity.
  - vm_compute. left.
  - rewrite Hi. injection Hp as <-. reflexivity.
Defined.

Lemma isolation_cancel_keeps_hours_witness :
  snd (iso_handle IoPerform (fst (exec iso_handle
    [IoOpen demo_ie IIsolate; IoHours "24"; IoCancel; IoOpen demo_ie IIsolate; IoInput "db-01"]
    demo_iso))) = [PostIsolate "e1" 24].
Proof.
  refine (proj1 (proj2 (isolation_cancel_keeps_hours id demo_iso demo_ie demo_ie "24" _ _ _)));
    [reflexivity|reflexivity|].
  apply (bool_decide_eq_true_1 _). reflexivity.
Defined.

Lemma isolation_double_post_witness :
  snd (iso_handle IoPerform (fst (iso_handle IoPerform demo_iso))) = [PostIsolate "e1" 0].
Proof.
  pose proof (isolation_double_post id demo_iso (IsoPending demo_ie IIsolate)
    eq_refl eq_refl eq_refl eq_refl) as H.
  exact (proj2 (proj2 (proj2 H))).
Defined.
