(* ===== verification/Dashboard.v ===== *)
(** * Investigation dashboard ([features/investigations/ui/InvestigationDashboard.tsx])

    The page of one investigation: its log, which the load replaces and the
    stream appends to, and the actions the agents propose.  The panels it
    embeds are elements with their properties. *)
From S2P Require Import Prelude JsString Html Types Http AsyncState SharedUi.

(** What the backend answers: [res.data] with its [details]. *)
Record inv_details := InvDetails {
  id_conversation_log : option (list LogEntry); id_proposed_actions : option (list ActionInfo) }.
Record inv_response := InvResponse { ir_data : InvestigationData; ir_details : option inv_details }.

Inductive db_kont := DKLoad | DKApprove (a : ActionInfo).

Record db_state := DbState {
  db_logs : list LogEntry;
  db_actions : list ActionInfo;
  db_async : async InvestigationData;
  db_flight : flight db_kont }.

Definition db_init : db_state := DbState [] [] async_init fl_empty.

Inductive db_effect :=
| GetInvestigationById (id : string)
| PostAction (id : string) (a : ActionInfo)
| DbAlertBox (msg : string)
| DbNavigate (path : string).

Inductive db_event :=
| DbExecute
| DbLog (l : LogEntry)
| DbApprove (a : ActionInfo)
| DbHome
| DbLoaded (k : nat) (r : http_result inv_response)
| DbApproved (k : nat) (r : http_result unit).

Section Dashboard.
Context (id : string).

Definition db_forget (k : nat) (s : db_state) : db_state :=
  DbState (db_logs s) (db_actions s) (db_async s) (fl_forget k (db_flight s)).

(** The fetch function: a response without [details] throws. *)
Definition db_loaded (r : http_result inv_response) (s : db_state) : db_state :=
  match r with
  | HttpOk (InvResponse d (Some x)) =>
      DbState (nullish (id_conversation_log x) []) (nullish (id_proposed_actions x) [])
        (async_ok d (db_async s)) (db_flight s)
  | HttpOk (InvResponse _ None) =>
      DbState (db_logs s) (db_actions s)
        (async_fail (Some "Cannot read properties of undefined (reading 'conversation_log')")
           (db_async s)) (db_flight s)
  | HttpErr e => DbState (db_logs s) (db_actions s) (async_fail (he_message e) (db_async s)) (db_flight s)
  end.

(** [handleActionApprove] up to its [await], and the rest. *)
Definition approve (a : ActionInfo) (s : db_state) : db_state * list db_effect :=
  (DbState (db_logs s) (db_actions s) (db_async s) (fl_await (DKApprove a) (db_flight s)),
   [PostAction id a]).

Definition approve_done (a : ActionInfo) (r : http_result unit) (s : db_state)
    : db_state * list db_effect :=
  match r with
  | HttpOk _ =>
      (DbState (db_logs s) (filter (fun b => action_action b <> action_action a) (db_actions s))
         (db_async s) (db_flight s),
       [DbAlertBox ("Action '" +:+ action_action a +:+ "' approved successfully.")])
  | HttpErr _ => (s, [DbAlertBox "Failed to execute action."])
  end.

Definition db_handle (e : db_event) (s : db_state) : db_state * list db_effect :=
  match e with
  | DbExecute =>
      (DbState (db_logs s) (db_actions s) (async_start (db_async s)) (fl_await DKLoad (db_flight s)),
       [GetInvestigationById id])
  | DbLog l => (DbState (db_logs s ++ [l]) (db_actions s) (db_async s) (db_flight s), [])
  | DbApprove a => approve a s
  | DbHome => (s, [DbNavigate "/"])
  | DbLoaded k r => (db_loaded r (db_forget k s), [])
  | DbApproved k r =>
      match fl_map (db_flight s) !! k with
      | Some (DKApprove a) => approve_done a r (db_forget k s)
      | _ => (s, [])
      end
  end.

(** ** The rendered page *)
Definition log_entry (l : LogEntry) : html db_event :=
  let low := (log_confidence l <? 70)%Z in
  El "div" (if low then "bg-orange-900/10 border-orange-500/30" else "bg-slate-900/50 border-slate-700")
    ([Text (log_agent l)] ++ when low [Text "⚠️"; Text "Low Confidence"]
     ++ [El "span" (if low then "bg-orange-500/20 text-orange-300" else "bg-slate-800 text-slate-300")
           [Text (of_Z (log_confidence l) +:+ "%")];
         Text (log_message l)]).

(** [action.risk.includes('HIGH') || action.risk.includes('DESTRUCTIVE')] *)
Definition isHighRisk (a : ActionInfo) : bool :=
  includes "HIGH" (risk_str (action_risk a)) || includes "DESTRUCTIVE" (risk_str (action_risk a)).

Definition action_card (a : ActionInfo) : html db_event :=
  let tone hi lo := if isHighRisk a then hi else lo in
  El "div" (tone "bg-red-900/10 border-red-500/50" "bg-slate-900/50 border-slate-700") [
    El "span" (tone "text-red-400" "text-white") [Text (action_action a)];
    El "span" (tone "bg-red-500/20 text-red-400" "bg-slate-800 text-slate-400")
      [Text (unscore (risk_str (action_risk a)))];
    El "div" "" [Text "Target: "; Text (action_target a)];
    El "div" "" [Text (action_justification a)];
    Button false (Some (DbApprove a))
      [El "span" (tone "bg-red-600" "bg-blue-600") [Text "Approve Action"]]].

Definition db_main (s : db_state) : list (html db_event) :=
  when_some (as_data (db_async s)) (fun inv => [
    El "div" "" (Text "🛡️ Immutable Agent Log" :: (log_entry <$> db_logs s));
    El "InvestigationGraph" id [];
    El "div" "" (Text "⚡ Proposed Actions" :: (action_card <$> db_actions s)
      ++ when (bool_decide (length (db_actions s) = 0))
           [Text "No pending actions recommended by agents."])]
    ++ when (truthy_str (inv_source_ip inv))
         [El "ThreatIntelPanel" (nullish (inv_source_ip inv) EmptyString) []]).

Definition db_view (s : db_state) : list (html db_event) :=
  if as_loading (db_async s) then [LoadingSkeleton 10]
  else match as_error (db_async s), as_data (db_async s) with
       | Some err, None => [ErrorState err (Some DbExecute)]
       | _, _ =>
           [El "div" "" [Clickable DbHome [Text "Command Center"]; Text "/";
                         Text ("Investigation (" +:+ id +:+ ")")]]
           ++ db_main s
           ++ [El "AgentChatWidget" ("Analyze Investigation " +:+ id) []]
       end.

Definition db_enabled (s : db_state) (e : db_event) : Prop :=
  match e with
  | DbExecute => True
  | DbLog _ => True                     (* a message of the investigation's stream *)
  | DbLoaded k _ => fl_map (db_flight s) !! k = Some DKLoad
  | DbApproved k _ => exists a, fl_map (db_flight s) !! k = Some (DKApprove a)
  | _ => offers_any (db_view s) e
  end.

(** ** Properties *)
Lemma isHighRisk_spec a :
  isHighRisk a = true <-> action_risk a = HIGH_IMPACT_WRITE \/ action_risk a = DESTRUCTIVE.
Proof. unfold isHighRisk. destruct (action_risk a); vm_compute; naive_solver. Qed.

Lemma db_offers_approve s d a :
  as_loading (db_async s) = false -> as_data (db_async s) = Some d ->
  offers_any (db_view s) (DbApprove a) <-> a ∈ db_actions s.
Proof.
  intros Hl Hd. unfold db_view. rewrite Hl, Hd. split.
  - intros H. unfold db_main in H. rewrite Hd in H. destruct (as_error (db_async s));
      cbn [when_some] in H; unfold log_entry, action_card in H; by offers_cases H.
  - intros Ha. assert (offers_any (db_main s) (DbApprove a)) as H.
    { unfold db_main. rewrite Hd. cbn [when_some]. rewrite offers_any_app, !offers_any_cons.
      left. do 2 right. left. rewrite offers_El, offers_any_cons, offers_any_app. right. left.
      apply offers_any_map. exists a. split; [done|]. unfold action_card. offers_find. }
    destruct (as_error (db_async s)); rewrite !offers_any_app; auto.
Qed.

(** C7: on this page a single click executes any proposed action, a
    destructive one too: whatever its risk, the approve button of every
    action shown is enabled and its click alone sends the action to the
    backend, without the two-key dialog. *)
Theorem dashboard_approves_without_two_key s d a :
  as_loading (db_async s) = false -> as_data (db_async s) = Some d -> a ∈ db_actions s ->
  db_enabled s (DbApprove a) /\ snd (db_handle (DbApprove a) s) = [PostAction id a].
Proof. intros Hl Hd Ha. split; [|done]. by apply (db_offers_approve s d a). Qed.

(** An approved action disappears from the list together with every other
    action of the same name, whatever its target, and only those: an action
    proposed for a second target vanishes without having been executed. *)
Lemma dashboard_removes_same_name s k a b :
  fl_map (db_flight s) !! k = Some (DKApprove a) ->
  let s' := fst (db_handle (DbApproved k (HttpOk tt)) s) in
  b ∈ db_actions s' <-> b ∈ db_actions s /\ action_action b <> action_action a.
Proof. intros Hk. cbn [db_handle]. rewrite Hk. simpl. rewrite list_elem_of_filter. naive_solver. Qed.

(** The load replaces the log: an entry the stream delivered while the load
    was pending is no longer shown after it. *)
Lemma dashboard_load_drops_log s l d x :
  let '(s1, _) := db_handle DbExecute s in
  let '(s2, _) := db_handle (DbLog l) s1 in
  let '(s3, _) := db_handle (DbLoaded (fl_next (db_flight s)) (HttpOk (InvResponse d (Some x)))) s2 in
  db_logs s2 = db_logs s ++ [l] /\ db_enabled s1 (DbLog l) /\
  db_logs s3 = nullish (id_conversation_log x) [].
Proof. done. Qed.
End Dashboard.

Definition demo_inv : InvestigationData :=
  {| inv_nodes := []; inv_edges := []; inv_source_ip := None; inv_conversation_log := [];
     inv_proposed_actions := [] |}.
Definition demo_wipe (t : string) : ActionInfo :=
  {| action_action := "Wipe Host"; action_target := t; action_justification := "ransomware";
     action_risk := DESTRUCTIVE |}.
Definition demo_db : db_state :=
  fst (exec (db_handle "inv-1")
    [DbExecute; DbLoaded 0 (HttpOk (InvResponse demo_inv (Some (InvDetails None
       (Some [demo_wipe "web-01"; demo_wipe "db-01"])))))] db_init).

Lemma dashboard_approves_without_two_key_witness :
  snd (db_handle "inv-1" (DbApprove (demo_wipe "web-01")) demo_db) =
  [PostAction "inv-1" (demo_wipe "web-01")].
Proof.
  refine (proj2 (dashboard_approves_without_two_key "inv-1" demo_db demo_inv (demo_wipe "web-01")
    eq_refl eq_refl _)). left.
Defined.

Lemma dashboard_removes_same_name_witness :
  ~ demo_wipe "db-01" ∈ db_actions (fst (db_handle "inv-1" (DbApproved 1 (HttpOk tt))
      (fst (db_handle "inv-1" (DbApprove (demo_wipe "web-01")) demo_db)))).
Proof.
  intros H. apply (dashboard_removes_same_name "inv-1"
    (fst (db_handle "inv-1" (DbApprove (demo_wipe "web-01")) demo_db)) 1 (demo_wipe "web-01")
    (demo_wipe "db-01") eq_refl) in H. by destruct H.
Defined.
