(* ===== verification/AgentWidgets.v ===== *)
(** * Agent widgets ([features/investigations/ui/AgentTriageFeed.tsx],
      [features/investigations/ui/AgentResilienceStatus.tsx])

    The live feed of agent events, with its pause button and its two
    filters, and the panel on the state of the language-model providers.
    Both receive the events as a property; the effect that reacts to a new
    property value runs after each render. *)
From Stdlib Require Import SpecFloat.
From S2P Require Import Prelude JsString Dates Html SharedUi.

Record AgentEvent := MkAgentEvent {
  ae_correlationId : string;
  ae_investigationId : option string;
  ae_timestamp : string;
  ae_node : string;
  ae_status : string;
  ae_provider : option string;
  ae_fallbackTriggered : bool;
  ae_fallbackReason : option string;
  ae_latencyMs : option Z;
  ae_summary : option string }.

(** ** The triage feed *)
Record feed_state := FeedState {
  tf_events : list AgentEvent;          (* the property *)
  tf_isPaused : bool;
  tf_filterNode : string;
  tf_filterCorrelation : string;
  tf_displayed : list AgentEvent }.

Inductive feed_event :=
| TfEvents (evs : list AgentEvent)
| TfPause
| TfFilterNode (v : string)
| TfFilterCorrelation (v : string)
| TfVisit (path : string).

Inductive feed_effect := TfNavigate (path : string).

(** The effect on [[events, isPaused]]. *)
Definition feed_effect_run (s : feed_state) : feed_state :=
  if tf_isPaused s then s
  else FeedState (tf_events s) false (tf_filterNode s) (tf_filterCorrelation s) (tf_events s).

Definition feed_mount (evs : list AgentEvent) : feed_state :=
  feed_effect_run (FeedState evs false EmptyString EmptyString []).

Definition feed_handle (e : feed_event) (s : feed_state) : feed_state * list feed_effect :=
  match e with
  | TfEvents evs =>
      (feed_effect_run (FeedState evs (tf_isPaused s) (tf_filterNode s) (tf_filterCorrelation s)
                          (tf_displayed s)), [])
  | TfPause =>
      (feed_effect_run (FeedState (tf_events s) (negb (tf_isPaused s)) (tf_filterNode s)
                          (tf_filterCorrelation s) (tf_displayed s)), [])
  | TfFilterNode v =>
      (FeedState (tf_events s) (tf_isPaused s) v (tf_filterCorrelation s) (tf_displayed s), [])
  | TfFilterCorrelation v =>
      (FeedState (tf_events s) (tf_isPaused s) (tf_filterNode s) v (tf_displayed s), [])
  | TfVisit p => (s, [TfNavigate p])
  end.

Definition filtered (s : feed_state) : list AgentEvent :=
  List.filter (fun e =>
    (if String.eqb (tf_filterNode s) EmptyString then true
     else includes (to_lower (tf_filterNode s)) (to_lower (ae_node e))) &&
    (if String.eqb (tf_filterCorrelation s) EmptyString then true
     else includes (tf_filterCorrelation s) (ae_correlationId e))) (tf_displayed s).

Section FeedView.
Context (locale_time : string -> string).

Definition feed_row (ev : AgentEvent) : html feed_event :=
  El "div" "" (
    [Text ("[" +:+ locale_time (ae_timestamp ev) +:+ "]"); Text (ae_node ev); Text "->";
     El "span" (if String.eqb (ae_status ev) "started" then "text-amber-400"
                else if String.eqb (ae_status ev) "failed" then "text-red-400"
                else "text-emerald-400") [Text (ae_status ev)]]
    (* [{ev.latencyMs && ...}] renders a zero *)
    ++ when_some (ae_latencyMs ev) (fun ms =>
         [Text (if bool_decide (ms = 0%Z) then "0" else "(" +:+ of_Z ms +:+ "ms)")])
    ++ when (truthy_str (ae_summary ev)) [Text ("> " +:+ nullish (ae_summary ev) EmptyString)]
    ++ when (ae_fallbackTriggered ev)
         [El "div" "" ([Text ("⚠️ Fallback: " +:+ nullish (ae_fallbackReason ev) EmptyString)]
            ++ when (truthy_str (ae_provider ev))
                 [Text (" -> Routed to " +:+ nullish (ae_provider ev) EmptyString)])]
    ++ [Text ("ID: " +:+ ae_correlationId ev)]
    ++ when (truthy_str (ae_investigationId ev))
         [let i := nullish (ae_investigationId ev) EmptyString in
          Button false (Some (TfVisit ("/investigations/" +:+ i))) [Text ("View " +:+ i)]]).

Definition feed_view (s : feed_state) : html feed_event :=
  El "div" "" [
    El "h3" "" [StatusDot StSuccess true; Text "Live Agent Triage Feed"];
    Input false (tf_filterNode s) TfFilterNode;
    Input false (tf_filterCorrelation s) TfFilterCorrelation;
    Button false (Some TfPause)
      [El "span" (if tf_isPaused s then "bg-orange-600" else "bg-slate-700")
         [Text (if tf_isPaused s then "Resume" else "Pause")]];
    El "div" "" ((feed_row <$> filtered s)
      ++ when (bool_decide (length (filtered s) = 0)) [Text "No events found."])].
End FeedView.

(** The parent only appends to the list it passes. *)
Definition feed_enabled (s : feed_state) (e : feed_event) : Prop :=
  match e with TfEvents evs => tf_events s `prefix_of` evs | _ => True end.

Definition feed_inv (s : feed_state) : Prop :=
  tf_displayed s `prefix_of` tf_events s /\
  (tf_isPaused s = false -> tf_displayed s = tf_events s).

Lemma feed_effect_inv s : tf_displayed s `prefix_of` tf_events s -> feed_inv (feed_effect_run s).
Proof. intros H. unfold feed_effect_run. destruct (tf_isPaused s) eqn:E; [|done]. by split; [|congruence]. Qed.

(** A running feed shows exactly the events received so far, a paused one
    a prefix of them, unchanged until it is resumed; resuming shows every
    event that arrived in the meantime, so pausing loses nothing. *)
Lemma feed_pause_loses_nothing evs es qs s :
  run feed_enabled feed_handle (feed_mount evs) es qs s ->
  tf_displayed s `prefix_of` tf_events s /\
  (tf_isPaused s = false -> tf_displayed s = tf_events s) /\
  (tf_isPaused s = true ->
     (forall evs', tf_displayed (fst (feed_handle (TfEvents evs') s)) = tf_displayed s) /\
     tf_displayed (fst (feed_handle TfPause s)) = tf_events s).
Proof.
  intros Hrun. assert (feed_inv s) as [Hp He].
  { revert Hrun. apply run_invariant; [by split|].
    intros s' [evs'| | | |] [Hp He] Hen; try done; apply feed_effect_inv; simpl; [|done].
    by etrans. }
  split; [done|]. split; [done|]. intros Hpaused.
  unfold feed_handle, feed_effect_run. simpl. by rewrite Hpaused.
Qed.

(** ** The resilience panel *)
Inductive connection := ConnConnected | ConnDisconnected | ConnReconnecting.
#[export] Instance connection_eq_dec : EqDecision connection.
Proof. solve_decision. Defined.

Record resilience_props := ResilienceProps {
  rp_activeProvider : option string;
  rp_isDegraded : bool;
  rp_fallbackRuleTriggered : bool;
  rp_connectionStatus : connection;
  rp_events : list AgentEvent }.

Inductive resilience_event := RsAcknowledge.

(** The effect on [[fallbackRuleTriggered]]: it runs when the value changes. *)
Definition resilience_effect (before after : bool) (acknowledged : bool) : bool :=
  if bool_decide (before <> after) && after then false else acknowledged.

Definition totalTriageEvents (evs : list AgentEvent) : nat :=
  length (List.filter (fun e => String.eqb (ae_node e) "LLMTriage" &&
                                String.eqb (ae_status e) "completed") evs).
Definition fallbackCount (evs : list AgentEvent) : nat :=
  length (List.filter ae_fallbackTriggered evs).

Definition uptime (evs : list AgentEvent) : string :=
  if bool_decide (totalTriageEvents evs = 0) then "100"
  else
    let ratio := f64_mul (f64_div (f64_of_Z (Z.of_nat (fallbackCount evs)))
                                  (f64_of_Z (Z.of_nat (totalTriageEvents evs)))) (f64_of_Z 100) in
    let v := SFsub 53 1024 (f64_of_Z 100) ratio in
    to_fixed1 (if SFltb v (f64_of_Z 0) then f64_of_Z 0 else v).

Definition resilience_view (p : resilience_props) (acknowledged : bool) : html resilience_event :=
  if negb (bool_decide (rp_connectionStatus p = ConnConnected)) then
    El "div" "border-red-500/50" [
      StatusDot StError true;
      El "h3" "" [Text "Agent Telemetry Connection Lost"];
      El "p" "" [Text (if bool_decide (rp_connectionStatus p = ConnReconnecting)
                       then "Reconnecting to stream..." else "Offline. AI telemetry unavailable.")]]
  else if rp_fallbackRuleTriggered p && negb acknowledged then
    El "div" "border-red-500" [
      StatusDot StError true;
      El "h3" "" [Text "AI Triage Fully Degraded"];
      El "p" "" [Text "All LLM paths failed. Static deterministic ruleset is active."];
      Button false (Some RsAcknowledge) [Text "Acknowledge Risk"]]
  else
    El "div" (if rp_isDegraded p then "border-amber-500/50 bg-amber-900/10" else "border-slate-800") [
      StatusDot (if rp_isDegraded p then StWarning else StSuccess) false;
      El "h3" "" [Text "Active Provider: "; Text (nullish (rp_activeProvider p) EmptyString)];
      El "p" "" [Text (if rp_isDegraded p then "Primary provider failed. Operating on fallback."
                       else "LLM Triage is operating nominally.")];
      El "div" "" [Text "Uptime: "; Text (uptime (rp_events p) +:+ "%")];
      El "div" "" [Text "Fallbacks: "; Text (of_nat_str (fallbackCount (rp_events p)))]].

(** ** Concrete executions *)
Definition demo_event (node status : string) (fallback : bool) : AgentEvent :=
  MkAgentEvent "c1" None "2024-01-02T03:04:05Z" node status (Some "static_ruleset") fallback
    None None None.

Example uptime_fallback :
  uptime [demo_event "LLMTriage" "completed" false; demo_event "LLMTriage" "completed" false;
          demo_event "LLMTriage" "completed" true] = "66.7".
Proof. reflexivity. Qed.

Lemma feed_pause_loses_nothing_witness :
  let e1 := demo_event "A" "started" false in
  let es := [TfPause; TfEvents [e1]] in
  let s := fst (exec feed_handle es (feed_mount [])) in
  tf_displayed s = [] /\ tf_displayed (fst (feed_handle TfPause s)) = [e1].
Proof.
  intros e1 es s.
  destruct (feed_pause_loses_nothing [] es (snd (exec feed_handle es (feed_mount []))) s)
    as (_ & _ & H).
  - apply exec_run. simpl. split; [done|]. split; [apply prefix_nil|done].
  - split; [reflexivity|]. apply H. reflexivity.
Defined.
