(* ===== verification/CommandCenter.v ===== *)
(** * Command center ([features/investigations/ui/CommandCenter.tsx])

    The landing page: metrics from the poller, alerts and agent events from
    two streams, and the agent widgets.  Polling and streams are the hooks
    of [Polling] and [WebSocketStream]; here their callbacks and connection
    flags are events.  [Date.now()] is an argument of the view, and
    [Intl.NumberFormat] is the browser's locale. *)
From S2P Require Import Prelude JsString Html Types Http AgentWidgets.

(** An event with the time it was received. *)
Record TimedEvent := MkTimed { te_event : AgentEvent; te_receivedAt : Z }.

Inductive cc_kont := CKAlerts | CKAcknowledge (id : string) | CKAssign (id : string).

Record cc_state := CcState {
  cc_metrics : option SystemMetrics;
  cc_metricsError : bool;
  cc_alerts : list Alert;
  cc_alertsConnected : bool;
  cc_agentEvents : list TimedEvent;
  cc_agentConnected : bool;
  cc_feed : feed_state;
  cc_acknowledged : bool;               (* of the resilience panel *)
  cc_rendered : bool;                   (* [fallbackRuleTriggered] of the last render *)
  cc_flight : flight cc_kont }.

Definition cc_init : cc_state :=
  CcState None false [] false [] false (feed_mount []) false false fl_empty.

Inductive cc_effect :=
| GetInitialAlerts
| PatchAcknowledge (id : string)
| PatchAssign (id : string)
| CcAlertBox (msg : string)
| CcNavigate (path : string).

Inductive cc_event :=
| CcMount
| CcMetrics (d : SystemMetrics)
| CcMetricsError
| CcAlertsConn (b : bool)
| CcAgentConn (b : bool)
| CcNewAlert (a : option Alert)
| CcAgentEvent (e : AgentEvent) (now : Z)
| CcAcknowledge (id : string)
| CcAssign (id : string)
| CcVisit (path : string)
| CcFeed (e : feed_event)
| CcRiskAck
| CcRender (now : Z)
| CcAlertsLoaded (k : nat) (r : http_result (option (list Alert)))
| CcPatched (k : nat) (r : http_result unit).

Definition cc_set_alerts l s := CcState (cc_metrics s) (cc_metricsError s) l (cc_alertsConnected s)
  (cc_agentEvents s) (cc_agentConnected s) (cc_feed s) (cc_acknowledged s) (cc_rendered s) (cc_flight s).
Definition cc_set_feed f s := CcState (cc_metrics s) (cc_metricsError s) (cc_alerts s)
  (cc_alertsConnected s) (cc_agentEvents s) (cc_agentConnected s) f (cc_acknowledged s) (cc_rendered s) (cc_flight s).
Definition cc_set_flight f s := CcState (cc_metrics s) (cc_metricsError s) (cc_alerts s)
  (cc_alertsConnected s) (cc_agentEvents s) (cc_agentConnected s) (cc_feed s) (cc_acknowledged s) (cc_rendered s) f.

(** ** Alerts *)

(** The updater of the alert stream; [None] is a missing message. *)
Definition on_alert (newAlert : option Alert) (prev : list Alert) : list Alert :=
  match newAlert with
  | None => prev
  | Some a =>
      if String.eqb (alert_id a) EmptyString then prev
      else if existsb (fun b => String.eqb (alert_id b) (alert_id a)) prev then prev
      else js_sort (by_key_desc alert_severity) (a :: prev)
  end.

Definition isCritical (a : Alert) : bool := (alert_severity a <=? 2)%Z.

(** ** The fallback state of the agents *)
Definition STALENESS_WINDOW_MS : Z := 10 * 60 * 1000.

Definition latestFallbackEvent (evs : list TimedEvent) : option TimedEvent :=
  List.find (fun e => ae_fallbackTriggered (te_event e)) (rev evs).

Record fallback_status := FallbackStatus {
  fs_isDegraded : bool; fs_fallbackRuleTriggered : bool; fs_activeProvider : option string }.

Definition fallback_of (now : Z) (evs : list TimedEvent) : fallback_status :=
  let baseline := FallbackStatus false false (Some "openai/gpt-4o") in
  match latestFallbackEvent evs with
  | None => baseline
  | Some e =>
      if (STALENESS_WINDOW_MS <? now - te_receivedAt e)%Z then baseline
      else
        let static := bool_decide (ae_provider (te_event e) = Some "static_ruleset") in
        FallbackStatus (negb static) static
          (if static then Some "Static Ruleset" else ae_provider (te_event e))
  end.

(** ** Handlers *)
Definition cc_on_agent_event (e : AgentEvent) (now : Z) (s : cc_state) : cc_state :=
  let evs := cc_agentEvents s ++ [MkTimed e now] in
  CcState (cc_metrics s) (cc_metricsError s) (cc_alerts s) (cc_alertsConnected s) evs
    (cc_agentConnected s) (fst (feed_handle (TfEvents (te_event <$> evs)) (cc_feed s)))
    (cc_acknowledged s) (cc_rendered s) (cc_flight s).

(** A render at time [now]: the panel's effect sees the new property. *)
Definition cc_render (now : Z) (s : cc_state) : cc_state :=
  let triggered := fs_fallbackRuleTriggered (fallback_of now (cc_agentEvents s)) in
  CcState (cc_metrics s) (cc_metricsError s) (cc_alerts s) (cc_alertsConnected s)
    (cc_agentEvents s) (cc_agentConnected s) (cc_feed s)
    (resilience_effect (cc_rendered s) triggered (cc_acknowledged s)) triggered (cc_flight s).

Definition cc_patched (k : nat) (r : http_result unit) (s : cc_state) : cc_state * list cc_effect :=
  match fl_map (cc_flight s) !! k, r with
  | Some (CKAcknowledge id), HttpOk _ =>
      (cc_set_flight (fl_forget k (cc_flight s))
         (cc_set_alerts (filter (fun a => alert_id a <> id) (cc_alerts s)) s), [])
  | Some (CKAssign id), HttpOk _ =>
      (cc_set_flight (fl_forget k (cc_flight s)) s,
       [CcAlertBox ("Alert " +:+ id +:+ " assigned to you.")])
  | _, _ => (cc_set_flight (fl_forget k (cc_flight s)) s, [])
  end.

Definition cc_handle (e : cc_event) (s : cc_state) : cc_state * list cc_effect :=
  match e with
  | CcMount => (cc_set_flight (fl_await CKAlerts (cc_flight s)) s, [GetInitialAlerts])
  | CcMetrics d =>
      (CcState (Some d) false (cc_alerts s) (cc_alertsConnected s) (cc_agentEvents s)
         (cc_agentConnected s) (cc_feed s) (cc_acknowledged s) (cc_rendered s) (cc_flight s), [])
  | CcMetricsError =>
      (CcState (cc_metrics s) true (cc_alerts s) (cc_alertsConnected s) (cc_agentEvents s)
         (cc_agentConnected s) (cc_feed s) (cc_acknowledged s) (cc_rendered s) (cc_flight s), [])
  | CcAlertsConn b =>
      (CcState (cc_metrics s) (cc_metricsError s) (cc_alerts s) b (cc_agentEvents s)
         (cc_agentConnected s) (cc_feed s) (cc_acknowledged s) (cc_rendered s) (cc_flight s), [])
  | CcAgentConn b =>
      (CcState (cc_metrics s) (cc_metricsError s) (cc_alerts s) (cc_alertsConnected s)
         (cc_agentEvents s) b (cc_feed s) (cc_acknowledged s) (cc_rendered s) (cc_flight s), [])
  | CcNewAlert a => (cc_set_alerts (on_alert a (cc_alerts s)) s, [])
  | CcAgentEvent e now => (cc_on_agent_event e now s, [])
  | CcAcknowledge id =>
      (cc_set_flight (fl_await (CKAcknowledge id) (cc_flight s)) s, [PatchAcknowledge id])
  | CcAssign id => (cc_set_flight (fl_await (CKAssign id) (cc_flight s)) s, [PatchAssign id])
  | CcVisit p => (s, [CcNavigate p])
  | CcFeed e =>
      let '(f, q) := feed_handle e (cc_feed s) in
      (cc_set_feed f s, (fun q => match q with TfNavigate p => CcNavigate p end) <$> q)
  | CcRiskAck =>
      (CcState (cc_metrics s) (cc_metricsError s) (cc_alerts s) (cc_alertsConnected s)
         (cc_agentEvents s) (cc_agentConnected s) (cc_feed s) true (cc_rendered s) (cc_flight s), [])
  | CcRender now => (cc_render now s, [])
  | CcAlertsLoaded k r =>
      (cc_set_flight (fl_forget k (cc_flight s))
         (match r with
          | HttpOk (Some l) => cc_set_alerts l s     (* [Array.isArray(res.data)] *)
          | _ => s
          end), [])
  | CcPatched k r => cc_patched k r s
  end.

(** ** The rendered page *)
Section View.
Context (number_format : Z -> string) (locale_time : string -> string).

Definition SystemHealthBar (agentConnected alertsConnected metricsError : bool)
    (activeProvider : option string) : html cc_event :=
  let dot ok bad label :=
    El "div" "" [El "div" (if ok : bool then "bg-green-500" else "bg-" +:+ bad +:+ "-500 animate-pulse") [];
                 El "span" (if ok then "text-slate-300" else "text-" +:+ bad +:+ "-400") [Text label]] in
  El "div" "" [
    Text "System Health:";
    dot agentConnected "red" "Agent Stream";
    dot alertsConnected "red" "Alerts Stream";
    dot (negb metricsError) "orange" "Metrics Polling";
    Text "Engine:";
    El "span" (if bool_decide (activeProvider = Some "Static Ruleset")
               then "bg-orange-900/30 text-orange-400" else "bg-blue-900/30 text-blue-400")
      [Text (nullish activeProvider EmptyString)]].

Definition kpi_card (s : cc_state) (label unit : string) (value : SystemMetrics -> string)
    : html cc_event :=
  El "div" "" ([Text label]
    ++ when (cc_metricsError s) [El "span" "Metrics unavailable - retrying..." []]
    ++ [Text (match cc_metrics s with
              | Some m => value m
              | None => if cc_metricsError s then "ERR" else "..."
              end); Text unit]).

(** The row navigates; the first two buttons stop the click there. *)
Definition alert_row (a : Alert) : html cc_event :=
  Clickable (CcVisit ("/investigations/" +:+ alert_id a)) [
    El "div" (if isCritical a then "bg-red-500/10 text-red-500" else "bg-orange-500/10 text-orange-400")
      [Text ("S" +:+ of_Z (alert_severity a))];
    Text (unscore (alert_type a)); Text (alert_id a);
    Button false (Some (CcAcknowledge (alert_id a))) [Text "ACKNOWLEDGE"];
    Button false (Some (CcAssign (alert_id a))) [Text "ASSIGN"];
    Button false None [Text "INVESTIGATE"]].

Definition cc_alert_panel (s : cc_state) : html cc_event :=
  El "div" "" (
    [El "h3" "" [Text "Active High-Priority Alerts";
                 El "span" (if cc_alertsConnected s then "bg-red-500 animate-ping" else "bg-slate-600") []]]
    ++ when (negb (cc_alertsConnected s))
         [Text "⚠️"; Text "Live alerts feed disconnected — showing last known data."]
    ++ match cc_alerts s with
       | [] => [Text "No active alerts."]
       | l => alert_row <$> l
       end).

Definition cc_view (now : Z) (s : cc_state) : list (html cc_event) :=
  let f := fallback_of now (cc_agentEvents s) in
  [SystemHealthBar (cc_agentConnected s) (cc_alertsConnected s) (cc_metricsError s)
     (fs_activeProvider f);
   El "h1" "" [Text "Good Evening, Analyst"];
   El "p" "" [Text "System metrics and active investigations are operating nominally."];
   map_events (fun _ => CcRiskAck)
     (resilience_view (ResilienceProps (fs_activeProvider f) (fs_isDegraded f)
        (fs_fallbackRuleTriggered f)
        (if cc_agentConnected s then ConnConnected else ConnDisconnected)
        (te_event <$> cc_agentEvents s)) (cc_acknowledged s));
   kpi_card s "Events Ingestion" "GB/24H" (fun m => of_Z (sm_eventsIngestGB24h m));
   kpi_card s "Data Ingestion" "TB/24H" (fun m => of_Z (sm_dataIngestTB24h m));
   kpi_card s "Open Incidents" EmptyString (fun m => of_Z (sm_openIncidents m));
   kpi_card s "Prevented Events" EmptyString (fun m => number_format (sm_preventedEvents m));
   cc_alert_panel s;
   El "h3" "" [Text "Agent Triage Feed";
               El "span" (if cc_agentConnected s then "bg-blue-500 animate-pulse" else "bg-slate-600") []]]
  ++ when (negb (cc_agentConnected s)) [Text "⚠️"; Text "Live agent feed disconnected."]
  ++ [map_events CcFeed (feed_view locale_time (cc_feed s)); El "AgentChatWidget" "" []].
End View.

(** ** Properties *)
Lemma known_alert prev a :
  existsb (fun b => String.eqb (alert_id b) (alert_id a)) prev = true <->
  alert_id a ∈ alert_id <$> prev.
Proof.
  rewrite existsb_exists, list_elem_of_fmap. setoid_rewrite String.eqb_eq.
  setoid_rewrite <-list_elem_of_In. naive_solver.
Qed.

(** The alert stream keeps one entry per identifier: a message without an
    identifier or with a known one changes nothing, any other adds exactly
    that alert; the list is then ordered by decreasing severity number, and
    among equal ones the new alert comes first. *)
Lemma alert_stream_unique a prev :
  NoDup (alert_id <$> prev) ->
  let l := on_alert (Some a) prev in
  NoDup (alert_id <$> l) /\
  ((alert_id a = EmptyString \/ alert_id a ∈ alert_id <$> prev) -> l = prev) /\
  (alert_id a <> EmptyString -> alert_id a ∉ alert_id <$> prev ->
     l ≡ₚ a :: prev /\ StronglySorted (key_ge alert_severity) l /\
     head (filter (fun b => alert_severity b = alert_severity a) l) = Some a).
Proof.
  intros Hnd l. subst l. unfold on_alert.
  destruct (String.eqb_spec (alert_id a) EmptyString) as [E|E]; [by split_and!|].
  destruct (existsb _ prev) eqn:Ek.
  - apply known_alert in Ek. by split_and!.
  - assert (Hk : alert_id a ∉ alert_id <$> prev).
    { intros H%known_alert. congruence. }
    split_and!.
    + rewrite js_sort_perm. by apply NoDup_cons.
    + naive_solver.
    + intros _ _. split; [apply js_sort_perm|]. split; [apply js_sort_desc_sorted|].
      rewrite js_sort_desc_stable, filter_cons, decide_True by done. done.
Qed.

(** The page marks the severities 1 and 2 as critical but lists alerts by
    decreasing number: after every new alert, each critical alert comes below
    all the others. *)
Lemma critical_alerts_last a prev l1 x l2 y l3 :
  alert_id a <> EmptyString -> alert_id a ∉ alert_id <$> prev ->
  on_alert (Some a) prev = l1 ++ x :: l2 ++ y :: l3 ->
  isCritical x = true -> isCritical y = true.
Proof.
  intros E Hk Hl Hx. unfold on_alert in Hl.
  rewrite (proj2 (String.eqb_neq _ _) E) in Hl.
  destruct (existsb _ prev) eqn:Ek; [by apply known_alert in Ek|].
  pose proof (js_sort_desc_sorted alert_severity (a :: prev)) as Hs. rewrite Hl in Hs.
  unfold isCritical in *. rewrite Z.leb_le in *.
  assert (key_ge alert_severity x y); [|unfold key_ge in *; lia].
  clear -Hs. induction l1 as [|z l1 IH]; simpl in Hs; apply StronglySorted_inv in Hs as [Hs Hf]; [|auto].
  rewrite Forall_forall in Hf. apply Hf. set_solver.
Qed.

Lemma find_rev_split {A} (p : A -> bool) (l : list A) x :
  List.find p (rev l) = Some x ->
  exists pre post, l = pre ++ x :: post /\ p x = true /\ Forall (fun y => p y = false) post.
Proof.
  induction l as [|y l IH] using rev_ind; [done|]. rewrite rev_app_distr. simpl.
  destruct (p y) eqn:E.
  - intros ?. simplify_eq. exists l, []. by split_and!.
  - intros (pre & post & -> & Hx & Hp)%IH. exists pre, (post ++ [y]).
    rewrite <-app_assoc. split; [done|]. split; [done|]. apply Forall_app. by split; [|constructor].
Qed.

(** What the page says about the engine is decided by the latest fallback
    event alone: with one received within the last ten minutes it names that
    event's provider and shows exactly one of "degraded" and "static
    ruleset", the latter exactly for the static provider; with none, or only
    older ones, it shows the baseline. *)
Lemma fallback_status_spec now evs :
  (exists pre e post, evs = pre ++ e :: post /\ ae_fallbackTriggered (te_event e) = true /\
     Forall (fun x => ae_fallbackTriggered (te_event x) = false) post /\
     (now - te_receivedAt e <= 600000)%Z /\
     let s := fallback_of now evs in
     fs_isDegraded s = negb (fs_fallbackRuleTriggered s) /\
     (fs_fallbackRuleTriggered s = true <-> ae_provider (te_event e) = Some "static_ruleset") /\
     (fs_isDegraded s = true -> fs_activeProvider s = ae_provider (te_event e))) \/
  ((forall e, latestFallbackEvent evs = Some e -> (600000 < now - te_receivedAt e)%Z) /\
   fallback_of now evs = FallbackStatus false false (Some "openai/gpt-4o")).
Proof.
  unfold fallback_of. destruct (latestFallbackEvent evs) as [e|] eqn:E; [|by right].
  unfold STALENESS_WINDOW_MS. destruct (Z.ltb_spec (10 * 60 * 1000) (now - te_receivedAt e)).
  - right. split; [|done]. intros e' [= <-]. lia.
  - left. apply find_rev_split in E as (pre & post & -> & He & Hp).
    exists pre, e, post. split_and!; [done|done|done|lia|done| |].
    + simpl. apply bool_decide_eq_true.
    + simpl. intros Hn. by destruct (bool_decide _).
Qed.

(** Acknowledging removes an alert only after the backend accepted it, and
    exactly the alerts with that identifier; a refused request leaves the
    list as it was. *)
Lemma acknowledge_spec s k id r :
  fl_map (cc_flight s) !! k = Some (CKAcknowledge id) ->
  let s' := fst (cc_handle (CcPatched k r) s) in
  (cc_alerts (fst (cc_handle (CcAcknowledge id) s)) = cc_alerts s) /\
  (forall a, a ∈ cc_alerts s' <->
     a ∈ cc_alerts s /\ match r with HttpOk _ => alert_id a <> id | HttpErr _ => True end) /\
  fl_map (cc_flight s') !! k = None.
Proof.
  intros Hk. cbn [cc_handle]. unfold cc_patched. rewrite Hk.
  destruct r; simpl; rewrite lookup_delete_eq; split_and!; try done; intros a.
  - rewrite list_elem_of_filter. naive_solver.
  - naive_solver.
Qed.

Definition demo_alert (i : string) (sev : Z) : Alert :=
  {| alert_id := i; alert_type := "BRUTE_FORCE"; alert_severity := sev |}.

Lemma alert_stream_unique_witness :
  NoDup (alert_id <$> on_alert (Some (demo_alert "a" 1)) [demo_alert "b" 4]).
Proof. apply (alert_stream_unique (demo_alert "a" 1) [demo_alert "b" 4]). apply NoDup_singleton. Defined.

Lemma critical_alerts_last_witness : isCritical (demo_alert "a" 1) = true.
Proof.
  apply (critical_alerts_last (demo_alert "a" 1) [demo_alert "b" 4; demo_alert "c" 2]
    [demo_alert "b" 4] (demo_alert "c" 2) [] (demo_alert "a" 1) []);
    [discriminate|apply (bool_decide_eq_true_1 _); reflexivity|reflexivity|reflexivity].
Defined.

Lemma acknowledge_spec_witness :
  let s := fst (cc_handle (CcAcknowledge "a")
    (CcState None false [demo_alert "a" 1] true [] true (feed_mount []) false false fl_empty)) in
  fl_map (cc_flight (fst (cc_handle (CcPatched 0 (HttpOk tt)) s))) !! 0 = None.
Proof. intros s. apply (acknowledge_spec s 0 "a" (HttpOk tt)). reflexivity. Defined.
