(* ===== verification/MessageStore.v ===== *)
(** * Message objects

    The chat widgets keep their messages as JavaScript objects that a stream
    handler may mutate in place.  A list of messages is a list of references
    into a store of objects, and an updater passed to React's state setter is
    a function on both. *)
From S2P Require Import Prelude.

Section Store.
Context {M : Type}.

Record store := Store { st_objs : gmap nat M; st_next : nat }.

Definition st_empty : store := Store ∅ 0.

Definition st_alloc (m : M) (h : store) : store * nat :=
  (Store (<[st_next h := m]> (st_objs h)) (S (st_next h)), st_next h).

Definition st_deref (h : store) (refs : list nat) : list M :=
  omap (fun r => st_objs h !! r) refs.

Definition updater := store -> list nat -> store * list nat.

(** [prev => [...prev, m]] *)
Definition push_message (m : M) : updater := fun h prev =>
  let '(h, r) := st_alloc m h in (h, prev ++ [r]).

(** What React does with an updater: under [React.StrictMode] it calls it
    twice on the same list. *)
Definition run_updater (strict : bool) (u : updater) (h : store) (prev : list nat)
    : store * list nat :=
  if strict then u (fst (u h prev)) prev else u h prev.

(** The references are distinct and live, and the store is fresh above its
    counter. *)
Definition refs_ok (h : store) (refs : list nat) : Prop :=
  NoDup refs /\ Forall (fun r => is_Some (st_objs h !! r) /\ r < st_next h) refs /\
  (forall r, is_Some (st_objs h !! r) -> r < st_next h).

Lemma refs_ok_empty : refs_ok st_empty [].
Proof.
  split; [apply NoDup_nil_2|]. split; [done|]. intros r [x Hx]. simpl in Hx. by rewrite lookup_empty in Hx.
Qed.

Lemma deref_app h l1 l2 : st_deref h (l1 ++ l2) = st_deref h l1 ++ st_deref h l2.
Proof. apply omap_app. Qed.

Lemma deref_insert objs n n' r m refs :
  r ∉ refs -> st_deref (Store (<[r := m]> objs) n) refs = st_deref (Store objs n') refs.
Proof.
  intros Hr. unfold st_deref. apply list_omap_ext. apply Forall_Forall2_diag, Forall_forall.
  intros x Hx. simpl. rewrite lookup_insert_ne; [done|]. by intros ->.
Qed.

Lemma deref_single objs n r m : objs !! r = Some m -> st_deref (Store objs n) [r] = [m].
Proof. intros H. unfold st_deref. simpl. by rewrite H. Qed.

Lemma refs_fresh h refs : refs_ok h refs -> st_next h ∉ refs.
Proof. intros (_ & Hf & _) Hin. rewrite Forall_forall in Hf. destruct (Hf _ Hin). lia. Qed.

Lemma push_refines m h refs :
  refs_ok h refs ->
  let '(h', refs') := push_message m h refs in
  refs_ok h' refs' /\ st_deref h' refs' = st_deref h refs ++ [m].
Proof.
  intros Hok. pose proof (refs_fresh h refs Hok) as Hfr. destruct Hok as (Hnd & Hf & Hb).
  destruct h as [objs n]. simpl in *. split; [split; [|split]|].
  - apply NoDup_app. split; [done|]. split; [|apply NoDup_singleton].
    intros x Hx ->%list_elem_of_singleton. done.
  - apply Forall_app. split.
    + eapply Forall_impl; [exact Hf|]. intros r [Hr Hl]. simpl. rewrite lookup_insert_is_Some'. auto.
    + apply Forall_singleton. simpl. rewrite lookup_insert_eq. split; [by eexists|lia].
  - intros r. simpl. rewrite lookup_insert_is_Some'. intros [->|Hr%Hb]; lia.
  - rewrite deref_app, (deref_insert objs (S n) n) by done. f_equal.
    apply deref_single. apply lookup_insert_eq.
Qed.

(** The last reference of a list, and what it holds. *)
Lemma deref_last h pre r :
  refs_ok h (pre ++ [r]) ->
  exists m, st_objs h !! r = Some m /\ st_deref h (pre ++ [r]) = st_deref h pre ++ [m] /\ r ∉ pre.
Proof.
  intros (Hnd & Hf & _). rewrite Forall_app, Forall_singleton in Hf. destruct Hf as [_ [[m Hm] _]].
  exists m. split; [done|]. split.
  - rewrite deref_app. f_equal. destruct h. by apply deref_single.
  - apply NoDup_app in Hnd as (_ & Hnd & _). intros H%Hnd. apply H. left.
Qed.

(** Mutating the last object changes the last message and no other. *)
Lemma mutate_last_refines h pre r m :
  refs_ok h (pre ++ [r]) ->
  let h' := Store (<[r := m]> (st_objs h)) (st_next h) in
  refs_ok h' (pre ++ [r]) /\ st_deref h' (pre ++ [r]) = st_deref h pre ++ [m].
Proof.
  intros Hok. destruct (deref_last _ _ _ Hok) as (m0 & Hm0 & _ & Hni). destruct Hok as (Hnd & Hf & Hb).
  split; [split; [done|]; split|].
  - eapply Forall_impl; [exact Hf|]. intros x [Hx Hl]. simpl. rewrite lookup_insert_is_Some'. auto.
  - intros x. simpl. rewrite lookup_insert_is_Some'. intros [<-|Hx]; apply Hb; by eauto.
  - rewrite deref_app. destruct h as [objs n]. cbn [st_objs st_next]. rewrite (deref_insert objs n n) by done.
    f_equal. apply (deref_single _ n). apply lookup_insert_eq.
Qed.
End Store.
Arguments store : clear implicits.
Arguments updater : clear implicits.
