(* ===== verification/Sockets.v ===== *)
(** * Browser sockets that reconnect

    The widgets that open their own [WebSocket] share a shape: [connect]
    creates a socket and stores it in a reference, the close handler starts a
    timer that calls [connect] again, and the cleanup of the effect closes the
    socket of the reference.  A chain is a socket that is not closed yet or a
    timer that will open one. *)
From S2P Require Import Prelude.

Inductive ready := WsConnecting | WsOpen | WsClosing | WsClosed.
#[export] Instance ready_eq_dec : EqDecision ready.
Proof. solve_decision. Defined.

(** Socket [i] is the [i]-th one created. *)
Record pool := Pool { po_socks : list ready; po_timers : nat; po_ref : option nat }.

Definition po_init : pool := Pool [] 0 None.

Definition po_connect (p : pool) : pool :=
  Pool (po_socks p ++ [WsConnecting]) (po_timers p) (Some (length (po_socks p))).

(** [close] takes effect when the close event arrives; on a socket that is
    closing or closed it does nothing. *)
Definition po_close_ref (p : pool) : pool :=
  match po_ref p with
  | Some i =>
      match po_socks p !! i with
      | Some WsConnecting | Some WsOpen => Pool (<[i := WsClosing]> (po_socks p)) (po_timers p) (po_ref p)
      | _ => p
      end
  | None => p
  end.

Definition po_opened (i : nat) (p : pool) : pool := Pool (<[i := WsOpen]> (po_socks p)) (po_timers p) (po_ref p).
Definition po_closed (i : nat) (p : pool) : pool := Pool (<[i := WsClosed]> (po_socks p)) (S (po_timers p)) (po_ref p).
Definition po_fired (p : pool) : pool := po_connect (Pool (po_socks p) (pred (po_timers p)) (po_ref p)).

(** Connecting or open. *)
Definition active (r : ready) : Prop := r = WsConnecting \/ r = WsOpen.

(** Closing the socket of the reference leaves only others active. *)
Lemma close_ref_active p i r :
  po_socks (po_close_ref p) !! i = Some r -> active r -> po_socks p !! i = Some r /\ po_ref p <> Some i.
Proof.
  unfold po_close_ref. intros Hi Hr. destruct (po_ref p) as [j|] eqn:Ej; [|done].
  assert (Hins : forall x, po_socks p !! j = Some x -> <[j := WsClosing]> (po_socks p) !! i = Some r ->
    po_socks p !! i = Some r /\ Some j <> Some i).
  { intros x Hx Hl. apply list_lookup_insert_Some in Hl as [(_ & <- & _)|[Hne Hl]]; [by destruct Hr|].
    split; [done|]. congruence. }
  destruct (po_socks p !! j) as [[]|] eqn:Es; try (by eapply Hins); (split; [done|]); intros [= ->];
    rewrite Es in Hi; by destruct Hr; simplify_eq.
Qed.

Definition is_live (r : ready) : bool := bool_decide (r <> WsClosed).
Definition live (l : list ready) : nat := length (List.filter is_live l).
Definition chains (p : pool) : nat := live (po_socks p) + po_timers p.
Definition open_count (p : pool) : nat := length (List.filter (fun r => bool_decide (r = WsOpen)) (po_socks p)).

Lemma live_app l k : live (l ++ k) = live l + live k.
Proof. unfold live. by rewrite List.filter_app, length_app. Qed.

Lemma live_cons r l : live (r :: l) = (if is_live r then 1 else 0) + live l.
Proof. unfold live. simpl. by destruct (is_live r). Qed.

Lemma live_insert l i r r' :
  l !! i = Some r -> live (<[i := r']> l) + (if is_live r then 1 else 0) = live l + (if is_live r' then 1 else 0).
Proof.
  revert i. induction l as [|x l IH]; intros [|i] H; simplify_eq/=; rewrite ?live_cons; [lia|].
  specialize (IH i H). lia.
Qed.

Lemma chains_connect p : chains (po_connect p) = S (chains p).
Proof. unfold chains. simpl. rewrite live_app. change (live [WsConnecting]) with 1. lia. Qed.

Lemma chains_close_ref p : chains (po_close_ref p) = chains p.
Proof.
  unfold po_close_ref. destruct (po_ref p) as [i|]; [|done].
  destruct (po_socks p !! i) as [[]|] eqn:E; try done; unfold chains; simpl;
    pose proof (live_insert _ _ _ WsClosing E) as H; simpl in H; lia.
Qed.

Lemma chains_opened i p : po_socks p !! i = Some WsConnecting -> chains (po_opened i p) = chains p.
Proof. intros E. pose proof (live_insert _ _ _ WsOpen E) as H. unfold chains. simpl in *. lia. Qed.

Lemma chains_closed i r p : po_socks p !! i = Some r -> r <> WsClosed -> chains (po_closed i p) = chains p.
Proof.
  intros E Hr. pose proof (live_insert _ _ _ WsClosed E) as H. unfold chains. simpl in *.
  assert (is_live r = true) as Hl by (by apply bool_decide_eq_true_2). rewrite Hl in H. lia.
Qed.

Lemma chains_fired p : 0 < po_timers p -> chains (po_fired p) = chains p.
Proof. intros H. unfold po_fired. rewrite chains_connect. unfold chains. simpl. lia. Qed.

Lemma open_le_live l : length (List.filter (fun r => bool_decide (r = WsOpen)) l) <= live l.
Proof.
  induction l as [|r l IH]; [done|]. rewrite live_cons. simpl. unfold is_live.
  repeat case_bool_decide; subst; simpl; try lia; done.
Qed.

(** When nothing is changing, every chain is an open socket. *)
Lemma settled_open p :
  po_timers p = 0 -> Forall (fun r => r = WsOpen \/ r = WsClosed) (po_socks p) -> open_count p = chains p.
Proof.
  intros Ht Hs. unfold chains, open_count. rewrite Ht, Nat.add_0_r.
  induction Hs as [|r l Hr _ IH]; [done|]. rewrite live_cons. destruct Hr as [-> | ->]; simpl; lia.
Qed.
