(* ===== verification/AgentChat.v ===== *)
(** * Agent chat ([features/investigations/ui/AgentChatWidget.tsx])

    The floating assistant.  Messages are JavaScript objects that the stream
    handler mutates in place, so the state is a list of references into a
    store of messages ([MessageStore]); an updater is called once, or twice on
    the same list under [React.StrictMode] ([main.tsx]) in development.  Sockets are
    modelled with their ready states; [wsRef] is the widget's reference,
    which every [onclose] clears.  A chunk is a string. *)
From S2P Require Import Prelude JsString Html MessageStore Sockets.

Inductive chat_role := RUser | RAgent.
#[export] Instance chat_role_eq_dec : EqDecision chat_role.
Proof. solve_decision. Defined.

Record message := Message { ms_role : chat_role; ms_text : string; ms_provider : option string }.

Record chunk_data := ChunkData {
  cd_error : option string; cd_chunk : string; cd_provider : option string; cd_done : bool }.

(** The updater of [onmessage]: a new agent message, or the last one mutated. *)
Definition append_chunk (d : chunk_data) : updater message := fun h prev =>
  match last prev with
  | Some r =>
      match st_objs h !! r with
      | Some (Message RAgent text provider) =>
          (Store (<[r := Message RAgent (text +:+ cd_chunk d)
                           (match cd_provider d with
                            | Some p => if String.eqb p EmptyString then provider else Some p
                            | None => provider
                            end)]> (st_objs h)) (st_next h), prev)
      | _ => push_message (Message RAgent (cd_chunk d) (cd_provider d)) h prev
      end
  | None => push_message (Message RAgent (cd_chunk d) (cd_provider d)) h prev
  end.

(** ** Sockets and state *)
Record chat_state := ChatState {
  ch_mounted : bool;
  ch_isOpen : bool;
  ch_isMinimized : bool;
  ch_input : string;
  ch_store : store message;
  ch_messages : list nat;
  ch_isTyping : bool;
  ch_wsRef : option nat;
  ch_sockets : list ready }.             (* socket [i] is the [i]-th one created *)

Inductive chat_event :=
| ChOpen
| ChClose
| ChMinimize (b : bool)
| ChInput (v : string)
| ChSubmit
| ChWsOpen (i : nat)
| ChWsMessage (i : nat) (d : chunk_data)
| ChWsClose (i : nat)
| ChUnmount.

Inductive chat_effect := WsConnect (i : nat) | WsSend (i : nat) (text : string) | InvalidState.

Definition ch_set_sockets ws socks s := ChatState (ch_mounted s) (ch_isOpen s) (ch_isMinimized s)
  (ch_input s) (ch_store s) (ch_messages s) (ch_isTyping s) ws socks.
Definition ch_set_open o m s := ChatState (ch_mounted s) o m (ch_input s) (ch_store s)
  (ch_messages s) (ch_isTyping s) (ch_wsRef s) (ch_sockets s).
Definition ch_set_messages hm t s := ChatState (ch_mounted s) (ch_isOpen s) (ch_isMinimized s)
  (ch_input s) hm.1 hm.2 t (ch_wsRef s) (ch_sockets s).
Definition ch_set_input v t s := ChatState (ch_mounted s) (ch_isOpen s) (ch_isMinimized s)
  v (ch_store s) (ch_messages s) t (ch_wsRef s) (ch_sockets s).

(** The effect's cleanup, with the [isOpen] of the render it belongs to:
    [ws.close()] takes effect when the close event arrives. *)
Definition chat_cleanup (isOpen : bool) (s : chat_state) : chat_state :=
  match isOpen, ch_wsRef s with
  | false, Some i => ch_set_sockets None (<[i := WsClosing]> (ch_sockets s)) s
  | _, _ => s
  end.

(** The effect itself. *)
Definition chat_effect_run (s : chat_state) : chat_state * list chat_effect :=
  match ch_isOpen s, ch_wsRef s with
  | true, None =>
      let i := length (ch_sockets s) in
      (ch_set_sockets (Some i) (ch_sockets s ++ [WsConnecting]) s, [WsConnect i])
  | _, _ => (s, [])
  end.

Definition chat_mount (defaultOpen : bool) (defaultInput : string) : chat_state * list chat_effect :=
  chat_effect_run (ChatState true defaultOpen false defaultInput (Store ∅ 0) [] false None []).

(** [setIsOpen(o)]: when the value changes, the old cleanup, then the effect. *)
Definition set_isOpen (o minimized : bool) (s : chat_state) : chat_state * list chat_effect :=
  if Bool.eqb (ch_isOpen s) o then (ch_set_open o minimized s, [])
  else chat_effect_run (ch_set_open o minimized (chat_cleanup (ch_isOpen s) s)).

Section Handle.
Context (strict : bool).

Definition handleSubmit (s : chat_state) : chat_state * list chat_effect :=
  if String.eqb (trim (ch_input s)) EmptyString then (s, [])
  else match ch_wsRef s with
       | None => (s, [])
       | Some i =>
           let s1 := ch_set_messages
             (run_updater strict (push_message (Message RUser (ch_input s) None))
                (ch_store s) (ch_messages s)) (ch_isTyping s) s in
           match ch_sockets s !! i with
           | Some WsConnecting => (s1, [InvalidState])     (* [send] throws *)
           | Some WsOpen => (ch_set_input EmptyString true s1, [WsSend i (ch_input s)])
           | _ => (ch_set_input EmptyString true s1, [])   (* silently discarded *)
           end
       end.

Definition on_chat_message (d : chunk_data) (s : chat_state) : chat_state :=
  if truthy_str (cd_error d) then
    ch_set_messages (run_updater strict
      (push_message (Message RAgent ("Error: " +:+ nullish (cd_error d) EmptyString) None))
      (ch_store s) (ch_messages s)) false s
  else
    ch_set_messages (run_updater strict (append_chunk d) (ch_store s) (ch_messages s))
      (if cd_done d then false else ch_isTyping s) s.

Definition chat_handle (e : chat_event) (s : chat_state) : chat_state * list chat_effect :=
  match e with
  | ChOpen => set_isOpen true (ch_isMinimized s) s
  | ChClose => set_isOpen false false s
  | ChMinimize b => (ch_set_open (ch_isOpen s) b s, [])
  | ChInput v => (ch_set_input v (ch_isTyping s) s, [])
  | ChSubmit => handleSubmit s
  | ChWsOpen i => (ch_set_sockets (ch_wsRef s) (<[i := WsOpen]> (ch_sockets s)) s, [])
  | ChWsMessage _ d => (on_chat_message d s, [])
  | ChWsClose i => (ch_set_sockets None (<[i := WsClosed]> (ch_sockets s)) s, [])
  | ChUnmount =>
      let s := chat_cleanup (ch_isOpen s) s in
      (ChatState false (ch_isOpen s) (ch_isMinimized s) (ch_input s) (ch_store s) (ch_messages s)
         (ch_isTyping s) (ch_wsRef s) (ch_sockets s), [])
  end.

(** ** The rendered widget *)
Definition message_view (m : message) : html chat_event :=
  let user := bool_decide (ms_role m = RUser) in
  El "div" (if user then "items-end" else "items-start") (
    [El "div" (if user then "bg-indigo-600 text-white" else "bg-slate-800 text-slate-200")
       [Text (ms_text m)]]
    ++ when (negb user && truthy_str (ms_provider m))
         [Text ("Generated via " +:+ nullish (ms_provider m) EmptyString)]).

Definition chat_view (s : chat_state) : html chat_event :=
  let msgs := st_deref (ch_store s) (ch_messages s) in
  if negb (ch_isOpen s) then Button false (Some ChOpen) []
  else if ch_isMinimized s then
    Clickable (ChMinimize false) [
      Text ("AI Assistant (" +:+ of_nat_str (length msgs) +:+ ")");
      Button false (Some ChClose) [Text "✕"]]
  else
    El "div" "" ([
      El "h3" "" [Text "AI Assistant"];
      El "p" "" [Text "Read-only Context • Cannot Isolate Hosts"];
      Button false (Some (ChMinimize true)) []; Button false (Some ChClose) []]
      ++ when (bool_decide (length msgs = 0))
           [Text "Ask me to summarize alerts, explain risks, or correlate events."]
      ++ (message_view <$> msgs)
      ++ when (ch_isTyping s) [El "div" "animate-bounce" []]
      ++ [Input false (ch_input s) ChInput;
          (* the submit button; disabled it also blocks the Enter key *)
          Button (String.eqb (trim (ch_input s)) EmptyString) (Some ChSubmit) []]).

Definition chat_enabled (s : chat_state) (e : chat_event) : Prop :=
  match e with
  | ChWsOpen i => ch_sockets s !! i = Some WsConnecting
  | ChWsMessage i _ => ch_sockets s !! i = Some WsOpen
  | ChWsClose i => exists r, ch_sockets s !! i = Some r /\ r <> WsClosed
  | ChUnmount => ch_mounted s = true
  | _ => ch_mounted s = true /\ offers (chat_view s) e
  end.
End Handle.

(** ** The transcript as a value *)
Definition spec_chunk (d : chunk_data) (l : list message) : list message :=
  match last l with
  | Some (Message RAgent text provider) =>
      take (length l - 1) l ++
      [Message RAgent (text +:+ cd_chunk d)
         (match cd_provider d with
          | Some p => if String.eqb p EmptyString then provider else Some p
          | None => provider
          end)]
  | _ => l ++ [Message RAgent (cd_chunk d) (cd_provider d)]
  end.

Definition spec_handle (e : chat_event) (s : chat_state) (l : list message) : list message :=
  match e with
  | ChSubmit =>
      if String.eqb (trim (ch_input s)) EmptyString then l
      else if ch_wsRef s then l ++ [Message RUser (ch_input s) None] else l
  | ChWsMessage _ d =>
      if truthy_str (cd_error d)
      then l ++ [Message RAgent ("Error: " +:+ nullish (cd_error d) EmptyString) None]
      else spec_chunk d l
  | _ => l
  end.

Definition transcript (s : chat_state) : list message := st_deref (ch_store s) (ch_messages s).

Lemma chunk_refines d h refs :
  refs_ok h refs ->
  let '(h', refs') := append_chunk d h refs in
  refs_ok h' refs' /\ st_deref h' refs' = spec_chunk d (st_deref h refs).
Proof.
  intros Hok. pose proof (push_refines (Message RAgent (cd_chunk d) (cd_provider d)) h refs Hok) as Hpush.
  unfold append_chunk, spec_chunk. destruct (last refs) as [r|] eqn:El.
  - apply last_Some in El as [pre ->]. destruct (deref_last _ _ _ Hok) as (m & Hm & Ed & _).
    rewrite Ed, last_snoc, Hm. rewrite Ed in Hpush. destruct m as [[] text prov]; [done|].
    rewrite length_app, Nat.add_sub, take_app_length. by apply mutate_last_refines.
  - by apply last_None in El as ->.
Qed.

Lemma chat_step_refines e s :
  refs_ok (ch_store s) (ch_messages s) ->
  let s' := fst (chat_handle false e s) in
  refs_ok (ch_store s') (ch_messages s') /\ transcript s' = spec_handle e s (transcript s).
Proof.
  intros Hok. unfold transcript.
  assert (Hset : forall o m, let s' := fst (set_isOpen o m s) in
    ch_store s' = ch_store s /\ ch_messages s' = ch_messages s).
  { intros o m. unfold set_isOpen, chat_cleanup, chat_effect_run.
    destruct (Bool.eqb _ _), (ch_isOpen s), (ch_wsRef s) eqn:E, o; simpl; rewrite ?E; done. }
  destruct e; try done; cbn [chat_handle spec_handle].
  - destruct (Hset true (ch_isMinimized s)) as [-> ->]. done.
  - destruct (Hset false false) as [-> ->]. done.
  - unfold handleSubmit. destruct (String.eqb _ _); [done|]. destruct (ch_wsRef s) as [i|]; [|done].
    pose proof (push_refines (Message RUser (ch_input s) None) _ _ Hok) as H.
    unfold run_updater. destruct (push_message _ _ _) as [h' refs'].
    destruct (ch_sockets s !! i) as [[]|]; done.
  - unfold on_chat_message, run_updater. destruct (truthy_str _).
    + pose proof (push_refines (Message RAgent ("Error: " +:+ nullish (cd_error d) EmptyString) None)
        _ _ Hok) as H. by destruct (push_message _ _ _) as [h' refs'].
    + pose proof (chunk_refines d _ _ Hok) as H. by destruct (append_chunk _ _ _) as [h' refs'].
  - unfold chat_cleanup. destruct (ch_isOpen s), (ch_wsRef s); done.
Qed.

Lemma chat_mount_ok o i : refs_ok (ch_store (fst (chat_mount o i))) (ch_messages (fst (chat_mount o i))).
Proof. pose proof (refs_ok_empty (M := message)). by destruct o. Qed.

(** C30: outside strict mode the in-place updates are invisible: in every
    execution each event changes the transcript exactly as the value-level
    specification says, where a chunk extends the last message when it is the
    agent's and starts a new one otherwise; earlier messages never change. *)
Theorem chat_transcript_refines o i es qs s e :
  run chat_enabled (chat_handle false) (fst (chat_mount o i)) es qs s ->
  chat_enabled s e ->
  transcript (fst (chat_handle false e s)) = spec_handle e s (transcript s) /\
  (length (transcript s) - 1 <= length (transcript (fst (chat_handle false e s))) /\
   take (length (transcript s) - 1) (transcript (fst (chat_handle false e s))) =
   take (length (transcript s) - 1) (transcript s)).
Proof.
  intros Hrun _.
  assert (Hok : refs_ok (ch_store s) (ch_messages s)).
  { revert Hrun. apply (run_invariant _ _ (fun s => refs_ok (ch_store s) (ch_messages s)));
      [apply chat_mount_ok|]. intros s' e' H _. by apply chat_step_refines. }
  destruct (chat_step_refines e s Hok) as [_ ->]. split; [done|].
  generalize (transcript s). intros l.
  assert (Happ : forall m, length l - 1 <= length (l ++ m) /\
    take (length l - 1) (l ++ m) = take (length l - 1) l).
  { intros m. rewrite length_app, take_app_le by lia. split; [lia|done]. }
  assert (Hid : length l - 1 <= length l /\ take (length l - 1) l = take (length l - 1) l)
    by (split; [lia|done]).
  destruct e; cbn [spec_handle]; try exact Hid.
  - destruct (String.eqb _ _), (ch_wsRef s); auto.
  - destruct (truthy_str _); [auto|]. unfold spec_chunk.
    destruct (last l) as [[[] ? ?]|]; auto.
    rewrite length_app, length_take, take_app_le by (rewrite length_take; lia).
    rewrite take_take, Nat.min_id. simpl. split; [lia|done].
Qed.

(** Under strict mode React calls the updater twice on the same list, and
    because it mutates the message object, every chunk after the first of an
    answer is shown twice. *)
Lemma chat_strict_doubles_chunk d h pre r text p :
  refs_ok h (pre ++ [r]) -> st_objs h !! r = Some (Message RAgent text p) ->
  cd_chunk d <> EmptyString ->
  let '(h', refs') := run_updater true (append_chunk d) h (pre ++ [r]) in
  option_map ms_text (last (st_deref h' refs')) = Some (text +:+ cd_chunk d +:+ cd_chunk d) /\
  st_deref h' refs' <> spec_chunk d (st_deref h (pre ++ [r])).
Proof.
  intros Hok Hr E. unfold run_updater.
  assert (Hlast : forall h' refs, st_objs h' !! r = Some (Message RAgent (text +:+ cd_chunk d +:+ cd_chunk d)
    (ms_provider (default (Message RAgent "" None) (st_objs h' !! r)))) ->
    last (st_deref h' (refs ++ [r])) = Some (Message RAgent (text +:+ cd_chunk d +:+ cd_chunk d)
    (ms_provider (default (Message RAgent "" None) (st_objs h' !! r))))).
  { intros h' refs H. rewrite deref_app. unfold st_deref at 2. simpl. rewrite H. simpl. apply last_snoc. }
  unfold append_chunk. rewrite last_snoc, Hr. cbn [fst st_objs]. rewrite lookup_insert_eq.
  rewrite insert_insert_eq. split.
  - rewrite Hlast; [done|]. simpl. rewrite lookup_insert_eq. simpl. by rewrite append_assoc.
  - intros Heq.
    pose proof (chunk_refines d h (pre ++ [r]) Hok) as Hone. unfold append_chunk in Hone.
    rewrite last_snoc, Hr in Hone. destruct Hone as [_ Hone]. rewrite <-Hone in Heq.
    apply (f_equal (fun l => option_map ms_text (last l))) in Heq.
    rewrite !deref_app in Heq. unfold st_deref in Heq. simpl in Heq.
    rewrite !lookup_insert_eq, !last_snoc in Heq. simpl in Heq. injection Heq as Heq.
    rewrite append_assoc in Heq. apply append_inj_l in Heq. apply E.
    rewrite <-(append_nil_r (cd_chunk d)) in Heq at 3. by apply append_inj_l in Heq.
Qed.

(** Closing the panel leaves its socket open, since the cleanup sees the
    open state; reopening closes that socket and opens a new one, and when
    the old one's close event arrives it clears the reference to the new
    one: the panel then has a live socket and silently refuses everything
    the analyst submits. *)
Lemma chat_reopen_dead strict s i :
  ch_mounted s = true -> ch_isOpen s = true -> ch_isMinimized s = false ->
  ch_wsRef s = Some i -> ch_sockets s !! i = Some WsOpen ->
  let j := length (ch_sockets s) in
  let es := [ChClose; ChOpen; ChWsOpen j; ChWsClose i] in
  let s' := fst (exec (chat_handle strict) es s) in
  all_enabled chat_enabled (chat_handle strict) es s /\
  ch_sockets (fst (chat_handle strict ChClose s)) !! i = Some WsOpen /\
  ch_sockets s' !! j = Some WsOpen /\ ch_isOpen s' = true /\ ch_wsRef s' = None /\
  forall v, let s2 := fst (chat_handle strict (ChInput v) s') in
    chat_handle strict ChSubmit s2 = (s2, []).
Proof.
  intros Hm Ho Hmin Hw Hs j es s'.
  assert (Hij : i < j) by (by apply lookup_lt_Some in Hs).
  assert (E1 : chat_handle strict ChClose s = (ch_set_open false false s, [])).
  { cbn [chat_handle]. unfold set_isOpen, chat_cleanup, chat_effect_run. rewrite Ho. done. }
  set (s1 := ch_set_open false false s) in *.
  set (socks := <[i := WsClosing]> (ch_sockets s)).
  assert (E2 : chat_handle strict ChOpen s1 =
    (ch_set_open true false (ch_set_sockets (Some j) (socks ++ [WsConnecting]) s1), [WsConnect j])).
  { cbn [chat_handle]. unfold set_isOpen, chat_cleanup, chat_effect_run, s1. simpl. rewrite Hw. simpl.
    unfold j. by rewrite length_insert. }
  set (s2 := ch_set_open true false _) in E2.
  assert (Hj : (socks ++ [WsConnecting]) !! j = Some WsConnecting).
  { rewrite lookup_app_r; unfold socks; rewrite length_insert; [|done]. by rewrite Nat.sub_diag. }
  assert (Hi : (<[j := WsOpen]> (socks ++ [WsConnecting])) !! i = Some WsClosing).
  { rewrite list_lookup_insert_ne by lia. rewrite lookup_app_l by (unfold socks; rewrite length_insert; lia).
    by apply list_lookup_insert_eq. }
  assert (Hs' : s' = ch_set_sockets None
    (<[i := WsClosed]> (<[j := WsOpen]> (socks ++ [WsConnecting]))) s2).
  { unfold s', es. cbn [exec]. rewrite E1, E2. reflexivity. }
  split; [|split; [by rewrite E1|]].
  - unfold es. cbn [all_enabled]. rewrite E1. cbn [fst]. rewrite E2. cbn [fst chat_enabled chat_handle].
    split; [split; [done|]|split; [split; [done|]|split; [done|split; [|done]]]].
    + unfold chat_view. rewrite Ho, Hmin. cbn [negb]. rewrite offers_El, offers_any_app. left.
      offers_find.
    + apply offers_click.
    + by exists WsClosing.
  - rewrite Hs'. simpl. rewrite list_lookup_insert_ne by lia.
    rewrite list_lookup_insert_eq by (by apply lookup_lt_Some in Hj).
    split_and!; [done..|]. intros v. unfold handleSubmit. simpl. by destruct (String.eqb _ _).
Qed.

Definition demo_chat : chat_state := fst (exec (chat_handle false) [ChWsOpen 0] (fst (chat_mount true ""))).

Lemma chat_reopen_dead_witness :
  ch_wsRef (fst (exec (chat_handle false) [ChClose; ChOpen; ChWsOpen 1; ChWsClose 0] demo_chat)) = None.
Proof.
  destruct (chat_reopen_dead false demo_chat 0 eq_refl eq_refl eq_refl eq_refl eq_refl)
    as (_ & _ & _ & _ & H & _). exact H.
Defined.

Lemma chat_strict_doubles_chunk_witness :
  let h := Store {[0 := Message RAgent "He" None]} 1 in
  option_map ms_text (last (st_deref
    (fst (run_updater true (append_chunk (ChunkData None "llo" None false)) h [0]))
    (snd (run_updater true (append_chunk (ChunkData None "llo" None false)) h [0]))))
  = Some "Hellollo".
Proof.
  intros h.
  refine (proj1 (chat_strict_doubles_chunk (ChunkData None "llo" None false) h [] 0 "He" None _ _ _));
    [|reflexivity|discriminate].
  split; [apply NoDup_singleton|]. split.
  - apply Forall_singleton. split; [by eexists|]. simpl. lia.
  - intros r [m Hm]. simpl in *. apply lookup_singleton_Some in Hm as [<- _]. lia.
Defined.

Lemma chat_transcript_refines_witness :
  transcript (fst (chat_handle false (ChWsMessage 0 (ChunkData None "Hi" None true)) demo_chat)) =
  [Message RAgent "Hi" None].
Proof.
  destruct (chat_transcript_refines true "" [ChWsOpen 0] _ demo_chat
    (ChWsMessage 0 (ChunkData None "Hi" None true))
    (exec_run chat_enabled (chat_handle false) [ChWsOpen 0] (fst (chat_mount true "")) (conj eq_refl I)))
    as [H _]; [reflexivity|].
  rewrite H. reflexivity.
Defined.
