(* ===== verification/Playbooks.v ===== *)
(** * Playbooks ([features/playbooks/store/PlaybookContext.tsx],
      [features/playbooks/ui/PlaybookSandbox.tsx])

    The store that runs a playbook with one request, and the sandbox that
    streams an execution over a socket into a cache of executions.  Socket
    [i] belongs to the [i]-th run; its handlers captured the playbook it was
    opened for, while [activeWsRef] is shared by all runs. *)
From S2P Require Import Prelude JsString Html Types Http AsyncState SharedUi.

(** ** [PlaybookContext] *)
Record playbook_answer := PlaybookAnswer {
  pa_playbook_id : string; pa_execution_time : string; pa_logs : list string }.

Definition newline : string := String (Ascii.ascii_of_nat 10) EmptyString.

Record px_state := PxState {
  px_playbooks : list Playbook;
  px_selected : option Playbook;
  px_output : option string }.

Inductive px_event :=
| PxLoaded (r : http_result (list Playbook))
| PxSelect (p : option Playbook)
| PxSetOutput (o : option string)
| PxRun (p : Playbook)
| PxRan (r : http_result playbook_answer).

Inductive px_effect := PostRun (id target justification : string).

Definition px_run_output (r : http_result playbook_answer) : string :=
  match r with
  | HttpOk a =>
      "[SUCCESS]" +:+ newline +:+ newline +:+ "Playbook: " +:+ pa_playbook_id a +:+ newline
      +:+ "Execution Time: " +:+ pa_execution_time a +:+ newline +:+ newline +:+ "Logs:" +:+ newline
      +:+ join newline (pa_logs a)
  | HttpErr e =>
      "[FAILED] Playbook execution error:" +:+ newline
      +:+ nullish (he_detail e) (nullish (he_message e) "Unknown error")
  end.

Definition px_handle (e : px_event) (s : px_state) : px_state * list px_effect :=
  match e with
  | PxLoaded (HttpOk l) => (PxState l (px_selected s) (px_output s), [])
  | PxLoaded (HttpErr _) => (s, [])
  | PxSelect p => (PxState (px_playbooks s) p (px_output s), [])
  | PxSetOutput o => (PxState (px_playbooks s) (px_selected s) o, [])
  | PxRun p =>
      (PxState (px_playbooks s) (px_selected s)
         (Some ("[SANDBOX EXECUTION] Contacting backend for '" +:+ pb_name p +:+ "'..." +:+ newline)),
       [PostRun (pb_id p) "demo_target" "Manual execution from Frontend Dashboard"])
  | PxRan r => (PxState (px_playbooks s) (px_selected s) (Some (px_run_output r)), [])
  end.

(** ** [PlaybookSandbox] *)
Inductive exec_status := Queued | Running | Succeeded | Failed.
#[export] Instance exec_status_eq_dec : EqDecision exec_status.
Proof. solve_decision. Defined.

Definition exec_status_str (x : exec_status) : string :=
  match x with Queued => "queued" | Running => "running" | Succeeded => "success" | Failed => "failed" end.

Record ExecutionState := Execution {
  ex_status : exec_status;
  ex_output : list string;
  ex_exitCode : option Z;
  ex_duration : option Z }.

(** Socket [i]: the playbook it runs and whether it is still open. *)
Record sandbox_socket := SandboxSocket { sk_playbook : string; sk_closing : bool; sk_closed : bool }.

Record sb_state := SbState {
  sb_selected : option Playbook;
  sb_cache : gmap string ExecutionState;
  sb_activeWs : option nat;
  sb_sockets : list sandbox_socket;
  sb_async : async (list Playbook) }.

(** A stream message: not JSON, an end marker, or a JSON value with an
    optional [output]; [raw] is the text received. *)
Inductive sb_message :=
| MsgText (raw : string)
| MsgEnd (exitCode duration : option Z)
| MsgJson (raw : string) (output : option string).

Inductive sb_event :=
| SbExecute
| SbLoaded (r : http_result (option (list Playbook)))
| SbSelect (p : Playbook)
| SbRun (id : string)
| SbStop (id : string)
| SbOpen (i : nat)
| SbMessage (i : nat) (m : sb_message)
| SbClosed (i : nat).

Inductive sb_effect := GetPlaybooks | OpenStream (i : nat) (path : string).

Definition sb_set_cache c s := SbState (sb_selected s) c (sb_activeWs s) (sb_sockets s) (sb_async s).
Definition sb_set_ws w k s := SbState (sb_selected s) (sb_cache s) w k (sb_async s).
Definition sb_set_async a s := SbState (sb_selected s) (sb_cache s) (sb_activeWs s) (sb_sockets s) a.

(** [ws.close()]: the close event comes later. *)
Definition close_socket (i : nat) (ks : list sandbox_socket) : list sandbox_socket :=
  alter (fun k => SandboxSocket (sk_playbook k) true (sk_closed k)) i ks.

(** [{ ...prev, [id]: f(prev[id]) }]; the handlers run only for a playbook
    that has an entry. *)
Definition update_exec (id : string) (f : ExecutionState -> ExecutionState)
    (c : gmap string ExecutionState) : gmap string ExecutionState := alter f id c.

Definition add_line (line : string) (x : ExecutionState) : ExecutionState :=
  Execution (ex_status x) (ex_output x ++ [line]) (ex_exitCode x) (ex_duration x).
Definition with_status (st : exec_status) (x : ExecutionState) : ExecutionState :=
  Execution st (ex_output x) (ex_exitCode x) (ex_duration x).

Definition runPlaybook (id : string) (s : sb_state) : sb_state * list sb_effect :=
  let sockets := match sb_activeWs s with Some i => close_socket i (sb_sockets s) | None => sb_sockets s end in
  let i := length sockets in
  (SbState (sb_selected s)
     (<[id := Execution Queued ["> Initiating sandbox execution container..."] None None]> (sb_cache s))
     (Some i) (sockets ++ [SandboxSocket id false false]) (sb_async s),
   [OpenStream i ("/api/playbooks/" +:+ id +:+ "/execute/stream")]).

Definition stopExecution (id : string) (s : sb_state) : sb_state :=
  match sb_activeWs s with
  | None => s
  | Some i =>
      sb_set_cache (update_exec id (fun x => add_line "> Execution forcibly terminated by user."
                                               (with_status Failed x)) (sb_cache s))
        (sb_set_ws (sb_activeWs s) (close_socket i (sb_sockets s)) s)
  end.

Definition on_stream_open (id : string) (x : ExecutionState) : ExecutionState :=
  add_line "> Connected to sandbox stream..." (with_status Running x).

Definition on_stream_message (m : sb_message) (x : ExecutionState) : ExecutionState :=
  match m with
  | MsgText raw => add_line raw x
  | MsgEnd code dur =>
      Execution (if bool_decide (code = Some 0%Z) then Succeeded else Failed) (ex_output x) code dur
  | MsgJson raw o => add_line (or_str o raw) x
  end.

Definition sb_handle (e : sb_event) (s : sb_state) : sb_state * list sb_effect :=
  match e with
  | SbExecute => (sb_set_async (async_start (sb_async s)) s, [GetPlaybooks])
  | SbLoaded r =>
      (sb_set_async (match r with
                     | HttpOk o => async_ok (nullish o []) (sb_async s)
                     | HttpErr e => async_fail (he_message e) (sb_async s)
                     end) s, [])
  | SbSelect p => (SbState (Some p) (sb_cache s) (sb_activeWs s) (sb_sockets s) (sb_async s), [])
  | SbRun id => runPlaybook id s
  | SbStop id => (stopExecution id s, [])
  | SbOpen i =>
      (match sb_sockets s !! i with
       | Some k => sb_set_cache (update_exec (sk_playbook k) (on_stream_open (sk_playbook k)) (sb_cache s)) s
       | None => s
       end, [])
  | SbMessage i m =>
      (match sb_sockets s !! i with
       | Some k => sb_set_cache (update_exec (sk_playbook k) (on_stream_message m) (sb_cache s)) s
       | None => s
       end, [])
  | SbClosed i =>
      (sb_set_ws None (alter (fun k => SandboxSocket (sk_playbook k) (sk_closing k) true) i (sb_sockets s)) s, [])
  end.

Definition currentExec (s : sb_state) : option ExecutionState :=
  p ← sb_selected s; sb_cache s !! pb_id p.

(** *** The rendered page *)
Definition sb_list (s : sb_state) : html sb_event :=
  El "div" "" (
    [El "h2" "" [Text "Playbooks"]]
    ++ when (as_loading (sb_async s)) [LoadingSkeleton 4]
    ++ when_some (as_error (sb_async s)) (fun _ => [ErrorState "Failed to load playbooks" (Some SbExecute)])
    ++ ((fun p => Button false (Some (SbSelect p))
           [El "div" (if bool_decide (pb_id <$> sb_selected s = Some (pb_id p))
                      then "bg-blue-600/20 text-blue-400" else "text-slate-300") [Text (pb_name p)];
            Text ("Trigger: " +:+ pb_trigger p)]) <$> nullish (as_data (sb_async s)) [])).

Definition sb_terminal (s : sb_state) : html sb_event :=
  let status := ex_status <$> currentExec s in
  El "div" (if bool_decide (status = Some Failed) then "border-red-500"
            else if bool_decide (status = Some Succeeded) then "border-green-500"
            else if bool_decide (status = Some Running) then "border-blue-500" else "border-slate-800") (
    [Text "Sandbox Terminal"]
    ++ when_some (currentExec s) (fun x =>
         (* [{duration && ...}] renders a zero *)
         when_some (ex_duration x) (fun d =>
           [Text (if bool_decide (d = 0%Z) then "0" else of_Z d +:+ "ms")])
         ++ when_some (ex_exitCode x) (fun c => [Text ("Exit: " +:+ of_Z c)])
         ++ [Badge (Some (match ex_status x with Running => S4 | Succeeded => S3 | _ => S1 end))
               [Text (exec_status_str (ex_status x))]])
    ++ match currentExec s with
       | Some x => Text <$> ex_output x
       | None => [Text "No output. Click 'Run in Sandbox' to execute."]
       end).

Definition sb_view (s : sb_state) : list (html sb_event) :=
  [sb_list s] ++
  match sb_selected s with
  | Some p =>
      [El "h2" "" [Text (pb_name p)]; El "p" "" [Text ("Trigger: " +:+ pb_trigger p)];
       if bool_decide (ex_status <$> currentExec s = Some Running)
       then Button false (Some (SbStop (pb_id p))) [Text "Stop Execution"]
       else Button false (Some (SbRun (pb_id p))) [Text "Run in Sandbox"];
       El "code" "" [Text (or_str (Some (pb_code p)) "# No source code available")];
       sb_terminal s]
  | None => [Text "Select a playbook from the sidebar to view and execute."]
  end.

(** ** Properties *)
Lemma offers_stop s p :
  sb_selected s = Some p -> ex_status <$> currentExec s = Some Running ->
  offers_any (sb_view s) (SbStop (pb_id p)).
Proof.
  intros Hs Hr. unfold sb_view. rewrite Hs, offers_any_app, !offers_any_cons. right.
  do 2 right. left. rewrite bool_decide_eq_true_2 by done. apply offers_click.
Qed.

Lemma run_lookup s id :
  let s1 := fst (runPlaybook id s) in
  sb_sockets s1 !! length (sb_sockets s) = Some (SandboxSocket id false false).
Proof.
  unfold runPlaybook. simpl. destruct (sb_activeWs s) as [i|]; unfold close_socket;
    rewrite ?length_alter, lookup_app_r, ?length_alter, Nat.sub_diag by (by rewrite ?length_alter); done.
Qed.

(** Starting playbook [b] while [a] runs abandons [a], which the page goes
    on showing as running; its stop button then closes the socket of [b]
    instead, marks [a] as failed and leaves [b] shown as running. *)
Lemma sandbox_stop_other s a b i xa :
  pb_id a <> pb_id b -> sb_activeWs s = Some i ->
  sb_cache s !! pb_id a = Some xa -> ex_status xa = Running ->
  let j := length (sb_sockets s) in
  let s1 := fst (exec sb_handle [SbSelect b; SbRun (pb_id b); SbOpen j; SbSelect a] s) in
  let s2 := fst (sb_handle (SbStop (pb_id a)) s1) in
  offers_any (sb_view s1) (SbStop (pb_id a)) /\
  sb_sockets s1 !! j = Some (SandboxSocket (pb_id b) false false) /\
  sb_sockets s2 !! j = Some (SandboxSocket (pb_id b) true false) /\
  ex_status <$> sb_cache s2 !! pb_id b = Some Running /\
  ex_status <$> sb_cache s2 !! pb_id a = Some Failed.
Proof.
  intros Hab Hw Ha Hra j s1 s2.
  pose proof (run_lookup (fst (sb_handle (SbSelect b) s)) (pb_id b)) as Hk. simpl in Hk.
  assert (Hs1 : sb_sockets s1 !! j = Some (SandboxSocket (pb_id b) false false) /\
    sb_activeWs s1 = Some j /\ sb_selected s1 = Some a /\
    ex_status <$> sb_cache s1 !! pb_id b = Some Running /\ sb_cache s1 !! pb_id a = Some xa).
  { unfold s1, j. cbn [exec sb_handle fst]. unfold runPlaybook. simpl. rewrite Hk, Hw. simpl.
    rewrite Hw in Hk. unfold update_exec, close_socket in *. rewrite length_alter. split_and!; try done.
    - by rewrite lookup_alter_eq, lookup_insert_eq.
    - by rewrite lookup_alter_ne, lookup_insert_ne. }
  destruct Hs1 as (Hj & Hw1 & Hsel & Hb & Ha1). clearbody s1.
  split; [apply offers_stop; [done|]; unfold currentExec; rewrite Hsel; simpl; by rewrite Ha1, <-Hra|].
  split; [done|]. unfold s2. cbn [sb_handle fst]. unfold stopExecution. rewrite Hw1. simpl.
  unfold close_socket, update_exec. split; [|split].
  - rewrite list_lookup_alter_eq, Hj. done.
  - by rewrite lookup_alter_ne.
  - by rewrite lookup_alter_eq, Ha1.
Qed.

(** The close event of a replaced run clears the shared reference, so the
    run that replaced it can no longer be stopped: the stop button of the
    running playbook then changes nothing. *)
Lemma sandbox_unstoppable s i id :
  sb_activeWs s = Some i ->
  let s1 := fst (sb_handle (SbRun id) s) in
  let s2 := fst (sb_handle (SbClosed i) (fst (sb_handle (SbOpen (length (sb_sockets s))) s1))) in
  ex_status <$> sb_cache s2 !! id = Some Running /\
  sb_handle (SbStop id) s2 = (s2, []).
Proof.
  intros Hw. cbn [sb_handle]. unfold runPlaybook. rewrite Hw. simpl.
  assert (E : (close_socket i (sb_sockets s) ++ [SandboxSocket id false false]) !! length (sb_sockets s)
              = Some (SandboxSocket id false false)).
  { rewrite lookup_app_r by (unfold close_socket; by rewrite length_alter).
    unfold close_socket. by rewrite length_alter, Nat.sub_diag. }
  rewrite E. simpl. unfold update_exec. by rewrite lookup_alter_eq, lookup_insert_eq.
Qed.

Definition demo_pb (i : string) : Playbook :=
  {| pb_id := i; pb_name := i; pb_trigger := "alert"; pb_code := "" |}.
Lemma sandbox_unstoppable_witness :
  let s := fst (exec sb_handle [SbRun "a"; SbOpen 0] (SbState (Some (demo_pb "a")) ∅ None [] async_init)) in
  let s2 := fst (exec sb_handle [SbRun "b"; SbOpen 1; SbClosed 0] s) in
  sb_handle (SbStop "b") s2 = (s2, []).
Proof. intros s s2. refine (proj2 (sandbox_unstoppable s 0 "b" _)). reflexivity. Defined.

Lemma sandbox_stop_other_witness :
  let s := fst (exec sb_handle [SbRun "a"; SbOpen 0] (SbState (Some (demo_pb "a")) ∅ None [] async_init)) in
  let s1 := fst (exec sb_handle [SbSelect (demo_pb "b"); SbRun "b"; SbOpen 1; SbSelect (demo_pb "a")] s) in
  sb_sockets (fst (sb_handle (SbStop "a") s1)) !! 1 = Some (SandboxSocket "b" true false).
Proof.
  intros s s1.
  destruct (sandbox_stop_other s (demo_pb "a") (demo_pb "b") 0
    (Execution Running ["> Initiating sandbox execution container...";
                        "> Connected to sandbox stream..."] None None)) as (_ & _ & H & _);
    [discriminate|reflexivity|reflexivity|reflexivity|exact H].
Defined.
