(* ===== verification/Settings.v ===== *)
(** * Settings ([pages/settings/SettingsPage.tsx])

    The full settings page: profile, notifications, API keys, tenants and the
    danger zone.  The two dialogs keep their own state, which starts afresh
    each time they are mounted. *)
From S2P Require Import Prelude JsString Html Http.

Record ApiKey := MkApiKey {
  ak_id : string; ak_name : string; ak_maskedValue : string; ak_createdAt : string; ak_lastUsed : option string }.
Record Notifications := MkNotifications { no_email : bool; no_inApp : bool; no_critical : bool }.
Record UserProfile := MkProfile {
  up_name : string; up_email : string; up_role : string; up_tier : string; up_timezone : string;
  up_defaultDashboard : string; up_notifications : Notifications; up_apiKeys : list ApiKey }.

Definition MOCK_PROFILE : UserProfile :=
  MkProfile "Principal Analyst" "analyst@soc.internal" "SOC Analyst" "Tier 3 / System Engineer" "Asia/Manila" "overview"
    (MkNotifications true true true)
    [MkApiKey "k1" "CI/CD Pipeline Key" "sk-soc-****-****-****-abcd" "2026-06-01" (Some "2026-07-17T08:00:00Z");
     MkApiKey "k2" "SIEM Integration Key" "sk-soc-****-****-****-ef12" "2026-05-15" None].

Definition TIMEZONES : list string :=
  ["UTC"; "Asia/Manila"; "America/New_York"; "America/Los_Angeles"; "Europe/London"; "Europe/Berlin"].

Inductive settings_section := SecProfile | SecNotifications | SecApiKeys | SecPlatform | SecTenants.
#[export] Instance settings_section_eq_dec : EqDecision settings_section.
Proof. solve_decision. Defined.

(** What the confirmation of the danger dialog does. *)
Inductive danger_action := RevokeSessions | RevokeKey (id : string).
Record danger := Danger { dg_phrase : string; dg_label : string; dg_action : danger_action; dg_input : string }.

(** The state of one mounted tenant dialog. *)
Record tenant_dialog := TenantDialog { td_instance : nat; td_tenantId : string; td_openAI : string; td_loading : bool }.

Record provision_result := ProvisionResult { pr_tenant_id : string; pr_clickhouse_db : string; pr_webhook_secret : string }.

Inductive se_kont := SKLoad | SKSave | SKRevoke | SKTenant (inst : nat).
#[export] Instance se_kont_eq_dec : EqDecision se_kont.
Proof. solve_decision. Defined.

Record se_state := SettingsState {
  se_profile : option UserProfile;
  se_loading : bool;
  se_saving : bool;
  se_saved : bool;
  se_section : settings_section;
  se_danger : option danger;
  se_tenant : option tenant_dialog;
  se_nextInstance : nat;
  se_provision : option provision_result;
  se_savedTimers : nat;
  se_flight : flight se_kont }.

Inductive se_effect :=
| GetSettings | PatchSettings (p : option UserProfile) | PostRevokeAll
| PostTenant (tenant_id openai_key : string) | SeAlert (msg : string).

Inductive se_event :=
| SeMount | SeSection (x : settings_section)
| SeName (v : string) | SeEmail (v : string) | SeTimezone (v : string)
| SeNotifyEmail (b : bool) | SeNotifyInApp (b : bool) | SeNotifyCritical (b : bool)
| SeSave | SeSavedTimer
| SeNewKey | SeRevokeKey (k : ApiKey) | SeRevokeAll
| SeDangerInput (v : string) | SeDangerConfirm | SeDangerCancel
| SeTenantOpen | SeTenantClose | SeTenantId (v : string) | SeOpenAI (v : string) | SeProvision
| SeLoaded (k : nat) (r : http_result (option UserProfile))
| SePatched (k : nat) (r : http_result unit)
| SeRevoked (k : nat) (r : http_result unit)
| SeProvisioned (k : nat) (r : http_result provision_result).

Definition se_init : se_state :=
  SettingsState None true false false SecProfile None None 0 None 0 fl_empty.

Definition se_set_profile p l s := SettingsState p l (se_saving s) (se_saved s) (se_section s) (se_danger s)
  (se_tenant s) (se_nextInstance s) (se_provision s) (se_savedTimers s) (se_flight s).
Definition se_set_save g d t s := SettingsState (se_profile s) (se_loading s) g d (se_section s) (se_danger s)
  (se_tenant s) (se_nextInstance s) (se_provision s) t (se_flight s).
Definition se_set_danger d s := SettingsState (se_profile s) (se_loading s) (se_saving s) (se_saved s) (se_section s) d
  (se_tenant s) (se_nextInstance s) (se_provision s) (se_savedTimers s) (se_flight s).
Definition se_set_tenant t n p s := SettingsState (se_profile s) (se_loading s) (se_saving s) (se_saved s) (se_section s)
  (se_danger s) t n p (se_savedTimers s) (se_flight s).
Definition se_set_section x s := SettingsState (se_profile s) (se_loading s) (se_saving s) (se_saved s) x
  (se_danger s) (se_tenant s) (se_nextInstance s) (se_provision s) (se_savedTimers s) (se_flight s).
Definition se_set_flight f s := SettingsState (se_profile s) (se_loading s) (se_saving s) (se_saved s) (se_section s)
  (se_danger s) (se_tenant s) (se_nextInstance s) (se_provision s) (se_savedTimers s) f.
Definition se_await k s := se_set_flight (fl_await k (se_flight s)) s.
Definition se_forget k s := se_set_flight (fl_forget k (se_flight s)) s.

(** [setProfile(prev => prev ? { ...prev, ... } : prev)] *)
Definition se_edit (f : UserProfile -> UserProfile) (s : se_state) : se_state := se_set_profile (f <$> se_profile s) (se_loading s) s.

Definition with_name v p := MkProfile v (up_email p) (up_role p) (up_tier p) (up_timezone p) (up_defaultDashboard p) (up_notifications p) (up_apiKeys p).
Definition with_email v p := MkProfile (up_name p) v (up_role p) (up_tier p) (up_timezone p) (up_defaultDashboard p) (up_notifications p) (up_apiKeys p).
Definition with_timezone v p := MkProfile (up_name p) (up_email p) (up_role p) (up_tier p) v (up_defaultDashboard p) (up_notifications p) (up_apiKeys p).
Definition with_notifications f p := MkProfile (up_name p) (up_email p) (up_role p) (up_tier p) (up_timezone p) (up_defaultDashboard p) (f (up_notifications p)) (up_apiKeys p).
Definition without_key id p := MkProfile (up_name p) (up_email p) (up_role p) (up_tier p) (up_timezone p) (up_defaultDashboard p) (up_notifications p)
  (List.filter (fun k => negb (String.eqb (ak_id k) id)) (up_apiKeys p)).

(** ** Handlers *)
Definition fetchData (s : se_state) : se_state * list se_effect :=
  (se_await SKLoad (se_set_profile (se_profile s) true s), [GetSettings]).

(** A failed load shows the sample profile. *)
Definition fetchData_done (r : http_result (option UserProfile)) (s : se_state) : se_state :=
  se_set_profile (match r with HttpOk p => p | HttpErr _ => Some MOCK_PROFILE end) false s.

Definition save (s : se_state) : se_state * list se_effect :=
  (se_await SKSave (se_set_save true (se_saved s) (se_savedTimers s) s), [PatchSettings (se_profile s)]).

Definition save_done (r : http_result unit) (s : se_state) : se_state * list se_effect :=
  match r with
  | HttpOk _ => (se_set_save false true (S (se_savedTimers s)) s, [])
  | HttpErr _ => (se_set_save false (se_saved s) (se_savedTimers s) s, [SeAlert "Settings save failed — backend not yet wired."])
  end.

(** Mounting the dialog starts with an empty field; a dialog that is already
    mounted keeps its own. *)
Definition open_danger (phrase label : string) (a : danger_action) (s : se_state) : se_state :=
  se_set_danger (Some (Danger phrase label a (match se_danger s with Some d => dg_input d | None => EmptyString end))) s.

Definition revokeAllSessions (s : se_state) : se_state :=
  open_danger "REVOKE ALL SESSIONS" "This will immediately sign out all active sessions including your current one." RevokeSessions s.

Definition dq : string := String (ascii_of_nat 34) EmptyString.

Definition revokeKey (k : ApiKey) (s : se_state) : se_state :=
  open_danger (ak_name k)
    ("Revoking " +:+ dq +:+ ak_name k +:+ dq +:+ " will permanently invalidate it. Any integrations using it will fail.")
    (RevokeKey (ak_id k)) s.

Definition danger_isMatch (d : danger) : bool := String.eqb (trim (dg_input d)) (dg_phrase d).

Definition danger_confirm (s : se_state) : se_state * list se_effect :=
  match se_danger s with
  | None => (s, [])
  | Some d =>
      let s := se_set_danger None s in
      match dg_action d with
      | RevokeSessions => (se_await SKRevoke s, [PostRevokeAll])
      | RevokeKey id => (se_edit (without_key id) s, [])
      end
  end.

Definition handleProvision (s : se_state) : se_state * list se_effect :=
  match se_tenant s with
  | None => (s, [])
  | Some t =>
      if String.eqb (td_tenantId t) EmptyString then (s, [SeAlert "Tenant ID is required."])
      else (se_await (SKTenant (td_instance t))
              (se_set_tenant (Some (TenantDialog (td_instance t) (td_tenantId t) (td_openAI t) true)) (se_nextInstance s) (se_provision s) s),
            [PostTenant (td_tenantId t) (td_openAI t)])
  end.

(** Success closes whatever tenant dialog is open; a failure clears the flag
    of the dialog that asked, if it is still mounted. *)
Definition handleProvision_done (inst : nat) (r : http_result provision_result) (s : se_state) : se_state * list se_effect :=
  match r with
  | HttpOk p => (se_set_tenant None (se_nextInstance s) (Some p) s, [])
  | HttpErr e =>
      (se_set_tenant (match se_tenant s with
         | Some t => Some (if td_instance t =? inst then TenantDialog inst (td_tenantId t) (td_openAI t) false else t)
         | None => None
         end) (se_nextInstance s) (se_provision s) s,
       [SeAlert ("Failed to provision: " +:+ or_str (he_detail e) (nullish (he_message e) "undefined"))])
  end.

Definition se_handle (e : se_event) (s : se_state) : se_state * list se_effect :=
  match e with
  | SeMount => fetchData s
  | SeSection x => (se_set_section x s, [])
  | SeName v => (se_edit (with_name v) s, [])
  | SeEmail v => (se_edit (with_email v) s, [])
  | SeTimezone v => (se_edit (with_timezone v) s, [])
  | SeNotifyEmail b => (se_edit (with_notifications (fun n => MkNotifications b (no_inApp n) (no_critical n))) s, [])
  | SeNotifyInApp b => (se_edit (with_notifications (fun n => MkNotifications (no_email n) b (no_critical n))) s, [])
  | SeNotifyCritical b => (se_edit (with_notifications (fun n => MkNotifications (no_email n) (no_inApp n) b)) s, [])
  | SeSave => save s
  | SeSavedTimer => (se_set_save (se_saving s) false (pred (se_savedTimers s)) s, [])
  | SeNewKey => (s, [SeAlert "Create Key — backend integration pending"])
  | SeRevokeKey k => (revokeKey k s, [])
  | SeRevokeAll => (revokeAllSessions s, [])
  | SeDangerInput v => (se_set_danger ((fun d => Danger (dg_phrase d) (dg_label d) (dg_action d) v) <$> se_danger s) s, [])
  | SeDangerConfirm => danger_confirm s
  | SeDangerCancel => (se_set_danger None s, [])
  | SeTenantOpen =>
      (match se_tenant s with
       | Some _ => s
       | None => se_set_tenant (Some (TenantDialog (se_nextInstance s) EmptyString EmptyString false)) (S (se_nextInstance s)) (se_provision s) s
       end, [])
  | SeTenantClose => (se_set_tenant None (se_nextInstance s) (se_provision s) s, [])
  | SeTenantId v => (se_set_tenant ((fun t => TenantDialog (td_instance t) v (td_openAI t) (td_loading t)) <$> se_tenant s) (se_nextInstance s) (se_provision s) s, [])
  | SeOpenAI v => (se_set_tenant ((fun t => TenantDialog (td_instance t) (td_tenantId t) v (td_loading t)) <$> se_tenant s) (se_nextInstance s) (se_provision s) s, [])
  | SeProvision => handleProvision s
  | SeLoaded k r => (fetchData_done r (se_forget k s), [])
  | SePatched k r => save_done r (se_forget k s)
  | SeRevoked k r =>
      (se_forget k s, match r with HttpOk _ => [] | HttpErr _ => [SeAlert "Revoke sessions — backend not yet wired."] end)
  | SeProvisioned k r =>
      match fl_map (se_flight s) !! k with
      | Some (SKTenant inst) => handleProvision_done inst r (se_forget k s)
      | _ => (s, [])
      end
  end.

(** ** The rendered page *)
Section View.
Context (hostname : string) (locale_string : string -> string).

(** A click on the overlay cancels. *)
Definition DangerConfirmModal (d : danger) : html se_event :=
  Clickable SeDangerCancel (
    [El "h2" "" [Text "DANGER ZONE"]; El "p" "" [Text (dg_label d)];
     El "p" "" [Text ("Type " +:+ dg_phrase d +:+ " to confirm:")];
     Input false (dg_input d) SeDangerInput;
     El "span" (if (0 <? String.length (dg_input d)) && negb (danger_isMatch d) then "input-error" else "") []]
    ++ when (danger_isMatch d) [El "p" "" [Text "✔ Confirmed"]]
    ++ [Button false (Some SeDangerCancel) [Text "Cancel"];
        Button (negb (danger_isMatch d)) (Some SeDangerConfirm) [Text "Proceed"]]).

Definition TenantModal (t : tenant_dialog) : html se_event :=
  Clickable SeTenantClose [
    El "h2" "" [Text "Provision New Tenant"];
    Text "Tenant ID (e.g. acme-corp)"; Input false (td_tenantId t) SeTenantId;
    Text "OpenAI Key (Optional)"; Input false (td_openAI t) SeOpenAI;
    Button (td_loading t) (Some SeTenantClose) [Text "Cancel"];
    Button (td_loading t) (Some SeProvision) [Text (if td_loading t then "Provisioning..." else "Provision Tenant")]].

Definition sections : list (settings_section * string) :=
  [(SecProfile, "👤 Profile"); (SecNotifications, "🔔 Notifications"); (SecApiKeys, "🔑 API Keys");
   (SecTenants, "🏢 Tenant Management"); (SecPlatform, "⚙ Platform")].

Definition section_tab (s : se_state) (x : settings_section * string) : html se_event :=
  Clickable (SeSection (fst x))
    [El "div" (if bool_decide (se_section s = fst x) then "#38bdf8" else "#94a3b8") [Text (snd x)]].

Definition save_button (s : se_state) (label : string) : html se_event :=
  Button (se_saving s) (Some SeSave) [Text (if se_saving s then "⏳ Saving…" else label)].

Definition profile_section (s : se_state) (p : UserProfile) : html se_event :=
  El "div" "" [
    El "h3" "" [Text "User Profile"];
    Text "Full Name"; Input false (up_name p) SeName;
    Text "Email"; Input false (up_email p) SeEmail;
    Text "Role / Tier"; Text (up_role p +:+ " — " +:+ up_tier p);
    save_button s "💾 Save Changes"].

Definition notifications_section (s : se_state) (p : UserProfile) : html se_event :=
  let n := up_notifications p in
  El "div" "" [
    El "h3" "" [Text "Notification Preferences"];
    checkbox (no_email n) (SeNotifyEmail (negb (no_email n))); Text "Email Notifications";
    checkbox (no_inApp n) (SeNotifyInApp (negb (no_inApp n))); Text "In-App Notifications";
    checkbox (no_critical n) (SeNotifyCritical (negb (no_critical n))); Text "Critical Alert Paging";
    save_button s "💾 Save Preferences"].

Definition key_card (k : ApiKey) : html se_event :=
  El "div" "" [
    Text (ak_name k); Text (ak_maskedValue k);
    Text ("Created: " +:+ ak_createdAt k +:+ " · Last used: " +:+
          (if truthy_str (ak_lastUsed k) then locale_string (nullish (ak_lastUsed k) EmptyString) else "Never"));
    Button false (Some (SeRevokeKey k)) [Text "Revoke"]].

Definition keys_section (p : UserProfile) : html se_event :=
  El "div" "" (El "h3" "" [Text "API Keys"] :: Button false (Some SeNewKey) [Text "+ New Key"] :: (key_card <$> up_apiKeys p)).

Definition tenants_section (s : se_state) : html se_event :=
  El "div" "" (
    [El "h3" "" [Text "Tenant Administration"]; Text "Provision and manage multi-tenant workspaces automatically.";
     Button false (Some SeTenantOpen) [Text "+ Onboard Tenant"]]
    ++ when_some (se_provision s) (fun r => [
         El "h4" "" [Text "✅ Tenant Provisioned Successfully"];
         Text "Tenant ID:"; Text (pr_tenant_id r); Text "Database:"; Text (pr_clickhouse_db r);
         Text "Agent Secret:"; Text (pr_webhook_secret r);
         Text ("Agent instances should use the above secret to authenticate outbound telemetry. The edge gateway has dynamically configured "
               +:+ pr_tenant_id r +:+ "." +:+ hostname +:+ ".")])).

Definition platform_section (s : se_state) (p : UserProfile) : html se_event :=
  El "div" "" [
    El "h3" "" [Text "Platform Preferences"];
    Text "Timezone"; Select (up_timezone p) ((fun z => (z, z)) <$> TIMEZONES) SeTimezone;
    save_button s "💾 Save Platform Settings";
    El "h3" "" [Text "⚠ Danger Zone"]; Text "Revoke All Active Sessions";
    Text "Signs out all devices including this session immediately.";
    Button false (Some SeRevokeAll) [Text "Revoke All"]].

Definition section_view (s : se_state) (p : UserProfile) : html se_event :=
  match se_section s with
  | SecProfile => profile_section s p
  | SecNotifications => notifications_section s p
  | SecApiKeys => keys_section p
  | SecTenants => tenants_section s
  | SecPlatform => platform_section s p
  end.

Definition se_view (s : se_state) : list (html se_event) :=
  match se_loading s, se_profile s with
  | false, Some p =>
      (El "h1" "" [Text "Settings"] :: (section_tab s <$> sections))
      ++ when (se_saved s) [Text "✔ Settings saved successfully"]
      ++ [section_view s p]
      ++ when_some (se_danger s) (fun d => [DangerConfirmModal d])
      ++ when_some (se_tenant s) (fun t => [TenantModal t])
  | _, _ => replicate 3 (El "div" "glass-panel" [])
  end.

Definition se_enabled (s : se_state) (e : se_event) : Prop :=
  match e with
  | SeMount => True
  | SeSavedTimer => 0 < se_savedTimers s
  | SeLoaded k _ => fl_map (se_flight s) !! k = Some SKLoad
  | SePatched k _ => fl_map (se_flight s) !! k = Some SKSave
  | SeRevoked k _ => fl_map (se_flight s) !! k = Some SKRevoke
  | SeProvisioned k _ => exists i, fl_map (se_flight s) !! k = Some (SKTenant i)
  | _ => offers_any (se_view s) e
  end.

(** ** What the page offers *)
Definition se_guard (s : se_state) (e : se_event) : Prop :=
  match e with
  | SeSave => se_saving s = false
  | SeRevokeKey k => exists p, se_profile s = Some p /\ k ∈ up_apiKeys p
  | SeDangerConfirm => exists d, se_danger s = Some d /\ trim (dg_input d) = dg_phrase d
  | SeTimezone v => v ∈ TIMEZONES
  | SeProvision => exists t, se_tenant s = Some t /\ td_loading t = false
  | SeMount | SeSavedTimer | SeLoaded _ _ | SePatched _ _ | SeRevoked _ _ | SeProvisioned _ _ => False
  | _ => True
  end.

Lemma section_guard s p e : se_profile s = Some p -> offers (section_view s p) e -> se_guard s e.
Proof.
  intros Hp. unfold section_view. destruct (se_section s).
  - unfold profile_section, save_button. intros H. offers_cases H; done.
  - unfold notifications_section, save_button. intros H. offers_cases H; done.
  - unfold keys_section. intros H. offers_cases H; [done|]. unfold key_card in H. offers_cases H. by exists p.
  - unfold platform_section, save_button. intros H. offers_cases H; done.
  - unfold tenants_section. intros H. offers_cases H; done.
Qed.

Lemma se_offers_guard s e : offers_any (se_view s) e -> se_guard s e.
Proof.
  unfold se_view. destruct (se_loading s); [cbn [replicate]; intros H; by offers_cases H|].
  destruct (se_profile s) as [p|] eqn:Ep; [|cbn [replicate]; intros H; by offers_cases H].
  rewrite !offers_any_app. intros [H|[H|[H|[H|H]]]].
  - rewrite offers_any_cons, offers_any_map in H. destruct H as [H|(x & _ & H)]; [by offers_cases H|].
    unfold section_tab in H. by offers_cases H.
  - by offers_cases H.
  - rewrite offers_any_cons, offers_any_nil in H. destruct H as [H|[]]. by eapply section_guard.
  - apply offers_any_when_some in H as (d & Hd & H). unfold DangerConfirmModal in H. offers_cases H; try done.
    exists d. split; [done|]. unfold danger_isMatch in *.
    match goal with E : negb _ = false |- _ => apply negb_false_iff, String.eqb_eq in E end. done.
  - apply offers_any_when_some in H as (t & Ht & H). unfold TenantModal in H. offers_cases H; try done. by exists t.
Qed.

(** ** Dangerous actions *)

(** The dialog asks for the phrase of its action. *)
Definition danger_ok (es : list se_event) (d : danger) : Prop :=
  match dg_action d with
  | RevokeSessions => dg_phrase d = "REVOKE ALL SESSIONS"
  | RevokeKey id => exists k, SeRevokeKey k ∈ es /\ ak_id k = id /\ ak_name k = dg_phrase d
  end.

Lemma danger_ok_app es e d : danger_ok es d -> danger_ok (es ++ [e]) d.
Proof.
  unfold danger_ok. destruct (dg_action d); [done|]. intros (k & Hk & H). exists k. split; [|done].
  apply elem_of_app. by left.
Qed.

Lemma danger_invariant es qs s :
  run se_enabled se_handle se_init es qs s -> forall d, se_danger s = Some d -> danger_ok es d.
Proof.
  induction 1 as [|es qs s e s' q _ IH _ Hh]; [done|]. intros d Hd.
  assert (Hs : s' = fst (se_handle e s)) by (by rewrite Hh). rewrite Hs in Hd. clear Hs Hh.
  assert (Hkeep : se_danger s = Some d -> danger_ok (es ++ [e]) d) by (intros H; by apply danger_ok_app, IH).
  destruct e; cbn [se_handle fst] in Hd; try (by apply Hkeep); try discriminate Hd.
  - injection Hd as <-. cbn. exists k. split; [|done]. apply elem_of_app. right. left.
  - by injection Hd as <-.
  - cbn in Hd. destruct (se_danger s) as [d0|] eqn:Ed; [|done]. injection Hd as <-.
    specialize (IH d0 eq_refl). apply (danger_ok_app _ (SeDangerInput v)) in IH. by destruct d0.
  - unfold danger_confirm in Hd. destruct (se_danger s) as [d0|] eqn:Ed; [by destruct (dg_action d0)|].
    cbn [fst] in Hd. congruence.
  - destruct (se_tenant s); by apply Hkeep.
  - unfold handleProvision in Hd. destruct (se_tenant s) as [t|]; [|by apply Hkeep].
    destruct (String.eqb _ _); by apply Hkeep.
  - destruct r; by apply Hkeep.
  - destruct (fl_map (se_flight s) !! k) as [[]|]; try (by apply Hkeep). destruct r; by apply Hkeep.
Qed.

Lemma revoke_all_origin s e : PostRevokeAll ∈ snd (se_handle e s) ->
  e = SeDangerConfirm /\ exists d, se_danger s = Some d /\ dg_action d = RevokeSessions.
Proof.
  intros Hq. destruct e; cbn [se_handle] in Hq; try (by elem_inv Hq).
  - unfold danger_confirm in Hq. destruct (se_danger s) as [d|] eqn:Ed; [|by elem_inv Hq].
    destruct (dg_action d) eqn:Ea; elem_inv Hq. split; [done|]. by exists d.
  - unfold handleProvision in Hq. destruct (se_tenant s) as [t|]; [|by elem_inv Hq].
    destruct (String.eqb _ _); by elem_inv Hq.
  - unfold save_done in Hq. destruct r; by elem_inv Hq.
  - destruct r; by elem_inv Hq.
  - destruct (fl_map (se_flight s) !! k) as [[]|]; try (by elem_inv Hq). unfold handleProvision_done in Hq. destruct r; by elem_inv Hq.
Qed.

Lemma keys_origin s e p p' k :
  se_profile s = Some p -> se_profile (fst (se_handle e s)) = Some p' ->
  k ∈ up_apiKeys p -> k ∉ up_apiKeys p' ->
  (exists i r, e = SeLoaded i r) \/
  (e = SeDangerConfirm /\ exists d, se_danger s = Some d /\ dg_action d = RevokeKey (ak_id k)).
Proof.
  intros Hp Hp' Hk Hk'.
  assert (Hsame : se_profile (fst (se_handle e s)) = se_profile s -> False) by (intros E; rewrite E in Hp'; congruence).
  assert (Hedit : forall f, (forall x, up_apiKeys (f x) = up_apiKeys x) -> Some p' = f <$> se_profile s -> False).
  { intros f Hf E. rewrite Hp in E. injection E as ->. by rewrite Hf in Hk'. }
  destruct e; cbn [se_handle fst] in *; try (by destruct (Hsame eq_refl));
    try (exfalso; by eapply Hedit; [|symmetry; exact Hp']; by intros []).
  - unfold danger_confirm in *. destruct (se_danger s) as [d|] eqn:Ed; [|by destruct (Hsame eq_refl)].
    destruct (dg_action d) as [|id] eqn:Ea; [by destruct (Hsame eq_refl)|]. right. split; [done|]. exists d. split; [done|].
    cbn in Hp'. rewrite Hp in Hp'. injection Hp' as <-. cbn in Hk'. rewrite Ea. f_equal.
    destruct (String.eqb (ak_id k) id) eqn:E; [by apply String.eqb_eq in E|]. exfalso. apply Hk'.
    apply list_elem_of_In, filter_In. split; [by apply list_elem_of_In|]. by rewrite E.
  - destruct (se_tenant s); by destruct (Hsame eq_refl).
  - unfold handleProvision in *. destruct (se_tenant s) as [t|]; [|by destruct (Hsame eq_refl)].
    destruct (String.eqb _ _); by destruct (Hsame eq_refl).
  - left. by eexists _, _.
  - unfold save_done in *. destruct r; by destruct (Hsame eq_refl).
  - destruct (fl_map (se_flight s) !! k0) as [[]|]; try (by destruct (Hsame eq_refl)).
    unfold handleProvision_done in *. destruct r; by destruct (Hsame eq_refl).
Qed.

(** C5: in every execution all sessions are revoked only after the analyst typed the
    fixed phrase, and a key leaves the profile only by a load or after the
    analyst clicked a key with its identifier and typed that key's name. *)
Theorem danger_zone_confirmed es qs s e :
  run se_enabled se_handle se_init es qs s -> se_enabled s e ->
  (PostRevokeAll ∈ snd (se_handle e s) ->
     exists d, se_danger s = Some d /\ trim (dg_input d) = "REVOKE ALL SESSIONS") /\
  (forall p p' k, se_profile s = Some p -> se_profile (fst (se_handle e s)) = Some p' ->
     k ∈ up_apiKeys p -> k ∉ up_apiKeys p' ->
     (exists i r, e = SeLoaded i r) \/
     exists d key, se_danger s = Some d /\ SeRevokeKey key ∈ es /\ ak_id key = ak_id k /\ trim (dg_input d) = ak_name key).
Proof.
  intros Hrun Hen. pose proof (danger_invariant _ _ _ Hrun) as Hinv. split.
  - intros Hq. apply revoke_all_origin in Hq as (-> & d & Hd & Ha). exists d. split; [done|].
    apply se_offers_guard in Hen as (d' & Hd' & Ht). specialize (Hinv d Hd). unfold danger_ok in Hinv. rewrite Ha in Hinv.
    congruence.
  - intros p p' k Hp Hp' Hk Hk'. destruct (keys_origin s e p p' k Hp Hp' Hk Hk') as [H|(-> & d & Hd & Ha)]; [by left|].
    right. apply se_offers_guard in Hen as (d' & Hd' & Ht). specialize (Hinv d Hd). unfold danger_ok in Hinv.
    rewrite Ha in Hinv. destruct Hinv as (key & H1 & H2 & H3). exists d, key. split_and!; [done..|]. congruence.
Qed.

(** ** Saving *)
Definition is_save (k : se_kont) : bool := bool_decide (k = SKSave).

Lemma save_flag es qs s :
  run se_enabled se_handle se_init es qs s -> fl_flag is_save (se_saving s) (se_flight s).
Proof.
  apply (run_invariant _ _ (fun s => fl_flag is_save (se_saving s) (se_flight s))); [apply fl_flag_empty|].
  intros t e H Hen. destruct e; cbn [se_handle fst]; try exact H.
  - by apply fl_flag_await.
  - apply se_offers_guard in Hen. cbn in Hen. rewrite Hen in H. by apply fl_flag_raise.
  - unfold danger_confirm. destruct (se_danger t) as [d|]; [|done]. destruct (dg_action d); [by apply fl_flag_await|done].
  - by destruct (se_tenant t).
  - unfold handleProvision. destruct (se_tenant t) as [x|]; [|done]. destruct (String.eqb _ _); [done|]. by apply fl_flag_await.
  - by apply (fl_flag_forget _ _ _ SKLoad).
  - unfold save_done. destruct r; by apply (fl_flag_lower _ (se_saving t) _ SKSave).
  - by apply (fl_flag_forget _ _ _ SKRevoke).
  - destruct Hen as [i Hi]. rewrite Hi. unfold handleProvision_done. destruct r; by apply (fl_flag_forget _ _ _ (SKTenant i)).
Qed.

Lemma patch_origin s e q : PatchSettings q ∈ snd (se_handle e s) -> e = SeSave /\ q = se_profile s.
Proof.
  intros Hq. destruct e; cbn [se_handle] in Hq; try (by elem_inv Hq).
  - unfold danger_confirm in Hq. destruct (se_danger s) as [d|]; [|by elem_inv Hq]. destruct (dg_action d); by elem_inv Hq.
  - unfold handleProvision in Hq. destruct (se_tenant s) as [t|]; [|by elem_inv Hq].
    destruct (String.eqb _ _); by elem_inv Hq.
  - unfold save_done in Hq. destruct r; by elem_inv Hq.
  - destruct r; by elem_inv Hq.
  - destruct (fl_map (se_flight s) !! k) as [[]|]; try (by elem_inv Hq). unfold handleProvision_done in Hq. destruct r; by elem_inv Hq.
Qed.

(** C39: in every execution a save sends exactly the profile on the screen, and only
    when no other save is pending; the button is free again with its answer,
    whether that is a success or a failure. *)
Lemma save_sends_screen es qs s e q :
  run se_enabled se_handle se_init es qs s -> se_enabled s e -> PatchSettings q ∈ snd (se_handle e s) ->
  q = se_profile s /\ is_Some q /\ (forall k x, fl_map (se_flight s) !! k = Some x -> x <> SKSave) /\
  forall k r, se_saving (fst (se_handle (SePatched k r) (fst (se_handle e s)))) = false.
Proof.
  intros Hrun Hen Hq. apply patch_origin in Hq as [-> ->].
  assert (Hp : is_Some (se_profile s)).
  { cbn in Hen. unfold se_view in Hen. destruct (se_loading s); [cbn [replicate] in Hen; by offers_cases Hen|].
    destruct (se_profile s); [by eexists|]. cbn [replicate] in Hen. by offers_cases Hen. }
  apply save_flag in Hrun. apply se_offers_guard in Hen. cbn in Hen. rewrite Hen in Hrun. split_and!; [done..| |].
  - intros k x Hx ->. by apply (fl_flag_free _ _ _ _ Hrun) in Hx.
  - intros k r. by destruct r.
Qed.

(** When the settings cannot be loaded the page shows a sample profile as if it
    were the analyst's, and saving sends it to the backend in place of the
    real one. *)
Lemma failed_load_overwrites err :
  let es := [SeMount; SeLoaded 0 (HttpErr err); SeSave] in
  all_enabled se_enabled se_handle es se_init /\
  snd (exec se_handle es se_init) = [GetSettings; PatchSettings (Some MOCK_PROFILE)].
Proof.
  cbn zeta. split; [|done]. cbn [all_enabled]. split; [done|]. split; [done|]. split; [|done].
  change (offers_any (se_view (se_set_profile (Some MOCK_PROFILE) false (se_set_flight (fl_forget 0 (fl_await SKLoad fl_empty)) se_init))) SeSave).
  unfold se_view. cbn [se_loading se_profile se_set_profile]. rewrite !offers_any_app. right; right; left.
  unfold section_view. cbn [se_section se_set_profile se_set_flight se_init].
  unfold profile_section, save_button. offers_find.
Qed.
End View.

(** Confirming the revocation of a key sends nothing: the key disappears from
    the screen and works on until the profile is saved. *)
Lemma revoke_key_local s d id :
  se_danger s = Some d -> dg_action d = RevokeKey id -> snd (se_handle SeDangerConfirm s) = [].
Proof. intros Hd Ha. cbn. unfold danger_confirm. by rewrite Hd, Ha. Qed.

(** ** Witnesses *)
Definition demo_se : list se_event :=
  [SeMount; SeLoaded 0 (HttpOk (Some MOCK_PROFILE)); SeSection SecPlatform; SeRevokeAll; SeDangerInput "REVOKE ALL SESSIONS"].
Definition demo_se_state : se_state := fst (exec se_handle demo_se se_init).

Lemma se_modal_offers h l s p d e :
  se_loading s = false -> se_profile s = Some p -> se_danger s = Some d -> offers (DangerConfirmModal d) e ->
  offers_any (se_view h l s) e.
Proof.
  intros Hl Hp Hd H. unfold se_view. rewrite Hl, Hp, Hd, !offers_any_app. right; right; right; left.
  apply offers_any_cons. by left.
Qed.

Lemma se_section_offers h l s p e :
  se_loading s = false -> se_profile s = Some p -> offers (section_view h l s p) e -> offers_any (se_view h l s) e.
Proof.
  intros Hl Hp H. unfold se_view. rewrite Hl, Hp, !offers_any_app. right; right; left. apply offers_any_cons. by left.
Qed.

Lemma demo_se_enabled : all_enabled (se_enabled EmptyString id) se_handle demo_se se_init.
Proof.
  cbn [demo_se all_enabled]. split; [done|]. split; [done|]. split; [|split; [|split; [|done]]].
  - cbn [se_enabled]. unfold se_view.
    change (offers_any ((El "h1" "" [Text "Settings"] :: (section_tab (fst (exec se_handle (take 2 demo_se) se_init)) <$> sections))
      ++ [section_view EmptyString id (fst (exec se_handle (take 2 demo_se) se_init)) MOCK_PROFILE]) (SeSection SecPlatform)).
    rewrite offers_any_app, offers_any_cons, offers_any_map. left; right. exists (SecPlatform, "⚙ Platform").
    split; [apply list_elem_of_In; do 4 right; by left|]. unfold section_tab. offers_find.
  - apply (se_section_offers _ _ _ MOCK_PROFILE); [done..|].
    change (offers (platform_section (fst (exec se_handle (take 3 demo_se) se_init)) MOCK_PROFILE) SeRevokeAll).
    unfold platform_section, save_button. offers_find.
  - eapply se_modal_offers; [done..|]. unfold DangerConfirmModal. offers_find.
Qed.

Lemma demo_confirm_enabled : se_enabled EmptyString id demo_se_state SeDangerConfirm.
Proof. eapply se_modal_offers; [done..|]. unfold DangerConfirmModal. offers_find. Qed.

Lemma danger_zone_confirmed_witness :
  exists d, se_danger demo_se_state = Some d /\ trim (dg_input d) = "REVOKE ALL SESSIONS".
Proof.
  exact (proj1 (danger_zone_confirmed EmptyString id demo_se _ demo_se_state SeDangerConfirm
    (exec_run _ _ _ _ demo_se_enabled) demo_confirm_enabled) (list_elem_of_here _ _)).
Defined.

Lemma save_sends_screen_witness : Some MOCK_PROFILE = se_profile demo_se_state.
Proof.
  refine (proj1 (save_sends_screen EmptyString id demo_se _ demo_se_state SeSave (Some MOCK_PROFILE)
    (exec_run _ _ _ _ demo_se_enabled) _ (list_elem_of_here _ _))).
  apply (se_section_offers _ _ _ MOCK_PROFILE); [done..|].
  change (offers (platform_section demo_se_state MOCK_PROFILE) SeSave). unfold platform_section, save_button. offers_find.
Defined.
