(* ===== verification/Gate.v ===== *)
(** * The two-key promise, as an interface

    Four components guard destructive requests by typed confirmation: the
    detection rules page, the investigation store, the isolation page and
    the settings.
    [TwoKeyComponent] states what each promises about a single step; the
    trace theorem is proved once against the interface, and the components
    discharge it. *)
From S2P Require Import Prelude JsString Html Types TwoKey InvestigationContext AlertRules Isolation Settings.

Section Interface.
Context {S E Q : Type} (enabled : S -> E -> Prop) (handle : E -> S -> S * list Q) (s0 : S).

(** [tk_destructive q]: the request [q] needs a confirmation;
    [tk_confirmed s q]: in [s] the dialog that is open is that of [q] and its
    text has been typed. *)
Class TwoKeyComponent := {
  tk_destructive : Q -> Prop;
  tk_confirmed : S -> Q -> Prop;
  tk_law es qs s e q :
    run enabled handle s0 es qs s -> enabled s e -> q ∈ snd (handle e s) ->
    tk_destructive q -> tk_confirmed s q }.

(** Every request of an execution was sent by one of its events. *)
Lemma effect_origin es qs s q :
  run enabled handle s0 es qs s -> q ∈ qs ->
  exists es1 e es2 qs1 s1, es = es1 ++ e :: es2 /\ run enabled handle s0 es1 qs1 s1 /\
    enabled s1 e /\ q ∈ snd (handle e s1).
Proof.
  induction 1 as [|es qs s e s' q' Hrun IH Hen Hh]; [by intros ?%not_elem_of_nil|].
  intros [Hq|Hq]%elem_of_app.
  - destruct (IH Hq) as (es1 & e1 & es2 & qs1 & s1 & -> & H). exists es1, e1, (es2 ++ [e]), qs1, s1.
    by rewrite <-app_assoc.
  - exists es, e, [], qs, s. split_and!; [done..|]. by rewrite Hh.
Qed.

(** Every destructive request of an execution was sent by an event of it, in a
    state where it was confirmed. *)
Lemma gate_trace `{!TwoKeyComponent} es qs s q :
  run enabled handle s0 es qs s -> q ∈ qs -> tk_destructive q ->
  exists es1 e es2 qs1 s1, es = es1 ++ e :: es2 /\ run enabled handle s0 es1 qs1 s1 /\
    enabled s1 e /\ q ∈ snd (handle e s1) /\ tk_confirmed s1 q.
Proof.
  intros Hrun Hq Hd. destruct (effect_origin es qs s q Hrun Hq) as (es1 & e & es2 & qs1 & s1 & Es & Hr & Hen & Hin).
  exists es1, e, es2, qs1, s1. split_and!; [done..|]. by eapply tk_law.
Qed.
End Interface.

(** ** The components *)
(** Switching off a rule with an automatic response: its name. *)
#[export, refine] Instance rules_two_key : TwoKeyComponent ar_enabled ar_handle ar_init := {
  tk_destructive q := exists r, q = PatchRule r false /\ er_auto r = true;
  tk_confirmed s q := forall r, q = PatchRule r false -> trim (ar_twoKeyInput s) = er_name r }.
Proof.
  intros es qs s e q Hrun _ Hq (r & -> & Ha) r' [= <-].
  by destruct (disable_confirmed es qs s e r Hrun Hq Ha) as (_ & H & _).
Defined.

(** Executing an action of an investigation: its target. *)
#[export, refine] Instance store_two_key : TwoKeyComponent cx_enabled cx_handle cx_init := {
  tk_destructive q := exists a t j r, q = PostExecute a t j r;
  tk_confirmed s q := forall a t j r, q = PostExecute a t j r -> trim (tkm_input (cx_twoKeyModal s)) = t }.
Proof.
  intros es qs s e q _ _ Hq (a & t & j & r & ->) ? ? ? ? [= <- <- <- <-].
  destruct (cx_handle e s) as [s' qs'] eqn:Eh.
  by destruct (execution_origin e s s' qs' a t j r Eh Hq) as (_ & act & _ & H & _).
Defined.

(** Isolating or releasing a host: its name, in the dialog of that host. *)
#[export, refine] Instance isolation_two_key_component locale :
  TwoKeyComponent (iso_enabled locale) iso_handle iso_init := {
  tk_destructive q := exists id, posts id q;
  tk_confirmed s q := forall id, posts id q ->
    exists p, io_pending s = Some p /\ ie_id (ip_host p) = id /\ io_twoKeyInput s = ie_hostname (ip_host p) }.
Proof.
  intros es qs s e q _ Hen Hq _ id Hid.
  destruct (post_origin locale s e id q Hen Hid Hq) as (_ & p & Hp & Hi & H & _). eauto.
Defined.

(** Revoking all sessions: the fixed phrase. *)
#[export, refine] Instance settings_two_key hostname locale :
  TwoKeyComponent (se_enabled hostname locale) se_handle se_init := {
  tk_destructive q := q = PostRevokeAll;
  tk_confirmed s q := exists d, se_danger s = Some d /\ trim (dg_input d) = "REVOKE ALL SESSIONS" }.
Proof.
  intros es qs s e q Hrun Hen Hq ->. apply revoke_all_origin in Hq as (-> & d & Hd & Ha).
  apply se_offers_guard in Hen as (d' & Hd' & Ht). pose proof (danger_invariant _ _ _ _ _ Hrun d Hd) as Hok.
  unfold danger_ok in Hok. rewrite Ha in Hok. exists d. split; [done|]. congruence.
Defined.

(** For instance: every isolation of an execution was sent while the name of
    the very host it isolates stood in the dialog. *)
Lemma isolation_traces locale es qs s id q :
  run (iso_enabled locale) iso_handle iso_init es qs s -> posts id q -> q ∈ qs ->
  exists es1 e es2 qs1 s1 p, es = es1 ++ e :: es2 /\
    run (iso_enabled locale) iso_handle iso_init es1 qs1 s1 /\ q ∈ snd (iso_handle e s1) /\
    io_pending s1 = Some p /\ ie_id (ip_host p) = id /\ io_twoKeyInput s1 = ie_hostname (ip_host p).
Proof.
  intros Hrun Hp Hq. destruct (gate_trace _ _ _ es qs s q Hrun Hq)
    as (es1 & e & es2 & qs1 & s1 & E & Hr & _ & Hin & H); [by exists id|].
  destruct (H id Hp) as (p & ? & ? & ?). exists es1, e, es2, qs1, s1, p. by split_and!.
Qed.
