(* ===== verification/ActiveIncidents.v ===== *)
(** * Active incidents ([pages/incidents/ActiveIncidentsPage.tsx])

    The open incidents with a search field, a selection and a bulk
    reassignment that rewrites the loaded list; the state of an incident's
    deadline is computed from its position in the answer. *)
From Stdlib Require Import QArith Qminmax.
From S2P Require Import Prelude JsString JsSet Html Types Http AsyncState SharedUi Routing.

Local Open Scope nat_scope.

Inductive SlaStatus := SlaOk | SlaWarning | SlaBreached.
#[export] Instance SlaStatus_eq_dec : EqDecision SlaStatus.
Proof. solve_decision. Defined.

(** An incident of the answer; the backend may add an [assignee]. *)
Record RawIncident := MkRawIncident { ri_incident : Incident; ri_assignee : option string }.

Record EnhancedIncident := MkIncident {
  ei_incident : Incident; ei_slaStatus : SlaStatus; ei_assignee : option string }.

Definition ei_id (i : EnhancedIncident) : string := inc_id (ei_incident i).
Definition ei_title (i : EnhancedIncident) : string := inc_title (ei_incident i).

Definition enhance (i : nat) (inc : RawIncident) : EnhancedIncident :=
  MkIncident (ri_incident inc)
    (if i mod 7 =? 0 then SlaBreached else if i mod 4 =? 0 then SlaWarning else SlaOk)
    (ri_assignee inc).

Record state := State {
  st_async : async (list EnhancedIncident);
  st_selectedIds : list string;
  st_showReassignModal : bool;
  st_reassignTarget : string;
  st_searchQuery : string;
  st_flight : flight unit }.

Definition data (s : state) : option (list EnhancedIncident) := as_data (st_async s).
Definition init : state := State async_init [] false EmptyString EmptyString fl_empty.

Inductive effect := GetActive | Navigate (path : string).

Inductive event :=
| Execute
| ToggleSelect (id : string)
| ToggleSelectAll
| SearchFor (v : string)
| OpenIncident (id : string)
| OpenWarRoom (id : string)
| ShowReassign
| ChooseTarget (name : string)
| CancelReassign
| ConfirmReassign
| Loaded (k : nat) (r : http_result (list RawIncident)).

Definition set_async a f s := State a (st_selectedIds s) (st_showReassignModal s)
  (st_reassignTarget s) (st_searchQuery s) f.
Definition set_selection ids s := State (st_async s) ids (st_showReassignModal s)
  (st_reassignTarget s) (st_searchQuery s) (st_flight s).
Definition set_dialog b t s := State (st_async s) (st_selectedIds s) b t
  (st_searchQuery s) (st_flight s).

Definition reassign (ids : list string) (target : string) (inc : EnhancedIncident)
    : EnhancedIncident :=
  if bool_decide (ei_id inc ∈ ids)
  then MkIncident (ei_incident inc) (ei_slaStatus inc) (Some target) else inc.

Definition handleBulkReassign (s : state) : state :=
  match data s with
  | None => s
  | Some d =>
      State (async_setData (Some (reassign (st_selectedIds s) (st_reassignTarget s) <$> d)) (st_async s))
        [] false (st_reassignTarget s) (st_searchQuery s) (st_flight s)
  end.

(** [selectedIds.size === data?.length]: never, when there is no data. *)
Definition toggleSelectAll (s : state) : list string :=
  match data s with
  | Some d => if bool_decide (length (st_selectedIds s) = length d) then []
              else set_of (ei_id <$> d)
  | None => []
  end.

Definition handle (e : event) (s : state) : state * list effect :=
  match e with
  | Execute => (set_async (async_start (st_async s)) (fl_await tt (st_flight s)) s, [GetActive])
  | ToggleSelect id => (set_selection (set_toggle id (st_selectedIds s)) s, [])
  | ToggleSelectAll => (set_selection (toggleSelectAll s) s, [])
  | SearchFor v => (State (st_async s) (st_selectedIds s) (st_showReassignModal s)
                      (st_reassignTarget s) v (st_flight s), [])
  | OpenIncident id => (s, [Navigate ("/incidents/" +:+ id)])
  | OpenWarRoom id => (s, [Navigate ("/incidents/" +:+ id +:+ "/war-room")])
  | ShowReassign => (set_dialog true (st_reassignTarget s) s, [])
  | ChooseTarget name =>
      (set_dialog (st_showReassignModal s)
         (if String.eqb name "unassigned" then EmptyString else name) s, [])
  | CancelReassign => (set_dialog false (st_reassignTarget s) s, [])
  | ConfirmReassign => (handleBulkReassign s, [])
  | Loaded k r =>
      (set_async (match r with
                  | HttpOk incs => async_ok (imap enhance incs) (st_async s)
                  | HttpErr e => async_fail (he_message e) (st_async s)
                  end) (fl_forget k (st_flight s)) s, [])
  end.

(** ** What is shown *)
Definition count_sla (x : SlaStatus) (d : list EnhancedIncident) : nat :=
  length (filter (fun i => ei_slaStatus i = x) d).

Definition analystWorkload (s : state) : list (string * nat) :=
  [("alice", 4); ("bob", 12); ("charlie", 2);
   ("unassigned", length (List.filter (fun i => negb (truthy_str (ei_assignee i)))
                                      (nullish (data s) [])))].

Definition matches_query (q : string) (i : EnhancedIncident) : bool :=
  includes (to_lower q) (to_lower (ei_id i)) || includes (to_lower q) (to_lower (ei_title i)) ||
  match ei_assignee i with Some a => includes (to_lower q) (to_lower a) | None => false end.

Definition filteredData (s : state) : option (list EnhancedIncident) :=
  List.filter (matches_query (st_searchQuery s)) <$> data s.

(** [s.charAt(0)] *)
Definition char_at0 (s : string) : string :=
  match s with EmptyString => EmptyString | String a _ => String a EmptyString end.

Definition severity_badge (sev : string) : BadgeSeverity :=
  if String.eqb sev "critical" then S1 else if String.eqb sev "high" then S2
  else if String.eqb sev "medium" then S3 else S4.

Section View.
(** [toLocaleString] of a date, and the decimal rendering of a number. *)
Context (locale_date : string -> string) (num : Q -> string).

Definition sla_strip (s : state) : list (html event) :=
  let d := nullish (data s) [] in
  let warningCount := count_sla SlaWarning d in
  let breachedCount := count_sla SlaBreached d in
  [El "div" "" [Text "Average TTR"; Text "2.4h"];
   El "div" (if 0 <? warningCount then "border-yellow-500/50" else "border-slate-800")
     [Text "Approaching SLA Breach"; Text (of_nat_str warningCount); Text "incidents"];
   El "div" (if 0 <? breachedCount then "border-red-500/50" else "border-slate-800")
     [Text "SLA Breached"; Text (of_nat_str breachedCount); Text "incidents"]].

Definition bulk_bar (s : state) : list (html event) :=
  when (0 <? length (st_selectedIds s)) [
    El "div" "" [Text (of_nat_str (length (st_selectedIds s)) +:+ " incidents selected");
                 Button false (Some ShowReassign) [Text "Bulk Reassign (Load Balance)"]]].

Definition row_tone (x : SlaStatus) : string :=
  match x with SlaBreached => "bg-red-900/10" | SlaWarning => "bg-yellow-900/10" | SlaOk => EmptyString end.

Definition assignee_cell (a : option string) : html event :=
  match a with
  | Some name => if truthy_str a
      then El "span" "" [El "div" "" [Text (to_upper (char_at0 name))]; Text name]
      else El "span" "" [Text "Unassigned"]
  | None => El "span" "" [Text "Unassigned"]
  end.

Definition incident_row (s : state) (inc : EnhancedIncident) : html event :=
  let sev := inc_severity (ei_incident inc) in
  El "tr" (row_tone (ei_slaStatus inc)) [
    El "td" "" [checkbox (bool_decide (ei_id inc ∈ st_selectedIds s)) (ToggleSelect (ei_id inc))];
    Clickable (OpenIncident (ei_id inc)) [Text (ei_id inc)];
    El "td" "" ([Text (ei_title inc)]
      ++ when (bool_decide (ei_slaStatus inc = SlaBreached)) [Text "BREACHED"]
      ++ when (bool_decide (ei_slaStatus inc = SlaWarning)) [Text "EXPIRING"]);
    El "td" "" [Badge (Some (severity_badge sev)) [Text (to_upper sev)]];
    El "td" "" [assignee_cell (ei_assignee inc)];
    El "td" "" [Text (locale_date (inc_createdAt (ei_incident inc)))];
    El "td" "" [Button false (Some (OpenWarRoom (ei_id inc))) [Text "War Room"]]].

Definition incident_table (s : state) : html event :=
  let rows := nullish (filteredData s) [] in
  El "table" "" [
    El "thead" "" (
      checkbox ((0 <? length rows) && bool_decide (length (st_selectedIds s) = length rows))
        ToggleSelectAll ::
      (Text <$> ["Incident ID"; "Title"; "Severity"; "Assignee"; "Created"; "Actions"]));
    El "tbody" "" ((incident_row s <$> rows) ++
      when (bool_decide (length rows = 0))
        [Text "No active incidents found matching criteria."])].

Definition workload_row (s : state) (a : string * nat) : html event :=
  let '(name, count) := a in
  let target := if String.eqb name "unassigned" then EmptyString else name in
  Clickable (ChooseTarget name) [
    El "span" (if String.eqb (st_reassignTarget s) target
               then "bg-indigo-900/40 border-indigo-500" else "bg-slate-950 border-slate-800")
      [Text name];
    El "div" ((if 10 <? count then "bg-red-500" else if 5 <? count then "bg-yellow-500" else "bg-green-500")
              +:+ " width: " +:+ num (Qmin ((Z.of_nat count # 15) * 100) 100) +:+ "%") [];
    Text (of_nat_str count)].

Definition reassign_dialog (s : state) : list (html event) :=
  when (st_showReassignModal s) [
    El "div" "" (
      [El "h2" "" [Text "Bulk Reassign (Load Balance)"];
       Text ("Reassigning " +:+ of_nat_str (length (st_selectedIds s))
             +:+ " incident(s). View current analyst workloads below.")]
      ++ (workload_row s <$> analystWorkload s)
      ++ [Button false (Some CancelReassign) [Text "Cancel"];
          Button false (Some ConfirmReassign) [Text "Confirm Reassignment"]])].

Definition view (s : state) : list (html event) :=
  if as_loading (st_async s) then [LoadingSkeleton 8]
  else match as_error (st_async s), data s with
       | Some err, None => [ErrorState err (Some Execute)]
       | _, _ =>
           [El "h1" "" [Text "Active Incidents"];
            El "p" "" [Text "Triage and manage ongoing security alerts in real-time."];
            Button false (Some Execute) [Text "Refresh"]]
           ++ sla_strip s ++ bulk_bar s
           ++ [Input false (st_searchQuery s) SearchFor;
               El "select" "" (Text <$> ["All Severities"; "Critical"; "High"; "Medium"; "Low"]);
               incident_table s]
           ++ reassign_dialog s
       end.

Definition enabled (s : state) (e : event) : Prop :=
  match e with
  | Execute => True
  | Loaded k _ => fl_map (st_flight s) !! k = Some tt
  | _ => offers_any (view s) e
  end.

(** ** Properties *)
Lemma view_open s d :
  as_loading (st_async s) = false -> data s = Some d ->
  view s =
    [El "h1" "" [Text "Active Incidents"];
     El "p" "" [Text "Triage and manage ongoing security alerts in real-time."];
     Button false (Some Execute) [Text "Refresh"]]
    ++ sla_strip s ++ bulk_bar s
    ++ [Input false (st_searchQuery s) SearchFor;
        El "select" "" (Text <$> ["All Severities"; "Critical"; "High"; "Medium"; "Low"]);
        incident_table s]
    ++ reassign_dialog s.
Proof. intros Hl Hd. unfold view. rewrite Hl, Hd. by destruct (as_error _). Qed.

Lemma offers_select_all s d :
  as_loading (st_async s) = false -> data s = Some d -> offers_any (view s) ToggleSelectAll.
Proof.
  intros Hl Hd. rewrite (view_open s d Hl Hd), !offers_any_app. do 3 right. left.
  unfold incident_table. offers_find.
Qed.

Lemma offers_reassign s d :
  as_loading (st_async s) = false -> data s = Some d -> st_selectedIds s <> [] ->
  offers_any (view s) ShowReassign.
Proof.
  intros Hl Hd Hs. rewrite (view_open s d Hl Hd), !offers_any_app. do 2 right. left.
  unfold bulk_bar. assert (0 <? length (st_selectedIds s) = true) as ->.
  { apply Nat.ltb_lt. destruct (st_selectedIds s); [done|simpl; lia]. }
  offers_find.
Qed.

Lemma offers_confirm s d :
  as_loading (st_async s) = false -> data s = Some d -> st_showReassignModal s = true ->
  offers_any (view s) ConfirmReassign.
Proof.
  intros Hl Hd Hs. rewrite (view_open s d Hl Hd), !offers_any_app. do 4 right.
  unfold reassign_dialog. rewrite Hs. cbn [when].
  rewrite offers_any_cons, offers_El, !offers_any_app. left. do 2 right. offers_find.
Qed.

(** Reassigning rewrites exactly the selected incidents and nothing else of
    them, keeps the order, empties the selection and closes the dialog; no
    request is sent. *)
Lemma reassign_exact s d :
  data s = Some d ->
  exists d', data (fst (handle ConfirmReassign s)) = Some d' /\
    snd (handle ConfirmReassign s) = [] /\
    st_selectedIds (fst (handle ConfirmReassign s)) = [] /\
    st_showReassignModal (fst (handle ConfirmReassign s)) = false /\
    length d' = length d /\
    forall i x, d !! i = Some x ->
      d' !! i = Some (MkIncident (ei_incident x) (ei_slaStatus x)
        (if decide (ei_id x ∈ st_selectedIds s) then Some (st_reassignTarget s)
         else ei_assignee x)).
Proof.
  intros Hd. cbn [handle fst snd]. unfold handleBulkReassign. rewrite Hd.
  eexists. split; [done|]. split_and!; try done; [by rewrite length_fmap|].
  intros i x Hx. rewrite list_lookup_fmap, Hx. cbn [fmap option_fmap option_map]. f_equal.
  unfold reassign. case_bool_decide; case_decide; try done. by destruct x.
Qed.

(** Selecting all while a search is active selects the incidents the search
    hides as well: with nothing selected, the header's check box followed by
    the reassignment changes the assignee of every loaded incident, also of
    those that are not in the table the analyst sees. *)
Lemma select_all_reassigns_hidden s d h :
  as_loading (st_async s) = false -> data s = Some d -> st_selectedIds s = [] ->
  h ∈ d -> matches_query (st_searchQuery s) h = false ->
  let es := [ToggleSelectAll; ShowReassign; ConfirmReassign] in
  all_enabled enabled handle es s /\
  (forall rows, filteredData s = Some rows -> h ∉ rows) /\
  data (fst (exec handle es s)) =
    Some ((fun x => MkIncident (ei_incident x) (ei_slaStatus x) (Some (st_reassignTarget s))) <$> d).
Proof.
  intros Hl Hd Hs Hh Hq es.
  assert (Hall : toggleSelectAll s = set_of (ei_id <$> d)).
  { unfold toggleSelectAll. rewrite Hd, Hs. rewrite bool_decide_eq_false_2; [done|].
    destruct d; [by apply not_elem_of_nil in Hh|done]. }
  assert (Hsel : set_of (ei_id <$> d) <> []).
  { intros E. assert (Hin : ei_id h ∈ set_of (ei_id <$> d)) by (apply set_of_elem; by apply list_elem_of_fmap_2).
    rewrite E in Hin. by apply not_elem_of_nil in Hin. }
  split_and!.
  - cbn [es all_enabled handle fst]. split_and!; [by eapply offers_select_all| | |done].
    + eapply offers_reassign; [done|exact Hd|]. cbn [set_selection st_selectedIds]. by rewrite Hall.
    + by eapply offers_confirm.
  - intros rows Hr. unfold filteredData in Hr. rewrite Hd in Hr. simplify_eq/=.
    intros [Hin Hm]%list_elem_of_In%List.filter_In. congruence.
  - subst es. simpl. unfold handleBulkReassign, data in *. simpl. rewrite Hd. simpl.
    rewrite Hall. f_equal. apply list_fmap_ext. intros i x Hx.
    unfold reassign. rewrite bool_decide_eq_true_2; [done|]. apply set_of_elem.
    apply list_elem_of_fmap_2. by eapply list_elem_of_lookup_2.
Qed.
End View.

(** Both links of a row lead nowhere: with any router that keeps the
    promises of [RouterMatch], the path of the incident and the path of its
    war room show the page for unknown paths, whatever the identifier, unless
    it is one of the fixed segments of the route table.  The war room is
    registered under the other order of the two segments. *)
Lemma incident_links_dead `{!RouterMatch m} s id :
  id <> EmptyString -> avoids "/" id = true ->
  to_lower id ∉ ["active"; "closed"; "war-room"] ->
  forall e, e ∈ [OpenIncident id; OpenWarRoom id] ->
  exists p r, snd (handle e s) = [Navigate p] /\ m p = Some r /\
    rt_element r = Page "NotFoundPage".
Proof.
  intros Hne Hs Hx e He.
  assert (H : exists p, snd (handle e s) = [Navigate p] /\ unrouted p = true).
  { elem_inv He; subst; eexists; (split; [reflexivity|]).
    - by apply incident_path_unrouted.
    - apply war_room_path_unrouted; [set_solver|done|done]. }
  destruct H as (p & Hp & Hu). destruct (match_total p) as [r Hr]. exists p, r.
  split_and!; [done|done|]. by eapply unrouted_not_found.
Qed.

(** The registered path of a war room does show it. *)
Lemma war_room_registered :
  (rt_element <$> first_match "/incidents/war-room/INC-7") = Some (Page "WarRoomPage").
Proof. reflexivity. Qed.

Definition demo_incident (id title : string) : RawIncident :=
  MkRawIncident {| inc_id := id; inc_title := title; inc_severity := "high"; inc_status := "open";
    inc_createdAt := "2024-01-01"; inc_assignedTo := ""; inc_linkedAlerts := 1 |} None.

Definition demo_state : state :=
  fst (exec handle [Execute; Loaded 0 (HttpOk [demo_incident "INC-1" "Beacon"; demo_incident "INC-2" "Phish"]);
                    SearchFor "beac"; ChooseTarget "bob"] init).

Lemma select_all_reassigns_hidden_witness :
  (ei_assignee <$> nullish (data (fst (exec handle
    [ToggleSelectAll; ShowReassign; ConfirmReassign] demo_state))) []) = [Some "bob"; Some "bob"] /\
  (ei_id <$> nullish (filteredData demo_state) []) = ["INC-1"].
Proof.
  split; [|reflexivity].
  pose proof (select_all_reassigns_hidden id (fun _ => EmptyString) demo_state
    (imap enhance [demo_incident "INC-1" "Beacon"; demo_incident "INC-2" "Phish"])
    (enhance 1 (demo_incident "INC-2" "Phish")) eq_refl eq_refl eq_refl) as H.
  destruct H as (_ & _ & ->); [apply list_elem_of_In; right; left; reflexivity|reflexivity|reflexivity].
Defined.

Lemma incident_links_dead_witness :
  exists p r, snd (handle (OpenWarRoom "INC-7") init) = [Navigate p] /\
    first_match p = Some r /\ rt_element r = Page "NotFoundPage".
Proof.
  apply (incident_links_dead (m := first_match) init "INC-7"); [discriminate|reflexivity| |].
  - apply (bool_decide_eq_true_1 _). reflexivity.
  - apply list_elem_of_In. right. left. reflexivity.
Defined.
