(* ===== verification/ClosedIncidents.v ===== *)
(** * Closed incidents ([pages/incidents/ClosedIncidentsPage.tsx])

    The archive with the counts of root causes, the post-mortem status and
    two dialogs that rewrite one incident; the causes and the post-mortem
    are computed from the position of an incident in the answer. *)
From Stdlib Require Import QArith Qminmax.
From S2P Require Import Prelude JsString JsSet Html Types Http AsyncState SharedUi Routing.

Local Open Scope nat_scope.

Inductive PostMortem := PmScheduled | PmPending | PmCompleted | PmNotRequired.
#[export] Instance PostMortem_eq_dec : EqDecision PostMortem.
Proof. solve_decision. Defined.

Record EnhancedClosed := MkClosed {
  ec_incident : ClosedIncident;
  ec_rootCause : option string;
  ec_detectionGapReported : bool;
  ec_postMortemStatus : PostMortem }.

Definition ec_id (x : EnhancedClosed) : string := cinc_id (ec_incident x).

Definition rootCauses : list string :=
  ["Phishing"; "Misconfiguration"; "Insider Threat"; "Third-Party"; "False Positive"].

Definition enhance (i : nat) (inc : ClosedIncident) : EnhancedClosed :=
  MkClosed inc (rootCauses !! (i mod length rootCauses)) (i mod 5 =? 0)
    (if String.eqb (cinc_severity inc) "critical" || String.eqb (cinc_severity inc) "high"
     then if i mod 3 =? 0 then PmCompleted else if i mod 2 =? 0 then PmScheduled else PmPending
     else PmNotRequired).

Record state := State {
  st_async : async (list EnhancedClosed);
  st_gapModalOpen : option string;
  st_scheduleModalOpen : option string;
  st_flight : flight unit }.

Definition data (s : state) : option (list EnhancedClosed) := as_data (st_async s).
Definition init : state := State async_init None None fl_empty.

Inductive effect := GetClosed | Navigate (path : string).

Inductive event :=
| Execute
| OpenIncident (id : string)
| OpenGap (id : string) | CancelGap | ReportGap (id : string)
| OpenSchedule (id : string) | CancelSchedule | ScheduleReview (id : string)
| Loaded (k : nat) (r : http_result (list ClosedIncident)).

(** [reduce] over the incidents that have a cause. *)
Definition rootCauseCounts (d : list EnhancedClosed) : list (string * Z) :=
  foldl (fun acc inc =>
           match ec_rootCause inc with
           | Some c => if truthy_str (Some c) then bump c acc else acc
           | None => acc
           end) [] d.

(** [Object.entries(rootCauseCounts).sort((a, b) => b[1] - a[1])] *)
Definition topRootCauses (d : list EnhancedClosed) : list (string * Z) :=
  js_sort (by_key_desc snd) (rootCauseCounts d).

Definition mark_gap (id : string) (x : EnhancedClosed) : EnhancedClosed :=
  if String.eqb (ec_id x) id
  then MkClosed (ec_incident x) (ec_rootCause x) true (ec_postMortemStatus x) else x.
Definition mark_scheduled (id : string) (x : EnhancedClosed) : EnhancedClosed :=
  if String.eqb (ec_id x) id
  then MkClosed (ec_incident x) (ec_rootCause x) (ec_detectionGapReported x) PmScheduled else x.

Definition map_data (f : EnhancedClosed -> EnhancedClosed) (s : state) : async (list EnhancedClosed) :=
  async_setData (Some (f <$> nullish (data s) [])) (st_async s).

Definition handleReportGap (id : string) (s : state) : state :=
  State (map_data (mark_gap id) s) None (st_scheduleModalOpen s) (st_flight s).
Definition handleScheduleReview (id : string) (s : state) : state :=
  State (map_data (mark_scheduled id) s) (st_gapModalOpen s) None (st_flight s).

Definition handle (e : event) (s : state) : state * list effect :=
  match e with
  | Execute => (State (async_start (st_async s)) (st_gapModalOpen s) (st_scheduleModalOpen s)
                  (fl_await tt (st_flight s)), [GetClosed])
  | OpenIncident id => (s, [Navigate ("/incidents/" +:+ id)])
  | OpenGap id => (State (st_async s) (Some id) (st_scheduleModalOpen s) (st_flight s), [])
  | CancelGap => (State (st_async s) None (st_scheduleModalOpen s) (st_flight s), [])
  | ReportGap id => (handleReportGap id s, [])
  | OpenSchedule id => (State (st_async s) (st_gapModalOpen s) (Some id) (st_flight s), [])
  | CancelSchedule => (State (st_async s) (st_gapModalOpen s) None (st_flight s), [])
  | ScheduleReview id => (handleScheduleReview id s, [])
  | Loaded k r =>
      (State (match r with
              | HttpOk incs => async_ok (imap enhance incs) (st_async s)
              | HttpErr e => async_fail (he_message e) (st_async s)
              end) (st_gapModalOpen s) (st_scheduleModalOpen s) (fl_forget k (st_flight s)), [])
  end.

Section View.
Context (locale_date : string -> string).

Definition cause_strip (s : state) : html event :=
  El "div" "" (Text "Top Root Causes (Last 30 Days)" ::
    ((fun p => El "div" "" [Text (of_Z (snd p)); Text (fst p)]) <$> topRootCauses (nullish (data s) []))).

(** [id.split('-')[0] || id] *)
Definition short_id (id : string) : string := or_str (head (split_on "-" id)) id.

Definition post_mortem_cell (x : EnhancedClosed) : html event :=
  match ec_postMortemStatus x with
  | PmNotRequired => Text "Not Required"
  | PmCompleted => Text "Completed"
  | PmScheduled => Text "Scheduled"
  | PmPending => Button false (Some (OpenSchedule (ec_id x))) [Text "Schedule Review"]
  end.

Definition row (x : EnhancedClosed) : html event :=
  let sev := cinc_severity (ec_incident x) in
  El "tr" "" [
    El "td" "" [
      Clickable (OpenIncident (ec_id x)) [Text ("#" +:+ short_id (ec_id x))];
      El "span" (if String.eqb (to_lower sev) "critical" then "bg-red-500/10" else "bg-slate-800")
        [Text (to_upper sev)];
      Text (cinc_title (ec_incident x))];
    El "td" "" [Text (or_str (ec_rootCause x) "Unclassified")];
    El "td" "" [post_mortem_cell x];
    El "td" "" [if ec_detectionGapReported x then Text "Rule Gap Logged"
                else Button false (Some (OpenGap (ec_id x))) [Text "Report Detection Gap"]];
    El "td" "" [Text (locale_date (cinc_closedAt (ec_incident x)))]].

Definition table (s : state) : html event :=
  El "table" "" [
    El "thead" "" (Text <$> ["Incident ID / Title"; "Root Cause"; "Post-Mortem"; "Detection Feedback"; "Closed At"]);
    El "tbody" "" (row <$> nullish (data s) [])].

Definition gap_dialog (s : state) : list (html event) :=
  when_some (st_gapModalOpen s) (fun id => when (truthy_str (Some id)) [
    El "div" "" [
      El "h2" "" [Text "Report Detection Gap"];
      Text "Flag this incident to Detection Engineering. It will be added to the Alert Rules backlog for tuning.";
      El "textarea" "" [];
      Button false (Some CancelGap) [Text "Cancel"];
      Button false (Some (ReportGap id)) [Text "Submit to Backlog"]]]).

Definition schedule_dialog (s : state) : list (html event) :=
  when_some (st_scheduleModalOpen s) (fun id => when (truthy_str (Some id)) [
    El "div" "" [
      El "h2" "" [Text "Schedule Post-Mortem"];
      Text "Major incidents require a formal review. This will generate a calendar invite for the incident responders.";
      El "input" "datetime-local" [];
      Button false (Some CancelSchedule) [Text "Cancel"];
      Button false (Some (ScheduleReview id)) [Text "Send Invites"]]]).

Definition view (s : state) : list (html event) :=
  if as_loading (st_async s) then [LoadingSkeleton 8]
  else match as_error (st_async s), data s with
       | Some err, None => [ErrorState err (Some Execute)]
       | _, _ =>
           [El "h1" "" [Text "Closed Incidents"];
            El "p" "" [Text "Historical log of resolved security incidents and post-mortems."];
            Button false (Some Execute) [Text "Refresh Archive"];
            cause_strip s; table s]
           ++ gap_dialog s ++ schedule_dialog s
       end.

Definition enabled (s : state) (e : event) : Prop :=
  match e with
  | Execute => True
  | Loaded k _ => fl_map (st_flight s) !! k = Some tt
  | _ => offers_any (view s) e
  end.

(** ** Properties *)

(** The causes that count, in the order of the incidents. *)
Definition causes (d : list EnhancedClosed) : list string :=
  List.filter (fun c => truthy_str (Some c)) (omap ec_rootCause d).

Lemma rootCauseCounts_tally d : rootCauseCounts d = tally (causes d).
Proof.
  unfold rootCauseCounts, tally, causes. generalize (@nil (string * Z)).
  induction d as [|x d IH]; intros acc; [done|]. cbn [foldl omap list_omap].
  destruct (ec_rootCause x) as [c|]; [|apply IH]. cbn [List.filter].
  destruct (truthy_str (Some c)); cbn [foldl]; apply IH.
Qed.

Lemma enhance_cause i inc : exists c, ec_rootCause (enhance i inc) = Some c /\ truthy_str (Some c) = true.
Proof.
  cbn [enhance ec_rootCause].
  assert (Hlt : i mod length rootCauses < 5) by (apply Nat.mod_upper_bound; done).
  destruct (i mod length rootCauses) as [|[|[|[|[|]]]]]; [..|lia]; by eexists.
Qed.

(** What every loaded list satisfies, and the dialogs keep: an incident has a
    cause. *)
Definition classified (s : state) : Prop :=
  forall d, data s = Some d ->
    Forall (fun x => exists c, ec_rootCause x = Some c /\ truthy_str (Some c) = true) d.

Lemma handle_classified s e : classified s -> classified (fst (handle e s)).
Proof.
  assert (Hmap : forall f, (forall x, ec_rootCause (f x) = ec_rootCause x) -> classified s ->
    forall d, as_data (map_data f s) = Some d ->
      Forall (fun x => exists c, ec_rootCause x = Some c /\ truthy_str (Some c) = true) d).
  { intros f Hf H d Hd. unfold map_data in Hd. cbn [as_data async_setData] in Hd. simplify_eq.
    apply Forall_fmap. destruct (data s) as [d0|] eqn:E; [|by constructor].
    eapply Forall_weaken; [by apply H|]. intros x Hx. simpl. by rewrite Hf. }
  intros H d Hd. destruct e; try (by apply H).
  - cbn [handle fst] in Hd. apply (Hmap (mark_gap id)); [|done|done].
    intros x. unfold mark_gap. by destruct (String.eqb _ _).
  - cbn [handle fst] in Hd. apply (Hmap (mark_scheduled id)); [|done|done].
    intros x. unfold mark_scheduled. by destruct (String.eqb _ _).
  - cbn [handle fst] in Hd. unfold data in Hd. cbn [st_async] in Hd.
    destruct r as [incs|er]; [|by apply H]. cbn [as_data async_ok] in Hd. simplify_eq.
    apply Forall_forall. intros y (i & Hi)%list_elem_of_lookup. rewrite list_lookup_imap in Hi.
    apply fmap_Some in Hi as (z & _ & ->). apply enhance_cause.
Qed.

Lemma causes_of_classified d :
  Forall (fun x => exists c, ec_rootCause x = Some c /\ truthy_str (Some c) = true) d ->
  length (causes d) = length d.
Proof.
  unfold causes. induction 1 as [|x d (c & Hc & Ht) _ IH]; [done|]. cbn [omap list_omap].
  rewrite Hc. cbn [List.filter]. rewrite Ht. cbn [length]. by f_equal.
Qed.

(** C20: in every execution the strip of root causes is the exact census of the
    table: it lists each cause once, with the number of incidents that have
    it, most frequent first, and its numbers add up to the number of
    incidents shown.  It counts every incident of the table, whatever its
    date, under a heading that speaks of the last thirty days. *)
Theorem root_causes_census es qs s d :
  run enabled handle init es qs s -> data s = Some d ->
  NoDup (topRootCauses d).*1 /\
  StronglySorted (key_ge snd) (topRootCauses d) /\
  (forall c n, (c, n) ∈ topRootCauses d <->
     c <> EmptyString /\ n = Z.of_nat (length (filter (fun x => ec_rootCause x = Some c) d)) /\
     exists x, x ∈ d /\ ec_rootCause x = Some c) /\
  total (topRootCauses d) = Z.of_nat (length d).
Proof.
  intros Hrun Hd.
  assert (Hcl : classified s).
  { revert Hrun. apply run_invariant; [by intros ? ?|]. intros; by apply handle_classified. }
  specialize (Hcl d Hd). unfold topRootCauses. rewrite rootCauseCounts_tally.
  destruct (tally_spec (causes d)) as [Hnd Hel]. split_and!.
  - by rewrite js_sort_perm.
  - apply js_sort_desc_sorted.
  - intros c n. rewrite js_sort_elem, Hel.
    assert (Hin : c ∈ causes d <-> c <> EmptyString /\ exists x, x ∈ d /\ ec_rootCause x = Some c).
    { unfold causes. rewrite list_elem_of_In, List.filter_In, <- list_elem_of_In, list_elem_of_omap.
      cbn [truthy_str]. rewrite negb_true_iff, bool_decide_eq_false. naive_solver. }
    assert (Hocc : c <> EmptyString ->
      occurrences c (causes d) = Z.of_nat (length (filter (fun x => ec_rootCause x = Some c) d))).
    { intros Hc. unfold occurrences, causes. f_equal. clear -Hc.
      induction d as [|x d IH]; [done|]. cbn [omap list_omap]. rewrite filter_cons.
      destruct (ec_rootCause x) as [c'|] eqn:E; [|by rewrite decide_False by congruence].
      cbn [List.filter truthy_str]. destruct (bool_decide_reflect (c' = EmptyString)) as [->|Hc']; cbn [negb].
      - by rewrite decide_False by congruence.
      - rewrite filter_cons. destruct (decide (c' = c)) as [->|].
        + rewrite decide_True by done. cbn [length]. by f_equal.
        + by rewrite decide_False by congruence. }
    rewrite Hin. naive_solver.
  - rewrite (total_perm _ _ (js_sort_perm _ _)), total_tally. f_equal. by apply causes_of_classified.
Qed.

(** What the dialogs can produce. *)
Definition dialog_guard (s : state) (e : event) : Prop :=
  match e with
  | ReportGap id => st_gapModalOpen s = Some id
  | ScheduleReview id => st_scheduleModalOpen s = Some id
  | _ => True
  end.

Lemma offers_dialog s e : offers_any (view s) e -> dialog_guard s e.
Proof.
  unfold view. intros H. destruct (as_loading _); [by offers_cases H|].
  assert (H' : offers_any ([El "h1" "" [Text "Closed Incidents"];
      El "p" "" [Text "Historical log of resolved security incidents and post-mortems."];
      Button false (Some Execute) [Text "Refresh Archive"]; cause_strip s; table s]
      ++ gap_dialog s ++ schedule_dialog s) e \/ dialog_guard s e).
  { destruct (as_error _), (data s); auto. right. by offers_cases H. }
  destruct H' as [H'|]; [|done]. clear H. unfold cause_strip, table, row, gap_dialog, schedule_dialog in H'.
  offers_cases H'; try done.
  - unfold post_mortem_cell in H'. destruct (ec_postMortemStatus _); by offers_cases H'.
  - destruct (ec_detectionGapReported _); by offers_cases H'.
Qed.

Lemma offers_schedule s d id :
  as_loading (st_async s) = false -> data s = Some d -> st_scheduleModalOpen s = Some id ->
  id <> EmptyString -> offers_any (view s) (ScheduleReview id).
Proof.
  intros Hl Hd Hm Hid. unfold view. rewrite Hl, Hd.
  assert (offers_any (schedule_dialog s) (ScheduleReview id)).
  { unfold schedule_dialog. rewrite Hm. cbn [when_some truthy_str].
    rewrite bool_decide_eq_false_2 by done. offers_find. }
  destruct (as_error _); rewrite !offers_any_app; auto.
Qed.

(** What a step may do to one incident. *)
Definition feedback_step (s : state) (e : event) (x x' : EnhancedClosed) : Prop :=
  ec_incident x' = ec_incident x /\ ec_rootCause x' = ec_rootCause x /\
  (ec_postMortemStatus x' = ec_postMortemStatus x \/
   e = ScheduleReview (ec_id x) /\ st_scheduleModalOpen s = Some (ec_id x) /\
   ec_postMortemStatus x' = PmScheduled) /\
  (ec_detectionGapReported x' = ec_detectionGapReported x \/
   e = ReportGap (ec_id x) /\ st_gapModalOpen s = Some (ec_id x) /\
   ec_detectionGapReported x' = true).

Lemma feedback_step_refl s e d : Forall2 (feedback_step s e) d d.
Proof. apply Forall_Forall2_diag, Forall_true. intros x. unfold feedback_step. auto. Qed.

Lemma mark_gap_step s id x :
  st_gapModalOpen s = Some id -> feedback_step s (ReportGap id) x (mark_gap id x).
Proof.
  intros Hg. unfold mark_gap, feedback_step.
  destruct (String.eqb_spec (ec_id x) id) as [E|E]; [subst id|]; cbn; auto 10.
Qed.
Lemma mark_scheduled_step s id x :
  st_scheduleModalOpen s = Some id -> feedback_step s (ScheduleReview id) x (mark_scheduled id x).
Proof.
  intros Hg. unfold mark_scheduled, feedback_step.
  destruct (String.eqb_spec (ec_id x) id) as [E|E]; [subst id|]; cbn; auto 10.
Qed.

(** Apart from a reload, the archive changes only through the dialogs and
    only in the two feedback fields: a step keeps every incident in its
    place with its record and cause, sets the post-mortem to scheduled only
    for the incident whose scheduling dialog is open, reports a gap only for
    the incident whose gap dialog is open, and never withdraws a report. *)
Lemma archive_changes s e d :
  enabled s e -> (forall k r, e <> Loaded k r) -> data s = Some d ->
  exists d', data (fst (handle e s)) = Some d' /\ Forall2 (feedback_step s e) d d'.
Proof.
  intros Hen Hload Hd.
  assert (Hg : dialog_guard s e) by (destruct e; try done; by apply offers_dialog in Hen).
  destruct e; try (exists d; split; [done|apply feedback_step_refl]); try (by edestruct Hload).
  - exists (mark_gap id <$> d). split; [cbn; by rewrite Hd|].
    apply Forall2_fmap_r, Forall_Forall2_diag, Forall_true. intros x. by apply mark_gap_step.
  - exists (mark_scheduled id <$> d). split; [cbn; by rewrite Hd|].
    apply Forall2_fmap_r, Forall_Forall2_diag, Forall_true. intros x. by apply mark_scheduled_step.
Qed.
End View.

Definition demo_closed (id sev : string) : ClosedIncident :=
  {| cinc_id := id; cinc_title := "t"; cinc_severity := sev; cinc_closedAt := "2024-01-01";
     cinc_resolvedBy := "a"; cinc_duration := "1h"; cinc_postIncidentSummary := "" |}.

Definition demo_incs : list ClosedIncident :=
  [demo_closed "a" "low"; demo_closed "b" "high"; demo_closed "c" "low"; demo_closed "d" "low";
   demo_closed "e" "low"; demo_closed "f" "high"].

Definition demo_events : list event := [Execute; Loaded 0 (HttpOk demo_incs)].
Definition demo_state : state := fst (exec handle demo_events init).

Lemma root_causes_census_witness :
  topRootCauses (imap enhance demo_incs) =
    [("Phishing", 2); ("Misconfiguration", 1); ("Insider Threat", 1); ("Third-Party", 1);
     ("False Positive", 1)]%Z /\
  total (topRootCauses (imap enhance demo_incs)) = 6%Z.
Proof.
  split; [reflexivity|].
  refine (proj2 (proj2 (proj2 (root_causes_census id demo_events [GetClosed] demo_state
    (imap enhance demo_incs) _ eq_refl)))).
  apply (exec_run (enabled id) handle demo_events init). repeat split.
Defined.

Lemma archive_changes_witness :
  exists d', data (fst (handle (ScheduleReview "b") (fst (handle (OpenSchedule "b") demo_state)))) = Some d'
    /\ length d' = 6.
Proof.
  destruct (archive_changes id (fst (handle (OpenSchedule "b") demo_state)) (ScheduleReview "b")
    (imap enhance demo_incs)) as (d' & H1 & H2);
    [|discriminate|reflexivity|exists d'; split; [done|by apply Forall2_length in H2]].
  eapply (offers_schedule id); [reflexivity|reflexivity|reflexivity|discriminate].
Defined.
