(* ===== verification/WarRoom.v ===== *)
(** * War room ([pages/incidents/WarRoomPage.tsx])

    The chat of an incident, fed by [useWebSocketStream] ([WebSocketStream])
    and by the analyst's own messages, with a log of decisions and a drafted
    post-mortem.  The page's state contains the state of the hook, and an
    event of the socket is handled by the hook first, whose [onMessage]
    appends to the chat.  Rendering can throw: [toISOString] of an invalid
    date does, so [view] returns an option.  [parse_date] is [new Date(s)]
    of the browser, of which only the standard format is relied on. *)
From S2P Require Import Prelude JsString Dates Html SharedUi WebSocketStream.

Record ChatMessage := MkChat {
  cm_id : string; cm_sender : string; cm_text : string; cm_timestamp : string;
  cm_isDecision : option bool }.

Definition is_decision (m : ChatMessage) : bool := or_bool (cm_isDecision m) false.

Record roles := Roles { ro_commander : string; ro_techLead : string; ro_commsLead : string }.
Definition wr_roles : roles := Roles "Alice" "Bob" "Unassigned".

Record wr_state := WrState {
  wr_messages : list ChatMessage;
  wr_draft : string;
  wr_isDecisionToggle : bool;
  wr_bridgeLink : string;
  wr_isEditingBridge : bool;
  wr_showBroadcastModal : bool;
  wr_showPostMortemModal : bool;
  wr_socket : ws_state }.

Definition wr_isConnected (s : wr_state) : bool := ws_connected (wr_socket s).

(** What the analyst can do on the page. *)
Inductive wr_click :=
| ClickBack
| ClickBroadcast | ClickBroadcastClose
| ClickPostMortem | ClickPostMortemClose | ClickSaveExit
| ClickEditBridge | TypeBridge (v : string) | ClickSaveBridge
| ClickDecision | TypeDraft (v : string) | ClickSend.

(** A click carries the clock at that moment. *)
Inductive wr_event := User (now : Z) (c : wr_click) | Socket (e : ws_event).

Inductive wr_effect := WrDial (protocol url : string) | WrGoBack | WrNavigate (path : string).

(** The messages shown when the page is opened at [t0]. *)
Definition initial_messages (t0 : Z) : list ChatMessage :=
  [MkChat "1" "System" "War Room initialized. Incident Commander not yet assigned."
     (to_iso (t0 - 3600000)) None;
   MkChat "2" "Alice (IC)" "I am taking Incident Commander. Let's isolate the host."
     (to_iso (t0 - 3500000)) (Some true)].

Definition wr_init (t0 : Z) : wr_state :=
  WrState (initial_messages t0) EmptyString false "https://zoom.us/j/123456789 (Draft)"
    false false false ws_init.

Definition war_room_url (id : string) : string := "/ws/incidents/war-room/" +:+ id.

Section WarRoom.
(** The incident of the route, the [try JSON.parse catch] of the hook, the
    protocol of the page. *)
Context (id : string) (decode : string -> ChatMessage) (page_protocol : string).

Definition set_chat ms d t s := WrState ms d t (wr_bridgeLink s) (wr_isEditingBridge s)
  (wr_showBroadcastModal s) (wr_showPostMortemModal s) (wr_socket s).
Definition set_bridge l b s := WrState (wr_messages s) (wr_draft s) (wr_isDecisionToggle s) l b
  (wr_showBroadcastModal s) (wr_showPostMortemModal s) (wr_socket s).
Definition set_modals b p s := WrState (wr_messages s) (wr_draft s) (wr_isDecisionToggle s)
  (wr_bridgeLink s) (wr_isEditingBridge s) b p (wr_socket s).

Definition sendMessage (now : Z) (s : wr_state) : wr_state :=
  if String.eqb (trim (wr_draft s)) EmptyString then s
  else set_chat (wr_messages s ++ [MkChat (of_Z now) "You" (wr_draft s) (to_iso now)
                                     (Some (wr_isDecisionToggle s))])
         EmptyString false s.

(** The calls of [onMessage] and the dials among the effects of the hook. *)
Definition received (q : list (ws_effect ChatMessage)) : list ChatMessage :=
  omap (fun x => match x with OnMessage m => Some m | Dial _ _ => None end) q.
Definition dials (q : list (ws_effect ChatMessage)) : list wr_effect :=
  omap (fun x => match x with OnMessage _ => None | Dial p u => Some (WrDial p u) end) q.

Definition on_socket (e : ws_event) (s : wr_state) : wr_state * list wr_effect :=
  let '(w, q) := ws_handle decode page_protocol e (wr_socket s) in
  (WrState (wr_messages s ++ received q) (wr_draft s) (wr_isDecisionToggle s) (wr_bridgeLink s)
     (wr_isEditingBridge s) (wr_showBroadcastModal s) (wr_showPostMortemModal s) w, dials q).

Definition on_click (now : Z) (c : wr_click) (s : wr_state) : wr_state * list wr_effect :=
  match c with
  | ClickBack => (s, [WrGoBack])
  | ClickBroadcast => (set_modals true (wr_showPostMortemModal s) s, [])
  | ClickBroadcastClose => (set_modals false (wr_showPostMortemModal s) s, [])
  | ClickPostMortem => (set_modals (wr_showBroadcastModal s) true s, [])
  | ClickPostMortemClose => (set_modals (wr_showBroadcastModal s) false s, [])
  | ClickSaveExit => (set_modals (wr_showBroadcastModal s) false s, [WrNavigate "/incidents/closed"])
  | ClickEditBridge => (set_bridge (wr_bridgeLink s) true s, [])
  | TypeBridge v => (set_bridge v (wr_isEditingBridge s) s, [])
  | ClickSaveBridge => (set_bridge (wr_bridgeLink s) false s, [])
  | ClickDecision => (set_chat (wr_messages s) (wr_draft s) (negb (wr_isDecisionToggle s)) s, [])
  | TypeDraft v => (set_chat (wr_messages s) v (wr_isDecisionToggle s) s, [])
  | ClickSend => (sendMessage now s, [])
  end.

Definition wr_handle (e : wr_event) (s : wr_state) : wr_state * list wr_effect :=
  match e with User now c => on_click now c s | Socket e => on_socket e s end.

(** ** What is shown *)
Definition decisions (s : wr_state) : list ChatMessage := List.filter is_decision (wr_messages s).

Section View.
Context (parse_date : string -> option Z) (locale_time : string -> string).

(** [new Date(ts).toISOString().split('T')[1].slice(0, 8)]; [None] is the
    exception. *)
Definition decision_time (ts : string) : option string :=
  (fun t => String.substring 0 8 (nullish (split_on "T" (to_iso t) !! 1) EmptyString))
    <$> parse_date ts.

Definition decision_line (m : ChatMessage) : option (html wr_click) :=
  (fun t => El "li" "" [Text t; Text (" - " +:+ cm_text m +:+ " (" +:+ cm_sender m +:+ ")")])
    <$> decision_time (cm_timestamp m).

Definition post_mortem_modal (s : wr_state) : option (list (html wr_click)) :=
  if wr_showPostMortemModal s then
    (fun lines => [
      El "div" "" (
        [El "h2" "" [Text "Incident Resolved"];
         Text "The war room session has ended. A draft post-mortem has been auto-generated from the timeline.";
         El "h1" "" [Text ("Draft Post-Mortem: " +:+ id)];
         El "h2" "" [Text "1. Summary"];
         Text "[Required: Describe the business impact and duration here...]";
         El "h2" "" [Text "2. Responders"];
         El "ul" "" [Text (ro_commander wr_roles +:+ " (Incident Commander)");
                     Text (ro_techLead wr_roles +:+ " (Tech Lead)")];
         El "h2" "" [Text "3. Key Decisions Timeline"];
         El "ul" "" (lines ++ when (bool_decide (length (decisions s) = 0))
                                [Text "No explicit decisions logged."])]
        ++ [Button false (Some ClickPostMortemClose) [Text "Close"];
            Button false (Some ClickSaveExit) [Text "Save & Exit to Closed Incidents"]])])
    <$> mapM decision_line (decisions s)
  else Some [].

Definition wr_header (s : wr_state) : list (html wr_click) :=
  [Button false (Some ClickBack) [];
   El "h1" "" [Text ("Crisis War Room: " +:+ id)];
   Badge (Some (if wr_isConnected s then S4 else S1))
     [Text (if wr_isConnected s then "LIVE" else "DISCONNECTED")];
   Text "Coordination, Decisions, and Response";
   Button false (Some ClickBroadcast) [Text "Broadcast Status"];
   Button false (Some ClickPostMortem) [Text "Resolve & Draft Post-Mortem"];
   El "div" "" (Text <$> ["CRITICAL PIVOT DETECTED:"; "Edge (PaaS app)";
                          "Internal Tunnel (Local server)"; "CF-Ray: 7d8f9a1b2c3d4e5f"])].

Definition role_line (label name : string) : html wr_click :=
  El "div" (if String.eqb name "Unassigned" then "text-slate-600" else "text-white")
    [Text label; Text name].

Definition wr_sidebar (s : wr_state) : list (html wr_click) :=
  [Text "Bridge Integration";
   if wr_isEditingBridge s then
     El "div" "" [Input false (wr_bridgeLink s) TypeBridge;
                  Button false (Some ClickSaveBridge) [Text "Save"]]
   else
     El "div" "" [Text (or_str (Some (wr_bridgeLink s)) "No link set");
                  Button false (Some ClickEditBridge) []];
   Text "Role Assignments";
   role_line "Commander" (ro_commander wr_roles);
   role_line "Tech Lead" (ro_techLead wr_roles);
   role_line "Comms Lead" (ro_commsLead wr_roles);
   Text "Decisions Log"]
  ++ ((fun m => El "div" "" [Text (cm_sender m); Text (cm_text m)]) <$> decisions s)
  ++ when (bool_decide (length (decisions s) = 0)) [Text "No decisions logged yet."].

Definition chat_line (m : ChatMessage) : html wr_click :=
  let you := String.eqb (cm_sender m) "You" in
  El "div" (if you then "items-end" else "items-start") [
    Text (cm_sender m +:+ " • " +:+ locale_time (cm_timestamp m));
    El "div" (if is_decision m then "bg-yellow-900/20" else if you then "bg-blue-600" else "bg-slate-800")
      (when (is_decision m) [Text "Decision Made"] ++ [Text (cm_text m)])].

(** The form is submitted by its button only: the browser refuses implicit
    submission while the submit button is disabled. *)
Definition wr_chat (s : wr_state) : list (html wr_click) :=
  when (bool_decide (length (wr_messages s) = 0))
    [Text "Welcome to the War Room. Communications are encrypted."]
  ++ (chat_line <$> wr_messages s)
  ++ [El "form" "" [
        checkbox (wr_isDecisionToggle s) ClickDecision;
        Text (if wr_isDecisionToggle s then "Log a formal decision..." else "Type a message...");
        Input false (wr_draft s) TypeDraft;
        Button (String.eqb (trim (wr_draft s)) EmptyString || negb (wr_isConnected s))
          (Some ClickSend) [Text "Send"]]].

Definition broadcast_modal (s : wr_state) : list (html wr_click) :=
  when (wr_showBroadcastModal s) [
    El "div" "" [
      El "h2" "" [Text "Broadcast Status Update"];
      Text "Send a non-technical summary to stakeholder channels (Slack/Email).";
      Text "Audience";
      El "select" "" [Text "Exec Team (#incident-execs)"; Text "All Engineering (#eng-general)"];
      Text "Message Preview";
      El "textarea" "" [Text "[INCIDENT UPDATE] We are actively investigating an issue involving unusual endpoint activity. Containment steps are underway. No customer data impact detected at this time. Next update in 30 mins."];
      Button false (Some ClickBroadcastClose) [Text "Cancel"];
      Button false (Some ClickBroadcastClose) [Text "Broadcast Now"]]].

Definition wr_view (s : wr_state) : option (list (html wr_click)) :=
  (fun pm => wr_header s ++ wr_sidebar s ++ wr_chat s ++ broadcast_modal s ++ pm)
    <$> post_mortem_modal s.

Definition wr_enabled (s : wr_state) (e : wr_event) : Prop :=
  match e with
  | User _ c => exists h, wr_view s = Some h /\ offers_any h c
  | Socket e =>
      ws_enabled (wr_socket s) e /\
      match e with WsEffect url => url = war_room_url id | _ => True end
  end.

(** ** Properties *)

Lemma received_ws e w :
  received (snd (ws_handle decode page_protocol e w)) =
  match e with WsMessage _ d => [decode d] | _ => [] end.
Proof.
  destruct e; cbn [ws_handle snd]; try done.
  - by destruct (find_sock k w).
  - by destruct (find_ws_timer t w).
Qed.

(** What an event adds to the chat. *)
Definition added (e : wr_event) (s : wr_state) : list ChatMessage :=
  match e with
  | Socket (WsMessage _ d) => [decode d]
  | User now ClickSend =>
      if String.eqb (trim (wr_draft s)) EmptyString then []
      else [MkChat (of_Z now) "You" (wr_draft s) (to_iso now) (Some (wr_isDecisionToggle s))]
  | _ => []
  end.

Lemma wr_messages_step e s : wr_messages (fst (wr_handle e s)) = wr_messages s ++ added e s.
Proof.
  destruct e as [now c|e]; cbn [wr_handle added].
  - destruct c; cbn; rewrite ?app_nil_r; try done.
    unfold sendMessage. destruct (String.eqb _ _); cbn; by rewrite ?app_nil_r.
  - unfold on_socket. pose proof (received_ws e (wr_socket s)) as H.
    destruct (ws_handle _ _ _ _) as [w q]. cbn [fst snd wr_messages] in *. rewrite H. by destruct e.
Qed.

(** The messages of the socket among the events, in order. *)
Definition socket_messages (es : list wr_event) : list ChatMessage :=
  omap (fun e => match e with Socket (WsMessage _ d) => Some (decode d) | _ => None end) es.

Definition own_message (es : list wr_event) (m : ChatMessage) : Prop :=
  exists now, User now ClickSend ∈ es /\ cm_sender m = "You" /\ cm_timestamp m = to_iso now /\
    trim (cm_text m) <> EmptyString.

(** In every execution the chat is the opening messages followed by an
    append-only log: every message of the socket is in it, in the order of
    arrival, and every other entry is a message the analyst sent, not blank
    and stamped with the time of the click; nothing is lost, altered or
    reordered. *)
Lemma war_room_log t0 es qs s :
  run wr_enabled wr_handle (wr_init t0) es qs s ->
  exists log, wr_messages s = initial_messages t0 ++ log /\
    socket_messages es `sublist_of` log /\
    Forall (fun m => m ∈ socket_messages es \/ own_message es m) log /\
    length log <= length es.
Proof.
  induction 1 as [|es qs s e s' q _ (log & Hm & Hsub & Hall & Hlen) _ Hh].
  { exists []. rewrite app_nil_r. split_and!; try done. }
  pose proof (wr_messages_step e s) as Hstep. rewrite Hh in Hstep. cbn [fst] in Hstep.
  exists (log ++ added e s). rewrite Hstep, Hm, app_assoc. split; [done|].
  assert (Hs : socket_messages (es ++ [e]) = socket_messages es ++
    match e with Socket (WsMessage _ d) => [decode d] | _ => [] end).
  { unfold socket_messages. rewrite omap_app. f_equal. by destruct e as [|[]]. }
  rewrite Hs. split; [|split].
  - apply sublist_app; [done|]. destruct e as [now c|[]]; cbn [added]; try apply sublist_nil_l. done.
  - apply Forall_app. split.
    + eapply Forall_weaken; [exact Hall|]. intros m [H|(now & H & Hrest)]; [set_solver|].
      right. exists now. set_solver.
    + destruct e as [now c|e]; cbn [added]; [|destruct e; try apply Forall_nil_2].
      * destruct c; try apply Forall_nil_2. destruct (String.eqb_spec (trim (wr_draft s)) EmptyString);
          [apply Forall_nil_2|]. apply Forall_singleton. right. exists now. set_solver.
      * apply Forall_singleton. left. set_solver.
  - rewrite !length_app. cbn [length].
    assert (length (added e s) <= 1); [|lia].
    destruct e as [now c|e]; [destruct c|destruct e]; cbn; try lia.
    destruct (String.eqb _ _); cbn; lia.
Qed.

(** Rendering succeeds exactly when the post-mortem is closed or every
    decision has a date. *)
Lemma wr_view_total s :
  is_Some (wr_view s) <->
  wr_showPostMortemModal s = false \/
  Forall (fun m => is_Some (parse_date (cm_timestamp m))) (decisions s).
Proof.
  unfold wr_view. rewrite fmap_is_Some. unfold post_mortem_modal.
  destruct (wr_showPostMortemModal s); [|naive_solver].
  rewrite fmap_is_Some, mapM_is_Some.
  assert (H : Forall (is_Some ∘ decision_line) (decisions s) <->
              Forall (fun m => is_Some (parse_date (cm_timestamp m))) (decisions s)).
  { apply Forall_proper; [|done]. intros m. cbn. unfold decision_line, decision_time.
    by rewrite !fmap_is_Some. }
  rewrite H. naive_solver.
Qed.

Lemma wr_view_throws s m :
  wr_showPostMortemModal s = true -> m ∈ wr_messages s -> is_decision m = true ->
  parse_date (cm_timestamp m) = None -> wr_view s = None.
Proof.
  intros Hpm Hm Hd Hp. destruct (wr_view s) eqn:E; [|done]. exfalso.
  assert (His : is_Some (wr_view s)) by (by eexists).
  apply wr_view_total in His as [?|His]; [congruence|]. rewrite Forall_forall in His.
  destruct (His m) as [x Hx]; [|congruence].
  apply list_elem_of_In, List.filter_In. split; [by apply list_elem_of_In|done].
Qed.

(** One decision with an unreadable date breaks the page for good: when it
    has arrived and the post-mortem is opened, rendering throws, no control
    is left, and no event that can still happen brings the page back. *)
Lemma war_room_crash s k d now :
  is_Some (wr_view s) -> ws_enabled (wr_socket s) (WsMessage k d) ->
  wr_showPostMortemModal s = false ->
  is_decision (decode d) = true -> parse_date (cm_timestamp (decode d)) = None ->
  let es := [Socket (WsMessage k d); User now ClickPostMortem] in
  all_enabled wr_enabled wr_handle es s /\
  forall es' qs s', run wr_enabled wr_handle (fst (exec wr_handle es s)) es' qs s' -> wr_view s' = None.
Proof.
  intros Hv Hws Hpm Hd Hp es. split.
  - cbn [es all_enabled]. split; [by split|]. split; [|done]. cbn [wr_enabled].
    destruct (proj2 (wr_view_total (fst (wr_handle (Socket (WsMessage k d)) s)))) as [h Hh];
      [by left|]. exists h. split; [done|]. unfold wr_view, post_mortem_modal in Hh.
    change (wr_showPostMortemModal (fst (wr_handle (Socket (WsMessage k d)) s)))
      with (wr_showPostMortemModal s) in Hh. rewrite Hpm in Hh.
    apply (inj Some) in Hh as <-. rewrite !offers_any_app. left. unfold wr_header. offers_find.
  - intros es' qs s' Hrun.
    assert (Hinv : wr_showPostMortemModal s' = true /\ decode d ∈ wr_messages s').
    { induction Hrun as [|es' qs s1 e s' q _ [IH1 IH2] Hen Hh].
      - cbn. split; [done|]. set_solver.
      - pose proof (wr_messages_step e s1) as Hstep. rewrite Hh in Hstep. cbn [fst] in Hstep.
        rewrite Hstep. split; [|set_solver].
        destruct e as [now' c|e].
        { destruct Hen as (h & Hen & _). by rewrite (wr_view_throws s1 (decode d)) in Hen. }
        cbn [wr_handle] in Hh. unfold on_socket in Hh.
        destruct (ws_handle _ _ _ _) as [w q']. by simplify_eq. }
    destruct Hinv as [H1 H2]. by eapply wr_view_throws.
Qed.
(** Dates the page prints itself can be read back. *)
Definition clock_ok (t : Z) : Prop := (-62167215600000 <= t < 253402300800000)%Z.

Definition dated (m : ChatMessage) : Prop :=
  is_decision m = true -> is_Some (parse_date (cm_timestamp m)).

Definition event_ok (e : wr_event) : Prop :=
  match e with
  | User now _ => clock_ok now
  | Socket (WsMessage _ d) => dated (decode d)
  | _ => True
  end.

Context (parse_iso : forall t, (-62167219200000 <= t < 253402300800000)%Z ->
  parse_date (to_iso t) = Some t).

Lemma dated_iso x s t t' d :
  (-62167219200000 <= t < 253402300800000)%Z -> dated (MkChat x s t' (to_iso t) d).
Proof. intros Ht _. cbn. rewrite parse_iso by done. by eexists. Qed.

Lemma added_dated e s : event_ok e -> Forall dated (added e s).
Proof.
  intros He. destruct e as [now c|e]; [destruct c|destruct e]; cbn [added]; try apply Forall_nil_2.
  - destruct (String.eqb _ _); [apply Forall_nil_2|]. apply Forall_singleton, dated_iso.
    unfold event_ok, clock_ok in He. lia.
  - by apply Forall_singleton.
Qed.

(** As long as the decisions that arrive over the socket carry dates the
    browser can read, the page renders in every state of every execution;
    the analyst's own messages and the opening ones never break it, because
    the dates they print are read back. *)
Lemma war_room_renders t0 es qs s :
  clock_ok t0 -> Forall event_ok es ->
  run wr_enabled wr_handle (wr_init t0) es qs s -> is_Some (wr_view s).
Proof.
  intros Ht0 Hes Hrun. apply wr_view_total. right.
  assert (H : Forall dated (wr_messages s)).
  { revert Hes. induction Hrun as [|es qs s e s' q _ IH _ Hh]; intros Hes.
    - cbn. repeat constructor; apply dated_iso; unfold clock_ok in Ht0; lia.
    - apply Forall_app in Hes as [Hes He]. rewrite Forall_singleton in He.
      pose proof (wr_messages_step e s) as Hstep. rewrite Hh in Hstep. cbn [fst] in Hstep.
      rewrite Hstep. apply Forall_app. split; [auto|apply (added_dated e s He)]. }
  unfold decisions. apply Forall_forall. intros m [Hin Hd]%list_elem_of_In%List.filter_In.
  rewrite Forall_forall in H. apply H; [by apply list_elem_of_In|done].
Qed.

End View.
End WarRoom.

(** ** Witnesses *)
Definition demo_decode (d : string) : ChatMessage := MkChat "9" "Bob" d "2024-01-01T00:00:00Z" (Some true).
Definition demo_decode_bad (d : string) : ChatMessage := MkChat "9" "Bob" d "yesterday" (Some true).

Definition demo_events : list wr_event :=
  [Socket (WsEffect (war_room_url "INC-7")); Socket (WsOpen 1); Socket (WsMessage 1 "contain");
   User 1700000000000 (TypeDraft " "); User 1700000000000 (TypeDraft "ok");
   User 1700000001000 ClickPostMortem].

Definition demo_view := wr_view "INC-7" (date_parse id) id.
Definition demo_run (dec : string -> ChatMessage) (es : list wr_event) : wr_state :=
  fst (exec (wr_handle dec "https:") es (wr_init 1700000000000)).

Lemma demo_all_enabled :
  all_enabled (wr_enabled "INC-7" (date_parse id) id) (wr_handle demo_decode "https:")
    demo_events (wr_init 1700000000000).
Proof.
  cbn [demo_events all_enabled]. split_and!; try done.
  - split; [|done]. eexists. split; [reflexivity|done].
  - split; [|done]. eexists. split; [reflexivity|done].
  - eexists. split; [reflexivity|]. rewrite !offers_any_app. right. right. left.
    unfold wr_chat. rewrite !offers_any_app. right. right. offers_find.
  - eexists. split; [reflexivity|]. rewrite !offers_any_app. right. right. left.
    unfold wr_chat. rewrite !offers_any_app. right. right. offers_find.
  - eexists. split; [reflexivity|]. rewrite !offers_any_app. left. unfold wr_header. offers_find.
Qed.

Lemma demo_is_run :
  run (wr_enabled "INC-7" (date_parse id) id) (wr_handle demo_decode "https:")
    (wr_init 1700000000000) demo_events
    (snd (exec (wr_handle demo_decode "https:") demo_events (wr_init 1700000000000)))
    (demo_run demo_decode demo_events).
Proof. apply exec_run, demo_all_enabled. Qed.

Lemma war_room_log_witness :
  exists log, wr_messages (demo_run demo_decode demo_events) = initial_messages 1700000000000 ++ log /\
    [demo_decode "contain"] `sublist_of` log.
Proof.
  destruct (war_room_log "INC-7" demo_decode "https:" (date_parse id) id 1700000000000 demo_events
    _ _ demo_is_run) as (log & H1 & H2 & _). exists log. split; [exact H1|exact H2].
Defined.

Lemma war_room_renders_witness : is_Some (demo_view (demo_run demo_decode demo_events)).
Proof.
  refine (war_room_renders "INC-7" demo_decode "https:" (date_parse id) id (iso_roundtrip id)
    1700000000000 demo_events _ _ _ _ demo_is_run).
  - unfold clock_ok. lia.
  - repeat constructor; unfold event_ok, clock_ok; try lia. intros _. by eexists.
Defined.

Lemma war_room_crash_witness :
  demo_view (fst (exec (wr_handle demo_decode_bad "https:")
    [Socket (WsMessage 1 "x"); User 1700000001000 ClickPostMortem]
    (demo_run demo_decode_bad (take 2 demo_events)))) = None.
Proof.
  refine (proj2 (war_room_crash "INC-7" demo_decode_bad "https:" (date_parse id) id
    (demo_run demo_decode_bad (take 2 demo_events)) 1 "x" 1700000001000 _ _ eq_refl eq_refl eq_refl)
    [] [] _ _).
  - by eexists.
  - eexists. split; reflexivity.
  - constructor.
Defined.
