(* ===== verification/IocSearch.v ===== *)
(** * Indicator search ([pages/detection/IocSearchPage.tsx])

    The page searches a batch of indicators, keeps the last ten searches in
    [localStorage], exports the results as a [data:] URL, and puts indicators
    on a watch list.  The search is simulated in the page: after a timer it
    draws verdicts at random, so an answer event carries the draws (numbers
    in [0, 1)); arithmetic on them is exact.  A global risk score has one
    decimal and is kept in tenths.  The continuation of [toggleWatchlist]
    carries the results its closure captured. *)
From Stdlib Require Import QArith Qround Lqa.
From S2P Require Import Prelude JsString Dates Json Html Types Http SharedUi.
Local Open Scope nat_scope.


Record IOCResult := MkIOC {
  ir_ioc : string;
  ir_type : string;
  ir_feed : string;
  ir_verdict : Verdict;
  ir_confidence : Z;
  ir_lastSeen : option string;
  ir_searchCount30d : Z;
  ir_globalRiskScore : option Z;     (* tenths *)
  ir_isWatched : bool }.

Definition verdict_str (v : Verdict) : string :=
  match v with
  | Malicious => "malicious" | Suspicious => "suspicious" | Clean => "clean" | Unknown => "unknown"
  end.

(** ** Classification of an indicator *)

(** One or more digits. *)
Definition digits1 (s : string) : option string :=
  match s with
  | String a s' => match digit a with Some _ => Some (skip_digits s') | None => None end
  | EmptyString => None
  end.

(** [(?:\.[0-9]+){n}$] *)
Fixpoint dotted_groups (n : nat) (s : string) : bool :=
  match n with
  | O => String.eqb s EmptyString
  | S n => match expect "." s ≫= digits1 with Some r => dotted_groups n r | None => false end
  end.

(** [/^[0-9]+(?:\.[0-9]+){3}$/] *)
Definition ip_match (s : string) : bool :=
  match digits1 s with Some r => dotted_groups 3 r | None => false end.

Definition ioc_type (ioc : string) : string :=
  if includes "." ioc then (if ip_match ioc then "ip" else "domain") else "hash".

(** [searchQuery.split('\n').map(s => s.trim()).filter(Boolean)] *)
Definition ioc_list (q : string) : list string :=
  filter (fun s => s <> EmptyString) (trim <$> split_on newline q).

(** ** The simulated search *)
Record draw := Draw { dr_verdict : Q; dr_confidence : Q; dr_count : Q; dr_risk : Q }.

Definition unit_interval (q : Q) : Prop := (0 <= q /\ q < 1)%Q.
Definition draw_ok (d : draw) : Prop :=
  unit_interval (dr_verdict d) /\ unit_interval (dr_confidence d) /\
  unit_interval (dr_count d) /\ unit_interval (dr_risk d).

Definition mock_result (now : Z) (d : draw) (ioc : string) : IOCResult :=
  let malicious := negb (Qle_bool (dr_verdict d) (1 # 2)) in
  MkIOC ioc (ioc_type ioc)
    (if malicious then "AlienVault OTX" else "Internal Lookup")
    (if malicious then Malicious else Clean)
    (if malicious then 80 + Qfloor (dr_confidence d * 20) else 0)%Z
    (if malicious then Some (to_iso now) else None)
    (Qfloor (dr_count d * 15))
    (Some (if malicious then Qfloor ((7 + dr_risk d * 3) * 10 + (1 # 2)) else 12%Z))
    false.

(** ** Recent searches *)
Definition recents_doc (rs : list string) : doc := DArr (DStr <$> rs).

(** [JSON.parse(localStorage.getItem(key) || '[]')], the empty list when it
    throws; [None] when the stored text is not a list of strings. *)
Definition load_recents (stored : option string) : option (list string) :=
  match json_parse (or_str stored "[]") with
  | None => Some []
  | Some (JArr vs) => mapM (fun v => match v with JStr s => Some s | _ => None end) vs
  | Some _ => None
  end.

Definition new_recents (q : string) (rs : list string) : list string :=
  take 10 (q :: filter (fun x => x <> q) rs).

(** ** The page *)
Inductive ioc_kont := KSearch (iocs : list string) | KWatch (ioc : string) (results : list IOCResult).

Record ioc_state := IocState {
  is_query : string;
  is_results : list IOCResult;
  is_loading : bool;
  is_recents : list string;
  is_storage : option string;        (* localStorage['ioc_recent_searches'] *)
  is_flight : flight ioc_kont }.

Definition ioc_init (stored : option string) (recents : list string) : ioc_state :=
  IocState EmptyString [] false recents stored fl_empty.

Inductive ioc_effect :=
| Download (uri name : string)
| PostWatchlist (ioc : string)
| IocAlert (msg : string).

Inductive ioc_event :=
| TypeQuery (v : string)
| Search
| SearchRecent (s : string)
| ExportCsv
| Watch (ioc : string)
| SearchDone (k : nat) (now : Z) (draws : nat -> draw)
| Watched (k : nat) (r : http_result unit).

Definition handleSearch (q : string) (s : ioc_state) : ioc_state :=
  if String.eqb (trim q) EmptyString then s
  else
    let rs := new_recents q (is_recents s) in
    IocState (is_query s) (is_results s) true rs (Some (json_stringify (recents_doc rs)))
      (fl_await (KSearch (ioc_list q)) (is_flight s)).

(** [encodeURI] keeps the reserved characters and the number sign. *)
Definition uri_kept (a : ascii) : bool :=
  uri_unreserved a ||
  existsb (Nat.eqb (nat_of_ascii a)) [59; 47; 63; 58; 64; 38; 61; 43; 36; 44; 35].

Fixpoint encodeURI (s : string) : string :=
  match s with
  | EmptyString => EmptyString
  | String a s' =>
      let r := encodeURI s' in
      if uri_kept a then String a r
      else String "%" (String (hex_digit (nat_of_ascii a / 16))
                              (String (hex_digit (nat_of_ascii a mod 16)) r))
  end.

(** The decimal form of a number of tenths. *)
Definition tenths (t : Z) : string :=
  if (t mod 10 =? 0)%Z then of_Z (t / 10) else of_Z (t / 10) +:+ "." +:+ of_Z (t mod 10).

Definition csv_fields (r : IOCResult) : list string :=
  [ir_ioc r; ir_type r; verdict_str (ir_verdict r); tenths (or_num (ir_globalRiskScore r) 0);
   of_Z (ir_confidence r) +:+ "%"; ir_feed r; of_Z (ir_searchCount30d r)].

Definition csv_header : string := "IOC,Type,Verdict,Global Risk,Confidence,Feed,Search Count (30d)".

Definition csv_text (rs : list IOCResult) : string :=
  csv_header +:+ nl +:+ join nl (join "," ∘ csv_fields <$> rs).

Definition data_prefix : string := "data:text/csv;charset=utf-8,".

Definition handleExport (rs : list IOCResult) : ioc_effect :=
  Download (encodeURI (data_prefix +:+ csv_text rs)) "ioc_search_results.csv".

Definition toggle_watched (ioc : string) (r : IOCResult) : IOCResult :=
  if String.eqb (ir_ioc r) ioc
  then MkIOC (ir_ioc r) (ir_type r) (ir_feed r) (ir_verdict r) (ir_confidence r) (ir_lastSeen r)
         (ir_searchCount30d r) (ir_globalRiskScore r) (negb (ir_isWatched r))
  else r.

Definition set_results rs f s := IocState (is_query s) rs (is_loading s) (is_recents s) (is_storage s) f.

Definition ioc_handle (e : ioc_event) (s : ioc_state) : ioc_state * list ioc_effect :=
  match e with
  | TypeQuery v => (IocState v (is_results s) (is_loading s) (is_recents s) (is_storage s) (is_flight s), [])
  | Search => (handleSearch (is_query s) s, [])
  | SearchRecent q =>
      (handleSearch q (IocState q (is_results s) (is_loading s) (is_recents s) (is_storage s) (is_flight s)), [])
  | ExportCsv => (s, [handleExport (is_results s)])
  | Watch ioc => (set_results (is_results s) (fl_await (KWatch ioc (is_results s)) (is_flight s)) s,
                  [PostWatchlist ioc])
  | SearchDone k now draws =>
      match fl_map (is_flight s) !! k with
      | Some (KSearch iocs) =>
          (IocState (is_query s) (imap (fun i ioc => mock_result now (draws i) ioc) iocs) false
             (is_recents s) (is_storage s) (fl_forget k (is_flight s)), [])
      | _ => (s, [])
      end
  | Watched k r =>
      match fl_map (is_flight s) !! k, r with
      | Some (KWatch ioc captured), HttpOk _ =>
          (set_results (toggle_watched ioc <$> captured) (fl_forget k (is_flight s)) s, [])
      | Some (KWatch ioc captured), HttpErr _ =>
          (set_results (is_results s) (fl_forget k (is_flight s)) s, [IocAlert "Failed to update watchlist"])
      | _, _ => (s, [])
      end
  end.

(** ** The rendered page *)
Definition risk_tone (t : Z) : string :=
  if (70 <=? t)%Z then "text-red-500" else if (40 <=? t)%Z then "text-yellow-500" else "text-green-500".

Definition ioc_columns : list (Column ioc_event IOCResult) :=
  [MkColumn "ioc" "Indicator" (Some (fun r => El "div" "" [
      Text (ir_ioc r);
      Text (ir_type r +:+ " • Searched " +:+ of_Z (ir_searchCount30d r) +:+ " times (30d)")]))
      (fun _ => None);
   MkColumn "verdict" "Verdict & Risk" (Some (fun r => El "div" "" (
      [Badge (Some (match ir_verdict r with Malicious => S1 | Suspicious => S2 | _ => S4 end))
         [Text (to_upper (verdict_str (ir_verdict r)))]]
      ++ when_some (ir_globalRiskScore r) (fun t => [El "span" (risk_tone t) [Text (fixed1 t)]; Text "/ 10"]))))
      (fun _ => None);
   MkColumn "feed" "Primary Source" (Some (fun r => El "span" "" [
      Text (ir_feed r); Text ("(" +:+ of_Z (ir_confidence r) +:+ "% conf)")]))
      (fun _ => None);
   MkColumn "actions" EmptyString (Some (fun r => El "div" "" (
      when (bool_decide (ir_verdict r = Malicious)) [Button false None [Text "Pivot to Investigation"]]
      ++ [Button false (Some (Watch (ir_ioc r))) [Text (if ir_isWatched r then "★ Watched" else "☆ Watch")]])))
      (fun _ => None)].

Definition recent_label (s : string) : string :=
  nullish (head (split_on newline s)) EmptyString +:+ " " +:+ (if includes nl s then "(Batch)" else EmptyString).

Definition ioc_view (s : ioc_state) : list (html ioc_event) :=
  [El "h1" "" [Text "IOC Threat Hunting"];
   El "p" "" [Text "Batch search IPs, Domains, and Hashes across all active intelligence feeds."]]
  ++ when (0 <? length (is_results s)) [Button false (Some ExportCsv) [Text "Export CSV"]]
  ++ [Text "Indicators of Compromise"; Text "(Newline separated, max 100)";
      Input false (is_query s) TypeQuery;
      Button (is_loading s || String.eqb (trim (is_query s)) EmptyString) (Some Search)
        [Text (if is_loading s then "Scanning Feeds..." else "Hunt IOCs")]]
  ++ when (0 <? length (is_recents s)) [
       El "div" "" (Text "Recent Searches" ::
         ((fun q => Button false (Some (SearchRecent q)) [Text (recent_label q)]) <$> is_recents s))]
  ++ [if is_loading s then El "div" "" [Text "Aggregating feed data and calculating global risk..."]
      else if bool_decide (length (is_results s) = 0)
      then El "div" "" [Text "Enter indicators on the left to begin hunting."]
      else DataTable (is_results s) ioc_columns false].

Definition ioc_enabled (s : ioc_state) (e : ioc_event) : Prop :=
  match e with
  | SearchDone k _ draws =>
      (exists iocs, fl_map (is_flight s) !! k = Some (KSearch iocs)) /\ forall i, draw_ok (draws i)
  | Watched k _ => exists ioc rs, fl_map (is_flight s) !! k = Some (KWatch ioc rs)
  | _ => offers_any (ioc_view s) e
  end.

(** ** Classification *)
Fixpoint all_digits (s : string) : bool :=
  match s with
  | EmptyString => true
  | String a s' => match digit a with Some _ => all_digits s' | None => false end
  end.

Definition digit_group (s : string) : Prop := s <> EmptyString /\ all_digits s = true.

(** Four groups of digits separated by dots. *)
Definition dotted_quad (s : string) : Prop :=
  exists a b c d, digit_group a /\ digit_group b /\ digit_group c /\ digit_group d /\
    s = a +:+ "." +:+ b +:+ "." +:+ c +:+ "." +:+ d.

Lemma skip_digits_split s :
  exists a, all_digits a = true /\ s = a +:+ skip_digits s.
Proof.
  induction s as [|x s (a & Ha & E)]; [by exists EmptyString|]. cbn [skip_digits].
  destruct (digit x) eqn:Ex; [|by exists EmptyString].
  exists (String x a). cbn [all_digits]. rewrite Ex. split; [done|]. simpl. by rewrite <- E.
Qed.

Lemma skip_digits_app a r :
  all_digits a = true -> (forall x r', r = String x r' -> digit x = None) ->
  skip_digits (a +:+ r) = r.
Proof.
  intros Ha Hr. induction a as [|x a IH]; simpl.
  - destruct r as [|x r]; [done|]. cbn [skip_digits]. by rewrite (Hr x r).
  - cbn [all_digits] in Ha. destruct (digit x); [auto|done].
Qed.

Lemma digits1_sound s r :
  digits1 s = Some r -> exists a, digit_group a /\ s = a +:+ r.
Proof.
  destruct s as [|x s]; [done|]. cbn [digits1]. destruct (digit x) eqn:Ex; [|done].
  intros [= <-]. destruct (skip_digits_split s) as (a & Ha & E). exists (String x a).
  split; [split; [done|]; cbn [all_digits]; by rewrite Ex|]. simpl. by rewrite <- E.
Qed.

Lemma digits1_complete a r :
  digit_group a -> (forall x r', r = String x r' -> digit x = None) -> digits1 (a +:+ r) = Some r.
Proof.
  intros [Hne Ha] Hr. destruct a as [|x a]; [done|]. simpl. cbn [digits1 all_digits] in *.
  destruct (digit x); [|done]. f_equal. by apply skip_digits_app.
Qed.

Lemma expect_dot_sound s r : expect "." s = Some r -> s = "." +:+ r.
Proof.
  destruct s as [|x s]; [done|]. cbn [expect]. destruct (Ascii.eqb_spec x "."); [|done].
  intros [= <-]. by subst.
Qed.

Lemma dotted_groups_sound n s :
  dotted_groups (S n) s = true ->
  exists a r, digit_group a /\ s = "." +:+ a +:+ r /\ dotted_groups n r = true.
Proof.
  cbn [dotted_groups]. destruct (expect "." s) as [t|] eqn:E1; [|done]. cbn [mbind option_bind].
  destruct (digits1 t) as [r|] eqn:E2; [|done]. intros H.
  apply expect_dot_sound in E1. apply digits1_sound in E2 as (a & Ha & ->). eauto.
Qed.

Lemma dotted_groups_complete n a r :
  digit_group a -> (forall x r', r = String x r' -> digit x = None) ->
  dotted_groups (S n) ("." +:+ a +:+ r) = dotted_groups n r.
Proof.
  intros Ha Hr. cbn [dotted_groups]. change ("." +:+ a +:+ r) with (String "." (a +:+ r)).
  rewrite expect_char. cbn [mbind option_bind]. by rewrite digits1_complete.
Qed.

Lemma ip_match_spec s : ip_match s = true <-> dotted_quad s.
Proof.
  assert (Hdot : forall r x r', "." +:+ r = String x r' -> digit x = None)
    by (intros r x r' E; by simplify_eq/=).
  split.
  - unfold ip_match. destruct (digits1 s) as [r0|] eqn:E; [|done].
    apply digits1_sound in E as (a & Ha & ->).
    intros (b & r1 & Hb & -> & (c & r2 & Hc & -> & (d & r3 & Hd & -> & H)%dotted_groups_sound)%dotted_groups_sound)%dotted_groups_sound.
    apply String.eqb_eq in H as ->. exists a, b, c, d. split_and!; try done. by rewrite append_nil_r.
  - intros (a & b & c & d & Ha & Hb & Hc & Hd & ->). unfold ip_match.
    rewrite digits1_complete by eauto.
    rewrite dotted_groups_complete by eauto. rewrite dotted_groups_complete by eauto.
    rewrite <- (append_nil_r d). by rewrite dotted_groups_complete.
Qed.

(** The classification of an indicator against its specification: it is an
    address exactly when it is four groups of digits separated by dots, of
    any value (so 999.1.1.1 counts as one), a domain exactly when it has a
    dot and is not such a quad, and a hash exactly when it has no dot. *)
Lemma ioc_type_reference s :
  (ioc_type s = "ip" <-> dotted_quad s) /\
  (ioc_type s = "domain" <-> includes "." s = true /\ ~ dotted_quad s) /\
  (ioc_type s = "hash" <-> includes "." s = false).
Proof.
  assert (Hq : dotted_quad s -> includes "." s = true).
  { intros (a & b & c & d & _ & _ & _ & _ & ->). apply includes_spec. eauto. }
  unfold ioc_type. rewrite <- ip_match_spec in *.
  destruct (includes "." s), (ip_match s); naive_solver.
Qed.

(** ** Recent searches *)
Definition recents_ok (rs : list string) : Prop :=
  length rs <= 10 /\ NoDup rs /\ Forall (fun q => trim q <> EmptyString) rs.

Lemma new_recents_ok q rs : trim q <> EmptyString -> recents_ok rs -> recents_ok (new_recents q rs).
Proof.
  intros Hq (_ & Hnd & Hall). unfold new_recents. split_and!.
  - rewrite length_take. lia.
  - eapply sublist_NoDup; [|apply sublist_take]. apply NoDup_cons. split; [|by apply NoDup_filter].
    by intros [H _]%list_elem_of_filter.
  - apply Forall_take, Forall_cons. split; [done|]. by apply Forall_filter_sub.
Qed.

Lemma load_recents_stringify rs :
  load_recents (Some (json_stringify (recents_doc rs))) = Some rs.
Proof.
  unfold load_recents, or_str. rewrite bool_decide_eq_false_2 by done.
  rewrite json_roundtrip. cbn [recents_doc to_json].
  induction rs as [|r rs IH]; [done|]. rewrite !fmap_cons. cbn [mapM]. cbn [to_json].
  cbn [mbind option_bind]. by rewrite IH.
Qed.

Definition recents_inv (s : ioc_state) : Prop :=
  recents_ok (is_recents s) /\ load_recents (is_storage s) = Some (is_recents s).

Lemma handleSearch_recents q s : recents_inv s -> recents_inv (handleSearch q s).
Proof.
  intros [H1 H2]. unfold handleSearch. destruct (String.eqb_spec (trim q) EmptyString); [done|].
  split; [by apply new_recents_ok|apply load_recents_stringify].
Qed.

(** The recent searches, in every execution: at most ten, without
    repetitions or blanks, and the stored text always reads back to exactly
    the list shown, so that reopening the page restores it. *)
Lemma recents_roundtrip stored rs es qs s :
  load_recents stored = Some rs -> recents_ok rs ->
  run ioc_enabled ioc_handle (ioc_init stored rs) es qs s ->
  length (is_recents s) <= 10 /\ NoDup (is_recents s) /\
  Forall (fun q => trim q <> EmptyString) (is_recents s) /\
  load_recents (is_storage s) = Some (is_recents s).
Proof.
  intros Hl Hok Hrun. assert (recents_inv s) as [(H1 & H2 & H3) H4]; [|done].
  revert Hrun. apply run_invariant; [done|]. intros s1 e Hinv _. destruct e; try done.
  - by apply handleSearch_recents.
  - cbn [ioc_handle fst]. by apply handleSearch_recents.
  - cbn [ioc_handle]. by destruct (fl_map _ !! k) as [[]|].
  - cbn [ioc_handle]. by destruct (fl_map _ !! k) as [[]|], r.
Qed.

(** ** Results *)
(** A completed search shows one result per non-blank line of the query, in
    order and trimmed; a malicious verdict has a confidence of 80 to 99, a
    risk of 7.0 to 10.0 and a date, a clean one has 0, 1.2 and none, and the
    search count is 0 to 14. *)
Lemma search_results_bounds q now draws :
  (forall i, draw_ok (draws i)) ->
  let rs := imap (fun i ioc => mock_result now (draws i) ioc) (ioc_list q) in
  ir_ioc <$> rs = filter (fun l => l <> EmptyString) (trim <$> split_on newline q) /\
  Forall (fun r =>
    trimmed (ir_ioc r) /\ ir_ioc r <> EmptyString /\ (0 <= ir_searchCount30d r <= 14)%Z /\
    ((ir_verdict r = Malicious /\ (80 <= ir_confidence r <= 99)%Z /\ is_Some (ir_lastSeen r) /\
      exists t, ir_globalRiskScore r = Some t /\ (70 <= t <= 100)%Z) \/
     (ir_verdict r = Clean /\ ir_confidence r = 0%Z /\ ir_lastSeen r = None /\
      ir_globalRiskScore r = Some 12%Z))) rs.
Proof.
  intros Hd rs. split.
  - unfold rs. rewrite fmap_imap. transitivity (imap (const id) (ioc_list q)); [done|].
    by rewrite imap_const, list_fmap_id.
  - apply Forall_forall. intros r (i & Hi)%list_elem_of_lookup. unfold rs in Hi.
    rewrite list_lookup_imap in Hi. apply fmap_Some in Hi as (x & Hx & ->).
    apply list_elem_of_lookup_2 in Hx. unfold ioc_list in Hx.
    apply list_elem_of_filter in Hx as [Hne (y & -> & _)%list_elem_of_fmap].
    destruct (Hd i) as (_ & [Hc1 Hc2] & [Hn1 Hn2] & [Hr1 Hr2]).
    unfold mock_result. cbn -[Qfloor Qmult Qplus trim to_iso ioc_type Qle_bool]. split_and!; [apply trim_trimmed|done| | |].
    1-2: assert (0 <= Qfloor (dr_count (draws i) * 15) < 15)%Z; [|lia];
      apply Qfloor_bounds; unfold inject_Z; lra.
    destruct (Qle_bool (dr_verdict (draws i)) (1 # 2)); [right; done|left]. cbn -[Qfloor Qmult Qplus to_iso].
    assert (0 <= Qfloor (dr_confidence (draws i) * 20) < 20)%Z
      by (apply Qfloor_bounds; unfold inject_Z; lra).
    assert (70 <= Qfloor ((7 + dr_risk (draws i) * 3) * 10 + (1 # 2)) < 101)%Z
      by (apply Qfloor_bounds; unfold inject_Z; lra).
    split_and!; try done; try lia. eexists. split; [done|]. lia.
Qed.

(** The label asks for at most 100 lines, but nothing limits them. *)
Lemma ioc_batch_unlimited n :
  ioc_list (join nl (replicate (S n) "a.b")) = replicate (S n) "a.b".
Proof.
  unfold ioc_list. assert (H : split_on newline (join nl (replicate (S n) "a.b")) = replicate (S n) "a.b").
  { induction n as [|n IH]; [done|].
    change (join nl (replicate (S (S n)) "a.b")) with ("a.b" +:+ String newline (join nl (replicate (S n) "a.b"))).
    by rewrite split_on_app, IH by done. }
  rewrite H, fmap_replicate. change (trim "a.b") with "a.b".
  apply list_filter_all_id, Forall_replicate. done.
Qed.

(** ** Export
    What the browser saves for a [data:] URL: the fragment is not part of the
    resource, the data starts after the first comma and is percent-decoded. *)
Fixpoint percent_decode (s : string) : string :=
  match s with
  | EmptyString => EmptyString
  | String a s' =>
      if Ascii.eqb a "%" then
        match s' with
        | String h (String l s'') =>
            match hex_val h, hex_val l with
            | Some h', Some l' => String (ascii_of_nat (16 * h' + l')) (percent_decode s'')
            | _, _ => String a (percent_decode s')
            end
        | _ => String a (percent_decode s')
        end
      else String a (percent_decode s')
  end.

Definition data_url_text (u : string) : string :=
  let u := match cut "#" u with Some (l, _) => l | None => u end in
  match cut "," u with Some (_, body) => percent_decode body | None => EmptyString end.

(** The file a download saves. *)
Definition saved_file (q : ioc_effect) : string :=
  match q with Download u _ => data_url_text u | _ => EmptyString end.

Definition encodeURI_char (a : ascii) : string := encodeURI (String a EmptyString).

Lemma encodeURI_cons a s : encodeURI (String a s) = encodeURI_char a +:+ encodeURI s.
Proof. unfold encodeURI_char. cbn [encodeURI]. by destruct (uri_kept a). Qed.

Lemma encodeURI_app s t : encodeURI (s +:+ t) = encodeURI s +:+ encodeURI t.
Proof.
  induction s as [|a s IH]; [done|].
  change (String a s +:+ t) with (String a (s +:+ t)).
  rewrite (encodeURI_cons a (s +:+ t)), (encodeURI_cons a s), IH. by rewrite append_assoc.
Qed.

Lemma percent_decode_char a r : percent_decode (encodeURI_char a +:+ r) = String a (percent_decode r).
Proof. destruct a as [[] [] [] [] [] [] [] []]; reflexivity. Qed.

Lemma percent_decode_encodeURI s : percent_decode (encodeURI s) = s.
Proof.
  induction s as [|a s IH]; [done|]. by rewrite encodeURI_cons, percent_decode_char, IH.
Qed.

(** Encoding produces a number sign only from a number sign. *)
Lemma encodeURI_avoids s : avoids "#" (encodeURI s) = avoids "#" s.
Proof.
  induction s as [|a s IH]; [done|]. rewrite encodeURI_cons, avoids_app, IH. cbn [avoids]. f_equal.
  destruct a as [[] [] [] [] [] [] [] []]; reflexivity.
Qed.

Lemma cut_avoids c s : avoids c s = true -> cut c s = None.
Proof.
  induction s as [|a s IH]; [done|]. cbn [avoids cut]. intros [Ha Hs]%andb_true_iff.
  apply negb_true_iff in Ha. by rewrite Ha, IH.
Qed.

Lemma not_avoids_split c s :
  avoids c s = false -> exists a b, s = a +:+ String c b /\ avoids c a = true.
Proof.
  induction s as [|x s IH]; [done|]. cbn [avoids].
  destruct (bool_decide_reflect (x = c)) as [->|Hne]; cbn [negb andb].
  - intros _. by exists EmptyString, s.
  - intros (a & b & -> & Ha)%IH. exists (String x a), b. split; [done|]. cbn [avoids].
    by rewrite bool_decide_eq_false_2.
Qed.

Lemma data_url_whole s :
  avoids "#" s = true -> data_url_text (encodeURI (data_prefix +:+ s)) = s.
Proof.
  intros Hs. unfold data_url_text. rewrite (cut_avoids "#").
  2: { rewrite encodeURI_avoids, avoids_app, Hs. reflexivity. }
  rewrite encodeURI_app. change (encodeURI data_prefix) with ("data:text/csv;charset=utf-8" +:+ String "," EmptyString).
  rewrite append_assoc. change (String "," EmptyString +:+ encodeURI s) with (String "," (encodeURI s)).
  rewrite (cut_app "," "data:text/csv;charset=utf-8" (encodeURI s)) by reflexivity.
  apply percent_decode_encodeURI.
Qed.

Lemma data_url_cut a b :
  avoids "#" a = true -> data_url_text (encodeURI (data_prefix +:+ a +:+ String "#" b)) = a.
Proof.
  intros Ha. rewrite <- append_assoc, encodeURI_app.
  change (encodeURI (String "#" b)) with (String "#" (encodeURI b)).
  unfold data_url_text. rewrite (cut_app "#").
  2: { rewrite encodeURI_avoids, avoids_app, Ha. reflexivity. }
  pose proof (data_url_whole a Ha) as H. unfold data_url_text in H.
  rewrite (cut_avoids "#") in H; [done|]. by rewrite encodeURI_avoids, avoids_app, Ha.
Qed.

(** *** The table *)
Definition plain_for (cs : list ascii) (s : string) : Prop := forall c, c ∈ cs -> avoids c s = true.
Definition csv_special : list ascii := [","; "#"; newline]%char.
Notation plain := (plain_for csv_special).

Lemma plain_app s t : plain s -> plain t -> plain (s +:+ t).
Proof. intros Hs Ht c Hc. by rewrite avoids_app, (Hs c Hc), (Ht c Hc). Qed.

Ltac plain_const := intros c Hc; unfold csv_special in Hc; elem_inv Hc; subst; reflexivity.

Lemma plain_digit x : (x < 10)%N -> forall c, c ∈ csv_special -> avoids c (String (pretty_N_char x) EmptyString) = true.
Proof.
  intros Hx c Hc. assert (x = 0 \/ x = 1 \/ x = 2 \/ x = 3 \/ x = 4 \/ x = 5 \/ x = 6 \/ x = 7 \/ x = 8 \/ x = 9)%N
    as Hcase by lia.
  unfold csv_special in Hc. elem_inv Hc; repeat destruct Hcase as [->|Hcase]; try reflexivity; by subst.
Qed.

Lemma plain_pretty_go x s : plain s -> plain (pretty_N_go x s).
Proof.
  revert s. induction (N.lt_wf_0 x) as [x _ IH]; intros s Hs.
  destruct (decide (0 < x)%N) as [Hx|Hx].
  - rewrite pretty_N_go_step by done. apply IH; [apply N.div_lt; lia|].
    intros c Hc. pose proof (plain_digit (x `mod` 10)%N ltac:(apply N.mod_lt; lia) c Hc) as Hd.
    cbn [avoids] in Hd |- *. rewrite andb_true_r in Hd. by rewrite Hd, (Hs c Hc).
  - assert (x = 0%N) as -> by lia. by rewrite pretty_N_go_0.
Qed.

Lemma plain_pretty_N (x : N) : plain (pretty x).
Proof.
  unfold pretty, pretty_N. case_decide; [plain_const|]. apply plain_pretty_go. by intros c _.
Qed.

Lemma plain_of_Z (n : Z) : plain (of_Z n).
Proof.
  unfold of_Z, pretty, pretty_Z. destruct n as [|p|p]; [plain_const|apply plain_pretty_N|].
  apply (plain_app "-"); [plain_const|apply plain_pretty_N].
Qed.

Lemma plain_tenths t : plain (tenths t).
Proof.
  unfold tenths. destruct (_ =? 0)%Z; [apply plain_of_Z|].
  apply plain_app; [apply plain_of_Z|]. apply plain_app; [plain_const|apply plain_of_Z].
Qed.

Definition result_plain (r : IOCResult) : Prop := plain (ir_type r) /\ plain (ir_feed r).

Lemma csv_fields_plain r : result_plain r -> plain (ir_ioc r) -> Forall plain (csv_fields r).
Proof.
  intros [Ht Hf] Hi. unfold csv_fields. repeat apply Forall_cons_2; try done.
  - destruct (ir_verdict r); plain_const.
  - apply plain_tenths.
  - apply plain_app; [apply plain_of_Z|plain_const].
  - apply plain_of_Z.
Qed.

Lemma row_plain r c :
  result_plain r -> plain (ir_ioc r) -> c = "#"%char \/ c = newline ->
  avoids c (join "," (csv_fields r)) = true.
Proof.
  intros Hr Hi Hc. apply avoids_join; [by destruct Hc as [->| ->]|].
  eapply Forall_weaken; [by apply csv_fields_plain|]. intros s Hs. apply Hs.
  unfold csv_special. destruct Hc as [->| ->]; set_solver.
Qed.

(** What every list of results the page holds satisfies. *)
Definition results_inv (s : ioc_state) : Prop :=
  Forall result_plain (is_results s) /\
  forall k ioc rs, fl_map (is_flight s) !! k = Some (KWatch ioc rs) -> Forall result_plain rs.

Lemma mock_result_plain now d ioc : result_plain (mock_result now d ioc).
Proof.
  split; cbn.
  - unfold ioc_type. destruct (includes _ _); [destruct (ip_match _)|]; plain_const.
  - destruct (negb _); plain_const.
Qed.

Lemma toggle_watched_plain ioc rs :
  Forall result_plain rs -> Forall result_plain (toggle_watched ioc <$> rs).
Proof.
  intros H. apply Forall_fmap. eapply Forall_weaken; [exact H|]. intros r Hr. cbn.
  unfold toggle_watched. by destruct (String.eqb _ _).
Qed.

Lemma ioc_handle_results s e : results_inv s -> results_inv (fst (ioc_handle e s)).
Proof.
  assert (Hsearch : forall q s, results_inv s -> results_inv (handleSearch q s)).
  { intros q s' [H1 H2]. unfold handleSearch. destruct (String.eqb _ _); [done|]. split; [done|].
    intros k ioc rs [[_ ?]|[_ Hk]]%fl_await_lookup; [done|eauto]. }
  intros [H1 H2]. destruct e; cbn [ioc_handle]; try (by split); try (by apply Hsearch).
  - split; [done|]. intros k ioc' rs [[_ ?]|[_ Hk]]%fl_await_lookup; [by simplify_eq|eauto].
  - destruct (fl_map _ !! k) as [[iocs|ioc rs]|]; try (by split). split.
    + apply Forall_forall. intros r (i & Hi)%list_elem_of_lookup. cbn in Hi.
      rewrite list_lookup_imap in Hi. apply fmap_Some in Hi as (x & _ & ->). apply mock_result_plain.
    + intros j ioc rs [_ Hj]%fl_forget_lookup. eauto.
  - destruct (fl_map _ !! k) as [[iocs|ioc rs]|] eqn:Ek; try (by split).
    destruct r; split; cbn.
    + apply toggle_watched_plain. eauto.
    + intros j ioc' rs' [_ Hj]%fl_forget_lookup. eauto.
    + done.
    + intros j ioc' rs' [_ Hj]%fl_forget_lookup. eauto.
Qed.

(** C36: in every execution that starts from an empty storage the exported file
    reads back as the table: when no
    indicator contains a comma, a line break or a number sign, splitting the
    saved text into lines and the lines at commas gives the header and then,
    per result and in order, its seven fields. *)
Theorem csv_export_roundtrip es qs s :
  run ioc_enabled ioc_handle (ioc_init None []) es qs s ->
  is_results s <> [] -> Forall (fun r => plain (ir_ioc r)) (is_results s) ->
  split_on "," <$> split_on newline (saved_file (handleExport (is_results s))) =
  split_on "," csv_header :: (csv_fields <$> is_results s).
Proof.
  intros Hrun Hne Hplain.
  assert (Hres : Forall result_plain (is_results s)).
  { assert (results_inv s) as [H _]; [|done]. revert Hrun. apply run_invariant.
    - split; [apply Forall_nil_2|]. intros k ioc rs H. cbn in H. by rewrite lookup_empty in H.
    - intros s1 e H _. by apply ioc_handle_results. }
  assert (Hrows : forall c, c = "#"%char \/ c = newline ->
    Forall (fun l => avoids c l = true) (join "," ∘ csv_fields <$> is_results s)).
  { intros c Hc. apply Forall_fmap. rewrite !Forall_forall in *. intros r Hr. cbn.
    apply row_plain; auto. }
  unfold handleExport, saved_file, csv_text. rewrite data_url_whole.
  2: { rewrite !avoids_app, avoids_join; [reflexivity|reflexivity|auto]. }
  cbn [String.append nl]. change (nl +:+ ?x) with (String newline x).
  rewrite split_on_app by reflexivity.
  change nl with (String newline EmptyString). rewrite split_on_join; [|by destruct (is_results s)|auto].
  rewrite fmap_cons. f_equal. rewrite <- list_fmap_compose. apply list_fmap_ext. intros i r Hr. unfold compose.
  apply list_elem_of_lookup_2 in Hr. rewrite Forall_forall in Hres, Hplain.
  rewrite split_on_join; [done|done|].
  eapply Forall_weaken; [apply csv_fields_plain; auto|]. intros x Hx. apply Hx.
  unfold csv_special. set_solver.
Qed.

(** A number sign in an indicator truncates the export: [encodeURI] keeps
    it, so the saved file ends just before it and the rest of that row and
    every row after it are lost. *)
Lemma csv_export_truncated rs r :
  r ∈ rs -> avoids "#" (ir_ioc r) = false ->
  exists lost, csv_text rs = saved_file (handleExport rs) +:+ "#" +:+ lost /\
    avoids "#" (saved_file (handleExport rs)) = true.
Proof.
  intros Hr Hioc.
  assert (Hcsv : avoids "#" (csv_text rs) = false).
  { destruct (avoids "#" (csv_text rs)) eqn:E; [|done]. unfold csv_text in E.
    rewrite !avoids_app in E. apply andb_true_iff in E as [_ [_ E]%andb_true_iff].
    induction rs as [|r' rs IH]; [by apply not_elem_of_nil in Hr|].
    assert (Hrow : avoids "#" (join "," (csv_fields r')) = true /\
                   (rs <> [] -> avoids "#" (join nl (join "," ∘ csv_fields <$> rs)) = true)).
    { destruct rs as [|r'' rs]; [done|]. rewrite !fmap_cons, join_cons2, !avoids_app in E.
      apply andb_true_iff in E as [E1 [_ E2]%andb_true_iff]. split; [exact E1|]. intros _.
      by rewrite fmap_cons. }
    destruct Hrow as [Hrow Hrest]. apply elem_of_cons in Hr as [->|Hr].
    - unfold csv_fields in Hrow. rewrite join_cons2, avoids_app in Hrow.
      apply andb_true_iff in Hrow as [Hrow _]. congruence.
    - apply IH; [done|]. apply Hrest. by destruct rs; [apply not_elem_of_nil in Hr|]. }
  apply not_avoids_split in Hcsv as (a & b & E & Ha). exists b.
  assert (Hs : saved_file (handleExport rs) = a).
  { unfold saved_file, handleExport. rewrite E. by apply data_url_cut. }
  by rewrite Hs, E.
Qed.

(** ** Watch list *)
Lemma offers_watch s r :
  is_loading s = false -> r ∈ is_results s -> offers_any (ioc_view s) (Watch (ir_ioc r)).
Proof.
  intros Hl Hr. unfold ioc_view. rewrite !offers_any_app. do 4 right. rewrite Hl.
  rewrite bool_decide_eq_false_2 by (by destruct (is_results s); [apply not_elem_of_nil in Hr|]).
  unfold DataTable. rewrite bool_decide_eq_false_2 by (by destruct (is_results s); [apply not_elem_of_nil in Hr|]).
  rewrite offers_any_cons, offers_El, !offers_any_cons. left. right. left.
  rewrite offers_El, offers_any_map. exists r. split; [done|].
  rewrite offers_El. unfold ioc_columns. rewrite !fmap_cons, !offers_any_cons. do 3 right. left.
  unfold cell. cbn [col_render]. rewrite offers_El, offers_any_cons, offers_El, offers_any_app.
  left. right. offers_find.
Qed.

Lemma offers_search s :
  is_loading s = false -> trim (is_query s) <> EmptyString -> offers_any (ioc_view s) Search.
Proof.
  intros Hl Hq. unfold ioc_view. rewrite !offers_any_app. do 2 right. left. rewrite Hl.
  apply String.eqb_neq in Hq. rewrite Hq. cbn [orb]. offers_find.
Qed.

(** The answer of the watch list writes back the results of the moment of
    the click: when a new search has finished in between, its results are
    replaced by those of the search before. *)
Lemma watch_restores_old_results s r now draws :
  is_loading s = false -> r ∈ is_results s -> trim (is_query s) <> EmptyString ->
  (forall i, draw_ok (draws i)) ->
  let k := fl_next (is_flight s) in
  let es := [Watch (ir_ioc r); Search; SearchDone (S k) now draws] in
  let s3 := fst (exec ioc_handle es s) in
  all_enabled ioc_enabled ioc_handle (es ++ [Watched k (HttpOk tt)]) s /\
  is_results s3 = imap (fun i ioc => mock_result now (draws i) ioc) (ioc_list (is_query s)) /\
  is_results (fst (ioc_handle (Watched k (HttpOk tt)) s3)) = toggle_watched (ir_ioc r) <$> is_results s.
Proof.
  intros Hl Hr Hq Hd k es s3. subst es s3.
  assert (Hqb : String.eqb (trim (is_query s)) EmptyString = false) by by apply String.eqb_neq.
  pose (s1 := fst (ioc_handle (Watch (ir_ioc r)) s)).
  assert (E2 : ioc_handle Search s1 = (IocState (is_query s) (is_results s) true
    (new_recents (is_query s) (is_recents s))
    (Some (json_stringify (recents_doc (new_recents (is_query s) (is_recents s)))))
    (fl_await (KSearch (ioc_list (is_query s))) (fl_await (KWatch (ir_ioc r) (is_results s)) (is_flight s))), [])).
  { unfold s1. cbn [ioc_handle fst]. unfold handleSearch, set_results.
    cbn [is_query is_recents is_results is_flight]. by rewrite Hqb. }
  assert (L1 : forall K, fl_map (fl_await K (fl_await (KWatch (ir_ioc r) (is_results s)) (is_flight s))) !! S k = Some K).
  { intros K. apply fl_await_lookup. by left. }
  assert (L2 : forall K, fl_map (fl_await K (fl_await (KWatch (ir_ioc r) (is_results s)) (is_flight s))) !! k
     = Some (KWatch (ir_ioc r) (is_results s))).
  { intros K. apply fl_await_lookup. right. split; [cbn; lia|]. apply fl_await_lookup. by left. }
  assert (E3 : forall s2, s2 = fst (ioc_handle Search s1) ->
    exists s3, ioc_handle (SearchDone (S k) now draws) s2 = (s3, []) /\
      is_results s3 = imap (fun i ioc => mock_result now (draws i) ioc) (ioc_list (is_query s)) /\
      fl_map (is_flight s3) !! k = Some (KWatch (ir_ioc r) (is_results s))).
  { intros s2 ->. rewrite E2. cbn [fst ioc_handle is_flight]. rewrite L1. eexists. split; [done|].
    split; [done|]. cbn [is_flight]. apply fl_forget_lookup. split; [lia|]. apply L2. }
  destruct (E3 _ eq_refl) as (s3 & H3 & Hres & Hk).
  change (exec ioc_handle [Watch (ir_ioc r); Search; SearchDone (S k) now draws] s)
    with (let '(s2, q2) := exec ioc_handle [Search; SearchDone (S k) now draws] s1 in
          (s2, [PostWatchlist (ir_ioc r)] ++ q2)).
  assert (E : fst (exec ioc_handle [Search; SearchDone (S k) now draws] s1) = s3).
  { cbn [exec]. rewrite E2 in H3 |- *. cbn [fst] in H3. by rewrite H3. }
  destruct (exec ioc_handle [Search; SearchDone (S k) now draws] s1) as [s2 q2]. cbn [fst] in E. subst s2.
  cbn [fst]. split; [|split; [done|]].
  - cbn [app all_enabled]. fold s1. split; [by apply offers_watch|].
    split; [by apply offers_search|]. rewrite H3. cbn [fst]. split.
    + split; [|done]. rewrite E2. cbn [fst is_flight]. rewrite L1. eauto.
    + split; [|done]. cbn [ioc_enabled]. rewrite Hk. eauto.
  - cbn [ioc_handle]. by rewrite Hk.
Qed.

(** ** Witnesses *)
Definition demo_draw : nat -> draw := fun _ => Draw (3 # 4) (1 # 2) (1 # 2) (1 # 2).
Lemma demo_draw_ok i : draw_ok (demo_draw i).
Proof. repeat split; cbn; unfold Qle, Qlt; cbn; lia. Qed.

Definition demo_search (q : string) : list ioc_event := [TypeQuery q; Search; SearchDone 0 0 demo_draw].
Definition demo_page (q : string) : ioc_state := fst (exec ioc_handle (demo_search q) (ioc_init None [])).

Lemma demo_search_run q :
  trim q <> EmptyString ->
  run ioc_enabled ioc_handle (ioc_init None []) (demo_search q)
    (snd (exec ioc_handle (demo_search q) (ioc_init None []))) (demo_page q).
Proof.
  intros Hq. apply exec_run. cbn [demo_search all_enabled]. split; [|split; [|split; [|done]]].
  - cbn [ioc_enabled]. unfold ioc_view. rewrite !offers_any_app. do 2 right. left. offers_find.
  - by apply offers_search.
  - split; [|apply demo_draw_ok]. exists (ioc_list q). cbn. unfold handleSearch. cbn.
    apply String.eqb_neq in Hq. rewrite Hq. reflexivity.
Qed.

Lemma recents_roundtrip_witness :
  is_recents (demo_page "evil.com") = ["evil.com"] /\
  load_recents (is_storage (demo_page "evil.com")) = Some ["evil.com"].
Proof.
  split; [reflexivity|].
  refine (proj2 (proj2 (proj2 (recents_roundtrip None [] (demo_search "evil.com") _ (demo_page "evil.com")
    eq_refl _ (demo_search_run "evil.com" _))))); [|discriminate].
  split; [cbn; lia|]. split; [apply NoDup_nil_2|apply Forall_nil_2].
Defined.

Lemma search_results_bounds_witness :
  ir_ioc <$> is_results (demo_page "evil.com") = ["evil.com"].
Proof.
  exact (proj1 (search_results_bounds "evil.com" 0 demo_draw demo_draw_ok)).
Defined.

Lemma csv_export_roundtrip_witness :
  split_on "," <$> split_on newline (saved_file (handleExport (is_results (demo_page "evil.com")))) =
  [["IOC"; "Type"; "Verdict"; "Global Risk"; "Confidence"; "Feed"; "Search Count (30d)"];
   ["evil.com"; "domain"; "malicious"; "8.5"; "90%"; "AlienVault OTX"; "7"]].
Proof.
  refine (csv_export_roundtrip (demo_search "evil.com") _ (demo_page "evil.com")
    (demo_search_run "evil.com" _) _ _); [discriminate|discriminate|].
  apply Forall_singleton. plain_const.
Defined.

Lemma csv_export_truncated_witness :
  exists lost, csv_text (is_results (demo_page "http://a.b/#c")) =
    saved_file (handleExport (is_results (demo_page "http://a.b/#c"))) +:+ "#" +:+ lost.
Proof.
  destruct (csv_export_truncated (is_results (demo_page "http://a.b/#c"))
    (mock_result 0 (demo_draw 0) "http://a.b/#c")) as (lost & H & _); [|reflexivity|by exists lost].
  apply list_elem_of_In. left. reflexivity.
Defined.

Lemma watch_restores_old_results_witness :
  ir_ioc <$> is_results (fst (exec ioc_handle
    [Watch "a.b"; Search; SearchDone 2 0 demo_draw; Watched 1 (HttpOk tt)]
    (fst (ioc_handle (TypeQuery "c.d") (demo_page "a.b"))))) = ["a.b"].
Proof.
  pose proof (watch_restores_old_results (fst (ioc_handle (TypeQuery "c.d") (demo_page "a.b")))
    (mock_result 0 (demo_draw 0) "a.b") 0 demo_draw eq_refl) as H.
  destruct H as (_ & _ & H); [apply list_elem_of_In; left; reflexivity|discriminate|apply demo_draw_ok|].
  apply (f_equal (fmap ir_ioc)) in H. exact H.
Defined.
