(* ===== verification/ThreatFeeds.v ===== *)
(** * Threat feeds ([pages/detection/ThreatFeedsPage.tsx])

    The table of intelligence feeds with a forced synchronisation per feed, a
    form that registers a feed with its credential, and an alert
    configuration.  Quality, quota and errors are drawn at random when the
    list is loaded, so the answer event carries the draws.  The form has
    required fields and a URL field: the browser does not submit it while
    they are invalid ([valid_url] is the browser's check). *)
From Stdlib Require Import QArith Qround Qminmax Lqa.
From S2P Require Import Prelude JsString Dates Html Types Http AsyncState SharedUi.
Local Open Scope nat_scope.

Record quota := Quota { qu_used : Z; qu_limit : Z }.
Record feed_error := FeedError { fe_timestamp : string; fe_message : string }.

Record EnhancedThreatFeed := MkFeed {
  ef_feed : ThreatFeed;
  ef_qualityScore : option Z;
  ef_quota : option quota;
  ef_recentErrors : option (list feed_error) }.

Definition ef_id (f : EnhancedThreatFeed) : string := feed_id (ef_feed f).
Definition ef_name (f : EnhancedThreatFeed) : string := feed_name (ef_feed f).

Record feed_draw := FeedDraw { fd_quality : Q; fd_used : Q; fd_errors : Q }.
Definition feed_draw_ok (d : feed_draw) : Prop :=
  (0 <= fd_quality d < 1 /\ 0 <= fd_used d < 1 /\ 0 <= fd_errors d < 1)%Q.

Definition enhance_feed (now : Z) (d : feed_draw) (f : ThreatFeed) : EnhancedThreatFeed :=
  MkFeed f (Some (Qfloor (fd_quality d * 40) + 10)%Z)
    (if String.eqb (feed_type f) "COMMERCIAL" || includes "Alien" (feed_name f)
     then Some (Quota (Qfloor (fd_used d * 9000)) 10000) else None)
    (Some (if negb (Qle_bool (fd_errors d) (1 # 2))
           then [FeedError (to_iso (now - 3600000)) "Malformed STIX payload at line 42";
                 FeedError (to_iso (now - 7200000)) "Connection timeout during bulk fetch"]
           else [])).

(** ** [Sparkline] *)
Definition chart_data (data : list Z) (draws : nat -> Q) : list Z :=
  if length data =? 7 then data else (fun i => Qfloor (draws i * 5000)) <$> seq 0 7.

(** [Math.max(...chartData, 1)] *)
Definition chart_max (l : list Z) : Z := foldr Z.max 1%Z l.

Definition bar_height (l : list Z) (v : Z) : Q := inject_Z v / inject_Z (chart_max l) * 100.

(** [parseInt(s)]: optional sign and leading digits; [None] is [NaN]. *)
Fixpoint int_prefix (acc : option Z) (s : string) : option Z :=
  match s with
  | String a s' =>
      match digit a with
      | Some d => int_prefix (Some (10 * default 0 acc + d)%Z) s'
      | None => acc
      end
  | EmptyString => acc
  end.
Definition parseInt (s : string) : option Z :=
  let s := trim_start s in
  match expect "-" s with
  | Some r => Z.opp <$> int_prefix None r
  | None => int_prefix None (match expect "+" s with Some r => r | None => s end)
  end.

(** ** The page *)
Record new_feed := NewFeed { nf_name : string; nf_type : string; nf_url : string; nf_credential : string }.
Definition empty_feed : new_feed := NewFeed EmptyString "TAXII" EmptyString EmptyString.

Record alert_config := AlertConfig { ac_channel : string; ac_threshold : option Z }.

Inductive feed_kont := FKLoad | FKSync (f : EnhancedThreatFeed) | FKAdd.

Record feed_state := FeedState {
  fs_async : async (list EnhancedThreatFeed);
  fs_syncingId : option string;
  fs_showAddModal : bool;
  fs_newFeed : new_feed;
  fs_addError : string;
  fs_showAlertModal : bool;
  fs_alertConfig : alert_config;
  fs_expanded : option string;
  fs_showOverlap : bool;
  fs_flight : flight feed_kont }.

Definition fs_data (s : feed_state) : option (list EnhancedThreatFeed) := as_data (fs_async s).

Definition feed_init : feed_state :=
  FeedState async_init None false empty_feed EmptyString false (AlertConfig "slack" (Some 15%Z))
    None false fl_empty.

Inductive feed_effect :=
| GetFeeds
| PostSync (id : string)
| PostFeed (f : new_feed)
| FeedAlert (msg : string).

(** The outcome of registering a feed: the [message] of the response body and
    of the error. *)
Inductive add_result := AddOk | AddErr (body message : option string).

Inductive feed_event :=
| FeedExecute
| FeedSync (f : EnhancedThreatFeed)
| FeedExpand (id : string)
| OpenOverlap | CloseOverlap
| OpenAlerts | CloseAlerts | SaveAlerts | SetChannel (v : string) | SetThreshold (v : string)
| OpenAdd | CancelAdd | SubmitAdd
| SetName (v : string) | SetType (v : string) | SetUrl (v : string) | SetCredential (v : string)
| FeedsLoaded (k : nat) (now : Z) (draws : nat -> feed_draw) (r : http_result (list ThreatFeed))
| FeedSynced (k : nat) (r : http_result unit)
| FeedAdded (k : nat) (r : add_result).

Definition set_load a f s := FeedState a (fs_syncingId s) (fs_showAddModal s) (fs_newFeed s) (fs_addError s)
  (fs_showAlertModal s) (fs_alertConfig s) (fs_expanded s) (fs_showOverlap s) f.
Definition set_syncing x s := FeedState (fs_async s) x (fs_showAddModal s) (fs_newFeed s) (fs_addError s)
  (fs_showAlertModal s) (fs_alertConfig s) (fs_expanded s) (fs_showOverlap s) (fs_flight s).
Definition set_add b nf e s := FeedState (fs_async s) (fs_syncingId s) b nf e
  (fs_showAlertModal s) (fs_alertConfig s) (fs_expanded s) (fs_showOverlap s) (fs_flight s).
Definition set_alerts b c s := FeedState (fs_async s) (fs_syncingId s) (fs_showAddModal s) (fs_newFeed s)
  (fs_addError s) b c (fs_expanded s) (fs_showOverlap s) (fs_flight s).
Definition set_panels x b s := FeedState (fs_async s) (fs_syncingId s) (fs_showAddModal s) (fs_newFeed s)
  (fs_addError s) (fs_showAlertModal s) (fs_alertConfig s) x b (fs_flight s).
Definition set_new_feed nf s := set_add (fs_showAddModal s) nf (fs_addError s) s.
Definition feed_await k s := set_load (fs_async s) (fl_await k (fs_flight s)) s.
Definition feed_forget k s := set_load (fs_async s) (fl_forget k (fs_flight s)) s.

Definition feed_execute (s : feed_state) : feed_state * list feed_effect :=
  (set_load (async_start (fs_async s)) (fl_await FKLoad (fs_flight s)) s, [GetFeeds]).

(** [handleSync] up to its [await], and the rest with the [finally]. *)
Definition handleSync (f : EnhancedThreatFeed) (s : feed_state) : feed_state * list feed_effect :=
  (feed_await (FKSync f) (set_syncing (Some (ef_id f)) s), [PostSync (ef_id f)]).

Definition sync_alert (f : EnhancedThreatFeed) (e : http_error) : string :=
  if bool_decide (he_status e = Some 401%Z) || bool_decide (he_status e = Some 403%Z)
  then "Authentication failed for " +:+ ef_name f
       +:+ ": The API key or credential may be expired or invalid."
  else "Sync failed for " +:+ ef_name f.

Definition handleSync_done (f : EnhancedThreatFeed) (r : http_result unit) (s : feed_state)
    : feed_state * list feed_effect :=
  let '(s, q) := match r with
    | HttpOk _ => feed_execute s
    | HttpErr e => (s, [FeedAlert (sync_alert f e)])
    end in
  (set_syncing None s, q).

Definition handleAddFeed (s : feed_state) : feed_state * list feed_effect :=
  (feed_await FKAdd (set_add (fs_showAddModal s) (fs_newFeed s) EmptyString s), [PostFeed (fs_newFeed s)]).

Definition handleAddFeed_done (r : add_result) (s : feed_state) : feed_state * list feed_effect :=
  match r with
  | AddOk => feed_execute (set_add false empty_feed (fs_addError s) s)
  | AddErr body msg =>
      (set_add (fs_showAddModal s) (fs_newFeed s)
         (or_str body (or_str msg "Failed to add feed")) s, [])
  end.

Definition feed_handle (e : feed_event) (s : feed_state) : feed_state * list feed_effect :=
  let nf := fs_newFeed s in
  match e with
  | FeedExecute => feed_execute s
  | FeedSync f => handleSync f s
  | FeedExpand id =>
      (set_panels (if bool_decide (fs_expanded s = Some id) then None else Some id) (fs_showOverlap s) s, [])
  | OpenOverlap => (set_panels (fs_expanded s) true s, [])
  | CloseOverlap => (set_panels (fs_expanded s) false s, [])
  | OpenAlerts => (set_alerts true (fs_alertConfig s) s, [])
  | CloseAlerts => (set_alerts false (fs_alertConfig s) s, [])
  | SaveAlerts => (set_alerts false (fs_alertConfig s) s, [FeedAlert "Alerts saved"])
  | SetChannel v => (set_alerts (fs_showAlertModal s) (AlertConfig v (ac_threshold (fs_alertConfig s))) s, [])
  | SetThreshold v =>
      (set_alerts (fs_showAlertModal s) (AlertConfig (ac_channel (fs_alertConfig s)) (parseInt v)) s, [])
  | OpenAdd => (set_add true nf (fs_addError s) s, [])
  | CancelAdd => (set_add false nf (fs_addError s) s, [])
  | SubmitAdd => handleAddFeed s
  | SetName v => (set_new_feed (NewFeed v (nf_type nf) (nf_url nf) (nf_credential nf)) s, [])
  | SetType v => (set_new_feed (NewFeed (nf_name nf) v (nf_url nf) (nf_credential nf)) s, [])
  | SetUrl v => (set_new_feed (NewFeed (nf_name nf) (nf_type nf) v (nf_credential nf)) s, [])
  | SetCredential v => (set_new_feed (NewFeed (nf_name nf) (nf_type nf) (nf_url nf) v) s, [])
  | FeedsLoaded k now draws r =>
      (set_load (match r with
                 | HttpOk fs => async_ok (imap (fun i f => enhance_feed now (draws i) f) fs) (fs_async s)
                 | HttpErr e => async_fail (he_message e) (fs_async s)
                 end) (fl_forget k (fs_flight s)) s, [])
  | FeedSynced k r =>
      match fl_map (fs_flight s) !! k with
      | Some (FKSync f) => handleSync_done f r (feed_forget k s)
      | _ => (s, [])
      end
  | FeedAdded k r =>
      match fl_map (fs_flight s) !! k with
      | Some FKAdd => handleAddFeed_done r (feed_forget k s)
      | _ => (s, [])
      end
  end.

(** ** The rendered page *)
Section View.
(** Locale formats, the decimal form of a number, the draws of the
    sparklines of this rendering, the browser's check of a URL. *)
Context (locale_date locale_time : string -> string) (locale_num : Z -> string) (num : Q -> string).
Context (spark : nat -> Q) (valid_url : string -> bool).

Definition Sparkline (data : list Z) : html feed_event :=
  let chart := chart_data data spark in
  El "div" "" ((fun v => El "div" ("height: " +:+ num (bar_height chart v) +:+ "%") []) <$> chart).

Definition health_status (h : FeedHealth) : StatusType :=
  match h with FeedHealthy => StSuccess | FeedDegraded => StWarning | FeedDown => StError end.
Definition health_str (h : FeedHealth) : string :=
  match h with FeedHealthy => "healthy" | FeedDegraded => "degraded" | FeedDown => "down" end.
Definition health_tone (h : FeedHealth) : string :=
  match h with
  | FeedHealthy => "text-green-400" | FeedDegraded => "text-yellow-400" | FeedDown => "text-red-400"
  end.

Definition quota_ratio (q : quota) : Q := inject_Z (qu_used q) / inject_Z (qu_limit q).

Definition quota_cell (q : option quota) : html feed_event :=
  match q with
  | Some q =>
      let over := negb (Qle_bool (quota_ratio q) (4 # 5)) in
      El "div" "" [
        El "span" (if over then "text-red-400" else "text-slate-400") [Text (locale_num (qu_used q))];
        Text (locale_num (qu_limit q));
        El "div" ((if over then "bg-red-500" else "bg-blue-500")
                  +:+ " width: " +:+ num (quota_ratio q * 100) +:+ "%") []]
  | None => Text "Unlimited"
  end.

Definition quality_cell (q : option Z) : html feed_event :=
  match q with
  | Some n => if (n =? 0)%Z then Text "N/A" else El "div" "" [Text (of_Z n +:+ "%"); Text "led to incidents"]
  | None => Text "N/A"
  end.

Definition error_rows (s : feed_state) (f : EnhancedThreatFeed) : list (html feed_event) :=
  when (bool_decide (fs_expanded s = Some (ef_id f)))
    (when_some (ef_recentErrors f) (fun errs => [
       El "tr" "" (Text "Recent Ingestion Errors" ::
         ((fun e => El "li" "" [Text (locale_date (fe_timestamp e)); Text (fe_message e)]) <$> errs))])).

Definition feed_row (s : feed_state) (f : EnhancedThreatFeed) : html feed_event :=
  let fd := ef_feed f in
  let syncing := bool_decide (fs_syncingId s = Some (ef_id f)) in
  El "fragment" "" (
    [El "tr" (if bool_decide (fs_expanded s = Some (ef_id f)) then "bg-slate-800/20" else EmptyString) [
       El "td" "" [StatusDot (health_status (feed_health fd)) false;
                   El "span" (health_tone (feed_health fd)) [Text (to_upper (health_str (feed_health fd)))]];
       El "td" "" [Text (ef_name f);
                   Text (feed_type fd +:+ " • Last: " +:+ locale_time (feed_lastSync fd))];
       El "td" "" [Sparkline (feed_iocVolume7d fd)];
       El "td" "" [quality_cell (ef_qualityScore f)];
       El "td" "" [quota_cell (ef_quota f)];
       El "td" "" (
         when_some (ef_recentErrors f) (fun errs => when (0 <? length errs)
           [Button false (Some (FeedExpand (ef_id f))) [Text (of_nat_str (length errs) +:+ " Errors")]])
         ++ [Button syncing (Some (FeedSync f)) [Text (if syncing then "Syncing..." else "Force Sync")]])]]
    ++ error_rows s f).

Definition feed_table (s : feed_state) : html feed_event :=
  El "table" "" [
    El "thead" "" (Text <$> ["Health"; "Feed Name"; "7-Day Ingestion"; "Quality (SNR)"; "Quota / Cost"; "Actions"]);
    El "tbody" "" (feed_row s <$> nullish (fs_data s) [])].

Definition overlap_modal (s : feed_state) : list (html feed_event) :=
  when (fs_showOverlap s) [
    El "div" "" [
      El "h2" "" [Text "Feed Overlap Analysis"];
      Text "Identify redundant threat intelligence sources to optimize costs.";
      El "tr" "" (Text <$> ["AlienVault OTX ↔ Abuse.ch"; "34% overlap"; "Monitor redundancy"]);
      El "tr" "" (Text <$> ["Commercial Feed B ↔ OSINT List"; "89% overlap"; "High redundancy (Deprecate OSINT)"]);
      Button false (Some CloseOverlap) [Text "Close"]]].

Definition alerts_modal (s : feed_state) : list (html feed_event) :=
  when (fs_showAlertModal s) [
    El "div" "" [
      El "h2" "" [Text "Feed Health Alerts"];
      Text "Notification Channel";
      Select (ac_channel (fs_alertConfig s))
        [("slack", "Slack (#soc-alerts)"); ("email", "Email (soc-team@company.com)")] SetChannel;
      Text "Downtime Threshold (Minutes)";
      Input false (match ac_threshold (fs_alertConfig s) with Some n => of_Z n | None => "NaN" end) SetThreshold;
      Button false (Some CloseAlerts) [Text "Cancel"];
      Button false (Some SaveAlerts) [Text "Save Config"]]].

Definition type_options : list (string * string) :=
  [("TAXII", "TAXII"); ("MISP", "MISP"); ("CUSTOM_API", "Custom API")].

Definition add_modal (s : feed_state) : list (html feed_event) :=
  let nf := fs_newFeed s in
  when (fs_showAddModal s) [
    El "div" "" [
      El "h2" "" [Text "Add New Threat Feed"];
      Form SubmitAdd (
        [Text "Feed Name"; Input false (nf_name nf) SetName;
         Text "Protocol/Type"; Select (nf_type nf) type_options SetType;
         Text "Endpoint URL"; Input false (nf_url nf) SetUrl;
         Text "API Key / Credential (write-only)"; Input false (nf_credential nf) SetCredential]
        ++ when (negb (String.eqb (fs_addError s) EmptyString)) [Text (fs_addError s)]
        ++ [Button false (Some CancelAdd) [Text "Cancel"]; El "button" "submit" [Text "Add Feed"]])]].

Definition feed_view (s : feed_state) : list (html feed_event) :=
  if as_loading (fs_async s) then [LoadingSkeleton 8]
  else match as_error (fs_async s), fs_data s with
       | Some err, None => [ErrorState err (Some FeedExecute)]
       | _, _ =>
           [El "h1" "" [Text "Threat Intelligence Feeds"];
            El "p" "" [Text "Manage real-time IOC streaming and external threat ingestion."];
            Button false (Some OpenOverlap) [Text "Overlap Analysis"];
            Button false (Some OpenAlerts) [Text "Configure Alerts"];
            Button false (Some OpenAdd) [Text "Add New Feed"];
            feed_table s]
           ++ overlap_modal s ++ alerts_modal s ++ add_modal s
       end.

(** The browser's validation of the form: the required fields and the URL. *)
Definition form_valid (nf : new_feed) : bool :=
  negb (String.eqb (nf_name nf) EmptyString) && negb (String.eqb (nf_url nf) EmptyString)
  && valid_url (nf_url nf) && negb (String.eqb (nf_credential nf) EmptyString).

Definition feed_enabled (s : feed_state) (e : feed_event) : Prop :=
  match e with
  | FeedExecute => True
  | FeedsLoaded k _ draws _ => fl_map (fs_flight s) !! k = Some FKLoad /\ forall i, feed_draw_ok (draws i)
  | FeedSynced k _ => exists f, fl_map (fs_flight s) !! k = Some (FKSync f)
  | FeedAdded k _ => fl_map (fs_flight s) !! k = Some FKAdd
  | SubmitAdd => offers_any (feed_view s) e /\ form_valid (fs_newFeed s) = true
  | _ => offers_any (feed_view s) e
  end.

(** ** What the page can produce *)
Lemma feed_view_open s d :
  as_loading (fs_async s) = false -> fs_data s = Some d ->
  feed_view s =
    [El "h1" "" [Text "Threat Intelligence Feeds"];
     El "p" "" [Text "Manage real-time IOC streaming and external threat ingestion."];
     Button false (Some OpenOverlap) [Text "Overlap Analysis"];
     Button false (Some OpenAlerts) [Text "Configure Alerts"];
     Button false (Some OpenAdd) [Text "Add New Feed"];
     feed_table s]
    ++ overlap_modal s ++ alerts_modal s ++ add_modal s.
Proof. intros Hl Hd. unfold feed_view. rewrite Hl, Hd. by destruct (as_error _). Qed.

Lemma offers_sync s d f :
  as_loading (fs_async s) = false -> fs_data s = Some d -> f ∈ d ->
  fs_syncingId s <> Some (ef_id f) -> offers_any (feed_view s) (FeedSync f).
Proof.
  intros Hl Hd Hf Hs. rewrite (feed_view_open s d Hl Hd), offers_any_app. left.
  rewrite !offers_any_cons. do 5 right. left. unfold feed_table.
  rewrite offers_El, !offers_any_cons. right. left. rewrite Hd. cbn [nullish default].
  rewrite offers_El, offers_any_map. exists f. split; [done|]. unfold feed_row.
  rewrite (bool_decide_eq_false_2 _ Hs), offers_El, offers_any_app, offers_any_cons, offers_El.
  left. left. rewrite !offers_any_cons. do 5 right. left. rewrite offers_El, offers_any_app.
  right. offers_find.
Qed.

Definition feed_guard (e : feed_event) : Prop :=
  match e with SetType v => v ∈ type_options.*1 | _ => True end.

Lemma feed_offers_guard s e : offers_any (feed_view s) e -> feed_guard e.
Proof.
  unfold feed_view. intros H. destruct (as_loading _); [by offers_cases H|].
  assert (H' : offers_any ([El "h1" "" [Text "Threat Intelligence Feeds"];
     El "p" "" [Text "Manage real-time IOC streaming and external threat ingestion."];
     Button false (Some OpenOverlap) [Text "Overlap Analysis"];
     Button false (Some OpenAlerts) [Text "Configure Alerts"];
     Button false (Some OpenAdd) [Text "Add New Feed"];
     feed_table s] ++ overlap_modal s ++ alerts_modal s ++ add_modal s) e \/ feed_guard e).
  { destruct (as_error _), (fs_data s); auto. right. by offers_cases H. }
  destruct H' as [H'|]; [|done]. clear H. rewrite !offers_any_app in H'. destruct H' as [H|[H|[H|H]]].
  - rewrite !offers_any_cons in H. unfold feed_table, feed_row, error_rows, StatusDot in H. offers_cases H; try done.
    + unfold Sparkline in H. by offers_cases H.
    + unfold quality_cell in H. destruct (ef_qualityScore _); [destruct (_ =? _)%Z|]; by offers_cases H.
    + unfold quota_cell in H. destruct (ef_quota _); by offers_cases H.
  - unfold overlap_modal in H. by offers_cases H.
  - unfold alerts_modal in H. by offers_cases H.
  - unfold add_modal in H. by offers_cases H.
Qed.

(** ** Registration *)
Definition type_ok (s : feed_state) : Prop := nf_type (fs_newFeed s) ∈ type_options.*1.

Lemma feed_handle_type s e : type_ok s -> feed_enabled s e -> type_ok (fst (feed_handle e s)).
Proof.
  intros H Hen. destruct e; try done; cbn [feed_handle].
  - by apply feed_offers_guard in Hen.
  - destruct (fl_map _ !! k) as [[]|]; try done. unfold handleSync_done. by destruct r.
  - destruct (fl_map _ !! k) as [[]|]; try done. unfold handleAddFeed_done. destruct r; [|done].
    cbn. unfold type_ok. cbn. left.
Qed.

(** C40: in every execution a feed is registered only by submitting the form, as
    it stands in the form, with a name, a URL the browser accepts, a
    credential and one of the offered types; when the registration succeeds
    the form is closed and the credential forgotten. *)
Lemma feed_registration es qs s e f :
  run feed_enabled feed_handle feed_init es qs s -> feed_enabled s e ->
  PostFeed f ∈ snd (feed_handle e s) ->
  e = SubmitAdd /\ f = fs_newFeed s /\ nf_name f <> EmptyString /\ nf_credential f <> EmptyString /\
  valid_url (nf_url f) = true /\ nf_type f ∈ ["TAXII"; "MISP"; "CUSTOM_API"] /\
  forall s', fs_newFeed (fst (handleAddFeed_done AddOk s')) = empty_feed /\
    fs_showAddModal (fst (handleAddFeed_done AddOk s')) = false.
Proof.
  intros Hrun Hen Hq.
  assert (Ht : type_ok s).
  { revert Hrun. apply run_invariant; [left|]. intros; by apply feed_handle_type. }
  assert (He : e = SubmitAdd /\ f = fs_newFeed s).
  { destruct e; cbn [feed_handle] in Hq; try (by elem_inv Hq).
    - destruct (fl_map _ !! k) as [[]|]; try by elem_inv Hq.
      unfold handleSync_done in Hq. destruct r; by elem_inv Hq.
    - destruct (fl_map _ !! k) as [[]|]; try by elem_inv Hq.
      unfold handleAddFeed_done in Hq. destruct r; by elem_inv Hq. }
  destruct He as [-> ->]. destruct Hen as [_ Hv]. unfold form_valid in Hv. bool_to_prop.
  split_and!; try done; by apply String.eqb_neq.
Qed.

(** ** Synchronisation *)

(** The mark of a running synchronisation is shared by all feeds: when two
    are started, the end of the first clears the mark of the second, whose
    button can then be pressed again while its request is pending, and the
    request is sent twice. *)
Lemma sync_flag_shared s d a b e :
  as_loading (fs_async s) = false -> fs_data s = Some d -> fs_syncingId s = None ->
  a ∈ d -> b ∈ d -> ef_id a <> ef_id b ->
  let k := fl_next (fs_flight s) in
  let es := [FeedSync a; FeedSync b; FeedSynced k (HttpErr e)] in
  let s3 := fst (exec feed_handle es s) in
  all_enabled feed_enabled feed_handle (es ++ [FeedSync b]) s /\
  fl_map (fs_flight s3) !! S k = Some (FKSync b) /\
  snd (exec feed_handle (es ++ [FeedSync b]) s) =
    [PostSync (ef_id a); PostSync (ef_id b); FeedAlert (sync_alert a e); PostSync (ef_id b)].
Proof.
  intros Hl Hd Hs Ha Hb Hab k es s3.
  assert (L1 : fl_map (fl_await (FKSync b) (fl_await (FKSync a) (fs_flight s))) !! k = Some (FKSync a)).
  { apply fl_await_lookup. right. split; [cbn; lia|]. apply fl_await_lookup. by left. }
  assert (L2 : fl_map (fl_forget k (fl_await (FKSync b) (fl_await (FKSync a) (fs_flight s)))) !! S k
    = Some (FKSync b)).
  { apply fl_forget_lookup. split; [lia|]. apply fl_await_lookup. by left. }
  pose (s2 := fst (feed_handle (FeedSync b) (fst (feed_handle (FeedSync a) s)))).
  assert (E3 : feed_handle (FeedSynced k (HttpErr e)) s2 =
    (set_syncing None (feed_forget k s2), [FeedAlert (sync_alert a e)])).
  { cbn [feed_handle]. change (fs_flight s2) with (fl_await (FKSync b) (fl_await (FKSync a) (fs_flight s))).
    rewrite L1. reflexivity. }
  assert (Es : exec feed_handle es s = (set_syncing None (feed_forget k s2),
    [PostSync (ef_id a); PostSync (ef_id b); FeedAlert (sync_alert a e)])).
  { unfold es. cbn [exec].
    change (feed_handle (FeedSync a) s) with (fst (feed_handle (FeedSync a) s), [PostSync (ef_id a)]). cbv iota beta.
    change (feed_handle (FeedSync b) (fst (feed_handle (FeedSync a) s))) with (s2, [PostSync (ef_id b)]). cbv iota beta.
    rewrite E3. reflexivity. }
  split; [|split].
  - cbn [es app all_enabled]. fold s2. rewrite E3. cbn [fst]. split_and!; [| | | |done].
    + eapply offers_sync; eauto. congruence.
    + eapply offers_sync; [exact Hl|exact Hd|done|]. cbn. congruence.
    + exists a. exact L1.
    + eapply offers_sync; [exact Hl|exact Hd|done|done].
  - unfold s3. rewrite Es. exact L2.
  - subst s3. revert Es. unfold es. cbn [app exec]. 
    destruct (feed_handle (FeedSync a) s) as [x1 q1] eqn:E1.
    destruct (feed_handle (FeedSync b) x1) as [x2 q2] eqn:E2.
    destruct (feed_handle (FeedSynced k (HttpErr e)) x2) as [x3 q3]. cbv iota beta.
    intros Es. injection Es as E4 E5. rewrite app_nil_r in E5.
    cbn [feed_handle handleSync]. cbv iota beta. rewrite app_nil_r.
    cbn [snd]. change [PostSync (ef_id a); PostSync (ef_id b); FeedAlert (sync_alert a e); PostSync (ef_id b)]
      with ([PostSync (ef_id a); PostSync (ef_id b); FeedAlert (sync_alert a e)] ++ [PostSync (ef_id b)]).
    rewrite <- E5. by rewrite <- !app_assoc.
Qed.
End View.

(** ** Figures *)
Lemma chart_max_ge l v : v ∈ l -> (v <= chart_max l)%Z.
Proof.
  induction l as [|x l IH]; [by intros ?%not_elem_of_nil|]. cbn [chart_max foldr].
  intros [->|H%IH]%elem_of_cons; [lia|]. unfold chart_max in H. lia.
Qed.
Lemma chart_max_pos l : (1 <= chart_max l)%Z.
Proof. induction l as [|x l IH]; cbn [chart_max foldr]; [lia|]. unfold chart_max in IH. lia. Qed.
Lemma chart_max_attained l : chart_max l = 1%Z \/ chart_max l ∈ l.
Proof.
  induction l as [|x l IH]; [by left|]. unfold chart_max in *. cbn [foldr].
  destruct (Z.max_spec x (foldr Z.max 1%Z l)) as [[_ ->]|[_ ->]]; [|right; set_solver].
  destruct IH as [->|IH]; [by left|right; set_solver].
Qed.

Lemma ratio_bounds (v m : Z) : (0 <= v <= m)%Z -> (1 <= m)%Z ->
  (0 <= inject_Z v / inject_Z m * 100 <= 100)%Q.
Proof.
  intros Hv Hm. assert (Hm' : (0 < inject_Z m)%Q) by (rewrite <- (Zlt_Qlt 0); lia).
  assert (H0 : (0 <= inject_Z v)%Q) by (rewrite <- (Zle_Qle 0); lia).
  assert (H1 : (inject_Z v <= inject_Z m)%Q) by (rewrite <- Zle_Qle; lia).
  assert (Hr : (0 <= inject_Z v / inject_Z m <= 1)%Q).
  { split; [apply Qle_shift_div_l; lra|apply Qle_shift_div_r; lra]. }
  lra.
Qed.

(** Every figure the table draws stays on its scale: a quality is 10 to 49
    and therefore shown, a quota is used below 90 percent of its limit, the
    bars of the sparkline of a week of counts are 0 to 100 percent high, the
    greatest count reaches 100, and a week without counts is flat. *)
Lemma feed_figures_bounds now d f :
  feed_draw_ok d ->
  (exists q, ef_qualityScore (enhance_feed now d f) = Some q /\ (10 <= q <= 49)%Z) /\
  (forall q, ef_quota (enhance_feed now d f) = Some q ->
     (0 <= quota_ratio q * 100 < 90)%Q) /\
  (forall l v, Forall (Z.le 0) l -> v ∈ l -> (0 <= bar_height l v <= 100)%Q) /\
  (forall l, (exists v, v ∈ l /\ (1 <= v)%Z) -> exists v, v ∈ l /\ (bar_height l v == 100)%Q) /\
  (forall l v, Forall (eq 0%Z) l -> v ∈ l -> (bar_height l v == 0)%Q).
Proof.
  intros ([Hq1 Hq2] & [Hu1 Hu2] & _). split_and!.
  - eexists. split; [done|].
    assert (0 <= Qfloor (fd_quality d * 40) < 40)%Z by (apply Qfloor_bounds; unfold inject_Z; lra). lia.
  - intros q. cbn [enhance_feed ef_quota]. destruct (_ || _); [|done]. intros Hq. apply (inj Some) in Hq as <-.
    unfold quota_ratio. cbn [qu_used qu_limit].
    assert (0 <= Qfloor (fd_used d * 9000) < 9000)%Z as [H1 H2] by (apply Qfloor_bounds; unfold inject_Z; lra).
    assert (H3 : (0 <= inject_Z (Qfloor (fd_used d * 9000)))%Q) by (rewrite <- (Zle_Qle 0); lia).
    assert (H4 : (inject_Z (Qfloor (fd_used d * 9000)) < 9000)%Q) by (rewrite <- (Zlt_Qlt _ 9000); lia).
    unfold Qdiv. change (/ inject_Z 10000)%Q with (1 # 10000)%Q.
    generalize dependent (inject_Z (Qfloor (fd_used d * 9000))). intros; split; lra.
  - intros l v Hl Hv. rewrite Forall_forall in Hl. apply ratio_bounds; [|apply chart_max_pos].
    split; [by apply Hl|by apply chart_max_ge].
  - intros l (v & Hv & H1). assert (Hin : chart_max l ∈ l).
    { destruct (chart_max_attained l) as [E|]; [|done]. pose proof (chart_max_ge l v Hv).
      rewrite E. by assert (v = 1%Z) as -> by lia. }
    exists (chart_max l). split; [done|]. unfold bar_height.
    pose proof (chart_max_pos l). field. intros E. apply (Qeq_bool_iff) in E.
    unfold Qeq_bool, inject_Z in E. cbn in E. apply Z.eqb_eq in E. lia.
  - intros l v Hl Hv. rewrite Forall_forall in Hl. rewrite <- (Hl v Hv). unfold bar_height, Qdiv.
    change (inject_Z 0) with 0%Q. ring.
Qed.

(** ** Authentication failures *)

(** A feed whose credential is refused ends the analyst's session as well:
    the page reports a status of 401 as a failure of the feed's credential,
    but the client's interceptor has already sent the browser to the login
    page, and a 403 to the refusal page. *)
Lemma sync_auth_logs_out s k f e pathname :
  fl_map (fs_flight s) !! k = Some (FKSync f) -> pathname <> "/login" ->
  he_status e = Some 401%Z \/ he_status e = Some 403%Z ->
  snd (feed_handle (FeedSynced k (HttpErr e)) s) =
    [FeedAlert ("Authentication failed for " +:+ ef_name f
       +:+ ": The API key or credential may be expired or invalid.")] /\
  fs_syncingId (fst (feed_handle (FeedSynced k (HttpErr e)) s)) = None /\
  response_error pathname e =
    Some (if decide (he_status e = Some 401%Z) then login_redirect pathname else "/unauthorized").
Proof.
  intros Hk Hp He. cbn [feed_handle]. rewrite Hk. cbn [handleSync_done snd fst].
  assert (Ha : bool_decide (he_status e = Some 401%Z) || bool_decide (he_status e = Some 403%Z) = true).
  { destruct He as [He|He]; rewrite He; reflexivity. }
  unfold sync_alert. rewrite Ha. split; [done|]. split; [done|]. unfold response_error.
  destruct He as [He|He]; rewrite He; repeat case_bool_decide; repeat case_decide; done.
Qed.

(** Cancelling the form keeps the credential, and opening it again shows it in
    the field labelled write-only. *)
Lemma cancel_keeps_credential s :
  fs_newFeed (fst (exec feed_handle [CancelAdd; OpenAdd] s)) = fs_newFeed s.
Proof. reflexivity. Qed.

(** An emptied threshold is stored as not a number. *)
Lemma empty_threshold_nan s :
  ac_threshold (fs_alertConfig (fst (feed_handle (SetThreshold EmptyString) s))) = None.
Proof. reflexivity. Qed.

(** ** Witnesses *)
Definition demo_tf (id name : string) : ThreatFeed :=
  {| feed_id := id; feed_name := name; feed_type := "TAXII"; feed_health := FeedHealthy;
     feed_lastSync := "2024-01-01"; feed_iocVolume7d := [1; 2; 3; 4; 5; 6; 7]%Z; feed_authFailed := None |}.
Definition demo_fd : feed_draw := FeedDraw (1 # 2) (1 # 2) (1 # 4).
Lemma demo_fd_ok : feed_draw_ok demo_fd.
Proof. unfold feed_draw_ok, demo_fd; cbn; unfold Qle, Qlt; cbn; lia. Qed.
Definition demo_ef (id name : string) : EnhancedThreatFeed := enhance_feed 0 demo_fd (demo_tf id name).

Definition demo_feeds : feed_state :=
  fst (exec feed_handle [FeedExecute; FeedsLoaded 0 0 (fun _ => demo_fd)
    (HttpOk [demo_tf "a" "AlienVault"; demo_tf "b" "Abuse.ch"])] feed_init).

Lemma sync_flag_shared_witness :
  fl_map (fs_flight (fst (exec feed_handle
    [FeedSync (demo_ef "a" "AlienVault"); FeedSync (demo_ef "b" "Abuse.ch");
     FeedSynced 1 (HttpErr (HttpError (Some 500%Z) None None))] demo_feeds))) !! 2
  = Some (FKSync (demo_ef "b" "Abuse.ch")).
Proof.
  refine (proj1 (proj2 (sync_flag_shared id id of_Z (fun _ => EmptyString) (fun _ => 0%Q) (fun _ => true) demo_feeds
    [demo_ef "a" "AlienVault"; demo_ef "b" "Abuse.ch"] (demo_ef "a" "AlienVault") (demo_ef "b" "Abuse.ch")
    (HttpError (Some 500%Z) None None) eq_refl eq_refl eq_refl _ _ _)));
    [apply list_elem_of_In; left; reflexivity|apply list_elem_of_In; right; left; reflexivity|discriminate].
Defined.

Lemma feed_figures_bounds_witness :
  exists q, ef_qualityScore (demo_ef "a" "AlienVault") = Some q /\ (10 <= q <= 49)%Z.
Proof. exact (proj1 (feed_figures_bounds 0 demo_fd (demo_tf "a" "AlienVault") demo_fd_ok)). Defined.

Lemma sync_auth_logs_out_witness :
  response_error "/detection/feeds" (HttpError (Some 401%Z) None None) =
    Some "/login?redirect=%2Fdetection%2Ffeeds".
Proof.
  refine (proj2 (proj2 (sync_auth_logs_out (fst (feed_handle (FeedSync (demo_ef "a" "x")) demo_feeds)) 1
    (demo_ef "a" "x") (HttpError (Some 401%Z) None None) "/detection/feeds" eq_refl _ (or_introl eq_refl)))).
  discriminate.
Defined.

Definition demo_form : list feed_event :=
  [FeedExecute; FeedsLoaded 0 0 (fun _ => demo_fd) (HttpOk []); OpenAdd; SetName "n"; SetUrl "https://x"; SetCredential "k"].
Definition demo_form_state : feed_state := fst (exec feed_handle demo_form feed_init).

Lemma feed_registration_witness :
  nf_type (fs_newFeed demo_form_state) ∈ ["TAXII"; "MISP"; "CUSTOM_API"].
Proof.
  pose (V := fun s => feed_view id id of_Z (fun _ => EmptyString) (fun _ => 0%Q) s).
  assert (Hall : all_enabled (feed_enabled id id of_Z (fun _ => EmptyString) (fun _ => 0%Q) (fun _ => true))
    feed_handle demo_form feed_init).
  { cbn [demo_form all_enabled]. split; [done|]. split; [split; [done|intros i; apply demo_fd_ok]|].
    assert (Hadd : forall s e, as_loading (fs_async s) = false -> fs_data s = Some [] ->
      offers_any (add_modal s) e -> offers_any (V s) e).
    { intros s e Hl Hd H. unfold V. rewrite (feed_view_open _ _ _ _ _ s [] Hl Hd), !offers_any_app. auto. }
    split.
    { change (offers_any (V (fst (exec feed_handle (take 2 demo_form) feed_init))) OpenAdd).
      unfold V. erewrite feed_view_open by reflexivity. rewrite offers_any_app. left. offers_find. }
    repeat split; apply Hadd; try reflexivity; unfold add_modal; offers_find. }
  refine (proj1 (proj2 (proj2 (proj2 (proj2 (proj2 (feed_registration id id of_Z (fun _ => EmptyString) (fun _ => 0%Q) (fun _ => true)
    demo_form _ demo_form_state SubmitAdd (fs_newFeed demo_form_state) (exec_run _ _ _ _ Hall) _ _))))))).
  - split; [|reflexivity]. erewrite feed_view_open by reflexivity. rewrite !offers_any_app.
    right. right. right. unfold add_modal. offers_find.
  - left.
Defined.
