(* ===== verification/Assets.v ===== *)
(** * Asset inventory ([pages/assets/AssetInventoryPage.tsx])

    The inventory with its ownership and criticality: assets that nobody owns
    are flagged as unmanaged and can be assigned in bulk; a change of
    criticality is requested with a justification; the history of an asset
    is shown in a dialog.  Ownership, lifecycle and history are computed
    from the position of an asset in the answer. *)
From S2P Require Import Prelude JsString JsSet Dates Html Types Http AsyncState SharedUi.

Inductive lifecycle := LcActive | LcScheduled | LcDecommissioned.
#[export] Instance lifecycle_eq_dec : EqDecision lifecycle.
Proof. solve_decision. Defined.

Record change := Change { ch_date : string; ch_event : string }.

(** An asset of the answer; owner and criticality may be missing or empty. *)
Record RawAsset := MkRawAsset {
  ra_id : string; ra_hostname : string; ra_ipAddress : string;
  ra_owner : option string; ra_criticality : option string }.

Record EnhancedAsset := MkAsset {
  ea_id : string; ea_hostname : string; ea_ipAddress : string;
  ea_owner : string; ea_criticality : string;
  ea_isUnmanaged : bool; ea_lifecycleStatus : lifecycle; ea_changeHistory : list change }.

Definition enhance_asset (now : Z) (i : nat) (a : RawAsset) : EnhancedAsset :=
  let unmanaged := i mod 4 =? 0 in
  MkAsset (ra_id a) (ra_hostname a) (ra_ipAddress a)
    (if unmanaged then EmptyString else or_str (ra_owner a) "Alice")
    (if unmanaged then EmptyString else or_str (ra_criticality a) "Tier 3")
    unmanaged
    (if i mod 10 =? 0 then LcDecommissioned else if i mod 7 =? 0 then LcScheduled else LcActive)
    [Change (to_iso (now - 86400000 * 10)) "Asset discovered via EDR telemetry";
     Change (to_iso (now - 86400000 * 2)) "Criticality bumped to Tier 2 by SecOps"].

Inductive view_filter := FilterAll | FilterUnmanaged.
#[export] Instance view_filter_eq_dec : EqDecision view_filter.
Proof. solve_decision. Defined.

Record inv_state := InvState {
  iv_async : async (list EnhancedAsset);
  iv_selectedIds : list string;
  iv_assignOwnerModal : bool;
  iv_ownerInput : string;
  iv_rescoreModalAsset : option EnhancedAsset;
  iv_newCriticality : string;
  iv_rescoreJustification : string;
  iv_historyModalAsset : option EnhancedAsset;
  iv_viewFilter : view_filter;
  iv_flight : flight unit }.

Definition iv_data (s : inv_state) : option (list EnhancedAsset) := as_data (iv_async s).
Definition iv_assets (s : inv_state) : list EnhancedAsset := nullish (iv_data s) [].

Definition inv_init : inv_state :=
  InvState async_init [] false EmptyString None "Tier 2" EmptyString None FilterAll fl_empty.

Inductive inv_effect := GetInventory | InvAlert (msg : string).

Inductive inv_event :=
| IvExecute
| IvRemind
| IvToggleFilter
| IvToggle (id : string) | IvToggleAll
| IvOpenAssign | IvCancelAssign | IvOwner (v : string) | IvAssign
| IvOpenRescore (a : EnhancedAsset) | IvCancelRescore | IvTier (v : string)
| IvJustify (v : string) | IvSubmitRescore
| IvOpenHistory (a : EnhancedAsset) | IvCloseHistory
| IvLoaded (k : nat) (now : Z) (r : http_result (list RawAsset)).

Definition iv_set_async a f s := InvState a (iv_selectedIds s) (iv_assignOwnerModal s) (iv_ownerInput s)
  (iv_rescoreModalAsset s) (iv_newCriticality s) (iv_rescoreJustification s) (iv_historyModalAsset s)
  (iv_viewFilter s) f.
Definition iv_set_selected ids s := InvState (iv_async s) ids (iv_assignOwnerModal s) (iv_ownerInput s)
  (iv_rescoreModalAsset s) (iv_newCriticality s) (iv_rescoreJustification s) (iv_historyModalAsset s)
  (iv_viewFilter s) (iv_flight s).
Definition iv_set_assign b o s := InvState (iv_async s) (iv_selectedIds s) b o
  (iv_rescoreModalAsset s) (iv_newCriticality s) (iv_rescoreJustification s) (iv_historyModalAsset s)
  (iv_viewFilter s) (iv_flight s).
Definition iv_set_rescore a c j s := InvState (iv_async s) (iv_selectedIds s) (iv_assignOwnerModal s)
  (iv_ownerInput s) a c j (iv_historyModalAsset s) (iv_viewFilter s) (iv_flight s).
Definition iv_set_view h v s := InvState (iv_async s) (iv_selectedIds s) (iv_assignOwnerModal s)
  (iv_ownerInput s) (iv_rescoreModalAsset s) (iv_newCriticality s) (iv_rescoreJustification s) h v (iv_flight s).

Definition filteredAssets (s : inv_state) : list EnhancedAsset :=
  List.filter (fun a => bool_decide (iv_viewFilter s = FilterAll) ||
                        (bool_decide (iv_viewFilter s = FilterUnmanaged) && ea_isUnmanaged a)) (iv_assets s).

Definition unmanagedCount (s : inv_state) : nat := length (List.filter ea_isUnmanaged (iv_assets s)).

Definition assign_owner (ids : list string) (owner : string) (a : EnhancedAsset) : EnhancedAsset :=
  if bool_decide (ea_id a ∈ ids)
  then MkAsset (ea_id a) (ea_hostname a) (ea_ipAddress a) owner (or_str (Some (ea_criticality a)) "Tier 3")
         false (ea_lifecycleStatus a) (ea_changeHistory a)
  else a.

Definition handleBulkAssign (s : inv_state) : inv_state :=
  if String.eqb (trim (iv_ownerInput s)) EmptyString then s
  else iv_set_assign false EmptyString (iv_set_selected []
         (iv_set_async (async_setData (Some (assign_owner (iv_selectedIds s) (iv_ownerInput s) <$> iv_assets s))
            (iv_async s)) (iv_flight s) s)).

Definition handleSubmitRescore (s : inv_state) : inv_state * list inv_effect :=
  match iv_rescoreModalAsset s with
  | None => (s, [])
  | Some a =>
      if String.eqb (trim (iv_rescoreJustification s)) EmptyString then (s, [])
      else (iv_set_rescore None (iv_newCriticality s) EmptyString s,
            [InvAlert ("Approval request submitted to update " +:+ ea_hostname a +:+ " to "
                       +:+ iv_newCriticality s +:+ ".")])
  end.

Definition inv_toggleSelectAll (s : inv_state) : list string :=
  if bool_decide (length (iv_selectedIds s) = length (filteredAssets s)) then []
  else set_of (ea_id <$> filteredAssets s).

Definition inv_handle (e : inv_event) (s : inv_state) : inv_state * list inv_effect :=
  match e with
  | IvExecute => (iv_set_async (async_start (iv_async s)) (fl_await tt (iv_flight s)) s, [GetInventory])
  | IvRemind => (s, [InvAlert "Automated reminders sent via Slack to 3 owners for missing asset context."])
  | IvToggleFilter =>
      (iv_set_view (iv_historyModalAsset s)
         (if bool_decide (iv_viewFilter s = FilterAll) then FilterUnmanaged else FilterAll) s, [])
  | IvToggle id => (iv_set_selected (set_toggle id (iv_selectedIds s)) s, [])
  | IvToggleAll => (iv_set_selected (inv_toggleSelectAll s) s, [])
  | IvOpenAssign => (iv_set_assign true (iv_ownerInput s) s, [])
  | IvCancelAssign => (iv_set_assign false (iv_ownerInput s) s, [])
  | IvOwner v => (iv_set_assign (iv_assignOwnerModal s) v s, [])
  | IvAssign => (handleBulkAssign s, [])
  | IvOpenRescore a => (iv_set_rescore (Some a) (iv_newCriticality s) (iv_rescoreJustification s) s, [])
  | IvCancelRescore => (iv_set_rescore None (iv_newCriticality s) (iv_rescoreJustification s) s, [])
  | IvTier v => (iv_set_rescore (iv_rescoreModalAsset s) v (iv_rescoreJustification s) s, [])
  | IvJustify v => (iv_set_rescore (iv_rescoreModalAsset s) (iv_newCriticality s) v s, [])
  | IvSubmitRescore => handleSubmitRescore s
  | IvOpenHistory a => (iv_set_view (Some a) (iv_viewFilter s) s, [])
  | IvCloseHistory => (iv_set_view None (iv_viewFilter s) s, [])
  | IvLoaded k now r =>
      (iv_set_async (match r with
                     | HttpOk raws => async_ok (imap (enhance_asset now) raws) (iv_async s)
                     | HttpErr e => async_fail (he_message e) (iv_async s)
                     end) (fl_forget k (iv_flight s)) s, [])
  end.

(** ** The rendered page *)
Section View.
Context (locale_date : string -> string).

Definition initial_of (s : string) : string :=
  match s with EmptyString => EmptyString | String a _ => to_upper (String a EmptyString) end.

Definition visibility_banner (s : inv_state) : list (html inv_event) :=
  when (0 <? unmanagedCount s) [
    El "div" "" [
      Text ("Visibility Gap: " +:+ of_nat_str (unmanagedCount s) +:+ " Rogue/Unclassified Assets Detected");
      Button false (Some IvToggleFilter)
        [Text (if bool_decide (iv_viewFilter s = FilterUnmanaged) then "Clear Filter" else "Review Rogue Assets")]]].

Definition inv_bulk_bar (s : inv_state) : list (html inv_event) :=
  when (0 <? length (iv_selectedIds s)) [
    El "div" "" [Text (of_nat_str (length (iv_selectedIds s)) +:+ " assets selected");
                 Button false (Some IvOpenAssign) [Text "Bulk Assign Owner"]]].

Definition lifecycle_cell (l : lifecycle) : html inv_event :=
  match l with
  | LcActive => El "span" "text-green-400" [Text "Active"]
  | LcScheduled => El "span" "text-yellow-400" [Text "Retiring Soon"]
  | LcDecommissioned => El "span" "text-slate-500" [Text "Decommissioned"]
  end.

Definition criticality_badge (c : string) : BadgeSeverity :=
  if String.eqb c "Tier 1" then S1 else if String.eqb c "Tier 2" then S2 else S4.

Definition asset_row (s : inv_state) (a : EnhancedAsset) : html inv_event :=
  El "tr" ((if ea_isUnmanaged a then "bg-orange-900/5" else EmptyString) +:+ " " +:+
           (if bool_decide (ea_lifecycleStatus a = LcDecommissioned) then "opacity-50" else EmptyString)) [
    El "td" "" [checkbox (bool_decide (ea_id a ∈ iv_selectedIds s)) (IvToggle (ea_id a))];
    El "td" "" [Text (ea_hostname a); Text (ea_ipAddress a)];
    El "td" "" [if ea_isUnmanaged a then Text "UNCLASSIFIED"
                else El "div" "" [Badge (Some (criticality_badge (ea_criticality a))) [Text (ea_criticality a)];
                                  Button false (Some (IvOpenRescore a)) [Text "Rescore"]]];
    El "td" "" [if String.eqb (ea_owner a) EmptyString then Text "No Owner Assigned"
                else El "div" "" [Text (initial_of (ea_owner a)); Text (ea_owner a)]];
    El "td" "" [lifecycle_cell (ea_lifecycleStatus a)];
    El "td" "" [Button false (Some (IvOpenHistory a)) [Text "View History"]]].

Definition inv_table (s : inv_state) : html inv_event :=
  let rows := filteredAssets s in
  El "table" "" [
    El "thead" "" (
      checkbox ((0 <? length rows) && bool_decide (length (iv_selectedIds s) = length rows)) IvToggleAll ::
      (Text <$> ["Asset Name / IP"; "Classification"; "Owner"; "Lifecycle Status"; "Governance"]));
    El "tbody" "" (asset_row s <$> rows)].

Definition assign_modal (s : inv_state) : list (html inv_event) :=
  when (iv_assignOwnerModal s) [
    El "div" "" [
      El "h2" "" [Text "Bulk Assign Ownership"];
      Text ("Assigning " +:+ of_nat_str (length (iv_selectedIds s))
            +:+ " asset(s) to a business owner. They will be responsible for security compliance.");
      Input false (iv_ownerInput s) IvOwner;
      Button false (Some IvCancelAssign) [Text "Cancel"];
      Button (String.eqb (trim (iv_ownerInput s)) EmptyString) (Some IvAssign) [Text "Assign Owner"]]].

(** An [option] without a value has its text as value. *)
Definition tier_options : list (string * string) :=
  (fun t => (t, t)) <$>
    ["Tier 1 (Mission Critical)"; "Tier 2 (Business Important)"; "Tier 3 (Internal Standard)"].

Definition rescore_modal (s : inv_state) : list (html inv_event) :=
  when_some (iv_rescoreModalAsset s) (fun a => [
    El "div" "" [
      El "h2" "" [Text "Request Criticality Change"];
      Text "Updating criticality for "; Text (ea_hostname a); Text " requires architectural approval.";
      Text "New Criticality Tier"; Select (iv_newCriticality s) tier_options IvTier;
      Text "Business Justification"; Input false (iv_rescoreJustification s) IvJustify;
      Button false (Some IvCancelRescore) [Text "Cancel"];
      Button (String.eqb (trim (iv_rescoreJustification s)) EmptyString) (Some IvSubmitRescore)
        [Text "Submit Request"]]]).

Definition history_modal (s : inv_state) : list (html inv_event) :=
  when_some (iv_historyModalAsset s) (fun a => [
    El "div" "" (
      [El "h2" "" [Text "Asset Lifecycle History"]; Text "Contextual events for "; Text (ea_hostname a)]
      ++ ((fun h => El "div" "" [Text (ch_event h); Text (locale_date (ch_date h))]) <$> ea_changeHistory a)
      ++ [Button false (Some IvCloseHistory) [Text "Close"]])]).

Definition inv_page (s : inv_state) : list (html inv_event) :=
  [El "h1" "" [Text "Asset Intelligence"];
   El "p" "" [Text "Governance, ownership, and criticality tracking across the enterprise."];
   Button false (Some IvRemind) [Text "Send Context Reminders"];
   Button false None [Text "+ Manually Register Asset"]]
  ++ visibility_banner s ++ inv_bulk_bar s ++ [inv_table s]
  ++ assign_modal s ++ rescore_modal s ++ history_modal s.

Definition inv_view (s : inv_state) : list (html inv_event) :=
  if as_loading (iv_async s) then [LoadingSkeleton 8]
  else match as_error (iv_async s), iv_data s with
       | Some err, None => [ErrorState err (Some IvExecute)]
       | _, _ => inv_page s
       end.

Definition inv_enabled (s : inv_state) (e : inv_event) : Prop :=
  match e with
  | IvExecute => True
  | IvLoaded k _ _ => fl_map (iv_flight s) !! k = Some tt
  | _ => offers_any (inv_view s) e
  end.

(** ** Ownership *)
Definition owned_ok (a : EnhancedAsset) : Prop :=
  if ea_isUnmanaged a then ea_owner a = EmptyString
  else ea_owner a <> EmptyString /\ ea_criticality a <> EmptyString.

Lemma enhance_asset_owned now i a : owned_ok (enhance_asset now i a).
Proof.
  unfold owned_ok, enhance_asset. cbn [ea_isUnmanaged]. destruct (i mod 4 =? 0); [done|].
  cbn. split; by apply or_str_nonempty.
Qed.

Lemma assign_owner_owned ids o a : trim o <> EmptyString -> owned_ok a -> owned_ok (assign_owner ids o a).
Proof.
  intros Ho Ha. unfold assign_owner. case_bool_decide; [|done]. unfold owned_ok. cbn.
  split; [by intros ->|]. unfold or_str. by case_bool_decide.
Qed.

Lemma inv_handle_owned s e : Forall owned_ok (iv_assets s) -> Forall owned_ok (iv_assets (fst (inv_handle e s))).
Proof.
  intros H. destruct e; try done; cbn [inv_handle fst].
  - unfold handleBulkAssign. destruct (String.eqb_spec (trim (iv_ownerInput s)) EmptyString); [done|].
    apply Forall_fmap. eapply Forall_weaken; [exact H|]. intros a Ha. by apply assign_owner_owned.
  - unfold handleSubmitRescore. destruct (iv_rescoreModalAsset s); [|done]. by destruct (String.eqb _ _).
  - destruct r as [raws|e]; [|done]. apply Forall_forall. intros a (i & Hi)%list_elem_of_lookup.
    cbn in Hi. rewrite list_lookup_imap in Hi. apply fmap_Some in Hi as (x & _ & ->).
    apply enhance_asset_owned.
Qed.

(** In every execution the flags of the inventory agree with its data: an
    asset is counted as a visibility gap exactly when nobody owns it, so the
    number in the banner is the number of rows without an owner, and every
    managed asset has a criticality. *)
Lemma inventory_consistent es qs s :
  run inv_enabled inv_handle inv_init es qs s ->
  Forall (fun a => (ea_isUnmanaged a = true <-> ea_owner a = EmptyString) /\
                   (ea_isUnmanaged a = false -> ea_criticality a <> EmptyString)) (iv_assets s) /\
  unmanagedCount s = length (filter (fun a => ea_owner a = EmptyString) (iv_assets s)).
Proof.
  intros Hrun. assert (H : Forall owned_ok (iv_assets s)).
  { revert Hrun. apply (run_invariant _ _ (fun s => Forall owned_ok (iv_assets s))); [apply Forall_nil_2|].
    intros; by apply inv_handle_owned. }
  assert (H' : Forall (fun a => (ea_isUnmanaged a = true <-> ea_owner a = EmptyString) /\
      (ea_isUnmanaged a = false -> ea_criticality a <> EmptyString)) (iv_assets s)).
  { eapply Forall_weaken; [exact H|]. intros a Ha. unfold owned_ok in Ha.
    destruct (ea_isUnmanaged a); naive_solver. }
  split; [done|]. unfold unmanagedCount. clear H Hrun.
  induction H' as [|a l [Ha _] _ IH]; [done|]. cbn [List.filter]. rewrite filter_cons.
  destruct (ea_isUnmanaged a); [rewrite decide_True by (by apply Ha)|rewrite decide_False by naive_solver];
    cbn [length]; congruence.
Qed.

(** A bulk assignment closes exactly the selected gaps: every selected
    asset gets the owner as typed and is managed, the others are untouched,
    the order stays, and the number of gaps left is the number of unmanaged
    assets that were not selected. *)
Lemma bulk_assign_closes_gaps s :
  trim (iv_ownerInput s) <> EmptyString ->
  let s' := fst (inv_handle IvAssign s) in
  ea_id <$> iv_assets s' = ea_id <$> iv_assets s /\
  (forall i a, iv_assets s !! i = Some a -> exists a', iv_assets s' !! i = Some a' /\
     if decide (ea_id a ∈ iv_selectedIds s)
     then ea_owner a' = iv_ownerInput s /\ ea_isUnmanaged a' = false
     else a' = a) /\
  unmanagedCount s' =
    length (filter (fun a => ea_isUnmanaged a = true /\ ea_id a ∉ iv_selectedIds s) (iv_assets s)) /\
  iv_selectedIds s' = [] /\ iv_assignOwnerModal s' = false.
Proof.
  intros Ho s'. assert (E : iv_assets s' = assign_owner (iv_selectedIds s) (iv_ownerInput s) <$> iv_assets s /\
    iv_selectedIds s' = [] /\ iv_assignOwnerModal s' = false).
  { unfold s'. cbn [inv_handle fst]. unfold handleBulkAssign. apply String.eqb_neq in Ho. by rewrite Ho. }
  destruct E as (E & Hsel & Hmod). rewrite E. split_and!; [| | |done|done].
  - rewrite <- list_fmap_compose. apply list_fmap_ext. intros i a _. cbn.
    unfold assign_owner. by case_bool_decide.
  - intros i a Ha. rewrite list_lookup_fmap, Ha. eexists. split; [done|].
    unfold assign_owner. case_decide; case_bool_decide; done.
  - unfold unmanagedCount. rewrite E. clear E Hsel Hmod. generalize (iv_assets s). intros l.
    induction l as [|a l IH]; [done|]. rewrite fmap_cons, filter_cons. cbn [List.filter].
    unfold assign_owner at 1. case_bool_decide as Hin.
    + cbn [ea_isUnmanaged]. rewrite decide_False by naive_solver. done.
    + destruct (ea_isUnmanaged a); [rewrite decide_True by done; cbn [length]; congruence|].
      by rewrite decide_False by naive_solver.
Qed.

(** What the table lets the user do. *)
Lemma offers_inv_table s e :
  offers (inv_table s) e ->
  e = IvToggleAll \/ exists a, a ∈ filteredAssets s /\
    (e = IvToggle (ea_id a) \/ e = IvOpenHistory a \/ e = IvOpenRescore a).
Proof.
  unfold inv_table. intros H. rewrite offers_El, !offers_any_cons, offers_any_nil, !offers_El in H.
  destruct H as [H|[H|[]]].
  - left. rewrite offers_any_cons, offers_checkbox in H. destruct H as [H|H]; [done|]. by offers_cases H.
  - right. apply offers_any_map in H as (a & Ha & H). exists a. split; [done|].
    unfold asset_row, lifecycle_cell in H. autorewrite with offers in H.
    destruct (ea_isUnmanaged a), (String.eqb (ea_owner a) EmptyString), (ea_lifecycleStatus a);
      offers_cases H; auto.
Qed.

(** ** The review filter *)

(** Nothing but a new answer brings a gap back. *)
Lemma inv_handle_closed s e :
  (forall k now r, e <> IvLoaded k now r) ->
  Forall (fun a => ea_isUnmanaged a = false) (iv_assets s) ->
  Forall (fun a => ea_isUnmanaged a = false) (iv_assets (fst (inv_handle e s))).
Proof.
  intros He H. destruct e; try done; cbn [inv_handle fst].
  - unfold handleBulkAssign. destruct (String.eqb _ _); [done|]. apply Forall_fmap.
    eapply Forall_weaken; [exact H|]. intros a Ha. cbn. unfold assign_owner. by case_bool_decide.
  - unfold handleSubmitRescore. destruct (iv_rescoreModalAsset s); [|done]. by destruct (String.eqb _ _).
  - by destruct (He k now r).
Qed.

Lemma no_gap_no_row s :
  Forall (fun a => ea_isUnmanaged a = false) (iv_assets s) ->
  unmanagedCount s = 0 /\ (iv_viewFilter s = FilterUnmanaged -> filteredAssets s = []).
Proof.
  unfold unmanagedCount, filteredAssets. induction 1 as [|a l Ha _ [IH1 IH2]]; [done|].
  cbn [List.filter]. rewrite Ha. split; [done|]. intros Hv. rewrite Hv in *. cbn. by apply IH2.
Qed.

Lemma toggle_filter_needs_gap s : offers_any (inv_view s) IvToggleFilter -> 0 < unmanagedCount s.
Proof.
  unfold inv_view. destruct (as_loading (iv_async s)); [intros H; offers_cases H|].
  assert (Hpage : offers_any (inv_page s) IvToggleFilter -> 0 < unmanagedCount s).
  { unfold inv_page, visibility_banner, inv_bulk_bar, assign_modal, rescore_modal, history_modal.
    intros H. rewrite !offers_any_app, offers_any_when in H.
    destruct H as [H|[[Hc _]|[H|[H|[H|[H|H]]]]]].
    - offers_cases H.
    - by apply Nat.ltb_lt.
    - offers_cases H.
    - rewrite offers_any_cons, offers_any_nil in H. destruct H as [H%offers_inv_table|[]]; naive_solver.
    - offers_cases H.
    - offers_cases H.
    - offers_cases H. }
  destruct (as_error (iv_async s)), (iv_data s); auto. intros H; offers_cases H.
Qed.

(** Assigning the last unmanaged assets from the review view empties the page
    for good: the control that clears the filter is part of the banner, which
    is shown only while there are gaps, so afterwards, whatever the analyst
    does, no asset is listed and nothing on the page leads back to the
    inventory until it is loaded again. *)
Lemma review_filter_trap s es qs s' :
  iv_viewFilter s = FilterUnmanaged -> trim (iv_ownerInput s) <> EmptyString ->
  Forall (fun a => ea_isUnmanaged a = true -> ea_id a ∈ iv_selectedIds s) (iv_assets s) ->
  run inv_enabled inv_handle (fst (inv_handle IvAssign s)) es qs s' ->
  Forall (fun e => forall k now r, e <> IvLoaded k now r) es ->
  iv_viewFilter s' = FilterUnmanaged /\ filteredAssets s' = [] /\
  ~ offers_any (inv_view s') IvToggleFilter.
Proof.
  intros Hv Ho Hsel Hrun Hes.
  set (I s := iv_viewFilter s = FilterUnmanaged /\
              Forall (fun a => ea_isUnmanaged a = false) (iv_assets s)).
  enough (HI : I s').
  { destruct HI as [Hf Hm]. apply no_gap_no_row in Hm as [Hc Hr].
    split_and!; [done|auto|]. intros H%toggle_filter_needs_gap. lia. }
  assert (H0 : I (fst (inv_handle IvAssign s))).
  { unfold I. cbn [inv_handle fst]. unfold handleBulkAssign. apply String.eqb_neq in Ho. rewrite Ho.
    split; [done|]. apply Forall_fmap. eapply Forall_weaken; [exact Hsel|]. intros a Ha. cbn.
    unfold assign_owner. case_bool_decide; [done|]. cbn in Ha. destruct (ea_isUnmanaged a); [tauto|done]. }
  refine (run_invariant_where _ _ _ I _ _ _ _ H0 _ Hes Hrun).
  intros t e [Hf Hm] Hen He. split; [|by apply inv_handle_closed].
  destruct e; try done; cbn [inv_handle fst].
  - apply toggle_filter_needs_gap in Hen. apply no_gap_no_row in Hm. lia.
  - unfold handleBulkAssign. by destruct (String.eqb _ _).
  - unfold handleSubmitRescore. destruct (iv_rescoreModalAsset t); [|done]. by destruct (String.eqb _ _).
Qed.

(** ** Requests for a change of criticality *)
Definition tier_ok (s : inv_state) : Prop := iv_newCriticality s ∈ "Tier 2" :: tier_options.*1.

Lemma tier_event_offered s v : offers_any (inv_view s) (IvTier v) -> v ∈ tier_options.*1.
Proof.
  unfold inv_view. destruct (as_loading (iv_async s)); [intros H; offers_cases H|].
  assert (Hpage : offers_any (inv_page s) (IvTier v) -> v ∈ tier_options.*1).
  { unfold inv_page, visibility_banner, inv_bulk_bar, assign_modal, rescore_modal, history_modal.
    intros H. rewrite !offers_any_app in H.
    destruct H as [H|[H|[H|[H|[H|[H|H]]]]]]; try (by offers_cases H).
    rewrite offers_any_cons, offers_any_nil in H. destruct H as [H%offers_inv_table|[]]; naive_solver. }
  destruct (as_error (iv_async s)), (iv_data s); auto. intros H; offers_cases H.
Qed.

Lemma tier_invariant es qs s : run inv_enabled inv_handle inv_init es qs s -> tier_ok s.
Proof.
  apply run_invariant; [left|]. intros t e Ht Hen. destruct e; try done; cbn [inv_handle fst].
  - unfold handleBulkAssign. by destruct (String.eqb _ _).
  - apply tier_event_offered in Hen. by right.
  - unfold handleSubmitRescore. destruct (iv_rescoreModalAsset t); [|done]. by destruct (String.eqb _ _).
Qed.

(** A change of criticality is only ever requested: in every execution the
    only message besides the reminder is a request for the asset of the open
    dialog, sent with a justification that is not blank, for a tier that the
    dialog offers or for the initial ''Tier 2'', which it does not offer; the
    request closes the dialog and leaves the inventory as it is. *)
Lemma rescore_requests es qs s e m :
  run inv_enabled inv_handle inv_init es qs s -> inv_enabled s e ->
  InvAlert m ∈ snd (inv_handle e s) ->
  m = "Automated reminders sent via Slack to 3 owners for missing asset context." \/
  exists a, iv_rescoreModalAsset s = Some a /\ e = IvSubmitRescore /\
    trim (iv_rescoreJustification s) <> EmptyString /\
    m = "Approval request submitted to update " +:+ ea_hostname a +:+ " to " +:+ iv_newCriticality s +:+ "." /\
    (iv_newCriticality s ∈ tier_options.*1 \/ iv_newCriticality s = "Tier 2" /\ "Tier 2" ∉ tier_options.*1) /\
    iv_assets (fst (inv_handle e s)) = iv_assets s /\ iv_rescoreModalAsset (fst (inv_handle e s)) = None.
Proof.
  intros Hrun%tier_invariant _ Hm. destruct e; cbn [inv_handle snd] in Hm; try by elem_inv Hm.
  - left. elem_inv Hm. done.
  - right. cbn [inv_handle fst]. unfold handleSubmitRescore in *.
    destruct (iv_rescoreModalAsset s) as [a|] eqn:Ea; [|by elem_inv Hm].
    destruct (String.eqb_spec (trim (iv_rescoreJustification s)) EmptyString); [by elem_inv Hm|].
    elem_inv Hm. exists a. split_and!; try done. unfold tier_ok in Hrun.
    apply elem_of_cons in Hrun as [Ht|Ht]; [right|by left]. split; [done|]. rewrite list_elem_of_In. cbn. intuition discriminate.
Qed.

(** Cancelling keeps the justification, so a reason typed for one asset enables
    the request for the next one. *)
Lemma rescore_justification_kept s a b :
  trim (iv_rescoreJustification s) <> EmptyString ->
  snd (exec inv_handle [IvOpenRescore a; IvCancelRescore; IvOpenRescore b; IvSubmitRescore] s) =
  [InvAlert ("Approval request submitted to update " +:+ ea_hostname b +:+ " to "
             +:+ iv_newCriticality s +:+ ".")].
Proof.
  intros H%String.eqb_neq. unfold exec, inv_handle, handleSubmitRescore. cbn -[String.eqb trim]. by rewrite H.
Qed.
End View.

(** ** Witnesses *)
Definition demo_raw (id : string) : RawAsset := MkRawAsset id ("host-" +:+ id) "10.0.0.1" None None.
Definition demo_inventory : inv_state :=
  fst (exec inv_handle [IvExecute; IvLoaded 0 0 (HttpOk (demo_raw <$> ["a"; "b"; "c"; "d"; "e"]))] inv_init).
Definition demo_review : inv_state :=
  fst (exec inv_handle [IvToggleFilter; IvToggle "a"; IvToggle "e"; IvOwner "Bob"] demo_inventory).

Lemma inventory_consistent_witness : unmanagedCount demo_inventory = 2.
Proof.
  refine (eq_trans (proj2 (inventory_consistent id _ _ demo_inventory
    (exec_run _ _ [IvExecute; IvLoaded 0 0 (HttpOk (demo_raw <$> ["a"; "b"; "c"; "d"; "e"]))] inv_init _))) _);
    [repeat split|reflexivity].
Defined.

Lemma bulk_assign_closes_gaps_witness : unmanagedCount (fst (inv_handle IvAssign demo_review)) = 0.
Proof.
  refine (eq_trans (proj1 (proj2 (proj2 (bulk_assign_closes_gaps demo_review _)))) _);
    [discriminate|reflexivity].
Defined.

Lemma review_filter_trap_witness : filteredAssets (fst (inv_handle IvAssign demo_review)) = [].
Proof.
  refine (proj1 (proj2 (review_filter_trap id demo_review [] [] _ eq_refl _ _ (run_nil _ _ _) (Forall_nil_2 _)))).
  - discriminate.
  - apply (bool_decide_unpack _). vm_compute. exact I.
Defined.

Definition demo_rescore : list inv_event :=
  [IvExecute; IvLoaded 0 0 (HttpOk (demo_raw <$> ["a"; "b"]));
   IvOpenRescore (enhance_asset 0 1 (demo_raw "b")); IvJustify "ok"].

Lemma inv_view_page f s l :
  as_loading (iv_async s) = false -> iv_data s = Some l -> inv_view f s = inv_page f s.
Proof. unfold inv_view. intros -> ->. by destruct (as_error _). Qed.

Lemma demo_rescore_enabled : all_enabled (inv_enabled id) inv_handle demo_rescore inv_init.
Proof.
  cbn [demo_rescore all_enabled]. split; [done|]. split; [done|]. split; [|split; [|done]].
  - unfold inv_enabled. erewrite inv_view_page by reflexivity. unfold inv_page. rewrite !offers_any_app.
    right; right; right; left. rewrite offers_any_cons. left. unfold inv_table. rewrite offers_El.
    rewrite !offers_any_cons. right; left. rewrite offers_El, offers_any_map.
    exists (enhance_asset 0 1 (demo_raw "b")).
    split; [apply list_elem_of_In; right; left; reflexivity|]. unfold asset_row.
    rewrite offers_El, !offers_any_cons. right; right; left. rewrite offers_El.
    change (ea_isUnmanaged (enhance_asset 0 1 (demo_raw "b"))) with false. cbn iota. offers_find.
  - unfold inv_enabled. erewrite inv_view_page by reflexivity. unfold inv_page. rewrite !offers_any_app.
    right; right; right; right; right; left. unfold rescore_modal.
    rewrite offers_any_when_some. eexists. split; [reflexivity|offers_find].
Qed.

Lemma rescore_requests_witness :
  InvAlert "Approval request submitted to update host-b to Tier 2." ∈
    snd (inv_handle IvSubmitRescore (fst (exec inv_handle demo_rescore inv_init))) /\
  trim (iv_rescoreJustification (fst (exec inv_handle demo_rescore inv_init))) <> EmptyString.
Proof.
  assert (Hm : InvAlert "Approval request submitted to update host-b to Tier 2." ∈
    snd (inv_handle IvSubmitRescore (fst (exec inv_handle demo_rescore inv_init)))) by left.
  split; [exact Hm|].
  assert (Hen : inv_enabled id (fst (exec inv_handle demo_rescore inv_init)) IvSubmitRescore).
  { unfold inv_enabled. erewrite inv_view_page by reflexivity. unfold inv_page. rewrite !offers_any_app.
    right; right; right; right; right; left. unfold rescore_modal.
    rewrite offers_any_when_some. eexists. split; [reflexivity|offers_find]. }
  destruct (rescore_requests id _ _ _ _ _ (exec_run _ _ _ _ demo_rescore_enabled) Hen Hm)
    as [H|(a & _ & _ & H & _)]; [discriminate H|exact H].
Defined.
