(* ===== verification/Vulnerabilities.v ===== *)
(** * Vulnerability management ([pages/assets/VulnerabilitiesPage.tsx])

    The vulnerabilities ordered by a risk score computed from the CVSS score
    and a random EPSS score, with the deadline, the ticket and the exploit
    state computed from their position in the answer, and the dialog that
    accepts a risk with a compensating control. *)
From Stdlib Require Import QArith Qround Lqa.
From S2P Require Import Prelude JsString JsSet Dates Html Types Http AsyncState SharedUi.

Inductive exploitation := ExNone | ExKev | ExInternal.
#[export] Instance exploitation_eq_dec : EqDecision exploitation.
Proof. solve_decision. Defined.
Inductive ticket_status := TkOpen | TkInProgress | TkResolved | TkNone.
#[export] Instance ticket_status_eq_dec : EqDecision ticket_status.
Proof. solve_decision. Defined.
Inductive vuln_status := VsOpen | VsControl | VsPatched.
#[export] Instance vuln_status_eq_dec : EqDecision vuln_status.
Proof. solve_decision. Defined.

Definition ticket_str (t : ticket_status) : string :=
  match t with
  | TkOpen => "OPEN" | TkInProgress => "IN_PROGRESS" | TkResolved => "RESOLVED" | TkNone => "NONE"
  end.

Record EnhancedVulnerability := MkEnhancedVuln {
  ev_vuln : Vulnerability;
  ev_epssScore : Q;
  ev_activeExploitation : exploitation;
  ev_slaDueDate : string;
  ev_isOverdue : bool;
  ev_ticketStatus : ticket_status;
  ev_ticketId : string;
  ev_status : vuln_status;
  ev_combinedRiskScore : Z }.

Definition ev_id (v : EnhancedVulnerability) : string := vuln_id (ev_vuln v).

(** [Math.round] of an exact number: halves go up. *)
Definition round_q (x : Q) : Z := Qfloor (x + (1 # 2))%Q.

Definition epss_of (r : Q) : Q := (r * (8 # 10) + (1 # 10))%Q.
Definition risk_of (cvss epss : Q) : Z := round_q (cvss * epss * 10)%Q.

Section Load.
(** [setDate(getDate() + n)] in the browser's time zone. *)
Context (shift_days : Z -> Z -> Z).

Definition enhance_vuln (now : Z) (draw : nat -> Q) (i : nat) (v : Vulnerability) : EnhancedVulnerability :=
  let epss := epss_of (draw i) in
  let overdue := i mod 6 =? 0 in
  MkEnhancedVuln v epss
    (if i mod 8 =? 0 then ExInternal else if i mod 5 =? 0 then ExKev else ExNone)
    (to_iso (shift_days now (if overdue then -2 else 7)%Z))
    overdue
    (if i mod 3 =? 0 then TkInProgress else if i mod 4 =? 0 then TkResolved else TkOpen)
    ("TICK-" +:+ of_nat_str (1000 + i))
    (if i mod 10 =? 0 then VsControl else VsOpen)
    (risk_of (vuln_cvssScore v) epss).

Definition load_vulns (now : Z) (draw : nat -> Q) (vs : list Vulnerability) : list EnhancedVulnerability :=
  js_sort (by_key_desc ev_combinedRiskScore) (imap (enhance_vuln now draw) vs).

Record vu_state := VuState {
  vu_async : async (list EnhancedVulnerability);
  vu_controlModalVuln : option EnhancedVulnerability;
  vu_controlJustification : string;
  vu_flight : flight unit }.

Definition vu_data (s : vu_state) : option (list EnhancedVulnerability) := as_data (vu_async s).
Definition vu_rows (s : vu_state) : list EnhancedVulnerability := nullish (vu_data s) [].

Definition vu_init : vu_state := VuState async_init None EmptyString fl_empty.

Inductive vu_effect := GetVulnerabilities.

Inductive vu_event :=
| VuExecute
| VuOpenControl (v : EnhancedVulnerability) | VuCancel | VuJustify (t : string) | VuAccept
| VuLoaded (k : nat) (now : Z) (draw : nat -> Q) (r : http_result (list Vulnerability)).

Definition accept_vuln (id : string) (v : EnhancedVulnerability) : EnhancedVulnerability :=
  if String.eqb (ev_id v) id
  then MkEnhancedVuln (ev_vuln v) (ev_epssScore v) (ev_activeExploitation v) (ev_slaDueDate v)
         (ev_isOverdue v) (ev_ticketStatus v) (ev_ticketId v) VsControl (ev_combinedRiskScore v)
  else v.

Definition handleAcceptRisk (s : vu_state) : vu_state :=
  match vu_controlModalVuln s with
  | None => s
  | Some c =>
      if String.eqb (vu_controlJustification s) EmptyString then s
      else VuState (async_setData (Some (accept_vuln (ev_id c) <$> vu_rows s)) (vu_async s))
             None EmptyString (vu_flight s)
  end.

Definition vu_handle (e : vu_event) (s : vu_state) : vu_state * list vu_effect :=
  match e with
  | VuExecute =>
      (VuState (async_start (vu_async s)) (vu_controlModalVuln s) (vu_controlJustification s)
         (fl_await tt (vu_flight s)), [GetVulnerabilities])
  | VuOpenControl v => (VuState (vu_async s) (Some v) (vu_controlJustification s) (vu_flight s), [])
  | VuCancel => (VuState (vu_async s) None (vu_controlJustification s) (vu_flight s), [])
  | VuJustify t => (VuState (vu_async s) (vu_controlModalVuln s) t (vu_flight s), [])
  | VuAccept => (handleAcceptRisk s, [])
  | VuLoaded k now draw r =>
      (VuState (match r with
                | HttpOk vs => async_ok (load_vulns now draw vs) (vu_async s)
                | HttpErr e => async_fail (he_message e) (vu_async s)
                end) (vu_controlModalVuln s) (vu_controlJustification s) (fl_forget k (vu_flight s)), [])
  end.

(** ** The rendered page *)
Context (locale_date : string -> string).

Definition overdueCount (l : list EnhancedVulnerability) : nat :=
  length (List.filter (fun v => ev_isOverdue v && bool_decide (ev_status v = VsOpen)) l).
Definition activeExploitCount (l : list EnhancedVulnerability) : nat :=
  length (List.filter (fun v => bool_decide (ev_activeExploitation v = ExInternal)) l).

(** [toFixed(1)] of an exact number. *)
Definition fixed1_q (x : Q) : string :=
  if Qle_bool 0 x then fixed1 (round_q (x * 10)%Q) else "-" +:+ fixed1 (round_q (- x * 10)%Q).

Definition priority_cards (l : list EnhancedVulnerability) : html vu_event :=
  let hot := 0 <? activeExploitCount l in
  let late := 0 <? overdueCount l in
  El "div" "" [
    El "div" (if hot then "bg-red-900/20 border-red-500/50" else "bg-slate-900 border-slate-800") [
      El "h3" (if hot then "text-red-500" else "text-slate-500") [Text "Active Exploitation"];
      El "p" (if hot then "text-white" else "text-slate-500")
        [Text (of_nat_str (activeExploitCount l)); Text "assets"];
      Text "Vulnerabilities currently being targeted in your environment."];
    El "div" (if late then "bg-orange-900/20 border-orange-500/50" else "bg-slate-900 border-slate-800") [
      El "h3" (if late then "text-orange-500" else "text-slate-500") [Text "SLA Overdue"];
      El "p" (if late then "text-white" else "text-slate-500")
        [Text (of_nat_str (overdueCount l)); Text "tickets"];
      Text "Critical/High severity patches exceeding organizational SLA."]].

Definition exploit_cell (x : exploitation) : html vu_event :=
  match x with
  | ExInternal => El "span" "text-red-400 animate-pulse" [Text "Alert Fired"]
  | ExKev => El "span" "text-orange-400" [Text "CISA KEV"]
  | ExNone => El "span" "text-slate-600" [Text "No known active exploit"]
  end.

Definition sla_cell (v : EnhancedVulnerability) : list (html vu_event) :=
  if bool_decide (ev_status v = VsControl) then [Text "Risk Accepted"]
  else [El "span" (if ev_isOverdue v then "text-red-500" else "text-slate-300")
          [Text (if ev_isOverdue v then "OVERDUE" else "DUE SOON")];
        Text (locale_date (ev_slaDueDate v))].

Definition ticket_tone (t : ticket_status) : string :=
  match t with
  | TkResolved => "bg-green-900/30 text-green-400"
  | TkInProgress => "bg-blue-900/30 text-blue-400"
  | _ => "bg-slate-800 text-slate-400"
  end.

Definition vuln_row (v : EnhancedVulnerability) : html vu_event :=
  El "tr" "" [
    El "td" "" [Text (vuln_cveId (ev_vuln v)); Text (vuln_description (ev_vuln v))];
    El "td" "" [
      Text "CVSS"; Text (fixed1_q (vuln_cvssScore (ev_vuln v)));
      Text "EPSS"; Text (fixed1_q (ev_epssScore v * 100)%Q +:+ "%");
      Text "Risk Score";
      El "span" (if (50 <? ev_combinedRiskScore v)%Z then "text-red-500" else "text-slate-300")
        [Text (of_Z (ev_combinedRiskScore v))]];
    El "td" "" [exploit_cell (ev_activeExploitation v)];
    El "td" "" (sla_cell v);
    El "td" "" [Text (ev_ticketId v);
                El "span" (ticket_tone (ev_ticketStatus v))
                  [Text (replace_first "_" " " (ticket_str (ev_ticketStatus v)))]];
    El "td" "" (when (negb (bool_decide (ev_status v = VsControl)))
                  [Button false (Some (VuOpenControl v)) [Text "Add Mitigating Control"]])].

Definition vuln_table (l : list EnhancedVulnerability) : html vu_event :=
  El "table" "" [
    El "thead" "" (Text <$> ["CVE / Advisory"; "Risk Metrics"; "Exploit Intel"; "Remediation SLA";
                             "Ticket Status"; "Actions"]);
    El "tbody" "" (vuln_row <$> l)].

(** The control type and the expiry date are fields without a handler. *)
Definition control_modal (s : vu_state) : list (html vu_event) :=
  when_some (vu_controlModalVuln s) (fun c => [
    El "div" "" [
      El "h2" "" [Text "Accept Risk via Compensating Control"];
      Text "Apply a control to "; Text (vuln_cveId (ev_vuln c)); Text ". This will pause the SLA timer.";
      Text "Control Type"; El "select" "" (Text <$> ["WAF Rule"; "Network Segmentation"; "EDR Blocking Policy"]);
      Text "Expiry Date"; El "input" "" [];
      Text "Justification / Ticket Link"; Input false (vu_controlJustification s) VuJustify;
      Button false (Some VuCancel) [Text "Cancel"];
      Button (String.eqb (trim (vu_controlJustification s)) EmptyString) (Some VuAccept)
        [Text "Apply Control"]]]).

Definition vu_page (s : vu_state) : list (html vu_event) :=
  [El "h1" "" [Text "Vulnerability Management"];
   El "p" "" [Text "Risk-prioritized remediation powered by EPSS and active threat intelligence."];
   Button false (Some VuExecute) [Text "Trigger Scanners"];
   priority_cards (vu_rows s); vuln_table (vu_rows s)] ++ control_modal s.

Definition vu_view (s : vu_state) : list (html vu_event) :=
  if as_loading (vu_async s) then [LoadingSkeleton 8]
  else match as_error (vu_async s), vu_data s with
       | Some err, None => [ErrorState err (Some VuExecute)]
       | _, _ => vu_page s
       end.

(** [Math.random] draws from [0, 1), and a CVSS score lies between 0 and 10. *)
Definition draw_ok (draw : nat -> Q) : Prop := forall i, (0 <= draw i /\ draw i < 1)%Q.
Definition cvss_ok (v : Vulnerability) : Prop := (0 <= vuln_cvssScore v /\ vuln_cvssScore v <= 10)%Q.

Definition vu_enabled (s : vu_state) (e : vu_event) : Prop :=
  match e with
  | VuExecute => True
  | VuLoaded k _ draw _ => fl_map (vu_flight s) !! k = Some tt /\ draw_ok draw
  | _ => offers_any (vu_view s) e
  end.

(** ** Order and range of the risk scores *)
Definition answer_ok (e : vu_event) : Prop :=
  match e with VuLoaded _ _ _ (HttpOk vs) => Forall cvss_ok vs | _ => True end.

Definition figures_ok (v : EnhancedVulnerability) : Prop :=
  (0 <= ev_combinedRiskScore v <= 90)%Z /\ ((1 # 10) <= ev_epssScore v /\ ev_epssScore v < (9 # 10))%Q.

Lemma risk_bounds c r :
  (0 <= c /\ c <= 10 -> 0 <= r /\ r < 1 -> (0 <= risk_of c (epss_of r) <= 90)%Z)%Q.
Proof.
  intros [Hc1 Hc2] [Hr1 Hr2]. unfold risk_of, round_q, epss_of.
  enough (0 <= Qfloor (c * (r * (8 # 10) + (1 # 10)) * 10 + (1 # 2)) < 91)%Z by lia.
  set (e := (r * (8 # 10) + (1 # 10))%Q). assert (He1 : (0 <= e)%Q) by (unfold e; lra).
  assert (He2 : (e <= 9 # 10)%Q) by (unfold e; lra). clearbody e.
  assert (H1 : (0 <= c * e)%Q) by (by apply Qmult_le_0_compat).
  assert (H2 : (c * e <= 10 * (9 # 10))%Q) by (apply Qmult_le_compat_nonneg; split; lra).
  apply Qfloor_bounds; unfold inject_Z; lra.
Qed.

Lemma enhance_vuln_ok now draw i v :
  draw_ok draw -> cvss_ok v -> figures_ok (enhance_vuln now draw i v).
Proof.
  intros Hd Hc. specialize (Hd i). split; [by apply risk_bounds|]. cbn [enhance_vuln ev_epssScore].
  unfold epss_of. split; lra.
Qed.

Lemma accept_vuln_risk id v : ev_combinedRiskScore (accept_vuln id v) = ev_combinedRiskScore v.
Proof. unfold accept_vuln. by destruct (String.eqb _ _). Qed.

Lemma sorted_fmap_key {A} (key : A -> Z) (f : A -> A) l :
  (forall x, key (f x) = key x) -> StronglySorted (key_ge key) l -> StronglySorted (key_ge key) (f <$> l).
Proof.
  intros Hf. induction 1 as [|x l Hl IH Hx]; cbn; constructor; [done|].
  apply Forall_fmap. eapply Forall_weaken; [exact Hx|]. intros y Hy. unfold key_ge in *. cbn. by rewrite !Hf.
Qed.

(** C18: in every execution the table lists the vulnerabilities by decreasing risk,
    also after risks were accepted, and, as the backend sends CVSS scores
    between 0 and 10, every score lies between 0 and 90: a CVSS score of at
    most 10 times an EPSS score below 0.9 never reaches the 100 of the
    scale. *)
Theorem risk_order es qs s :
  run vu_enabled vu_handle vu_init es qs s -> Forall answer_ok es ->
  StronglySorted (key_ge ev_combinedRiskScore) (vu_rows s) /\ Forall figures_ok (vu_rows s).
Proof.
  intros Hrun Hes. revert Hes Hrun.
  apply (run_invariant_where _ _ answer_ok (fun s => StronglySorted (key_ge ev_combinedRiskScore) (vu_rows s) /\
    Forall figures_ok (vu_rows s))); [split; constructor|].
  intros t e [Hs Hf] Hen He. destruct e as [|v| |j| |k now draw r]; try done; cbn [vu_handle fst].
  - unfold handleAcceptRisk. destruct (vu_controlModalVuln t) as [c|]; [|done].
    destruct (String.eqb _ _); [done|]. split.
    + apply sorted_fmap_key; [apply accept_vuln_risk|done].
    + apply Forall_fmap. eapply Forall_weaken; [exact Hf|]. intros v Hv. cbn. unfold accept_vuln.
      by destruct (String.eqb _ _).
  - destruct r as [vs|err]; [|done]. destruct Hen as [_ Hd]. unfold vu_rows, vu_data. cbn [vu_async as_data async_ok].
    cbn [nullish default from_option]. unfold load_vulns. split; [apply js_sort_desc_sorted|].
    apply Forall_forall. intros w (i & Hi)%js_sort_elem%list_elem_of_lookup.
    rewrite list_lookup_imap in Hi. apply fmap_Some in Hi as (v & Hv & ->). cbn [answer_ok] in He.
    rewrite Forall_forall in He. apply enhance_vuln_ok; [done|]. by eapply He, list_elem_of_lookup_2.
Qed.

(** ** Accepting a risk *)

(** Accepting a risk marks exactly the vulnerabilities with the identifier of
    the dialog, keeps the others and the order, takes those that were overdue
    out of the overdue count, and closes and clears the dialog. *)
Lemma accept_risk_exact s c :
  vu_controlModalVuln s = Some c -> vu_controlJustification s <> EmptyString ->
  let s' := fst (vu_handle VuAccept s) in
  (forall i v, vu_rows s !! i = Some v -> exists v', vu_rows s' !! i = Some v' /\ ev_vuln v' = ev_vuln v /\
     if decide (ev_id v = ev_id c) then ev_status v' = VsControl else v' = v) /\
  length (vu_rows s') = length (vu_rows s) /\
  overdueCount (vu_rows s') = length (filter (fun v => ev_isOverdue v = true /\ ev_status v = VsOpen /\
                                                       ev_id v <> ev_id c) (vu_rows s)) /\
  vu_controlModalVuln s' = None /\ vu_controlJustification s' = EmptyString.
Proof.
  intros Hc Hj s'. assert (E : vu_rows s' = accept_vuln (ev_id c) <$> vu_rows s /\
    vu_controlModalVuln s' = None /\ vu_controlJustification s' = EmptyString).
  { unfold s'. cbn [vu_handle fst]. unfold handleAcceptRisk. rewrite Hc. apply String.eqb_neq in Hj. by rewrite Hj. }
  destruct E as (E & Hm & Hj'). rewrite E. split_and!; [|by rewrite length_fmap| |done|done].
  - intros i v Hv. rewrite list_lookup_fmap, Hv. eexists. split; [done|]. unfold accept_vuln.
    destruct (String.eqb_spec (ev_id v) (ev_id c)); case_decide; done.
  - unfold overdueCount. generalize (vu_rows s). intros l. induction l as [|v l IH]; [done|].
    rewrite fmap_cons, filter_cons. cbn [List.filter].
    assert (Ef : ev_isOverdue (accept_vuln (ev_id c) v) && bool_decide (ev_status (accept_vuln (ev_id c) v) = VsOpen)
      = bool_decide (ev_isOverdue v = true /\ ev_status v = VsOpen /\ ev_id v <> ev_id c)).
    { unfold accept_vuln. destruct (String.eqb_spec (ev_id v) (ev_id c)); cbn;
        destruct (ev_isOverdue v); cbn; repeat case_bool_decide; naive_solver. }
    rewrite Ef. clear Ef. case_bool_decide as Hp; [rewrite (decide_True _ _ Hp)|rewrite (decide_False _ _ Hp)];
      cbn [length]; congruence.
Qed.

(** An accepted risk lives only in the table on the screen: after the control
    was applied every row of the vulnerability is accepted, but the next
    answer, whatever the server stores, decides the status from the position
    alone, so unless that position is a multiple of ten the vulnerability is
    open again and offers the control again. *)
Lemma accepted_risk_lost s c k now draw vs i v :
  vu_controlModalVuln s = Some c -> vu_controlJustification s <> EmptyString ->
  vs !! i = Some v -> i mod 10 <> 0 -> vuln_id v = ev_id c ->
  let s1 := fst (vu_handle VuAccept s) in
  let s2 := fst (vu_handle (VuLoaded k now draw (HttpOk vs)) s1) in
  Forall (fun w => ev_id w = ev_id c -> ev_status w = VsControl) (vu_rows s1) /\
  exists w, w ∈ vu_rows s2 /\ ev_vuln w = v /\ ev_status w = VsOpen /\
    offers_any (vu_view s2) (VuOpenControl w).
Proof.
  intros Hc Hj Hv Hi Hid s1 s2. split.
  - unfold s1. cbn [vu_handle fst]. unfold handleAcceptRisk. rewrite Hc.
    apply String.eqb_neq in Hj. rewrite Hj. apply Forall_fmap, Forall_forall. intros w _. cbn.
    unfold accept_vuln. destruct (String.eqb_spec (ev_id w) (ev_id c)); [done|]. intros; done.
  - set (w := enhance_vuln now draw i v). assert (Hst : ev_status w = VsOpen).
    { unfold w. cbn [enhance_vuln ev_status]. by apply Nat.eqb_neq in Hi as ->. }
    assert (Hw : w ∈ load_vulns now draw vs).
    { unfold load_vulns. apply js_sort_elem, list_elem_of_lookup. exists i.
      by rewrite list_lookup_imap, Hv. }
    exists w. split; [exact Hw|]. split; [done|]. split; [done|].
    change (vu_view s2) with (match as_error (vu_async s2), Some (load_vulns now draw vs) with
       | Some err, None => [ErrorState err (Some VuExecute)] | _, _ => vu_page s2 end).
    replace (match _ with Some _ => _ | None => _ end) with (vu_page s2) by (by destruct (as_error _)).
    unfold vu_page. rewrite offers_any_app. left. rewrite !offers_any_cons. do 4 right. left.
    unfold vuln_table. rewrite offers_El, !offers_any_cons. right. left.
    rewrite offers_El, offers_any_map. exists w. split; [exact Hw|]. unfold vuln_row.
    rewrite offers_El, !offers_any_cons. do 5 right. left. rewrite Hst. offers_find.
Qed.

(** Cancelling keeps the justification: a text written for one vulnerability
    enables the dialog of the next one at once, and the risk of the second is
    accepted although nothing was written for it. *)
Lemma justification_carried_over s l v w t :
  as_loading (vu_async s) = false -> vu_data s = Some l -> v ∈ l -> w ∈ l ->
  ev_status v = VsOpen -> ev_status w = VsOpen -> ev_id v <> ev_id w -> trim t <> EmptyString ->
  let es := [VuOpenControl v; VuJustify t; VuCancel; VuOpenControl w; VuAccept] in
  all_enabled vu_enabled vu_handle es s /\
  vu_rows (fst (exec vu_handle es s)) = accept_vuln (ev_id w) <$> l /\
  accept_vuln (ev_id w) v = v.
Proof.
  intros Hl Hd Hv Hw Hsv Hsw Hne Ht es.
  assert (Ht' : t <> EmptyString) by (by intros ->).
  assert (Hview : forall s', vu_async s' = vu_async s -> vu_view s' = vu_page s').
  { intros s' E. unfold vu_view, vu_data in *. rewrite E, Hl, Hd. by destruct (as_error _). }
  assert (Hrow : forall s' x, vu_async s' = vu_async s -> x ∈ l -> ev_status x = VsOpen ->
    offers_any (vu_view s') (VuOpenControl x)).
  { intros s' x E Hx Hsx. rewrite (Hview s' E). unfold vu_page. rewrite offers_any_app. left.
    rewrite !offers_any_cons. do 4 right. left. unfold vuln_table. rewrite offers_El, !offers_any_cons.
    right. left. rewrite offers_El, offers_any_map. exists x.
    split; [unfold vu_rows, vu_data in *; by rewrite E, Hd|]. unfold vuln_row.
    rewrite offers_El, !offers_any_cons. do 5 right. left. rewrite Hsx. offers_find. }
  assert (Hmodal : forall s' x e, vu_async s' = vu_async s -> vu_controlModalVuln s' = Some x ->
    offers_any (control_modal s') e -> offers_any (vu_view s') e).
  { intros s' x e E _ He. rewrite (Hview s' E). unfold vu_page. rewrite offers_any_app. by right. }
  apply String.eqb_neq in Ht, Ht'. split_and!.
  - cbn [es all_enabled]. split_and!; [by apply Hrow| | |by apply Hrow| |done];
      (eapply Hmodal; [done|done|]); unfold control_modal;
      rewrite offers_any_when_some; (eexists; split; [reflexivity|]).
    + offers_find.
    + offers_find.
    + cbn [fst vu_handle vu_controlJustification]. rewrite Ht. offers_find.
  - unfold es. cbn [exec vu_handle fst]. unfold handleAcceptRisk.
    cbn [vu_controlModalVuln vu_controlJustification]. rewrite Ht'. unfold vu_rows.
    cbn -[accept_vuln vu_data]. unfold vu_data. cbn [vu_async]. unfold vu_data in Hd. by rewrite Hd.
  - unfold accept_vuln. by apply String.eqb_neq in Hne as ->.
Qed.
End Load.

(** ** Witnesses *)
Definition demo_vuln (id : string) (cvss : Q) : Vulnerability :=
  {| vuln_id := id; vuln_cveId := "CVE-" +:+ id; vuln_affectedAsset := "web"; vuln_affectedAssetId := "h1";
     vuln_cvssScore := cvss; vuln_severity := VCritical; vuln_patchStatus := Unpatched;
     vuln_discoveredAt := "2024-01-01"; vuln_description := "overflow" |}.
Definition demo_shift (now n : Z) : Z := (now + n * 86400000)%Z.
Definition demo_vulns : list Vulnerability := [demo_vuln "a" 5; demo_vuln "b" 9; demo_vuln "c" 7].
Definition demo_draw (_ : nat) : Q := (1 # 2)%Q.
Definition demo_load : list vu_event := [VuExecute; VuLoaded 0 0 demo_draw (HttpOk demo_vulns)].
Definition demo_vu : vu_state := fst (exec (vu_handle demo_shift) demo_load vu_init).
Definition demo_ev (i : nat) (id : string) (cvss : Q) : EnhancedVulnerability :=
  enhance_vuln demo_shift 0 demo_draw i (demo_vuln id cvss).
Definition demo_open : vu_state :=
  fst (exec (vu_handle demo_shift) [VuOpenControl (demo_ev 1 "b" 9); VuJustify "WAF"] demo_vu).

Lemma demo_vu_draw_ok : draw_ok demo_draw.
Proof. intros i. unfold demo_draw. lra. Qed.

Lemma risk_order_witness : ev_combinedRiskScore <$> vu_rows demo_vu = [45; 35; 25]%Z /\
  Forall figures_ok (vu_rows demo_vu).
Proof.
  split; [vm_compute; reflexivity|].
  refine (proj2 (risk_order demo_shift id _ _ demo_vu (exec_run _ _ demo_load vu_init _) _)).
  - cbn [demo_load all_enabled]. split; [done|]. split; [split; [reflexivity|apply demo_vu_draw_ok]|done].
  - repeat constructor; cbn; lra.
Defined.

Lemma accept_risk_exact_witness :
  vu_controlModalVuln (fst (vu_handle demo_shift VuAccept demo_open)) = None.
Proof.
  refine (proj1 (proj2 (proj2 (proj2 (accept_risk_exact demo_shift demo_open (demo_ev 1 "b" 9) eq_refl _)))));
    discriminate.
Defined.

Lemma accepted_risk_lost_witness :
  exists w, w ∈ load_vulns demo_shift 0 demo_draw demo_vulns /\ ev_id w = "b" /\ ev_status w = VsOpen.
Proof.
  assert (Hi : 1 mod 10 <> 0) by discriminate.
  assert (Hj : vu_controlJustification demo_open <> EmptyString) by discriminate.
  destruct (proj2 (accepted_risk_lost demo_shift id demo_open (demo_ev 1 "b" 9) 1 0 demo_draw demo_vulns 1
    (demo_vuln "b" 9) eq_refl Hj eq_refl Hi eq_refl)) as (w & Hw & Ew & Hs & _).
  exists w. split; [exact Hw|]. split; [unfold ev_id; by rewrite Ew|exact Hs].
Defined.

Lemma justification_carried_over_witness :
  accept_vuln "c" (demo_ev 1 "b" 9) = demo_ev 1 "b" 9.
Proof.
  refine (proj2 (proj2 (justification_carried_over demo_shift id demo_vu (vu_rows demo_vu) (demo_ev 1 "b" 9)
    (demo_ev 2 "c" 7) "WAF" eq_refl eq_refl _ _ eq_refl eq_refl _ _))).
  - change (demo_ev 1 "b" 9 ∈ load_vulns demo_shift 0 demo_draw demo_vulns).
    apply js_sort_elem, list_elem_of_lookup. by exists 1.
  - change (demo_ev 2 "c" 7 ∈ load_vulns demo_shift 0 demo_draw demo_vulns).
    apply js_sort_elem, list_elem_of_lookup. by exists 2.
  - discriminate.
  - discriminate.
Defined.
