(* ===== verification/EdrLogs.v ===== *)
(** * EDR telemetry ([pages/endpoints/EdrLogsPage.tsx])

    The event log of the fleet: the hosts, the event type and the keyword
    narrow it, filters can be saved as hunts in [localStorage], a live tail
    reloads it every three seconds, and suspicious events lead to the
    isolation page.

    The log is fetched by an effect that depends on the identity of the array
    [filter.hosts], not on its contents, so the arrays carry an identity
    here: an update that makes a new array fetches, one that copies the
    filter around it does not.  [ed_deps] is the array the effect ran for
    last. *)
From S2P Require Import Prelude JsString Dates Json Html Types Http AsyncState SharedUi.

(** ** Filters and hunts *)
Record host_array := HostArray { ha_id : nat; ha_hosts : list string }.
Record log_filter := LogFilter { lf_hosts : host_array; lf_keyword : string; lf_type : string }.
Record hunt := Hunt { hu_name : string; hu_filter : log_filter }.

(** [e.target.value.split(',').map(s => s.trim()).filter(Boolean)] *)
Definition parse_hosts (v : string) : list string :=
  filter (fun h => h <> EmptyString) (trim <$> split_on "," v).

Definition filter_doc (f : log_filter) : doc :=
  DObj [("hosts", DArr (DStr <$> ha_hosts (lf_hosts f))); ("keyword", DStr (lf_keyword f));
        ("type", DStr (lf_type f))].
Definition hunt_doc (h : hunt) : doc := DObj [("name", DStr (hu_name h)); ("filter", filter_doc (hu_filter h))].
Definition hunts_doc (hs : list hunt) : doc := DArr (hunt_doc <$> hs).

Definition json_str (v : json) : option string := match v with JStr s => Some s | _ => None end.

(** A stored hunt; its host array is a new object, the [i]-th. *)
Definition read_hunt (i : nat) (v : json) : option hunt :=
  match v with
  | JObj [(k1, JStr n); (k2, JObj [(k3, JArr hs); (k4, JStr kw); (k5, JStr ty)])] =>
      if bool_decide ([k1; k2; k3; k4; k5] = ["name"; "filter"; "hosts"; "keyword"; "type"])
      then hosts ← mapM json_str hs; Some (Hunt n (LogFilter (HostArray i hosts) kw ty))
      else None
  | _ => None
  end.

(** [useSavedView('edr_saved_hunts', [])]; [None] when the text is not a list of
    hunts as [saveView] writes them. *)
Definition load_hunts (stored : option string) : option (list hunt) :=
  if truthy_str stored then
    match json_parse (nullish stored EmptyString) with
    | Some (JArr vs) => mapM id (imap read_hunt vs)
    | _ => None
    end
  else Some [].

(** ** Events *)
Inductive pnode := PNode (name : string) (pid : Z) (children : list pnode).

Record raw_log := RawLog {
  rl_id : string; rl_host : string; rl_eventType : string; rl_timestamp : string;
  rl_process : string; rl_detail : string; rl_isSuspicious : bool }.

Record EnhancedEdrLog := EdrLog {
  el_log : raw_log; el_isSuspicious : bool; el_processTree : option pnode }.

Definition LOLBINS : list string :=
  ["powershell.exe -enc"; "certutil.exe -urlcache"; "wmic process call create"; "regsvr32.exe /s /u /i:"].

Definition enhance_log (l : raw_log) : EnhancedEdrLog :=
  EdrLog l
    (rl_isSuspicious l || existsb (fun b => includes b (to_lower (rl_detail l))) LOLBINS)
    (if String.eqb (rl_eventType l) "PROCESS_EXECUTION"
     then Some (PNode "explorer.exe" 1422 [PNode "cmd.exe" 5122 [PNode (rl_process l) 8192 []]])
     else None).

Record edr_state := EdrState {
  ed_async : async (list EnhancedEdrLog);
  ed_filter : log_filter;
  ed_savedHunts : list hunt;
  ed_storage : option string;
  ed_huntNameInput : string;
  ed_isLiveTail : bool;
  ed_processTreeModal : option EnhancedEdrLog;
  ed_deps : option nat;
  ed_fresh : nat;
  ed_flight : flight unit }.

Inductive edr_effect := GetLogs (url : string) | EdrNavigate (path : string).

Inductive edr_event :=
| EdMount
| EdHosts (v : string) | EdType (v : string) | EdKeyword (v : string)
| EdHuntName (v : string) | EdSaveHunt | EdHunt (h : hunt)
| EdLiveTail | EdTick
| EdHost (h : string)
| EdPivot (h : string)
| EdOpenTree (r : EnhancedEdrLog) | EdCloseTree
| EdLoaded (k : nat) (r : http_result (list raw_log)).

Definition edr_init (initialHost stored : option string) (hunts : list hunt) : edr_state :=
  let n := length hunts in
  EdrState async_init
    (LogFilter (HostArray n (if truthy_str initialHost then [nullish initialHost EmptyString] else []))
       EmptyString "all")
    hunts stored EmptyString false None None (S n) fl_empty.

Definition ed_set_filter f n s := EdrState (ed_async s) f (ed_savedHunts s) (ed_storage s) (ed_huntNameInput s)
  (ed_isLiveTail s) (ed_processTreeModal s) (ed_deps s) n (ed_flight s).
Definition ed_set_hunts hs st i s := EdrState (ed_async s) (ed_filter s) hs st i
  (ed_isLiveTail s) (ed_processTreeModal s) (ed_deps s) (ed_fresh s) (ed_flight s).
Definition ed_set_view b t s := EdrState (ed_async s) (ed_filter s) (ed_savedHunts s) (ed_storage s)
  (ed_huntNameInput s) b t (ed_deps s) (ed_fresh s) (ed_flight s).
Definition ed_set_load a d f s := EdrState a (ed_filter s) (ed_savedHunts s) (ed_storage s)
  (ed_huntNameInput s) (ed_isLiveTail s) (ed_processTreeModal s) d (ed_fresh s) f.

(** [setFilter({ ...filter, hosts: [...] })] with a new array *)
Definition set_hosts (hs : list string) (s : edr_state) : edr_state :=
  ed_set_filter (LogFilter (HostArray (ed_fresh s) hs) (lf_keyword (ed_filter s)) (lf_type (ed_filter s)))
    (S (ed_fresh s)) s.

Definition logs_url (f : log_filter) : string :=
  "/endpoints/logs?hosts=" +:+
  (if 0 <? length (ha_hosts (lf_hosts f)) then join "," (ha_hosts (lf_hosts f)) else "all").

Definition edr_execute (s : edr_state) : edr_state * list edr_effect :=
  (ed_set_load (async_start (ed_async s)) (ed_deps s) (fl_await tt (ed_flight s)) s,
   [GetLogs (logs_url (ed_filter s))]).

(** The effect on [filter.hosts], after a commit. *)
Definition edr_commit (s : edr_state) : edr_state * list edr_effect :=
  let now := ha_id (lf_hosts (ed_filter s)) in
  if bool_decide (ed_deps s = Some now) then (s, [])
  else edr_execute (ed_set_load (ed_async s) (Some now) (ed_flight s) s).

Definition handleSaveHunt (s : edr_state) : edr_state :=
  if String.eqb (ed_huntNameInput s) EmptyString then s
  else let hs := ed_savedHunts s ++ [Hunt (ed_huntNameInput s) (ed_filter s)] in
       ed_set_hunts hs (Some (json_stringify (hunts_doc hs))) EmptyString s.

Definition edr_handle (e : edr_event) (s : edr_state) : edr_state * list edr_effect :=
  let f := ed_filter s in
  match e with
  | EdMount => edr_commit s
  | EdHosts v => edr_commit (set_hosts (parse_hosts v) s)
  | EdType v => edr_commit (ed_set_filter (LogFilter (lf_hosts f) (lf_keyword f) v) (ed_fresh s) s)
  | EdKeyword v => edr_commit (ed_set_filter (LogFilter (lf_hosts f) v (lf_type f)) (ed_fresh s) s)
  | EdHuntName v => edr_commit (ed_set_hunts (ed_savedHunts s) (ed_storage s) v s)
  | EdSaveHunt => edr_commit (handleSaveHunt s)
  | EdHunt h => edr_commit (ed_set_filter (hu_filter h) (ed_fresh s) s)
  | EdLiveTail => edr_commit (ed_set_view (negb (ed_isLiveTail s)) (ed_processTreeModal s) s)
  | EdTick => edr_execute s
  | EdHost h => edr_commit (set_hosts [h] s)
  | EdPivot h => (s, [EdrNavigate ("/endpoints/isolation?entity=" +:+ h)])
  | EdOpenTree r => edr_commit (ed_set_view (ed_isLiveTail s) (Some r) s)
  | EdCloseTree => edr_commit (ed_set_view (ed_isLiveTail s) None s)
  | EdLoaded k r =>
      (ed_set_load (match r with
                    | HttpOk ls => async_ok (enhance_log <$> ls) (ed_async s)
                    | HttpErr e => async_fail (he_message e) (ed_async s)
                    end) (ed_deps s) (fl_forget k (ed_flight s)) s, [])
  end.

(** ** The rendered page *)
Definition log_matches (f : log_filter) (l : EnhancedEdrLog) : bool :=
  if negb (String.eqb (lf_type f) "all") && negb (String.eqb (rl_eventType (el_log l)) (lf_type f)) then false
  else if negb (String.eqb (lf_keyword f) EmptyString)
          && negb (includes (to_lower (lf_keyword f)) (to_lower (rl_detail (el_log l))))
          && negb (includes (to_lower (lf_keyword f)) (to_lower (rl_process (el_log l)))) then false
  else true.

Definition filtered_logs (s : edr_state) : list EnhancedEdrLog :=
  List.filter (log_matches (ed_filter s)) (nullish (as_data (ed_async s)) []).

Fixpoint renderTree (node : pnode) (depth : nat) : html edr_event :=
  match node with
  | PNode name pid children =>
      El "div" ("ml-" +:+ of_nat_str (depth * 4)) (
        El "div" "" (
          when (0 <? depth) [Text "└─"]
          ++ [El "span" (if depth =? 2 then "text-red-400 font-bold" else "text-slate-300") [Text name];
              Text ("PID: " +:+ of_Z pid)]) ::
        ((fun c => El "div" "" [renderTree c (S depth)]) <$> children))
  end.

Section View.
Context (locale_date : string -> string).

Definition type_options : list (string * string) :=
  [("all", "All Events"); ("PROCESS_EXECUTION", "Process Execution");
   ("NETWORK_CONNECTION", "Network Connection"); ("FILE_MODIFICATION", "File Modification")].

Definition edr_filters (s : edr_state) : html edr_event :=
  El "div" "" [
    El "h3" "" [Text "Telemetry Filters"];
    Text "Target Hosts (Comma separated)";
    Input false (join "," (ha_hosts (lf_hosts (ed_filter s)))) EdHosts;
    Text "Event Type"; Select (lf_type (ed_filter s)) type_options EdType;
    Text "Keyword Search"; Input false (lf_keyword (ed_filter s)) EdKeyword].

Definition edr_hunts (s : edr_state) : html edr_event :=
  El "div" "" (
    [El "h3" "" [Text "Saved Hunt Templates"];
     Input false (ed_huntNameInput s) EdHuntName;
     Button (String.eqb (ed_huntNameInput s) EmptyString) (Some EdSaveHunt) [Text "Save"]]
    ++ ((fun h => Button false (Some (EdHunt h)) [Text (hu_name h)]) <$> ed_savedHunts s)
    ++ when (length (ed_savedHunts s) =? 0) [Text "No saved hunts."]).

Definition log_row (r : EnhancedEdrLog) : html edr_event :=
  El "tr" (if el_isSuspicious r then "bg-red-900/10" else EmptyString) [
    El "td" "" [Text (locale_date (rl_timestamp (el_log r)))];
    El "td" "" [Clickable (EdHost (rl_host (el_log r))) [Text (rl_host (el_log r))]];
    El "td" "" [Text (rl_eventType (el_log r))];
    El "td" "" (
      El "span" (if el_isSuspicious r then "text-red-400 font-bold" else "text-slate-300")
        [Text (rl_process (el_log r) +:+ " " +:+ rl_detail (el_log r))] ::
      when (el_isSuspicious r) [
        Text "ANOMALY DETECTED";
        Button false (Some (EdPivot (rl_host (el_log r)))) [Text "Pivot to Isolation"]]);
    El "td" "" (when (String.eqb (rl_eventType (el_log r)) "PROCESS_EXECUTION")
                  [Button false (Some (EdOpenTree r)) []])].

Definition log_table (s : edr_state) : html edr_event :=
  El "table" "" [
    El "thead" "" (Text <$> ["Timestamp"; "Host"; "Event Type"; "Details"; "Actions"]);
    El "tbody" "" ((log_row <$> filtered_logs s)
      ++ when (length (filtered_logs s) =? 0) [Text "No telemetry matches the current filters."])].

Definition tree_modal (s : edr_state) : list (html edr_event) :=
  when_some (ed_processTreeModal s) (fun r => when_some (el_processTree r) (fun t => [
    El "div" "" (
      [El "h2" "" [Text "Process Execution Tree"];
       Badge (Some (if el_isSuspicious r then S1 else S4))
         [Text (if el_isSuspicious r then "SUSPICIOUS CHAIN" else "NORMAL")];
       renderTree t 0]
      ++ when (el_isSuspicious r)
           [Button false (Some (EdPivot (rl_host (el_log r)))) [Text "Isolate Host"]]
      ++ [Button false (Some EdCloseTree) [Text "Close"]])])).

Definition edr_view (s : edr_state) : list (html edr_event) :=
  [El "h1" "" [Text "EDR Telemetry Logs"];
   El "p" "" [Text "Forensic-grade process, network, and file events across the fleet."];
   El "div" (if ed_isLiveTail s then "bg-green-900/30 text-green-400" else "bg-slate-800 text-slate-300")
     [Button false (Some EdLiveTail) [Text "Live Tail"]];
   edr_filters s; edr_hunts s; log_table s] ++ tree_modal s.

Definition edr_enabled (s : edr_state) (e : edr_event) : Prop :=
  match e with
  | EdMount => ed_deps s = None
  | EdTick => ed_isLiveTail s = true
  | EdLoaded k _ => fl_map (ed_flight s) !! k = Some tt
  | _ => ed_deps s <> None /\ offers_any (edr_view s) e
  end.

(** ** What the page offers *)
Definition edr_guard (s : edr_state) (e : edr_event) : Prop :=
  match e with
  | EdHunt h => h ∈ ed_savedHunts s
  | EdOpenTree r => r ∈ filtered_logs s /\ rl_eventType (el_log r) = "PROCESS_EXECUTION"
  | EdPivot h =>
      (exists r, r ∈ filtered_logs s /\ el_isSuspicious r = true /\ rl_host (el_log r) = h) \/
      (exists r t, ed_processTreeModal s = Some r /\ el_processTree r = Some t /\
         el_isSuspicious r = true /\ rl_host (el_log r) = h)
  | EdType v => v ∈ type_options.*1
  | EdMount | EdTick | EdLoaded _ _ => False
  | _ => True
  end.

Fixpoint renderTree_offers (t : pnode) (d : nat) (e : edr_event) : ~ offers (renderTree t d) e.
Proof.
  destruct t as [name pid cs]. cbn [renderTree]. rewrite offers_El, offers_any_cons. intros [H|H].
  - offers_cases H.
  - induction cs as [|c cs IH]; [by inversion H|]. rewrite fmap_cons, offers_any_cons, offers_El in H.
    destruct H as [H|H]; [|by apply IH]. rewrite offers_any_cons, offers_any_nil in H.
    destruct H as [H|[]]. by apply (renderTree_offers c (S d) e).
Qed.

Lemma log_row_offers s r e : r ∈ filtered_logs s -> offers (log_row r) e -> edr_guard s e.
Proof.
  intros Hr H. unfold log_row in H. offers_cases H; try done.
  - cbn. left. eauto.
  - cbn. split; [done|]. by apply String.eqb_eq.
Qed.

Lemma tree_modal_offers s e : offers_any (tree_modal s) e -> edr_guard s e.
Proof.
  unfold tree_modal. rewrite offers_any_when_some. intros (r & Hr & H).
  rewrite offers_any_when_some in H. destruct H as (t & Ht & H).
  rewrite offers_any_cons, offers_any_nil, offers_El, !offers_any_app, offers_any_when in H.
  destruct H as [[H|[[Hs H]|H]]|[]].
  - rewrite !offers_any_cons, offers_any_nil in H. destruct H as [H|[H|[H|[]]]]; [offers_cases H|offers_cases H|].
    by apply renderTree_offers in H.
  - offers_cases H. cbn. right. eauto 6.
  - by offers_cases H.
Qed.

Lemma edr_offers_guard s e : offers_any (edr_view s) e -> edr_guard s e.
Proof.
  unfold edr_view. rewrite offers_any_app. intros [H|H]; [|by apply tree_modal_offers].
  rewrite !offers_any_cons, offers_any_nil in H.
  destruct H as [H|[H|[H|[H|[H|[H|[]]]]]]]; [by offers_cases H|by offers_cases H|by offers_cases H| | |].
  - unfold edr_filters in H. offers_cases H; done.
  - unfold edr_hunts in H. offers_cases H; done.
  - unfold log_table in H. rewrite offers_El, !offers_any_cons, offers_any_nil in H.
    destruct H as [H|[H|[]]]; [by offers_cases H|].
    rewrite offers_El, offers_any_app, offers_any_when, offers_any_map in H.
    destruct H as [(r & Hr & H)|[_ H]]; [by eapply log_row_offers|by offers_cases H].
Qed.

Lemma edr_enabled_guard s e :
  edr_enabled s e -> edr_guard s e \/ e = EdMount \/ e = EdTick \/ exists k r, e = EdLoaded k r.
Proof.
  destruct e; cbn [edr_enabled]; intros H; eauto 6;
    left; destruct H as [_ H]; by apply edr_offers_guard.
Qed.

(** ** Requests follow the filter *)
Definition arrays (s : edr_state) : list host_array :=
  lf_hosts (ed_filter s) :: ((fun h => lf_hosts (hu_filter h)) <$> ed_savedHunts s).

(** Arrays with one identity are one array, and new identities are unused. *)
Definition arrays_ok (s : edr_state) : Prop :=
  Forall (fun a => ha_id a < ed_fresh s) (arrays s) /\
  forall a b, a ∈ arrays s -> b ∈ arrays s -> ha_id a = ha_id b -> a = b.

Definition requests (qs : list edr_effect) : list string :=
  omap (fun q => match q with GetLogs u => Some u | _ => None end) qs.

Definition edr_inv (qs : list edr_effect) (s : edr_state) : Prop :=
  arrays_ok s /\
  match ed_deps s with
  | None => requests qs = [] /\ ed_isLiveTail s = false
  | Some d => d = ha_id (lf_hosts (ed_filter s)) /\ last (requests qs) = Some (logs_url (ed_filter s))
  end.

Lemma requests_snoc qs u : last (requests (qs ++ [GetLogs u])) = Some u.
Proof. unfold requests. rewrite omap_app. cbn. by rewrite last_snoc. Qed.

Lemma edr_commit_inv qs s s' :
  edr_inv qs s -> arrays_ok s' -> ed_deps s' = ed_deps s ->
  (ha_id (lf_hosts (ed_filter s')) = ha_id (lf_hosts (ed_filter s)) ->
     lf_hosts (ed_filter s') = lf_hosts (ed_filter s)) ->
  edr_inv (qs ++ snd (edr_commit s')) (fst (edr_commit s')).
Proof.
  intros [Ha Hd] Ha' Hd' Hsame. unfold edr_commit. case_bool_decide as Hc; cbn [fst snd].
  - rewrite app_nil_r. split; [done|]. rewrite Hd' in *. rewrite Hc in *. destruct Hd as [Hd Hl].
    split; [done|]. rewrite Hl. unfold logs_url. rewrite Hsame by congruence. done.
  - split; [done|]. cbn. split; [done|]. apply requests_snoc.
Qed.

Lemma arrays_ok_sub s s' :
  arrays_ok s -> ed_fresh s <= ed_fresh s' -> (forall a, a ∈ arrays s' -> a ∈ arrays s) -> arrays_ok s'.
Proof.
  intros [H1 H2] Hf Hs. split; [|eauto]. rewrite Forall_forall in *. intros a Ha. specialize (H1 a (Hs a Ha)).
  cbn in *. lia.
Qed.

Lemma arrays_ok_new s hs : arrays_ok s -> arrays_ok (set_hosts hs s).
Proof.
  intros [H1 H2]. unfold arrays in *. apply Forall_cons in H1 as [_ H1]. rewrite Forall_forall in H1. split.
  - cbn. constructor; [cbn; lia|]. apply Forall_forall. intros a Ha. specialize (H1 a Ha). cbn in *. lia.
  - intros a b. change (arrays (set_hosts hs s)) with
      (HostArray (ed_fresh s) hs :: ((fun h => lf_hosts (hu_filter h)) <$> ed_savedHunts s)).
    intros [->|Ha]%elem_of_cons [->|Hb]%elem_of_cons He; [done| | |].
    + specialize (H1 b Hb). cbn in *. lia.
    + specialize (H1 a Ha). cbn in *. lia.
    + apply H2; [by right|by right|done].
Qed.

Lemma edr_handle_inv qs s e :
  edr_inv qs s -> edr_enabled s e -> edr_inv (qs ++ snd (edr_handle e s)) (fst (edr_handle e s)).
Proof.
  intros Hi Hen. pose proof Hi as [Ha Hd].
  assert (Hsub : forall s', ed_fresh s' = ed_fresh s -> ed_deps s' = ed_deps s ->
    lf_hosts (ed_filter s') = lf_hosts (ed_filter s) -> (forall a, a ∈ arrays s' -> a ∈ arrays s) ->
    edr_inv (qs ++ snd (edr_commit s')) (fst (edr_commit s'))).
  { intros s' Hf Hd' Hh Hs. apply (edr_commit_inv qs s); [done| |done|done].
    apply (arrays_ok_sub s); [done|lia|done]. }
  assert (Hnew : forall hs, edr_inv (qs ++ snd (edr_commit (set_hosts hs s))) (fst (edr_commit (set_hosts hs s)))).
  { intros hs. apply (edr_commit_inv qs s); [done|by apply arrays_ok_new|done|].
    destruct Ha as [H1 _]. apply Forall_cons in H1 as [H1 _]. cbn. lia. }
  destruct e; cbn [edr_handle]; try (by apply Hsub); try apply Hnew.
  - unfold handleSaveHunt. destruct (String.eqb _ _); [by apply Hsub|]. apply Hsub; try done.
    intros a. unfold arrays. cbn [ed_set_hunts ed_savedHunts ed_filter].
    rewrite fmap_app, !elem_of_cons, elem_of_app. cbn. rewrite list_elem_of_singleton. naive_solver.
  - apply edr_enabled_guard in Hen as [Hg|[|[|(? & ? & ?)]]]; try done. cbn in Hg.
    assert (Hin : lf_hosts (hu_filter h) ∈ arrays s).
    { right. apply list_elem_of_fmap. eauto. }
    apply (edr_commit_inv qs s); [done| |done|].
    + apply (arrays_ok_sub s); [done|cbn; lia|]. intros a [->|H]%elem_of_cons; [done|by right].
    + intros E. apply Ha; [done|left|done].
  - unfold edr_execute. cbn [fst snd]. split; [done|]. cbn. destruct (ed_deps s) as [d|] eqn:Ed.
    + destruct Hd as [Hd _]. split; [done|]. apply requests_snoc.
    + cbn in Hen. destruct Hd. congruence.
  - split; [done|]. cbn [fst snd]. unfold requests in *. rewrite omap_app. cbn. rewrite app_nil_r. done.
  - split; [done|]. cbn. by rewrite app_nil_r.
Qed.

Lemma read_hunt_id i v h : read_hunt i v = Some h -> ha_id (lf_hosts (hu_filter h)) = i.
Proof.
  unfold read_hunt. intros H. repeat (case_match; try discriminate H).
  apply bind_Some in H as (hs & _ & Hh). by simplify_eq.
Qed.

Lemma load_hunts_ids stored hunts i h :
  load_hunts stored = Some hunts -> hunts !! i = Some h -> ha_id (lf_hosts (hu_filter h)) = i.
Proof.
  unfold load_hunts. destruct (truthy_str stored); [|by intros [= <-]].
  destruct (json_parse _) as [[]|]; try done. intros H%mapM_Some Hi.
  destruct (Forall2_lookup_r _ _ _ _ _ H Hi) as (x & Hx & Hr). cbn in Hr. subst x.
  rewrite list_lookup_imap in Hx. apply fmap_Some in Hx as (v & _ & Hv). by eapply read_hunt_id.
Qed.

Lemma edr_init_inv host stored hunts :
  load_hunts stored = Some hunts -> edr_inv [] (edr_init host stored hunts).
Proof.
  intros Hl. assert (Hid : forall a, a ∈ (fun h => lf_hosts (hu_filter h)) <$> hunts ->
    exists i h, hunts !! i = Some h /\ lf_hosts (hu_filter h) = a /\ ha_id a = i /\ i < length hunts).
  { intros a (h & -> & (i & Hi)%list_elem_of_lookup)%list_elem_of_fmap. exists i, h.
    split_and!; [done|done|by eapply load_hunts_ids|by eapply lookup_lt_Some]. }
  split; [|done]. split.
  - cbn. constructor; [cbn; lia|]. apply Forall_forall. intros a (i & h & _ & _ & Hi & Hlt)%Hid. cbn. lia.
  - intros a b [->|Ha]%elem_of_cons [->|Hb]%elem_of_cons He; [done| | |].
    + apply Hid in Hb as (i & h & _ & _ & Hi & Hlt). cbn in He. lia.
    + apply Hid in Ha as (i & h & _ & _ & Hi & Hlt). cbn in He. lia.
    + apply Hid in Ha as (i & h & Hh & <- & Hi & _). apply Hid in Hb as (j & h' & Hh' & <- & Hj & _).
      assert (i = j) as -> by congruence. congruence.
Qed.

(** Reading the query back, as a server does. *)
Definition hosts_of_url (url : string) : option (list string) :=
  split_on "," <$> search_get "hosts" (url_search url).

(** A host name that needs no encoding in a query. *)
Definition plain_host (h : string) : Prop :=
  h <> EmptyString /\ forall c, c ∈ [","; "&"; "="; "+"; "%"; "#"; "?"]%char -> avoids c h = true.

Lemma form_decode_plain s : avoids "%" s = true -> avoids "+" s = true -> form_decode s = s.
Proof.
  induction s as [|a s IH]; [done|]. cbn [avoids form_decode]. intros [Ha Hs]%andb_prop [Hb Hs']%andb_prop.
  apply negb_true_iff in Ha, Hb. rewrite Ha, Hb. by rewrite IH.
Qed.

Lemma hosts_read_back hs :
  hs <> [] -> Forall plain_host hs ->
  hosts_of_url ("/endpoints/logs?hosts=" +:+ join "," hs) = Some hs.
Proof.
  intros Hne Hp. assert (Hav : forall c, c ∈ ["&"; "="; "+"; "%"; "#"; "?"]%char -> avoids c (join "," hs) = true).
  { intros c Hc. apply avoids_join; [by elem_inv Hc|]. eapply Forall_weaken; [done|].
    intros h [_ H]. apply H. set_solver. }
  unfold hosts_of_url, url_search, search_get, query_pairs.
  change ("/endpoints/logs?hosts=" +:+ join "," hs) with ("/endpoints/logs" +:+ String "?" ("hosts=" +:+ join "," hs)).
  rewrite cut_app by done.
  change (strip_question _) with ("hosts=" +:+ join "," hs).
  rewrite split_on_avoids by (rewrite avoids_app, Hav by set_solver; done).
  rewrite filter_cons, decide_True by done. rewrite filter_nil. cbn [fmap list_fmap]. unfold query_pair.
  change ("hosts=" +:+ join "," hs) with ("hosts" +:+ String "=" (join "," hs)). rewrite cut_app by done.
  rewrite (form_decode_plain (join "," hs)) by (apply Hav; set_solver).
  change (form_decode "hosts") with "hosts". rewrite filter_cons, decide_True by done.
  cbn [head fmap option_fmap option_map snd]. f_equal. apply (split_on_join ","); [done|]. eapply Forall_weaken; [done|].
  intros h [_ H]. apply H. set_solver.
Qed.

(** C16: the log is always asked for with the hosts on the screen: although the
    request is tied to the identity of the array of hosts and not to its
    contents, in every execution (typed hosts, a host picked in the table,
    hunts saved and applied, live tail) the last request sent asks for all
    hosts when the filter names none, and otherwise for the hosts of the
    current filter, which a server reads back from the query in their order
    unless a name holds a character with a meaning there. *)
Theorem last_request_current host stored hunts es qs s :
  load_hunts stored = Some hunts ->
  run edr_enabled edr_handle (edr_init host stored hunts) es qs s -> ed_deps s <> None ->
  let hs := ha_hosts (lf_hosts (ed_filter s)) in
  exists url, last (requests qs) = Some url /\
    (hs = [] -> url = "/endpoints/logs?hosts=all") /\
    (hs <> [] -> url = "/endpoints/logs?hosts=" +:+ join "," hs) /\
    (hs <> [] -> Forall plain_host hs -> hosts_of_url url = Some hs).
Proof.
  intros Hl Hrun Hd. assert (edr_inv qs s) as [_ H].
  { revert Hrun. apply (run_invariant_effects _ _ edr_inv); [by apply edr_init_inv|].
    intros; by apply edr_handle_inv. }
  destruct (ed_deps s); [|done]. destruct H as [_ H]. cbn zeta.
  assert (E : ha_hosts (lf_hosts (ed_filter s)) <> [] ->
    logs_url (ed_filter s) = "/endpoints/logs?hosts=" +:+ join "," (ha_hosts (lf_hosts (ed_filter s)))).
  { unfold logs_url. by destruct (ha_hosts _). }
  exists (logs_url (ed_filter s)). split_and!; [done| |exact E|].
  - unfold logs_url. by intros ->.
  - intros Hne Hp. rewrite E by done. by apply hosts_read_back.
Qed.

(** ** Saved hunts *)
Definition hunt_content (h : hunt) : string * list string * string * string :=
  (hu_name h, ha_hosts (lf_hosts (hu_filter h)), lf_keyword (hu_filter h), lf_type (hu_filter h)).

Lemma mapM_json_str hs : mapM json_str (to_json <$> (DStr <$> hs)) = Some hs.
Proof. induction hs as [|h hs IH]; [done|]. rewrite !fmap_cons. cbn [mapM json_str to_json mbind option_bind]. by rewrite IH. Qed.

Lemma read_hunt_doc i h :
  read_hunt i (to_json (hunt_doc h)) =
  Some (Hunt (hu_name h) (LogFilter (HostArray i (ha_hosts (lf_hosts (hu_filter h))))
                            (lf_keyword (hu_filter h)) (lf_type (hu_filter h)))).
Proof.
  unfold hunt_doc, filter_doc. cbn [to_json]. rewrite !fmap_cons, !fmap_nil. cbn [fst snd to_json].
  rewrite !fmap_cons, !fmap_nil. cbn [fst snd to_json read_hunt].
  rewrite bool_decide_eq_true_2 by done. by rewrite mapM_json_str.
Qed.

Lemma load_hunts_stringify hs :
  exists hs', load_hunts (Some (json_stringify (hunts_doc hs))) = Some hs' /\
    hunt_content <$> hs' = hunt_content <$> hs.
Proof.
  unfold load_hunts. change (truthy_str (Some (json_stringify (hunts_doc hs)))) with true. cbv iota.
  change (nullish (Some ?x) ?d) with x. rewrite json_roundtrip. unfold hunts_doc. cbn [to_json].
  exists (imap (fun i h => Hunt (hu_name h) (LogFilter (HostArray i (ha_hosts (lf_hosts (hu_filter h))))
                            (lf_keyword (hu_filter h)) (lf_type (hu_filter h)))) hs). split.
  - apply mapM_Some, Forall2_same_length_lookup. rewrite !length_imap, !length_fmap. split; [done|].
    intros i x y. rewrite !list_lookup_imap, !list_lookup_fmap.
    destruct (hs !! i) as [h|]; [|done]. cbn [fmap option_fmap option_map]. intros Hx Hy. simplify_eq.
    cbn. apply read_hunt_doc.
  - rewrite fmap_imap. apply list_eq. intros i. rewrite list_lookup_imap, list_lookup_fmap. by destruct (hs !! i).
Qed.

Lemma edr_commit_keeps s :
  ed_savedHunts (fst (edr_commit s)) = ed_savedHunts s /\ ed_storage (fst (edr_commit s)) = ed_storage s /\
  ed_filter (fst (edr_commit s)) = ed_filter s /\ as_data (ed_async (fst (edr_commit s))) = as_data (ed_async s) /\
  ed_processTreeModal (fst (edr_commit s)) = ed_processTreeModal s.
Proof. unfold edr_commit. by case_bool_decide. Qed.

Definition stored_ok (s : edr_state) : Prop :=
  exists hs, load_hunts (ed_storage s) = Some hs /\ hunt_content <$> hs = hunt_content <$> ed_savedHunts s.

Lemma edr_handle_stored s e : stored_ok s -> stored_ok (fst (edr_handle e s)).
Proof.
  intros H. assert (Hc : forall s', stored_ok s' -> stored_ok (fst (edr_commit s'))).
  { intros s'. unfold stored_ok. destruct (edr_commit_keeps s') as (-> & -> & _). done. }
  destruct e; cbn [edr_handle]; try (apply Hc; exact H); try exact H.
  apply Hc. unfold handleSaveHunt. destruct (String.eqb _ _); [done|]. apply load_hunts_stringify.
Qed.

(** Saved hunts survive: in every execution the text in the storage reads back
    to the hunts on the screen, with their names, hosts, keywords and types in
    order, and saving appends one hunt with the current filter. *)
Lemma hunts_roundtrip host stored hunts es qs s :
  load_hunts stored = Some hunts ->
  run edr_enabled edr_handle (edr_init host stored hunts) es qs s ->
  (exists hs, load_hunts (ed_storage s) = Some hs /\
     hunt_content <$> hs = hunt_content <$> ed_savedHunts s) /\
  (ed_huntNameInput s <> EmptyString ->
   exists hs, load_hunts (ed_storage (fst (edr_handle EdSaveHunt s))) = Some hs /\
     hunt_content <$> hs = (hunt_content <$> ed_savedHunts s) ++
       [hunt_content (Hunt (ed_huntNameInput s) (ed_filter s))]).
Proof.
  intros Hl Hrun. assert (H : stored_ok s).
  { revert Hrun. apply run_invariant; [by exists hunts|]. intros t e Ht _. by apply edr_handle_stored. }
  split; [exact H|]. intros Hn. apply (edr_handle_stored s EdSaveHunt) in H as (hs & H1 & H2).
  exists hs. split; [done|]. rewrite H2. cbn [edr_handle].
  destruct (edr_commit_keeps (handleSaveHunt s)) as (-> & _). unfold handleSaveHunt.
  apply String.eqb_neq in Hn. rewrite Hn. cbn [ed_set_hunts ed_savedHunts]. by rewrite fmap_app.
Qed.

(** ** Suspicious events *)
Lemma edr_data_from es qs host stored hunts s (P : EnhancedEdrLog -> Prop) :
  Forall (fun e => match e with EdLoaded _ (HttpOk ls) => Forall (fun l => P (enhance_log l)) ls | _ => True end) es ->
  run edr_enabled edr_handle (edr_init host stored hunts) es qs s ->
  Forall P (nullish (as_data (ed_async s)) []).
Proof.
  apply (run_invariant_where _ _ _ (fun s => Forall P (nullish (as_data (ed_async s)) []))); [constructor|].
  intros t e Ht Hen He.
  assert (Hc : forall s', as_data (ed_async s') = as_data (ed_async t) ->
    Forall P (nullish (as_data (ed_async (fst (edr_commit s')))) [])).
  { intros s' E. destruct (edr_commit_keeps s') as (_ & _ & _ & -> & _). by rewrite E. }
  destruct e; cbn [edr_handle]; try (by apply Hc); try exact Ht.
  - apply Hc. unfold handleSaveHunt. by destruct (String.eqb _ _).
  - cbn [fst ed_set_load ed_async]. destruct r as [ls|err]; [|exact Ht]. cbn. by apply Forall_fmap.
Qed.

(** An event is flagged exactly when the sensor flagged it or when its detail
    contains, in whatever letter case, one of the four command lines known
    from attacks; and a listed event offers the way to the isolation of its
    host if and only if it is flagged. *)
Lemma suspicious_pivot host stored hunts es qs s r :
  run edr_enabled edr_handle (edr_init host stored hunts) es qs s -> r ∈ filtered_logs s ->
  (el_isSuspicious r = true <->
     rl_isSuspicious (el_log r) = true \/
     exists b u t, b ∈ LOLBINS /\ to_lower (rl_detail (el_log r)) = u +:+ b +:+ t) /\
  (offers (log_row r) (EdPivot (rl_host (el_log r))) <-> el_isSuspicious r = true).
Proof.
  intros Hrun Hr. split.
  - assert (Hdata : Forall (fun r => r = enhance_log (el_log r)) (nullish (as_data (ed_async s)) [])).
    { eapply edr_data_from; [|exact Hrun]. apply Forall_forall. intros [] _; try done. by destruct r0; [apply Forall_true|]. }
    unfold filtered_logs in Hr. apply list_elem_of_In, filter_In in Hr as [Hr _]. apply list_elem_of_In in Hr.
    rewrite Forall_forall in Hdata. rewrite (Hdata r Hr). cbn [enhance_log el_isSuspicious el_log].
    rewrite orb_true_iff, existsb_exists. setoid_rewrite <- list_elem_of_In. setoid_rewrite includes_spec.
    naive_solver.
  - unfold log_row. split.
    + intros H. offers_cases H; done.
    + intros Hs. rewrite offers_El, !offers_any_cons. right; right; right; left.
      rewrite offers_El, offers_any_cons. right. rewrite Hs. offers_find.
Qed.

(** ** Event types *)
Definition event_type_str (t : EventType) : string :=
  match t with
  | ProcessExec => "process_exec" | FileModification => "file_modification"
  | RegistryChange => "registry_change" | NetworkConnection => "network_connection"
  end.

Definition answer_typed (e : edr_event) : Prop :=
  match e with
  | EdLoaded _ (HttpOk ls) => Forall (fun l => exists t, rl_eventType l = event_type_str t) ls
  | _ => True
  end.

Definition types_ok (s : edr_state) : Prop :=
  Forall (fun f => lf_type f ∈ type_options.*1) (ed_filter s :: (hu_filter <$> ed_savedHunts s)).

Lemma edr_handle_types s e : edr_enabled s e -> types_ok s -> types_ok (fst (edr_handle e s)).
Proof.
  intros Hen H. assert (Hc : forall s', types_ok s' -> types_ok (fst (edr_commit s'))).
  { intros s'. unfold types_ok. destruct (edr_commit_keeps s') as (-> & _ & -> & _). done. }
  apply edr_enabled_guard in Hen. unfold types_ok in H. apply Forall_cons in H as [Hf Hh].
  destruct e; cbn [edr_handle]; try (apply Hc; by constructor); try by constructor.
  - apply Hc. constructor; [|done]. by destruct Hen as [|[|[|(?&?&?)]]].
  - apply Hc. unfold handleSaveHunt. destruct (String.eqb _ _); constructor; try done.
    cbn [ed_set_hunts ed_savedHunts]. rewrite fmap_app. apply Forall_app. split; [done|]. by apply Forall_singleton.
  - apply Hc. constructor; [|done]. destruct Hen as [Hg|[|[|(?&?&?)]]]; try done. cbn in Hg.
    rewrite Forall_forall in Hh. apply Hh. apply list_elem_of_fmap. eauto.
Qed.

Lemma declared_types_differ t v : v ∈ type_options.*1 -> v <> "all" -> event_type_str t <> v.
Proof.
  intros Hv Ha E. subst v. apply list_elem_of_In in Hv. cbn in Hv.
  destruct t; repeat destruct Hv as [Hv|Hv]; try discriminate Hv; done.
Qed.

(** The page compares event types with names no event has: an event of one of
    the four declared types never equals the types the page filters by, so in
    every execution whose answers are well typed each choice of the type
    filter other than ''all'' empties the table, and the process tree cannot
    be opened for any event. *)
Lemma event_types_never_match host stored hunts es qs s :
  run edr_enabled edr_handle (edr_init host stored hunts) es qs s ->
  Forall answer_typed es -> Forall (fun h => lf_type (hu_filter h) ∈ type_options.*1) hunts ->
  (lf_type (ed_filter s) <> "all" -> filtered_logs s = []) /\
  (forall r, ~ offers_any (edr_view s) (EdOpenTree r)).
Proof.
  intros Hrun Hes Hh.
  assert (Hd : Forall (fun r => exists t, rl_eventType (el_log r) = event_type_str t) (nullish (as_data (ed_async s)) [])).
  { eapply edr_data_from; [|exact Hrun]. eapply Forall_weaken; [exact Hes|].
    intros e He. destruct e; try done. }
  assert (Ht : types_ok s).
  { revert Hrun. apply run_invariant; [|intros; by apply edr_handle_types].
    constructor; [left|]. by apply Forall_fmap. }
  rewrite Forall_forall in Hd. split.
  - intros Ha. unfold filtered_logs. apply Forall_cons in Ht as [Ht _].
    assert (E : forall l, (forall r, r ∈ l -> exists t, rl_eventType (el_log r) = event_type_str t) ->
      List.filter (log_matches (ed_filter s)) l = []); [|by apply E].
    intros l Hl. induction l as [|r l IH]; [done|]. cbn [List.filter].
    destruct (Hl r ltac:(left)) as [t E].
    assert (log_matches (ed_filter s) r = false) as ->; [|apply IH; intros; apply Hl; by right].
    unfold log_matches. apply String.eqb_neq in Ha as Ha'. rewrite Ha'.
    pose proof (declared_types_differ t _ Ht Ha) as Hne. rewrite <- E in Hne.
    apply String.eqb_neq in Hne. by rewrite Hne.
  - intros r [Hr E]%edr_offers_guard. unfold filtered_logs in Hr.
    apply list_elem_of_In, filter_In in Hr as [Hr _]. apply list_elem_of_In in Hr.
    destruct (Hd r Hr) as [t Ht']. rewrite E in Ht'. by destruct t.
Qed.

(** ** Typing hosts *)

(** The text [cs] typed character by character at the end of the field. *)
Definition type_hosts (cs : list ascii) (s : edr_state) : edr_state :=
  foldl (fun s c => fst (edr_handle
    (EdHosts (join "," (ha_hosts (lf_hosts (ed_filter s))) +:+ String c EmptyString)) s)) s cs.

Lemma avoids_trim c s : avoids c s = true -> avoids c (trim s) = true.
Proof.
  assert (H1 : forall s, avoids c s = true -> avoids c (trim_start s) = true).
  { clear s. intros s. induction s as [|a s IH]; [done|]. cbn [trim_start]. destruct (is_space a); [|done].
    cbn [avoids]. intros [_ H]%andb_true_iff. auto. }
  assert (H2 : forall s, avoids c s = true -> avoids c (trim_end s) = true).
  { clear s. intros s. induction s as [|a s IH]; [done|]. cbn [trim_end avoids]. intros [Ha Hs]%andb_true_iff.
    specialize (IH Hs). destruct (trim_end s) as [|b t] eqn:E; [destruct (is_space a); [done|]|];
      cbn [avoids] in *; by rewrite Ha. }
  intros H. unfold trim. auto.
Qed.

Definition one_host (hs : list string) : Prop := length hs <= 1 /\ Forall (fun h => avoids "," h = true) hs.

Lemma parse_hosts_single v : avoids "," v = true -> one_host (parse_hosts v).
Proof.
  intros Hv. unfold parse_hosts. rewrite (split_on_avoids _ _ Hv). cbn [fmap list_fmap].
  rewrite filter_cons. case_decide; rewrite filter_nil; split; cbn; try lia; try done.
  apply Forall_singleton. by apply avoids_trim.
Qed.

Lemma parse_hosts_trailing v : avoids "," v = true -> parse_hosts (v +:+ ",") = parse_hosts v.
Proof.
  intros Hv. unfold parse_hosts. rewrite (split_on_app _ v EmptyString Hv), (split_on_avoids _ _ Hv).
  cbn [split_on fmap list_fmap]. by rewrite !filter_cons, !filter_nil.
Qed.

Lemma parse_hosts_append hs c : one_host hs -> one_host (parse_hosts (join "," hs +:+ String c EmptyString)).
Proof.
  intros [Hl Ha]. assert (Hj : avoids "," (join "," hs) = true).
  { destruct hs as [|h [|]]; [done|rewrite Forall_singleton in Ha; exact Ha|cbn in Hl; lia]. }
  destruct (decide (c = ","%char)) as [->|Hc].
  - rewrite parse_hosts_trailing by done. by apply parse_hosts_single.
  - apply parse_hosts_single. rewrite avoids_app, Hj. cbn [avoids]. by rewrite bool_decide_eq_false_2 by done.
Qed.

(** A second host cannot be typed: the field shows the parsed hosts, so a
    comma typed after a host disappears at once; whatever is typed at the end
    of an empty field, the filter never holds two hosts, although pasting two
    hosts separated by a comma gives both. *)
Lemma second_host_cannot_be_typed s cs h1 h2 :
  ha_hosts (lf_hosts (ed_filter s)) = [] ->
  trimmed h1 -> trimmed h2 -> h1 <> EmptyString -> h2 <> EmptyString ->
  avoids "," h1 = true -> avoids "," h2 = true ->
  length (ha_hosts (lf_hosts (ed_filter (type_hosts cs s)))) <= 1 /\
  ha_hosts (lf_hosts (ed_filter (fst (edr_handle (EdHosts (h1 +:+ "," +:+ h2)) s)))) = [h1; h2].
Proof.
  intros Hs Ht1 Ht2 H1 H2 Ha1 Ha2. split.
  - enough (H : forall hs, one_host hs -> ha_hosts (lf_hosts (ed_filter s)) = hs ->
      one_host (ha_hosts (lf_hosts (ed_filter (type_hosts cs s))))).
    { apply (H []); [|done]. split; [cbn; lia|constructor]. }
    clear Hs. revert s. induction cs as [|c cs IH]; intros s hs Hone E; [by subst|].
    change (type_hosts (c :: cs) s) with (type_hosts cs (fst (edr_handle
      (EdHosts (join "," (ha_hosts (lf_hosts (ed_filter s))) +:+ String c EmptyString)) s))).
    eapply IH; [|reflexivity]. cbn [edr_handle].
    match goal with |- context [edr_commit ?x] => destruct (edr_commit_keeps x) as (_ & _ & -> & _) end.
    cbn [set_hosts ed_set_filter ed_filter lf_hosts ha_hosts]. rewrite E. by apply parse_hosts_append.
  - cbn [edr_handle].
    match goal with |- context [edr_commit ?x] => destruct (edr_commit_keeps x) as (_ & _ & -> & _) end.
    cbn [set_hosts ed_set_filter ed_filter lf_hosts ha_hosts]. unfold parse_hosts.
    change ("," +:+ h2) with (String "," h2). rewrite split_on_app, split_on_avoids by done.
    cbn [fmap list_fmap]. rewrite !trim_id by done. rewrite !filter_cons, !decide_True by done. done.
Qed.
End View.

(** ** Witnesses *)
Definition demo_log (ty detail : string) : raw_log :=
  RawLog "1" "web-01" ty "2024-01-01T00:00:00Z" "powershell.exe" detail false.
Definition demo_edr : list edr_event :=
  [EdMount; EdLoaded 0 (HttpOk [demo_log "process_exec" "PowerShell.exe -Enc SQBFAFgA"])].
Definition demo_edr_state : edr_state := fst (exec edr_handle demo_edr (edr_init None None [])).

Lemma demo_edr_enabled : all_enabled (edr_enabled id) edr_handle demo_edr (edr_init None None []).
Proof. cbn [demo_edr all_enabled]. repeat split. Qed.

Definition demo_hosts : list edr_event := demo_edr ++ [EdHosts "web-01, web-02"].

Lemma demo_hosts_enabled : all_enabled (edr_enabled id) edr_handle demo_hosts (edr_init None None []).
Proof.
  cbn [demo_hosts demo_edr app all_enabled]. split; [done|]. split; [done|]. split; [|done].
  split; [discriminate|]. unfold edr_view. rewrite offers_any_app. left. rewrite !offers_any_cons.
  do 3 right. left. unfold edr_filters. rewrite offers_El, !offers_any_cons. do 2 right. left.
  rewrite offers_Input. eauto.
Qed.

Lemma last_request_current_witness :
  exists url, last (requests (snd (exec edr_handle demo_hosts (edr_init None None [])))) = Some url /\
    hosts_of_url url = Some ["web-01"; "web-02"].
Proof.
  destruct (last_request_current id None None [] demo_hosts _ _ eq_refl
    (exec_run _ _ _ _ demo_hosts_enabled)) as (url & H & _ & _ & Hr); [discriminate|].
  exists url. split; [exact H|]. apply Hr; [discriminate|].
  repeat constructor; try discriminate; intros c Hc; by elem_inv Hc.
Defined.

Lemma hunts_roundtrip_witness :
  exists hs, load_hunts (ed_storage demo_edr_state) = Some hs /\
    hunt_content <$> hs = hunt_content <$> ed_savedHunts demo_edr_state.
Proof.
  exact (proj1 (hunts_roundtrip id None None [] demo_edr _ demo_edr_state eq_refl
    (exec_run _ _ _ _ demo_edr_enabled))).
Defined.

Lemma suspicious_pivot_witness :
  offers (log_row id (enhance_log (demo_log "process_exec" "PowerShell.exe -Enc SQBFAFgA"))) (EdPivot "web-01").
Proof.
  refine (proj2 (proj2 (suspicious_pivot id None None [] demo_edr _ demo_edr_state
    (enhance_log (demo_log "process_exec" "PowerShell.exe -Enc SQBFAFgA"))
    (exec_run _ _ _ _ demo_edr_enabled) _)) _); [|reflexivity].
  apply list_elem_of_In. left. reflexivity.
Defined.

Definition demo_typed : list edr_event := demo_edr ++ [EdType "PROCESS_EXECUTION"].

Lemma demo_typed_enabled : all_enabled (edr_enabled id) edr_handle demo_typed (edr_init None None []).
Proof.
  cbn [demo_typed demo_edr app all_enabled]. split; [done|]. split; [done|]. split; [|done].
  split; [discriminate|]. unfold edr_view. rewrite offers_any_app. left. rewrite !offers_any_cons.
  do 3 right. left. unfold edr_filters. rewrite offers_El, !offers_any_cons. do 4 right. left.
  rewrite offers_Select. exists "PROCESS_EXECUTION". split; [right; left|reflexivity].
Qed.

Lemma event_types_never_match_witness :
  filtered_logs (fst (exec edr_handle demo_typed (edr_init None None []))) = [].
Proof.
  refine (proj1 (event_types_never_match id None None [] demo_typed _ _
    (exec_run _ _ _ _ demo_typed_enabled) _ (Forall_nil_2 _)) _); [|discriminate].
  repeat constructor. exists ProcessExec. reflexivity.
Defined.

Lemma second_host_cannot_be_typed_witness :
  length (ha_hosts (lf_hosts (ed_filter (type_hosts ["a"; ","; "b"]%char demo_edr_state)))) <= 1 /\
  ha_hosts (lf_hosts (ed_filter (fst (edr_handle (EdHosts "a,b") demo_edr_state)))) = ["a"; "b"].
Proof.
  refine (second_host_cannot_be_typed demo_edr_state ["a"; ","; "b"]%char "a" "b" eq_refl _ _ _ _ eq_refl eq_refl);
    try discriminate; (split; intros c [= <-]; reflexivity).
Defined.
