(* ===== verification/Layouts.v ===== *)
(** * The console's frame ([layouts/MainLayout.tsx], [layouts/ui/Sidebar.tsx],
      [layouts/ui/CommandPalette.tsx], [layouts/ui/NotificationCenter.tsx])

    The drawer on small screens, the side bar with its menus, the command
    palette with its keyboard control and the notification panel.  The frame
    stays mounted while pages change, so its state lives through all of
    them.  The palette's two effects run after each commit: one when it is
    opened, one when its query changes; the second owns the timer that hides
    the spinner.  Activating a focused item with the keyboard is the same
    event as clicking it.  The location is the router's: the pages, the
    browser's history and redirections change it too ([FrElsewhere], possible
    at any time and to any path).  A path outside the protected layout, such
    as that of the login page after a sign-out or a rejected session, unmounts
    the frame: its execution ends there. *)
From S2P Require Import Prelude JsString Dates Html Types Http Routing SharedUi.

(** ** Command palette *)
Record CommandItem := MkCommand {
  cmd_id : string; cmd_label : string; cmd_shortcut : option string; cmd_target : option string }.

Record palette := Palette {
  pl_query : string;
  pl_activeIndex : nat;
  pl_isQuerying : bool;
  pl_timer : bool;                    (* the timer of the last query is pending *)
  pl_seenOpen : bool; pl_seenQuery : string }.   (* what the effects saw last *)

Definition pl_init : palette := Palette EmptyString 0 false false false EmptyString.

Definition defaultCommands : list CommandItem :=
  [MkCommand "c1" "Go to Playbooks" (Some "G P") (Some "/playbooks");
   MkCommand "c2" "View Active Incidents" (Some "G I") (Some ROUTES.incidents_active);
   MkCommand "c3" "Asset Inventory" (Some "G A") (Some ROUTES.assets_inventory);
   MkCommand "c4" "Threat Feeds" (Some "G T") (Some ROUTES.detection_feeds);
   MkCommand "c5" "System Settings" (Some "G S") (Some ROUTES.settings)].

Definition in_quotes (q : string) : string :=
  String (ascii_of_nat 34) (q +:+ String (ascii_of_nat 34) EmptyString).

Definition searchResults (query : string) : list CommandItem :=
  [MkCommand "s1" ("Search AI Index for " +:+ in_quotes query) None None;
   MkCommand "s2" ("Filter Alerts by " +:+ in_quotes query) None (Some ROUTES.incidents_active)].

Definition displayedItems (p : palette) : list CommandItem :=
  if String.eqb (pl_query p) EmptyString then defaultCommands else searchResults (pl_query p).

Definition pl_set_index i p :=
  Palette (pl_query p) i (pl_isQuerying p) (pl_timer p) (pl_seenOpen p) (pl_seenQuery p).

(** [useEffect(..., [isOpen])] *)
Definition open_effect (isOpen : bool) (p : palette) : palette :=
  if Bool.eqb isOpen (pl_seenOpen p) then p
  else if isOpen then Palette EmptyString 0 (pl_isQuerying p) (pl_timer p) isOpen (pl_seenQuery p)
  else Palette (pl_query p) (pl_activeIndex p) (pl_isQuerying p) (pl_timer p) isOpen (pl_seenQuery p).

(** [useEffect(..., [query])], with the cleanup of the previous run *)
Definition query_effect (p : palette) : palette :=
  if String.eqb (pl_query p) (pl_seenQuery p) then p
  else if String.eqb (pl_query p) EmptyString
       then Palette (pl_query p) 0 (pl_isQuerying p) false (pl_seenOpen p) (pl_query p)
       else Palette (pl_query p) 0 true true (pl_seenOpen p) (pl_query p).

Definition pl_commit (isOpen : bool) (p : palette) : palette := query_effect (open_effect isOpen p).

Definition pl_setQuery (v : string) (p : palette) : palette :=
  Palette v (pl_activeIndex p) (pl_isQuerying p) (pl_timer p) (pl_seenOpen p) (pl_seenQuery p).
Definition pl_fired (p : palette) : palette :=
  Palette (pl_query p) (pl_activeIndex p) false false (pl_seenOpen p) (pl_seenQuery p).

(** ** The frame *)
Inductive key := KEscape | KCtrlK | KDown | KUp | KEnter.

Record frame := Frame {
  fr_sidebarOpen : bool;
  fr_location : string;
  fr_expandedMenus : gmap string bool;
  fr_showSearch : bool;
  fr_showNotifs : bool;
  fr_notifications : list NotificationItem;
  fr_notifsLoading : bool;
  fr_palette : palette;
  fr_flight : flight unit }.

Definition fr_init (location : string) : frame :=
  Frame false location ∅ false false [] false pl_init fl_empty.

Inductive frame_effect := GetNotifications | FrNavigate (path : string).

Inductive frame_event :=
| OpenDrawer | CloseDrawer | CloseSidebar
| NavTo (path : string) | ToggleMenu (menu : string)
| ToggleSearch | ToggleNotifs | CloseNotifs
| Key (k : key)
| PlQuery (v : string) | PlHover (i : nat) | PlRun (i : nat) | PlTimer
| NotifsLoaded (k : nat) (now : Z) (r : http_result (list NotificationItem))
| FrElsewhere (path : string).   (* the location changes without the frame *)

Definition fr_set_drawer b s := Frame b (fr_location s) (fr_expandedMenus s) (fr_showSearch s) (fr_showNotifs s)
  (fr_notifications s) (fr_notifsLoading s) (fr_palette s) (fr_flight s).
Definition fr_set_location p s := Frame (fr_sidebarOpen s) p (fr_expandedMenus s) (fr_showSearch s) (fr_showNotifs s)
  (fr_notifications s) (fr_notifsLoading s) (fr_palette s) (fr_flight s).
Definition fr_set_menus m s := Frame (fr_sidebarOpen s) (fr_location s) m (fr_showSearch s) (fr_showNotifs s)
  (fr_notifications s) (fr_notifsLoading s) (fr_palette s) (fr_flight s).
Definition fr_set_palette p s := Frame (fr_sidebarOpen s) (fr_location s) (fr_expandedMenus s) (fr_showSearch s)
  (fr_showNotifs s) (fr_notifications s) (fr_notifsLoading s) p (fr_flight s).
Definition fr_set_notifs b ns l f s := Frame (fr_sidebarOpen s) (fr_location s) (fr_expandedMenus s) (fr_showSearch s)
  b ns l (fr_palette s) f.

(** [setShowSearch] and the effects of the palette after the commit *)
Definition setShowSearch (b : bool) (s : frame) : frame :=
  Frame (fr_sidebarOpen s) (fr_location s) (fr_expandedMenus s) b (fr_showNotifs s)
    (fr_notifications s) (fr_notifsLoading s) (pl_commit b (fr_palette s)) (fr_flight s).

(** [navigate], with the redirections of the route table *)
Definition settle (path : string) : string :=
  match route_of path with
  | Some (Route _ _ (NavigateTo to)) => to
  | _ => path
  end.

Definition fr_navigate (path : string) (s : frame) : frame * list frame_effect :=
  (fr_set_location (settle path) s, [FrNavigate path]).

Definition navToPath (path : string) (s : frame) : frame * list frame_effect :=
  let '(s, q) := fr_navigate path s in (fr_set_drawer false s, q).

Definition toggleMenu (menu : string) (s : frame) : frame :=
  fr_set_menus (<[menu := negb (nullish (fr_expandedMenus s !! menu) false)]> (fr_expandedMenus s)) s.

(** [item.action()] *)
Definition run_command (c : CommandItem) (s : frame) : frame * list frame_effect :=
  match cmd_target c with
  | Some p => let '(s, q) := fr_navigate p s in (setShowSearch false s, q)
  | None => (setShowSearch false s, [])
  end.

Definition notif_error (now : Z) : NotificationItem :=
  {| notif_id := "err"; notif_message := "Could not load notifications."; notif_severity := NInfo;
     notif_timestamp := to_iso now; notif_read := true |}.

Definition openNotifications (s : frame) : frame * list frame_effect :=
  if fr_showNotifs s
  then (fr_set_notifs false (fr_notifications s) (fr_notifsLoading s) (fr_flight s) s, [])
  else (fr_set_notifs true (fr_notifications s) true (fl_await tt (fr_flight s)) s, [GetNotifications]).

Definition openNotifications_done (now : Z) (r : http_result (list NotificationItem)) (f : flight unit) (s : frame) : frame :=
  fr_set_notifs (fr_showNotifs s)
    (match r with HttpOk ns => ns | HttpErr _ => [notif_error now] end) false f s.

(** The palette's key handler, listening while it is open. *)
Definition palette_key (k : key) (s : frame) : frame * list frame_effect :=
  let p := fr_palette s in
  let n := length (displayedItems p) in
  match k with
  | KEscape => (setShowSearch false s, [])
  | KDown => (fr_set_palette (pl_set_index ((pl_activeIndex p + 1) mod n) p) s, [])
  | KUp => (fr_set_palette (pl_set_index ((pl_activeIndex p + n - 1) mod n) p) s, [])
  | KEnter => match displayedItems p !! pl_activeIndex p with
              | Some c => run_command c s
              | None => (s, [])
              end
  | KCtrlK => (s, [])
  end.

(** The side bar's key handler. *)
Definition sidebar_key (k : key) (s : frame) : frame :=
  match k with
  | KEscape => fr_set_notifs false (fr_notifications s) (fr_notifsLoading s) (fr_flight s) (setShowSearch false s)
  | KCtrlK => setShowSearch (negb (fr_showSearch s)) s
  | _ => s
  end.

Definition frame_handle (e : frame_event) (s : frame) : frame * list frame_effect :=
  match e with
  | OpenDrawer => (fr_set_drawer true s, [])
  | CloseDrawer | CloseSidebar => (fr_set_drawer false s, [])
  | NavTo p => navToPath p s
  | ToggleMenu m => (toggleMenu m s, [])
  | ToggleSearch => (setShowSearch (negb (fr_showSearch s)) s, [])
  | ToggleNotifs => openNotifications s
  | CloseNotifs => (fr_set_notifs false (fr_notifications s) (fr_notifsLoading s) (fr_flight s) s, [])
  | Key k =>
      let '(s', q) := if fr_showSearch s then palette_key k s else (s, []) in (sidebar_key k s', q)
  | PlQuery v => (fr_set_palette (pl_commit (fr_showSearch s) (pl_setQuery v (fr_palette s))) s, [])
  | PlHover i => (fr_set_palette (pl_set_index i (fr_palette s)) s, [])
  | PlRun i => match displayedItems (fr_palette s) !! i with
               | Some c => run_command c s
               | None => (s, [])
               end
  | PlTimer => (fr_set_palette (pl_fired (fr_palette s)) s, [])
  | NotifsLoaded k now r => (openNotifications_done now r (fl_forget k (fr_flight s)) s, [])
  | FrElsewhere p => (fr_set_location p s, [])
  end.

(** ** Rendering *)
Section View.
Context (locale_time : string -> string).

Definition command_row (active : nat) (i : nat) (c : CommandItem) : html frame_event :=
  El "div" (if i =? active then "bg-blue-600/20 text-blue-100" else "text-slate-300") [
    Button false (Some (PlRun i)) (
      Text (cmd_label c) :: when (truthy_str (cmd_shortcut c))
        (Text <$> split_on " " (nullish (cmd_shortcut c) EmptyString)))].

Definition CommandPalette (isOpen : bool) (p : palette) : list (html frame_event) :=
  when isOpen [
    El "div" "" [
      Input false (pl_query p) PlQuery; Text "ESC";
      El "div" "" (
        if pl_isQuerying p then [Text "Analyzing intent via Semantic Index..."]
        else if length (displayedItems p) =? 0 then [Text ("No results found for " +:+ in_quotes (pl_query p))]
        else Text (if String.eqb (pl_query p) EmptyString then "Suggested Actions" else "Search Results")
             :: imap (command_row (pl_activeIndex p)) (displayedItems p));
      Text "to navigate"; Text "to select"; Text "SOC OS v2.4"]].

Definition severity_text (s : NotificationSeverity) : string :=
  match s with NInfo => "info" | NWarning => "warning" | NCritical => "critical" end.
Definition severity_tone (s : NotificationSeverity) : string :=
  match s with NCritical => "text-red-400" | NWarning => "text-yellow-400" | NInfo => "text-blue-400" end.

Definition notification_row (n : NotificationItem) : html frame_event :=
  El "div" (severity_tone (notif_severity n)) [
    Text (severity_text (notif_severity n)); Text (locale_time (notif_timestamp n)); Text (notif_message n);
    Button false None [Text "View Details"]; Button false None [Text "Dismiss"]].

Definition NotificationCenter (isOpen : bool) (ns : list NotificationItem) (loading : bool) : list (html frame_event) :=
  when isOpen [
    El "div" "" [
      El "h3" "" [Text "Notifications"]; Text "LIVE";
      Button false (Some CloseNotifs) [];
      Text (of_nat_str (length ns) +:+ " Unread"); Button false None [Text "Mark all as read"];
      El "div" "" (
        if loading then [Text "Syncing Streams..."]
        else if length ns =? 0 then [El "h4" "" [Text "All caught up!"];
          Text "No new alerts or critical events detected in your environment."]
        else notification_row <$> ns)]].

Definition isActive (location path : string) : bool :=
  String.eqb location path || (negb (String.eqb path "/") && starts_with path location).

Definition nav_item (location path label : string) : html frame_event :=
  El "div" (if isActive location path then "active glow-border" else EmptyString)
    [Clickable (NavTo path) [Text label]].

Definition nav_group (s : frame) (g : NavGroup) : html frame_event :=
  let isOpen := nullish (fr_expandedMenus s !! group_label g) false in
  El "div" (if existsb (fun i => isActive (fr_location s) (nav_path i)) (group_items g)
            then "active glow-border" else EmptyString) (
    Clickable (ToggleMenu (group_label g)) [Text (group_label g)] ::
    when isOpen ((fun i => nav_item (fr_location s) (nav_path i) (nav_label i)) <$> group_items g)).

Definition Sidebar (s : frame) : list (html frame_event) :=
  [Text "CORTEX CLONE"; Button false (Some CloseSidebar) [];
   nav_item (fr_location s) "/" "Command Center"; nav_item (fr_location s) "/playbooks" "Playbook Sandbox"]
  ++ (nav_group s <$> NAV_GROUPS)
  ++ [Clickable (NavTo ROUTES.marketplace) [Text "Marketplace"]]
  ++ CommandPalette (fr_showSearch s) (fr_palette s)
  ++ NotificationCenter (fr_showNotifs s) (fr_notifications s) (fr_notifsLoading s)
  ++ [nav_item (fr_location s) ROUTES.settings "Settings";
      Clickable ToggleSearch [Text "Search"]; Clickable ToggleNotifs [Text "Notifications"];
      Clickable (NavTo ROUTES.profile) [Text "Principal Analyst"; Text "Tier 3 / System Eng"]].

Definition MainLayout (s : frame) : list (html frame_event) :=
  when (fr_sidebarOpen s) [Clickable CloseDrawer []]
  ++ [El "div" (if fr_sidebarOpen s then "translate-x-0" else "-translate-x-full") (Sidebar s)]
  ++ [Button false (Some OpenDrawer) []; Text "CORTEX CLONE"; Text "SOC CORE"].

Definition frame_enabled (s : frame) (e : frame_event) : Prop :=
  match e with
  | Key _ | FrElsewhere _ => True
  | PlHover i => fr_showSearch s = true /\ pl_isQuerying (fr_palette s) = false /\
                 i < length (displayedItems (fr_palette s))
  | PlTimer => pl_timer (fr_palette s) = true
  | NotifsLoaded k _ _ => fl_map (fr_flight s) !! k = Some tt
  | _ => offers_any (MainLayout s) e
  end.

(** ** What the frame offers *)
Definition nav_paths : list string :=
  ["/"; "/playbooks"] ++ (NAV_GROUPS ≫= fun g => nav_path <$> group_items g) ++ [ROUTES.settings].

Definition frame_targets : list string :=
  nav_paths ++ [ROUTES.marketplace; ROUTES.profile] ++ omap cmd_target defaultCommands.

Definition frame_guard (s : frame) (e : frame_event) : Prop :=
  match e with
  | NavTo p => p ∈ nav_paths ++ [ROUTES.marketplace; ROUTES.profile]
  | PlQuery _ => fr_showSearch s = true
  | PlRun i => fr_showSearch s = true /\ pl_isQuerying (fr_palette s) = false /\
               i < length (displayedItems (fr_palette s))
  | Key _ | PlHover _ | PlTimer | NotifsLoaded _ _ _ | FrElsewhere _ => False
  | _ => True
  end.

Lemma offers_any_imap {X} (f : nat -> X -> html frame_event) xs e :
  offers_any (imap f xs) e -> exists i x, xs !! i = Some x /\ offers (f i x) e.
Proof.
  unfold offers_any. rewrite Exists_exists. intros (k & (i & Hi)%list_elem_of_lookup & Hk).
  rewrite list_lookup_imap in Hi. apply fmap_Some in Hi as (x & Hx & ->). eauto.
Qed.

Lemma palette_offers s e :
  offers_any (CommandPalette (fr_showSearch s) (fr_palette s)) e -> frame_guard s e.
Proof.
  unfold CommandPalette. rewrite offers_any_when, offers_any_cons, offers_any_nil, offers_El.
  intros [Ho [H|[]]]. rewrite !offers_any_cons, offers_any_nil in H.
  destruct H as [H|[H|[H|H]]]; [by offers_cases H|by offers_cases H| |by offers_cases H].
  rewrite offers_El in H. destruct (pl_isQuerying _) eqn:Eq; [by offers_cases H|].
  destruct (length _ =? 0); [by offers_cases H|]. rewrite offers_any_cons, offers_Text in H.
  destruct H as [[]|(i & c & Hc & H)%offers_any_imap]. unfold command_row in H.
  rewrite offers_El, offers_any_cons, offers_any_nil, offers_Button in H.
  destruct H as [[[_ [= <-]]|H]|[]]; [|by offers_cases H].
  cbn. split_and!; [done|done|by eapply lookup_lt_Some].
Qed.

Lemma notifications_offers b ns l e : offers_any (NotificationCenter b ns l) e -> e = CloseNotifs.
Proof.
  unfold NotificationCenter. rewrite offers_any_when. intros [_ H].
  rewrite offers_any_cons, offers_any_nil, offers_El in H. destruct H as [H|[]].
  rewrite !offers_any_cons, offers_any_nil in H.
  destruct H as [H|[H|[H|[H|[H|[H|[]]]]]]]; try (by offers_cases H).
  rewrite offers_El in H. destruct l; [by offers_cases H|].
  destruct (length ns =? 0); [by offers_cases H|]. apply offers_any_map in H as (n & _ & H).
  unfold notification_row in H. by offers_cases H.
Qed.

Lemma nav_item_offers loc p l e : offers (nav_item loc p l) e <-> e = NavTo p.
Proof.
  unfold nav_item. rewrite offers_El, offers_any_cons, offers_any_nil, offers_Clickable,
    offers_any_cons, offers_any_nil, offers_Text. naive_solver.
Qed.

Lemma nav_groups_offers s e : offers_any (nav_group s <$> NAV_GROUPS) e -> frame_guard s e.
Proof.
  rewrite offers_any_map. intros (g & Hg & H). unfold nav_group in H.
  rewrite offers_El, offers_any_cons, offers_Clickable, offers_any_cons, offers_any_nil, offers_Text in H.
  destruct H as [[->|[[]|[]]]|H]; [done|]. rewrite offers_any_when, offers_any_map in H.
  destruct H as (_ & i & Hi & H). apply nav_item_offers in H as ->. unfold frame_guard, nav_paths.
  apply elem_of_app. left. rewrite !elem_of_app. right. left. apply list_elem_of_bind. exists g.
  split; [|done]. apply list_elem_of_fmap. eauto.
Qed.

Lemma frame_offers_guard s e : offers_any (MainLayout s) e -> frame_guard s e.
Proof.
  unfold MainLayout. rewrite !offers_any_app, !offers_any_cons, !offers_any_nil, offers_El.
  intros [H|[[H|[]]|H]]; [by offers_cases H| |by offers_cases H].
  unfold Sidebar in H. rewrite !offers_any_app in H.
  assert (Hn : forall p, p ∈ ["/"; "/playbooks"; ROUTES.settings; ROUTES.marketplace; ROUTES.profile] ->
    frame_guard s (NavTo p)).
  { intros p Hp. unfold frame_guard, nav_paths. rewrite !elem_of_app. rewrite !elem_of_cons in *. tauto. }
  destruct H as [H|[H|[H|[H|[H|H]]]]].
  - rewrite !offers_any_cons, offers_any_nil, !nav_item_offers in H.
    destruct H as [H|[H|[->|[->|[]]]]]; [by offers_cases H|by offers_cases H| |]; apply Hn;
      rewrite !elem_of_cons; auto.
  - by apply nav_groups_offers.
  - offers_cases H. apply Hn. rewrite !elem_of_cons; auto 6.
  - by apply palette_offers.
  - by apply notifications_offers in H as ->.
  - rewrite !offers_any_cons, offers_any_nil, nav_item_offers in H.
    destruct H as [->|[H|[H|[H|[]]]]]; [|by offers_cases H|by offers_cases H|offers_cases H]; apply Hn;
      rewrite !elem_of_cons; auto 6.
Qed.

(** ** The palette *)
Definition palette_ok (s : frame) : Prop :=
  let p := fr_palette s in
  pl_seenQuery p = pl_query p /\ pl_seenOpen p = fr_showSearch s /\
  pl_activeIndex p < length (displayedItems p) /\
  (pl_timer p = true -> pl_isQuerying p = true /\ pl_query p <> EmptyString) /\
  (pl_query p <> EmptyString -> pl_isQuerying p = true -> pl_timer p = true).

Lemma displayed_pos p : 0 < length (displayedItems p).
Proof. unfold displayedItems. destruct (String.eqb _ _); cbn; lia. Qed.

Lemma pl_commit_ok b p :
  pl_activeIndex p < length (displayedItems p) \/ pl_query p <> pl_seenQuery p ->
  (pl_timer p = true -> pl_isQuerying p = true /\ pl_seenQuery p <> EmptyString) ->
  (pl_seenQuery p <> EmptyString -> pl_isQuerying p = true -> pl_timer p = true) ->
  let q := pl_commit b p in
  pl_seenQuery q = pl_query q /\ pl_seenOpen q = b /\ pl_activeIndex q < length (displayedItems q) /\
  (pl_timer q = true -> pl_isQuerying q = true /\ pl_query q <> EmptyString) /\
  (pl_query q <> EmptyString -> pl_isQuerying q = true -> pl_timer q = true).
Proof.
  intros Hi Ht1 Ht2 q.
  set (p' := open_effect b p).
  assert (H : (pl_activeIndex p' < length (displayedItems p') \/ pl_query p' <> pl_seenQuery p') /\
    pl_seenOpen p' = b /\ pl_timer p' = pl_timer p /\ pl_isQuerying p' = pl_isQuerying p /\
    pl_seenQuery p' = pl_seenQuery p).
  { unfold p', open_effect. destruct (Bool.eqb b (pl_seenOpen p)) eqn:E.
    - apply Bool.eqb_prop in E. subst b. done.
    - destruct b; split_and!; try done. left. cbn. lia. }
  destruct H as (Hi' & Ho & Et & Eq & Es). unfold q, pl_commit. fold p'. unfold query_effect.
  destruct (String.eqb_spec (pl_query p') (pl_seenQuery p')) as [E|E].
  - rewrite Et, Eq, E, Es. split_and!; try done. by destruct Hi'.
  - destruct (String.eqb_spec (pl_query p') EmptyString) as [E0|E0]; cbn; split_and!; try done;
      apply displayed_pos.
Qed.

Lemma setShowSearch_ok b s : palette_ok s -> palette_ok (setShowSearch b s).
Proof. intros (E & _ & Hi & H1 & H2). apply pl_commit_ok; rewrite E; auto. Qed.

Lemma palette_ok_ext s s' :
  fr_palette s' = fr_palette s -> fr_showSearch s' = fr_showSearch s -> palette_ok s -> palette_ok s'.
Proof. unfold palette_ok. by intros -> ->. Qed.

Lemma run_command_ok c s : palette_ok s -> palette_ok (fst (run_command c s)).
Proof. intros H. unfold run_command. destruct (cmd_target c); apply setShowSearch_ok; done. Qed.

Lemma pl_set_index_ok i s :
  palette_ok s -> i < length (displayedItems (fr_palette s)) ->
  palette_ok (fr_set_palette (pl_set_index i (fr_palette s)) s).
Proof. intros (E & Eo & _ & H1 & H2) Hi. done. Qed.

Lemma palette_key_ok k s : palette_ok s -> palette_ok (fst (palette_key k s)).
Proof.
  intros H. pose proof (displayed_pos (fr_palette s)). destruct k; cbn [palette_key fst]; try done.
  - by apply setShowSearch_ok.
  - apply pl_set_index_ok; [done|]. apply Nat.mod_upper_bound. lia.
  - apply pl_set_index_ok; [done|]. apply Nat.mod_upper_bound. lia.
  - destruct (_ !! _); [by apply run_command_ok|done].
Qed.

Lemma typing_ok v s : palette_ok s -> palette_ok (fst (frame_handle (PlQuery v) s)).
Proof.
  intros (E & Eo & Hi & H1 & H2). apply pl_commit_ok; cbn; rewrite E; try done.
  destruct (decide (v = pl_query (fr_palette s))) as [->|Hv]; [by left|by right].
Qed.

Lemma frame_handle_ok s e : palette_ok s -> frame_enabled s e -> palette_ok (fst (frame_handle e s)).
Proof.
  intros H Hen. destruct e; cbn [frame_handle]; try done.
  - by apply setShowSearch_ok.
  - unfold openNotifications. by destruct (fr_showNotifs s).
  - assert (H' : palette_ok (fst (if fr_showSearch s then palette_key k s else (s, [])))).
    { destruct (fr_showSearch s); [by apply palette_key_ok|done]. }
    destruct (if fr_showSearch s then _ else _) as [s' q]. cbn [fst] in *.
    destruct k; cbn [sidebar_key]; try done.
    + by apply (setShowSearch_ok false) in H'.
    + by apply setShowSearch_ok.
  - by apply (typing_ok v).
  - apply pl_set_index_ok; [done|]. apply Hen.
  - destruct (_ !! i); [by apply run_command_ok|done].
  - destruct H as (E & Eo & Hi & H1 & H2). done.
Qed.

Lemma frame_run_ok loc es qs s :
  run frame_enabled frame_handle (fr_init loc) es qs s -> palette_ok s.
Proof.
  apply run_invariant; [|intros; by apply frame_handle_ok]. unfold palette_ok. cbn. split_and!; try done. lia.
Qed.

(** The palette's highlighted entry always exists: in every execution, through
    wrap-around, hovering and the change of the list when typing starts, the
    active index is within the entries, so that Enter in an open palette
    always runs the highlighted command: it closes the palette and goes where
    that command leads. *)
Lemma palette_enter loc es qs s :
  run frame_enabled frame_handle (fr_init loc) es qs s -> fr_showSearch s = true ->
  exists c, displayedItems (fr_palette s) !! pl_activeIndex (fr_palette s) = Some c /\
    let '(s', q) := frame_handle (Key KEnter) s in
    fr_showSearch s' = false /\ q = (if cmd_target c is Some t then [FrNavigate t] else []) /\
    fr_location s' = (if cmd_target c is Some t then settle t else fr_location s).
Proof.
  intros (_ & _ & Hi & _)%frame_run_ok Ho. destruct (lookup_lt_is_Some_2 _ _ Hi) as [c Hc].
  exists c. split; [done|]. cbn [frame_handle palette_key sidebar_key]. rewrite Ho, Hc.
  unfold run_command. by destruct (cmd_target c).
Qed.

(** Only the timer hides the spinner. *)
Lemma pl_commit_querying b p : pl_isQuerying p = true -> pl_isQuerying (pl_commit b p) = true.
Proof.
  unfold pl_commit, query_effect, open_effect. intros H.
  repeat match goal with |- context [if ?b then _ else _] => destruct b end; done.
Qed.

Lemma querying_kept s e :
  e <> PlTimer -> pl_isQuerying (fr_palette s) = true ->
  pl_isQuerying (fr_palette (fst (frame_handle e s))) = true.
Proof.
  intros He H. assert (Hrun : forall c, pl_isQuerying (fr_palette (fst (run_command c s))) = true).
  { intros c. unfold run_command. by destruct (cmd_target c); apply pl_commit_querying. }
  destruct e; cbn [frame_handle]; try done; try (by apply pl_commit_querying).
  - unfold openNotifications. by destruct (fr_showNotifs s).
  - assert (H' : pl_isQuerying (fr_palette (fst (if fr_showSearch s then palette_key k s else (s, [])))) = true).
    { destruct (fr_showSearch s); [|done]. destruct k; cbn [palette_key fst]; try done.
      - by apply pl_commit_querying.
      - by destruct (_ !! _). }
    destruct (if fr_showSearch s then _ else _) as [s' q]. cbn [fst] in *.
    destruct k; cbn [sidebar_key]; try done; by apply pl_commit_querying.
  - by destruct (_ !! i).
Qed.

(** A palette that is open and does not wait offers its entries. *)
Lemma palette_entries_offered s i :
  fr_showSearch s = true -> pl_isQuerying (fr_palette s) = false ->
  i < length (displayedItems (fr_palette s)) -> offers_any (MainLayout s) (PlRun i).
Proof.
  intros Ho Hq Hi. unfold MainLayout. rewrite !offers_any_app. right. left.
  rewrite offers_any_cons, offers_El. left. unfold Sidebar. rewrite !offers_any_app. right. right. right. left.
  unfold CommandPalette. rewrite offers_any_when, offers_any_cons, offers_El. split; [done|]. left.
  rewrite !offers_any_cons. right. right. left. rewrite offers_El, Hq.
  pose proof (displayed_pos (fr_palette s)). destruct (Nat.eqb_spec (length (displayedItems (fr_palette s))) 0); [lia|].
  rewrite offers_any_cons. right. destruct (lookup_lt_is_Some_2 _ _ Hi) as [c Hc].
  unfold offers_any. apply Exists_exists. exists (command_row (pl_activeIndex (fr_palette s)) i c). split.
  - apply list_elem_of_lookup. exists i. by rewrite list_lookup_imap, Hc.
  - unfold command_row. rewrite offers_El, offers_any_cons, offers_Button. left. left. done.
Qed.

(** C17: search results arrive: in every execution in which a query is being
    analysed, the timer is pending, no other event takes it away except a
    change of the query, and when it fires the palette, if open, lists both
    results. *)
Theorem search_results_arrive loc es qs s :
  run frame_enabled frame_handle (fr_init loc) es qs s ->
  pl_query (fr_palette s) <> EmptyString -> pl_isQuerying (fr_palette s) = true ->
  frame_enabled s PlTimer /\
  (forall e, frame_enabled s e -> e <> PlTimer ->
     let p := fr_palette (fst (frame_handle e s)) in
     pl_query p = pl_query (fr_palette s) -> pl_isQuerying p = true /\ pl_timer p = true) /\
  let s' := fst (frame_handle PlTimer s) in
  pl_isQuerying (fr_palette s') = false /\ displayedItems (fr_palette s') = searchResults (pl_query (fr_palette s)) /\
  (fr_showSearch s = true -> offers_any (MainLayout s') (PlRun 0) /\ offers_any (MainLayout s') (PlRun 1)).
Proof.
  intros Hok%frame_run_ok Hq Hs. pose proof Hok as (_ & _ & _ & _ & H2). split; [by apply H2|]. split.
  - intros e Hen He p Hp. assert (Hs' : pl_isQuerying p = true) by (by apply querying_kept).
    split; [done|]. apply (frame_handle_ok s e) in Hok as (_ & _ & _ & _ & H2'); [|done].
    apply H2'; [by rewrite <- Hp in Hq|done].
  - assert (Hd : displayedItems (fr_palette (fst (frame_handle PlTimer s))) = searchResults (pl_query (fr_palette s))).
    { unfold displayedItems. cbn [frame_handle fst fr_set_palette fr_palette pl_fired pl_query].
      by apply String.eqb_neq in Hq as ->. }
    split; [done|]. split; [done|]. intros Ho.
    split; apply palette_entries_offered; try done; rewrite Hd; cbn; lia.
Qed.

(** The query stays empty until something is typed. *)
Lemma pl_commit_empty b p : pl_query p = EmptyString -> pl_query (pl_commit b p) = EmptyString.
Proof.
  unfold pl_commit, query_effect, open_effect. intros H.
  repeat match goal with |- context [if ?b then _ else _] => destruct b end; done.
Qed.

Definition types_query (e : frame_event) : Prop := match e with PlQuery v => v <> EmptyString | _ => False end.

Lemma query_stays_empty s e :
  ~ types_query e -> pl_query (fr_palette s) = EmptyString ->
  pl_query (fr_palette (fst (frame_handle e s))) = EmptyString.
Proof.
  intros He H. assert (Hrun : forall c, pl_query (fr_palette (fst (run_command c s))) = EmptyString).
  { intros c. unfold run_command. by destruct (cmd_target c); apply pl_commit_empty. }
  destruct e; cbn [frame_handle]; try done; try (by apply pl_commit_empty).
  - unfold openNotifications. by destruct (fr_showNotifs s).
  - assert (H' : pl_query (fr_palette (fst (if fr_showSearch s then palette_key k s else (s, [])))) = EmptyString).
    { destruct (fr_showSearch s); [|done]. destruct k; cbn [palette_key fst]; try done.
      - by apply pl_commit_empty.
      - by destruct (_ !! _). }
    destruct (if fr_showSearch s then _ else _) as [s' q]. cbn [fst] in *.
    destruct k; cbn [sidebar_key]; try done; by apply pl_commit_empty.
  - apply pl_commit_empty. cbn. destruct (decide (v = EmptyString)); [done|]. by destruct He.
  - by destruct (_ !! i).
Qed.

Lemma typed_and_cleared s q :
  palette_ok s -> q <> EmptyString -> pl_query (fr_palette s) <> q ->
  let s' := fst (exec frame_handle [PlQuery q; PlQuery EmptyString] s) in
  palette_ok s' /\ pl_query (fr_palette s') = EmptyString /\ pl_isQuerying (fr_palette s') = true.
Proof.
  intros Hok Hq Hne s'. split; [by apply (typing_ok EmptyString), (typing_ok q)|].
  destruct Hok as (E & Eo & _). destruct s as [d loc m b n ns l [pq i iq t so sq] f].
  cbn in E, Eo, Hne. subst so sq.
  assert (E1 : String.eqb q pq = false) by (by apply String.eqb_neq).
  assert (E2 : String.eqb q EmptyString = false) by (by apply String.eqb_neq).
  assert (E3 : String.eqb EmptyString q = false) by (by apply String.eqb_neq).
  unfold s'. cbn [exec frame_handle fst fr_palette fr_showSearch].
  unfold pl_commit, open_effect, query_effect.
  do 4 (cbn [pl_setQuery pl_seenOpen pl_query pl_seenQuery fr_set_palette fr_palette fr_showSearch];
        rewrite ?eqb_reflx, ?E1, ?E2, ?E3).
  done.
Qed.

(** The spinner sticks: deleting the query before its timer fires cancels the
    timer without hiding the spinner, and from then on, whatever happens
    short of typing another query (closing and opening the palette, moving to
    other pages), the palette shows the spinner and offers no command. *)
Lemma palette_spinner_stuck loc es qs s q es' qs' s' :
  run frame_enabled frame_handle (fr_init loc) es qs s -> fr_showSearch s = true ->
  q <> EmptyString -> pl_query (fr_palette s) <> q ->
  run frame_enabled frame_handle (fst (exec frame_handle [PlQuery q; PlQuery EmptyString] s)) es' qs' s' ->
  Forall (fun e => ~ types_query e) es' ->
  pl_isQuerying (fr_palette s') = true /\ ~ frame_enabled s' PlTimer /\
  forall i, ~ offers_any (MainLayout s') (PlRun i).
Proof.
  intros Hok%frame_run_ok _ Hq Hqs Hrun Hes.
  set (I s := palette_ok s /\ pl_query (fr_palette s) = EmptyString /\ pl_isQuerying (fr_palette s) = true).
  assert (HI : I s').
  { refine (run_invariant_where _ _ _ I _ _ _ _ _ _ Hes Hrun).
    - by apply typed_and_cleared.
    - intros t e (Ht & Htq & Hti) Hen He. split; [by apply frame_handle_ok|].
      assert (Htm : e <> PlTimer).
      { intros ->. destruct Ht as (_ & _ & _ & H1 & _). by destruct (H1 Hen). }
      split; [|by apply querying_kept]. by apply query_stays_empty. }
  destruct HI as ((_ & _ & _ & H1 & _) & H2 & H3). split; [done|]. split.
  - intros Ht. by destruct (H1 Ht).
  - intros i Hi%frame_offers_guard. destruct Hi as (_ & Hi & _). congruence.
Qed.

(** ** Navigation *)
Definition page_path (p : string) : bool :=
  match route_of p with Some (Route ProtectedLayout _ (Page _)) => true | _ => false end.

Lemma targets_routed p : p ∈ frame_targets -> is_Some (route_of p) /\ page_path (settle p) = true.
Proof.
  assert (H : Forall (fun p => is_Some (route_of p) /\ page_path (settle p) = true) frame_targets).
  { apply (bool_decide_eq_true_1 _). reflexivity. }
  rewrite Forall_forall in H. apply H.
Qed.

Lemma command_target_known p c t :
  c ∈ displayedItems p -> cmd_target c = Some t -> t ∈ frame_targets.
Proof.
  intros Hc Ht. assert (Hin : t ∈ omap cmd_target defaultCommands).
  { unfold displayedItems in Hc. destruct (String.eqb _ _); [apply list_elem_of_omap; eauto|].
    unfold searchResults in Hc. rewrite !elem_of_cons in Hc. destruct Hc as [->|[->|[]%not_elem_of_nil]]; [done|].
    cbn in Ht. injection Ht as <-. apply list_elem_of_In. right. left. reflexivity. }
  unfold frame_targets. rewrite !elem_of_app. auto.
Qed.

(** The paths a list of effects navigates to. *)
Definition navigations (q : list frame_effect) : list string :=
  omap (fun x => match x with FrNavigate p => Some p | GetNotifications => None end) q.

(** A step of the frame: at most one navigation, to a known target, and the
    location follows it and nothing else. *)
Definition nav_ok (s s' : frame) (q : list frame_effect) : Prop :=
  (navigations q = [] /\ fr_location s' = fr_location s) \/
  (exists p, navigations q = [p] /\ p ∈ frame_targets /\ fr_location s' = settle p).

Lemma run_command_nav c s p :
  c ∈ displayedItems p -> nav_ok s (fst (run_command c s)) (snd (run_command c s)).
Proof.
  intros Hc. unfold run_command. destruct (cmd_target c) as [t|] eqn:Et; [|by left].
  apply (command_target_known _ _ _ Hc) in Et. right. by exists t.
Qed.

Lemma frame_handle_nav s e :
  frame_enabled s e -> (forall p, e <> FrElsewhere p) ->
  nav_ok s (fst (frame_handle e s)) (snd (frame_handle e s)).
Proof.
  intros Hen Hel.
  assert (Hrun : forall i, nav_ok s (fst (match displayedItems (fr_palette s) !! i with
      Some c => run_command c s | None => (s, []) end)) (snd (match displayedItems (fr_palette s) !! i with
      Some c => run_command c s | None => (s, []) end))).
  { intros i. destruct (_ !! i) as [c|] eqn:E; [|by left].
    eapply run_command_nav, list_elem_of_lookup_2, E. }
  destruct e; cbn [frame_handle]; try (by left); try apply Hrun.
  - apply frame_offers_guard in Hen. unfold frame_guard in Hen. right. exists path. split; [done|].
    split; [|done]. unfold frame_targets. rewrite app_assoc. apply elem_of_app. by left.
  - unfold openNotifications. left. by destruct (fr_showNotifs s).
  - assert (H : nav_ok s (fst (if fr_showSearch s then palette_key k s else (s, [])))
      (snd (if fr_showSearch s then palette_key k s else (s, [])))).
    { destruct (fr_showSearch s); [|by left]. destruct k; cbn [palette_key]; try (by left). apply Hrun. }
    destruct (if fr_showSearch s then _ else _) as [s' q]. cbn [fst snd] in *.
    assert (E : fr_location (sidebar_key k s') = fr_location s') by (by destruct k). unfold nav_ok. by rewrite E.
  - by destruct (Hel path).
Qed.

Lemma navigations_elem p q : FrNavigate p ∈ q -> p ∈ navigations q.
Proof. intros H. apply list_elem_of_omap. by exists (FrNavigate p). Qed.

(** C35: the controls of the frame never lead into the void: in every execution,
    whatever the pages do to the location meanwhile, every path that the side
    bar, the palette, the keyboard or the profile card navigates to is in the
    route table and leads, after its redirection if it has one, to a page
    inside the protected layout; and no control moves the location in any
    other way. *)
Theorem frame_navigation_routed loc es qs s :
  run frame_enabled frame_handle (fr_init loc) es qs s ->
  Forall (fun q => match q with
                   | FrNavigate p => is_Some (route_of p) /\ page_path (settle p) = true
                   | GetNotifications => True
                   end) qs /\
  (forall e, frame_enabled s e -> (forall p, e <> FrElsewhere p) ->
     fr_location (fst (frame_handle e s)) =
       match navigations (snd (frame_handle e s)) with [] => fr_location s | p :: _ => settle p end).
Proof.
  intros Hrun. split.
  - refine (proj2 (run_effects _ _ (fun _ => True) _ _ _ _ _ I _ Hrun)).
    intros t e _ Hen. split; [done|]. apply Forall_forall. intros [|p] Hq; [done|]. apply targets_routed.
    assert (Hel : forall p', e <> FrElsewhere p') by (intros p' ->; by apply elem_of_nil in Hq).
    apply navigations_elem in Hq. destruct (frame_handle_nav t e Hen Hel) as [[Hn _]|(p' & Hn & Hp' & _)].
    + rewrite Hn in Hq. by apply elem_of_nil in Hq.
    + rewrite Hn in Hq. by apply list_elem_of_singleton in Hq as ->.
  - intros e Hen Hel. destruct (frame_handle_nav s e Hen Hel) as [[-> ->]|(p & -> & _ & ->)]; done.
Qed.

(** The highlight is exact: on the path of an entry of the side bar, that entry
    is highlighted and no other, although the test is a test of prefixes. *)
Lemma nav_highlight_exact p q :
  p ∈ nav_paths -> q ∈ nav_paths -> isActive p q = true <-> q = p.
Proof.
  assert (H : Forall (fun p => Forall (fun q => isActive p q = true <-> q = p) nav_paths) nav_paths).
  { apply (bool_decide_eq_true_1 _). reflexivity. }
  intros Hp Hq. rewrite Forall_forall in H. specialize (H p Hp). cbn beta in H.
  rewrite Forall_forall in H. by apply H.
Qed.

(** The panel counts every notification as unread, also the one that reports a
    failed load, which is marked as read. *)
Lemma unread_counts_read k now e s :
  let s' := fst (frame_handle (NotifsLoaded k now (HttpErr e)) s) in
  notif_read <$> fr_notifications s' = [true] /\
  (fr_showNotifs s = true ->
   "1 Unread" ∈ texts (El "div" "" (NotificationCenter (fr_showNotifs s') (fr_notifications s') (fr_notifsLoading s')))).
Proof. intros s'. split; [done|]. intros Hn. unfold s'. cbn. rewrite Hn. cbn. do 2 right. left. Qed.
End View.

(** ** Witnesses *)
Definition demo_palette : list frame_event := [Key KCtrlK; PlQuery "mimikatz"].
Definition demo_frame : frame := fst (exec frame_handle demo_palette (fr_init "/")).

Lemma demo_palette_enabled : all_enabled (frame_enabled id) frame_handle demo_palette (fr_init "/").
Proof.
  cbn [demo_palette all_enabled]. split; [done|]. split; [|done]. unfold frame_enabled, MainLayout.
  rewrite !offers_any_app. right; left. rewrite offers_any_cons, offers_El. left. unfold Sidebar.
  rewrite !offers_any_app. right; right; right; left. unfold CommandPalette.
  rewrite offers_any_when. split; [reflexivity|]. offers_find.
Qed.

Lemma palette_enter_witness :
  exists c, displayedItems (fr_palette demo_frame) !! pl_activeIndex (fr_palette demo_frame) = Some c /\
    cmd_id c = "s1".
Proof.
  destruct (palette_enter id "/" _ _ demo_frame (exec_run _ _ _ _ demo_palette_enabled) eq_refl) as (c & Hc & _).
  exists c. split; [exact Hc|]. vm_compute in Hc. by injection Hc as <-.
Defined.

Lemma search_results_arrive_witness : frame_enabled id demo_frame PlTimer.
Proof.
  refine (proj1 (search_results_arrive id "/" _ _ demo_frame (exec_run _ _ _ _ demo_palette_enabled) _ eq_refl)).
  discriminate.
Defined.

Lemma palette_spinner_stuck_witness :
  pl_isQuerying (fr_palette (fst (exec frame_handle [PlQuery "rdp"; PlQuery EmptyString] demo_frame))) = true.
Proof.
  refine (proj1 (palette_spinner_stuck id "/" _ _ demo_frame "rdp" [] [] _
    (exec_run _ _ _ _ demo_palette_enabled) eq_refl _ _ (run_nil _ _ _) (Forall_nil_2 _))); discriminate.
Defined.

Lemma frame_navigation_routed_witness :
  fr_location (fst (frame_handle (NavTo "/playbooks") demo_frame)) = "/playbooks".
Proof.
  refine (proj2 (frame_navigation_routed id "/" _ _ demo_frame (exec_run _ _ _ _ demo_palette_enabled))
            (NavTo "/playbooks") _ _); [|discriminate].
  unfold frame_enabled, MainLayout. rewrite !offers_any_app. right; left. rewrite offers_any_cons, offers_El. left.
  unfold Sidebar. rewrite !offers_any_app. left. rewrite !offers_any_cons, !(nav_item_offers id). do 3 right. by left.
Defined.

Lemma nav_highlight_exact_witness : isActive "/playbooks" "/" = true <-> "/" = "/playbooks".
Proof.
  apply (nav_highlight_exact "/playbooks" "/"); apply list_elem_of_In; [right; left|left]; reflexivity.
Defined.
