(* ===== verification/TokenApi.v ===== *)
(** * The token client and the metrics hook
      ([shared/hooks/useAuthApi.ts], [shared/hooks/useSystemMetrics.ts])

    A second HTTP client, used by the investigation and playbook stores, the
    settings and the marketplace: it reads a JSON web token from
    [localStorage], drops it when it has expired and sends it as a bearer
    token.  [window.atob] is the decoder of the HTML standard: its result is
    a binary string, one character per byte, which is not the text when the
    payload has characters outside ASCII.  [JSON.parse] is [json_parse].  A
    number of the payload is compared as the decimal it is written as, where
    the browser compares the nearest doubles. *)
From Stdlib Require Import Strings.String ZifyNat QArith Qpower.
From S2P Require Import Prelude JsString Dates Json Html Types Http.

(** ** [window.atob] *)
Definition b64_val (a : ascii) : option nat :=
  let n := nat_of_ascii a in
  if (65 <=? n) && (n <=? 90) then Some (n - 65)
  else if (97 <=? n) && (n <=? 122) then Some (n - 71)
  else if (48 <=? n) && (n <=? 57) then Some (n + 4)
  else if n =? 43 then Some 62
  else if n =? 47 then Some 63
  else None.

Definition ascii_space (a : ascii) : bool := existsb (Nat.eqb (nat_of_ascii a)) [9; 10; 12; 13; 32].
Definition pad_char : ascii := "=".

(** At most two trailing padding characters are dropped. *)
Definition strip_pad (l : list ascii) : list ascii :=
  match rev l with
  | a :: b :: r => if Ascii.eqb a pad_char then if Ascii.eqb b pad_char then rev r else rev (b :: r) else l
  | [a] => if Ascii.eqb a pad_char then [] else l
  | [] => []
  end.

(** The bytes of a list of sextets; a lone sextet is an error. *)
Fixpoint sextet_bytes (l : list nat) : option (list nat) :=
  match l with
  | a :: b :: c :: d :: r =>
      bs ← sextet_bytes r; Some (a * 4 + b / 16 :: b mod 16 * 16 + c / 4 :: c mod 4 * 64 + d :: bs)
  | [a; b; c] => Some [a * 4 + b / 16; b mod 16 * 16 + c / 4]
  | [a; b] => Some [a * 4 + b / 16]
  | [a] => None
  | [] => Some []
  end.

(** One character per byte, in the UTF-8 of the strings of this library. *)
Definition binary_string (bs : list nat) : string :=
  foldr (fun b s => utf8 (Z.of_nat b) +:+ s) EmptyString bs.

(** [None] is the exception. *)
Definition atob (s : string) : option string :=
  let l := filter (fun a => ascii_space a = false) (list_ascii_of_string s) in
  let l := if length l mod 4 =? 0 then strip_pad l else l in
  ss ← mapM b64_val l; bs ← sextet_bytes ss;
  Some (binary_string bs).

(** ** Tokens *)
Definition url_to_std (a : ascii) : ascii :=
  if Ascii.eqb a "-" then "+" else if Ascii.eqb a "_" then "/" else a.

(** [None] is [null]; the two replacements do not interfere. *)
Definition decodeJwtPayload (token : string) : option json :=
  match split_on "." token !! 1 with
  | None | Some EmptyString => None
  | Some b => t ← atob (string_map url_to_std b); json_parse t
  end.

(** The values JavaScript counts as false. *)
Definition json_truthy (v : json) : bool :=
  match v with
  | JNull | JBool false | JNum 0 _ | JStr EmptyString => false
  | _ => true
  end.

(** [now / 1000 >= m * 10^e], with the clock in milliseconds *)
Definition past (now m e : Z) : bool :=
  if (0 <=? e)%Z then (1000 * (m * 10 ^ e) <=? now)%Z else (1000 * m <=? now * 10 ^ (- e))%Z.

Definition isTokenExpired (now : Z) (token : string) : bool :=
  match decodeJwtPayload token with
  | Some v => if json_truthy v then
                match json_get "exp" v with Some (JNum m e) => past now m e | _ => true end
              else true
  | None => true
  end.

Definition getTokenRole (token : string) : option json :=
  match decodeJwtPayload token with
  | Some v => if json_truthy v then
                match json_get "role" v with Some JNull => None | r => r end
              else None
  | None => None
  end.

Inductive token_effect := RemoveToken | GoLogin.

(** [getValidToken], over the stored token *)
Definition getValidToken (now : Z) (stored : option string) : option string * option string * list token_effect :=
  match stored with
  | None | Some EmptyString => (None, stored, [])
  | Some t => if isTokenExpired now t then (None, None, [RemoveToken; GoLogin]) else (Some t, stored, [])
  end.

(** The request interceptor: the headers after it, the stored token after it. *)
Definition auth_interceptor (now : Z) (stored : option string) (headers : gmap string string)
    : gmap string string * option string * list token_effect :=
  let '(t, stored', q) := getValidToken now stored in
  (match t with Some t => <["Authorization" := "Bearer " +:+ t]> headers | None => headers end, stored', q).

(** ** Base64url of the issuer (RFC 4648, section 5, without padding) *)
Definition b64url_char (i : nat) : ascii :=
  if i <? 26 then ascii_of_nat (65 + i)
  else if i <? 52 then ascii_of_nat (71 + i)
  else if i <? 62 then ascii_of_nat (i - 4)
  else if i =? 62 then "-" else "_".

Fixpoint sextets (l : list nat) : list nat :=
  match l with
  | a :: b :: c :: r => [a / 4; a mod 4 * 16 + b / 16; b mod 16 * 4 + c / 64; c mod 64] ++ sextets r
  | [a; b] => [a / 4; a mod 4 * 16 + b / 16; b mod 16 * 4]
  | [a] => [a / 4; a mod 4 * 16]
  | [] => []
  end.

Definition b64url (s : string) : string :=
  string_of_list_ascii (b64url_char <$> sextets (nat_of_ascii <$> list_ascii_of_string s)).

Example b64url_demo : b64url "Man~?" = "TWFufj8".
Proof. reflexivity. Qed.
Example atob_padded : atob "TWE=" = Some "Ma".
Proof. reflexivity. Qed.

Lemma three_step_ind {A} (P : list A -> Prop) :
  P [] -> (forall a, P [a]) -> (forall a b, P [a; b]) ->
  (forall a b c r, P r -> P (a :: b :: c :: r)) -> forall l, P l.
Proof.
  intros H0 H1 H2 H3. fix IH 1. intros [|a [|b [|c r]]]; [exact H0|apply H1|apply H2|apply H3, IH].
Qed.

Lemma sextets_bytes l : Forall (fun n => n < 256) l -> sextet_bytes (sextets l) = Some l.
Proof.
  induction l as [|a|a b|a b c r IH] using three_step_ind; intros H;
    rewrite ?Forall_cons in H; destruct_and?; cbn [sextets app sextet_bytes]; try done.
  - do 2 f_equal. zify; Z.to_euclidean_division_equations; lia.
  - repeat f_equal; zify; Z.to_euclidean_division_equations; lia.
  - rewrite IH by done. cbn [mbind option_bind]. repeat f_equal; zify; Z.to_euclidean_division_equations; lia.
Qed.

Lemma sextets_range l : Forall (fun n => n < 256) l -> Forall (fun n => n < 64) (sextets l).
Proof.
  induction l as [|a|a b|a b c r IH] using three_step_ind; intros H;
    rewrite ?Forall_cons in H; destruct_and?; cbn [sextets app]; rewrite ?Forall_cons, ?Forall_nil;
    split_and?; auto; zify; Z.to_euclidean_division_equations; lia.
Qed.

Lemma bytes_range s : Forall (fun n => n < 256) (nat_of_ascii <$> list_ascii_of_string s).
Proof. apply Forall_fmap, Forall_forall. intros a _. apply nat_ascii_bounded. Qed.

(** What a character of the alphabet is to the decoder. *)
Lemma b64url_char_ok i :
  i < 64 ->
  b64_val (url_to_std (b64url_char i)) = Some i /\ ascii_space (url_to_std (b64url_char i)) = false /\
  url_to_std (b64url_char i) <> pad_char /\ b64url_char i <> "."%char.
Proof.
  intros Hi. assert (H : Forall (fun i => b64_val (url_to_std (b64url_char i)) = Some i /\
    ascii_space (url_to_std (b64url_char i)) = false /\ url_to_std (b64url_char i) <> pad_char /\
    b64url_char i <> "."%char) (seq 0 64)).
  { apply (bool_decide_eq_true_1 _). reflexivity. }
  rewrite Forall_forall in H. apply H, elem_of_seq. lia.
Qed.

Lemma strip_pad_id l : Forall (fun a => a <> pad_char) l -> strip_pad l = l.
Proof.
  intros H. unfold strip_pad. destruct (rev l) as [|a r] eqn:E.
  - apply (f_equal (@rev _)) in E. by rewrite rev_involutive in E.
  - assert (Ha : a <> pad_char).
    { rewrite Forall_forall in H. apply H, list_elem_of_In, in_rev. rewrite E. by left. }
    apply Ascii.eqb_neq in Ha. by destruct r; rewrite Ha.
Qed.

Lemma string_map_list f s : string_map f s = string_of_list_ascii (f <$> list_ascii_of_string s).
Proof. induction s as [|a s IH]; [done|]. cbn. by f_equal. Qed.

(** What a text becomes when its bytes are taken for characters. *)
Definition latin1 (t : string) : string := binary_string (nat_of_ascii <$> list_ascii_of_string t).

Fixpoint ascii_only (t : string) : bool :=
  match t with EmptyString => true | String a t' => (nat_of_ascii a <? 128) && ascii_only t' end.

Lemma latin1_ascii t : ascii_only t = true -> latin1 t = t.
Proof.
  induction t as [|a t IH]; [done|]. cbn [ascii_only]. intros [Ha Ht]%andb_prop.
  apply Nat.ltb_lt in Ha. unfold latin1, binary_string in *. cbn [list_ascii_of_string fmap list_fmap foldr].
  rewrite IH by done. unfold utf8. replace (Z.of_nat (nat_of_ascii a) <? 128)%Z with true by lia.
  cbn [String.append]. unfold byte. by rewrite Nat2Z.id, ascii_nat_embedding.
Qed.

(** Decoding gives the bytes of the issuer as characters. *)
Lemma atob_b64url t : atob (string_map url_to_std (b64url t)) = Some (latin1 t).
Proof.
  unfold atob, b64url. rewrite string_map_list, !list_ascii_of_string_of_list_ascii.
  set (bs := nat_of_ascii <$> list_ascii_of_string t).
  pose proof (sextets_range bs (bytes_range t)) as Hr. rewrite Forall_forall in Hr.
  rewrite <- list_fmap_compose. set (l := compose url_to_std b64url_char <$> sextets bs).
  assert (Hl : forall P, (forall i, i < 64 -> P (url_to_std (b64url_char i))) -> Forall P l).
  { intros P HP. apply Forall_fmap, Forall_forall. intros i Hi. apply HP. by apply Hr. }
  rewrite list_filter_all_id by (apply Hl; intros i Hi; by apply b64url_char_ok).
  rewrite strip_pad_id by (apply Hl; intros i Hi; by apply b64url_char_ok).
  replace (if _ : bool then l else l) with l by (by destruct (_ =? _)).
  assert (Hm : mapM b64_val l = Some (sextets bs)).
  { apply mapM_Some, Forall2_fmap_l, Forall_Forall2_diag, Forall_forall. intros i Hi.
    cbn. apply b64url_char_ok. by apply Hr. }
  rewrite Hm. cbn [mbind option_bind]. rewrite sextets_bytes by apply bytes_range. cbn [mbind option_bind].
  done.
Qed.

Lemma avoids_list c s : Forall (fun a => a <> c) (list_ascii_of_string s) -> avoids c s = true.
Proof.
  induction s as [|a s IH]; [done|]. cbn [list_ascii_of_string avoids]. intros [Ha Hs]%Forall_cons.
  rewrite bool_decide_eq_false_2 by done. auto.
Qed.

Lemma b64url_avoids_dot t : avoids "." (b64url t) = true.
Proof.
  apply avoids_list. unfold b64url. rewrite list_ascii_of_string_of_list_ascii. apply Forall_fmap.
  eapply Forall_weaken; [apply sextets_range, bytes_range|]. intros i Hi. by apply b64url_char_ok.
Qed.

Lemma b64url_nonempty t : t <> EmptyString -> b64url t <> EmptyString.
Proof. destruct t as [|a [|b [|c t]]]; [done|intros _; discriminate..]. Qed.

(** A token as an issuer writes it. *)
Definition issued (header payload sig : string) : string :=
  header +:+ "." +:+ b64url payload +:+ "." +:+ sig.

Lemma decode_issued header t sig :
  avoids "." header = true -> t <> EmptyString ->
  decodeJwtPayload (issued header t sig) = json_parse (latin1 t) /\
  decodeJwtPayload (header +:+ "." +:+ b64url t) = json_parse (latin1 t).
Proof.
  intros Hh Ht. pose proof (b64url_nonempty t Ht) as Hne. pose proof (b64url_avoids_dot t) as Hd.
  unfold decodeJwtPayload, issued.
  change ("." +:+ b64url t +:+ "." +:+ sig) with (String "." (b64url t +:+ String "." sig)).
  change ("." +:+ b64url t) with (String "." (b64url t)). rewrite !split_on_app by done.
  rewrite (split_on_avoids "." (b64url t)) by done. cbn [lookup list_lookup].
  destruct (b64url t) as [|a r] eqn:E; [done|]. rewrite <- E, atob_b64url. by split.
Qed.

(** C22: the payload of a token is read exactly when it is ASCII: whatever
    ASCII text an issuer puts there, with any header and any signature,
    decoding gives what parsing that text as JSON gives; a document comes
    back as it was printed.  Any other payload is parsed with each of its
    bytes taken for a character. *)
Theorem jwt_payload_roundtrip header t sig :
  avoids "." header = true -> t <> EmptyString ->
  (ascii_only t = true -> decodeJwtPayload (issued header t sig) = json_parse t) /\
  (forall d, t = json_stringify d -> ascii_only t = true ->
     decodeJwtPayload (issued header t sig) = Some (to_json d)) /\
  decodeJwtPayload (issued header t sig) =
    json_parse (foldr (fun a s => utf8 (Z.of_nat (nat_of_ascii a)) +:+ s) EmptyString (list_ascii_of_string t)).
Proof.
  intros Hh Ht. destruct (decode_issued header t sig Hh Ht) as [E _]. split_and!.
  - intros Ha. by rewrite E, latin1_ascii.
  - intros d -> Ha. by rewrite E, latin1_ascii, json_roundtrip.
  - rewrite E. unfold latin1, binary_string. by rewrite foldr_fmap.
Qed.

(** A name with an accent in the payload of a token, as UTF-8, comes back
    garbled. *)
Definition accent_payload : string := json_stringify (DObj [("role", DStr (utf8 233))]).

Example accents_garbled :
  getTokenRole (issued "h" accent_payload "s") = Some (JStr (utf8 195 +:+ utf8 169)).
Proof. vm_compute. reflexivity. Qed.

(** ** Validity *)

(** A payload is valid at a time, in milliseconds, when its expiry is a number
    of seconds that lies ahead. *)
Definition valid_at (now : Z) (payload : string) : Prop :=
  exists v m e, json_parse payload = Some v /\ json_get "exp" v = Some (JNum m e) /\
    (inject_Z now / 1000 < inject_Z m * Qpower 10 e)%Q.

Lemma past_spec now m e : past now m e = false <-> (inject_Z now / 1000 < inject_Z m * Qpower 10 e)%Q.
Proof.
  unfold past. destruct (Z.leb_spec 0 e) as [He|He].
  - rewrite Z.leb_gt, <- (Zpower_Qpower 10 e) by done.
    rewrite <- inject_Z_mult. unfold Qlt, Qdiv, Qinv, Qmult, inject_Z. cbn. lia.
  - replace e with (- - e)%Z at 2 by lia. rewrite Qpower_opp, <- (Zpower_Qpower 10 (- e)) by lia.
    assert (Hp : (0 < 10 ^ - e)%Z) by (apply Z.pow_pos_nonneg; lia).
    destruct (10 ^ - e)%Z as [|p|p] eqn:Ep; [lia| |lia].
    rewrite Z.leb_gt. unfold Qlt, Qdiv, Qinv, Qmult, inject_Z. cbn. lia.
Qed.

Lemma isTokenExpired_spec now t :
  isTokenExpired now t = false <->
  exists v m e, decodeJwtPayload t = Some v /\ json_get "exp" v = Some (JNum m e) /\ past now m e = false.
Proof.
  unfold isTokenExpired. destruct (decodeJwtPayload t) as [v|]; [|naive_solver].
  destruct (json_get "exp" v) as [x|] eqn:Eg.
  - assert (Ht : json_truthy v = true) by (by destruct v). rewrite Ht. destruct x; naive_solver.
  - destruct (json_truthy v); naive_solver.
Qed.

Lemma issued_expired now header payload sig :
  avoids "." header = true -> payload <> EmptyString -> ascii_only payload = true ->
  isTokenExpired now (issued header payload sig) = false <-> valid_at now payload.
Proof.
  intros Hh Hp Ha. rewrite isTokenExpired_spec. unfold valid_at. setoid_rewrite past_spec.
  by rewrite (proj1 (decode_issued header payload sig Hh Hp)), latin1_ascii.
Qed.

Lemma interceptor_cases now t headers :
  t <> EmptyString ->
  auth_interceptor now (Some t) headers =
  if isTokenExpired now t then (headers, None, [RemoveToken; GoLogin])
  else (<["Authorization" := "Bearer " +:+ t]> headers, Some t, []).
Proof. intros Ht. unfold auth_interceptor, getValidToken. destruct t; [done|]. by destruct (isTokenExpired now _). Qed.

(** C8: a token is sent only while it is valid: the client sets the stored token
    as the credential of a request exactly when the payload its issuer wrote
    parses as JSON with an expiry that is a number of seconds still ahead of
    the clock; otherwise (no expiry, an expiry that is not a number, a
    payload that is not JSON, an expiry reached) the token is removed from
    the storage, the browser goes to the login page and the headers stay as
    they were.  A text that is no token is removed too, and without a stored
    token nothing happens. *)
Theorem token_sent_iff_valid now header payload sig headers :
  avoids "." header = true -> payload <> EmptyString -> ascii_only payload = true ->
  let t := issued header payload sig in
  (valid_at now payload ->
     auth_interceptor now (Some t) headers = (<["Authorization" := "Bearer " +:+ t]> headers, Some t, [])) /\
  (~ valid_at now payload ->
     auth_interceptor now (Some t) headers = (headers, None, [RemoveToken; GoLogin])) /\
  (forall x, x <> EmptyString -> avoids "." x = true ->
     auth_interceptor now (Some x) headers = (headers, None, [RemoveToken; GoLogin])) /\
  auth_interceptor now None headers = (headers, None, []).
Proof.
  intros Hh Hp Ha t. assert (Ht : t <> EmptyString) by (unfold t, issued; by destruct header).
  unfold t in *. rewrite (interceptor_cases _ _ _ Ht), <- (issued_expired now header payload sig) by done.
  split_and!; [by intros ->|by destruct (isTokenExpired now _)| |done].
  intros x Hx Hd. rewrite interceptor_cases by done.
  unfold isTokenExpired, decodeJwtPayload. by rewrite split_on_avoids.
Qed.

Lemma past_mono now now' m e : (now <= now')%Z -> past now m e = true -> past now' m e = true.
Proof.
  unfold past. intros Hn. destruct (0 <=? e)%Z eqn:E; rewrite !Z.leb_le; [lia|].
  intros H. apply Z.leb_gt in E. assert (0 < 10 ^ - e)%Z by (apply Z.pow_pos_nonneg; lia). nia.
Qed.

(** Expiry is final: once the stored token has been dropped, no later request
    carries a credential until a new token is stored, and a token that has
    expired never becomes valid again. *)
Lemma expired_token_stays_dropped now now' t headers headers' :
  t <> EmptyString -> (now <= now')%Z -> isTokenExpired now t = true ->
  isTokenExpired now' t = true /\
  auth_interceptor now' (snd (fst (auth_interceptor now (Some t) headers))) headers' = (headers', None, []).
Proof.
  intros Ht Hn Hv. split.
  - apply not_false_iff_true. rewrite isTokenExpired_spec. intros (v & m & e & Hd & He & Hp).
    apply not_false_iff_true in Hv. apply Hv, isTokenExpired_spec. exists v, m, e. split_and!; try done.
    destruct (past now m e) eqn:E; [|done]. apply (past_mono _ _ _ _ Hn) in E. congruence.
  - by rewrite interceptor_cases, Hv by done.
Qed.

(** ** [useSystemMetrics] *)
Record metrics_state := MetricsState {
  mt_metrics : option SystemMetrics;
  mt_loading : bool;
  mt_error : option string;
  mt_flight : flight unit;
  mt_hist : list (http_result SystemMetrics) }.   (* answers so far, for the specification *)

Definition mt_init : metrics_state := MetricsState None true None fl_empty [].

(** The mount, a tick of the interval or [retry]; then the answer. *)
Inductive metrics_event := MtFetch | MtDone (k : nat) (r : http_result SystemMetrics).
Inductive metrics_effect := GetMetrics.

Definition metrics_handle (e : metrics_event) (s : metrics_state) : metrics_state * list metrics_effect :=
  match e with
  | MtFetch =>
      (MetricsState (mt_metrics s) (mt_loading s) None (fl_await tt (mt_flight s)) (mt_hist s), [GetMetrics])
  | MtDone k r =>
      (MetricsState (match r with HttpOk m => Some m | HttpErr _ => mt_metrics s end) false
         (match r with HttpOk _ => mt_error s | HttpErr _ => Some "Failed to load system metrics." end)
         (fl_forget k (mt_flight s)) (mt_hist s ++ [r]), [])
  end.

Definition metrics_enabled (s : metrics_state) (e : metrics_event) : Prop :=
  match e with MtFetch => True | MtDone k _ => fl_map (mt_flight s) !! k = Some tt end.

Definition last_metrics (h : list (http_result SystemMetrics)) : option SystemMetrics :=
  last (omap (fun r => match r with HttpOk m => Some m | HttpErr _ => None end) h).

Definition metrics_inv (s : metrics_state) : Prop :=
  mt_metrics s = last_metrics (mt_hist s) /\ mt_loading s = bool_decide (mt_hist s = []) /\
  (mt_error s <> None -> exists e, HttpErr e ∈ mt_hist s).

Lemma metrics_handle_inv s e : metrics_inv s -> metrics_inv (fst (metrics_handle e s)).
Proof.
  intros (H1 & H2 & H3). destruct e as [|k r]; [done|].
  unfold metrics_inv. cbn [metrics_handle fst mt_metrics mt_loading mt_error mt_hist].
  unfold last_metrics in *. rewrite omap_app. setoid_rewrite elem_of_app.
  rewrite bool_decide_eq_false_2 by (by destruct (mt_hist s)). split; [|split; [done|]].
  - destruct r; cbn; [by rewrite last_snoc|by rewrite app_nil_r].
  - destruct r as [m|e]; [naive_solver|]. intros _. exists e. right. by apply list_elem_of_singleton.
Qed.

(** The metrics on the screen are those of the last answer that succeeded, however
    requests of the interval and retries overlap: failures keep the figures,
    the first answer of either kind ends the loading state for good, and a
    new request clears the message. *)
Lemma metrics_last_success es qs s :
  run metrics_enabled metrics_handle mt_init es qs s ->
  mt_metrics s = last_metrics (mt_hist s) /\
  mt_loading s = bool_decide (mt_hist s = []) /\
  (mt_error s <> None -> exists e, HttpErr e ∈ mt_hist s) /\
  mt_error (fst (metrics_handle MtFetch s)) = None.
Proof.
  intros Hrun. assert (metrics_inv s) as (H1 & H2 & H3); [|done].
  revert Hrun. apply (run_invariant _ _ metrics_inv); [done|]. intros; by apply metrics_handle_inv.
Qed.

(** ** Witnesses *)
Definition demo_payload : string :=
  "{" +:+ quoted "role" +:+ ":" +:+ quoted "analyst" +:+ "," +:+ quoted "exp" +:+ ":1700000000}".
Definition demo_token : string := issued "eyJ9" demo_payload "c2ln".

Lemma jwt_payload_roundtrip_witness :
  decodeJwtPayload demo_token = Some (JObj [("role", JStr "analyst"); ("exp", JNum 1700000000 0)]).
Proof.
  unfold demo_token. rewrite (proj1 (jwt_payload_roundtrip "eyJ9" demo_payload "c2ln" eq_refl ltac:(discriminate)) eq_refl).
  vm_compute. reflexivity.
Defined.

Lemma demo_valid : valid_at 1699999999999 demo_payload /\ ~ valid_at 1700000000000 demo_payload.
Proof.
  assert (E : json_parse demo_payload = Some (JObj [("role", JStr "analyst"); ("exp", JNum 1700000000 0)]))
    by (vm_compute; reflexivity).
  split.
  - exists (JObj [("role", JStr "analyst"); ("exp", JNum 1700000000 0)]), 1700000000%Z, 0%Z.
    split; [exact E|]. split; reflexivity.
  - intros (v & m & e & Ev & Eg & H). rewrite E in Ev. injection Ev as <-. vm_compute in Eg. injection Eg as <- <-.
    vm_compute in H. discriminate H.
Qed.

Lemma token_sent_iff_valid_witness :
  auth_interceptor 1699999999999 (Some demo_token) ∅ =
    ({["Authorization" := "Bearer " +:+ demo_token]}, Some demo_token, []) /\
  auth_interceptor 1700000000000 (Some demo_token) ∅ = (∅, None, [RemoveToken; GoLogin]).
Proof.
  split.
  - refine (proj1 (token_sent_iff_valid 1699999999999 "eyJ9" demo_payload "c2ln" ∅ eq_refl _ eq_refl) (proj1 demo_valid)).
    discriminate.
  - refine (proj1 (proj2 (token_sent_iff_valid 1700000000000 "eyJ9" demo_payload "c2ln" ∅ eq_refl _ eq_refl)) (proj2 demo_valid)).
    discriminate.
Defined.

Lemma expired_token_stays_dropped_witness : isTokenExpired 1800000000001 demo_token = true.
Proof.
  refine (proj1 (expired_token_stays_dropped 1800000000000 1800000000001 demo_token ∅ ∅ _ _ _)).
  - discriminate.
  - lia.
  - vm_compute. reflexivity.
Defined.

Lemma metrics_last_success_witness :
  mt_loading (fst (exec metrics_handle [MtFetch; MtFetch; MtDone 1 (HttpErr (HttpError None None None))] mt_init)) = false.
Proof.
  refine (eq_trans (proj1 (proj2 (metrics_last_success _ _ _
    (exec_run metrics_enabled _ [MtFetch; MtFetch; MtDone 1 (HttpErr (HttpError None None None))] mt_init _)))) eq_refl).
  repeat split.
Defined.
