(* ===== verification/TraceFeed.v ===== *)
(** * Live agent trace ([features/agent-ops/AgentTriageFeed.tsx])

    The feed of the overview page.  Live events go into a queue that a ticker
    moves to the screen five times a second unless the feed is paused.  The
    effect that owns the socket and the ticker depends on the pause flag, so
    every click on the pause button tears it down and runs it again. *)
From Stdlib Require Import QArith.
From S2P Require Import Prelude JsString Dates Html Sockets.

Record TraceEvent := MkTraceEvent {
  te_correlationId : string;
  te_investigationId : option string;
  te_timestamp : string;
  te_node : string;
  te_status : string;
  te_provider : option string;
  te_fallbackTriggered : bool;
  te_fallbackReason : option string;
  te_latencyMs : option Q;
  te_summary : option string }.

(** What a frame parses to; a text that does not parse makes the handler
    throw, which changes nothing. *)
Inductive trace_frame := History (evs : list TraceEvent) | Live (ev : TraceEvent) | OtherFrame.

Record tr_state := TraceState {
  tr_events : list TraceEvent;
  tr_isPaused : bool;
  tr_filterNode : string;
  tr_queue : list TraceEvent;             (* [eventsQueue.current] *)
  tr_pool : pool;
  tr_mounted : bool }.
#[local] Open Scope nat_scope.

Inductive tr_event :=
| TrPause | TrFilter (v : string) | TrVisit (path : string)
| TrTick
| TrOpened (i : nat) | TrFrame (i : nat) (m : trace_frame) | TrClosed (i : nat) | TrTimer
| TrUnmount.

Inductive tr_effect := TrNavigate (path : string).

Definition tr_set_pool p s := TraceState (tr_events s) (tr_isPaused s) (tr_filterNode s) (tr_queue s) p (tr_mounted s).
Definition tr_set_events l q s := TraceState l (tr_isPaused s) (tr_filterNode s) q (tr_pool s) (tr_mounted s).

(** The first render and the effect. *)
Definition tr_mount : tr_state := TraceState [] false "All" [] (po_connect po_init) true.

(** The updater given to [setEvents]: the new list and, since it also empties
    the queue of the ref, the new queue. *)
Definition flush_update (prev queue : list TraceEvent) : list TraceEvent * list TraceEvent :=
  (last_n 500 (prev ++ queue), []).

(** The ticker of the effect; the flag it captured is the current one,
    because the effect depends on it.  [strict]: React runs the updater a
    second time on the same list and takes that result, as the strict mode of
    [main.tsx] has it in a development build; the second run finds the queue
    empty. *)
Definition trace_tick (strict : bool) (s : tr_state) : tr_state :=
  if negb (tr_isPaused s) && (0 <? length (tr_queue s))
  then
    let once := flush_update (tr_events s) (tr_queue s) in
    let result := if strict then flush_update (tr_events s) once.2 else once in
    tr_set_events result.1 result.2 s
  else s.

Definition on_trace_frame (m : trace_frame) (s : tr_state) : tr_state :=
  match m with
  | History evs => tr_set_events evs (tr_queue s) s
  | Live ev => tr_set_events (tr_events s) (tr_queue s ++ [ev]) s
  | OtherFrame => s
  end.

(** A new value of the flag: the cleanup of the old effect, then the new one. *)
Definition toggle_pause (s : tr_state) : tr_state :=
  TraceState (tr_events s) (negb (tr_isPaused s)) (tr_filterNode s) (tr_queue s)
    (po_connect (po_close_ref (tr_pool s))) (tr_mounted s).

Definition tr_handle (strict : bool) (e : tr_event) (s : tr_state) : tr_state * list tr_effect :=
  match e with
  | TrPause => (toggle_pause s, [])
  | TrFilter v => (TraceState (tr_events s) (tr_isPaused s) v (tr_queue s) (tr_pool s) (tr_mounted s), [])
  | TrVisit p => (s, [TrNavigate p])
  | TrTick => (trace_tick strict s, [])
  | TrOpened i => (tr_set_pool (po_opened i (tr_pool s)) s, [])
  | TrFrame _ m => (on_trace_frame m s, [])
  | TrClosed i => (tr_set_pool (po_closed i (tr_pool s)) s, [])
  | TrTimer => (tr_set_pool (po_fired (tr_pool s)) s, [])
  | TrUnmount =>
      (TraceState (tr_events s) (tr_isPaused s) (tr_filterNode s) (tr_queue s) (po_close_ref (tr_pool s)) false, [])
  end.

Definition filteredEvents (s : tr_state) : list TraceEvent :=
  List.filter (fun e => String.eqb (tr_filterNode s) "All" || String.eqb (te_node e) (tr_filterNode s)) (tr_events s).

Section View.
Context (locale_time : string -> string).

Definition trace_tone (status : string) : string :=
  if String.eqb status "started" then "text-blue-400"
  else if String.eqb status "completed" then "text-emerald-400" else "text-red-400".

Definition trace_row (e : TraceEvent) : html tr_event :=
  El "div" "" (
    [Text (locale_time (te_timestamp e));
     El "span" (trace_tone (te_status e)) [Text ("[" +:+ te_node e +:+ "]")];
     Text (to_upper (te_status e))]
    ++ when (truthy_str (te_provider e)) [Text ("via " +:+ nullish (te_provider e) EmptyString)]
    (* a zero renders as itself *)
    ++ when_some (te_latencyMs e) (fun ms =>
         [Text (if Qeq_bool ms 0 then "0" else "(" +:+ toFixed1 ms +:+ "ms)")])
    ++ when (te_fallbackTriggered e) [Text ("⚠ Fallback: " +:+ nullish (te_fallbackReason e) EmptyString)]
    ++ when (truthy_str (te_summary e)) [Text ("- " +:+ nullish (te_summary e) EmptyString)]
    ++ when (truthy_str (te_investigationId e))
         [let i := nullish (te_investigationId e) EmptyString in Clickable (TrVisit ("/investigations/" +:+ i)) [Text i]]).

Definition node_options : list (string * string) :=
  [("All", "All Nodes"); ("Ingest", "Ingest"); ("Deobfuscation", "Deobfuscation"); ("LLMTriage", "LLMTriage"); ("Action", "Action")].

Definition tr_view (s : tr_state) : html tr_event :=
  El "div" "" [
    Text "⚡ Live Agent Trace";
    Select (tr_filterNode s) node_options TrFilter;
    Button false (Some TrPause)
      [El "span" (if tr_isPaused s then "bg-amber-900/50 text-amber-500 border border-amber-500/50"
                  else "bg-slate-800 hover:bg-slate-700 text-slate-300")
         [Text (if tr_isPaused s then "▶ Resume" else "⏸ Pause")]];
    El "div" "" ((trace_row <$> reverse (filteredEvents s))
      ++ when (bool_decide (length (tr_events s) = 0)) [Text "Waiting for agent telemetry..."])].

Definition tr_enabled (s : tr_state) (e : tr_event) : Prop :=
  match e with
  | TrTick | TrUnmount => tr_mounted s = true
  | TrOpened i => po_socks (tr_pool s) !! i = Some WsConnecting
  | TrFrame i _ => po_socks (tr_pool s) !! i = Some WsOpen
  | TrClosed i => exists r, po_socks (tr_pool s) !! i = Some r /\ r <> WsClosed
  | TrTimer => 0 < po_timers (tr_pool s)
  | _ => tr_mounted s = true /\ offers (tr_view s) e
  end.

(** ** What the feed shows *)
Definition live_of (e : tr_event) : option TraceEvent :=
  match e with TrFrame _ (Live ev) => Some ev | _ => None end.
Definition no_history (e : tr_event) : Prop :=
  match e with TrFrame _ (History _) => False | _ => True end.

(** Of the stream [xs] of what was queued and received, the first [m] events
    have been moved to the screen. *)
Definition flushed (shown : list TraceEvent) (xs : list TraceEvent) (m : nat) (s : tr_state) : Prop :=
  m <= length xs /\ tr_queue s = drop m xs /\
  tr_events s = (if m =? 0 then shown else last_n 500 (shown ++ take m xs)).

Lemma tick_flushed shown xs m s :
  flushed shown xs m s -> exists m', flushed shown xs m' (trace_tick false s).
Proof.
  intros (Hm & Hq & He). unfold trace_tick. destruct (negb (tr_isPaused s) && _) eqn:E; [|by exists m].
  apply andb_true_iff in E as [_ E]. apply Nat.ltb_lt in E. rewrite Hq, length_drop in E.
  exists (length xs). split; [done|]. cbn [tr_set_events tr_queue tr_events flush_update fst snd]. split; [by rewrite drop_ge|].
  destruct (Nat.eqb_spec (length xs) 0) as [E0|_]; [lia|]. rewrite firstn_all, Hq, He.
  destruct (Nat.eqb_spec m 0) as [->|_]; [by rewrite drop_0|].
  by rewrite last_n_app, <- app_assoc, take_drop.
Qed.

Lemma step_flushed shown xs m s e :
  no_history e -> flushed shown xs m s ->
  exists m', flushed shown (xs ++ option_list (live_of e)) m' (fst (tr_handle false e s)).
Proof.
  intros He H. destruct e; cbn [tr_handle fst live_of option_list]; rewrite ?app_nil_r;
    try (exists m; exact H); [by eapply tick_flushed|].
  destruct m0 as [evs|ev|]; cbn [on_trace_frame option_list] in *; rewrite ?app_nil_r; [done| |by exists m].
  destruct H as (Hm & Hq & Hev). exists m. split; [rewrite length_app; lia|].
  cbn [tr_set_events tr_queue tr_events]. by rewrite Hq, drop_app_le, take_app_le by done.
Qed.

(** C29: in a build where React runs updaters once, from any state on and until the
    next history frame replaces the list: every live event that arrives, on
    whichever socket, is shown or still queued, once and in the order of
    arrival, and the screen holds the last 500 of what it showed before and
    the events already taken from the queue; a paused feed keeps its queue, and
    the first tick of a running one shows all of it.  Each connection begins
    with a history, and pausing opens a connection, so the statement starts
    again at each of them. *)
Theorem trace_window s0 es qs s :
  run tr_enabled (tr_handle false) s0 es qs s -> Forall no_history es ->
  let xs := tr_queue s0 ++ omap live_of es in
  (exists m, flushed (tr_events s0) xs m s) /\
  length (tr_events s) <= max 500 (length (tr_events s0)) /\
  (tr_isPaused s = false -> tr_queue s <> [] ->
     tr_queue (fst (tr_handle false TrTick s)) = [] /\
     tr_events (fst (tr_handle false TrTick s)) = last_n 500 (tr_events s0 ++ xs)).
Proof.
  intros Hrun Hno xs. assert (H : exists m, flushed (tr_events s0) xs m s).
  { subst xs. induction Hrun as [|es qs s e s' q _ IH _ Hh].
    - exists 0. split; [lia|]. by rewrite app_nil_r, drop_0.
    - apply Forall_app in Hno as [Hno He]. rewrite Forall_singleton in He. destruct (IH Hno) as [m Hm].
      destruct (step_flushed _ _ _ _ e He Hm) as [m' H']. exists m'. rewrite Hh in H'. cbn [fst] in H'.
      rewrite omap_app, app_assoc. by destruct e as [| | | | |? []| | |]. }
  split; [done|]. destruct H as (m & Hm & Hq & He). split.
  - rewrite He. destruct (m =? 0); [lia|]. pose proof (last_n_length 500 (tr_events s0 ++ take m xs)). lia.
  - intros Hp Hne. cbn [tr_handle fst]. unfold trace_tick. rewrite Hp. cbn [negb andb].
    destruct (Nat.ltb_spec 0 (length (tr_queue s))) as [Hl|Hl]; [|destruct (tr_queue s); simpl in *; [done|lia]].
    split; [done|]. cbn [tr_set_events tr_events flush_update fst snd]. rewrite Hq, He.
    destruct (Nat.eqb_spec m 0) as [->|_]; [by rewrite drop_0|]. by rewrite last_n_app, <- app_assoc, take_drop.
Qed.

(** When the updater runs twice, the batch is lost: the second run finds the
    queue that the first has emptied. *)
Lemma strict_tick_loses s :
  tr_isPaused s = false -> tr_queue s <> [] ->
  tr_queue (trace_tick true s) = [] /\ tr_events (trace_tick true s) = last_n 500 (tr_events s).
Proof.
  intros Hp Hq. unfold trace_tick. rewrite Hp. cbn [negb andb].
  destruct (Nat.ltb_spec 0 (length (tr_queue s))) as [_|Hl]; [|destruct (tr_queue s); simpl in *; [done|lia]].
  cbn. by rewrite app_nil_r.
Qed.

(** ** Sockets left behind *)
Definition is_toggle (e : tr_event) : bool := match e with TrPause => true | _ => false end.
Definition toggles (es : list tr_event) : nat := length (List.filter is_toggle es).

Lemma step_chains strict s e :
  tr_enabled s e -> chains (tr_pool (fst (tr_handle strict e s))) = chains (tr_pool s) + (if is_toggle e then 1 else 0).
Proof.
  intros Hen. destruct e; cbn [tr_handle fst is_toggle tr_set_pool tr_pool toggle_pause]; rewrite ?Nat.add_0_r; try done.
  - rewrite chains_connect, chains_close_ref. lia.
  - unfold trace_tick. by destruct (_ && _).
  - by apply chains_opened.
  - by destruct m.
  - destruct Hen as (r & Hi & Hr). by apply (chains_closed i r).
  - by apply chains_fired.
  - apply chains_close_ref.
Qed.

(** C38: every click on the pause button leaves a socket behind: the one that is
    closed opens again three seconds later beside the new one, so after [n]
    clicks there are [n + 1] of them, each open one delivering every event,
    also after the page is left. *)
Lemma pause_leaks_sockets strict es qs s :
  run tr_enabled (tr_handle strict) tr_mount es qs s ->
  chains (tr_pool s) = S (toggles es) /\
  (po_timers (tr_pool s) = 0 -> Forall (fun r => r = WsOpen \/ r = WsClosed) (po_socks (tr_pool s)) ->
   open_count (tr_pool s) = S (toggles es)).
Proof.
  intros Hrun. assert (H : chains (tr_pool s) = S (toggles es)).
  { induction Hrun as [|es qs s e s' q _ IH Hen Hh]; [done|].
    pose proof (step_chains strict s e Hen) as H. rewrite Hh in H. cbn [fst] in H. rewrite H, IH.
    unfold toggles. rewrite List.filter_app, length_app. simpl. destruct (is_toggle e); simpl; lia. }
  split; [done|]. intros Ht Hs. by rewrite settled_open.
Qed.
End View.

(** ** Witnesses *)
Definition demo_trace (c : string) : TraceEvent :=
  MkTraceEvent c None "2024-01-02T03:04:05Z" "Ingest" "started" None false None None None.
Definition demo_tr : list tr_event := [TrOpened 0; TrFrame 0 (Live (demo_trace "a")); TrFrame 0 (Live (demo_trace "b"))].
Definition demo_tr_state : tr_state := fst (exec (tr_handle false) demo_tr tr_mount).

Lemma demo_tr_run : run (tr_enabled id) (tr_handle false) tr_mount demo_tr (snd (exec (tr_handle false) demo_tr tr_mount)) demo_tr_state.
Proof. apply exec_run. repeat split. Qed.

Lemma trace_window_witness :
  tr_events (fst (tr_handle false TrTick demo_tr_state)) = [demo_trace "a"; demo_trace "b"].
Proof.
  refine (proj2 (proj2 (proj2 (trace_window id tr_mount demo_tr _ demo_tr_state demo_tr_run _)) eq_refl _));
    [by repeat constructor|discriminate].
Defined.

Definition demo_pauses : list tr_event := [TrOpened 0; TrPause; TrOpened 1; TrClosed 0; TrTimer; TrOpened 2].
Definition demo_pauses_state : tr_state := fst (exec (tr_handle false) demo_pauses tr_mount).

Lemma demo_pauses_enabled : all_enabled (tr_enabled id) (tr_handle false) demo_pauses tr_mount.
Proof.
  cbn [demo_pauses all_enabled]. split; [done|]. split.
  { split; [done|]. unfold tr_view. offers_find. }
  split; [done|]. split; [by exists WsClosing|]. split; [apply Nat.lt_0_succ|done].
Qed.

Lemma pause_leaks_sockets_witness : open_count (tr_pool demo_pauses_state) = 2.
Proof.
  refine (proj2 (pause_leaks_sockets id false demo_pauses _ demo_pauses_state (exec_run _ _ _ _ demo_pauses_enabled)) eq_refl _).
  apply (bool_decide_unpack _). vm_compute. exact I.
Defined.
