(* ===== verification/ResiliencePanel.v ===== *)
(** * Node resilience ([features/agent-ops/AgentResilienceStatus.tsx])

    The panel of the overview page on the four nodes of the agent pipeline.
    It starts from sample figures, replaces them when the backend sends a
    summary, and updates one node per live event.  Latencies and rates are
    doubles ([spec_float], with the operations of [Dates]); [number_text] is
    how the browser prints a number. *)
From Stdlib Require Import SpecFloat.
From S2P Require Import Prelude JsString Dates Html Sockets.
#[local] Open Scope nat_scope.

Inductive node_status := NodeHealthy | NodeDegraded | NodeFailed | NodeIdle.
#[export] Instance node_status_eq_dec : EqDecision node_status.
Proof. solve_decision. Defined.

Record AgentNode := MkAgentNode {
  an_name : string; an_status : node_status; an_latencyMs : spec_float; an_lastEventAt : option string; an_fallbackRate : spec_float }.

Record ResilienceData := MkResilience {
  rd_nodes : list AgentNode; rd_totalProcessed : Z; rd_fallbackTotal : Z; rd_provider : string }.

(** [loaded] is the time at which the module was loaded. *)
Definition MOCK_INITIAL (loaded : string) : ResilienceData :=
  MkResilience
    [MkAgentNode "Ingest" NodeHealthy (f64_of_Z 12) (Some loaded) (f64_of_Z 0);
     MkAgentNode "Deobfuscation" NodeHealthy (f64_of_Z 340) (Some loaded) (f64_of_Z 2);
     MkAgentNode "LLMTriage" NodeDegraded (f64_of_Z 1820) (Some loaded) (f64_of_Z 18);
     MkAgentNode "Action" NodeHealthy (f64_of_Z 55) (Some loaded) (f64_of_Z 0)]
    4821 91 "openai/gpt-4o-mini".

Record live_event := LiveEvent {
  lv_node : option string; lv_latencyMs : option spec_float; lv_timestamp : option string; lv_status : option string }.

(** A frame that does not parse is ignored. *)
Inductive res_frame := Summary (payload : ResilienceData) | LiveFrame (ev : option live_event) | OtherFrame.

Record rs_state := ResState { rs_data : ResilienceData; rs_connected : bool; rs_pool : pool; rs_mounted : bool }.

Inductive rs_event :=
| RsOpened (i : nat) | RsFrame (i : nat) (m : res_frame) | RsError (i : nat) | RsClosed (i : nat) | RsTimer | RsUnmount.

Definition rs_mount (loaded : string) : rs_state :=
  ResState (MOCK_INITIAL loaded) false (po_connect po_init) true.

(** A number is truthy when it is neither zero nor [NaN]. *)
Definition truthy_f64 (x : spec_float) : bool := negb (SFeqb x (f64_of_Z 0)) && SFeqb x x.

(** The live events that count: those with a truthy latency and a node. *)
Definition counted (ev : option live_event) : option (live_event * string * spec_float) :=
  e ← ev; n ← lv_node e; ms ← lv_latencyMs e;
  if truthy_f64 ms && negb (String.eqb n EmptyString) then Some (e, n, ms) else None.

Definition touch (e : live_event) (n : string) (ms : spec_float) (a : AgentNode) : AgentNode :=
  if String.eqb (an_name a) n
  then MkAgentNode (an_name a) (if bool_decide (lv_status e = Some "failed") then NodeDegraded else NodeHealthy) ms
         (lv_timestamp e) (an_fallbackRate a)
  else a.

Definition apply_live (ev : option live_event) (d : ResilienceData) : ResilienceData :=
  match counted ev with
  | Some (e, n, ms) =>
      MkResilience (touch e n ms <$> rd_nodes d) (rd_totalProcessed d + 1) (rd_fallbackTotal d) (rd_provider d)
  | None => d
  end.

Definition on_res_frame (m : res_frame) (d : ResilienceData) : ResilienceData :=
  match m with Summary p => p | LiveFrame ev => apply_live ev d | OtherFrame => d end.

Definition rs_handle (e : rs_event) (s : rs_state) : rs_state * list unit :=
  match e with
  | RsOpened i => (ResState (rs_data s) true (po_opened i (rs_pool s)) (rs_mounted s), [])
  | RsFrame _ m => (ResState (on_res_frame m (rs_data s)) (rs_connected s) (rs_pool s) (rs_mounted s), [])
  | RsError _ => (ResState (rs_data s) false (rs_pool s) (rs_mounted s), [])
  | RsClosed i => (ResState (rs_data s) false (po_closed i (rs_pool s)) (rs_mounted s), [])
  | RsTimer => (ResState (rs_data s) (rs_connected s) (po_fired (rs_pool s)) (rs_mounted s), [])
  | RsUnmount => (ResState (rs_data s) (rs_connected s) (po_close_ref (rs_pool s)) false, [])
  end.

Definition rs_enabled (s : rs_state) (e : rs_event) : Prop :=
  match e with
  | RsOpened i => po_socks (rs_pool s) !! i = Some WsConnecting
  | RsFrame i _ => po_socks (rs_pool s) !! i = Some WsOpen
  | RsError i | RsClosed i => exists r, po_socks (rs_pool s) !! i = Some r /\ r <> WsClosed
  | RsTimer => 0 < po_timers (rs_pool s)
  | RsUnmount => rs_mounted s = true
  end.

(** ** The rendered panel *)
Definition statusColor (st : node_status) : string :=
  match st with
  | NodeHealthy => "text-emerald-400" | NodeDegraded => "text-amber-400" | NodeFailed => "text-red-400" | NodeIdle => "text-slate-500"
  end.

Definition statusBg (st : node_status) : string :=
  match st with
  | NodeHealthy => "bg-emerald-500" | NodeDegraded => "bg-amber-500 animate-pulse"
  | NodeFailed => "bg-red-500 animate-pulse" | NodeIdle => "bg-slate-600"
  end.

Definition status_text (st : node_status) : string :=
  match st with NodeHealthy => "healthy" | NodeDegraded => "degraded" | NodeFailed => "failed" | NodeIdle => "idle" end.

Definition latencyColor (ms : spec_float) : string :=
  if SFltb ms (f64_of_Z 200) then "text-emerald-400" else if SFltb ms (f64_of_Z 1000) then "text-amber-400" else "text-red-400".

Definition bar_color (ms : spec_float) : string :=
  if SFltb ms (f64_of_Z 200) then "bg-emerald-500" else if SFltb ms (f64_of_Z 1000) then "bg-amber-500" else "bg-red-500".

(** [Math.min(x, y)], which is [NaN] when one of them is. *)
Definition f64_min (x y : spec_float) : spec_float :=
  if negb (SFeqb x x) || negb (SFeqb y y) then S754_nan else if SFltb x y then x else y.

(** [Math.min((node.latencyMs / 2000) * 100, 100)] *)
Definition bar_width (ms : spec_float) : spec_float :=
  f64_min (f64_mul (f64_div ms (f64_of_Z 2000)) (f64_of_Z 100)) (f64_of_Z 100).

Definition rate_tenths (d : ResilienceData) : Z :=
  f64_tenths (f64_mul (f64_div (f64_of_Z (rd_fallbackTotal d)) (f64_of_Z (rd_totalProcessed d))) (f64_of_Z 100)).

Definition fallbackRate (d : ResilienceData) : string :=
  if Z.ltb 0 (rd_totalProcessed d) then fixed1 (rate_tenths d) else "0.0".

(** [parseFloat(fallbackRate) > 10] *)
Definition rate_high (d : ResilienceData) : bool :=
  Z.ltb 0 (rd_totalProcessed d) && Z.ltb 100 (rate_tenths d).

Section View.
Context (number_text : spec_float -> string) (locale_number : Z -> string) (locale_time : string -> string).

Definition node_card (i : nat) (a : AgentNode) : html unit :=
  El "div" "" (
    [Text (nullish (["①"; "②"; "③"; "④"] !! i) EmptyString +:+ " " +:+ an_name a);
     El "span" (statusBg (an_status a)) [];
     El "span" (statusColor (an_status a)) [Text (status_text (an_status a))];
     Text "Latency"; El "span" (latencyColor (an_latencyMs a)) [Text (number_text (an_latencyMs a) +:+ "ms")];
     El "div" (bar_color (an_latencyMs a)) [Text ("width: " +:+ number_text (bar_width (an_latencyMs a)) +:+ "%")]]
    ++ when (SFltb (f64_of_Z 0) (an_fallbackRate a)) [Text ("⚠ " +:+ number_text (an_fallbackRate a) +:+ "% fallback")]
    ++ when (truthy_str (an_lastEventAt a)) [Text ("Last: " +:+ locale_time (nullish (an_lastEventAt a) EmptyString))]).

Definition pipeline_arrow (nodes : list AgentNode) (i : nat) (a : AgentNode) : html unit :=
  El "span" (statusColor (an_status a)) (Text (an_name a) :: when (i <? length nodes - 1) [Text "→"]).

Definition rs_view (s : rs_state) : html unit :=
  let d := rs_data s in
  El "div" "" (
    [El "h3" "" [Text "🧠 LangGraph Node Resilience"];
     El "span" (if rs_connected s then "bg-emerald-500 animate-pulse" else "bg-slate-600") [];
     El "span" (if rs_connected s then "text-emerald-400" else "text-slate-500") [Text (if rs_connected s then "LIVE" else "MOCK")];
     Text "Provider: "; Text (rd_provider d);
     Text "Processed: "; Text (locale_number (rd_totalProcessed d));
     Text "Fallback Rate: ";
     El "span" (if rate_high d then "text-amber-400" else "text-emerald-400") [Text (fallbackRate d +:+ "%")]]
    ++ imap node_card (rd_nodes d)
    ++ imap (pipeline_arrow (rd_nodes d)) (rd_nodes d)).
End View.

(** ** The nodes follow the events *)
Definition live_of (e : rs_event) : option (live_event * string * spec_float) :=
  match e with RsFrame _ (LiveFrame ev) => counted ev | _ => None end.
Definition no_summary (e : rs_event) : Prop := match e with RsFrame _ (Summary _) => False | _ => True end.

(** The last counted event of a node. *)
Definition last_for (n : string) (es : list rs_event) : option (live_event * string * spec_float) :=
  last (List.filter (fun x => String.eqb n x.1.2) (omap live_of es)).

Definition node_spec (es : list rs_event) (a : AgentNode) : AgentNode :=
  match last_for (an_name a) es with
  | Some (e, _, ms) =>
      MkAgentNode (an_name a) (if bool_decide (lv_status e = Some "failed") then NodeDegraded else NodeHealthy) ms
        (lv_timestamp e) (an_fallbackRate a)
  | None => a
  end.

Lemma touch_spec es ev e n ms a :
  live_of ev = Some (e, n, ms) -> touch e n ms (node_spec es a) = node_spec (es ++ [ev]) a.
Proof.
  intros Hev. unfold node_spec at 2, last_for. rewrite omap_app, List.filter_app. cbn [omap list_omap]. rewrite Hev.
  cbn [List.filter fst snd]. unfold touch.
  assert (Hn : an_name (node_spec es a) = an_name a).
  { unfold node_spec. by destruct (last_for (an_name a) es) as [[[? ?] ?]|]. }
  assert (Hr : an_fallbackRate (node_spec es a) = an_fallbackRate a).
  { unfold node_spec. by destruct (last_for (an_name a) es) as [[[? ?] ?]|]. }
  rewrite Hn, Hr. destruct (String.eqb (an_name a) n); [by rewrite last_snoc|].
  rewrite app_nil_r. reflexivity.
Qed.

Lemma node_spec_skip es ev a : live_of ev = None -> node_spec (es ++ [ev]) a = node_spec es a.
Proof. intros H. unfold node_spec, last_for. rewrite omap_app. cbn [omap list_omap]. by rewrite H, app_nil_r. Qed.

(** What a report is, said without the code: a live frame that names a node
    and a latency other than zero and [NaN]. *)
Definition latency_sent (ms : spec_float) : bool :=
  match ms with S754_zero _ | S754_nan => false | S754_infinity _ | S754_finite _ _ _ => true end.

Definition is_report (e : rs_event) : bool :=
  match e with
  | RsFrame _ (LiveFrame (Some (LiveEvent (Some n) (Some ms) _ _))) => bool_decide (n <> EmptyString) && latency_sent ms
  | _ => false
  end.

Definition reports_on (n : string) (e : rs_event) : Prop :=
  is_report e = true /\ exists i ms t st, e = RsFrame i (LiveFrame (Some (LiveEvent (Some n) (Some ms) t st))).

Lemma truthy_sent ms : truthy_f64 ms = latency_sent ms.
Proof.
  assert (Hp : forall p, Pos.compare_cont Eq p p = Eq) by (intros p; apply (Pos.compare_refl p)).
  destruct ms as [[]|[]| |[] m e]; try done; unfold truthy_f64, SFeqb; cbn [SFcompare]; rewrite Z.compare_refl, Hp; done.
Qed.

Lemma counted_sent n ms t st :
  counted (Some (LiveEvent (Some n) (Some ms) t st)) =
  if bool_decide (n <> EmptyString) && latency_sent ms then Some (LiveEvent (Some n) (Some ms) t st, n, ms) else None.
Proof.
  unfold counted. cbn. rewrite truthy_sent, andb_comm. destruct (String.eqb_spec n EmptyString) as [->|Hn]; [done|].
  by rewrite bool_decide_true.
Qed.

Lemma live_of_report e : is_report e = bool_decide (is_Some (live_of e)).
Proof.
  symmetry. destruct e as [|? [|[[[n|] [ms|] t st]|]|]| | | |]; try (apply bool_decide_eq_false; by intros [? ?]).
  cbn [live_of is_report]. rewrite counted_sent. destruct (_ && _); [by apply bool_decide_true|].
  apply bool_decide_eq_false. by intros [? ?].
Qed.

Lemma live_of_node e x : live_of e = Some x -> reports_on x.1.2 e.
Proof.
  intros Hx. split; [rewrite live_of_report, Hx; by apply bool_decide_true|].
  destruct e as [|? [|[[[n|] [ms|] t st]|]|]| | | |]; try done. cbn [live_of] in Hx. rewrite counted_sent in Hx.
  destruct (_ && _); [|done]. simplify_eq/=. by eauto.
Qed.

Lemma filter_none n es :
  Forall (fun e => ~ reports_on n e) es -> List.filter (fun x => String.eqb n x.1.2) (omap live_of es) = [].
Proof.
  induction 1 as [|e es He _ IH]; [done|]. cbn [omap list_omap]. destruct (live_of e) as [x|] eqn:Ex; [|done].
  cbn [List.filter]. destruct (String.eqb_spec n x.1.2) as [Hn|]; [|done]. destruct He. rewrite Hn. by apply live_of_node.
Qed.

Lemma reports_counted es : length (omap live_of es) = length (List.filter is_report es).
Proof.
  induction es as [|e es IH]; [done|]. cbn [omap list_omap List.filter]. rewrite live_of_report.
  destruct (live_of e) as [x|]; [rewrite bool_decide_true by eauto; cbn; by f_equal|].
  rewrite bool_decide_false; [done|]. by intros [? ?].
Qed.

Lemma nodes_follow loaded es qs s :
  run rs_enabled rs_handle (rs_mount loaded) es qs s -> Forall no_summary es ->
  rd_nodes (rs_data s) = node_spec es <$> rd_nodes (MOCK_INITIAL loaded) /\
  rd_totalProcessed (rs_data s) = (4821 + Z.of_nat (length (omap live_of es)))%Z /\
  rd_fallbackTotal (rs_data s) = 91%Z.
Proof.
  intros Hrun. induction Hrun as [|es qs s e s' q _ IH _ Hh]; intros Hno; [done|].
  apply Forall_app in Hno as [Hno He]. rewrite Forall_singleton in He. destruct (IH Hno) as (IH1 & IH2 & IH3).
  assert (Hs : s' = fst (rs_handle e s)) by (by rewrite Hh). subst s'. clear Hh IH.
  assert (Hskip : live_of e = None -> rs_data (fst (rs_handle e s)) = rs_data s).
  { destruct e as [|? []| | | |]; cbn; try done. intros Hc. unfold apply_live. by rewrite Hc. }
  rewrite omap_app. destruct (live_of e) as [[[ev n] ms]|] eqn:El.
  - destruct e as [|? [|lv|]| | | |]; try done. cbn [live_of] in El. cbn [rs_handle fst rs_data on_res_frame].
    unfold apply_live. rewrite El. cbn [rd_nodes rd_totalProcessed rd_fallbackTotal]. rewrite IH1, IH2, IH3.
    cbn [omap list_omap live_of]. rewrite El, length_app. split_and!; [|cbn [length]; lia|done].
    rewrite <- list_fmap_compose. apply list_fmap_ext. intros j a _. cbn. by apply touch_spec.
  - rewrite (Hskip eq_refl), IH1, IH2, IH3. cbn [omap list_omap]. rewrite El, app_nil_r. split_and!; [|done..].
    apply list_fmap_ext. intros j a _. symmetry. by apply node_spec_skip.
Qed.

(** The last report of the node [a] among the events [es], if there is one. *)
Definition last_report (es : list rs_event) (a : AgentNode) (i : nat) (ms : spec_float) (t st : option string) : Prop :=
  exists es1 es2, es = es1 ++ RsFrame i (LiveFrame (Some (LiveEvent (Some (an_name a)) (Some ms) t st))) :: es2 /\
    latency_sent ms = true /\ Forall (fun e => ~ reports_on (an_name a) e) es2.

Lemma node_spec_last es a i ms t st :
  an_name a <> EmptyString -> last_report es a i ms t st ->
  node_spec es a =
  MkAgentNode (an_name a) (if bool_decide (st = Some "failed") then NodeDegraded else NodeHealthy) ms t (an_fallbackRate a).
Proof.
  intros Hn (es1 & es2 & -> & Hms & Hes2). unfold node_spec, last_for. rewrite omap_app. cbn [omap list_omap live_of].
  rewrite counted_sent, bool_decide_true, Hms by done. cbn [andb]. rewrite List.filter_app. cbn [List.filter fst snd].
  rewrite String.eqb_refl. setoid_rewrite (filter_none _ _ Hes2). by rewrite last_snoc.
Qed.

(** C23: as long as the backend sends no summary: a node shows the latency and the
    time of the last live event that names it and carries a latency, degraded
    when that event is a failure and healthy otherwise, whatever the events of
    the other nodes; a node without such an event shows its sample values.
    Every event with a node and a latency counts as processed, also one of an
    unknown node; the number of fallbacks stays at the sample value.  Events
    without a latency, such as the start of a node, are not shown. *)
Theorem nodes_show_last_event loaded es qs s :
  run rs_enabled rs_handle (rs_mount loaded) es qs s -> Forall no_summary es ->
  Forall2 (fun a b =>
    (forall i ms t st, last_report es a i ms t st ->
       b = MkAgentNode (an_name a) (if bool_decide (st = Some "failed") then NodeDegraded else NodeHealthy)
             ms t (an_fallbackRate a)) /\
    (Forall (fun e => ~ reports_on (an_name a) e) es -> b = a))
    (rd_nodes (MOCK_INITIAL loaded)) (rd_nodes (rs_data s)) /\
  rd_totalProcessed (rs_data s) = (4821 + Z.of_nat (length (List.filter is_report es)))%Z /\
  rd_fallbackTotal (rs_data s) = 91%Z.
Proof.
  intros Hrun Hno. destruct (nodes_follow _ _ _ _ Hrun Hno) as (-> & -> & ->). rewrite reports_counted.
  split; [|done]. apply Forall2_fmap_r, Forall_Forall2_diag.
  assert (Hnames : Forall (fun a => an_name a <> EmptyString) (rd_nodes (MOCK_INITIAL loaded))) by (by repeat constructor).
  eapply Forall_impl; [exact Hnames|]. intros a Ha. split.
  - intros i ms t st Hl. by apply (node_spec_last es a i).
  - intros Hnone. unfold compose, node_spec, last_for. by rewrite (filter_none _ _ Hnone).
Qed.

(** ** The bar of a latency *)
Definition nonneg (x : spec_float) : bool :=
  match x with S754_zero _ | S754_infinity false | S754_finite false _ _ => true | _ => false end.

Lemma nonneg_leb x : nonneg x = SFleb (f64_of_Z 0) x.
Proof. by destruct x as [[]|[]| |[] m e]. Qed.

(** Rounding a non-negative number gives a non-negative double. *)
Lemma shr_1_nonneg r : (0 <= shr_m r)%Z -> (0 <= shr_m (shr_1 r))%Z.
Proof. destruct r as [[|[]|[]] r s]; cbn; lia. Qed.

Lemma iter_shr_nonneg p r : (0 <= shr_m r)%Z -> (0 <= shr_m (SpecFloat.iter_pos shr_1 p r))%Z.
Proof. revert r. induction p; intros r Hr; cbn; auto using shr_1_nonneg. Qed.

Lemma shr_fexp_nonneg m e l : (0 <= m)%Z -> (0 <= shr_m (fst (shr_fexp 53 1024 m e l)))%Z.
Proof.
  intros Hm. unfold shr_fexp, shr.
  assert (Hr : (0 <= shr_m (shr_record_of_loc m l))%Z) by (by destruct l as [|[]]).
  destruct (_ - e)%Z; cbn [fst]; auto using iter_shr_nonneg.
Qed.

Lemma round_even_nonneg m l : (0 <= m)%Z -> (0 <= round_nearest_even m l)%Z.
Proof. destruct l as [|[]]; cbn; [lia|destruct (Z.even m); lia|lia|lia]. Qed.

Lemma round_nonneg m e l : (0 <= m)%Z -> nonneg (binary_round_aux 53 1024 false m e l) = true.
Proof.
  intros Hm. unfold binary_round_aux. pose proof (shr_fexp_nonneg m e l Hm) as H1.
  destruct (shr_fexp 53 1024 m e l) as [r1 e1]. cbn [fst] in H1.
  pose proof (shr_fexp_nonneg (round_nearest_even (shr_m r1) (loc_of_shr_record r1)) e1 loc_Exact
                (round_even_nonneg _ _ H1)) as H2.
  destruct (shr_fexp 53 1024 _ e1 loc_Exact) as [r2 e2]. cbn [fst] in H2.
  destruct (shr_m r2); [done| |lia]. by destruct (Z.leb _ _).
Qed.

Lemma div_core_nonneg m1 e1 m2 e2 : (0 <= fst (fst (SFdiv_core_binary 53 1024 (Zpos m1) e1 (Zpos m2) e2)))%Z.
Proof.
  unfold SFdiv_core_binary. set (k := (e1 - e2 - _)%Z). clearbody k.
  set (m' := match k with Z0 => _ | Zpos _ => _ | Zneg _ => _ end).
  assert (Hm : (0 <= m')%Z) by (destruct k; subst m'; [lia|by apply Z.shiftl_nonneg|lia]).
  pose proof (Z.div_pos m' (Zpos m2) Hm eq_refl) as Hq. unfold Z.div in Hq.
  by destruct (Z.div_eucl m' (Zpos m2)) as [q r].
Qed.

Lemma div_nonneg x m e : nonneg x = true -> nonneg (f64_div x (S754_finite false m e)) = true.
Proof.
  unfold f64_div, SFdiv. destruct x as [[]|[]| |[] m1 e1]; try done. intros _. cbn [xorb].
  pose proof (div_core_nonneg m1 e1 m e) as Hq. destruct (SFdiv_core_binary _ _ _ _ _ _) as [[q e'] l].
  by apply round_nonneg.
Qed.

Lemma mul_nonneg x m e : nonneg x = true -> nonneg (f64_mul x (S754_finite false m e)) = true.
Proof. unfold f64_mul, SFmul. destruct x as [[]|[]| |[] m1 e1]; try done. intros _. by apply round_nonneg. Qed.

Lemma min_bounds x m e :
  nonneg x = true -> nonneg (f64_min x (S754_finite false m e)) = true /\
  SFleb (f64_min x (S754_finite false m e)) (S754_finite false m e) = true.
Proof.
  intros Hx. set (y := S754_finite false m e).
  assert (Hp : forall p, Pos.compare_cont Eq p p = Eq) by (intros p; apply (Pos.compare_refl p)).
  assert (Hy : SFcompare y y = Some Eq) by (unfold y; cbn; by rewrite Z.compare_refl, Hp).
  assert (Hxx : SFeqb x x = true).
  { unfold SFeqb. destruct x as [[]|[]| |[] m1 e1]; try done. cbn. by rewrite Z.compare_refl, Hp. }
  unfold f64_min. rewrite Hxx. unfold SFeqb at 1 2. rewrite Hy. cbn [negb orb].
  destruct (SFltb x y) eqn:El; split; try done.
  - unfold SFltb in El. unfold SFleb. by destruct (SFcompare x y) as [[]|].
  - unfold SFleb. by rewrite Hy.
Qed.

Lemma green_is_below_red ms : SFltb ms (f64_of_Z 200) = true -> SFltb ms (f64_of_Z 1000) = true.
Proof.
  change (f64_of_Z 200) with (S754_finite false 7036874417766400 (-45)).
  change (f64_of_Z 1000) with (S754_finite false 8796093022208000 (-43)).
  destruct ms as [[]|[]| |[] m e]; try done. unfold SFltb. cbn [SFcompare].
  destruct (Z.compare_spec e (-45)), (Z.compare_spec e (-43)); try done; lia.
Qed.

(** The bar of a latency: its width is a percentage, and it and the figure
    have the colour of the latency. *)
Definition bar_spec (ms : spec_float) : Prop :=
  SFleb (f64_of_Z 0) (bar_width ms) = true /\ SFleb (bar_width ms) (f64_of_Z 100) = true /\
  (bar_color ms = "bg-emerald-500" <-> SFltb ms (f64_of_Z 200) = true) /\
  (latencyColor ms = "text-emerald-400" <-> SFltb ms (f64_of_Z 200) = true) /\
  (bar_color ms = "bg-red-500" <-> SFltb ms (f64_of_Z 1000) = false) /\
  (latencyColor ms = "text-red-400" <-> SFltb ms (f64_of_Z 1000) = false).

Lemma bar_ok ms : SFleb (f64_of_Z 0) ms = true -> bar_spec ms.
Proof.
  rewrite <- nonneg_leb. intros Hms. unfold bar_spec. rewrite <- nonneg_leb.
  destruct (min_bounds (f64_mul (f64_div ms (f64_of_Z 2000)) (f64_of_Z 100)) 7036874417766400 (-46)
              (mul_nonneg _ _ _ (div_nonneg _ _ _ Hms))) as [H1 H2].
  split; [exact H1|]. split; [exact H2|]. clear H1 H2. unfold bar_color, latencyColor.
  pose proof (green_is_below_red ms) as Hc.
  destruct (SFltb ms (f64_of_Z 200)), (SFltb ms (f64_of_Z 1000)); naive_solver.
Qed.

(** The colours and the width together: a green bar is narrower than a tenth
    of its track, a red one takes half of it or more. *)
Definition tells_width (ms : spec_float) : bool :=
  eqb (String.eqb (bar_color ms) "bg-emerald-500") (SFltb (bar_width ms) (f64_of_Z 10)) &&
  eqb (String.eqb (bar_color ms) "bg-red-500") (SFleb (f64_of_Z 50) (bar_width ms)).

(** The [n] latencies from [k] milliseconds on. *)
Fixpoint tell_widths (n : nat) (k : Z) : bool :=
  match n with 0 => true | S n' => tells_width (f64_of_Z k) && tell_widths n' (k + 1) end.

Lemma tell_widths_sound n k j : tell_widths n k = true -> (k <= j < k + Z.of_nat n)%Z -> tells_width (f64_of_Z j) = true.
Proof.
  revert k. induction n as [|n IH]; cbn [tell_widths]; intros k H Hj; [lia|]. apply andb_true_iff in H as [Hk Hn].
  destruct (Z.eq_dec k j) as [<-|Hne]; [done|]. apply (IH (k + 1)%Z Hn). lia.
Qed.

Lemma tells_width_checked : tell_widths (Z.to_nat 2001) 0 = true.
Proof. vm_compute. reflexivity. Qed.

Definition frame_nonneg (e : rs_event) : Prop :=
  match e with
  | RsFrame _ (Summary p) => Forall (fun a => SFleb (f64_of_Z 0) (an_latencyMs a) = true) (rd_nodes p)
  | RsFrame _ (LiveFrame (Some ev)) =>
      match lv_latencyMs ev with Some ms => SFleb (f64_of_Z 0) ms = true | None => True end
  | _ => True
  end.

Lemma tells_width_ok k :
  (0 <= k <= 2000)%Z ->
  (bar_color (f64_of_Z k) = "bg-emerald-500" <-> SFltb (bar_width (f64_of_Z k)) (f64_of_Z 10) = true) /\
  (bar_color (f64_of_Z k) = "bg-red-500" <-> SFleb (f64_of_Z 50) (bar_width (f64_of_Z k)) = true).
Proof.
  intros Hk. assert (H : tells_width (f64_of_Z k) = true).
  { apply (tell_widths_sound _ _ _ tells_width_checked). rewrite Z2Nat.id; lia. }
  unfold tells_width in H. apply andb_true_iff in H as [H1 H2]. apply eqb_prop in H1, H2.
  by rewrite <- H1, <- H2, !String.eqb_eq.
Qed.

(** C19: in every execution in which no negative latency is received, the bar of every
    node is between 0 and 100 per cent wide, in doubles; it and the figure are
    green exactly below 200 milliseconds and red exactly from 1000 on; and for
    a latency of whole milliseconds up to two seconds the colour
    tells the width: green exactly below a tenth, red exactly from a half. *)
Theorem latency_bars_bounded loaded es qs s :
  run rs_enabled rs_handle (rs_mount loaded) es qs s -> Forall frame_nonneg es ->
  Forall (fun a =>
    bar_spec (an_latencyMs a) /\
    (forall k, (0 <= k <= 2000)%Z -> an_latencyMs a = f64_of_Z k ->
       (bar_color (an_latencyMs a) = "bg-emerald-500" <-> SFltb (bar_width (an_latencyMs a)) (f64_of_Z 10) = true) /\
       (bar_color (an_latencyMs a) = "bg-red-500" <-> SFleb (f64_of_Z 50) (bar_width (an_latencyMs a)) = true)))
    (rd_nodes (rs_data s)).
Proof.
  intros Hrun Hes. eapply Forall_impl; [|intros a Ha; split; [exact (bar_ok _ Ha)|intros k Hk ->; exact (tells_width_ok k Hk)]].
  revert Hes Hrun.
  apply (run_invariant_where _ _ _ (fun s => Forall (fun a => SFleb (f64_of_Z 0) (an_latencyMs a) = true) (rd_nodes (rs_data s)))).
  - by repeat constructor.
  - intros t e Ht _ He. destruct e as [|? [|[ev|]|]| | | |]; try done. cbn in He |- *. unfold apply_live.
    destruct (counted (Some ev)) as [[[e n] ms]|] eqn:Ec; [|done]. cbn [rd_nodes]. apply Forall_fmap.
    eapply Forall_impl; [exact Ht|]. intros a Ha. cbn. unfold touch. destruct (String.eqb _ _); [|done].
    destruct ev as [[n'|] [ms'|] t' st]; try done. rewrite counted_sent in Ec. destruct (_ && _); by simplify_eq/=.
Qed.

(** ** One connection, and what the badge says *)
Lemma step_rs_chains s e : rs_enabled s e -> chains (rs_pool (fst (rs_handle e s))) = chains (rs_pool s).
Proof.
  destruct e; cbn; intros Hen; try done.
  - by apply chains_opened.
  - destruct Hen as (r & Hi & Hr). by apply (chains_closed i r).
  - by apply chains_fired.
  - apply chains_close_ref.
Qed.

(** The panel keeps one connection for ever, also after it is left, and says
    LIVE only while a socket is open. *)
Lemma badge_truthful loaded es qs s :
  run rs_enabled rs_handle (rs_mount loaded) es qs s ->
  chains (rs_pool s) = 1 /\
  (rs_mounted s = true -> rs_connected s = true -> exists i, po_socks (rs_pool s) !! i = Some WsOpen).
Proof.
  intros Hrun. split.
  - revert Hrun. apply (run_invariant _ _ (fun s => chains (rs_pool s) = 1)); [done|].
    intros t e Ht Hen. by rewrite step_rs_chains.
  - revert Hrun. apply (run_invariant _ _ (fun s => rs_mounted s = true -> rs_connected s = true ->
      exists i, po_socks (rs_pool s) !! i = Some WsOpen)); [done|].
    intros t e Ht Hen. destruct e; cbn; try done.
    + intros _ _. exists i. apply list_lookup_insert_eq. by eapply lookup_lt_Some.
    + intros Hm Hc. destruct (Ht Hm Hc) as [i Hi]. exists i. by apply lookup_app_l_Some.
Qed.

(** ** Witnesses *)
Definition demo_live (n st : string) (ms : spec_float) : option live_event :=
  Some (LiveEvent (Some n) (Some ms) (Some "t") (Some st)).
Definition demo_rs : list rs_event :=
  [RsOpened 0; RsFrame 0 (LiveFrame (demo_live "Ingest" "failed" (f64_of_Z 5)));
   RsFrame 0 (LiveFrame (demo_live "Action" "completed" (f64_of_Z 30000)));
   RsFrame 0 (LiveFrame (Some (LiveEvent (Some "Ingest") None (Some "t2") (Some "started"))))].
Definition demo_rs_state : rs_state := fst (exec rs_handle demo_rs (rs_mount "t0")).

Lemma demo_rs_run : run rs_enabled rs_handle (rs_mount "t0") demo_rs (snd (exec rs_handle demo_rs (rs_mount "t0"))) demo_rs_state.
Proof. apply exec_run. repeat split. Qed.

(** The failure of the first node stays on the screen, and so does the slow
    answer of the last one; the start of a node shows nothing. *)
Lemma nodes_show_last_event_witness :
  (fun a => (an_status a, an_latencyMs a)) <$> rd_nodes (rs_data demo_rs_state) =
    [(NodeDegraded, f64_of_Z 5); (NodeHealthy, f64_of_Z 340); (NodeDegraded, f64_of_Z 1820); (NodeHealthy, f64_of_Z 30000)] /\
  rd_totalProcessed (rs_data demo_rs_state) = 4823%Z.
Proof.
  split; [reflexivity|].
  exact (proj1 (proj2 (nodes_show_last_event "t0" _ _ _ demo_rs_run (ltac:(by repeat constructor))))).
Defined.

Lemma latency_bars_bounded_witness :
  Forall (fun a => bar_spec (an_latencyMs a)) (rd_nodes (rs_data demo_rs_state)) /\
  bar_width (f64_of_Z 5) = f64_div (f64_of_Z 25) (f64_of_Z 100).
Proof.
  split; [|vm_compute; reflexivity].
  eapply Forall_impl; [refine (latency_bars_bounded "t0" _ _ _ demo_rs_run _); by repeat constructor|]. by intros a [H _].
Defined.
