(* ===== verification/ChatPanel.v ===== *)
(** * Assistant of the overview ([features/agent-ops/AgentChatWidget.tsx])

    The floating chat of the overview page.  As in the other chat widget the
    messages are objects that the stream handler mutates ([MessageStore]); the
    socket lives exactly as long as the panel is open, and its close event has
    no handler. *)
From S2P Require Import Prelude JsString Html MessageStore Sockets.

Inductive panel_role := PUser | PAgent | PSystem.
#[export] Instance panel_role_eq_dec : EqDecision panel_role.
Proof. solve_decision. Defined.

Record panel_message := PanelMessage { pm_role : panel_role; pm_content : string }.
#[export] Instance panel_message_eq_dec : EqDecision panel_message.
Proof. solve_decision. Defined.

Definition greeting : panel_message :=
  PanelMessage PSystem "Agent connected. Note: This channel is READ-ONLY. The agent cannot isolate hosts, disable rules, or execute playbooks.".

Record ap_state := PanelState {
  ap_isOpen : bool;
  ap_input : string;
  ap_store : store panel_message;
  ap_messages : list nat;
  ap_isTyping : bool;
  ap_pool : pool;
  ap_mounted : bool }.

Definition ap_init : ap_state :=
  PanelState false EmptyString (Store {[0 := greeting]} 1) [0] false po_init true.

Inductive chat_frame := FError (message : string) | FTyping | FChunk (content : string) | FDone | FOther.

Inductive ap_event :=
| ApOpen | ApClose | ApInput (v : string) | ApSend
| ApSocketOpen (i : nat) | ApFrame (i : nat) (f : chat_frame) | ApSocketClosed (i : nat)
| ApUnmount.

Inductive ap_effect := ApSendText (i : nat) (text : string) | ApInvalidState.

Definition ap_set_pool o p m s := PanelState o (ap_input s) (ap_store s) (ap_messages s) (ap_isTyping s) p m.
Definition ap_set_messages hm t s :=
  PanelState (ap_isOpen s) (ap_input s) hm.1 hm.2 t (ap_pool s) (ap_mounted s).
Definition ap_set_input v s :=
  PanelState (ap_isOpen s) v (ap_store s) (ap_messages s) (ap_isTyping s) (ap_pool s) (ap_mounted s).

(** ** The handler of the stream *)

(** An empty message of the agent, unless there is one already. *)
Definition start_answer : updater panel_message := fun h prev =>
  match r ← last prev; st_objs h !! r with
  | Some (PanelMessage PAgent EmptyString) => (h, prev)
  | _ => push_message (PanelMessage PAgent EmptyString) h prev
  end.

(** [last.content += data.content] on the object, when it is the agent's. *)
Definition extend_answer (content : string) : updater panel_message := fun h prev =>
  match last prev with
  | Some r =>
      match st_objs h !! r with
      | Some (PanelMessage PAgent text) =>
          (Store (<[r := PanelMessage PAgent (text +:+ content)]> (st_objs h)) (st_next h), prev)
      | _ => (h, prev)
      end
  | None => (h, prev)
  end.

Section Handle.
Context (strict : bool).

Definition ap_update (u : updater panel_message) (typing : bool) (s : ap_state) : ap_state :=
  ap_set_messages (run_updater strict u (ap_store s) (ap_messages s)) typing s.

Definition on_panel_frame (f : chat_frame) (s : ap_state) : ap_state :=
  match f with
  | FError m => ap_update (push_message (PanelMessage PSystem ("⚠ " +:+ m))) false s
  | FTyping => ap_update start_answer true s
  | FChunk c => ap_update (extend_answer c) false s
  | FDone => ap_set_messages (ap_store s, ap_messages s) false s
  | FOther => s
  end.

Definition handleSend (s : ap_state) : ap_state * list ap_effect :=
  if String.eqb (trim (ap_input s)) EmptyString then (s, [])
  else match po_ref (ap_pool s) with
       | None => (s, [])
       | Some i =>
           let s1 := ap_update (push_message (PanelMessage PUser (ap_input s))) (ap_isTyping s) s in
           match po_socks (ap_pool s) !! i with
           | Some WsConnecting => (s1, [ApInvalidState])       (* [send] throws *)
           | Some WsOpen => (ap_set_input EmptyString s1, [ApSendText i (ap_input s)])
           | _ => (ap_set_input EmptyString s1, [])            (* silently discarded *)
           end
       end.

(** The effect on [[isOpen]] and its cleanup. *)
Definition ap_set_open (o : bool) (s : ap_state) : ap_state :=
  if Bool.eqb (ap_isOpen s) o then s
  else ap_set_pool o (if o then po_connect (ap_pool s) else po_close_ref (ap_pool s)) (ap_mounted s) s.

Definition sock_to (i : nat) (r : ready) (p : pool) : pool := Pool (<[i := r]> (po_socks p)) (po_timers p) (po_ref p).

Definition ap_handle (e : ap_event) (s : ap_state) : ap_state * list ap_effect :=
  match e with
  | ApOpen => (ap_set_open true s, [])
  | ApClose => (ap_set_open false s, [])
  | ApInput v => (ap_set_input v s, [])
  | ApSend => handleSend s
  | ApSocketOpen i => (ap_set_pool (ap_isOpen s) (sock_to i WsOpen (ap_pool s)) (ap_mounted s) s, [])
  | ApFrame _ f => (on_panel_frame f s, [])
  | ApSocketClosed i => (ap_set_pool (ap_isOpen s) (sock_to i WsClosed (ap_pool s)) (ap_mounted s) s, [])
  | ApUnmount =>
      (ap_set_pool (ap_isOpen s) (if ap_isOpen s then po_close_ref (ap_pool s) else ap_pool s) false s, [])
  end.
End Handle.

(** ** The rendered widget *)
Definition panel_tone (r : panel_role) : string :=
  match r with
  | PUser => "bg-indigo-600 text-white rounded-br-none"
  | PSystem => "bg-amber-900/30 text-amber-500 border border-amber-500/30 text-xs text-center w-full"
  | PAgent => "bg-slate-800 text-slate-300 rounded-bl-none"
  end.

Definition panel_line (m : panel_message) : html ap_event :=
  El "div" (if bool_decide (pm_role m = PUser) then "justify-end" else "justify-start")
    [El "div" (panel_tone (pm_role m)) [Text (pm_content m)]].

Definition ap_view (s : ap_state) : html ap_event :=
  if ap_isOpen s then
    El "div" "" (
      [El "h3" "" [Text "AI Assistant"]; El "p" "" [Text "Read-Only Contextual Queries"];
       Button false (Some ApClose) [Text "✕"]]
      ++ (panel_line <$> st_deref (ap_store s) (ap_messages s))
      ++ when (ap_isTyping s) [Text "Thinking..."]
      ++ [Input false (ap_input s) ApInput; Button false (Some ApSend) [Text "Send"]])
  else Button false (Some ApOpen) [].

Definition ap_enabled (s : ap_state) (e : ap_event) : Prop :=
  match e with
  | ApSocketOpen i => po_socks (ap_pool s) !! i = Some WsConnecting
  | ApFrame i _ => po_socks (ap_pool s) !! i = Some WsOpen
  | ApSocketClosed i => exists r, po_socks (ap_pool s) !! i = Some r /\ r <> WsClosed
  | ApUnmount => ap_mounted s = true
  | _ => ap_mounted s = true /\ offers (ap_view s) e
  end.

(** ** The transcript as a value *)
Definition spec_start (l : list panel_message) : list panel_message :=
  if bool_decide (last l = Some (PanelMessage PAgent EmptyString)) then l else l ++ [PanelMessage PAgent EmptyString].

Definition spec_extend (c : string) (l : list panel_message) : list panel_message :=
  match last l with
  | Some (PanelMessage PAgent text) => take (length l - 1) l ++ [PanelMessage PAgent (text +:+ c)]
  | _ => l
  end.

Definition panel_spec (e : ap_event) (s : ap_state) (l : list panel_message) : list panel_message :=
  match e with
  | ApSend =>
      if String.eqb (trim (ap_input s)) EmptyString then l
      else if po_ref (ap_pool s) then l ++ [PanelMessage PUser (ap_input s)] else l
  | ApFrame _ (FError m) => l ++ [PanelMessage PSystem ("⚠ " +:+ m)]
  | ApFrame _ FTyping => spec_start l
  | ApFrame _ (FChunk c) => spec_extend c l
  | _ => l
  end.

Definition panel_transcript (s : ap_state) : list panel_message := st_deref (ap_store s) (ap_messages s).

Lemma start_refines h refs :
  refs_ok h refs ->
  let '(h', refs') := start_answer h refs in
  refs_ok h' refs' /\ st_deref h' refs' = spec_start (st_deref h refs).
Proof.
  intros Hok. pose proof (push_refines (PanelMessage PAgent EmptyString) h refs Hok) as Hpush.
  unfold start_answer, spec_start. destruct (last refs) as [r|] eqn:El; cbn [mbind option_bind].
  - apply last_Some in El as [pre ->]. destruct (deref_last _ _ _ Hok) as (m & Hm & Ed & _).
    rewrite Hm. rewrite Ed, last_snoc. rewrite Ed in Hpush.
    case_bool_decide as Em; [by injection Em as ->|]. destruct m as [[] []]; done.
  - apply last_None in El as ->. by rewrite bool_decide_eq_false_2.
Qed.

Lemma extend_refines c h refs :
  refs_ok h refs ->
  let '(h', refs') := extend_answer c h refs in
  refs_ok h' refs' /\ st_deref h' refs' = spec_extend c (st_deref h refs).
Proof.
  intros Hok. unfold extend_answer, spec_extend. destruct (last refs) as [r|] eqn:El.
  - apply last_Some in El as [pre ->]. destruct (deref_last _ _ _ Hok) as (m & Hm & Ed & _).
    rewrite Hm, Ed, last_snoc. destruct m as [[] text]; rewrite <- ?Ed; try done.
    rewrite Ed, length_app, Nat.add_sub, take_app_length. by apply mutate_last_refines.
  - by apply last_None in El as ->.
Qed.

Lemma ap_init_ok : refs_ok (ap_store ap_init) (ap_messages ap_init).
Proof.
  split; [apply NoDup_singleton|]. split.
  - apply Forall_singleton. split; [by eexists|]. simpl. lia.
  - intros r [m Hm]. simpl in *. apply lookup_singleton_Some in Hm as [<- _]. lia.
Qed.

Lemma panel_step_refines e s :
  refs_ok (ap_store s) (ap_messages s) ->
  let s' := fst (ap_handle false e s) in
  refs_ok (ap_store s') (ap_messages s') /\ panel_transcript s' = panel_spec e s (panel_transcript s).
Proof.
  intros Hok. unfold panel_transcript. destruct e; cbn [ap_handle panel_spec fst]; try done.
  - unfold ap_set_open. by destruct (Bool.eqb _ _).
  - unfold ap_set_open. by destruct (Bool.eqb _ _).
  - unfold handleSend. destruct (String.eqb _ _); [done|]. destruct (po_ref (ap_pool s)) as [i|]; [|done].
    pose proof (push_refines (PanelMessage PUser (ap_input s)) _ _ Hok) as H.
    unfold ap_update, run_updater. destruct (push_message _ _ _). destruct (po_socks (ap_pool s) !! i) as [[]|]; done.
  - destruct f; cbn [on_panel_frame]; try done; unfold ap_update, run_updater.
    + pose proof (push_refines (PanelMessage PSystem ("⚠ " +:+ message)) _ _ Hok) as H. by destruct (push_message _ _ _).
    + pose proof (start_refines _ _ Hok) as H. by destruct (start_answer _ _).
    + pose proof (extend_refines content _ _ Hok) as H. by destruct (extend_answer _ _ _).
Qed.

Lemma panel_refs_ok es qs s :
  run ap_enabled (ap_handle false) ap_init es qs s -> refs_ok (ap_store s) (ap_messages s).
Proof.
  apply (run_invariant _ _ (fun s => refs_ok (ap_store s) (ap_messages s))); [apply ap_init_ok|].
  intros t e Ht _. by apply panel_step_refines.
Qed.

(** Outside strict mode the objects are invisible: in every execution each event
    changes the transcript as the value-level specification says (an answer
    starts with one empty message, a chunk extends the last message when it
    is the agent's and is dropped otherwise), and the warning that the
    channel is read-only stays the first message. *)
Lemma panel_transcript_refines es qs s e :
  run ap_enabled (ap_handle false) ap_init es qs s ->
  panel_transcript (fst (ap_handle false e s)) = panel_spec e s (panel_transcript s) /\
  head (panel_transcript s) = Some greeting.
Proof.
  intros Hrun. split; [by apply panel_step_refines, (panel_refs_ok es qs)|].
  assert (H : refs_ok (ap_store s) (ap_messages s) /\ head (panel_transcript s) = Some greeting); [|by destruct H].
  revert Hrun. apply (run_invariant _ _ (fun s => refs_ok (ap_store s) (ap_messages s) /\ head (panel_transcript s) = Some greeting)).
  { split; [apply ap_init_ok|reflexivity]. }
  intros t e' [Hok Hh] _. destruct (panel_step_refines e' t Hok) as [Hok' ->]. split; [done|].
  destruct (panel_transcript t) as [|g l] eqn:El; [done|]. simplify_eq/=.
  destruct e'; try done; cbn [panel_spec].
  - destruct (String.eqb _ _); [done|]. by destruct (po_ref _).
  - destruct f; try done; [unfold spec_start; by destruct (bool_decide _)|].
    unfold spec_extend. destruct (last (greeting :: l)) as [[[] text]|] eqn:E; try done.
    destruct l as [|m l]; [done|]. cbn [length]. by rewrite Nat.sub_succ, Nat.sub_0_r.
Qed.

(** ** The connection lives with the panel *)
Definition conn_ok (s : ap_state) : Prop :=
  forall i r, po_socks (ap_pool s) !! i = Some r -> active r ->
    ap_mounted s = true /\ ap_isOpen s = true /\ po_ref (ap_pool s) = Some i.

Lemma conn_ok_closed p s :
  conn_ok s -> po_socks p = po_socks (po_close_ref (ap_pool s)) ->
  forall i r, po_socks p !! i = Some r -> ~ active r.
Proof.
  intros Hok Ep i r Hi Hr. rewrite Ep in Hi. destruct (close_ref_active _ _ _ Hi Hr) as [Ho Hne].
  apply Hne. by apply (Hok i r).
Qed.

Lemma conn_ok_sock i r0 r1 s :
  conn_ok s -> po_socks (ap_pool s) !! i = Some r0 -> (active r1 -> active r0) ->
  conn_ok (ap_set_pool (ap_isOpen s) (sock_to i r1 (ap_pool s)) (ap_mounted s) s).
Proof.
  intros Hok Hi Hr j r Hj Ha. cbn in Hj. apply list_lookup_insert_Some in Hj as [(-> & -> & _)|[_ Hj]].
  - by apply (Hok j r0); auto.
  - by apply (Hok j r).
Qed.

Lemma ap_handle_conn strict s e : ap_enabled s e -> conn_ok s -> conn_ok (fst (ap_handle strict e s)).
Proof.
  intros Hen Hok. destruct e; cbn [ap_handle fst]; try exact Hok.
  - unfold ap_set_open. destruct (ap_isOpen s) eqn:Eo; [exact Hok|]. cbn [Bool.eqb].
    intros i r Hi Hr. cbn in Hi |- *. destruct Hen as [Hm _]. rewrite Hm.
    apply lookup_app_Some in Hi as [Hi|[Hl Hi]]; [destruct (Hok i r Hi Hr) as (_ & H & _); congruence|].
    apply list_lookup_singleton_Some in Hi as [Hi _]. split_and!; [done..|]. f_equal. lia.
  - unfold ap_set_open. destruct (ap_isOpen s) eqn:Eo; [|exact Hok]. cbn [Bool.eqb].
    intros i r Hi Hr. by destruct (conn_ok_closed (po_close_ref (ap_pool s)) s Hok eq_refl i r Hi).
  - unfold handleSend. destruct (String.eqb _ _); [exact Hok|]. destruct (po_ref (ap_pool s)) as [i|] eqn:Er; [|exact Hok].
    destruct (po_socks (ap_pool s) !! i) as [[]|]; exact Hok.
  - apply (conn_ok_sock _ WsConnecting); [done..|]. intros _. by left.
  - by destruct f.
  - destruct Hen as (r & Hi & _). apply (conn_ok_sock _ r); [done..|]. intros [H|H]; done.
  - destruct (ap_isOpen s) eqn:Eo.
    + intros i r Hi Hr. by destruct (conn_ok_closed (po_close_ref (ap_pool s)) s Hok eq_refl i r Hi).
    + intros i r Hi Hr. destruct (Hok i r Hi Hr) as (_ & H & _). congruence.
Qed.

(** C26: in every execution the chat has at most one connection, which is the one it
    sends through, and has none when the panel is closed or the page is left;
    a message leaves only through an open socket of an open panel. *)
Theorem panel_single_connection strict es qs s e :
  run ap_enabled (ap_handle strict) ap_init es qs s -> ap_enabled s e ->
  (forall i j r r', po_socks (ap_pool s) !! i = Some r -> po_socks (ap_pool s) !! j = Some r' ->
     active r -> active r' -> i = j) /\
  (ap_isOpen s = false \/ ap_mounted s = false -> forall i r, po_socks (ap_pool s) !! i = Some r -> ~ active r) /\
  forall i t, ApSendText i t ∈ snd (ap_handle strict e s) ->
    e = ApSend /\ t = ap_input s /\ ap_isOpen s = true /\ po_socks (ap_pool s) !! i = Some WsOpen.
Proof.
  intros Hrun Hen. assert (Hok : conn_ok s).
  { revert Hrun. apply run_invariant; [intros i r Hi; by destruct i|]. intros; by apply ap_handle_conn. }
  split_and!.
  - intros i j r r' Hi Hj Hr Hr'. destruct (Hok i r Hi Hr) as (_ & _ & H1), (Hok j r' Hj Hr') as (_ & _ & H2). congruence.
  - intros Hc i r Hi Hr. destruct (Hok i r Hi Hr) as (H1 & H2 & _). destruct Hc; congruence.
  - intros i t Hq. destruct e; cbn [ap_handle snd] in Hq; try (by elem_inv Hq).
    unfold handleSend in Hq. destruct (String.eqb _ _); [by elem_inv Hq|].
    destruct (po_ref (ap_pool s)) as [j|]; [|by elem_inv Hq].
    destruct (po_socks (ap_pool s) !! j) as [[]|] eqn:Ej; elem_inv Hq; simplify_eq.
    destruct (Hok j WsOpen Ej (or_intror eq_refl)) as (_ & Ho & _). done.
Qed.

(** ** A question during an answer *)

(** A message sent while the agent is answering cuts the answer off: every chunk
    that follows is dropped until the backend announces a new answer. *)
Lemma question_cuts_answer es qs s cs i :
  run ap_enabled (ap_handle false) ap_init es qs s ->
  trim (ap_input s) <> EmptyString -> po_ref (ap_pool s) = Some i -> po_socks (ap_pool s) !! i = Some WsOpen ->
  let s' := fst (exec (ap_handle false) (ApSend :: ((fun c => ApFrame i (FChunk c)) <$> cs)) s) in
  panel_transcript s' = panel_transcript s ++ [PanelMessage PUser (ap_input s)].
Proof.
  intros Hrun Ht Hr Hs. cbn zeta.
  assert (Hok : refs_ok (ap_store s) (ap_messages s)) by (by eapply panel_refs_ok).
  assert (Hchunks : forall t, refs_ok (ap_store t) (ap_messages t) ->
    last (panel_transcript t) = Some (PanelMessage PUser (ap_input s)) ->
    panel_transcript (fst (exec (ap_handle false) ((fun c => ApFrame i (FChunk c)) <$> cs) t)) = panel_transcript t).
  { induction cs as [|c cs IH]; intros t Hokt Hl; [done|].
    destruct (panel_step_refines (ApFrame i (FChunk c)) t Hokt) as [Hok' Et]. cbn [panel_spec] in Et.
    unfold spec_extend in Et. rewrite Hl in Et. rewrite fmap_cons, exec_cons_state, IH; [done|done|by rewrite Et]. }
  destruct (panel_step_refines ApSend s Hok) as [Hok' Es]. cbn [panel_spec] in Es.
  rewrite (proj2 (String.eqb_neq _ _) Ht), Hr in Es.
  rewrite exec_cons_state, Hchunks; [done|done|]. by rewrite Es, last_snoc.
Qed.

(** ** Witnesses *)
Definition demo_ap : list ap_event := [ApOpen; ApSocketOpen 0; ApFrame 0 FTyping; ApFrame 0 (FChunk "He"); ApInput "ok?"].
Definition demo_ap_state : ap_state := fst (exec (ap_handle false) demo_ap ap_init).

Lemma ap_form_offers s e :
  ap_isOpen s = true -> offers_any [Input false (ap_input s) ApInput; Button false (Some ApSend) [Text "Send"]] e ->
  offers (ap_view s) e.
Proof. intros Ho H. unfold ap_view. rewrite Ho, offers_El, !offers_any_app. auto. Qed.

Lemma demo_ap_enabled : all_enabled ap_enabled (ap_handle false) demo_ap ap_init.
Proof.
  cbn [demo_ap all_enabled]. split.
  { split; [done|]. apply offers_click. }
  split; [done|]. split; [done|]. split; [done|]. split; [|done].
  split; [done|]. apply ap_form_offers; [done|]. offers_find.
Qed.

Lemma panel_transcript_refines_witness :
  panel_transcript (fst (ap_handle false (ApFrame 0 (FChunk "llo")) demo_ap_state)) = [greeting; PanelMessage PAgent "Hello"].
Proof.
  refine (eq_trans (proj1 (panel_transcript_refines _ _ demo_ap_state (ApFrame 0 (FChunk "llo"))
    (exec_run _ _ _ _ demo_ap_enabled))) _). reflexivity.
Defined.

Lemma panel_single_connection_witness : ap_isOpen demo_ap_state = true.
Proof.
  refine (proj1 (proj2 (proj2 (proj2 (proj2 (panel_single_connection false _ _ demo_ap_state ApSend
    (exec_run _ _ _ _ demo_ap_enabled) _)) 0 "ok?" (list_elem_of_here _ _))))).
  split; [done|]. apply ap_form_offers; [done|]. offers_find.
Defined.

Lemma question_cuts_answer_witness :
  panel_transcript (fst (exec (ap_handle false) [ApSend; ApFrame 0 (FChunk "llo"); ApFrame 0 (FChunk "!")] demo_ap_state)) =
  [greeting; PanelMessage PAgent "He"; PanelMessage PUser "ok?"].
Proof.
  refine (question_cuts_answer _ _ demo_ap_state ["llo"; "!"] 0 (exec_run _ _ _ _ demo_ap_enabled) _ eq_refl eq_refl).
  discriminate.
Defined.
