(* ===== verification/InvestigationGraph.v ===== *)
(** * Investigation graph ([features/investigations/ui/InvestigationGraph.tsx])

    The graph of one investigation.  A socket delivers updates of nodes into a
    queue, a ticker applies the queue four times a second once the snapshot of
    the graph has arrived, and the same nodes are drawn on a canvas or listed
    as a stepper.  The queue and the flag of the snapshot are references that
    survive a change of the session. *)
From Stdlib Require Import SpecFloat QArith Qround Qminmax Lqa.
From S2P Require Import Prelude JsString Dates Html Http Sockets.
#[local] Open Scope nat_scope.

Record GraphNode := MkGraphNode {
  gn_id : string;
  gn_label : option string;
  gn_type : option string;
  gn_properties : option string;
  gn_status : option string;
  gn_isGateway : bool;
  gn_isSuspicious : bool;
  gn_category : option string;
  gn_ip : option string }.

(** An end of an edge is an identifier or the object of a node. *)
Inductive endpoint := EpId (id : string) | EpNode (id : option string).

Record GraphEdge := MkGraphEdge {
  ge_source_id : option string;
  ge_target_id : option string;
  ge_source : option endpoint;
  ge_target : option endpoint;
  ge_relation : string;
  ge_action : option string;
  ge_width : option Q }.

(** A message of type [node_execution]. *)
Record node_update := NodeUpdate {
  nu_node_id : string; nu_agent_name : option string; nu_label : option string; nu_status : option string }.

(** ** Applying updates *)
Definition set_status (st : option string) (n : GraphNode) : GraphNode :=
  MkGraphNode (gn_id n) (gn_label n) (gn_type n) (gn_properties n) st (gn_isGateway n) (gn_isSuspicious n) (gn_category n) (gn_ip n).

Definition new_node (u : node_update) : GraphNode :=
  MkGraphNode (nu_node_id u) (if truthy_str (nu_agent_name u) then nu_agent_name u else nu_label u)
    None None (nu_status u) false false None None.

(** [findIndex] *)
Definition node_index (id : string) (nodes : list GraphNode) : option nat :=
  fst <$> list_find (fun n => gn_id n = id) nodes.

Definition apply_update (nodes : list GraphNode) (u : node_update) : list GraphNode :=
  match node_index (nu_node_id u) nodes with
  | Some i => alter (set_status (nu_status u)) i nodes
  | None => nodes ++ [new_node u]
  end.

Definition apply_batch (batch : list node_update) (nodes : list GraphNode) : list GraphNode :=
  foldl apply_update nodes batch.

(** ** The snapshot *)

(** The body of the answer: the lists may be missing, and so may the two
    objects that can hold them. *)
Record graph_lists := GraphLists { gl_nodes : option (list GraphNode); gl_edges : option (list GraphEdge) }.
Record graph_body := GraphBody { gb_top : graph_lists; gb_graph_data : option graph_lists; gb_graph_layout : option graph_lists }.

(** An empty array is truthy: only a missing list falls through. *)
Definition first_list {A} (get : graph_lists -> option (list A)) (b : graph_body) : list A :=
  match get (gb_top b), gb_graph_data b ≫= get, gb_graph_layout b ≫= get with
  | Some l, _, _ | None, Some l, _ | None, None, Some l => l
  | None, None, None => []
  end.

Definition baseline_nodes : list GraphNode :=
  [MkGraphNode "router-gw" (Some "WiFi 6 Router Gateway (192.168.1.1)") (Some "RouterHost")
     (Some ("Gateway: 192.168.1.1" +:+ nl +:+ "Radio: 802.11ax" +:+ nl +:+ "Role: Default Router")) (Some "success") true false None None;
   MkGraphNode "client-192.168.1.105" (Some "Station: 192.168.1.105") (Some "ClientHost")
     (Some ("IP: 192.168.1.105" +:+ nl +:+ "MAC: 34:2e:b7:aa:bb:cc" +:+ nl +:+ "Role: Station")) (Some "failed") false true None (Some "192.168.1.105");
   MkGraphNode "domain-c2-malicious.org" (Some "c2-malicious.org") (Some "ExternalDomain")
     (Some ("Domain: c2-malicious.org" +:+ nl +:+ "Category: Known C2" +:+ nl +:+ "Action: DROP")) (Some "failed") false true (Some "known_c2") None].

Definition baseline_edges : list GraphEdge :=
  [MkGraphEdge (Some "client-192.168.1.105") (Some "router-gw") None None "ROUTED_THROUGH" (Some "ALLOW") (Some (5 # 2));
   MkGraphEdge (Some "router-gw") (Some "domain-c2-malicious.org") None None "WAN_EGRESS" (Some "DROP") (Some (7 # 2));
   MkGraphEdge (Some "client-192.168.1.105") (Some "domain-c2-malicious.org") None None "VISITED_SITE" (Some "OBSERVED") (Some (3 # 2))].

Definition snapshot_graph (b : graph_body) : list GraphNode * list GraphEdge :=
  let nodes := first_list gl_nodes b in
  if length nodes =? 0 then (baseline_nodes, baseline_edges) else (nodes, first_list gl_edges b).

(** ** The component *)
Inductive view_mode := Topology | Stepper.
#[export] Instance view_mode_eq_dec : EqDecision view_mode.
Proof. solve_decision. Defined.

Record ig_state := GraphState {
  ig_sessionId : string;
  ig_nodes : list GraphNode;
  ig_edges : list GraphEdge;
  ig_viewMode : view_mode;
  ig_selectedNode : option GraphNode;
  ig_dimensions : Z * Z;
  ig_pending : list node_update;          (* [pendingUpdates.current] *)
  ig_loaded : bool;                       (* [isSnapshotLoaded.current] *)
  ig_socks : list ready;                  (* the last one is the effect's *)
  ig_flight : flight string;              (* the session a snapshot was asked for *)
  ig_mounted : bool }.

Inductive ig_event :=
| IgSession (sid : string) | IgUnmount
| IgOpened (i : nat) | IgUpdate (i : nat) (u : node_update) | IgClosed (i : nat)
| IgTick
| IgSnapshot (k : nat) (r : http_result (option graph_body))
| IgView (m : view_mode) | IgSelect (n : GraphNode) | IgDeselect
| IgResize (window rect : Q).

Inductive ig_effect := OpenStream (path : string) | GetGraph (path authorization : string).

Definition ig_set_graph n e p l f s := GraphState (ig_sessionId s) n e (ig_viewMode s) (ig_selectedNode s) (ig_dimensions s) p l (ig_socks s) f (ig_mounted s).
Definition ig_set_socks k s := GraphState (ig_sessionId s) (ig_nodes s) (ig_edges s) (ig_viewMode s) (ig_selectedNode s) (ig_dimensions s) (ig_pending s) (ig_loaded s) k (ig_flight s) (ig_mounted s).
Definition ig_set_view m n d s := GraphState (ig_sessionId s) (ig_nodes s) (ig_edges s) m n d (ig_pending s) (ig_loaded s) (ig_socks s) (ig_flight s) (ig_mounted s).

(** [Bearer ${localStorage.getItem('token')}]: a missing token is printed. *)
Definition authorization (token : option string) : string := "Bearer " +:+ nullish token "null".

(** *** The size of the canvas *)
Definition f64_floor (x : spec_float) : Z :=
  match x with
  | S754_finite s m e =>
      let v := if s then Zneg m else Zpos m in if Z.leb 0 e then (v * 2 ^ e)%Z else (v / 2 ^ (- e))%Z
  | _ => 0%Z
  end.

Definition graph_padding (window : Q) : Z := if Qle_bool 640 window then 48 else 32.

Definition updateDims (window rect : Q) : Z * Z :=
  let contentWidth := Z.max 260 (Qfloor (rect - inject_Z (graph_padding window))) in
  (contentWidth,
   if Qle_bool 640 window
   then Z.max 380 (Z.min 500 (f64_floor (f64_mul (f64_of_Z contentWidth) (f64_div (f64_of_Z 55) (f64_of_Z 100)))))
   else Z.max 300 (Z.min 380 (f64_floor (f64_mul (f64_of_Z contentWidth) (f64_div (f64_of_Z 3) (f64_of_Z 4)))))).

Section Handle.
Context (token : option string).

(** The effect on [[sessionId]]: the stream, the ticker and the snapshot. *)
Definition ig_effect_run (s : ig_state) : ig_state * list ig_effect :=
  (GraphState (ig_sessionId s) (ig_nodes s) (ig_edges s) (ig_viewMode s) (ig_selectedNode s) (ig_dimensions s)
     (ig_pending s) (ig_loaded s) (ig_socks s ++ [WsConnecting]) (fl_await (ig_sessionId s) (ig_flight s)) true,
   [OpenStream ("/api/investigations/" +:+ ig_sessionId s +:+ "/stream");
    GetGraph ("/api/investigations/" +:+ ig_sessionId s +:+ "/graph") (authorization token)]).

(** Its cleanup closes the socket it opened; the ticker ends with it. *)
Definition ig_cleanup (s : ig_state) : ig_state :=
  match last (ig_socks s) with
  | Some WsConnecting | Some WsOpen => ig_set_socks (<[length (ig_socks s) - 1 := WsClosing]> (ig_socks s)) s
  | _ => s
  end.

(** The first render takes a size from the window, which the effect of the
    observer replaces at once by that of the container. *)
Definition ig_mount (sid : string) (window rect : Q) : ig_state * list ig_effect :=
  ig_effect_run (GraphState sid [] [] Topology None (updateDims window rect) [] false [] fl_empty true).

Definition set_session (sid : string) (s : ig_state) : ig_state :=
  GraphState sid (ig_nodes s) (ig_edges s) (ig_viewMode s) (ig_selectedNode s) (ig_dimensions s)
    (ig_pending s) (ig_loaded s) (ig_socks s) (ig_flight s) (ig_mounted s).

Definition render_tick (s : ig_state) : ig_state :=
  if negb (ig_loaded s) || (length (ig_pending s) =? 0) then s
  else ig_set_graph (apply_batch (ig_pending s) (ig_nodes s)) (ig_edges s) [] (ig_loaded s) (ig_flight s) s.

(** A body that is missing makes the handler throw, which the [catch] takes. *)
Definition on_snapshot (k : nat) (r : http_result (option graph_body)) (s : ig_state) : ig_state :=
  let f := fl_forget k (ig_flight s) in
  match r with
  | HttpOk (Some b) => let '(n, e) := snapshot_graph b in ig_set_graph n e (ig_pending s) true f s
  | HttpOk None | HttpErr _ => ig_set_graph (ig_nodes s) (ig_edges s) (ig_pending s) true f s
  end.

Definition ig_handle (e : ig_event) (s : ig_state) : ig_state * list ig_effect :=
  match e with
  | IgSession sid =>
      if String.eqb sid (ig_sessionId s) then (s, []) else ig_effect_run (set_session sid (ig_cleanup s))
  | IgUnmount =>
      let s := ig_cleanup s in
      (GraphState (ig_sessionId s) (ig_nodes s) (ig_edges s) (ig_viewMode s) (ig_selectedNode s) (ig_dimensions s)
         (ig_pending s) (ig_loaded s) (ig_socks s) (ig_flight s) false, [])
  | IgOpened i => (ig_set_socks (<[i := WsOpen]> (ig_socks s)) s, [])
  | IgUpdate _ u => (ig_set_graph (ig_nodes s) (ig_edges s) (ig_pending s ++ [u]) (ig_loaded s) (ig_flight s) s, [])
  | IgClosed i => (ig_set_socks (<[i := WsClosed]> (ig_socks s)) s, [])
  | IgTick => (render_tick s, [])
  | IgSnapshot k r => (on_snapshot k r s, [])
  | IgView m => (ig_set_view m (ig_selectedNode s) (ig_dimensions s) s, [])
  | IgSelect n => (ig_set_view (ig_viewMode s) (Some n) (ig_dimensions s) s, [])
  | IgDeselect => (ig_set_view (ig_viewMode s) None (ig_dimensions s) s, [])
  | IgResize w r => (ig_set_view (ig_viewMode s) (ig_selectedNode s) (updateDims w r) s, [])
  end.
End Handle.

(** ** The canvas *)
Inductive canvas_cmd :=
| BeginPath | Arc (x y r : Q) | FillStyle (c : string) | Fill
| LineWidth (w : Q) | StrokeStyle (c : string) | Stroke
| Font (px : Q) | TextAlign (a : string) | TextBaseline (b : string) | FillText (t : string) (x y : Q).

Definition node_gateway (n : GraphNode) : bool := gn_isGateway n || bool_decide (gn_type n = Some "RouterHost").
Definition node_threat (n : GraphNode) : bool := gn_isSuspicious n || bool_decide (gn_status n = Some "failed").
Definition node_radius (n : GraphNode) : Q :=
  if node_gateway n then 14 else if bool_decide (gn_type n = Some "ClientHost") then 10 else 8.

Definition node_fill (n : GraphNode) : string :=
  if node_gateway n then "#6366f1"
  else if bool_decide (gn_type n = Some "ClientHost") then (if node_threat n then "#f43f5e" else "#06b6d4")
  else if bool_decide (gn_type n = Some "ExternalDomain") then
    if bool_decide (gn_category n = Some "known_c2") || node_threat n then "#ef4444"
    else if bool_decide (gn_category n = Some "banking") then "#f59e0b"
    else if bool_decide (gn_category n = Some "login") then "#a855f7" else "#3b82f6"
  else "#64748b".

Definition node_title (n : GraphNode) : string := or_str (gn_label n) (gn_id n).

Definition drawNode (n : GraphNode) (x y globalScale : Q) : list canvas_cmd :=
  let r := node_radius n in
  (if node_gateway n then [BeginPath; Arc x y (r + 5); FillStyle "rgba(99, 102, 241, 0.25)"; Fill]
   else if node_threat n then [BeginPath; Arc x y (r + 4); FillStyle "rgba(239, 68, 68, 0.35)"; Fill] else [])
  ++ [BeginPath; Arc x y r; FillStyle (node_fill n); Fill;
      LineWidth (2 / globalScale); StrokeStyle "#ffffff"; Stroke;
      Font (Qmax 10 (12 / globalScale)); TextAlign "center"; TextBaseline "top";
      FillStyle (if node_gateway n then "#c7d2fe" else if node_threat n then "#fecaca" else "#e2e8f0");
      FillText (node_title n) x (y + r + 4)].

Definition getLinkColor (e : GraphEdge) : string :=
  let action := or_str (ge_action e) EmptyString in
  if String.eqb action "DROP" then "#ef4444"
  else if String.eqb action "ALLOW" then "#10b981"
  else if String.eqb action "NAT" then "#3b82f6"
  else if String.eqb (ge_relation e) "VISITED_SITE" then "#6366f1" else "#64748b".

(** [e.source_id || e.source] *)
Definition link_end (id : option string) (ep : option endpoint) : option endpoint :=
  if truthy_str id then EpId <$> id else ep.

Definition formattedLink (e : GraphEdge) : GraphEdge :=
  MkGraphEdge (ge_source_id e) (ge_target_id e) (link_end (ge_source_id e) (ge_source e))
    (link_end (ge_target_id e) (ge_target e)) (ge_relation e) (ge_action e) (ge_width e).

(** [link.width || 2] *)
Definition link_width (e : GraphEdge) : Q :=
  match ge_width e with Some w => if Qeq_bool w 0 then 2 else w | None => 2 end.

(** ** The rendered component *)
Definition status_tone (st : option string) : string :=
  if bool_decide (st = Some "success") then "bg-green-900/40 text-green-400 border border-green-500/30"
  else if bool_decide (st = Some "running") then "bg-blue-900/40 text-blue-400 border border-blue-500/30 animate-pulse"
  else "bg-red-900/40 text-red-400 border border-red-500/30".

Definition leaves (n : GraphNode) (e : GraphEdge) : bool :=
  bool_decide (ge_source_id e = Some (gn_id n)) ||
  match ge_source e with Some (EpNode (Some i)) => String.eqb i (gn_id n) | _ => false end.

Definition target_text (e : GraphEdge) : string :=
  or_str (ge_target_id e)
    (match ge_target e with Some (EpNode i) => nullish i EmptyString | Some (EpId i) => i | None => EmptyString end).

Definition edge_line (e : GraphEdge) : html ig_event :=
  El "div" "" [Text "↳"; El "span" "" [Text (ge_relation e)]; El "span" "" [Text (target_text e)]].

Definition step_item (nodes : list GraphNode) (edges : list GraphEdge) (i : nat) (n : GraphNode) : html ig_event :=
  let nodeEdges := List.filter (leaves n) edges in
  El "div" "" (
    [Text (of_nat_str (i + 1))]
    ++ when (negb (i =? length nodes - 1)) [El "div" "w-0.5" []]
    ++ [El "span" "" (Text (node_title n) ::
          when (truthy_str (gn_type n)) [Text ("[" +:+ nullish (gn_type n) EmptyString +:+ "]")]);
        El "span" (status_tone (gn_status n)) [Text (or_str (to_upper <$> gn_status n) "DETECTED")]]
    ++ when (truthy_str (gn_properties n)) [Text (nullish (gn_properties n) EmptyString)]
    ++ when (0 <? length nodeEdges) (Text "Provenance Edges:" :: (edge_line <$> nodeEdges))).

Definition selected_card (n : GraphNode) : html ig_event :=
  El "div" "" (
    [Text (node_title n); Button false (Some IgDeselect) [Text "×"]; Text ("Type: " +:+ or_str (gn_type n) "Entity")]
    ++ when (truthy_str (gn_category n)) [Text ("Category: " +:+ nullish (gn_category n) EmptyString)]
    ++ when (truthy_str (gn_ip n)) [Text ("IP: " +:+ nullish (gn_ip n) EmptyString)]
    ++ when (truthy_str (gn_properties n)) [Text (nullish (gn_properties n) EmptyString)]).

(** The canvas reports clicks on the nodes it draws. *)
Definition graph_canvas (s : ig_state) : html ig_event :=
  El "canvas" (of_Z (fst (ig_dimensions s)) +:+ "x" +:+ of_Z (snd (ig_dimensions s)))
    (((fun n => Clickable (IgSelect n) [Text (nullish (gn_label n) EmptyString)]) <$> ig_nodes s)
     ++ ((fun e => El "line" (getLinkColor e) []) <$> (formattedLink <$> ig_edges s))).

Definition topology_view (s : ig_state) : html ig_event :=
  El "div" "" (graph_canvas s :: (Text <$> ["WiFi 6 Gateway"; "Client Station"; "DROP / Threat"; "Allowed Flow"])
    ++ when_some (ig_selectedNode s) (fun n => [selected_card n])).

Definition mode_button (s : ig_state) (m : view_mode) (label : string) : html ig_event :=
  Button false (Some (IgView m))
    [El "span" (if bool_decide (ig_viewMode s = m) then "bg-indigo-600 text-white font-bold shadow" else "text-slate-400 hover:text-white")
       [Text label]].

Definition ig_view (s : ig_state) : html ig_event :=
  El "div" "" (
    [El "h2" "" [Text "WiFi Router & Investigation Graph"];
     mode_button s Topology "Topology Graph"; mode_button s Stepper "Provenance Stepper"; Text "● LIVE STREAM"]
    ++ match ig_viewMode s with
       | Topology => [topology_view s]
       | Stepper => imap (step_item (ig_nodes s) (ig_edges s)) (ig_nodes s)
       end).

Definition ig_enabled (s : ig_state) (e : ig_event) : Prop :=
  match e with
  | IgSession _ | IgUnmount | IgTick | IgResize _ _ => ig_mounted s = true
  | IgOpened i => ig_socks s !! i = Some WsConnecting
  | IgUpdate i _ => ig_socks s !! i = Some WsOpen
  | IgClosed i => exists r, ig_socks s !! i = Some r /\ r <> WsClosed
  | IgSnapshot k _ => is_Some (fl_map (ig_flight s) !! k)
  | _ => ig_mounted s = true /\ offers (ig_view s) e
  end.

(** ** What a batch does *)
Definition ids (nodes : list GraphNode) : list string := gn_id <$> nodes.

Fixpoint upsert (u : node_update) (nodes : list GraphNode) : list GraphNode :=
  match nodes with
  | [] => [new_node u]
  | n :: ns => if bool_decide (gn_id n = nu_node_id u) then set_status (nu_status u) n :: ns else n :: upsert u ns
  end.

Lemma apply_update_upsert nodes u : apply_update nodes u = upsert u nodes.
Proof.
  unfold apply_update, node_index. induction nodes as [|n ns IH]; [done|]. cbn [list_find upsert].
  destruct (decide (gn_id n = nu_node_id u)) as [E|E].
  - by rewrite bool_decide_eq_true_2.
  - rewrite bool_decide_eq_false_2 by done. rewrite <- IH.
    destruct (list_find _ ns) as [[i m]|]; done.
Qed.

(** The first node with an identifier. *)
Definition node_of (id : string) (nodes : list GraphNode) : option GraphNode :=
  snd <$> list_find (fun n => gn_id n = id) nodes.

Lemma node_of_cons id n ns : node_of id (n :: ns) = if decide (gn_id n = id) then Some n else node_of id ns.
Proof.
  unfold node_of. cbn [list_find]. destruct (decide (gn_id n = id)); [done|]. by destruct (list_find _ ns) as [[]|].
Qed.

Lemma node_of_upsert id u nodes :
  node_of id (upsert u nodes) =
  if decide (id = nu_node_id u)
  then Some (match node_of id nodes with Some n => set_status (nu_status u) n | None => new_node u end)
  else node_of id nodes.
Proof.
  induction nodes as [|n ns IH]; cbn [upsert].
  { rewrite node_of_cons. cbn [gn_id new_node].
    destruct (decide (nu_node_id u = id)) as [<-|Hne]; [by rewrite decide_True|]. by rewrite decide_False by congruence. }
  case_bool_decide as E; rewrite !node_of_cons; cbn [gn_id set_status].
  - rewrite E. destruct (decide (nu_node_id u = id)) as [<-|Hne]; [by rewrite decide_True|]. rewrite decide_False by congruence. done.
  - rewrite IH. destruct (decide (gn_id n = id)) as [<-|]; [|done]. by rewrite decide_False.
Qed.

Lemma upsert_ids u nodes :
  ids (upsert u nodes) = ids nodes ++ (if decide (nu_node_id u ∈ ids nodes) then [] else [nu_node_id u]).
Proof.
  induction nodes as [|n ns IH]; [done|]. cbn [upsert]. unfold ids in *. rewrite fmap_cons.
  case_bool_decide as E.
  - rewrite decide_True by (rewrite E; left). by rewrite app_nil_r.
  - rewrite fmap_cons, IH. cbn [app]. f_equal. f_equal.
    destruct (decide (nu_node_id u ∈ gn_id <$> ns)) as [H|H]; [by rewrite decide_True by (by right)|].
    rewrite decide_False; [done|]. intros [H'|H']%elem_of_cons; congruence.
Qed.

Lemma upsert_NoDup u nodes : NoDup (ids nodes) -> NoDup (ids (upsert u nodes)).
Proof.
  intros H. rewrite upsert_ids. destruct (decide (nu_node_id u ∈ ids nodes)) as [Hi|Hi]; [by rewrite app_nil_r|].
  apply NoDup_app. split_and!; [done| |apply NoDup_singleton]. by intros x Hx ->%list_elem_of_singleton.
Qed.

Lemma batch_upsert b nodes : apply_batch b nodes = foldl (fun ns u => upsert u ns) nodes b.
Proof.
  unfold apply_batch. revert nodes. induction b as [|u b IH]; intros nodes; [done|]. cbn. by rewrite apply_update_upsert.
Qed.

Lemma batch_snoc b u nodes : apply_batch (b ++ [u]) nodes = upsert u (apply_batch b nodes).
Proof. unfold apply_batch. rewrite foldl_app. cbn. apply apply_update_upsert. Qed.

Lemma batch_app b b' nodes : apply_batch (b ++ b') nodes = apply_batch b' (apply_batch b nodes).
Proof. apply foldl_app. Qed.

Lemma batch_NoDup b nodes : NoDup (ids nodes) -> NoDup (ids (apply_batch b nodes)).
Proof.
  intros H. induction b as [|u b IH] using rev_ind; [done|]. rewrite batch_snoc. by apply upsert_NoDup.
Qed.

(** The last update of a node in a batch. *)
Definition last_update (id : string) (b : list node_update) : option node_update :=
  last (List.filter (fun u => bool_decide (nu_node_id u = id)) b).

(** Applying a batch is the pointwise update of the graph: every node ends with
    the status of its last update and keeps all its other fields, a node that
    is not in the batch keeps everything, and the nodes that were there stay
    in place with the new ones behind them. *)
Lemma batch_pointwise b nodes id :
  (gn_status <$> node_of id (apply_batch b nodes)) =
    match last_update id b with Some u => Some (nu_status u) | None => gn_status <$> node_of id nodes end /\
  (forall n, node_of id nodes = Some n ->
     set_status None <$> node_of id (apply_batch b nodes) = Some (set_status None n)) /\
  ids nodes `prefix_of` ids (apply_batch b nodes).
Proof.
  induction b as [|u b (IH1 & IH2 & IH3)] using rev_ind.
  { split_and!; [done| |done]. intros n Hn. change (apply_batch [] nodes) with nodes. by rewrite Hn. }
  rewrite batch_snoc, !node_of_upsert. unfold last_update. rewrite List.filter_app. cbn [List.filter]. split_and!.
  - destruct (decide (id = nu_node_id u)) as [->|Hne].
    + rewrite bool_decide_eq_true_2, last_snoc by done. by destruct (node_of _ (apply_batch b nodes)).
    + rewrite bool_decide_eq_false_2, app_nil_r by congruence. exact IH1.
  - intros n Hn. specialize (IH2 n Hn). destruct (decide (id = nu_node_id u)) as [->|Hne]; [|done].
    destruct (node_of (nu_node_id u) (apply_batch b nodes)); [|done]. by destruct g; simplify_eq/=.
  - etrans; [exact IH3|]. rewrite upsert_ids. by eexists.
Qed.

(** ** The ticker is invisible *)
Definition update_of (e : ig_event) : option node_update := match e with IgUpdate _ u => Some u | _ => None end.
Definition no_snapshot (e : ig_event) : Prop := match e with IgSnapshot _ _ => False | _ => True end.

(** The graph with everything that waits in the queue. *)
Definition ig_current (s : ig_state) : list GraphNode := apply_batch (ig_pending s) (ig_nodes s).

Lemma ig_cleanup_graph s : ig_nodes (ig_cleanup s) = ig_nodes s /\ ig_pending (ig_cleanup s) = ig_pending s /\ ig_loaded (ig_cleanup s) = ig_loaded s.
Proof. unfold ig_cleanup. by destruct (last (ig_socks s)) as [[]|]. Qed.

Lemma step_current token s e :
  no_snapshot e -> ig_current (fst (ig_handle token e s)) = apply_batch (option_list (update_of e)) (ig_current s).
Proof.
  intros He. unfold ig_current. destruct (ig_cleanup_graph s) as (Hn & Hp & _).
  destruct e; cbn [ig_handle update_of option_list fst] in *; try done.
  - destruct (String.eqb _ _); [done|]. cbn. by rewrite Hn, Hp.
  - cbn. by rewrite Hn, Hp.
  - cbn [ig_set_graph ig_nodes ig_pending]. by rewrite batch_app.
  - unfold render_tick. by destruct (negb (ig_loaded s) || _).
Qed.

(** From any point on, as long as no snapshot arrives, the graph with its queue
    is the graph of that point with every update received since applied in
    order. *)
Lemma queue_transparent token s0 es qs s :
  run ig_enabled (ig_handle token) s0 es qs s -> Forall no_snapshot es ->
  ig_current s = apply_batch (omap update_of es) (ig_current s0).
Proof.
  intros Hrun Hno. induction Hrun as [|es qs s e s' q _ IH _ Hh]; [done|].
  apply Forall_app in Hno as [Hno He]. rewrite Forall_singleton in He.
  pose proof (step_current token s e He) as H. rewrite Hh in H. cbn [fst] in H.
  rewrite H, (IH Hno), omap_app, <- batch_app. by destruct e.
Qed.

(** Events of one session apart from the answer to its snapshot. *)
Definition in_session (e : ig_event) : Prop :=
  match e with IgSnapshot _ _ | IgSession _ | IgUnmount => False | _ => True end.

Lemma in_session_no_snapshot es : Forall in_session es -> Forall no_snapshot es.
Proof. intros H. eapply Forall_impl; [exact H|]. by intros []. Qed.

Lemma step_loaded token s e : in_session e -> ig_loaded (fst (ig_handle token e s)) = ig_loaded s.
Proof.
  intros He. destruct e; try done. cbn [ig_handle fst]. unfold render_tick. by destruct (negb _ || _).
Qed.

Lemma step_waiting token s e :
  in_session e -> ig_loaded s = false ->
  ig_nodes (fst (ig_handle token e s)) = ig_nodes s /\
  ig_pending (fst (ig_handle token e s)) = ig_pending s ++ option_list (update_of e).
Proof.
  intros He Hl. destruct e; try done; cbn [ig_handle fst update_of option_list]; rewrite ?app_nil_r; try done.
  unfold render_tick. by rewrite Hl.
Qed.

(** Until the snapshot arrives nothing is drawn and everything is kept. *)
Lemma waiting_for_snapshot token sid w r es qs s :
  run ig_enabled (ig_handle token) (fst (ig_mount token sid w r)) es qs s -> Forall in_session es ->
  ig_loaded s = false /\ ig_nodes s = [] /\ ig_pending s = omap update_of es.
Proof.
  intros Hrun Hes. induction Hrun as [|es qs s e s' q _ IH _ Hh]; [done|].
  apply Forall_app in Hes as [Hes He]. rewrite Forall_singleton in He.
  destruct (IH Hes) as (Hl & Hn & Hp). destruct (step_waiting token s e He Hl) as [H1 H2].
  pose proof (step_loaded token s e He) as H3. rewrite Hh in H1, H2, H3. cbn [fst] in *.
  rewrite H1, H2, H3, Hn, Hp, Hl, omap_app. split_and!; [done..|]. by destruct e.
Qed.

Lemma run_loaded token s0 es qs s :
  run ig_enabled (ig_handle token) s0 es qs s -> Forall in_session es -> ig_loaded s = ig_loaded s0.
Proof.
  intros Hrun Hes. induction Hrun as [|es qs s e s' q _ IH _ Hh]; [done|].
  apply Forall_app in Hes as [Hes He]. rewrite Forall_singleton in He.
  pose proof (step_loaded token s e He) as H. rewrite Hh in H. cbn [fst] in H. rewrite H. auto.
Qed.

Lemma tick_shows_current token s :
  ig_loaded s = true ->
  ig_nodes (fst (ig_handle token IgTick s)) = ig_current s /\ ig_pending (fst (ig_handle token IgTick s)) = [].
Proof.
  intros Hl. cbn. unfold render_tick, ig_current. rewrite Hl. cbn [negb orb].
  destruct (Nat.eqb_spec (length (ig_pending s)) 0) as [E|E]; [|done]. by rewrite (nil_length_inv _ E).
Qed.

(** C14: collecting the updates of a session and applying them four times a
    second is the same as applying each when it arrives.  Until the snapshot
    arrives nothing is drawn; once it has arrived, the next tick draws the
    graph of the snapshot with every update of the session, those received
    before the snapshot and those received after it, applied one by one in
    their order: a node ends with the status of the last update for it, or
    with that of the snapshot when there was none, and the nodes of the
    snapshot stay in place with the new ones behind them. *)
Theorem throttle_transparent token sid w r es1 qs1 s1 k b es2 qs2 s2 :
  run ig_enabled (ig_handle token) (fst (ig_mount token sid w r)) es1 qs1 s1 -> Forall in_session es1 ->
  run ig_enabled (ig_handle token) (fst (ig_handle token (IgSnapshot k (HttpOk (Some b))) s1)) es2 qs2 s2 ->
  Forall in_session es2 ->
  let updates := omap update_of es1 ++ omap update_of es2 in
  let start := fst (snapshot_graph b) in
  let drawn := ig_nodes (fst (ig_handle token IgTick s2)) in
  ig_nodes s1 = [] /\
  drawn = foldl (fun ns u => upsert u ns) start updates /\
  ids start `prefix_of` ids drawn /\
  forall id, gn_status <$> node_of id drawn =
    match last_update id updates with Some u => Some (nu_status u) | None => gn_status <$> node_of id start end.
Proof.
  intros H1 He1 H2 He2 updates start drawn.
  destruct (waiting_for_snapshot _ _ _ _ _ _ _ H1 He1) as (Hl & Hn & Hp).
  assert (Hl2 : ig_loaded s2 = true).
  { rewrite (run_loaded _ _ _ _ _ H2 He2). cbn. unfold on_snapshot. by destruct (snapshot_graph b). }
  assert (Hd : drawn = apply_batch updates start).
  { unfold drawn. rewrite (proj1 (tick_shows_current token s2 Hl2)).
    rewrite (queue_transparent _ _ _ _ _ H2 (in_session_no_snapshot _ He2)).
    unfold updates, start. rewrite batch_app. f_equal. cbn. unfold on_snapshot, ig_current.
    destruct (snapshot_graph b). cbn. by rewrite Hp. }
  rewrite Hd. split_and!; [done|apply batch_upsert| |].
  - by destruct (batch_pointwise updates start EmptyString) as (_ & _ & H).
  - intros id. apply batch_pointwise.
Qed.

(** ** One node per identifier *)
Definition distinct_snapshot (e : ig_event) : Prop :=
  match e with IgSnapshot _ (HttpOk (Some b)) => NoDup (ids (first_list gl_nodes b)) | _ => True end.

Lemma snapshot_NoDup b : NoDup (ids (first_list gl_nodes b)) -> NoDup (ids (fst (snapshot_graph b))).
Proof.
  intros H. unfold snapshot_graph. destruct (length (first_list gl_nodes b) =? 0); [|done].
  apply (bool_decide_unpack _). vm_compute. exact I.
Qed.

(** C21: in every execution whose snapshots have distinct identifiers the graph has
    one node per identifier, through any sequence of updates, batches and
    changes of the session. *)
Theorem graph_ids_unique token sid w r es qs s :
  run ig_enabled (ig_handle token) (fst (ig_mount token sid w r)) es qs s -> Forall distinct_snapshot es ->
  NoDup (ids (ig_nodes s)).
Proof.
  intros Hrun Hes. revert Hes Hrun.
  apply (run_invariant_where _ _ _ (fun s => NoDup (ids (ig_nodes s)))); [apply NoDup_nil_2|].
  intros t e Ht _ He. destruct (ig_cleanup_graph t) as (Hn & _). destruct e; cbn [ig_handle fst]; try exact Ht.
  - destruct (String.eqb _ _); [done|]. cbn. by rewrite Hn.
  - cbn. by rewrite Hn.
  - unfold render_tick. destruct (negb _ || _); [done|]. by apply batch_NoDup.
  - unfold on_snapshot. destruct r0 as [[b|]|]; [|done..]. apply snapshot_NoDup in He. by destruct (snapshot_graph b).
Qed.

(** ** A change of the session *)

(** Nothing ties an answer to the session it was asked for: when the snapshot of
    the session that was left arrives after that of the new one, the old
    graph is shown under the new session. *)
Lemma stale_snapshot_shown token s k sid a b :
  ig_mounted s = true -> fl_ok (ig_flight s) -> fl_map (ig_flight s) !! k = Some (ig_sessionId s) ->
  sid <> ig_sessionId s ->
  let es := [IgSession sid; IgSnapshot (fl_next (ig_flight s)) (HttpOk (Some b)); IgSnapshot k (HttpOk (Some a))] in
  let s' := fst (exec (ig_handle token) es s) in
  all_enabled ig_enabled (ig_handle token) es s /\
  ig_sessionId s' = sid /\ ig_nodes s' = fst (snapshot_graph a) /\ ig_edges s' = snd (snapshot_graph a).
Proof.
  intros Hm Hok Hk Hne. pose proof (Hok _ _ Hk) as Hlt.
  assert (Eh : ig_handle token (IgSession sid) s = ig_effect_run token (set_session sid (ig_cleanup s))).
  { cbn [ig_handle]. by rewrite (proj2 (String.eqb_neq _ _) Hne). }
  assert (Hf : ig_flight (ig_cleanup s) = ig_flight s) by (unfold ig_cleanup; by destruct (last _) as [[]|]).
  assert (Hs : forall x, ig_flight (fst (ig_effect_run token x)) = fl_await (ig_sessionId x) (ig_flight x)) by done.
  cbn zeta. rewrite !exec_cons_state. cbn [all_enabled exec fst]. rewrite Eh. split_and!.
  - done.
  - cbn [ig_enabled]. rewrite Hs. cbn [set_session ig_flight]. rewrite Hf. eexists. apply fl_await_lookup. by left.
  - cbn [ig_handle fst ig_enabled]. exists (ig_sessionId s). unfold on_snapshot.
    destruct (snapshot_graph b) as [n e]. cbn [ig_set_graph ig_flight]. rewrite Hs. cbn [set_session ig_flight]. rewrite Hf.
    apply fl_forget_lookup. split; [lia|]. apply fl_await_lookup. right. split; [lia|done].
  - done.
  - cbn [ig_handle fst]. unfold on_snapshot. by destruct (snapshot_graph a), (snapshot_graph b).
  - cbn [ig_handle fst]. unfold on_snapshot. by destruct (snapshot_graph a), (snapshot_graph b).
  - cbn [ig_handle fst]. unfold on_snapshot. by destruct (snapshot_graph a), (snapshot_graph b).
Qed.

(** Nor is the flag of the snapshot reset: after a change of the session an
    update of the new session that arrives before its snapshot is applied to
    the graph of the old one, and the snapshot discards it. *)
Lemma session_update_lost token s sid u k b :
  ig_loaded s = true -> ig_pending s = [] -> sid <> ig_sessionId s ->
  let s1 := fst (exec (ig_handle token) [IgSession sid; IgUpdate (length (ig_socks s)) u; IgTick] s) in
  let s2 := fst (ig_handle token (IgSnapshot k (HttpOk (Some b))) s1) in
  ig_sessionId s1 = sid /\ ig_nodes s1 = upsert u (ig_nodes s) /\
  ig_nodes s2 = fst (snapshot_graph b) /\ ig_pending s2 = [].
Proof.
  intros Hl Hp Hne. destruct (ig_cleanup_graph s) as (Hn & Hp' & Hl'). cbn zeta.
  rewrite !exec_cons_state. cbn [exec fst]. cbn [ig_handle]. rewrite (proj2 (String.eqb_neq _ _) Hne).
  cbn [ig_effect_run fst]. unfold render_tick.
  cbn [ig_set_graph set_session ig_loaded ig_pending ig_nodes ig_sessionId].
  rewrite Hl', Hl, Hp', Hp. cbn [negb orb app length Nat.eqb].
  unfold on_snapshot. destruct (snapshot_graph b) as [n e].
  cbn [ig_set_graph ig_nodes ig_pending ig_sessionId fst]. rewrite Hn. split_and!; [done| |done..].
  cbn. apply apply_update_upsert.
Qed.

(** An investigation without a graph shows an invented one, in which a station
    talks to a command and control server. *)
Lemma empty_graph_invented token s k b :
  first_list gl_nodes b = [] ->
  let s' := fst (ig_handle token (IgSnapshot k (HttpOk (Some b))) s) in
  ig_nodes s' = baseline_nodes /\ ig_edges s' = baseline_edges /\
  (node_fill <$> ig_nodes s') = ["#6366f1"; "#f43f5e"; "#ef4444"].
Proof. intros H. cbn. unfold on_snapshot, snapshot_graph. by rewrite H. Qed.

(** The canvas is at least 260 wide and between 300 and 500 high, and it fits
    into the container as soon as that leaves it 260. *)
Lemma canvas_bounds window rect :
  (260 <= fst (updateDims window rect))%Z /\ (300 <= snd (updateDims window rect) <= 500)%Z /\
  ((inject_Z (260 + graph_padding window) <= rect)%Q ->
   (inject_Z (fst (updateDims window rect) + graph_padding window) <= rect)%Q).
Proof.
  unfold updateDims. cbn [fst snd]. split_and!; [lia|..]; try (destruct (Qle_bool 640 window); lia).
  intros H. rewrite inject_Z_plus in *. set (p := inject_Z (graph_padding window)) in *.
  assert (Hl : (260 <= Qfloor (rect - p))%Z).
  { rewrite <- (Qfloor_Z 260). apply Qfloor_resp_le. lra. }
  rewrite Z.max_r by done. pose proof (Qfloor_le (rect - p)). lra.
Qed.

(** ** Witnesses *)
Definition demo_node (id : string) : GraphNode := MkGraphNode id None None None (Some "running") false false None None.
Definition demo_body (l : list string) : graph_body :=
  GraphBody (GraphLists (Some (demo_node <$> l)) (Some [])) None None.
Definition demo_update (id st : string) : node_update := NodeUpdate id None (Some id) (Some st).
Definition demo_ig : list ig_event :=
  [IgOpened 0; IgUpdate 0 (demo_update "a" "running"); IgUpdate 0 (demo_update "b" "running"); IgUpdate 0 (demo_update "a" "success")].
Definition demo_ig_start : ig_state := fst (ig_mount None "s1" 1000 800).
Definition demo_ig_state : ig_state := fst (exec (ig_handle None) demo_ig demo_ig_start).

Lemma demo_ig_enabled : all_enabled ig_enabled (ig_handle None) demo_ig demo_ig_start.
Proof. repeat split. Qed.

(** Three updates before the snapshot and one after it. *)
Lemma throttle_transparent_witness :
  let s2 := fst (exec (ig_handle None) [IgTick; IgUpdate 0 (demo_update "c" "failed")]
    (fst (ig_handle None (IgSnapshot 0 (HttpOk (Some (demo_body ["c"; "a"])))) demo_ig_state))) in
  (fun n => (gn_id n, gn_status n)) <$> ig_nodes (fst (ig_handle None IgTick s2)) =
    [("c", Some "failed"); ("a", Some "success"); ("b", Some "running")].
Proof.
  intros s2.
  assert (H2 : all_enabled ig_enabled (ig_handle None) [IgTick; IgUpdate 0 (demo_update "c" "failed")]
    (fst (ig_handle None (IgSnapshot 0 (HttpOk (Some (demo_body ["c"; "a"])))) demo_ig_state))) by (repeat split).
  rewrite (proj1 (proj2 (throttle_transparent None "s1" 1000 800 demo_ig _ demo_ig_state 0 (demo_body ["c"; "a"])
    [IgTick; IgUpdate 0 (demo_update "c" "failed")] _ s2 (exec_run _ _ _ _ demo_ig_enabled)
    ltac:(by repeat constructor) (exec_run _ _ _ _ H2) ltac:(by repeat constructor)))).
  reflexivity.
Defined.

Lemma graph_ids_unique_witness : NoDup (ids (ig_nodes (fst (exec (ig_handle None) (demo_ig ++ [IgSnapshot 0 (HttpOk (Some (demo_body ["a"; "c"]))); IgTick]) demo_ig_start)))).
Proof.
  refine (graph_ids_unique None "s1" 1000 800 _ _ _ (exec_run _ _ (demo_ig ++ [IgSnapshot 0 (HttpOk (Some (demo_body ["a"; "c"]))); IgTick]) demo_ig_start _) _).
  - repeat split. by eexists.
  - apply Forall_app. split; [by repeat constructor|]. apply Forall_cons. split; [|by repeat constructor].
    apply (bool_decide_unpack _). vm_compute. exact I.
Defined.

Lemma stale_snapshot_shown_witness :
  ids (ig_nodes (fst (exec (ig_handle None)
    [IgSession "s2"; IgSnapshot 1 (HttpOk (Some (demo_body ["new"]))); IgSnapshot 0 (HttpOk (Some (demo_body ["old"])))] demo_ig_start))) = ["old"].
Proof.
  refine (f_equal ids (proj1 (proj2 (proj2 (stale_snapshot_shown None demo_ig_start 0 "s2" (demo_body ["old"]) (demo_body ["new"])
    eq_refl _ eq_refl _))))).
  - apply fl_ok_await, fl_ok_empty.
  - discriminate.
Defined.
