(* ===== verification/ThreatIntel.v ===== *)
(** * Threat intelligence panel ([features/investigations/ui/ThreatIntelPanel.tsx])

    The verdict on one address, which a timer delivers.  The effect depends
    on the address and has no cleanup, so the timers of earlier addresses
    still fire, in the order in which they were started. *)
From S2P Require Import Prelude JsString Html.

Record ThreatIntelData := MkIntel {
  ti_source_ip : string;
  ti_reputation : Z; ti_pulse_count : Z; ti_tags : list string;
  ti_listed : bool; ti_malware_family : option string;
  ti_misp_correlation : bool;
  ti_overall_risk_tenths : Z }.

Definition intel_for (ipAddress : string) : ThreatIntelData :=
  MkIntel ipAddress 85 12 ["cobaltstrike"; "c2"; "apt29"] true (Some "Qakbot") true 94.

Record ti_state := IntelState {
  ti_ipAddress : string;                  (* the property *)
  ti_intelData : option ThreatIntelData;
  ti_loading : bool;
  ti_timers : list string }.              (* the addresses captured, oldest first *)

Inductive ti_event := TiAddress (ip : string) | TiTimer.

Definition ti_effect_run (s : ti_state) : ti_state :=
  IntelState (ti_ipAddress s) (ti_intelData s) true (ti_timers s ++ [ti_ipAddress s]).

Definition ti_mount (ip : string) : ti_state := ti_effect_run (IntelState ip None true []).

Definition ti_handle (e : ti_event) (s : ti_state) : ti_state * list unit :=
  match e with
  | TiAddress ip =>
      (if String.eqb ip (ti_ipAddress s) then s
       else ti_effect_run (IntelState ip (ti_intelData s) (ti_loading s) (ti_timers s)), [])
  | TiTimer =>
      (match ti_timers s with
       | ip :: rest => IntelState (ti_ipAddress s) (Some (intel_for ip)) false rest
       | [] => s
       end, [])
  end.

Definition ti_enabled (s : ti_state) (e : ti_event) : Prop :=
  match e with TiTimer => ti_timers s <> [] | TiAddress _ => True end.

Definition otx_card (d : ThreatIntelData) : html ti_event :=
  El "div" "" ([El "h3" "" [Text "AlienVault OTX"]; Text "Reputation Score"; Text (of_Z (ti_reputation d));
    Text "Correlated Pulses"; Text (of_Z (ti_pulse_count d))] ++ ((fun t => Text ("#" +:+ t)) <$> ti_tags d)).

Definition feeds_card (d : ThreatIntelData) : html ti_event :=
  El "div" "" ([El "h3" "" [Text "Internal & Open Feeds"]; Text "Abuse.ch Status";
      if ti_listed d then El "span" "bg-red-900/30 text-red-400" [Text "BLACKLISTED"]
      else El "span" "text-green-500" [Text "CLEAN"]]
    ++ when (truthy_str (ti_malware_family d)) [Text "Malware Signature"; Text (nullish (ti_malware_family d) EmptyString)]
    ++ [Text "Local MISP Instance";
        El "span" (if ti_misp_correlation d then "text-red-400" else "text-green-500")
          [Text (if ti_misp_correlation d then "KNOWN THREAT" else "NO MATCH")]]).

Definition ti_view (s : ti_state) : list (html ti_event) :=
  if ti_loading s then [El "div" "animate-pulse" []]
  else match ti_intelData s with
       | None => []
       | Some d =>
           [El "div" "" [
              El "h2" "" [Text "SOAR Threat Intel"]; Text "Target Entity: "; Text (ti_source_ip d);
              Text (fixed1 (ti_overall_risk_tenths d) +:+ "/10"); Text "Global Risk Score";
              otx_card d; feeds_card d]]
       end.

(** ** The verdict *)

(** The timers end with that of the current address; without any, the panel
    shows the verdict on it. *)
Definition intel_inv (s : ti_state) : Prop :=
  match last (ti_timers s) with
  | Some ip => ip = ti_ipAddress s
  | None => ti_loading s = false /\ ti_intelData s = Some (intel_for (ti_ipAddress s))
  end.

Lemma ti_handle_inv s e : intel_inv s -> ti_enabled s e -> intel_inv (fst (ti_handle e s)).
Proof.
  unfold intel_inv. intros H Hen. destruct e as [ip|]; cbn [ti_handle fst].
  - destruct (String.eqb ip (ti_ipAddress s)); [done|]. cbn. by rewrite last_snoc.
  - destruct (ti_timers s) as [|ip [|ip' rest]] eqn:Et; [done| |].
    + cbn in *. by subst.
    + rewrite last_cons_cons in H. cbn [ti_timers ti_ipAddress].
      destruct (last (ip' :: rest)) eqn:E; [exact H|by apply last_None in E].
Qed.

(** The panel settles on the address it is given: in every execution, as long as
    a timer is pending one of them will deliver the current address, and
    when none is, the panel shows the verdict on that address.  The verdict
    is the same for every address. *)
Lemma intel_settles ip es qs s :
  run ti_enabled ti_handle (ti_mount ip) es qs s ->
  (ti_timers s = [] -> ti_loading s = false /\ ti_intelData s = Some (intel_for (ti_ipAddress s))) /\
  (ti_timers s <> [] ->
   let s' := fst (exec ti_handle (replicate (length (ti_timers s)) TiTimer) s) in
   ti_timers s' = [] /\ ti_intelData s' = Some (intel_for (ti_ipAddress s))) /\
  (forall a b, feeds_card (intel_for a) = feeds_card (intel_for b) /\ otx_card (intel_for a) = otx_card (intel_for b)).
Proof.
  intros Hrun. assert (Hinv : intel_inv s).
  { revert Hrun. apply run_invariant; [done|]. intros; by apply ti_handle_inv. }
  split_and!.
  - intros Ht. unfold intel_inv in Hinv. by rewrite Ht in Hinv.
  - clear Hrun. intros Hne. cbn zeta. remember (ti_timers s) as l eqn:El. revert s Hinv El Hne.
    induction l as [|ip' l IH]; intros s Hinv El Hne; [done|]. cbn [length replicate]. rewrite exec_cons_state.
    assert (Hs : ti_enabled s TiTimer) by (cbn; by rewrite <- El).
    pose proof (ti_handle_inv s TiTimer Hinv Hs) as Hinv'. set (s1 := fst (ti_handle TiTimer s)) in *.
    assert (E1 : ti_timers s1 = l /\ ti_ipAddress s1 = ti_ipAddress s).
    { unfold s1. cbn. by rewrite <- El. }
    destruct E1 as [E1 Eip]. destruct l as [|ip'' l].
    + cbn [length replicate exec fst]. split; [done|]. unfold intel_inv in Hinv'. rewrite E1 in Hinv'.
      rewrite <- Eip. exact (proj2 Hinv').
    + rewrite <- Eip. by apply IH.
  - done.
Qed.

(** A verdict on an earlier address appears while the current one is awaited. *)
Lemma earlier_verdict_shown a b :
  a <> b ->
  let s := fst (exec ti_handle [TiAddress b; TiTimer] (ti_mount a)) in
  ti_ipAddress s = b /\ ti_loading s = false /\ ti_intelData s = Some (intel_for a).
Proof. intros H. cbn. rewrite (proj2 (String.eqb_neq b a)); [done|congruence]. Qed.

Definition demo_ti : ti_state := fst (exec ti_handle [TiAddress "10.0.0.2"] (ti_mount "10.0.0.1")).

Lemma intel_settles_witness :
  ti_intelData (fst (exec ti_handle [TiTimer; TiTimer] demo_ti)) = Some (intel_for "10.0.0.2").
Proof.
  refine (proj2 (proj1 (proj2 (intel_settles "10.0.0.1" _ _ demo_ti (exec_run _ _ [TiAddress "10.0.0.2"] _ _))) _));
    [by split|discriminate].
Defined.
