(* ===== verification/Marketplace.v ===== *)
(** * Marketplace ([pages/marketplace/MarketplacePage.tsx])

    The larger marketplace page, with search, categories, previews, and
    installation and removal behind the browser's confirmation box.  The
    answer given to that box is part of the event.  A listing whose category
    is not found in the table of categories makes the rendering throw: the view
    is then [None]. *)
From S2P Require Import Prelude JsString Html Http.

Inductive InstallStatus := StInstalled | StNotInstalled | StInstalling.
#[export] Instance InstallStatus_eq_dec : EqDecision InstallStatus.
Proof. solve_decision. Defined.

Record Listing := MkListing {
  ml_id : string; ml_name : string; ml_description : string; ml_publisher : string; ml_category : string;
  ml_status : InstallStatus; ml_requiresElevated : bool; ml_playbookPreview : option string; ml_tags : list string }.

(** The members every object inherits. *)
Definition object_members : list string :=
  ["constructor"; "hasOwnProperty"; "isPrototypeOf"; "propertyIsEnumerable"; "toLocaleString"; "toString"; "valueOf";
   "__proto__"; "__defineGetter__"; "__defineSetter__"; "__lookupGetter__"; "__lookupSetter__"].

(** Label and colour.  The table is a plain object, so an inherited name is
    found too, without a label or a colour. *)
Definition CATEGORY_META (category : string) : option (option string * option string) :=
  if String.eqb category "threat-intel" then Some (Some "Threat Intel", Some "#38bdf8")
  else if String.eqb category "soar-playbook" then Some (Some "SOAR Playbook", Some "#a78bfa")
  else if String.eqb category "detection-pack" then Some (Some "Detection Pack", Some "#fbbf24")
  else if String.eqb category "integration" then Some (Some "Integration", Some "#4ade80")
  else if existsb (String.eqb category) object_members then Some (None, None)
  else None.

Inductive ma_kont := MaKLoad | MaKInstall (id : string) | MaKUninstall (id : string).
#[export] Instance ma_kont_eq_dec : EqDecision ma_kont.
Proof. solve_decision. Defined.

Record ma_state := MarketState {
  ma_listings : list Listing;
  ma_loading : bool;
  ma_searchQuery : string;
  ma_catFilter : string;
  ma_preview : option Listing;
  ma_installingId : option string;
  ma_flight : flight ma_kont }.

Definition ma_init : ma_state := MarketState [] true EmptyString "all" None None fl_empty.

Inductive ma_effect := GetListings | PostInstall (id : string) | DeleteInstall (id : string).

Inductive ma_event :=
| MaMount | MaSearch (v : string) | MaCategory (v : string)
| MaPreview (l : Listing) | MaClosePreview
| MaInstall (l : Listing) (confirmed : bool) | MaPreviewInstall (l : Listing) (confirmed : bool)
| MaUninstall (l : Listing) (confirmed : bool)
| MaLoaded (k : nat) (r : http_result (option (list Listing)))
| MaAnswered (k : nat) (r : http_result unit).

Definition ma_set_list l b f s := MarketState l b (ma_searchQuery s) (ma_catFilter s) (ma_preview s) (ma_installingId s) f.
Definition ma_set_query q c s := MarketState (ma_listings s) (ma_loading s) q c (ma_preview s) (ma_installingId s) (ma_flight s).
Definition ma_set_preview p s := MarketState (ma_listings s) (ma_loading s) (ma_searchQuery s) (ma_catFilter s) p (ma_installingId s) (ma_flight s).
Definition ma_set_installing i s := MarketState (ma_listings s) (ma_loading s) (ma_searchQuery s) (ma_catFilter s) (ma_preview s) i (ma_flight s).
Definition ma_await k s := ma_set_list (ma_listings s) (ma_loading s) (fl_await k (ma_flight s)) s.

Definition with_status (st : InstallStatus) (l : Listing) : Listing :=
  MkListing (ml_id l) (ml_name l) (ml_description l) (ml_publisher l) (ml_category l) st (ml_requiresElevated l)
    (ml_playbookPreview l) (ml_tags l).

Definition mark (id : string) (st : InstallStatus) (l : Listing) : Listing :=
  if String.eqb (ml_id l) id then with_status st l else l.

(** ** Handlers *)
Definition fetchListings (s : ma_state) : ma_state * list ma_effect :=
  (ma_set_list (ma_listings s) true (fl_await MaKLoad (ma_flight s)) s, [GetListings]).

Definition fetchListings_done (k : nat) (r : http_result (option (list Listing))) (s : ma_state) : ma_state :=
  ma_set_list (match r with HttpOk l => nullish l [] | HttpErr _ => [] end) false (fl_forget k (ma_flight s)) s.

Definition handleInstall (l : Listing) (confirmed : bool) (s : ma_state) : ma_state * list ma_effect :=
  if ml_requiresElevated l && negb confirmed then (s, [])
  else (ma_await (MaKInstall (ml_id l)) (ma_set_installing (Some (ml_id l)) s), [PostInstall (ml_id l)]).

Definition handleInstall_done (id : string) (r : http_result unit) (s : ma_state) : ma_state :=
  ma_set_installing None
    (match r with
     | HttpOk _ => ma_set_list (mark id StInstalled <$> ma_listings s) (ma_loading s) (ma_flight s) s
     | HttpErr _ => s
     end).

Definition handleUninstall (l : Listing) (confirmed : bool) (s : ma_state) : ma_state * list ma_effect :=
  if negb confirmed then (s, []) else (ma_await (MaKUninstall (ml_id l)) s, [DeleteInstall (ml_id l)]).

Definition handleUninstall_done (id : string) (r : http_result unit) (s : ma_state) : ma_state :=
  match r with
  | HttpOk _ => ma_set_list (mark id StNotInstalled <$> ma_listings s) (ma_loading s) (ma_flight s) s
  | HttpErr _ => s
  end.

Definition ma_handle (e : ma_event) (s : ma_state) : ma_state * list ma_effect :=
  match e with
  | MaMount => fetchListings s
  | MaSearch v => (ma_set_query v (ma_catFilter s) s, [])
  | MaCategory v => (ma_set_query (ma_searchQuery s) v s, [])
  | MaPreview l => (ma_set_preview (Some l) s, [])
  | MaClosePreview => (ma_set_preview None s, [])
  | MaInstall l ok => handleInstall l ok s
  | MaPreviewInstall l ok => let '(s', q) := handleInstall l ok s in (ma_set_preview None s', q)
  | MaUninstall l ok => handleUninstall l ok s
  | MaLoaded k r => (fetchListings_done k r s, [])
  | MaAnswered k r =>
      let s' := ma_set_list (ma_listings s) (ma_loading s) (fl_forget k (ma_flight s)) s in
      (match fl_map (ma_flight s) !! k with
       | Some (MaKInstall id) => handleInstall_done id r s'
       | Some (MaKUninstall id) => handleUninstall_done id r s'
       | _ => s
       end, [])
  end.

(** ** The rendered page *)
Definition matchSearch (q : string) (l : Listing) : bool :=
  includes (to_lower q) (to_lower (ml_name l)) || existsb (includes (to_lower q)) (ml_tags l).

Definition matchCat (c : string) (l : Listing) : bool := String.eqb c "all" || String.eqb (ml_category l) c.

Definition filtered (s : ma_state) : list Listing :=
  List.filter (fun l => matchSearch (ma_searchQuery s) l && matchCat (ma_catFilter s) l) (ma_listings s).

(** The analyst may answer the confirmation either way. *)
Definition both (f : bool -> ma_event) (disabled : bool) (ks : list (html ma_event)) : list (html ma_event) :=
  [Button disabled (Some (f true)) ks; Button disabled (Some (f false)) []].

Definition listing_card (s : ma_state) (l : Listing) (m : option string * option string) : html ma_event :=
  let isInstalling := bool_decide (ma_installingId s = Some (ml_id l)) in
  El "div" "" (
    [El "span" (nullish (snd m) "undefined") (when_some (fst m) (fun t => [Text t]))]
    ++ when (ml_requiresElevated l) [Text "🔒 Elevated"]
    ++ [Text (ml_name l); Text ("by " +:+ ml_publisher l); Text (ml_description l)]
    ++ ((fun t => Text ("#" +:+ t)) <$> ml_tags l)
    ++ when (truthy_str (ml_playbookPreview l)) [Button false (Some (MaPreview l)) [Text "Preview"]]
    ++ (if bool_decide (ml_status l = StInstalled) then both (MaUninstall l) false [Text "Uninstall"]
        else both (MaInstall l) isInstalling [Text (if isInstalling then "⏳ Installing…" else "↓ Install")])).

(** [None] when a category is unknown. *)
Definition cards (s : ma_state) : option (list (html ma_event)) :=
  mapM (fun l => listing_card s l <$> CATEGORY_META (ml_category l)) (filtered s).

Definition preview_modal (s : ma_state) : list (html ma_event) :=
  when_some (ma_preview s) (fun l => when (truthy_str (ml_playbookPreview l)) [
    Clickable MaClosePreview (
      [El "h3" "" [Text ("Playbook Preview — " +:+ ml_name l)]; Button false (Some MaClosePreview) [Text "×"];
       El "pre" "" [Text (nullish (ml_playbookPreview l) EmptyString)]; Button false (Some MaClosePreview) [Text "Close"]]
      ++ both (MaPreviewInstall l) false [Text "↓ Install"])]).

Definition category_options : list (string * string) :=
  [("all", "All Categories"); ("threat-intel", "Threat Intel"); ("soar-playbook", "SOAR Playbooks");
   ("detection-pack", "Detection Packs"); ("integration", "Integrations")].

Definition ma_view (s : ma_state) : option (list (html ma_event)) :=
  grid ← (if ma_loading s then Some (replicate 4 (El "div" "glass-panel" []))
          else (fun c => c ++ when (length (filtered s) =? 0) [Text "No listings match your search."]) <$> cards s);
  Some ([El "h1" "" [Text "Marketplace"]; El "p" "" [Text "Install integrations, playbook templates, and detection rule packs"];
         Input false (ma_searchQuery s) MaSearch; Select (ma_catFilter s) category_options MaCategory]
        ++ grid ++ preview_modal s).

Definition ma_enabled (s : ma_state) (e : ma_event) : Prop :=
  match e with
  | MaMount => True
  | MaLoaded k _ => fl_map (ma_flight s) !! k = Some MaKLoad
  | MaAnswered k _ => exists x, fl_map (ma_flight s) !! k = Some x /\ x <> MaKLoad
  | _ => exists v, ma_view s = Some v /\ offers_any v e
  end.

(** ** What the page offers *)
Definition ma_guard (s : ma_state) (e : ma_event) : Prop :=
  match e with
  | MaInstall l _ => l ∈ filtered s /\ ml_status l <> StInstalled /\ ma_installingId s <> Some (ml_id l)
  | MaUninstall l _ => l ∈ filtered s /\ ml_status l = StInstalled
  | MaPreview l => l ∈ filtered s
  | MaPreviewInstall l _ => ma_preview s = Some l
  | MaMount | MaLoaded _ _ | MaAnswered _ _ => False
  | _ => True
  end.

Lemma listing_card_guard s l m e : l ∈ filtered s -> offers (listing_card s l m) e -> ma_guard s e.
Proof.
  intros Hl. unfold listing_card. rewrite offers_El, !offers_any_app.
  intros [H|[H|[H|[H|[H|H]]]]]; [by offers_cases H..|].
  destruct (bool_decide (ml_status l = StInstalled)) eqn:E.
  - apply bool_decide_eq_true in E. unfold both in H. offers_cases H; done.
  - apply bool_decide_eq_false in E. unfold both in H. offers_cases H;
      match goal with E' : bool_decide _ = false |- _ => apply bool_decide_eq_false in E' end; done.
Qed.

Lemma cards_offers s v e : cards s = Some v -> offers_any v e -> ma_guard s e.
Proof.
  unfold cards. intros Hv H. apply mapM_Some in Hv. unfold offers_any in H. apply Exists_exists in H as (h & Hh & H).
  apply list_elem_of_lookup in Hh as (i & Hi). destruct (Forall2_lookup_r _ _ _ _ _ Hv Hi) as (l & Hl & E).
  apply fmap_Some in E as (m & _ & ->). eapply listing_card_guard; [|exact H]. by eapply list_elem_of_lookup_2.
Qed.

Lemma ma_offers_guard s v e : ma_view s = Some v -> offers_any v e -> ma_guard s e.
Proof.
  unfold ma_view. intros (grid & Hg & Ev)%bind_Some. apply (inj Some) in Ev. subst v.
  rewrite !offers_any_app. intros [H|[H|H]].
  - by offers_cases H.
  - destruct (ma_loading s); [injection Hg as <-; cbn [replicate] in H; by offers_cases H|].
    apply fmap_Some in Hg as (c & Hc & ->). apply offers_any_app in H as [H|H]; [by eapply cards_offers|by offers_cases H].
  - unfold preview_modal, both in H. apply offers_any_when_some in H as (l & Hl & H). offers_cases H; done.
Qed.

(** ** Renders *)

(** The names the table finds. *)
Definition known_categories : list string :=
  ["threat-intel"; "soar-playbook"; "detection-pack"; "integration"] ++ object_members.

Lemma category_known c : is_Some (CATEGORY_META c) <-> c ∈ known_categories.
Proof.
  unfold CATEGORY_META, known_categories. rewrite elem_of_app, !elem_of_cons.
  assert (Hm : existsb (String.eqb c) object_members = true <-> c ∈ object_members).
  { rewrite existsb_exists. setoid_rewrite String.eqb_eq. rewrite list_elem_of_In. split; [by intros (x & Hx & ->)|intros H; by exists c]. }
  do 4 (match goal with |- context [String.eqb c ?k] => destruct (String.eqb_spec c k) as [->|] end;
        [split; [intros _; left; auto 7|intros _; by eexists]|]).
  destruct (existsb _ _); [split; [intros _; right; by apply Hm|intros _; by eexists]|].
  split; [by intros [? ?]|]. intros [H|H]; [|by apply Hm in H].
  destruct H as [?|[?|[?|[?|H]]]]; [done..|by apply elem_of_nil in H].
Qed.

(** The page renders exactly when every listing that the filters let through
    has one of the four categories or the name of a member that every object
    inherits; one listing with another category takes the whole page down,
    and in that state no event of the analyst is possible. *)
Lemma renders_iff_known s :
  ma_loading s = false ->
  (is_Some (ma_view s) <-> Forall (fun l => ml_category l ∈ known_categories) (filtered s)) /\
  (ma_view s = None -> forall e, ma_enabled s e ->
     e = MaMount \/ (exists k r, e = MaLoaded k r) \/ (exists k r, e = MaAnswered k r)).
Proof.
  intros Hl. split.
  - unfold ma_view. rewrite Hl. unfold cards.
    assert (Hc : is_Some (mapM (fun l => listing_card s l <$> CATEGORY_META (ml_category l)) (filtered s)) <->
      Forall (fun l => ml_category l ∈ known_categories) (filtered s)).
    { rewrite mapM_is_Some. split; intros H; (eapply Forall_impl; [exact H|]); intros l Hx; cbn in *;
        rewrite fmap_is_Some in *; by apply category_known. }
    rewrite <- Hc. split; intros [v Hv].
    + apply bind_Some in Hv as (g & Hg & _). apply fmap_Some in Hg as (c & Hg & _). by eexists.
    + rewrite Hv. cbn. by eexists.
  - intros Hn e He. destruct e; try (destruct He as (w & Hw & _); congruence); eauto 6.
Qed.

(** ** Installations *)

(** In every execution an installation is requested only for a listing of the
    page that is not installed and not being installed, or from its preview,
    and with the analyst's confirmation when it needs elevated permissions;
    a removal only for an installed listing and always with confirmation; and
    the list changes only by a load or by the success of a request. *)
Lemma market_requests s e :
  ma_enabled s e ->
  (forall id, PostInstall id ∈ snd (ma_handle e s) ->
     exists l ok, ml_id l = id /\ (ml_requiresElevated l = true -> ok = true) /\
       (e = MaInstall l ok /\ l ∈ filtered s /\ ml_status l <> StInstalled /\ ma_installingId s <> Some id \/
        e = MaPreviewInstall l ok /\ ma_preview s = Some l)) /\
  (forall id, DeleteInstall id ∈ snd (ma_handle e s) ->
     exists l, ml_id l = id /\ e = MaUninstall l true /\ l ∈ filtered s /\ ml_status l = StInstalled) /\
  (ma_listings (fst (ma_handle e s)) <> ma_listings s ->
     (exists k r, e = MaLoaded k r) \/
     exists k id st, e = MaAnswered k (HttpOk tt) /\ ma_listings (fst (ma_handle e s)) = mark id st <$> ma_listings s /\
       (fl_map (ma_flight s) !! k = Some (MaKInstall id) /\ st = StInstalled \/
        fl_map (ma_flight s) !! k = Some (MaKUninstall id) /\ st = StNotInstalled)).
Proof.
  intros Hen. assert (Hg : match e with MaMount | MaLoaded _ _ | MaAnswered _ _ => True | _ => ma_guard s e end).
  { destruct e; try done; destruct Hen as (v & Hv & H); by eapply ma_offers_guard. }
  split_and!.
  - intros id Hq. destruct e; cbn [ma_handle] in Hq; try (by elem_inv Hq).
    + unfold handleInstall in Hq. destruct (ml_requiresElevated l && negb confirmed) eqn:E; elem_inv Hq. simplify_eq.
      exists l, confirmed. destruct Hg as (H1 & H2 & H3). split_and!; [done| |left; done].
      destruct (ml_requiresElevated l), confirmed; done.
    + unfold handleInstall in Hq. destruct (ml_requiresElevated l && negb confirmed) eqn:E; elem_inv Hq. simplify_eq.
      exists l, confirmed. split_and!; [done| |right; done]. destruct (ml_requiresElevated l), confirmed; done.
    + unfold handleUninstall in Hq. destruct confirmed; by elem_inv Hq.
  - intros id Hq. destruct e; cbn [ma_handle] in Hq; try (by elem_inv Hq).
    + unfold handleInstall in Hq. destruct (_ && _); by elem_inv Hq.
    + unfold handleInstall in Hq. destruct (_ && _); by elem_inv Hq.
    + unfold handleUninstall in Hq. destruct confirmed; elem_inv Hq. simplify_eq. exists l. by destruct Hg.
  - intros Hne. destruct e; cbn [ma_handle fst] in *; try done.
    + unfold handleInstall in Hne. by destruct (_ && _).
    + unfold handleInstall in Hne. by destruct (_ && _).
    + unfold handleUninstall in Hne. by destruct confirmed.
    + left. by eexists _, _.
    + right. destruct (fl_map (ma_flight s) !! k) as [[|id|id]|] eqn:Ek; [done| | |done]; destruct r as [[]|]; try done.
      * exists k, id, StInstalled. split_and!; [done..|by left].
      * exists k, id, StNotInstalled. split_and!; [done..|by right].
Qed.

(** One flag serves all listings: the first installation that ends frees the
    button of another that is still running. *)
Lemma install_flag_shared s a b r :
  ml_requiresElevated a = false -> ml_requiresElevated b = false -> fl_ok (ma_flight s) ->
  let k := fl_next (ma_flight s) in
  let s' := fst (exec ma_handle [MaInstall a true; MaInstall b true; MaAnswered k r] s) in
  ma_installingId s' = None /\ fl_map (ma_flight s') !! (S k) = Some (MaKInstall (ml_id b)).
Proof.
  intros Ha Hb Hok k s'. unfold s'. rewrite !exec_cons_state. cbn [exec fst ma_handle]. unfold handleInstall.
  rewrite Ha, Hb. cbn [andb fst ma_flight ma_await ma_set_list ma_set_installing].
  assert (Hk : fl_map (fl_await (MaKInstall (ml_id b)) (fl_await (MaKInstall (ml_id a)) (ma_flight s))) !! k = Some (MaKInstall (ml_id a))).
  { apply fl_await_lookup. right. split; [cbn; unfold k; lia|]. apply fl_await_lookup. by left. }
  rewrite Hk. assert (Hf : fl_map (fl_forget k (fl_await (MaKInstall (ml_id b)) (fl_await (MaKInstall (ml_id a)) (ma_flight s)))) !! S k = Some (MaKInstall (ml_id b))).
  { apply fl_forget_lookup. split; [lia|]. apply fl_await_lookup. by left. }
  destruct r; cbn; split; done.
Qed.

(** ** Witnesses *)
Definition demo_listing (id c : string) : Listing := MkListing id id EmptyString EmptyString c StNotInstalled true None [].
Definition demo_market (c : string) : ma_state :=
  fst (exec ma_handle [MaMount; MaLoaded 0 (HttpOk (Some [demo_listing "a" "integration"; demo_listing "b" c]))] ma_init).

Example unknown_category_throws : ma_view (demo_market "reporting") = None /\ is_Some (ma_view (demo_market "constructor")).
Proof. split; [reflexivity|]. by eexists. Qed.

Lemma ma_card_offers s c h e :
  ma_loading s = false -> cards s = Some c -> h ∈ c -> offers h e -> exists v, ma_view s = Some v /\ offers_any v e.
Proof.
  intros Hl Hc Hh H. unfold ma_view. rewrite Hl, Hc. cbn [fmap option_fmap option_map mbind option_bind].
  eexists. split; [reflexivity|]. rewrite !offers_any_app. right; left; left. apply Exists_exists. by exists h.
Qed.

Lemma market_requests_witness :
  exists l ok, ml_id l = "a" /\ (ml_requiresElevated l = true -> ok = true) /\
    (MaInstall (demo_listing "a" "integration") true = MaInstall l ok /\ l ∈ filtered (demo_market "integration") /\
       ml_status l <> StInstalled /\ ma_installingId (demo_market "integration") <> Some "a" \/
     MaInstall (demo_listing "a" "integration") true = MaPreviewInstall l ok /\ ma_preview (demo_market "integration") = Some l).
Proof.
  refine (proj1 (market_requests (demo_market "integration") (MaInstall (demo_listing "a" "integration") true) _) "a" (list_elem_of_here _ _)).
  eapply ma_card_offers; [reflexivity|reflexivity|left|].
  change (offers (listing_card (demo_market "integration") (demo_listing "a" "integration") (Some "Integration", Some "#4ade80"))
    (MaInstall (demo_listing "a" "integration") true)).
  unfold listing_card. rewrite offers_El, !offers_any_app. do 5 right. cbn [ml_status demo_listing].
  rewrite bool_decide_eq_false_2 by done. unfold both. offers_find.
Defined.
