(* ===== verification/Overview.v ===== *)
(** * Global operations overview ([pages/dashboards/OverviewPage.tsx])

    The metrics, the queue of alerts with their deadlines, filled by a request
    and by a stream, the actions on an alert and the feed of activities.  The
    messages of the two sockets and their connection flags are events; the
    widgets of [features/agent-ops] are embedded elements.  A number that
    is not a number is [None]. *)
From S2P Require Import Prelude JsString Dates Html Types Http AsyncState SharedUi.

Record AlertItem := MkAlertItem {
  ai_id : string; ai_type : string; ai_severity : Z; ai_assignedTo : string;
  ai_createdAt : string; ai_sla : option Z }.

Inductive activity_type := ActSystem | ActAlert | ActInfo.
#[export] Instance activity_type_eq_dec : EqDecision activity_type.
Proof. solve_decision. Defined.
Record ActivityEvent := Activity { ac_time : string; ac_msg : string; ac_type : activity_type }.

(** An alert of the answer or of the stream; a severity that is not a number
    is [None]. *)
Record raw_alert := RawAlert {
  ra_id : option string; ra_type : option string; ra_severity : option Z;
  ra_created_at : option string; ra_createdAt : option string;
  ra_assigned_to : option string; ra_assignedTo : option string }.

Record agent_event := AgentEvent {
  ag_message : option string; ag_msg : option string; ag_node : option string }.

(** The draws of [Math.random] for one alert: the number of a missing
    identifier, the side of a missing assignment. *)
Record alert_draw := AlertDraw { ad_number : Z; ad_me : bool }.

(** [a || b] on values that may be missing *)
Definition or_else (a b : option string) : option string := if truthy_str a then a else b.

Section Parse.
Context (local : Z -> Z).

Definition slaBudget (severity : option Z) : Z :=
  if bool_decide (severity = Some 1%Z) then 15
  else if bool_decide (severity = Some 2%Z) then 45 else 120.

Definition elapsedMinutes (now : Z) (createdAt : string) : option Z :=
  (fun t => ((now - t) / (1000 * 60))%Z) <$> date_parse local createdAt.

Definition parse_alert (now : Z) (d : alert_draw) (item : raw_alert) : AlertItem :=
  let createdAt := or_str (or_else (ra_created_at item) (ra_createdAt item)) (to_iso now) in
  MkAlertItem
    (or_str (ra_id item) ("ALT-" +:+ of_Z (ad_number d)))
    (or_str (ra_type item) "Suspicious Activity")
    (nullish (ra_severity item) 2%Z)
    (or_str (or_else (ra_assigned_to item) (ra_assignedTo item)) (if ad_me d then "me" else "team"))
    createdAt
    ((fun m => (slaBudget (ra_severity item) - m)%Z) <$> elapsedMinutes now createdAt).

(** The alert of a stream message with identifier [id]. *)
Definition stream_alert (now : Z) (id : string) (m : raw_alert) : AlertItem :=
  MkAlertItem id (or_str (ra_type m) "Realtime Alert") (nullish (ra_severity m) 1%Z) "me" (to_iso now)
    (Some (if bool_decide (ra_severity m = Some 1%Z) then 15 else 45)%Z).

(** ** The page *)
Inductive ov_kont := OKMetrics | OKAlerts | OKEscalate (id : string) | OKAck (id : string) | OKHandoff.

Record ov_state := OvState {
  ov_metrics : async SystemMetrics;
  ov_myQueueOnly : bool;
  ov_alerts : list AlertItem;
  ov_activities : list ActivityEvent;
  ov_handoffGenerating : bool;
  ov_alertsConn : bool; ov_agentConn : bool;
  ov_flight : flight ov_kont }.

Definition ov_init : ov_state := OvState async_init false [] [] false false false fl_empty.

Inductive ov_effect :=
| GetOverview | GetAlertQueue
| PatchAssign (id : string) | PatchAcknowledge (id : string) | PostHandoff (queue : string)
| OvNavigate (path : string) | OvAlert (msg : string).

Inductive ov_event :=
| OvMount | OvRetry
| OvMyQueue (b : bool) | OvInvestigate (id : string) | OvEscalate (id : string) | OvFalsePositive (id : string)
| OvHandoff
| OvConn (alerts agent : bool)
| OvAlertMsg (now : Z) (time : string) (m : option raw_alert)
| OvAgentMsg (time : string) (m : option agent_event)
| OvMetrics (k : nat) (r : http_result SystemMetrics)
| OvAlerts (k : nat) (now : Z) (draw : nat -> alert_draw) (r : http_result (option (list raw_alert)))
| OvPatched (k : nat) (r : http_result unit).

Definition ov_set_metrics a f s := OvState a (ov_myQueueOnly s) (ov_alerts s) (ov_activities s)
  (ov_handoffGenerating s) (ov_alertsConn s) (ov_agentConn s) f.
Definition ov_set_alerts l s := OvState (ov_metrics s) (ov_myQueueOnly s) l (ov_activities s)
  (ov_handoffGenerating s) (ov_alertsConn s) (ov_agentConn s) (ov_flight s).
Definition ov_set_activities l s := OvState (ov_metrics s) (ov_myQueueOnly s) (ov_alerts s) l
  (ov_handoffGenerating s) (ov_alertsConn s) (ov_agentConn s) (ov_flight s).
Definition ov_set_handoff b s := OvState (ov_metrics s) (ov_myQueueOnly s) (ov_alerts s) (ov_activities s)
  b (ov_alertsConn s) (ov_agentConn s) (ov_flight s).
Definition ov_await k s := ov_set_metrics (ov_metrics s) (fl_await k (ov_flight s)) s.
Definition ov_forget k s := ov_set_metrics (ov_metrics s) (fl_forget k (ov_flight s)) s.

Definition executeMetrics (s : ov_state) : ov_state * list ov_effect :=
  (ov_set_metrics (async_start (ov_metrics s)) (fl_await OKMetrics (ov_flight s)) s, [GetOverview]).
Definition fetchAlerts (s : ov_state) : ov_state * list ov_effect := (ov_await OKAlerts s, [GetAlertQueue]).

(** [[event, ...prev.slice(0, 19)]] *)
Definition push_activity (e : ActivityEvent) (prev : list ActivityEvent) : list ActivityEvent := e :: take 19 prev.

Definition add_alert (a : AlertItem) (prev : list AlertItem) : list AlertItem :=
  if existsb (fun b => String.eqb (ai_id b) (ai_id a)) prev then prev else a :: prev.

Definition on_alert_message (now : Z) (time : string) (m : option raw_alert) (s : ov_state) : ov_state :=
  match m with
  | None => s
  | Some m =>
      if truthy_str (ra_id m) then
        let id := nullish (ra_id m) EmptyString in
        ov_set_activities
          (push_activity (Activity time ("High-priority alert " +:+ id +:+ " triggered: "
             +:+ or_str (ra_type m) "Detection") ActAlert) (ov_activities s))
          (ov_set_alerts (add_alert (stream_alert now id m) (ov_alerts s)) s)
      else s
  end.

Definition on_agent_message (time : string) (m : option agent_event) (s : ov_state) : ov_state :=
  match m with
  | None => s
  | Some m =>
      ov_set_activities
        (push_activity (Activity time
           (or_str (or_else (ag_message m) (ag_msg m)) (or_str (ag_node m) "Agent" +:+ " executed successfully"))
           (if bool_decide (ag_node m = Some "LLMTriage") then ActSystem else ActInfo)) (ov_activities s)) s
  end.

Definition escalated (id : string) (a : AlertItem) : AlertItem :=
  if String.eqb (ai_id a) id
  then MkAlertItem (ai_id a) (ai_type a) 1 (ai_assignedTo a) (ai_createdAt a) (ai_sla a) else a.
Definition without (id : string) (l : list AlertItem) : list AlertItem :=
  List.filter (fun a => negb (String.eqb (ai_id a) id)) l.

(** The continuations of the three actions. *)
Definition handleEscalate_done (id : string) (r : http_result unit) (s : ov_state) : ov_state * list ov_effect :=
  match r with
  | HttpOk _ => (ov_set_alerts (escalated id <$> ov_alerts s) s,
                 [OvAlert ("Alert " +:+ id +:+ " escalated to Tier 3 Lead.")])
  | HttpErr _ => (s, [OvAlert ("Alert " +:+ id +:+ " escalated.")])
  end.

Definition handleFalsePositive_done (id : string) (r : http_result unit) (s : ov_state) : ov_state * list ov_effect :=
  (ov_set_alerts (without id (ov_alerts s)) s, []).

Definition handleGenerateHandoff_done (r : http_result unit) (s : ov_state) : ov_state * list ov_effect :=
  (ov_set_handoff false s,
   [OvAlert (match r with
             | HttpOk _ => "Shift handoff note generated and persisted successfully."
             | HttpErr _ => "Shift handoff report compiled for current operational queue."
             end)]).

Definition ov_handle (e : ov_event) (s : ov_state) : ov_state * list ov_effect :=
  match e with
  | OvMount => let '(s, q) := executeMetrics s in let '(s, q') := fetchAlerts s in (s, q ++ q')
  | OvRetry => executeMetrics s
  | OvMyQueue b =>
      (OvState (ov_metrics s) b (ov_alerts s) (ov_activities s) (ov_handoffGenerating s)
         (ov_alertsConn s) (ov_agentConn s) (ov_flight s), [])
  | OvInvestigate id => (s, [OvNavigate ("/investigations/" +:+ id)])
  | OvEscalate id => (ov_await (OKEscalate id) s, [PatchAssign id])
  | OvFalsePositive id => (ov_await (OKAck id) s, [PatchAcknowledge id])
  | OvHandoff =>
      (ov_await OKHandoff (ov_set_handoff true s), [PostHandoff (if ov_myQueueOnly s then "me" else "all")])
  | OvConn b c =>
      (OvState (ov_metrics s) (ov_myQueueOnly s) (ov_alerts s) (ov_activities s) (ov_handoffGenerating s)
         b c (ov_flight s), [])
  | OvAlertMsg now time m => (on_alert_message now time m s, [])
  | OvAgentMsg time m => (on_agent_message time m s, [])
  | OvMetrics k r =>
      (ov_set_metrics (match r with
                       | HttpOk m => async_ok m (ov_metrics s)
                       | HttpErr e => async_fail (he_message e) (ov_metrics s)
                       end) (fl_forget k (ov_flight s)) s, [])
  | OvAlerts k now draw r =>
      (ov_forget k (match r with
                    | HttpOk (Some l) => ov_set_alerts (imap (fun i => parse_alert now (draw i)) l) s
                    | _ => s
                    end), [])
  | OvPatched k r =>
      match fl_map (ov_flight s) !! k with
      | Some (OKEscalate id) => handleEscalate_done id r (ov_forget k s)
      | Some (OKAck id) => handleFalsePositive_done id r (ov_forget k s)
      | Some OKHandoff => handleGenerateHandoff_done r (ov_forget k s)
      | _ => (s, [])
      end
  end.

(** ** The rendered page *)
Context (locale_num : Z -> string).

Definition filteredAlerts (s : ov_state) : list AlertItem :=
  if ov_myQueueOnly s then List.filter (fun a => String.eqb (ai_assignedTo a) "me") (ov_alerts s) else ov_alerts s.

(** [if (sla < 0)] and the like are false of a number that is not a number. *)
Definition isBreached (sla : option Z) : bool := match sla with Some n => (n <? 0)%Z | None => false end.
Definition isWarning (sla : option Z) : bool :=
  negb (isBreached sla) && match sla with Some n => (n <? 15)%Z | None => false end.
Definition severityBadge (n : Z) : BadgeSeverity :=
  if (n <=? 1)%Z then S1 else if (n =? 2)%Z then S2 else S3.
Definition badge_str (b : BadgeSeverity) : string :=
  match b with S1 => "S1" | S2 => "S2" | S3 => "S3" | S4 => "S4" end.

Definition sla_text (sla : option Z) : string :=
  match sla with
  | Some n => if (n <? 0)%Z then "SLA BREACHED (" +:+ of_Z (Z.abs n) +:+ "m ago)" else "SLA: " +:+ of_Z n +:+ "m left"
  | None => "SLA: NaNm left"
  end.

Definition alert_card (a : AlertItem) : html ov_event :=
  let b := severityBadge (ai_severity a) in
  Clickable (OvInvestigate (ai_id a)) [
    Text (ai_id a); El "h4" "" [Text (unscore (ai_type a))];
    Badge (Some b) [Text (badge_str b)];
    Text ("Assigned: " +:+ (if String.eqb (ai_assignedTo a) "me" then "You" else ai_assignedTo a));
    El "span" (if isBreached (ai_sla a) then "text-red-500" else if isWarning (ai_sla a) then "text-yellow-500"
               else "text-green-500") [Text (sla_text (ai_sla a))];
    Button false (Some (OvInvestigate (ai_id a))) [Text "Investigate"];
    Button false (Some (OvEscalate (ai_id a))) [Text "Escalate"];
    Button false (Some (OvFalsePositive (ai_id a))) [Text "False Positive"]].

Definition queue_panel (s : ov_state) : html ov_event :=
  El "div" "" (
    [El "h3" "" [Text "Critical Alerts Queue"];
     El "div" (if ov_myQueueOnly s then "bg-blue-600 text-white" else "text-slate-400")
       [Button false (Some (OvMyQueue true)) [Text "My Queue"]];
     El "div" (if ov_myQueueOnly s then "text-slate-400" else "bg-blue-600 text-white")
       [Button false (Some (OvMyQueue false)) [Text "Team Queue"]];
     Button (ov_handoffGenerating s) (Some OvHandoff)
       [Text (if ov_handoffGenerating s then "Generating..." else "Generate Handoff Note")]]
    ++ match filteredAlerts s with
       | [] => [Text "No alerts in this queue."]
       | l => alert_card <$> l
       end).

Definition activity_panel (s : ov_state) : html ov_event :=
  El "div" "" (
    [El "h3" "" [Text "System Activity"]; Text "LIVE"]
    ++ match ov_activities s with
       | [] => [Text "Awaiting live system activity stream..."]
       | l => (fun a => El "div" (match ac_type a with
                                  | ActAlert => "bg-red-500" | ActSystem => "bg-blue-500" | ActInfo => "bg-slate-500"
                                  end) [Text (ac_msg a); Text (ac_time a)]) <$> l
       end).

Definition MetricCard (title value color : string) : html ov_event :=
  El "div" "" [El "h3" "" [Text title]; El "div" color [Text value]].

Definition kpi_grid (m : option SystemMetrics) : list (html ov_event) :=
  [MetricCard "Alerts Scanned (24h)" (or_str (locale_num ∘ sm_alertsScanned <$> m) "0") "text-blue-400";
   MetricCard "Open Incidents" (or_str (of_Z ∘ sm_openIncidents <$> m) "0") "text-red-400";
   MetricCard "Events Ingested" (of_Z (or_num (sm_eventsIngestGB24h <$> m) 0) +:+ " GB") "text-indigo-400";
   MetricCard "Threats Prevented" (or_str (locale_num ∘ sm_preventedEvents <$> m) "0") "text-emerald-400"].

Definition health_strip (s : ov_state) : html ov_event :=
  let dot b := StatusDot (if b : bool then StSuccess else StWarning) false in
  El "div" "" [StatusDot StSuccess true; Text "CORE-INGEST"; dot (ov_agentConn s); Text "SOC-BACKEND";
               dot (ov_alertsConn s); Text "THREAT-FEEDS"].

Definition ov_page (s : ov_state) : list (html ov_event) :=
  [El "h1" "" [Text "Global Operations Overview"];
   El "p" "" [Text "Real-time telemetry and threat prevention metrics across all managed tenants."];
   health_strip s]
  ++ kpi_grid (as_data (ov_metrics s))
  ++ [El "h2" "" [Text "LangGraph Operations Panel"]; El "AgentResilienceStatus" "" []; El "AgentTriageFeed" "" [];
      queue_panel s; activity_panel s; El "AgentChatWidget" "" []].

Definition ov_view (s : ov_state) : list (html ov_event) :=
  if as_loading (ov_metrics s) then [LoadingSkeleton 8]
  else match as_error (ov_metrics s), as_data (ov_metrics s) with
       | Some err, None => [ErrorState err (Some OvRetry)]
       | _, _ => ov_page s
       end.

Definition draw_number_ok (draw : nat -> alert_draw) : Prop := forall i, (100 <= ad_number (draw i) < 1000)%Z.

Definition ov_enabled (s : ov_state) (e : ov_event) : Prop :=
  match e with
  | OvMount | OvConn _ _ | OvAlertMsg _ _ _ | OvAgentMsg _ _ => True
  | OvMetrics k _ => fl_map (ov_flight s) !! k = Some OKMetrics
  | OvAlerts k _ draw _ => fl_map (ov_flight s) !! k = Some OKAlerts /\ draw_number_ok draw
  | OvPatched k _ => exists c, fl_map (ov_flight s) !! k = Some c /\ c <> OKMetrics /\ c <> OKAlerts
  | _ => offers_any (ov_view s) e
  end.

(** ** The activity feed *)
Definition activity_of (e : ov_event) : option ActivityEvent :=
  match e with
  | OvAlertMsg _ time (Some m) =>
      if truthy_str (ra_id m)
      then Some (Activity time ("High-priority alert " +:+ nullish (ra_id m) EmptyString +:+ " triggered: "
                   +:+ or_str (ra_type m) "Detection") ActAlert)
      else None
  | OvAgentMsg time (Some m) =>
      Some (Activity time
        (or_str (or_else (ag_message m) (ag_msg m)) (or_str (ag_node m) "Agent" +:+ " executed successfully"))
        (if bool_decide (ag_node m = Some "LLMTriage") then ActSystem else ActInfo))
  | _ => None
  end.

Lemma ov_handle_activities e s :
  ov_activities (fst (ov_handle e s)) =
  match activity_of e with Some a => push_activity a (ov_activities s) | None => ov_activities s end.
Proof.
  destruct e; try done; cbn [ov_handle fst activity_of].
  - unfold on_alert_message. destruct m as [m|]; [|done]. by destruct (truthy_str _).
  - by destruct m.
  - by destruct r as [[]|].
  - destruct (fl_map _ !! k) as [[]|]; try done. by destruct r.
Qed.

(** In every execution the activity feed is the twenty latest messages of both
    streams, latest first: none is lost before it is twenty messages old,
    none is repeated, and nothing else enters the feed. *)
Lemma activity_feed es qs s :
  run ov_enabled ov_handle ov_init es qs s ->
  ov_activities s = take 20 (reverse (omap activity_of es)).
Proof.
  induction 1 as [|es qs s e s' q _ IH _ Hh]; [done|].
  pose proof (ov_handle_activities e s) as H. rewrite Hh in H. cbn [fst] in H. rewrite H, omap_app, reverse_app.
  cbn [omap list_omap]. destruct (activity_of e) as [a|]; [|done]. rewrite IH. unfold push_activity.
  change (reverse [a]) with [a]. cbn [app take]. by rewrite take_take.
Qed.

(** ** Failed actions *)

(** A failed action is reported as done: when the backend refuses an escalation
    the page says that the alert was escalated although nothing changed, a
    refused acknowledgement still removes the alert from the queue, and a
    refused handoff note is said to be compiled. *)
Lemma failed_actions_reported_done s k id e :
  (fl_map (ov_flight s) !! k = Some (OKEscalate id) ->
     snd (ov_handle (OvPatched k (HttpErr e)) s) = [OvAlert ("Alert " +:+ id +:+ " escalated.")] /\
     ov_alerts (fst (ov_handle (OvPatched k (HttpErr e)) s)) = ov_alerts s) /\
  (fl_map (ov_flight s) !! k = Some (OKAck id) ->
     id ∉ ai_id <$> ov_alerts (fst (ov_handle (OvPatched k (HttpErr e)) s)) /\
     snd (ov_handle (OvPatched k (HttpErr e)) s) = []) /\
  (fl_map (ov_flight s) !! k = Some OKHandoff ->
     snd (ov_handle (OvPatched k (HttpErr e)) s) =
       [OvAlert "Shift handoff report compiled for current operational queue."]).
Proof.
  cbn [ov_handle]. split_and!; intros ->; [done| |done]. split; [|done].
  cbn [handleFalsePositive_done fst ov_set_alerts ov_alerts]. unfold without.
  intros (a & E & Ha)%list_elem_of_fmap. apply list_elem_of_In, filter_In in Ha as [_ Ha].
  rewrite <- E, String.eqb_refl in Ha. discriminate Ha.
Qed.

(** ** Deadlines *)

(** The deadline does not follow the severity shown: an alert whose severity is
    not a number is listed as severity 2, or as severity 1 when it comes over
    the stream, but gets the time of a lower severity: 120 instead of 45
    minutes, and 45 instead of 15. *)
Lemma default_severity_deadline now d m m2 t id :
  ra_severity m = None -> m2 = RawAlert (ra_id m) (ra_type m) (Some 2%Z) (ra_created_at m) (ra_createdAt m)
    (ra_assigned_to m) (ra_assignedTo m) ->
  date_parse local (ai_createdAt (parse_alert now d m)) = Some t ->
  severityBadge (ai_severity (parse_alert now d m)) = S2 /\
  ai_severity (parse_alert now d m) = ai_severity (parse_alert now d m2) /\
  (exists x y, ai_sla (parse_alert now d m) = Some x /\ ai_sla (parse_alert now d m2) = Some y /\ x = (y + 75)%Z) /\
  severityBadge (ai_severity (stream_alert now id m)) = S1 /\ ai_sla (stream_alert now id m) = Some 45%Z.
Proof.
  intros Hs -> Ht. unfold parse_alert, stream_alert, elapsedMinutes in *.
  cbn [ai_severity ai_sla ai_createdAt ra_severity ra_created_at ra_createdAt] in *. rewrite Hs, Ht.
  cbn [nullish default from_option fmap option_fmap option_map].
  split_and!; try done. eexists _, _. split_and!; [reflexivity|reflexivity|].
  change (slaBudget None) with 120%Z. change (slaBudget (Some 2%Z)) with 45%Z. lia.
Qed.

(** An alert is shown as breached exactly when more whole minutes have passed
    than its budget has. *)
Lemma breached_iff now d m t :
  date_parse local (ai_createdAt (parse_alert now d m)) = Some t ->
  isBreached (ai_sla (parse_alert now d m)) = true <->
  (t + (slaBudget (ra_severity m) + 1) * 60000 <= now)%Z.
Proof.
  intros Ht. unfold parse_alert, elapsedMinutes in *. cbn [ai_sla ai_createdAt] in *. rewrite Ht.
  cbn [fmap option_fmap option_map isBreached]. rewrite Z.ltb_lt.
  assert (H : forall b, (b - (now - t) / (1000 * 60) < 0 <-> t + (b + 1) * 60000 <= now)%Z).
  { intros b. pose proof (Z.div_mod (now - t) 60000 ltac:(lia)). pose proof (Z.mod_pos_bound (now - t) 60000 ltac:(lia)).
    change (1000 * 60)%Z with 60000%Z. lia. }
  apply H.
Qed.

(** ** The queue *)
Lemma add_alert_NoDup a l : NoDup (ai_id <$> l) -> NoDup (ai_id <$> add_alert a l).
Proof.
  intros H. unfold add_alert. destruct (existsb _ l) eqn:E; [done|]. rewrite fmap_cons. apply NoDup_cons. split; [|done].
  intros (b & Eb & Hb)%list_elem_of_fmap. assert (existsb (fun b => String.eqb (ai_id b) (ai_id a)) l = true); [|congruence].
  apply existsb_exists. exists b. split; [by apply list_elem_of_In|]. by apply String.eqb_eq.
Qed.

(** The answers have distinct identifiers, the drawn ones included. *)
Definition distinct_answer (e : ov_event) : Prop :=
  match e with
  | OvAlerts _ now draw (HttpOk (Some l)) => NoDup (ai_id <$> imap (fun i => parse_alert now (draw i)) l)
  | _ => True
  end.

(** C37: in every execution whose answers have distinct identifiers the queue has one
    entry per alert, whatever the stream repeats and whichever alerts are
    escalated or dismissed meanwhile, and the own queue is exactly the
    alerts assigned to the analyst. *)
Theorem alert_queue_unique es qs s :
  run ov_enabled ov_handle ov_init es qs s -> Forall distinct_answer es ->
  NoDup (ai_id <$> ov_alerts s) /\
  forall a, a ∈ filteredAlerts s <-> a ∈ ov_alerts s /\ (ov_myQueueOnly s = true -> ai_assignedTo a = "me").
Proof.
  intros Hrun Hes. split.
  - revert Hes Hrun. apply (run_invariant_where _ _ _ (fun s => NoDup (ai_id <$> ov_alerts s))); [apply NoDup_nil_2|].
    intros t e Ht _ He. destruct e; try done; cbn [ov_handle].
    + cbn [fst]. unfold on_alert_message. destruct m as [m|]; [|done]. destruct (truthy_str _); [|done].
      by apply add_alert_NoDup.
    + by destruct m.
    + destruct r as [[l|]|]; done.
    + destruct (fl_map _ !! k) as [[| |id|id|]|]; try done.
      * destruct r; [|done]. cbn. rewrite <- list_fmap_compose.
        erewrite list_fmap_ext; [exact Ht|]. intros i a _. cbn. unfold escalated. by destruct (String.eqb _ _).
      * cbn. unfold without. clear -Ht. induction (ov_alerts t) as [|a l IH]; [done|].
        rewrite fmap_cons in Ht. apply NoDup_cons in Ht as [Ha Hl]. cbn [List.filter].
        destruct (negb _); [|by apply IH]. rewrite fmap_cons. apply NoDup_cons. split; [|by apply IH].
        intros (b & Eb & Hb)%list_elem_of_fmap. apply list_elem_of_In, filter_In in Hb as [Hb _].
        apply Ha, list_elem_of_fmap. exists b. split; [done|]. by apply list_elem_of_In.
  - intros a. unfold filteredAlerts. destruct (ov_myQueueOnly s); [|naive_solver].
    rewrite list_elem_of_In, filter_In, <- list_elem_of_In, String.eqb_eq. naive_solver.
Qed.
End Parse.

(** ** Witnesses *)
Definition demo_raw_alert (id : string) (sev : option Z) : raw_alert :=
  RawAlert (Some id) None sev (Some "1970-01-01T00:00:00Z") None (Some "me") None.
Definition demo_ov : list ov_event :=
  [OvMount; OvAlerts 1 600000 (fun _ => AlertDraw 100 true) (HttpOk (Some [demo_raw_alert "a" None; demo_raw_alert "b" (Some 1%Z)]));
   OvAlertMsg 0 "10:00" (Some (demo_raw_alert "b" None)); OvAgentMsg "10:01" (Some (AgentEvent None None (Some "LLMTriage")))].
Definition demo_ov_state : ov_state := fst (exec (ov_handle id) demo_ov ov_init).

Lemma demo_ov_run : run (ov_enabled of_Z) (ov_handle id) ov_init demo_ov (snd (exec (ov_handle id) demo_ov ov_init)) demo_ov_state.
Proof.
  apply exec_run. cbn [demo_ov all_enabled]. split; [done|]. split; [|done].
  split; [done|]. intros i. cbn. lia.
Qed.

Lemma activity_feed_witness : ac_type <$> ov_activities demo_ov_state = [ActSystem; ActAlert].
Proof. by rewrite (activity_feed id of_Z _ _ _ demo_ov_run). Defined.

Lemma default_severity_deadline_witness :
  severityBadge (ai_severity (parse_alert id 600000 (AlertDraw 100 true) (demo_raw_alert "a" None))) = S2.
Proof.
  exact (proj1 (default_severity_deadline id 600000 (AlertDraw 100 true) (demo_raw_alert "a" None) _ 0 "x"
    eq_refl eq_refl eq_refl)).
Defined.

Lemma alert_queue_unique_witness : NoDup (ai_id <$> ov_alerts demo_ov_state).
Proof.
  refine (proj1 (alert_queue_unique id of_Z _ _ _ demo_ov_run _)).
  apply Forall_cons. split; [done|]. apply Forall_cons. split; [|by repeat constructor].
  cbn [distinct_answer]. apply (bool_decide_unpack _). vm_compute. exact I.
Defined.
