(* ===== verification/Compliance.v ===== *)
(** * Compliance posture ([pages/dashboards/CompliancePage.tsx])

    The frameworks with their controls, the export, the link for auditors and
    the dialog that assigns a remediation task.  The three actions wait for an
    answer or for a timer. *)
From S2P Require Import Prelude JsString Html Types Http Routing AsyncState SharedUi.

Record EnhancedControl := MkControl {
  ec_control : ComplianceControl; ec_evidenceLink : option string; ec_sharedWith : list string }.
Record EnhancedFramework := MkFramework {
  ef_framework : ComplianceFramework; ef_historicalScores : list Z; ef_controls : list EnhancedControl }.

Definition enhance_control (c : ComplianceControl) : EnhancedControl :=
  MkControl c
    (if bool_decide (ctl_status c = ControlFailed)
     then Some ("/assets/vulnerabilities?control=" +:+ ctl_id c) else None)
    (if includes "AC" (ctl_id c) then ["SOC 2"] else []).

Definition enhance_framework (fw : ComplianceFramework) : EnhancedFramework :=
  MkFramework fw [fw_score fw - 12; fw_score fw - 5; fw_score fw]%Z (enhance_control <$> fw_controls fw).

Inductive cp_kont := CKLoad | CKExport | CKLink | CKTask.
#[export] Instance cp_kont_eq_dec : EqDecision cp_kont.
Proof. solve_decision. Defined.

Record cp_state := CpState {
  cp_async : async (list EnhancedFramework);
  cp_expanded : gmap string bool;
  cp_isExporting : bool;
  cp_isGenerating : bool;
  cp_auditLink : string;
  cp_assignModalOpen : bool;
  cp_assignControlId : string;
  cp_assignee : string;
  cp_dueDate : string;
  cp_flight : flight cp_kont }.

Definition cp_init : cp_state :=
  CpState async_init ∅ false false EmptyString false EmptyString EmptyString EmptyString fl_empty.

Inductive cp_effect :=
| GetCompliance | PostExport | Download (name : string)
| PostTask (control assignee dueDate : string)
| CopyText (s : string) | CpNavigate (path : string) | CpAlert (msg : string).

Inductive cp_event :=
| CpExecute | CpToggle (id : string) | CpExport | CpGenerate | CpCopy
| CpEvidence (path : string)
| CpOpenAssign (control : string) | CpCancel | CpAssignee (v : string) | CpDue (v : string) | CpSubmit
| CpLoaded (k : nat) (r : http_result (list ComplianceFramework))
| CpExported (k : nat) (r : http_result unit)
| CpLink (k : nat) (token : string)
| CpTask (k : nat) (r : http_result unit).

Definition cp_set_load a f s := CpState a (cp_expanded s) (cp_isExporting s) (cp_isGenerating s) (cp_auditLink s)
  (cp_assignModalOpen s) (cp_assignControlId s) (cp_assignee s) (cp_dueDate s) f.
Definition cp_set_flags m x g l s := CpState (cp_async s) m x g l
  (cp_assignModalOpen s) (cp_assignControlId s) (cp_assignee s) (cp_dueDate s) (cp_flight s).
Definition cp_set_form o c a d s := CpState (cp_async s) (cp_expanded s) (cp_isExporting s) (cp_isGenerating s)
  (cp_auditLink s) o c a d (cp_flight s).
Definition cp_await k s := cp_set_load (cp_async s) (fl_await k (cp_flight s)) s.
Definition cp_forget k s := cp_set_load (cp_async s) (fl_forget k (cp_flight s)) s.
Definition cp_exporting b s := cp_set_flags (cp_expanded s) b (cp_isGenerating s) (cp_auditLink s) s.
Definition cp_generating b l s := cp_set_flags (cp_expanded s) (cp_isExporting s) b l s.

Section Page.
(** The origin of the console. *)
Context (origin : string) (locale_date : string -> string).

Definition toggleFramework (id : string) (s : cp_state) : cp_state :=
  cp_set_flags (<[id := negb (nullish (cp_expanded s !! id) false)]> (cp_expanded s))
    (cp_isExporting s) (cp_isGenerating s) (cp_auditLink s) s.

Definition audit_link (token : string) : string :=
  origin +:+ "/audit/read-only?token=tk_" +:+ token +:+ "&expires=7d".

Definition handleExport (s : cp_state) : cp_state * list cp_effect :=
  (cp_await CKExport (cp_exporting true s), [PostExport]).
Definition handleExport_done (r : http_result unit) (s : cp_state) : cp_state * list cp_effect :=
  (cp_exporting false s,
   match r with
   | HttpOk _ => [Download "compliance_report.pdf"]
   | HttpErr _ => [CpAlert "Failed to export compliance report."]
   end).

Definition handleGenerateAuditLink (s : cp_state) : cp_state :=
  cp_await CKLink (cp_generating true (cp_auditLink s) s).
Definition handleGenerateAuditLink_done (token : string) (s : cp_state) : cp_state :=
  cp_generating false (audit_link token) s.

Definition handleAssignTask (s : cp_state) : cp_state * list cp_effect :=
  (cp_await CKTask s, [PostTask (cp_assignControlId s) (cp_assignee s) (cp_dueDate s)]).
Definition handleAssignTask_done (r : http_result unit) (s : cp_state) : cp_state * list cp_effect :=
  match r with
  | HttpOk _ => (cp_set_form false (cp_assignControlId s) (cp_assignee s) (cp_dueDate s) s,
                 [CpAlert "Remediation task assigned successfully!"])
  | HttpErr _ => (s, [CpAlert "Failed to assign task."])
  end.

Definition cp_handle (e : cp_event) (s : cp_state) : cp_state * list cp_effect :=
  match e with
  | CpExecute => (cp_set_load (async_start (cp_async s)) (fl_await CKLoad (cp_flight s)) s, [GetCompliance])
  | CpToggle id => (toggleFramework id s, [])
  | CpExport => handleExport s
  | CpGenerate => (handleGenerateAuditLink s, [])
  | CpCopy => (s, [CopyText (cp_auditLink s)])
  | CpEvidence p => (s, [CpNavigate p])
  | CpOpenAssign c => (cp_set_form true c (cp_assignee s) (cp_dueDate s) s, [])
  | CpCancel => (cp_set_form false (cp_assignControlId s) (cp_assignee s) (cp_dueDate s) s, [])
  | CpAssignee v => (cp_set_form (cp_assignModalOpen s) (cp_assignControlId s) v (cp_dueDate s) s, [])
  | CpDue v => (cp_set_form (cp_assignModalOpen s) (cp_assignControlId s) (cp_assignee s) v s, [])
  | CpSubmit => handleAssignTask s
  | CpLoaded k r =>
      (cp_set_load (match r with
                    | HttpOk l => async_ok (enhance_framework <$> l) (cp_async s)
                    | HttpErr e => async_fail (he_message e) (cp_async s)
                    end) (fl_forget k (cp_flight s)) s, [])
  | CpExported k r => handleExport_done r (cp_forget k s)
  | CpLink k token => (handleGenerateAuditLink_done token (cp_forget k s), [])
  | CpTask k r => handleAssignTask_done r (cp_forget k s)
  end.

(** ** The rendered page *)
Definition framework_badge (st : FrameworkStatus) : BadgeSeverity * string :=
  match st with
  | Compliant => (S4, "Compliant") | FrameworkWarning => (S3, "Needs Attention") | NonCompliant => (S1, "Non-Compliant")
  end.

Definition status_cell (c : EnhancedControl) : list (html cp_event) :=
  match ctl_status (ec_control c) with
  | ControlPassed => [El "span" "text-green-400" [Text "Passed"]]
  | ControlFailed => [El "span" "text-red-400" [Text "Failed"]]
  | ControlWarning => [El "span" "text-yellow-400" [Text "Partial"]]
  end ++ when_some (ec_evidenceLink c) (fun l => when (negb (String.eqb l EmptyString))
    [Clickable (CpEvidence l) [Text "View Evidence"]]).

Definition control_row (c : EnhancedControl) : html cp_event :=
  El "tr" "" [
    El "td" "" [Text (ctl_id (ec_control c))]; El "td" "" [Text (ctl_name (ec_control c))];
    El "td" "" [Text (if 0 <? length (ec_sharedWith c) then "+ " +:+ join ", " (ec_sharedWith c) else "-")];
    El "td" "" [Text (locale_date (ctl_lastChecked (ec_control c)))];
    El "td" "" (status_cell c);
    El "td" "" (when (bool_decide (ctl_status (ec_control c) = ControlFailed)
                      || bool_decide (ctl_status (ec_control c) = ControlWarning))
                  [Button false (Some (CpOpenAssign (ctl_id (ec_control c)))) [Text "Assign Remediation"]])].

Definition trend_bar (i : nat) (score : Z) : html cp_event :=
  El "div" ("height: " +:+ of_Z score +:+ "%") [Text ("Audit " +:+ of_nat_str (i + 1) +:+ ": " +:+ of_Z score +:+ "%")].

Definition framework_card (s : cp_state) (f : EnhancedFramework) : html cp_event :=
  let fw := ef_framework f in
  let '(b, label) := framework_badge (fw_status fw) in
  El "div" "" (
    Clickable (CpToggle (fw_id fw)) (
      [El "h2" "" [Text (fw_framework fw)]; Text (of_nat_str (length (ef_controls f)) +:+ " controls mapped");
       Badge (Some b) [Text label]]
      ++ imap trend_bar (ef_historicalScores f)
      ++ [Text "Last 3 Audits"; Text (of_Z (fw_score fw) +:+ "%"); Text "Coverage Score"]) ::
    when (nullish (cp_expanded s !! fw_id fw) false) [
      El "table" "" [
        El "thead" "" (Text <$> ["Control ID"; "Description"; "Overlap"; "Last Checked"; "Status & Evidence"; "Action"]);
        El "tbody" "" (control_row <$> ef_controls f)]]).

Definition link_banner (s : cp_state) : list (html cp_event) :=
  when (negb (String.eqb (cp_auditLink s) EmptyString)) [
    El "div" "" [Text "Auditor Read-Only Link Generated (Valid for 7 days)"; Text (cp_auditLink s);
                 Button false (Some CpCopy) [Text "Copy"]]].

Definition assignee_options : list (string * string) :=
  [(EmptyString, "Select Analyst..."); ("alice", "Alice (SecOps)"); ("bob", "Bob (AppSec)")].

(** Both fields are required: the browser does not submit the form without them. *)
Definition task_form (s : cp_state) : list (html cp_event) :=
  when (cp_assignModalOpen s) [
    El "div" "" [
      El "h2" "" [Text "Assign Remediation"];
      Text "Assign To"; Select (cp_assignee s) assignee_options CpAssignee;
      Text "Due Date"; Input false (cp_dueDate s) CpDue;
      Button false (Some CpCancel) [Text "Cancel"];
      Button (String.eqb (cp_assignee s) EmptyString || String.eqb (cp_dueDate s) EmptyString)
        (Some CpSubmit) [Text "Assign Task"]]].

Definition cp_page (s : cp_state) : list (html cp_event) :=
  [El "h1" "" [Text "Compliance & Audit Posture"];
   El "p" "" [Text "Track regulatory framework adherence and remediation workflows."];
   Button (cp_isGenerating s) (Some CpGenerate) [Text (if cp_isGenerating s then "Generating..." else "Audit-Ready Link")];
   Button (cp_isExporting s) (Some CpExport) [Text (if cp_isExporting s then "Generating PDF..." else "Export Compliance Report")]]
  ++ link_banner s
  ++ (framework_card s <$> nullish (as_data (cp_async s)) [])
  ++ task_form s.

Definition cp_view (s : cp_state) : list (html cp_event) :=
  if as_loading (cp_async s) then [LoadingSkeleton 8]
  else match as_error (cp_async s), as_data (cp_async s) with
       | Some err, None => [ErrorState err (Some CpExecute)]
       | _, _ => cp_page s
       end.

Definition cp_enabled (s : cp_state) (e : cp_event) : Prop :=
  match e with
  | CpExecute => True
  | CpLoaded k _ => fl_map (cp_flight s) !! k = Some CKLoad
  | CpExported k _ => fl_map (cp_flight s) !! k = Some CKExport
  | CpLink k _ => fl_map (cp_flight s) !! k = Some CKLink
  | CpTask k _ => fl_map (cp_flight s) !! k = Some CKTask
  | _ => offers_any (cp_view s) e
  end.

(** ** What the page offers *)
Definition cp_guard (s : cp_state) (e : cp_event) : Prop :=
  match e with
  | CpExport => cp_isExporting s = false
  | CpGenerate => cp_isGenerating s = false
  | CpAssignee v => v ∈ assignee_options.*1
  | CpSubmit => cp_assignModalOpen s = true /\ cp_assignee s <> EmptyString /\ cp_dueDate s <> EmptyString
  | CpLoaded _ _ | CpExported _ _ | CpLink _ _ | CpTask _ _ => False
  | _ => True
  end.

Lemma framework_card_guard s f e : offers (framework_card s f) e -> cp_guard s e.
Proof.
  unfold framework_card. destruct (framework_badge _) as [b label]. rewrite offers_El, offers_any_cons, offers_any_when.
  intros [H|[_ H]].
  - rewrite offers_Clickable, !offers_any_app in H. destruct H as [->|[H|[H|H]]]; [done|by offers_cases H| |by offers_cases H].
    cbn [imap] in H. unfold offers_any in H. apply Exists_exists in H as (h & Hh & H).
    apply list_elem_of_lookup in Hh as (i & Hi). rewrite list_lookup_imap in Hi.
    apply fmap_Some in Hi as (x & _ & ->). unfold trend_bar in H. by offers_cases H.
  - rewrite offers_any_cons, offers_any_nil, offers_El, !offers_any_cons, offers_any_nil in H.
    destruct H as [[H|[H|[]]]|[]]; [by offers_cases H|]. rewrite offers_El, offers_any_map in H.
    destruct H as (c & _ & H). unfold control_row, status_cell in H.
    destruct (ctl_status (ec_control c)); offers_cases H; done.
Qed.

Lemma cp_offers_guard s e : offers_any (cp_view s) e -> cp_guard s e.
Proof.
  unfold cp_view. destruct (as_loading (cp_async s)); [intros H; by offers_cases H|].
  assert (Hpage : offers_any (cp_page s) e -> cp_guard s e).
  { unfold cp_page. rewrite !offers_any_app. intros [H|[H|[H|H]]].
    - offers_cases H; done.
    - unfold link_banner in H. by offers_cases H.
    - apply offers_any_map in H as (f & _ & H). by eapply framework_card_guard.
    - unfold task_form in H. offers_cases H; try done.
      match goal with E : _ || _ = false |- _ => apply orb_false_iff in E as [E1 E2] end.
      apply String.eqb_neq in E1, E2. done. }
  destruct (as_error (cp_async s)), (as_data (cp_async s)); auto. intros H; by offers_cases H.
Qed.

(** ** Remediation tasks *)
Definition form_ok (es : list cp_event) (s : cp_state) : Prop :=
  cp_assignee s ∈ assignee_options.*1 /\
  (cp_assignModalOpen s = true -> CpOpenAssign (cp_assignControlId s) ∈ es).

Lemma form_invariant es qs s : run cp_enabled cp_handle cp_init es qs s -> form_ok es s.
Proof.
  induction 1 as [|es qs s e s' q _ [IH1 IH2] Hen Hh]; [split; [left|done]|].
  assert (Hkeep : forall t, cp_assignee t = cp_assignee s -> cp_assignModalOpen t = cp_assignModalOpen s ->
    cp_assignControlId t = cp_assignControlId s -> form_ok (es ++ [e]) t).
  { intros t E1 E2 E3. unfold form_ok. rewrite E1, E2, E3. split; [done|]. intros Ho.
    apply elem_of_app. left. auto. }
  destruct e; cbn [cp_handle handleExport handleExport_done handleAssignTask] in Hh;
    try (injection Hh as <- <-; by apply Hkeep).
  - injection Hh as <- <-. split; [done|]. intros _. apply elem_of_app. right. left.
  - injection Hh as <- <-. by split.
  - injection Hh as <- <-. split; [by apply cp_offers_guard in Hen|]. intros Ho. apply elem_of_app. auto.
  - unfold handleAssignTask_done in Hh. destruct r; injection Hh as <- <-; [by split|by apply Hkeep].
Qed.

(** In every execution a remediation task is sent only by the form of a control
    that was opened for it, to one of the two analysts offered, with a due
    date; a refused request leaves the form open with what was entered. *)
Lemma task_requests es qs s e c a d :
  run cp_enabled cp_handle cp_init es qs s -> cp_enabled s e -> PostTask c a d ∈ snd (cp_handle e s) ->
  e = CpSubmit /\ c = cp_assignControlId s /\ CpOpenAssign c ∈ es /\ a ∈ ["alice"; "bob"] /\ d <> EmptyString /\
  forall k err s', fst (cp_handle (CpTask k (HttpErr err)) s') = cp_forget k s'.
Proof.
  intros Hrun Hen Hq. apply form_invariant in Hrun as [Ha Ho].
  assert (He : e = CpSubmit).
  { destruct e; cbn [cp_handle] in Hq; try (by elem_inv Hq); try done.
    - destruct r; by elem_inv Hq.
    - unfold handleAssignTask_done in Hq. destruct r; by elem_inv Hq. }
  subst e. apply cp_offers_guard in Hen as (Hm & Hn & Hd). cbn [cp_handle handleAssignTask snd] in Hq.
  elem_inv Hq. simplify_eq. split_and!; auto.
  cbn in Ha. rewrite !elem_of_cons in *. destruct Ha as [Ha|Ha]; [by rewrite Ha in Hn|done].
Qed.

(** Two clicks on the form send two tasks: nothing is disabled while the
    request is pending. *)
Lemma task_double_submit s :
  cp_enabled s CpSubmit ->
  all_enabled cp_enabled cp_handle [CpSubmit; CpSubmit] s /\
  snd (exec cp_handle [CpSubmit; CpSubmit] s) =
    [PostTask (cp_assignControlId s) (cp_assignee s) (cp_dueDate s);
     PostTask (cp_assignControlId s) (cp_assignee s) (cp_dueDate s)].
Proof. done. Qed.

(** ** The link for auditors *)

(** The link for auditors leads nowhere: whatever token is drawn, its path is in
    no route, so any router that keeps its promises shows the page for
    unknown paths. *)
Lemma audit_link_dead `{!RouterMatch m} token k s :
  cp_auditLink (fst (cp_handle (CpLink k token) s)) =
    origin +:+ "/audit/read-only" +:+ "?token=tk_" +:+ token +:+ "&expires=7d" /\
  rt_element <$> m "/audit/read-only" = Some (Page "NotFoundPage").
Proof.
  split; [done|]. destruct (match_total "/audit/read-only") as [r Hr]. rewrite Hr. cbn. f_equal.
  by apply (unrouted_not_found "/audit/read-only").
Qed.

(** ** One report at a time *)
Definition is_export (k : cp_kont) : bool := bool_decide (k = CKExport).

Definition export_ok (s : cp_state) : Prop := fl_flag is_export (cp_isExporting s) (cp_flight s).

Lemma cp_handle_export s e : export_ok s -> cp_enabled s e -> export_ok (fst (cp_handle e s)).
Proof.
  intros H Hen. destruct e; cbn [cp_handle fst]; try exact H.
  - by apply fl_flag_await.
  - apply cp_offers_guard in Hen. cbn in Hen. unfold export_ok in *. rewrite Hen in H. by apply fl_flag_raise.
  - by apply fl_flag_await.
  - by apply fl_flag_await.
  - by apply (fl_flag_forget _ _ _ CKLoad).
  - by apply (fl_flag_lower _ (cp_isExporting s) _ CKExport).
  - by apply (fl_flag_forget _ _ _ CKLink).
  - destruct r; by apply (fl_flag_forget _ _ _ CKTask).
Qed.

(** One report at a time: in every execution the export is asked for only when no
    export is pending, and the button is blocked exactly as long as one is,
    whether it then succeeds or fails. *)
Lemma export_single es qs s e :
  run cp_enabled cp_handle cp_init es qs s -> cp_enabled s e -> PostExport ∈ snd (cp_handle e s) ->
  ~ (exists k, fl_map (cp_flight s) !! k = Some CKExport) /\
  cp_isExporting (fst (cp_handle e s)) = true /\
  forall k r, cp_enabled (fst (cp_handle e s)) (CpExported k r) ->
    cp_isExporting (fst (cp_handle (CpExported k r) (fst (cp_handle e s)))) = false.
Proof.
  intros Hrun Hen Hq. assert (He : e = CpExport).
  { destruct e; cbn [cp_handle] in Hq; try (by elem_inv Hq); try done.
    - destruct r; by elem_inv Hq.
    - unfold handleAssignTask_done in Hq. destruct r; by elem_inv Hq. }
  subst e. assert (Hok : export_ok s).
  { revert Hrun. apply run_invariant; [apply fl_flag_empty|intros; by apply cp_handle_export]. }
  apply cp_offers_guard in Hen. cbn in Hen. unfold export_ok in Hok. rewrite Hen in Hok.
  split; [|done]. intros (k & Hk). by apply (fl_flag_free _ _ _ _ Hok) in Hk.
Qed.
End Page.

(** ** Witnesses *)
Definition demo_fw : ComplianceFramework :=
  {| fw_id := "fw-1"; fw_framework := "SOC 2"; fw_score := 85; fw_status := Compliant;
     fw_controls := [{| ctl_id := "CC-02"; ctl_name := "Change"; ctl_status := ControlFailed;
                        ctl_lastChecked := "2024-01-01"; ctl_notes := None |}] |}.
Definition demo_cp : list cp_event :=
  [CpExecute; CpLoaded 0 (HttpOk [demo_fw]); CpToggle "fw-1"; CpOpenAssign "CC-02"; CpAssignee "bob"; CpDue "2024-02-01"].

Definition demo_cp_state : cp_state := fst (exec (cp_handle EmptyString) demo_cp cp_init).

Lemma cp_view_page l s d :
  as_loading (cp_async s) = false -> as_data (cp_async s) = Some d -> cp_view l s = cp_page l s.
Proof. unfold cp_view. intros -> ->. by destruct (as_error _). Qed.

Lemma cp_form_offers l s d e :
  as_loading (cp_async s) = false -> as_data (cp_async s) = Some d -> offers_any (task_form s) e ->
  offers_any (cp_view l s) e.
Proof. intros Hl Hd H. rewrite (cp_view_page l s d) by done. unfold cp_page. rewrite !offers_any_app. auto. Qed.

Lemma cp_card_offers l s d f e :
  as_loading (cp_async s) = false -> as_data (cp_async s) = Some d -> f ∈ d -> offers (framework_card l s f) e ->
  offers_any (cp_view l s) e.
Proof.
  intros Hl Hd Hf H. rewrite (cp_view_page l s d) by done. unfold cp_page. rewrite !offers_any_app, Hd.
  right; right; left. apply offers_any_map. by exists f.
Qed.

Lemma demo_cp_enabled : all_enabled (cp_enabled id) (cp_handle EmptyString) demo_cp cp_init.
Proof.
  cbn [demo_cp all_enabled]. split; [done|]. split; [done|].
  split; [apply (cp_card_offers id _ [enhance_framework demo_fw] (enhance_framework demo_fw)); try reflexivity; [left|]|].
  { unfold framework_card. cbn [framework_badge demo_fw fw_status enhance_framework ef_framework].
    rewrite offers_El, offers_any_cons. left. rewrite offers_Clickable. by left. }
  split; [apply (cp_card_offers id _ [enhance_framework demo_fw] (enhance_framework demo_fw)); try reflexivity; [left|]|].
  { unfold framework_card. cbn [framework_badge demo_fw fw_status enhance_framework ef_framework].
    rewrite offers_El, offers_any_cons. right. rewrite offers_any_when. split; [reflexivity|].
    rewrite offers_any_cons. left. rewrite offers_El, !offers_any_cons. right; left.
    rewrite offers_El, offers_any_map. eexists. split; [left|]. unfold control_row. offers_find. }
  split; [apply (cp_form_offers id _ [enhance_framework demo_fw]); try reflexivity; unfold task_form; offers_find|].
  split; [apply (cp_form_offers id _ [enhance_framework demo_fw]); try reflexivity; unfold task_form; offers_find|].
  done.
Qed.

Lemma demo_submit_enabled : cp_enabled id demo_cp_state CpSubmit.
Proof. apply (cp_form_offers id _ [enhance_framework demo_fw]); try reflexivity; unfold task_form; offers_find. Qed.

Lemma task_requests_witness : CpOpenAssign "CC-02" ∈ demo_cp.
Proof.
  exact (proj1 (proj2 (proj2 (task_requests EmptyString id demo_cp _ demo_cp_state CpSubmit "CC-02" "bob" "2024-02-01"
    (exec_run _ _ _ _ demo_cp_enabled) demo_submit_enabled (list_elem_of_here _ _))))).
Defined.

Lemma audit_link_dead_witness : rt_element <$> first_match "/audit/read-only" = Some (Page "NotFoundPage").
Proof. exact (proj2 (audit_link_dead EmptyString "k3j" 0 cp_init)). Defined.

Lemma export_single_witness :
  cp_isExporting (fst (cp_handle EmptyString CpExport demo_cp_state)) = true.
Proof.
  refine (proj1 (proj2 (export_single EmptyString id demo_cp _ demo_cp_state CpExport
    (exec_run _ _ _ _ demo_cp_enabled) _ (list_elem_of_here _ _)))).
  cbn [cp_enabled]. rewrite (cp_view_page id _ [enhance_framework demo_fw]) by reflexivity.
  unfold cp_page. rewrite offers_any_app. left. offers_find.
Defined.
