(* ===== verification/Executive.v ===== *)
(** * Executive summary ([pages/dashboards/ExecutiveDashboardPage.tsx])

    The figures for the board with their trends, the report and the form that
    schedules its delivery, and the two charts that lead to the incidents. *)
From S2P Require Import Prelude JsString Html Types Http Routing AsyncState SharedUi.

Record Deltas := MkDeltas { dl_totalIncidents : Z; dl_mttd_minutes : Z; dl_mttr_minutes : Z }.
Record Benchmark := MkBenchmark { bm_mttdPercentile : Z; bm_mttrPercentile : Z }.

(** Spreading an answer without a body gives an object without figures. *)
Record EnhancedKPIData := MkKpi {
  ek_kpi : option KPIData; ek_deltas : option Deltas; ek_benchmark : option Benchmark }.

Definition enhance_kpi (body : option KPIData) : EnhancedKPIData :=
  MkKpi body (Some (MkDeltas 12 (-18) (-5))) (Some (MkBenchmark 85 72)).

Inductive ex_kont := XKLoad | XKExport | XKSchedule.
#[export] Instance ex_kont_eq_dec : EqDecision ex_kont.
Proof. solve_decision. Defined.

Record ex_state := ExState {
  ex_async : async EnhancedKPIData;
  ex_isExporting : bool;
  ex_showScheduleModal : bool;
  ex_scheduleEmail : string;
  ex_scheduleFreq : string;
  ex_flight : flight ex_kont }.

Definition ex_init : ex_state := ExState async_init false false EmptyString "weekly" fl_empty.

Inductive ex_effect :=
| GetSummary | PostSummaryExport | DownloadReport (name : string)
| PostSchedule (email frequency : string)
| ExNavigate (path : string) | ExAlert (msg : string).

Inductive ex_event :=
| ExExecute | ExExport | ExOpen | ExCancel | ExEmail (v : string) | ExFreq (v : string) | ExSubmit
| ExDrill (path : string)
| ExLoaded (k : nat) (r : http_result (option KPIData))
| ExExported (k : nat) (r : http_result unit)
| ExScheduled (k : nat) (r : http_result unit).

Definition ex_set_load a x f s := ExState a x (ex_showScheduleModal s) (ex_scheduleEmail s) (ex_scheduleFreq s) f.
Definition ex_set_form o m q s := ExState (ex_async s) (ex_isExporting s) o m q (ex_flight s).
Definition ex_await k s := ex_set_load (ex_async s) (ex_isExporting s) (fl_await k (ex_flight s)) s.
Definition ex_forget k s := ex_set_load (ex_async s) (ex_isExporting s) (fl_forget k (ex_flight s)) s.
Definition ex_exporting b s := ex_set_load (ex_async s) b (ex_flight s) s.

Definition handleExport (s : ex_state) : ex_state * list ex_effect :=
  (ex_await XKExport (ex_exporting true s), [PostSummaryExport]).
Definition handleExport_done (r : http_result unit) (s : ex_state) : ex_state * list ex_effect :=
  (ex_exporting false s,
   match r with
   | HttpOk _ => [DownloadReport "Executive_Board_Report.pdf"]
   | HttpErr _ => [ExAlert "Failed to generate board report (mocked)."]
   end).

Definition handleScheduleSubmit (s : ex_state) : ex_state * list ex_effect :=
  (ex_await XKSchedule s, [PostSchedule (ex_scheduleEmail s) (ex_scheduleFreq s)]).
Definition handleScheduleSubmit_done (r : http_result unit) (s : ex_state) : ex_state * list ex_effect :=
  match r with
  | HttpOk _ => (ex_set_form false (ex_scheduleEmail s) (ex_scheduleFreq s) s, [ExAlert "Report scheduled successfully!"])
  | HttpErr _ => (s, [ExAlert "Failed to schedule report."])
  end.

Definition ex_handle (e : ex_event) (s : ex_state) : ex_state * list ex_effect :=
  match e with
  | ExExecute => (ex_await XKLoad (ex_set_load (async_start (ex_async s)) (ex_isExporting s) (ex_flight s) s), [GetSummary])
  | ExExport => handleExport s
  | ExOpen => (ex_set_form true (ex_scheduleEmail s) (ex_scheduleFreq s) s, [])
  | ExCancel => (ex_set_form false (ex_scheduleEmail s) (ex_scheduleFreq s) s, [])
  | ExEmail v => (ex_set_form (ex_showScheduleModal s) v (ex_scheduleFreq s) s, [])
  | ExFreq v => (ex_set_form (ex_showScheduleModal s) (ex_scheduleEmail s) v s, [])
  | ExSubmit => handleScheduleSubmit s
  | ExDrill p => (s, [ExNavigate p])
  | ExLoaded k r =>
      (ex_forget k (ex_set_load (match r with
         | HttpOk b => async_ok (enhance_kpi b) (ex_async s)
         | HttpErr e => async_fail (he_message e) (ex_async s)
         end) (ex_isExporting s) (ex_flight s) s), [])
  | ExExported k r => handleExport_done r (ex_forget k s)
  | ExScheduled k r => handleScheduleSubmit_done r (ex_forget k s)
  end.

(** ** The rendered page *)

(** Zero and undefined are both falsy. *)
Definition truthy_num (d : option Z) : option Z :=
  match d with Some 0%Z => None | _ => d end.

Definition isGood (delta : option Z) (isNegativeGood : bool) : bool :=
  match truthy_num delta with
  | Some d => if isNegativeGood then Z.leb d 0 else Z.leb 0 d
  | None => true
  end.

Definition deltaText (delta : option Z) : option string :=
  match truthy_num delta with
  | Some d => Some (if Z.ltb 0 d then "+" +:+ of_Z d +:+ "%" else of_Z d +:+ "%")
  | None => None
  end.

Definition trend_line (delta : option Z) (isNegativeGood : bool) : option (string * string) :=
  match delta with
  | Some _ => Some (if isGood delta isNegativeGood then "text-emerald-400" else "text-red-400",
                    nullish (deltaText delta) EmptyString +:+ " vs prior period")
  | None => None
  end.

(** A figure the answer lacks renders as nothing. *)
Definition num_text (v : option Z) : string := match v with Some n => of_Z n | None => EmptyString end.

Definition KpiCard (title : string) (value : option Z) (unit : string) (delta : option Z) (isNegativeGood : bool) :
    html ex_event :=
  El "div" "" (
    [El "h3" "" [Text title];
     El "p" "" (Text (num_text value +:+ " ") :: when (negb (String.eqb unit EmptyString)) [Text unit])]
    ++ when_some (trend_line delta isNegativeGood) (fun t => [El "p" (fst t) [Text (snd t)]])).

Definition benchmark_banner (d : EnhancedKPIData) : list (html ex_event) :=
  when_some (ek_benchmark d) (fun b =>
    [El "div" "" [Text "Industry Benchmark Context";
       Text ("Your MTTD is in the Top " +:+ of_Z (100 - bm_mttdPercentile b) +:+ "% for your industry tier. MTTR is operating within expected baseline limits.")]]).

Definition kpi_row (d : EnhancedKPIData) : list (html ex_event) :=
  [KpiCard "Total Incidents (Month)" (kpi_totalIncidents <$> ek_kpi d) EmptyString (dl_totalIncidents <$> ek_deltas d) true;
   KpiCard "MTTD" (kpi_mttd_minutes <$> ek_kpi d) "mins" (dl_mttd_minutes <$> ek_deltas d) true;
   KpiCard "MTTR" (kpi_mttr_minutes <$> ek_kpi d) "mins" (dl_mttr_minutes <$> ek_deltas d) true;
   El "div" "" [El "h3" "" [Text "Critical Open"]; El "p" "text-red-500" [Text (num_text (kpi_criticalOpenCount <$> ek_kpi d))]]].

Definition trend_chart : html ex_event :=
  Clickable (ExDrill "/incidents/closed?timeRange=30d")
    [El "h3" "" [Text "Enterprise Risk Trend (30 Days)"]; Text "Pivot to Closed Incidents"].

Definition category_bars : list Z := [85; 60; 45; 30; 20]%Z.
Definition category_names : list string := ["Phish"; "Mal"; "Ransom"; "Exfil"; "DDoS"].

Definition category_chart : html ex_event :=
  Clickable (ExDrill "/incidents/active?category=phishing,malware") (
    [El "h3" "" [Text "Top Threat Categories"]; Text "Pivot to Active Incidents"]
    ++ ((fun v => El "div" ("height: " +:+ of_Z v +:+ "%") []) <$> category_bars)
    ++ (Text <$> category_names)).

Definition freq_options : list (string * string) :=
  [("daily", "Daily (08:00 AM)"); ("weekly", "Weekly (Mon 08:00 AM)"); ("monthly", "Monthly (1st Day)")].

Section Page.
(** What the browser accepts in a field of type email. *)
Context (validEmail : string -> bool).

(** The browser submits the form only with an address it accepts. *)
Definition schedule_modal (s : ex_state) : list (html ex_event) :=
  when (ex_showScheduleModal s) [
    El "div" "" [
      El "h2" "" [Text "Schedule Report Delivery"];
      Text "Recipient Email(s)"; Input false (ex_scheduleEmail s) ExEmail;
      Text "Delivery Frequency"; Select (ex_scheduleFreq s) freq_options ExFreq;
      Button false (Some ExCancel) [Text "Cancel"];
      Button (String.eqb (ex_scheduleEmail s) EmptyString || negb (validEmail (ex_scheduleEmail s)))
        (Some ExSubmit) [Text "Save Schedule"]]].

Definition ex_page (s : ex_state) (d : EnhancedKPIData) : list (html ex_event) :=
  [El "h1" "" [Text "Executive Security Summary"];
   El "p" "" [Text "High-level metrics and risk trends for CISO reporting."];
   Button false (Some ExOpen) [Text "Schedule Delivery"];
   Button (ex_isExporting s) (Some ExExport) [Text (if ex_isExporting s then "Generating PDF..." else "Generate Board Report")]]
  ++ benchmark_banner d
  ++ kpi_row d
  ++ [trend_chart; category_chart]
  ++ schedule_modal s.

Definition ex_view (s : ex_state) : list (html ex_event) :=
  if as_loading (ex_async s) then [LoadingSkeleton 8]
  else match as_error (ex_async s), as_data (ex_async s) with
       | Some err, None => [ErrorState err (Some ExExecute)]
       | None, None => [EmptyState "No historical data found for this tenant."]
       | _, Some d => ex_page s d
       end.

Definition ex_enabled (s : ex_state) (e : ex_event) : Prop :=
  match e with
  | ExExecute => True
  | ExLoaded k _ => fl_map (ex_flight s) !! k = Some XKLoad
  | ExExported k _ => fl_map (ex_flight s) !! k = Some XKExport
  | ExScheduled k _ => fl_map (ex_flight s) !! k = Some XKSchedule
  | _ => offers_any (ex_view s) e
  end.

(** ** What the page offers *)
Definition ex_guard (s : ex_state) (e : ex_event) : Prop :=
  match e with
  | ExExport => ex_isExporting s = false
  | ExFreq v => v ∈ freq_options.*1
  | ExSubmit => ex_showScheduleModal s = true /\ ex_scheduleEmail s <> EmptyString /\ validEmail (ex_scheduleEmail s) = true
  | ExDrill p => p = "/incidents/closed?timeRange=30d" \/ p = "/incidents/active?category=phishing,malware"
  | ExLoaded _ _ | ExExported _ _ | ExScheduled _ _ => False
  | _ => True
  end.

Lemma kpi_card_inert t v u d g e : ~ offers (KpiCard t v u d g) e.
Proof. unfold KpiCard. intros H. by offers_cases H. Qed.

Lemma ex_page_guard s d e : offers_any (ex_page s d) e -> ex_guard s e.
Proof.
  unfold ex_page. rewrite !offers_any_app. intros [H|[H|[H|[H|H]]]].
  - offers_cases H; done.
  - unfold benchmark_banner in H. by offers_cases H.
  - unfold kpi_row in H. rewrite !offers_any_cons in H.
    destruct H as [H|[H|[H|H]]]; [by apply kpi_card_inert in H..|by offers_cases H].
  - rewrite !offers_any_cons, offers_any_nil in H. unfold trend_chart, category_chart in H.
    destruct H as [H|[H|[]]]; rewrite offers_Clickable in H; destruct H as [->|H]; [by left|by offers_cases H|by right|].
    rewrite !offers_any_app in H. destruct H as [H|[H|H]]; [by offers_cases H|..];
      apply offers_any_map in H as (x & _ & H); by offers_cases H.
  - unfold schedule_modal in H. offers_cases H; try done.
    match goal with E : _ || _ = false |- _ => apply orb_false_iff in E as [E1 E2] end.
    apply String.eqb_neq in E1. apply negb_false_iff in E2. done.
Qed.

Lemma ex_offers_guard s e : offers_any (ex_view s) e -> ex_guard s e.
Proof.
  unfold ex_view. destruct (as_loading (ex_async s)); [intros H; by offers_cases H|].
  destruct (as_error (ex_async s)), (as_data (ex_async s)); try apply ex_page_guard; intros H;
    unfold EmptyState in *; by offers_cases H.
Qed.

(** ** The figures *)

Lemma delta_text_inj d d' :
  nullish (deltaText (Some d)) EmptyString = nullish (deltaText (Some d')) EmptyString -> d = d'.
Proof.
  assert (Hneg : forall p, of_Z (Z.neg p) = "-" +:+ of_Z (Z.pos p)) by done.
  destruct d as [|p|p], d' as [|q|q]; cbn [deltaText truthy_num nullish Z.ltb Z.compare]; intros H;
    rewrite ?Hneg in H; try done.
  - apply append_inj_l, append_inj_r in H. by apply (inj pretty) in H.
  - apply append_inj_r, append_inj_l in H. apply (inj pretty) in H. congruence.
Qed.

(** The tone of a trend is the direction of the change: red exactly when the
    figure moved the wrong way.  Two different changes have different texts,
    and only no change at all shows no number. *)
Lemma trend_tone d ng :
  exists tone text, trend_line (Some d) ng = Some (tone, text) /\
  (tone = "text-red-400" <-> if ng then (0 < d)%Z else (d < 0)%Z) /\
  (deltaText (Some d) = None <-> d = 0%Z) /\
  forall d' tone', trend_line (Some d') ng = Some (tone', text) -> d' = d.
Proof.
  unfold trend_line. eexists _, _. split; [reflexivity|]. unfold isGood, deltaText.
  split_and!.
  - destruct d, ng; cbn; repeat case_match; split; try done; lia.
  - destruct d; cbn; split; done.
  - intros d' tone' H. apply (inj Some), (f_equal snd) in H. cbn [snd] in H. apply append_inj_r in H.
    by apply delta_text_inj.
Qed.

(** *** The message for a tenant without data *)
Definition settled (s : ex_state) : Prop :=
  as_loading (ex_async s) = true \/ is_Some (as_data (ex_async s)) \/ is_Some (as_error (ex_async s)).

(** The lines of trend a list of cards shows. *)
Definition ex_trends (d : EnhancedKPIData) : list (option (string * string)) :=
  [trend_line (dl_totalIncidents <$> ek_deltas d) true; trend_line (dl_mttd_minutes <$> ek_deltas d) true;
   trend_line (dl_mttr_minutes <$> ek_deltas d) true].

(** No execution shows the message for a tenant without data: an answer without
    a body is spread into an object of trends and benchmark, so the page shows
    its cards, with empty figures beside the same three trends every tenant
    is shown. *)
Lemma empty_summary_unreachable es qs s :
  run ex_enabled ex_handle ex_init es qs s ->
  ex_view s <> [EmptyState "No historical data found for this tenant."] /\
  (forall k r, let s' := fst (ex_handle (ExLoaded k (HttpOk r)) s) in
     ex_view s' = ex_page s' (enhance_kpi r) /\
     ex_trends (enhance_kpi r) =
       [Some ("text-red-400", "+12% vs prior period"); Some ("text-emerald-400", "-18% vs prior period");
        Some ("text-emerald-400", "-5% vs prior period")]) /\
  kpi_row (enhance_kpi None) =
    [KpiCard "Total Incidents (Month)" None EmptyString (Some 12%Z) true;
     KpiCard "MTTD" None "mins" (Some (-18)%Z) true; KpiCard "MTTR" None "mins" (Some (-5)%Z) true;
     El "div" "" [El "h3" "" [Text "Critical Open"]; El "p" "text-red-500" [Text EmptyString]]].
Proof.
  intros Hrun. split; [|split; [|done]].
  - assert (Hs : settled s).
    { revert Hrun. apply run_invariant; [by left|]. intros t e Ht _. destruct e; try exact Ht; cbn [ex_handle fst].
      - by left.
      - destruct r; right; [left|right]; by eexists.
      - destruct r; exact Ht. }
    unfold ex_view. destruct (as_loading (ex_async s)) eqn:El; [done|].
    destruct Hs as [Hs|[[d Hd]|[x Hx]]]; [congruence|..].
    + rewrite Hd. by destruct (as_error _).
    + rewrite Hx. by destruct (as_data _).
  - intros k r. cbn. split; [|reflexivity]. unfold ex_view. cbn. by destruct (as_error (ex_async s)).
Qed.

(** ** Scheduled delivery *)
Lemma ex_freq_invariant es qs s :
  run ex_enabled ex_handle ex_init es qs s -> ex_scheduleFreq s ∈ freq_options.*1.
Proof.
  apply (run_invariant _ _ (fun s => ex_scheduleFreq s ∈ freq_options.*1)); [right; left|].
  intros t e Ht Hen. destruct e; try exact Ht; [by apply ex_offers_guard in Hen|by destruct r].
Qed.

(** In every execution a delivery is scheduled only from the open form, with an
    address the browser accepts and one of the three frequencies; a refused
    request leaves the form as it was and its success closes the form but
    keeps what was typed. *)
Lemma schedule_requests es qs s e m q :
  run ex_enabled ex_handle ex_init es qs s -> ex_enabled s e -> PostSchedule m q ∈ snd (ex_handle e s) ->
  ex_showScheduleModal s = true /\ m = ex_scheduleEmail s /\ m <> EmptyString /\ validEmail m = true /\
  q ∈ ["daily"; "weekly"; "monthly"] /\
  forall k, let s' := fst (ex_handle e s) in
    (forall err, fst (ex_handle (ExScheduled k (HttpErr err)) s') = ex_forget k s') /\
    ex_showScheduleModal (fst (ex_handle (ExScheduled k (HttpOk tt)) s')) = false /\
    ex_scheduleEmail (fst (ex_handle (ExScheduled k (HttpOk tt)) s')) = m.
Proof.
  intros Hrun Hen Hq. apply ex_freq_invariant in Hrun.
  destruct e; cbn [ex_handle handleExport handleExport_done] in Hq; try (by elem_inv Hq); try done.
  - apply ex_offers_guard in Hen as (H1 & H2 & H3). cbn [handleScheduleSubmit snd] in Hq. elem_inv Hq. by simplify_eq.
  - destruct r; by elem_inv Hq.
  - unfold handleScheduleSubmit_done in Hq. destruct r; by elem_inv Hq.
Qed.

(** ** The board report *)
Definition is_report (k : ex_kont) : bool := bool_decide (k = XKExport).

(** The button of the report is blocked exactly while a report is being made. *)
Lemma report_flag es qs s :
  run ex_enabled ex_handle ex_init es qs s -> fl_flag is_report (ex_isExporting s) (ex_flight s).
Proof.
  apply (run_invariant _ _ (fun s => fl_flag is_report (ex_isExporting s) (ex_flight s))); [apply fl_flag_empty|].
  intros t e H Hen. destruct e; cbn [ex_handle fst]; try exact H.
  - by apply fl_flag_await.
  - apply ex_offers_guard in Hen. cbn in Hen. rewrite Hen in H. by apply fl_flag_raise.
  - by apply fl_flag_await.
  - by apply (fl_flag_forget _ _ _ XKLoad).
  - by apply (fl_flag_lower _ (ex_isExporting t) _ XKExport).
  - destruct r; by apply (fl_flag_forget _ _ _ XKSchedule).
Qed.

(** Both charts lead to registered pages, which take their filters from the
    screen and not from the query that is passed to them. *)
Lemma drill_downs_routed s p :
  ex_enabled s (ExDrill p) ->
  exists path query, p = path +:+ "?" +:+ query /\
    (rt_element <$> first_match path) ∈ [Some (Page "ClosedIncidentsPage"); Some (Page "ActiveIncidentsPage")].
Proof.
  intros H%ex_offers_guard. destruct H as [->| ->].
  - exists "/incidents/closed", "timeRange=30d". split; [done|]. left.
  - exists "/incidents/active", "category=phishing,malware". split; [done|]. right. left.
Qed.
End Page.

(** ** Witnesses *)
Definition demo_ex : list ex_event :=
  [ExExecute; ExLoaded 0 (HttpOk None); ExOpen; ExEmail "ciso@company.com"; ExFreq "daily"].
Definition demo_ex_state : ex_state := fst (exec ex_handle demo_ex ex_init).

Lemma ex_view_page v s d :
  as_loading (ex_async s) = false -> as_data (ex_async s) = Some d -> ex_view v s = ex_page v s d.
Proof. unfold ex_view. intros -> ->. by destruct (as_error _). Qed.

Lemma ex_form_offers v s d e :
  as_loading (ex_async s) = false -> as_data (ex_async s) = Some d -> offers_any (schedule_modal v s) e ->
  offers_any (ex_view v s) e.
Proof.
  intros Hl Hd H. rewrite (ex_view_page v s d) by done. unfold ex_page. rewrite !offers_any_app. auto.
Qed.

Lemma demo_ex_enabled : all_enabled (ex_enabled (fun _ => true)) ex_handle demo_ex ex_init.
Proof.
  cbn [demo_ex all_enabled]. split; [done|]. split; [done|]. split.
  { unfold ex_enabled. erewrite ex_view_page by reflexivity. unfold ex_page. rewrite offers_any_app. left. offers_find. }
  split; [eapply ex_form_offers; try reflexivity; unfold schedule_modal; offers_find|].
  split; [eapply ex_form_offers; try reflexivity; unfold schedule_modal; offers_find|done].
Qed.

Lemma empty_summary_unreachable_witness :
  ex_view (fun _ => true) (fst (ex_handle (ExLoaded 0 (HttpOk None)) demo_ex_state)) =
  ex_page (fun _ => true) (fst (ex_handle (ExLoaded 0 (HttpOk None)) demo_ex_state)) (enhance_kpi None).
Proof.
  exact (proj1 (proj1 (proj2 (empty_summary_unreachable (fun _ => true) demo_ex _ demo_ex_state
    (exec_run _ _ _ _ demo_ex_enabled))) 0 None)).
Defined.

Lemma schedule_requests_witness : ex_showScheduleModal demo_ex_state = true.
Proof.
  refine (proj1 (schedule_requests (fun _ => true) demo_ex _ demo_ex_state ExSubmit "ciso@company.com" "daily"
    (exec_run _ _ _ _ demo_ex_enabled) _ (list_elem_of_here _ _))).
  eapply ex_form_offers; try reflexivity; unfold schedule_modal; offers_find.
Defined.
