(* ===== verification/Utilities.v ===== *)
(** * Utility pages ([pages/utilities/], [features/auth/ui/UnauthorizedPage.tsx])

    The marketplace, the profile with its sign-out, the placeholder of the
    settings and the pages for unknown paths and missing permissions. *)
From S2P Require Import Prelude JsString Html Types Http Routing AsyncState SharedUi TokenApi.

(** ** [MarketplacePage] *)
Inductive mp_kont := MKLoad | MKInstall (id : string).
#[export] Instance mp_kont_eq_dec : EqDecision mp_kont.
Proof. solve_decision. Defined.

Record mp_state := MpState {
  mp_async : async (list MarketplaceListing);
  mp_pendingInstall : option MarketplaceListing;
  mp_flight : flight mp_kont }.

Definition mp_init : mp_state := MpState async_init None fl_empty.

Inductive mp_effect := GetMarketplace | PostInstall (id : string) | MpAlert (msg : string).

Inductive mp_event :=
| MpExecute | MpClick (item : MarketplaceListing) | MpConfirm | MpCancel
| MpLoaded (k : nat) (r : http_result (list MarketplaceListing))
| MpInstalled (k : nat) (r : http_result unit).

Definition mp_execute (s : mp_state) : mp_state * list mp_effect :=
  (MpState (async_start (mp_async s)) (mp_pendingInstall s) (fl_await MKLoad (mp_flight s)), [GetMarketplace]).

Definition handleInstall (s : mp_state) : mp_state * list mp_effect :=
  match mp_pendingInstall s with
  | None => (s, [])
  | Some l => (MpState (mp_async s) (mp_pendingInstall s) (fl_await (MKInstall (mk_id l)) (mp_flight s)), [PostInstall (mk_id l)])
  end.

Definition close_dialog (s : mp_state) : mp_state := MpState (mp_async s) None (mp_flight s).

Definition handleInstall_done (r : http_result unit) (s : mp_state) : mp_state * list mp_effect :=
  match r with
  | HttpOk _ => let '(s', q) := mp_execute s in (close_dialog s', q)
  | HttpErr _ => (close_dialog s, [MpAlert "Install failed."])
  end.

(** The click on the button of a listing. *)
Definition install_click (item : MarketplaceListing) (s : mp_state) : mp_state * list mp_effect :=
  match mk_status item with
  | NotInstalled =>
      if mk_requiresElevated item then (MpState (mp_async s) (Some item) (mp_flight s), []) else handleInstall s
  | _ => (s, [])
  end.

Definition mp_forget k s := MpState (mp_async s) (mp_pendingInstall s) (fl_forget k (mp_flight s)).

Definition mp_handle (e : mp_event) (s : mp_state) : mp_state * list mp_effect :=
  match e with
  | MpExecute => mp_execute s
  | MpClick item => install_click item s
  | MpConfirm => handleInstall s
  | MpCancel => (close_dialog s, [])
  | MpLoaded k r =>
      (mp_forget k (MpState (match r with
         | HttpOk l => async_ok l (mp_async s)
         | HttpErr e => async_fail (he_message e) (mp_async s)
         end) (mp_pendingInstall s) (mp_flight s)), [])
  | MpInstalled k r => handleInstall_done r (mp_forget k s)
  end.

(** [item.status.replace('_', ' ')] *)
Definition listing_status_text (st : ListingStatus) : string :=
  match st with Installed => "installed" | NotInstalled => "not installed" | UpdateAvailable => "update available" end.

Definition listing_tone (st : ListingStatus) : string :=
  match st with
  | Installed => "bg-slate-800 text-slate-500"
  | UpdateAvailable => "bg-yellow-900/50 text-yellow-500 border border-yellow-700/50"
  | NotInstalled => "bg-blue-900/30 text-blue-400 border border-blue-700/30"
  end.

Definition listing_button (st : ListingStatus) : string :=
  match st with Installed => "Installed" | UpdateAvailable => "Update Available" | NotInstalled => "Install Integration" end.

Definition listing_card (item : MarketplaceListing) : html mp_event :=
  El "div" "" (
    [El "h3" "" [Text (mk_name item)]; El "p" "" [Text ("By " +:+ mk_publisher item)];
     El "span" (listing_tone (mk_status item)) [Text (listing_status_text (mk_status item))];
     El "p" "" [Text (mk_description item)]]
    ++ ((fun tag => El "span" "" [Text ("#" +:+ tag)]) <$> mk_tags item)
    ++ [Button (bool_decide (mk_status item = Installed)) (Some (MpClick item)) [Text (listing_button (mk_status item))]]).

Definition install_message (s : mp_state) : string :=
  "The integration '" +:+ nullish (mk_name <$> mp_pendingInstall s) "undefined"
  +:+ "' requires elevated privileges to access raw tenant data. Do you approve this installation?".

Definition mp_page (s : mp_state) : list (html mp_event) :=
  [El "h1" "" [Text "Integration Marketplace"];
   El "p" "" [Text "Extend platform capabilities with certified integrations and playbooks."]]
  ++ (listing_card <$> nullish (as_data (mp_async s)) [])
  ++ ConfirmModal (bool_decide (is_Some (mp_pendingInstall s))) "Elevated Permissions Required" (install_message s)
       "Approve Installation" "Cancel" false MpConfirm MpCancel.

Definition mp_view (s : mp_state) : list (html mp_event) :=
  if as_loading (mp_async s) then [LoadingSkeleton 8]
  else match as_error (mp_async s), as_data (mp_async s) with
       | Some err, None => [ErrorState err (Some MpExecute)]
       | _, _ => mp_page s
       end.

Definition mp_enabled (s : mp_state) (e : mp_event) : Prop :=
  match e with
  | MpExecute => True
  | MpLoaded k _ => fl_map (mp_flight s) !! k = Some MKLoad
  | MpInstalled k _ => exists id, fl_map (mp_flight s) !! k = Some (MKInstall id)
  | _ => offers_any (mp_view s) e
  end.

(** ** [ProfilePage] *)
Record profile_user := ProfileUser { pu_email : option string; pu_role : option string; pu_lastLogin : string }.

Record pf_state := PfState { pf_user : option profile_user; pf_loading : bool; pf_storage : gmap string string }.
Definition pf_init (st : gmap string string) : pf_state := PfState None true st.

(** The body of the answer about the session: it may be missing, and so may
    the user in it. *)
Inductive session_body := NoBody | Body (user : option (option string * option string)).

Inductive pf_effect := GetSession | PostLogout | PfNavigate (path : string).
Inductive pf_event :=
| PfMount | PfSession (now : string) (r : http_result session_body)
| PfLogout | PfLoggedOut (r : http_result unit).

(** Without a body, reading its user throws into the empty handler. *)
Definition fetchProfile_done (now : string) (r : http_result session_body) (s : pf_state) : pf_state :=
  PfState (match r with
           | HttpOk (Body u) => let '(e, ro) := nullish u (None, None) in Some (ProfileUser e ro now)
           | HttpOk NoBody | HttpErr _ => pf_user s
           end) false (pf_storage s).

Definition handleLogout_done (r : http_result unit) (s : pf_state) : pf_state * list pf_effect :=
  (PfState (pf_user s) (pf_loading s) (delete "token" (pf_storage s)), [PfNavigate "/login"]).

Definition pf_handle (e : pf_event) (s : pf_state) : pf_state * list pf_effect :=
  match e with
  | PfMount => (s, [GetSession])
  | PfSession now r => (fetchProfile_done now r s, [])
  | PfLogout => (s, [PostLogout])
  | PfLoggedOut r => handleLogout_done r s
  end.

Definition user_email (s : pf_state) : option string := u ← pf_user s; pu_email u.

Definition avatar (s : pf_state) : html pf_event :=
  match user_email s with
  | Some (String _ _ as m) =>
      El "img" ("https://ui-avatars.com/api/?name=" +:+ m +:+ "&background=0f172a&color=60a5fa&size=128&font-size=0.33") []
  | _ => El "span" "" [Text "U"]
  end.

Definition detail (label value : string) : html pf_event := El "div" "" [El "p" "" [Text label]; El "p" "" [Text value]].

(** The buttons of the last section have no handler. *)
Definition pf_page (s : pf_state) : html pf_event :=
  El "div" "" [
    avatar s;
    Button false (Some PfLogout) [Text "Sign Out"];
    El "h2" "" [Text (or_str (user_email s) "Unknown Analyst")];
    El "span" "" [Text (or_str (u ← pf_user s; pu_role u) "ANALYST")];
    El "span" "" [Text "Active Session"];
    detail "Email Address" (or_str (user_email s) "N/A");
    detail "Account Status" "Verified";
    detail "Authentication Method" "Standard (JWT + Cookie)";
    detail "Last Login" (or_str (pu_lastLogin <$> pf_user s) "N/A");
    El "h3" "" [Text "Security & Access"];
    El "div" "" [El "span" "" [Text "Two-Factor Authentication"]; Button false None [Text "Enable"]];
    El "div" "" [El "span" "" [Text "Audit Logs"]; Button false None [Text "View Logs"]]].

Definition pf_view (s : pf_state) : list (html pf_event) :=
  [El "h1" "" [Text "Analyst Profile"];
   if pf_loading s then El "div" "" [Text "Loading profile..."] else pf_page s].

(** ** Pages without state *)
Inductive home_event := GoHome.
Definition home_target (e : home_event) : string := "/".

Definition NotFoundPage : html home_event :=
  El "div" "" [El "h1" "" [Text "404"]; El "p" "" [Text "This sector of the SOC does not exist."];
               Button false (Some GoHome) [Text "Return to Command Center"]].

Definition UnauthorizedPage : html home_event :=
  El "div" "" [El "h1" "" [Text "403"];
               El "p" "" [Text "Unauthorized access. You do not have the required permissions."];
               Button false (Some GoHome) [Text "Return to Command Center"]].

(** The fields are uncontrolled: what is typed stays in the browser's element,
    and the button has no handler. *)
Definition SettingsPage : html Empty_set :=
  El "div" "" [El "h1" "" [Text "Platform Settings"]; El "h2" "" [Text "General Configuration"];
    Text "Tenant Name"; El "input" "Global Org" []; Text "Data Retention (Days)"; El "input" "90" [];
    Button false None [Text "Save Changes"]].

(** Earlier versions that no route leads to any more: [pages/NotFoundPage.tsx]
    and [pages/profile/ProfilePage.tsx]. *)
Definition old_home_target (e : home_event) : string := "/dashboard".

Definition OldNotFoundPage : html home_event :=
  El "div" "" [El "div" "" [Text "404"]; El "h2" "" [Text "Page Not Found"];
               El "p" "" [Text "The routing destination does not exist or has been moved."];
               Button false (Some GoHome) [Text "Return to Command Center"]].

Definition OldProfilePage : html Empty_set :=
  El "div" "" [El "div" "" [El "h1" "" [Text "User Profile"];
                            El "p" "" [Text "Data source: "; El "code" "" [Text "GET /api/profile"]]];
               El "div" "" [El "h3" "" [Text "Future Implementation Marker"];
                            El "p" "" [Text "Placeholder for "; El "strong" "" [Text "GET /api/profile"];
                                       Text "."]]].

(** ** The marketplace installs what it asks about *)
Lemma listing_card_offers item e : offers (listing_card item) e -> e = MpClick item /\ mk_status item <> Installed.
Proof.
  unfold listing_card. rewrite offers_El, !offers_any_app. intros [H|[H|H]]; [by offers_cases H| |].
  - apply offers_any_map in H as (t & _ & H). by offers_cases H.
  - offers_cases H. split; [done|]. by match goal with E : bool_decide _ = false |- _ => apply bool_decide_eq_false in E end.
Qed.

Definition mp_guard (s : mp_state) (e : mp_event) : Prop :=
  match e with
  | MpClick item => item ∈ nullish (as_data (mp_async s)) [] /\ mk_status item <> Installed
  | MpConfirm | MpCancel => is_Some (mp_pendingInstall s)
  | _ => e = MpExecute
  end.

Lemma mp_offers_guard s e : offers_any (mp_view s) e -> mp_guard s e.
Proof.
  unfold mp_view. destruct (as_loading (mp_async s)); [intros H; by offers_cases H|].
  assert (Hpage : offers_any (mp_page s) e -> mp_guard s e).
  { unfold mp_page. rewrite !offers_any_app. intros [H|[H|H]]; [by offers_cases H|..].
    - apply offers_any_map in H as (item & Hi & H). by apply listing_card_offers in H as [-> H].
    - unfold ConfirmModal in H. offers_cases H;
        by match goal with E : bool_decide _ = true |- _ => apply bool_decide_eq_true in E end. }
  destruct (as_error (mp_async s)), (as_data (mp_async s)); auto. intros H. by offers_cases H.
Qed.

(** The listing of the dialog was clicked, is not installed and needs
    elevated permissions. *)
Definition pending_ok (es : list mp_event) (s : mp_state) : Prop :=
  forall item, mp_pendingInstall s = Some item ->
    MpClick item ∈ es /\ mk_status item = NotInstalled /\ mk_requiresElevated item = true.

Lemma handleInstall_pending s : mp_pendingInstall (fst (handleInstall s)) = mp_pendingInstall s.
Proof. unfold handleInstall. by destruct (mp_pendingInstall s) eqn:E. Qed.

Lemma pending_invariant es qs s : run mp_enabled mp_handle mp_init es qs s -> pending_ok es s.
Proof.
  induction 1 as [|es qs s e s' q _ IH _ Hh]; [done|].
  assert (Hkeep : forall t, mp_pendingInstall t = mp_pendingInstall s -> pending_ok (es ++ [e]) t).
  { intros t Et item Hi. rewrite Et in Hi. apply IH in Hi as (H1 & H2). split; [|done]. apply elem_of_app. by left. }
  assert (Hs : s' = fst (mp_handle e s)) by (by rewrite Hh). rewrite Hs. clear Hs Hh.
  destruct e; cbn [mp_handle fst].
  - by apply Hkeep.
  - unfold install_click. destruct (mk_status item) eqn:Est; try (by apply Hkeep).
    destruct (mk_requiresElevated item) eqn:Eel; [|apply Hkeep, handleInstall_pending].
    intros i [= <-]. split_and!; [|done..]. apply elem_of_app. right. left.
  - apply Hkeep, handleInstall_pending.
  - done.
  - by apply Hkeep.
  - by destruct r.
Qed.

Lemma install_requested s e id :
  PostInstall id ∈ snd (mp_handle e s) ->
  exists item, mp_pendingInstall s = Some item /\ mk_id item = id.
Proof.
  intros H. assert (Hinst : PostInstall id ∈ snd (handleInstall s) -> exists item, mp_pendingInstall s = Some item /\ mk_id item = id).
  { unfold handleInstall. destruct (mp_pendingInstall s) as [p|]; intros Hq; elem_inv Hq.
    simplify_eq. by exists p. }
  destruct e; cbn [mp_handle] in H; auto; try (by elem_inv H).
  - unfold install_click in H. destruct (mk_status item); [by elem_inv H| |by elem_inv H].
    destruct (mk_requiresElevated item); [by elem_inv H|auto].
  - unfold handleInstall_done in H. destruct r; by elem_inv H.
Qed.

(** In every execution the marketplace installs only listings that need elevated
    permissions, because the request is made for the listing of the dialog
    alone: the button of a listing that needs none does nothing, and pressed
    while the dialog of another listing is open it installs that one. *)
Lemma only_elevated_installs es qs s :
  run mp_enabled mp_handle mp_init es qs s ->
  (forall e id, PostInstall id ∈ snd (mp_handle e s) ->
     exists item, MpClick item ∈ es /\ mk_id item = id /\ mk_requiresElevated item = true /\ mk_status item = NotInstalled) /\
  forall item, mk_requiresElevated item = false ->
    mp_handle (MpClick item) s =
      match mk_status item, mp_pendingInstall s with
      | NotInstalled, Some _ => mp_handle MpConfirm s
      | _, _ => (s, [])
      end.
Proof.
  intros Hrun. split.
  - intros e id H. apply install_requested in H as (item & Hp & <-).
    apply (pending_invariant _ _ _ Hrun) in Hp as (H1 & H2 & H3). by exists item.
  - intros item He. cbn [mp_handle]. unfold install_click. rewrite He. destruct (mk_status item); [done| |done].
    unfold handleInstall. by destruct (mp_pendingInstall s).
Qed.

(** ** Signing out *)

(** Signing out leaves the credentials in place: the token the authorised client
    sends is stored under another name than the one that is removed, so its
    requests carry it as before; and when the request to sign out fails, the
    login page that is shown finds the session alive and returns to the
    console. *)
Lemma sign_out_keeps_credentials s r now headers body :
  let s' := fst (pf_handle (PfLoggedOut r) s) in
  snd (pf_handle (PfLoggedOut r) s) = [PfNavigate "/login"] /\
  pf_storage s' !! "token" = None /\
  auth_interceptor now (pf_storage s' !! "internal_access_token") headers =
    auth_interceptor now (pf_storage s !! "internal_access_token") headers /\
  checkSession (url_search "/login") (HttpOk body) = Some "/".
Proof.
  cbn. split_and!; [done|by rewrite lookup_delete_eq|by rewrite lookup_delete_ne|done].
Qed.

(** Both pages without state lead to the start page of the console. *)
Lemma home_routed :
  offers NotFoundPage GoHome /\ offers UnauthorizedPage GoHome /\ rt_path <$> first_match (home_target GoHome) = Some (home_target GoHome).
Proof. split_and!; [unfold NotFoundPage; offers_find|unfold UnauthorizedPage; offers_find|reflexivity]. Qed.

(** The earlier page for unknown paths would return to a path that is itself
    unknown. *)
Lemma old_home_dead :
  offers OldNotFoundPage GoHome /\
  rt_element <$> first_match (old_home_target GoHome) = Some (Page "NotFoundPage").
Proof. split; [unfold OldNotFoundPage; offers_find|reflexivity]. Qed.

(** ** Witnesses *)
Definition demo_listing (id : string) (el : bool) : MarketplaceListing :=
  {| mk_id := id; mk_name := id; mk_publisher := "SecOps"; mk_category := "SIEM"; mk_status := NotInstalled;
     mk_requiresElevated := el; mk_tags := []; mk_description := EmptyString |}.
Definition demo_mp : list mp_event :=
  [MpExecute; MpLoaded 0 (HttpOk [demo_listing "a" true; demo_listing "b" false]); MpClick (demo_listing "a" true)].
Definition demo_mp_state : mp_state := fst (exec mp_handle demo_mp mp_init).

Lemma demo_mp_enabled : all_enabled mp_enabled mp_handle demo_mp mp_init.
Proof.
  cbn [demo_mp all_enabled]. split; [done|]. split; [done|]. split; [|done].
  change (offers_any (mp_page (fst (exec mp_handle (take 2 demo_mp) mp_init))) (MpClick (demo_listing "a" true))).
  unfold mp_page. rewrite !offers_any_app. right; left. apply offers_any_map. exists (demo_listing "a" true).
  split; [left|]. unfold listing_card. rewrite offers_El, !offers_any_app. right; right. offers_find.
Qed.

Lemma only_elevated_installs_witness :
  mp_handle (MpClick (demo_listing "b" false)) demo_mp_state = mp_handle MpConfirm demo_mp_state.
Proof.
  exact (proj2 (only_elevated_installs demo_mp _ demo_mp_state (exec_run _ _ _ _ demo_mp_enabled))
    (demo_listing "b" false) eq_refl).
Defined.
