(* ===== verification/Documentation.v ===== *)
(** * The documentation page ([pages/documentation/DocumentationPage.tsx])

    The public guide to the integration interface: a navigation bar, a table
    of contents, five sections of text and a walkthrough that shows one of
    six programs, chosen by a tab.  Texts and programs are the source's,
    character by character; [q] writes the double quote as in [Scripts].
    The second element of a section is its anchor.

    The guide promises an order of requests (enrol, register, push); the
    theorem checks it on the texts of the twelve programs the console hands
    out, the six of this page and the six of the enrolment dialog. *)
From S2P Require Import Prelude JsString Json Html Routing Scripts.

(** ** State and events *)
Definition doc_state : Type := string.    (* activeTab *)
Definition doc_init : doc_state := "python".

Inductive doc_event :=
| DocTab (id : string)         (* a tab of the walkthrough *)
| DocGo (path : string)        (* a link of the navigation bar *)
| DocAnchor (id : string).     (* an entry of the table of contents *)

(** The address of the hub: the build's setting, or the page's origin. *)
Definition currentHubUrl (vite_hub_url : option string) (origin : string) : string :=
  or_str vite_hub_url origin.

(** ** The static part *)
Definition doc_nav : html doc_event :=
  El "nav" "" [
    El "div" "" [
      El "div" "" [
        El "div" "" [
          El "div" "" [];
          El "span" "" [Text "Agentic SOC "; El "span" "" [Text "/ Docs"]]];
        El "div" "" [
          Button false (Some (DocGo "/login")) [Text "Sign In"];
          Button false (Some (DocGo "/")) [Text "Go to App"]]]]].

Definition doc_contents : html doc_event :=
  El "div" "" [
    El "div" "" [
      El "div" "" [
        El "h3" "" [Text "Getting Started"];
        El "ul" "" [
          El "li" "" [Button false (Some (DocAnchor "why")) [Text "Why This API Exists"]];
          El "li" "" [
            Button false (Some (DocAnchor "pipeline")) [Text "How Logs Reach the Pipeline"]];
          El "li" "" [Button false (Some (DocAnchor "security")) [Text "Security Contract"]]]];
      El "div" "" [
        El "h3" "" [Text "Integration Lifecycle"];
        El "ul" "" [
          El "li" "" [Button false (Some (DocAnchor "lifecycle")) [Text "How Enrollment Works"]]]];
      El "div" "" [
        El "h3" "" [Text "Troubleshooting"];
        El "ul" "" [
          El "li" "" [
            Button false (Some (DocAnchor "failures")) [Text "Common Failure Reference"]]]]]].

Definition doc_header : html doc_event :=
  El "div" "" [
    El "h1" "" [Text "SIEM Integration SDK"];
    El "p" "" [
      Text "Integrate external services, databases, and custom applications securely into the Agentic SOC platform using our zero-processing telemetry model."]].

Definition why_section : html doc_event :=
  El "section" "why" [
    El "h2" "" [Text "Why This API Exists"];
    El "div" "" [
      El "p" "" [
        Text "The platform utilizes a strictly enforced ";
        El "strong" "" [Text "Zero-Processing Edge"];
        Text (q " architecture. External integrations act solely as @dumb pipes@ — their only responsibility is to collect raw events and forward them securely.")];
      El "p" "" [
        El "strong" "" [Text "The Problem:"];
        Text " Heterogeneous systems (Windows, Linux, cloud services, custom apps) all need one uniform, secure way to stream raw activity data into a central hub, without each edge system needing to understand threat detection, rule logic, or signature mapping."];
      El "div" "" [
        El "h4" "" [Text "The Solution: A Centralized Hub"];
        El "p" "" [
          Text "All threat detection, anomaly scoring, correlation, and response automation is performed by the ";
          El "strong" "" [Text "Central AI Agent"];
          Text " completely isolated within our backend. It never leaks logic, configurations, or secrets back to the edge SDKs."]]]].

Definition pipeline_section : html doc_event :=
  El "section" "pipeline" [
    El "h2" "" [Text "How Logs Reach the SIEM/SOAR Pipeline"];
    El "div" "" [
      El "p" "" [
        Text "The path an event takes after you call ";
        El "code" "" [Text "/api/v1/agent/push"];
        Text ":"];
      El "ol" "" [
        El "li" "" [
          El "strong" "" [Text "FastAPI Ingress"];
          Text " validates endpoint identity (";
          El "code" "" [Text "endpoint_secret"];
          Text ") and tenant isolation (";
          El "code" "" [Text "X-Tenant-ID"];
          Text ")."];
        El "li" "" [
          Text "Events are enriched with ";
          El "code" "" [Text "endpoint_id"];
          Text ", ";
          El "code" "" [Text "tenant_id"];
          Text ", and a unique ";
          El "code" "" [Text "correlation_id"];
          Text "."];
        El "li" "" [
          Text "Enriched events are forwarded internally to the Go ingestion service (";
          El "code" "" [Text "core-ingest"];
          Text ") over the internal Docker network — never exposed publicly."];
        El "li" "" [
          El "code" "" [Text "core-ingest"];
          Text " persists events into ClickHouse (the analytical data lake) and streams them to the Internal AI Agent for real-time correlation."];
        El "li" "" [
          Text "The ";
          El "strong" "" [Text "Internal AI Agent"];
          Text " performs anomaly detection, correlation, and (if malicious activity is confirmed) creates alerts/incidents and SOAR tasks — entirely inside the trusted backend, never on the edge SDK."]];
      El "div" "" [
        El "pre" "" [
          Text (join nl [
            "[ Your App / Server ]";
            "         │";
            "     (POST /push)";
            "         │";
            "         ▼";
            "[ FastAPI Ingress ] ── (enrichment) ──┐";
            "                                      │";
            "                                      ▼";
            "                             [ core-ingest (Go) ]";
            "                                      │";
            "                     ┌────────────────┴────────────────┐";
            "                     ▼                                 ▼";
            "            [ ClickHouse ]                    [ Internal AI Agent ]";
            "           (Analytical Lake)                           │";
            "                                                       ▼";
            "                                         [ Alerts & SOAR Playbooks ]"])]]]].

Definition security_section : html doc_event :=
  El "section" "security" [
    El "h2" "" [Text "Security Contract"];
    El "div" "" [
      El "table" "" [
        El "thead" "" [
          El "tr" "" [
            El "th" "" [Text "Security Control"];
            El "th" "" [Text "Enforced Behavior"]]];
        El "tbody" "" [
          El "tr" "" [
            El "td" "" [Text "Lifecycle Enforcement"];
            El "td" "" [
              El "code" "" [Text "/api/v1/agent/push"];
              Text " always requires prior successful ";
              El "code" "" [Text "/api/endpoints/register"];
              Text "; there is no bypass path."]];
          El "tr" "" [
            El "td" "" [Text "Token Expiry"];
            El "td" "" [
              Text "Enforced server-side (default 15m). Expired tokens return HTTP 401."]];
          El "tr" "" [
            El "td" "" [Text "Single-Use Enforcement"];
            El "td" "" [Text "Tokens are consumed immediately. Re-use returns 401."]];
          El "tr" "" [
            El "td" "" [Text "Tenant Cross-Check"];
            El "td" "" [
              Text "The ";
              El "code" "" [Text "X-Tenant-ID"];
              Text " header is strictly verified against the database."]];
          El "tr" "" [
            El "td" "" [Text "Audit Logging"];
            El "td" "" [
              Text "All token issuance and credential rotations are permanently logged."]]]]];
    El "div" "" [
      El "strong" "" [Text "Requirement:"];
      Text " Your SDK implementation must handle HTTP 401 responses by automatically purging local credentials and requesting a new manual enrollment token from the SOC admin."]].

Definition lifecycle_section : html doc_event :=
  El "section" "lifecycle" [
    El "h2" "" [Text "How Enrollment and Registration Work"];
    El "div" "" [
      Text "no credentials ➔ ";
      El "span" "" [Text "[enroll]"];
      Text " ➔ pending_register ➔ ";
      El "span" "" [Text "[register]"];
      Text " ➔ active ➔ ";
      El "span" "" [Text "[push]"];
      Text " ➔ streaming"];
    El "div" "" [
      El "div" "" [
        El "div" "" [];
        El "h3" "" [El "span" "" [Text "1"]; Text "Enroll"];
        El "p" "" [
          El "strong" "" [Text "Problem Solved:"];
          Text " Exchanges a short-lived, single-use UI token for a persistent cryptographic secret securely."];
        El "p" "" [
          El "strong" "" [Text "State Transition:"];
          Text " The server immediately invalidates the token to prevent replay attacks, and issues a permanent ";
          El "code" "" [Text "endpoint_secret"];
          Text ". At this stage, the agent is placed into a ";
          El "strong" "" [Text "quarantined state"];
          Text " (";
          El "code" "" [Text "pending_register"];
          Text ") and cannot push logs yet."]];
      El "div" "" [
        El "div" "" [];
        El "h3" "" [El "span" "" [Text "2"]; Text "Register"];
        El "p" "" [
          El "strong" "" [Text "Problem Solved:"];
          Text " Declares agent capabilities and activates the endpoint for telemetry ingestion."];
        El "p" "" [
          El "strong" "" [Text "State Transition:"];
          Text " Using the newly acquired secret, the agent calls ";
          El "code" "" [Text "/api/endpoints/register"];
          Text ". Here, it announces its hostname, OS, and operational capabilities. The backend records this metadata and formally elevates the endpoint status to ";
          El "code" "" [Text "active"];
          Text ", lifting the quarantine."];
        El "p" "" [
          El "strong" "" [Text "If Skipped:"];
          Text " Any attempt to push logs will fail. You will receive exactly: ";
          El "br" "" [];
          El "code" "" [
            Text "{";
            Text (q "@detail@: ");
            Text "{";
            Text (q "@error@: @Endpoint not active (status=pending_register)@...");
            Text "}";
            Text "}"]]];
      El "div" "" [
        El "div" "" [];
        El "h3" "" [El "span" "" [Text "3"]; Text "Push Logs"];
        El "p" "" [
          El "strong" "" [Text "Problem Solved:"];
          Text " Continuous, high-throughput transmission of telemetry data into the AI Intelligence Engine."];
        El "p" "" [
          El "strong" "" [Text "State Transition:"];
          Text " Now fully authenticated and active, the agent streams raw log events. If an admin ever revokes the agent via the dashboard, this endpoint will immediately return ";
          El "code" "" [Text "401 Unauthorized"];
          Text ", prompting the agent to wipe its local secrets and halt execution."]]]].

Definition failures_section : html doc_event :=
  El "section" "failures" [
    El "h2" "" [Text "Common Failure Reference"];
    El "div" "" [
      El "table" "" [
        El "thead" "" [
          El "tr" "" [
            El "th" "" [Text "HTTP Status"];
            El "th" "" [Text "Detail"];
            El "th" "" [Text "Cause"];
            El "th" "" [Text "Fix"]]];
        El "tbody" "" [
          El "tr" "" [
            El "td" "" [Text "401"];
            El "td" "" [Text "Endpoint not active (status=pending_register)"];
            El "td" "" [
              Text "Step 2 ";
              El "code" "" [Text "/register"];
              Text " was never called"];
            El "td" "" [
              Text "Call POST ";
              El "code" "" [Text "/api/endpoints/register"];
              Text " with your endpoint_secret."]];
          El "tr" "" [
            El "td" "" [Text "401"];
            El "td" "" [Text "Invalid endpoint secret"];
            El "td" "" [Text "Secret was rotated or never issued"];
            El "td" "" [Text "Re-run enrollment with a fresh token."]];
          El "tr" "" [
            El "td" "" [Text "403"];
            El "td" "" [Text "Tenant ID mismatch"];
            El "td" "" [
              El "code" "" [Text "X-Tenant-ID"];
              Text " header does not match the endpoint's tenant"];
            El "td" "" [Text "Use the tenant_id returned during enrollment, unmodified."]];
          El "tr" "" [
            El "td" "" [Text "413"];
            El "td" "" [Text "Batch too large"];
            El "td" "" [Text "More than 500 events in one push"];
            El "td" "" [Text "Split into multiple smaller batches."]];
          El "tr" "" [
            El "td" "" [Text "422"];
            El "td" "" [Text "No events provided"];
            El "td" "" [Text "Empty events array in request body"];
            El "td" "" [Text "Include at least one event object."]]]]]].

(** ** The programs of the walkthrough *)
Definition python_sample (hub : string) : list string :=
  ["import os, json, requests, socket, platform";
   "from pathlib import Path";
   EmptyString;
   q "HUB_URL   = @" +:+ hub +:+ q "@";
   q "TOKEN     = os.getenv(@TENANT_ENROLLMENT_TOKEN@)";
   q "CRED_FILE = Path(@.siem_credentials.json@)";
   EmptyString;
   "def enroll_and_register() -> dict:";
   "    # 1. Enroll";
   q "    resp = requests.post(f@{HUB_URL}/api/endpoints/enroll@, json={";
   q "        @enrollment_token@: TOKEN,";
   q "        @initial_metadata@: {@hostname@: socket.gethostname(), @os@: platform.platform(), @type@: @iaas@}";
   "    }, timeout=15)";
   "    resp.raise_for_status()";
   "    creds = resp.json()";
   "    ";
   "    # 2. Register";
   q "    requests.post(f@{HUB_URL}/api/endpoints/register@, json={";
   q "        @hostname@: socket.gethostname(), @label@: @Python Agent@, @type@: @iaas@,";
   q "        @capabilities@: [@telemetry@], @agent_version@: @1.0@, @os@: platform.platform(), @region@: @local@";
   q "    }, headers={@Authorization@: f@Bearer {creds['endpoint_secret']}@}).raise_for_status()";
   "    ";
   "    CRED_FILE.write_text(json.dumps(creds))";
   "    return creds";
   EmptyString;
   "def get_credentials() -> dict:";
   "    if CRED_FILE.exists():";
   "        return json.loads(CRED_FILE.read_text())";
   "    return enroll_and_register()";
   EmptyString;
   "def push_logs(events: list[dict]) -> None:";
   "    creds = get_credentials()";
   "    ";
   "    # 3. Push Logs";
   "    resp = requests.post(";
   q "        f@{HUB_URL}/api/v1/agent/push@,";
   q "        json={@events@: events},";
   "        headers={";
   q "            @Authorization@: f@Bearer {creds['endpoint_secret']}@,";
   q "            @X-Tenant-ID@: creds[@tenant_id@]";
   "        },";
   "        timeout=30";
   "    )";
   "    if resp.status_code in (401, 403):";
   "        CRED_FILE.unlink(missing_ok=True)";
   q "        raise Exception(@Credentials revoked — re-enroll required@)";
   "    resp.raise_for_status()"].

Definition csharp_sample (hub : string) : list string :=
  ["using System.Net.Http.Json;";
   "using System.Text.Json;";
   EmptyString;
   "public class SiemConnector";
   "{";
   "    private readonly HttpClient _http = new() { Timeout = TimeSpan.FromSeconds(30) };";
   q "    private readonly string _hubUrl = @" +:+ hub +:+ q "@;";
   "    private string? _endpointSecret;";
   "    private string? _tenantId;";
   EmptyString;
   "    public async Task EnrollAndRegisterAsync(string enrollToken)";
   "    {";
   "        // 1. Enroll";
   q "        var resp = await _http.PostAsJsonAsync($@{_hubUrl}/api/endpoints/enroll@, new {";
   "            enrollment_token = enrollToken,";
   q "            initial_metadata = new { hostname = Environment.MachineName, os = Environment.OSVersion.ToString(), type = @iaas@ }";
   "        });";
   "        resp.EnsureSuccessStatusCode();";
   "        var body = await resp.Content.ReadFromJsonAsync<JsonElement>();";
   q "        _endpointSecret = body.GetProperty(@endpoint_secret@).GetString();";
   q "        _tenantId       = body.GetProperty(@tenant_id@).GetString();";
   EmptyString;
   "        // 2. Register";
   q "        var regReq = new HttpRequestMessage(HttpMethod.Post, $@{_hubUrl}/api/endpoints/register@);";
   q "        regReq.Headers.Add(@Authorization@, $@Bearer {_endpointSecret}@);";
   "        regReq.Content = JsonContent.Create(new {";
   q "            hostname = Environment.MachineName, label = @C# SDK@, type = @iaas@,";
   q "            capabilities = new[] { @telemetry@ }, agent_version = @1.0@, os = @dotnet@, region = @local@";
   "        });";
   "        (await _http.SendAsync(regReq)).EnsureSuccessStatusCode();";
   "    }";
   EmptyString;
   "    public async Task PushLogsAsync(IEnumerable<object> events)";
   "    {";
   "        // 3. Push Logs";
   q "        using var req = new HttpRequestMessage(HttpMethod.Post, $@{_hubUrl}/api/v1/agent/push@);";
   q "        req.Headers.Add(@Authorization@, $@Bearer {_endpointSecret}@);";
   q "        req.Headers.Add(@X-Tenant-ID@, _tenantId);";
   "        req.Content = JsonContent.Create(new { events });";
   EmptyString;
   "        var resp = await _http.SendAsync(req);";
   "        if (resp.StatusCode == System.Net.HttpStatusCode.Unauthorized || resp.StatusCode == System.Net.HttpStatusCode.Forbidden)";
   q "            throw new Exception(@Credentials revoked@);";
   "        resp.EnsureSuccessStatusCode();";
   "    }";
   "}"].

Definition go_sample (hub : string) : list string :=
  ["package siem";
   EmptyString;
   "import (";
   q "    @bytes@; @encoding/json@; @fmt@; @net/http@; @os@; @runtime@; @time@";
   ")";
   EmptyString;
   "type Connector struct {";
   "    HubURL, EndpointSecret, TenantID string";
   "    client *http.Client";
   "}";
   EmptyString;
   "func (c *Connector) EnrollAndRegister(token string) error {";
   "    hostname, _ := os.Hostname()";
   "    ";
   "    // 1. Enroll";
   "    payload, _ := json.Marshal(map[string]any{";
   q "        @enrollment_token@: token,";
   q "        @initial_metadata@: map[string]string{@hostname@: hostname, @os@: runtime.GOOS, @type@: @iaas@},";
   "    })";
   q "    resp, err := c.client.Post(c.HubURL+@/api/endpoints/enroll@, @application/json@, bytes.NewReader(payload))";
   "    if err != nil { return err }";
   "    defer resp.Body.Close()";
   "    ";
   "    var result map[string]string";
   "    json.NewDecoder(resp.Body).Decode(&result)";
   q "    c.EndpointSecret, c.TenantID = result[@endpoint_secret@], result[@tenant_id@]";
   EmptyString;
   "    // 2. Register";
   "    regPayload, _ := json.Marshal(map[string]any{";
   q "        @hostname@: hostname, @label@: @Go SDK@, @type@: @iaas@,";
   q "        @capabilities@: []string{@telemetry@}, @agent_version@: @1.0@, @os@: runtime.GOOS, @region@: @local@,";
   "    })";
   q "    reqReg, _ := http.NewRequest(@POST@, c.HubURL+@/api/endpoints/register@, bytes.NewReader(regPayload))";
   q "    reqReg.Header.Set(@Authorization@, @Bearer @+c.EndpointSecret)";
   q "    reqReg.Header.Set(@Content-Type@, @application/json@)";
   "    c.client.Do(reqReg)";
   "    return nil";
   "}";
   EmptyString;
   "func (c *Connector) PushLogs(events []map[string]any) error {";
   "    // 3. Push Logs";
   q "    payload, _ := json.Marshal(map[string]any{@events@: events})";
   q "    req, _ := http.NewRequest(@POST@, c.HubURL+@/api/v1/agent/push@, bytes.NewReader(payload))";
   q "    req.Header.Set(@Authorization@, @Bearer @+c.EndpointSecret)";
   q "    req.Header.Set(@Content-Type@, @application/json@)";
   q "    req.Header.Set(@X-Tenant-ID@, c.TenantID)";
   "    ";
   "    resp, err := c.client.Do(req)";
   "    if err != nil { return err }";
   "    defer resp.Body.Close()";
   q "    if resp.StatusCode == 401 || resp.StatusCode == 403 { return fmt.Errorf(@credentials revoked@) }";
   "    return nil";
   "}"].

Definition typescript_sample (hub : string) : list string :=
  [q "import fs from @fs@;";
   EmptyString;
   q "const HUB_URL = @" +:+ hub +:+ q "@;";
   q "const CRED_PATH = @.siem_credentials.json@;";
   EmptyString;
   "async function enrollAndRegister(token: string) {";
   "  // 1. Enroll";
   "  const res = await fetch(`${HUB_URL}/api/endpoints/enroll`, {";
   q "    method: @POST@, headers: { @Content-Type@: @application/json@ },";
   "    body: JSON.stringify({";
   "      enrollment_token: token,";
   q "      initial_metadata: { hostname: process.env.HOSTNAME ?? @node@, os: process.platform, type: @iaas@ }";
   "    }),";
   "  });";
   "  const creds = await res.json();";
   "  ";
   "  // 2. Register";
   "  await fetch(`${HUB_URL}/api/endpoints/register`, {";
   q "    method: @POST@, headers: { @Content-Type@: @application/json@, @Authorization@: `Bearer ${creds.endpoint_secret}` },";
   "    body: JSON.stringify({";
   q "      hostname: process.env.HOSTNAME ?? @node@, label: @TS SDK@, type: @iaas@,";
   q "      capabilities: [@telemetry@], agent_version: @1.0@, os: process.platform, region: @local@";
   "    })";
   "  });";
   EmptyString;
   "  fs.writeFileSync(CRED_PATH, JSON.stringify(creds));";
   "  return creds;";
   "}";
   EmptyString;
   "export async function pushLogs(events: object[]) {";
   q "  const creds = JSON.parse(fs.readFileSync(CRED_PATH, @utf-8@));";
   "  ";
   "  // 3. Push Logs";
   "  const res = await fetch(`${HUB_URL}/api/v1/agent/push`, {";
   q "    method: @POST@,";
   "    headers: {";
   q "      @Authorization@: `Bearer ${creds.endpoint_secret}`,";
   q "      @Content-Type@:  @application/json@,";
   q "      @X-Tenant-ID@:   creds.tenant_id,";
   "    },";
   "    body: JSON.stringify({ events }),";
   "  });";
   "  ";
   q "  if (res.status === 401 || res.status === 403) { fs.rmSync(CRED_PATH); throw new Error(@Revoked@); }";
   "}"].

Definition java_sample (hub : string) : list string :=
  ["import java.net.URI;";
   "import java.net.http.HttpClient;";
   "import java.net.http.HttpRequest;";
   "import java.net.http.HttpResponse;";
   EmptyString;
   "public class SiemConnector {";
   "    public static void main(String[] args) throws Exception {";
   "        var http = HttpClient.newHttpClient();";
   q "        String hubUrl = @" +:+ hub +:+ q "@;";
   q "        String token = System.getenv(@ENROLLMENT_TOKEN@);";
   "        ";
   "        // 1. Enroll ";
   q "        String enrollBody = @{\@enrollment_token\@:\@@ + token + @\@,\@initial_metadata\@:{\@hostname\@:\@java-host\@,\@os\@:\@java\@,\@type\@:\@iaas\@}}@;";
   q "        var enrollReq = HttpRequest.newBuilder(URI.create(hubUrl + @/api/endpoints/enroll@))";
   q "            .header(@Content-Type@, @application/json@).POST(HttpRequest.BodyPublishers.ofString(enrollBody)).build();";
   "        var enrollRes = http.send(enrollReq, HttpResponse.BodyHandlers.ofString());";
   "        ";
   q "        String secret = enrollRes.body().split(@\@endpoint_secret\@:\@@)[1].split(@\@@)[0];";
   q "        String tenant = enrollRes.body().split(@\@tenant_id\@:\@@)[1].split(@\@@)[0];";
   EmptyString;
   "        // 2. Register";
   q "        String regBody = @{\@hostname\@:\@java-host\@,\@label\@:\@Java SDK\@,\@type\@:\@iaas\@,\@capabilities\@:[\@telemetry\@],\@agent_version\@:\@1.0\@,\@os\@:\@java\@,\@region\@:\@local\@}@;";
   q "        var regReq = HttpRequest.newBuilder(URI.create(hubUrl + @/api/endpoints/register@))";
   q "            .header(@Content-Type@, @application/json@).header(@Authorization@, @Bearer @ + secret)";
   "            .POST(HttpRequest.BodyPublishers.ofString(regBody)).build();";
   "        http.send(regReq, HttpResponse.BodyHandlers.discarding());";
   EmptyString;
   "        // 3. Push Logs";
   q "        String pushBody = @{\@events\@:[{\@timestamp\@:\@2026-07-25T18:00:00Z\@,\@source\@:\@java-app\@,\@severity\@:\@INFO\@,\@message\@:\@Transaction logged\@}]}@;";
   q "        var pushReq = HttpRequest.newBuilder(URI.create(hubUrl + @/api/v1/agent/push@))";
   q "            .header(@Content-Type@, @application/json@).header(@Authorization@, @Bearer @ + secret).header(@X-Tenant-ID@, tenant)";
   "            .POST(HttpRequest.BodyPublishers.ofString(pushBody)).build();";
   "        var pushRes = http.send(pushReq, HttpResponse.BodyHandlers.discarding());";
   "        ";
   "        if (pushRes.statusCode() == 401 || pushRes.statusCode() == 403) {";
   q "            System.err.println(@Credentials revoked. Please re-enroll.@);";
   "        }";
   "    }";
   "}"].

Definition bash_sample (hub : string) : list string :=
  ["#!/usr/bin/env bash";
   q "HUB_URL=@" +:+ hub +:+ q "@";
   q "CRED_FILE=@.siem_credentials.json@";
   EmptyString;
   q "if [ ! -f @$CRED_FILE@ ]; then";
   "  # 1. Enroll";
   q "  curl -s -X POST @$HUB_URL/api/endpoints/enroll@ \";
   q "    -H @Content-Type: application/json@ \";
   q "    -d @{\@enrollment_token\@:\@${TENANT_ENROLLMENT_TOKEN}\@,\@initial_metadata\@:{\@hostname\@:\@$(hostname)\@,\@os\@:\@linux\@,\@type\@:\@iaas\@}}@ \";
   q "    -o @$CRED_FILE@";
   "    ";
   q "  SECRET=$(python -c @import sys, json; print(json.load(open('$CRED_FILE'))['endpoint_secret'])@)";
   "  ";
   "  # 2. Register";
   q "  curl -s -X POST @$HUB_URL/api/endpoints/register@ \";
   q "    -H @Authorization: Bearer $SECRET@ \";
   q "    -H @Content-Type: application/json@ \";
   q "    -d @{\@hostname\@:\@$(hostname)\@,\@label\@:\@Bash SDK\@,\@type\@:\@iaas\@,\@capabilities\@:[\@telemetry\@],\@agent_version\@:\@1.0\@,\@os\@:\@linux\@,\@region\@:\@local\@}@";
   "fi";
   EmptyString;
   q "SECRET=$(python -c @import sys, json; print(json.load(open('$CRED_FILE'))['endpoint_secret'])@)";
   q "TENANT=$(python -c @import sys, json; print(json.load(open('$CRED_FILE'))['tenant_id'])@)";
   EmptyString;
   "# 3. Push Logs";
   q "HTTP_STATUS=$(curl -s -o /dev/null -w @%{http_code}@ -X POST @$HUB_URL/api/v1/agent/push@ \";
   q "  -H @Authorization: Bearer $SECRET@ \";
   q "  -H @Content-Type: application/json@ \";
   q "  -H @X-Tenant-ID: $TENANT@ \";
   q "  -d '{@events@:[{@timestamp@:@'$(date -u +%Y-%m-%dT%H:%M:%SZ)'@,@source@:@bash@,@severity@:@INFO@,@message@:@heartbeat@}]}')";
   EmptyString;
   q "if [ @$HTTP_STATUS@ == @401@ ] || [ @$HTTP_STATUS@ == @403@ ]; then";
   q "  echo @Stale credentials detected (status=$HTTP_STATUS). Purging cache...@";
   q "  rm -f @$CRED_FILE@";
   q "  echo @Please re-run the script to re-enroll securely.@";
   "  exit 1";
   "fi";
   q "echo @Telemetry successfully pushed to backend (HTTP $HTTP_STATUS).@"].

(** ** The walkthrough *)
Definition doc_tabs : list (string * string) :=
  [("python", "Python"); ("csharp", "C# .NET"); ("go", "Go"); ("typescript", "Node.js");
   ("java", "Java"); ("bash", "Bash / cURL")].

Definition sample_lines (hub tab : string) : option (list string) :=
  if String.eqb tab "python" then Some (python_sample hub)
  else if String.eqb tab "csharp" then Some (csharp_sample hub)
  else if String.eqb tab "go" then Some (go_sample hub)
  else if String.eqb tab "typescript" then Some (typescript_sample hub)
  else if String.eqb tab "java" then Some (java_sample hub)
  else if String.eqb tab "bash" then Some (bash_sample hub)
  else None.

Definition doc_tab (activeTab : string) (tab : string * string) : html doc_event :=
  Button false (Some (DocTab tab.1))
    [El "span" (if String.eqb activeTab tab.1
                then "bg-indigo-500/20 text-indigo-300 border border-indigo-500/30 shadow-inner"
                else "text-slate-400 hover:text-slate-200 hover:bg-slate-800 border border-transparent")
        [Text tab.2]].

Definition walkthrough (hub : string) (activeTab : doc_state) : html doc_event :=
  El "section" "" [
    El "h2" "" [Text "Implementation Walkthrough"];
    El "p" "" [Text "Select your preferred language to see the exact 3-step lifecycle implementation. You can copy these snippets directly into your projects."];
    El "div" "" (doc_tab activeTab <$> doc_tabs);
    El "div" "" (when_some (sample_lines hub activeTab)
                   (fun ls => [El "pre" "" [El "code" "" [Text (join nl ls)]]]))].

Definition doc_sections : list (html doc_event) :=
  [why_section; pipeline_section; security_section; lifecycle_section; failures_section].

Definition doc_view (hub : string) (activeTab : doc_state) : list (html doc_event) :=
  [doc_nav; doc_contents; doc_header] ++ doc_sections ++ [walkthrough hub activeTab].

Definition doc_handle (e : doc_event) (s : doc_state) : doc_state * list string :=
  match e with
  | DocTab id => (id, [])
  | DocGo p => (s, [p])
  | DocAnchor _ => (s, [])
  end.

(** ** The order of the requests *)
Definition lifecycle_paths : list string :=
  ["/api/endpoints/enroll"; "/api/endpoints/register"; "/api/v1/agent/push"].

(** For each line of a program that mentions a text of [ps], the first of [ps]
    it mentions, in the order of the lines. *)
Definition mentions (ps ls : list string) : list string :=
  omap (fun l => List.find (fun p => includes p l) ps) ls.

(** No occurrence of a text spans a character it does not contain. *)
Lemma starts_with_sep p c s t :
  avoids c p = true -> starts_with p (s +:+ String c t) = starts_with p s.
Proof.
  revert s. induction p as [|a p IH]; intros s; [by destruct s|]. cbn [avoids].
  intros [Ha Hp]%andb_prop. apply negb_true_iff, bool_decide_eq_false in Ha.
  destruct s as [|b s]; cbn.
  - by rewrite bool_decide_eq_false_2.
  - by rewrite IH.
Qed.

Lemma includes_sep p c s t :
  p <> EmptyString -> avoids c p = true ->
  includes p (s +:+ String c t) = includes p s || includes p t.
Proof.
  intros Hne Hc. induction s as [|a s IH].
  - pose proof (starts_with_sep p c EmptyString t Hc) as E. cbn in *. rewrite E. by destruct p.
  - pose proof (starts_with_sep p c (String a s) t Hc) as E. cbn in *. by rewrite E, IH, orb_assoc.
Qed.

Definition delimited (c : ascii) (ps : list string) : bool :=
  forallb (fun p => negb (String.eqb p EmptyString) && avoids c p) ps.

Definition absent (ps : list string) (s : string) : bool :=
  forallb (fun p => negb (includes p s)) ps.

(** A value between two delimiters that mentions none of the texts may be
    left out. *)
Lemma mentions_hole ps k ls c d a h b :
  delimited c ps = true -> delimited d ps = true -> absent ps h = true ->
  ls !! k = Some (a +:+ String c (h +:+ String d b)) ->
  mentions ps ls = mentions ps (<[k := a +:+ String c (String d b)]> ls).
Proof.
  intros Hc Hd Hh Hk. rewrite insert_take_drop by (by eapply lookup_lt_Some).
  rewrite <- (take_drop_middle ls k _ Hk) at 1. unfold mentions. rewrite !omap_app.
  f_equal. cbn [omap list_omap]. enough (E : forall x y : list string,
    x = y -> match List.find (fun p => includes p (a +:+ String c (h +:+ String d b))) ps with
    | Some z => z :: x | None => x end =
    match List.find (fun p => includes p (a +:+ String c (String d b))) ps with
    | Some z => z :: y | None => y end) by by apply E.
  intros x y ->. clear Hk. induction ps as [|p ps IH]; [done|].
  cbn in Hc, Hd, Hh. apply andb_prop in Hc as [[Hn Hc]%andb_prop Hcs].
  apply andb_prop in Hd as [[_ Hd]%andb_prop Hds]. apply andb_prop in Hh as [Hh Hhs].
  apply negb_true_iff in Hn, Hh. apply String.eqb_neq in Hn. cbn [List.find].
  rewrite !(includes_sep p c), (includes_sep p d), Hh by done.
  pose proof (includes_sep p d EmptyString b Hn Hd) as E. cbn [String.append] in E. rewrite E. clear E.
  replace (includes p EmptyString) with false by (by destruct p). cbn [orb].
  destruct (_ || _); [done|]. by apply IH.
Qed.

(** The programs with the values filled in mention the same texts as the
    templates. *)
Section Templates.
Context (ps : list string) (hub : string).
Context (Hq : delimited dquote ps = true) (Hb : delimited backslash ps = true) (Hhub : absent ps hub = true).

Ltac fill k a :=
  match goal with |- mentions _ ?ls = _ =>
    rewrite (mentions_hole ps k ls dquote dquote a hub _ Hq Hq Hhub eq_refl) end; reflexivity.

Ltac fill_token k d Hd a :=
  match goal with Ht : absent ps ?token = true |- mentions _ ?ls = _ =>
    rewrite (mentions_hole ps k ls dquote d a token _ Hq Hd Ht eq_refl) end; reflexivity.

Lemma sample_mentions tab ls :
  sample_lines hub tab = Some ls ->
  exists ls', sample_lines EmptyString tab = Some ls' /\ mentions ps ls = mentions ps ls'.
Proof.
  unfold sample_lines.
  repeat (case_match; [intros [= <-]; eexists; split; [reflexivity|]|]); [..|done].
  - fill 3 (q "HUB_URL   = ").
  - fill 6 (q "    private readonly string _hubUrl = ").
  - reflexivity.
  - fill 2 (q "const HUB_URL = ").
  - fill 8 (q "        String hubUrl = ").
  - fill 1 (q "HUB_URL=").
Qed.

Lemma launch_hub token tab ls :
  launch_lines hub token tab = Some ls ->
  exists ls', launch_lines EmptyString token tab = Some ls' /\ mentions ps ls = mentions ps ls'.
Proof.
  unfold launch_lines.
  repeat (case_match; [intros [= <-]; eexists; split; [reflexivity|]|]); [..|done].
  - fill 1 (q "HUB_URL=").
  - fill 3 (q "HUB_URL   = ").
  - fill 4 (q "var hubUrl = ").
  - fill 6 (q "const hubURL = ").
  - fill 3 (q "const HUB_URL   = ").
  - fill 9 (q "        String hubUrl = ").
Qed.

Lemma launch_filled token tab ls :
  absent ps token = true -> launch_lines hub token tab = Some ls ->
  exists ls', launch_lines EmptyString EmptyString tab = Some ls' /\ mentions ps ls = mentions ps ls'.
Proof.
  intros Htok H. apply launch_hub in H as (ls' & H & ->). revert H. unfold launch_lines.
  repeat (case_match; [intros [= <-]; eexists; split; [reflexivity|]|]); [..|done].
  - fill_token 7 dquote Hq (q "    -d '{@enrollment_token@:").
  - fill_token 9 dquote Hq (q "        @enrollment_token@: ").
  - fill_token 8 dquote Hq (q "    enrollment_token = ").
  - fill_token 12 dquote Hq (q "        @enrollment_token@: ").
  - fill_token 11 dquote Hq (q "      enrollment_token: ").
  - fill_token 12 backslash Hb (q "        String enrollBody = @{\@enrollment_token\@:\").
Qed.
End Templates.

Lemma includes_avoids p s c : includes p s = true -> avoids c s = true -> avoids c p = true.
Proof.
  intros (u & t & ->)%includes_spec. rewrite !avoids_app. by intros [_ [H _]%andb_prop]%andb_prop.
Qed.

Lemma token_paths_absent token : url_safe token = true -> absent lifecycle_paths token = true.
Proof.
  intros H. apply (url_safe_avoids "/") in H; [|done]. unfold absent. apply forallb_forall.
  intros p Hp. apply negb_true_iff. destruct (includes p token) eqn:E; [|done].
  pose proof (includes_avoids p token "/" E H) as Ha.
  unfold lifecycle_paths in Hp. cbn [In] in Hp. by destruct Hp as [<-|[<-|[<-|[]]]].
Qed.

(** Each of the twelve programs the console hands out, the six of the guide and
    the six of the enrolment dialog with the token filled in, has exactly three
    lines that mention a request of the life cycle, and the first path each of
    them mentions is that of the enrolment, the registration and the push, in
    the order the guide prescribes. *)
Lemma lifecycle_order hub token :
  absent lifecycle_paths hub = true -> url_safe token = true ->
  (forall tab ls, sample_lines hub tab = Some ls -> mentions lifecycle_paths ls = lifecycle_paths) /\
  (forall tab ls, launch_lines hub token tab = Some ls -> mentions lifecycle_paths ls = lifecycle_paths).
Proof.
  intros Hhub Htok%token_paths_absent. split; intros tab ls H.
  - apply (sample_mentions lifecycle_paths) in H as (ls' & H & ->); [|done..].
    unfold sample_lines in H. repeat (case_match; [injection H as <-; vm_compute; reflexivity|]). done.
  - apply (launch_filled lifecycle_paths) in H as (ls' & H & ->); [|done..].
    unfold launch_lines in H. repeat (case_match; [injection H as <-; vm_compute; reflexivity|]). done.
Qed.

(** What a program does about a refused credential. *)
Definition refusal_texts : list string := ["401"; "Unauthorized"].

(** The guide requires that a refused credential be purged; of the programs
    of the enrolment dialog only those for the shell and for Python look at
    the status at all. *)
Lemma refusal_ignored hub token tab ls :
  absent refusal_texts hub = true -> absent refusal_texts token = true ->
  launch_lines hub token tab = Some ls ->
  mentions refusal_texts ls <> [] <-> tab = "curl" \/ tab = "python".
Proof.
  intros Hhub Htok H. apply (launch_filled refusal_texts) in H as (ls' & H & ->); [|done..].
  unfold launch_lines in H.
  repeat match type of H with (if String.eqb ?a ?b then _ else _) = _ =>
    destruct (String.eqb_spec a b) as [->|];
    [injection H as <-; vm_compute; clear; intuition congruence|] end. done.
Qed.

(** ** The page *)
Section Page.
Context (hub : string).

Definition doc_enabled (s : doc_state) (e : doc_event) : Prop := offers_any (doc_view hub s) e.

(** The anchors of the sections. *)
Definition section_ids : list string :=
  omap (fun h => match h with El "section" id _ => Some id | _ => None end) doc_sections.

Definition doc_guard (e : doc_event) : Prop :=
  match e with
  | DocTab id => id ∈ doc_tabs.*1
  | DocGo p => rt_path <$> first_match p = Some p
  | DocAnchor id => id ∈ section_ids
  end.

Lemma static_guard e :
  offers_any ([doc_nav; doc_contents; doc_header] ++ doc_sections) e -> doc_guard e.
Proof.
  unfold doc_sections. rewrite offers_any_app, !offers_any_cons, !offers_any_nil.
  intros [[H|[H|[H|[]]]]|[H|[H|[H|[H|[H|[]]]]]]]; [| |exfalso; revert H; by apply inert_offers..].
  - unfold doc_nav in H. offers_cases H; reflexivity.
  - unfold doc_contents in H. offers_cases H; cbn; set_solver.
Qed.

Lemma doc_offers_guard s e : doc_enabled s e -> doc_guard e.
Proof.
  unfold doc_enabled, doc_view. rewrite app_assoc, offers_any_app. intros [H|H].
  - by apply static_guard.
  - rewrite offers_any_cons, offers_any_nil in H. destruct H as [H|[]].
    unfold walkthrough in H. rewrite offers_El, !offers_any_cons in H.
    destruct H as [H|[H|[H|[H|H]]]]; [offers_cases H|offers_cases H| |offers_cases H|offers_cases H].
    rewrite offers_El, offers_any_map in H. destruct H as (tab & Htab & H). unfold doc_tab in H.
    offers_cases H. apply list_elem_of_fmap. eauto.
Qed.

Lemma tab_shown s :
  s ∈ doc_tabs.*1 ->
  (exists label, List.filter (fun tab => String.eqb s tab.1) doc_tabs = [(s, label)]) /\
  is_Some (sample_lines hub s).
Proof.
  intros H. unfold doc_tabs in H. cbn [fmap list_fmap fst] in H.
  elem_inv H; (split; [by eexists|eexists; reflexivity]).
Qed.

(** In every execution exactly one tab of the walkthrough is highlighted
    and the program on the page is the one of that tab; the links of the bar
    lead to registered paths, and every entry of the table of contents
    points to a section that is on the page. *)
Lemma guide_consistent es qs s :
  run doc_enabled doc_handle doc_init es qs s ->
  (exists label ls,
     List.filter (fun tab => String.eqb s tab.1) doc_tabs = [(s, label)] /\
     sample_lines hub s = Some ls /\ Exists (fun h => join nl ls ∈ texts h) (doc_view hub s)) /\
  Forall (fun p => rt_path <$> first_match p = Some p) qs /\
  (forall id, doc_enabled s (DocAnchor id) -> id ∈ section_ids).
Proof.
  intros Hrun.
  assert (Hs : s ∈ doc_tabs.*1 /\ Forall (fun p => rt_path <$> first_match p = Some p) qs).
  { revert Hrun. apply (run_invariant_effects _ _ (fun qs s => s ∈ doc_tabs.*1 /\
      Forall (fun p => rt_path <$> first_match p = Some p) qs)); [split; [cbn; set_solver|done]|].
    intros qs' s' e [Hs Hqs] He%doc_offers_guard. rewrite Forall_app.
    destruct e; cbn [doc_handle fst snd]; rewrite ?Forall_singleton; auto. }
  destruct Hs as [Hs Hqs]. split_and!; [|done|by intros id He%doc_offers_guard].
  destruct (tab_shown s Hs) as [[label Hl] [ls Hls]]. exists label, ls. split_and!; [done|done|].
  unfold doc_view. rewrite !Exists_app. do 2 right. apply Exists_cons_hd. unfold walkthrough.
  rewrite Hls. cbn [when_some]. apply texts_El. do 3 apply Exists_cons_tl.
  apply Exists_cons_hd, texts_El, Exists_cons_hd, texts_El, Exists_cons_hd, texts_El, Exists_cons_hd.
  cbn. set_solver.
Qed.
End Page.

(** ** Concrete executions *)
Lemma lifecycle_order_witness :
  exists ls, launch_lines "https://soc.example" "tok-1" "java" = Some ls /\
    mentions lifecycle_paths ls = lifecycle_paths.
Proof.
  eexists. split; [reflexivity|].
  refine (proj2 (lifecycle_order "https://soc.example" "tok-1" _ _) "java" _ _); reflexivity.
Defined.

Lemma guide_consistent_witness :
  exists ls, sample_lines "https://soc.example" "go" = Some ls /\
    Exists (fun h => join nl ls ∈ texts h) (doc_view "https://soc.example" "go").
Proof.
  assert (H : run (doc_enabled "https://soc.example") doc_handle doc_init
                [DocTab "go"; DocGo "/login"] ["/login"] "go").
  { apply (exec_run (doc_enabled "https://soc.example") doc_handle [DocTab "go"; DocGo "/login"] doc_init).
    split; [|split; [|done]]; unfold doc_enabled, doc_view; rewrite !offers_any_app.
    - right. right. unfold walkthrough, doc_tabs. cbn [fmap list_fmap]. unfold doc_tab. offers_find.
    - left. unfold doc_nav. offers_find. }
  destruct (guide_consistent "https://soc.example" _ _ _ H) as ((label & ls & _ & E & Hx) & _).
  by exists ls.
Defined.
