(* ===== verification/EventMeta.v ===== *)
(** * Presentation tables ([shared/config/eventMeta.ts])

    The lookup maps from event, health, severity and patch status to labels,
    icons and colours.  A colour is written twice, as a hexadecimal text and
    as the translucent background; [hex_rgb] and [rgba_tenth] read the two
    notations, so that the tables can be checked against themselves. *)
From S2P Require Import Prelude JsString Types.

(** ** The tables *)
Record event_meta := EventMetaRow { em_label : string; em_color : string; em_icon : string }.

Definition EVENT_META (t : EventType) : event_meta :=
  match t with
  | ProcessExec => EventMetaRow "Process Exec" "#a78bfa" "⚙"
  | FileModification => EventMetaRow "File Mod" "#fbbf24" "📝"
  | RegistryChange => EventMetaRow "Registry" "#fb923c" "🔧"
  | NetworkConnection => EventMetaRow "Network Conn" "#38bdf8" "🌐"
  end.

Record health_meta := HealthMetaRow { hm_color : string; hm_bg : string; hm_label : string; hm_icon : string }.

Definition HEALTH_META (h : AgentHealth) : health_meta :=
  match h with
  | Healthy => HealthMetaRow "#4ade80" "rgba(74,222,128,0.1)" "Healthy" "✔"
  | Outdated => HealthMetaRow "#fbbf24" "rgba(251,191,36,0.1)" "Outdated" "⬆"
  | Stale => HealthMetaRow "#fb923c" "rgba(249,115,22,0.1)" "Stale" "⏱"
  | Offline => HealthMetaRow "#ef4444" "rgba(239,68,68,0.1)" "Offline" "✖"
  end.

Record feed_meta := FeedMetaRow { fm_color : string; fm_bg : string; fm_dot : string }.

Definition FEED_HEALTH_META (h : FeedHealth) : feed_meta :=
  match h with
  | FeedHealthy => FeedMetaRow "#4ade80" "rgba(74,222,128,0.1)" "#4ade80"
  | FeedDegraded => FeedMetaRow "#fbbf24" "rgba(251,191,36,0.1)" "#fbbf24"
  | FeedDown => FeedMetaRow "#ef4444" "rgba(239,68,68,0.1)" "#ef4444"
  end.

Record sev_meta := SevMetaRow { sv_color : string; sv_bg : string }.

Definition SEV_META (v : VulnSeverity) : sev_meta :=
  match v with
  | VCritical => SevMetaRow "#ef4444" "rgba(239,68,68,0.1)"
  | VHigh => SevMetaRow "#f97316" "rgba(249,115,22,0.1)"
  | VMedium => SevMetaRow "#fbbf24" "rgba(251,191,36,0.1)"
  | VLow => SevMetaRow "#4ade80" "rgba(74,222,128,0.1)"
  end.

Record patch_meta := PatchMetaRow { pm_color : string; pm_label : string }.

Definition PATCH_META (p : PatchStatus) : patch_meta :=
  match p with
  | Unpatched => PatchMetaRow "#ef4444" "Unpatched"
  | InProgress => PatchMetaRow "#fbbf24" "In Progress"
  | Patched => PatchMetaRow "#4ade80" "Patched"
  | AcceptedRisk => PatchMetaRow "#94a3b8" "Risk Accepted"
  end.

Definition SEV_COLOR (r : RuleSeverity) : string :=
  match r with
  | RCritical => "#ef4444"
  | RHigh => "#f97316"
  | RMedium => "#fbbf24"
  | RLow => "#4ade80"
  end.

(** ** Reading colours *)
Definition hex_pair (a b : ascii) : option nat :=
  x ← hex_val (upper_char a); y ← hex_val (upper_char b); Some (16 * x + y).

Definition hex_rgb (s : string) : option (nat * nat * nat) :=
  match s with
  | String "#" (String a (String b (String c (String d (String e (String f EmptyString)))))) =>
      r ← hex_pair a b; g ← hex_pair c d; u ← hex_pair e f; Some (r, g, u)
  | _ => None
  end.

(** The notation of a colour at a tenth of its opacity. *)
Definition rgba_tenth (c : nat * nat * nat) : string :=
  let '(r, g, b) := c in
  "rgba(" +:+ of_nat_str r +:+ "," +:+ of_nat_str g +:+ "," +:+ of_nat_str b +:+ ",0.1)".

Definition matches (color bg : string) : Prop := rgba_tenth <$> hex_rgb color = Some bg.

(** A status is recognisable by its colour alone in every table. *)
Lemma colours_distinct :
  Inj (=) (=) (fun t => em_color (EVENT_META t)) /\ Inj (=) (=) (fun h => hm_color (HEALTH_META h)) /\
  Inj (=) (=) (fun h => fm_color (FEED_HEALTH_META h)) /\ Inj (=) (=) (fun v => sv_color (SEV_META v)) /\
  Inj (=) (=) (fun p => pm_color (PATCH_META p)) /\ Inj (=) (=) SEV_COLOR.
Proof. split_and!; intros x y; destruct x, y; first [reflexivity|discriminate 1]. Qed.

(** Every background is the foreground at a tenth of its opacity, with the
    single exception of stale agents, whose background is that of a high
    severity. *)
Lemma backgrounds_match :
  (forall h, matches (hm_color (HEALTH_META h)) (hm_bg (HEALTH_META h)) <-> h <> Stale) /\
  (forall h, matches (fm_color (FEED_HEALTH_META h)) (fm_bg (FEED_HEALTH_META h))) /\
  (forall v, matches (sv_color (SEV_META v)) (sv_bg (SEV_META v))) /\
  hm_bg (HEALTH_META Stale) = sv_bg (SEV_META VHigh).
Proof.
  split_and!; [intros [] | intros [] | intros [] | ]; try (split; [|by intros ?]); first [reflexivity|done].
Qed.

(** Rules and vulnerabilities of the same severity have the same colour. *)
Definition rule_as_vuln (r : RuleSeverity) : VulnSeverity :=
  match r with RCritical => VCritical | RHigh => VHigh | RMedium => VMedium | RLow => VLow end.

Lemma severity_palette r : SEV_COLOR r = sv_color (SEV_META (rule_as_vuln r)).
Proof. by destruct r. Qed.
